(* ===== verification/_CoqProject ===== *)
-Q . S2P
Prelude.v
Endian.v
DataWriter.v
DataReader.v
TimeBase.v
Alarm.v
EpollServer.v
EventLoop.v
MockAlarm.v
RingBuffer.v
RandGenerator.v
IPAddress.v
Checksum.v
Ether.v
RoutingTable.v
IPLayer.v
SocketAddress.v
Segment.v
ControlBlock.v
SendBuffer.v
SocketSession.v
SendStream.v
UnitTests.v
Dispatchers.v
ProtocolStack.v
StackThreads.v
PosixSocket.v
Posix.v
CText.v
Locks.v
EvalTools.v
EchoPrograms.v
MperfUtil.v
MperfNet.v
MperfTransfer.v
MperfControl.v
GetOpt.v
MperfOptions.v
MperfMain.v
MperfProbe.v
MperfCheck.v
MperfLog.v
MperfUdp.v
MperfUsage.v
MperfUdpThreads.v
