(* ===== verification/Prelude.v ===== *)
(** * A verification of the lab-netstack TCP/IP stack

    The program is a user-space TCP/IP stack in C++ (src/src), the C programs that
    exercise it (src/eval) and the throughput tool that measures it (src/3rd/mperf).
    An event loop ([EpollServer]) waits for Ethernet devices and for alarms. A device
    hands the payload of a frame to the [IPLayer], which would deliver TCP packets to the
    [ProtocolStack]; that one parses the segment and gives it to a session, to a listening
    socket or to the dispatcher of resets. Sessions send through a [SendBuffer] over a
    ring buffer; segments are written with a [DataWriter] and a [Checksum]. The calls of
    the socket API are wrapped at link time and become calls of the [ProtocolStack].
    The repository is the skeleton of a course: several bodies are empty and marked as
    exercises. They are modelled as they are, empty, and no theorem says more of them.

    ** The files, the parts they model

    - [Prelude]: outcomes of C++ code (a return, an abort, undefined behaviour), debug and
      release builds, machine integers, blocks of memory, the tactics and the lemmas on
      lists shared by the rest. [Endian]: byte orders (base/util.h and the C library).
    - [DataWriter], [DataReader] (base/data_writer, data_reader): bounded writing and
      reading of integers in network order.
    - [TimeBase], [Alarm], [EpollServer] (base/time_base, alarm, alarm_factory,
      epoll_alarm, epoll_alarm_factory, epoll_server): times, the state machine of an
      alarm over an interface that its implementation and its factory fill in
      ([AlarmImpl], [AlarmFactory]), and the event loop with its multimap of armed
      alarms, which fills it in. Delegates are functions on the state of the server.
      [EventLoop] is the thread that runs the loop for ever
      ([ProtocolStack::startEventLoop]), [MockAlarm] (util/mock_alarm,
      mock_alarm_factory) the alarms and the clock of the unit tests, which fill in the
      same interface.
    - [RingBuffer], [RandGenerator], [IPAddress], [Checksum] (base/ring_buffer,
      rand_generator, checksum; ip/ip_address, type.h).
    - [Ether] (ether/mac_address, device, device_manager), [RoutingTable]
      (ip/routing_table), [IPLayer] (ip/ip_layer). What libpcap and the kernel answer is
      an argument.
    - [SocketAddress], [Segment], [ControlBlock], [SendBuffer], [SocketSession]
      (tcp/socket_address, segment, segment_factory, control_block, send_buffer,
      socket_session). The layer below is the interface [IPSender]; the one used in
      theorems is util/mock_ip_layer, which queues the parsed segments, next to the
      alarms of [EpollServer], in a debug build ([MockWorld]): in a release build writing a
      segment reads an indeterminate word, so that nothing can be sent in the model. [SendStream] runs a [SendBuffer] through whole connections,
      events of the application, the peer, the clock and the alarm included. [UnitTests]
      are tests of the repository (base/ring_buffer_test.cpp, ip/ip_address_test.cpp,
      ip/routing_table_test.cpp, tcp/socket_session_test.cpp) run on the model.
    - [Dispatchers], [ProtocolStack] (posix/segment_dispatcher, listen_dispatcher,
      reset_dispatcher, socket_struct, protocol_stack): who gets a segment, and the socket
      calls on the tables of the stack. Sockets and sessions are objects of a heap; a
      pointer to one that is gone is undefined behaviour. [ps_step] is one call or one
      received packet; [_socket] destroys a socket it overwrites, and [closeAllFDs] is its
      loop on the table, the order in which it meets the descriptors given by any function.
      [StackThreads] is the same file under threads: a test of a call, a part under the
      mutex, a [_socket] and a packet each begin and end in a step of their own
      ([th_step]), and two that touch the same table in between without a common mutex are
      a data race ([conflicts]); and the waiting loop of [_write], for any [send].
    - [PosixSocket] (posix_socket, the construction and [getInstance] of protocol_stack,
      src/eval/clean_up.c and router.c): the stack of a process. [gi_step] is one access of
      one thread inside [getInstance]; [pr_step] one wrapped call, one received packet or
      one call of the exit, on a process that has or has not yet a stack.
    - [Posix]: the C library and the kernel as C programs see them: a class of worlds, a
      monad of programs that return, exit, fault or are still in a loop, what a byte
      stream promises ([ByteSource], [ByteSink], [Peer]), and a scripted world that keeps
      the promises and runs the examples. [CText] is what the programs use of the text
      functions of the C library ([atoi], [sprintf], [sscanf]), [GetOpt] its [getopt].
    - [EvalTools] (src/eval/unp.c, echo_client.c, echo_server.c, rattle_client.c, setns.c,
      wrap_null.c); [EchoPrograms], the clients among them against the interface
      [EchoPeer], which the code of the server fills in.
    - The throughput tool (src/3rd/mperf/src): [Locks] (include/lock.h, [getBuf] of
      include/log.h), [MperfUtil] and [MperfNet] (util.c, log.c, include/util.h: messages;
      connections, which class [Ledger] accounts for, and the log file), [MperfTransfer]
      (sndrcv.c), [MperfControl] (the protocol of client.c, server.c and worker.c),
      [MperfOptions] (their options), [MperfMain] (their signal handlers, accept loops and
      main functions), [MperfUdp] (udpsender.c, udpreceiver.c) and [MperfUdpThreads] (the
      two threads of udpsender.c and the network, a turn at a time). The Makefile makes
      three builds of client and server: what depends on the build is an argument of
      [doReceive_with], [reconfigure_with], [configure_with], [worker_parse],
      [client_main_with] and [serverMain_with], of which the plain programs are one
      instance, [MperfProbe] (PROBE) and [MperfCheck] (CHECK) the others. [MperfLog] is the
      macro [doLog] of include/log.h on the bytes of its buffers, for one thread ([doLog])
      and for several ([log_act] is the ticket, one [sprintf] or the [write] of a message);
      [MperfUsage] are the usage texts of all programs.

    ** What the theorems show

    - Codecs: integers and byte strings survive a write and a read; a segment survives
      serialisation and parsing with a checksum that verifies; what the parser does with
      any buffer, in both builds (in a release build the parser does not read the window
      and the writer is undefined); a request of the throughput tool survives from the command line of the
      client to the configuration of the worker, through [sprintf], the connection, shared
      memory and [sscanf], with its intervals packed into one number in the build with
      PROBE, and the options of the controller survive [buildArgs] and [getopt]; the
      packets of the UDP test that come back are those that were sent.
    - Data structures against abstract ones: the ring buffer is a bounded FIFO as long as
      no write meets wrapped contents (and loses data when one does); the alarm registry
      is a finite map from alarms to deadlines; the table of sessions is a first-match
      association list; the 32-bit generator is the Park-Miller one; the checksum loop is
      the one's complement sum; the modular comparisons order 2^32 sequence numbers.
    - The event loop: all due alarms fire and the loop ends when delegates do not arm
      alarms in the past (which the delegate of the probe alarm is shown to respect); a
      round never sleeps past a deadline; the thread that runs the loop does not stop as
      long as its clients leave an alarm armed; the mock clock moves by exactly what it
      is told, and every alarm fires on time.
    - TCP: the sending side of a connection refines an abstract byte stream with a window
      and an alarm, through any sequence of writes, acknowledgments of bytes ever sent (late
      ones too, after which the sender stops until the next timeout), timeouts and the end
      of the stream, within the bounds named below; whatever the network delivers of its segments, in any order and any
      number of times, is a part of that stream; what an acknowledgment does; the FIN; the
      active open, the LISTEN handler and [close].
    - The socket layer: an invariant of its tables over any sequence of calls and packets
      of a process, from its first call on; one stack and one event loop however many
      threads make that call; the POSIX errors of each call; when the exit of the process
      ends; what goes wrong after a [close].
    - Concurrency: the spin lock excludes and lets one in; [getInstance] (above); an
      execution of several threads without a data race, in which none closes a descriptor
      another one uses, takes the stack through states of whole calls one after the other
      (a close that breaks this is undefined, and a [_socket] beside a packet or a call is
      a data race); a writer waits until the window opens or the connection fails; the
      threads of the UDP sender end in any order of their turns if the network loses
      nothing (and the receiver waits for ever if it does); lines of the log stay whole while at most 16 messages overlap (and not beyond).
    - Streams of the C programs: [readn], [writen] and the messages of mperf move exactly
      the bytes they are asked to, whatever the pieces; the echo server sends back what it
      gets, and the echo clients show what they sent.
    - The programs of mperf: option parsing gives values of their types; a connection leaves no descriptor open that it does not return; a fix
      test, from the arguments of the worker or of the client to its last byte; the pauses
      and the bytes of a probe; the receiver that checks accepts exactly the streams whose
      whole packets hold the pattern, and with it what its own worker sends, end to end;
      a line of the log is exact up to its 1023 characters; the handler of SIGCHLD; the
      usage texts against the option strings.
    - Deviations: a theorem that shows one says so in its comment (a wrapped write that
      loses data, the FIN that is sent twice, the count of bytes in flight that wraps, the
      reset that echoes the segment, the dangling listener, the garbage that is never
      collected, the size of a distance vector, the clock that mixes milliseconds and
      microseconds, the time to live without its checksum, the reads inside [DCHECK], the
      interrupted [writen], the message longer than its buffer, the verdict nobody reads,
      the UDP sender that does not give up, the resolver lists that are not freed, the
      exit that waits for ever, the acknowledgment after a timeout that stops the sender,
      the two races of [close] with a call of another thread, the [_socket] without the
      mutex, the packet of the checking
      client that nobody fills, the sizes of a probe that wrap, the line of the log that
      is overtaken 16 times or too long for its buffer).

    ** Bounds

    Loops that are not structural take fuel, and running out of it is a result of its own
    ([None] in the stack, [NoFuel] in programs). [transmit_fuel] is two more than the
    ten segments the window holds; the alarm loop is given one round per armed
    alarm and one more, which is proved to be enough; [readn], [writen] and the rio
    functions need one call per byte and per interruption in the worst case, which is what
    their theorems ask for. [getopt] is given one step per character of the command line
    and per argument, which is proved to be enough; [elapse] of the mock clock one round
    per microsecond and two more; main loops that never end are cut off after a number of
    rounds that the theorem quantifies over. Integers are [Z] with the conversions of their width written
    out; signed overflow is undefined behaviour. Theorems on sequences of sends keep the
    queue of the mock layer within its 16 segments: the network takes what is queued after
    every event. A connection of [SendStream] has the ring of 262144 bytes of the source,
    is not written to while the ring is wrapped (where the source loses data, as is shown),
    is acknowledged bytes it has sent only, and carries fewer than 2^32 bytes (where its
    comparisons end). The network of [MperfUdpThreads] loses and reorders datagrams but
    does not duplicate them, its sockets are always writable and their calls succeed;
    [closeAllFDs] is given one round per descriptor, which is proved to be enough.

    ** What is not modelled

    Logging in the stack; libpcap; arithmetic on doubles (elapsed times, rates and the
    time stamp of the log, which is given as text). Threads are interleaved at the
    steps named above: the accesses of [getInstance], the atomic operations of the spin
    lock, the beginning and the end of the test and of the part under the mutex of a call on
    the stack, of [_socket] and of a packet, the turns of the loops of the UDP sender. What
    the code does between a beginning and its end takes effect at the end; in between
    another thread may run, and where both touch the same table without a common mutex the
    step is a data race and no theorem says what follows. A turn of the UDP sender is one
    step. Memory is sequentially consistent, in [getInstance] too, whose first read of a
    plain pointer races with the store to it in C++. In the log, [write] takes a line
    whole, and the mask of signals is the set that was asked for (the kernel leaves SIGKILL
    and SIGSTOP out of it). The bodies the source leaves to its readers ([lookup], the
    dynamic [addEntry], [sendFrame], [routePacket], the handlers of a session but LISTEN,
    [send] and [receive], [_read]) are empty or undefined here as there, and there is
    nothing more of them to model. The code of mperf under FIX and SPECIAL, which its
    Makefile does not build. A [sprintf] of the log is one step among threads: as long as
    the theorem on it holds no other message uses the buffer in the meantime.
    util/assert.h, which no file includes; the tests that stop at their first access
    through a null pointer are cut off there, the others of the exercises, the scripts and
    the build files are left out. *)

From stdpp Require Import base list numbers.

Open Scope Z_scope.

(** ** Outcomes of C++ code

    [Ret] is a normal return, [Fatal] an abort ([LOG(FATAL)] or a failed
    [DCHECK]), [Undef] undefined behaviour: an access outside an object, a read
    of an indeterminate value, an overflow of a signed integer, a dangling
    pointer. *)
Inductive outcome (A : Type) : Type :=
  | Ret (a : A)
  | Fatal
  | Undef.
Arguments Ret {A} a.
Arguments Fatal {A}.
Arguments Undef {A}.

Definition obind {A B} (m : outcome A) (f : A -> outcome B) : outcome B :=
  match m with Ret a => f a | Fatal => Fatal | Undef => Undef end.
Definition omap_ret {A B} (f : A -> B) (m : outcome A) : outcome B :=
  obind m (fun a => Ret (f a)).

Declare Scope outcome_scope.
Delimit Scope outcome_scope with outcome.
Notation "x <- m ;; k" := (obind m (fun x => k))
  (at level 100, m at next level, right associativity) : outcome_scope.
Notation "'let*' pat := m 'in' k" := (obind m (fun x => match x with pat => k end))
  (at level 10, pat strict pattern, m at level 100, k at level 200) : outcome_scope.
Notation "m ;;; k" := (obind m (fun _ => k))
  (at level 100, right associativity) : outcome_scope.
Open Scope outcome_scope.

(** The build configuration: glog compiles [DCHECK(e)] to a check of [e] in a
    debug build and to nothing at all, [e] not evaluated, under [NDEBUG]. *)
Inductive build : Type := Debug | Release.

Definition DCHECK (bld : build) (c : bool) : outcome unit :=
  match bld with
  | Debug => if c then Ret tt else Fatal
  | Release => Ret tt
  end.

Lemma bind_Ret {A B} (m : outcome A) (f : A -> outcome B) (b : B) :
  obind m f = Ret b <-> exists a, m = Ret a /\ f a = Ret b.
Proof. destruct m; cbn; naive_solver. Qed.

Lemma DCHECK_true bld : DCHECK bld true = Ret tt.
Proof. by destruct bld. Qed.

Lemma DCHECK_ok bld c : c = true -> DCHECK bld c = Ret tt.
Proof. intros ->. apply DCHECK_true. Qed.

(** ** Machine integers

    A w-bit unsigned value is a [Z] in [0, 2^w); the four conversions are the
    C++ integral conversions to the unsigned types of those widths. *)
Definition u8 (z : Z) : Z := z mod 256.
Definition u16 (z : Z) : Z := z mod 65536.
Definition u32 (z : Z) : Z := z mod 4294967296.
Definition u64 (z : Z) : Z := z mod 18446744073709551616.

Definition in_u8 (z : Z) : Prop := 0 <= z < 256.
Definition in_u16 (z : Z) : Prop := 0 <= z < 65536.
Definition in_u32 (z : Z) : Prop := 0 <= z < 4294967296.
Definition in_u64 (z : Z) : Prop := 0 <= z < 18446744073709551616.

(** A signed 64-bit result: overflow is undefined behaviour. *)
Definition in_s64 (z : Z) : Prop :=
  -9223372036854775808 <= z < 9223372036854775808.
Definition s64 (z : Z) : outcome Z :=
  if (-9223372036854775808 <=? z) && (z <? 9223372036854775808)
  then Ret z else Undef.

(** Conversion to a signed 32-bit int (implementation-defined: modulo 2^32). *)
Definition s32 (z : Z) : Z := (z + 2147483648) mod 4294967296 - 2147483648.

Lemma u8_small z : in_u8 z -> u8 z = z.
Proof. apply Z.mod_small. Qed.
Lemma u16_small z : in_u16 z -> u16 z = z.
Proof. apply Z.mod_small. Qed.
Lemma u32_small z : in_u32 z -> u32 z = z.
Proof. apply Z.mod_small. Qed.
Lemma u64_small z : in_u64 z -> u64 z = z.
Proof. apply Z.mod_small. Qed.
Lemma u8_range z : in_u8 (u8 z).
Proof. by apply Z.mod_pos_bound. Qed.
Lemma u16_range z : in_u16 (u16 z).
Proof. by apply Z.mod_pos_bound. Qed.
Lemma u32_range z : in_u32 (u32 z).
Proof. by apply Z.mod_pos_bound. Qed.
Lemma u64_range z : in_u64 (u64 z).
Proof. by apply Z.mod_pos_bound. Qed.

Lemma s64_ok z : in_s64 z -> s64 z = Ret z.
Proof.
  unfold in_s64, s64. intros [??].
  by rewrite (proj2 (Z.leb_le _ _)), (proj2 (Z.ltb_lt _ _)).
Qed.

Lemma u32_u32_add a b : u32 (u32 a + b) = u32 (a + b).
Proof. unfold u32. apply Zplus_mod_idemp_l. Qed.
Lemma u32_u32_sub a b : u32 (u32 a - b) = u32 (a - b).
Proof. unfold u32. apply Zminus_mod_idemp_l. Qed.
Lemma u32_sub_u32 a b : u32 (a - u32 b) = u32 (a - b).
Proof. unfold u32. apply Zminus_mod_idemp_r. Qed.

Create HintDb word.
#[export] Hint Resolve u8_range u16_range u32_range u64_range : word.

(** [word] closes a range goal after unfolding the range predicates;
    [unwrap] removes the conversions whose argument is provably in range. *)
Ltac ranges :=
  unfold in_u8, in_u16, in_u32, in_u64, in_s64 in *.
Ltac word := ranges; lia.
Ltac unwrap :=
  repeat match goal with
  | |- context [u64 ?z] => rewrite (u64_small z) by word
  | |- context [u32 ?z] => rewrite (u32_small z) by word
  | |- context [u16 ?z] => rewrite (u16_small z) by word
  | |- context [u8 ?z] => rewrite (u8_small z) by word
  end.

(** Case analysis on the integer tests of the goal. *)
Ltac ztest :=
  repeat match goal with
  | |- context [Z.ltb ?a ?b] => destruct (Z.ltb_spec a b)
  | |- context [Z.leb ?a ?b] => destruct (Z.leb_spec a b)
  | |- context [Z.eqb ?a ?b] => destruct (Z.eqb_spec a b)
  end.

(** [zcase] also goes through hypotheses and drops the impossible cases. *)
Ltac zcase :=
  repeat (match goal with
  | |- context [Z.ltb ?a ?b] => destruct (Z.ltb_spec a b)
  | |- context [Z.leb ?a ?b] => destruct (Z.leb_spec a b)
  | |- context [Z.eqb ?a ?b] => destruct (Z.eqb_spec a b)
  | H : context [Z.ltb ?a ?b] |- _ => destruct (Z.ltb_spec a b)
  | H : context [Z.leb ?a ?b] |- _ => destruct (Z.leb_spec a b)
  | H : context [Z.eqb ?a ?b] |- _ => destruct (Z.eqb_spec a b)
  end; try (exfalso; word)).

(** ** Byte lists indexed by [Z] *)
Definition byte_list (l : list Z) : Prop := Forall in_u8 l.

Definition zlen {A} (l : list A) : Z := Z.of_nat (length l).
Definition ztake {A} (n : Z) (l : list A) : list A := take (Z.to_nat n) l.
Definition zdrop {A} (n : Z) (l : list A) : list A := drop (Z.to_nat n) l.
Definition zget {A} (l : list A) (i : Z) : option A :=
  if i <? 0 then None else l !! Z.to_nat i.

Section zlists.
Context {A : Type}.
Implicit Types l k : list A.
Implicit Types i n m : Z.

Lemma zlen_nonneg l : 0 <= zlen l.
Proof. unfold zlen; lia. Qed.
Lemma zlen_nil : zlen (@nil A) = 0.
Proof. done. Qed.
Lemma zlen_cons (x : A) l : zlen (x :: l) = 1 + zlen l.
Proof. unfold zlen; cbn [length]; lia. Qed.
Lemma zlen_app l k : zlen (l ++ k) = zlen l + zlen k.
Proof. unfold zlen; rewrite length_app; lia. Qed.
Lemma zlen_take n l : zlen (ztake n l) = Z.max 0 (Z.min n (zlen l)).
Proof. unfold zlen, ztake; rewrite length_take; lia. Qed.
Lemma zlen_drop n l : zlen (zdrop n l) = Z.max 0 (zlen l - Z.max 0 n).
Proof. unfold zlen, zdrop; rewrite length_drop; lia. Qed.
Lemma zlen_replicate n (x : A) : zlen (replicate (Z.to_nat n) x) = Z.max 0 n.
Proof. unfold zlen. rewrite length_replicate. lia. Qed.
Lemma zlen_zero l : zlen l = 0 -> l = [].
Proof. unfold zlen; destruct l; cbn [length]; [done|lia]. Qed.

Lemma zget_app l k i :
  zget (l ++ k) i = if i <? zlen l then zget l i else zget k (i - zlen l).
Proof.
  unfold zget, zlen. ztest; try lia; try done.
  - by rewrite lookup_app_l by lia.
  - rewrite lookup_app_r by lia. f_equal; lia.
Qed.
Lemma zget_take n l i : zget (ztake n l) i = if i <? n then zget l i else None.
Proof.
  unfold zget, ztake. ztest; try lia; try done.
  - by rewrite lookup_take_lt by lia.
  - by rewrite lookup_take_ge by lia.
Qed.
Lemma zget_drop n l i :
  zget (zdrop n l) i = if i <? 0 then None else zget l (Z.max 0 n + i).
Proof.
  unfold zget, zdrop. ztest; try lia; try done.
  rewrite lookup_drop. f_equal; lia.
Qed.
Lemma zget_cons (x : A) l i :
  zget (x :: l) i = if i =? 0 then Some x else zget l (i - 1).
Proof.
  unfold zget. ztest; try lia; try done; [by subst|].
  by replace (Z.to_nat i) with (S (Z.to_nat (i - 1))) by lia.
Qed.
Lemma zget_nil i : zget (@nil A) i = None.
Proof. unfold zget. by destruct (i <? 0). Qed.
Lemma zget_oob l i : i < 0 \/ zlen l <= i -> zget l i = None.
Proof.
  unfold zget, zlen. intros. ztest; [done|].
  apply lookup_ge_None. lia.
Qed.
Lemma zget_Some_range l i x : zget l i = Some x -> 0 <= i < zlen l.
Proof.
  unfold zget, zlen. ztest; [done|]. intros ?%lookup_lt_Some. lia.
Qed.
Lemma zget_is_Some l i : 0 <= i < zlen l -> exists x, zget l i = Some x.
Proof.
  unfold zget, zlen. intros. ztest; [lia|].
  apply lookup_lt_is_Some. lia.
Qed.
Lemma zget_ext l k : (forall i, 0 <= i -> zget l i = zget k i) -> l = k.
Proof.
  intros H. apply list_eq. intros i. specialize (H (Z.of_nat i) ltac:(lia)).
  unfold zget in H. destruct (Z.ltb_spec (Z.of_nat i) 0); [lia|].
  by rewrite Nat2Z.id in H.
Qed.
Lemma ztake_all n l : zlen l <= n -> ztake n l = l.
Proof. unfold ztake, zlen. intros. apply take_ge. lia. Qed.
Lemma ztake_0 n l : n <= 0 -> ztake n l = [].
Proof. unfold ztake. intros. by replace (Z.to_nat n) with 0%nat by lia. Qed.
Lemma zdrop_0 n l : n <= 0 -> zdrop n l = l.
Proof. unfold zdrop. intros. by replace (Z.to_nat n) with 0%nat by lia. Qed.
Lemma zdrop_all n l : zlen l <= n -> zdrop n l = [].
Proof. unfold zdrop, zlen. intros. apply drop_ge. lia. Qed.
Lemma ztake_app n l k : ztake n (l ++ k) = ztake n l ++ ztake (n - zlen l) k.
Proof. unfold ztake, zlen. rewrite take_app. do 2 f_equal. lia. Qed.
Lemma zdrop_app n l k : zdrop n (l ++ k) = zdrop n l ++ zdrop (n - zlen l) k.
Proof. unfold zdrop, zlen. rewrite drop_app. do 2 f_equal. lia. Qed.
Lemma zdrop_app_length n l k : zlen l = n -> zdrop n (l ++ k) = k.
Proof. unfold zlen, zdrop. intros <-. rewrite drop_app_length'; [done|lia]. Qed.
Lemma ztake_app_length n l k : zlen l = n -> ztake n (l ++ k) = l.
Proof. unfold zlen, ztake. intros <-. rewrite take_app_length'; [done|lia]. Qed.
Lemma zdrop_zdrop n m l : 0 <= n -> 0 <= m -> zdrop n (zdrop m l) = zdrop (m + n) l.
Proof. unfold zdrop. intros. rewrite drop_drop. f_equal. lia. Qed.
Lemma ztake_ztake n m l : ztake n (ztake m l) = ztake (Z.min n m) l.
Proof. unfold ztake. rewrite take_take. f_equal. lia. Qed.
Lemma zdrop_ztake n m l : 0 <= n -> zdrop n (ztake m l) = ztake (m - n) (zdrop n l).
Proof.
  unfold ztake, zdrop. intros. rewrite skipn_firstn_comm. do 2 f_equal; lia.
Qed.
Lemma zdrop_min n l : zdrop (Z.min n (zlen l)) l = zdrop n l.
Proof.
  unfold zdrop, zlen. destruct (Z.min_spec n (Z.of_nat (length l))) as [[? ->]|[? ->]];
    [done|]. rewrite !drop_ge by lia. done.
Qed.
Lemma ztake_min n l : ztake (Z.min n (zlen l)) l = ztake n l.
Proof.
  unfold ztake, zlen. destruct (Z.min_spec n (Z.of_nat (length l))) as [[? ->]|[? ->]];
    [done|]. rewrite !take_ge by lia. done.
Qed.
Lemma ztake_zdrop n l : ztake n l ++ zdrop n l = l.
Proof. apply take_drop. Qed.
End zlists.

(** The same case analysis, dropping each impossible case at once. *)
Ltac zprune :=
  repeat (match goal with
  | |- context [Z.ltb ?a ?b] => destruct (Z.ltb_spec a b)
  | |- context [Z.eqb ?a ?b] => destruct (Z.eqb_spec a b)
  | |- context [Z.leb ?a ?b] => destruct (Z.leb_spec a b)
  end; try (exfalso; lia)).

(** [zlist] proves equalities of lists built from [++], [ztake] and [zdrop] by
    comparing them at every index. *)
Create Rewrite HintDb zlen.
#[export] Hint Rewrite @zlen_nil @zlen_cons @zlen_app @zlen_take @zlen_drop : zlen.
Ltac zlen_simpl := autorewrite with zlen in *.
Create Rewrite HintDb zget.
#[export] Hint Rewrite @zget_app @zget_take @zget_drop @zget_nil : zget.
Ltac zlen_facts :=
  repeat match goal with
  | |- context [zlen ?l] =>
      lazymatch goal with
      | _ : 0 <= zlen l |- _ => fail
      | _ => pose proof (zlen_nonneg l)
      end
  | _ : context [zlen ?l] |- _ =>
      lazymatch goal with
      | _ : 0 <= zlen l |- _ => fail
      | _ => pose proof (zlen_nonneg l)
      end
  end.
Ltac zlist_done :=
  first
    [ done | lia | (f_equal; lia)
    | (rewrite zget_oob by (zlen_simpl; lia); done)
    | (symmetry; rewrite zget_oob by (zlen_simpl; lia); done)
    | (rewrite !zget_oob by (zlen_simpl; lia); done)
    | (exfalso; zlen_simpl; lia) ].
Ltac zlist :=
  zlen_facts;
  apply zget_ext; intros ? ?; autorewrite with zget;
  autorewrite with zlen in *; zprune; zlist_done.

Lemma byte_list_app l k : byte_list (l ++ k) <-> byte_list l /\ byte_list k.
Proof. apply Forall_app. Qed.
Lemma byte_list_cons x l : byte_list (x :: l) <-> in_u8 x /\ byte_list l.
Proof. apply Forall_cons_iff. Qed.
Lemma byte_list_take n l : byte_list l -> byte_list (ztake n l).
Proof. apply Forall_take. Qed.
Lemma byte_list_drop n l : byte_list l -> byte_list (zdrop n l).
Proof. apply Forall_drop. Qed.
Lemma byte_list_app_2 l k : byte_list l -> byte_list k -> byte_list (l ++ k).
Proof. intros. by apply Forall_app. Qed.
#[export] Hint Resolve byte_list_take byte_list_drop byte_list_app_2 : word.

(** Closed goals of witnesses: ranges, byte lists and equations. *)
Ltac concrete :=
  solve [ done | lia | ranges; lia
        | unfold byte_list; repeat constructor; ranges; lia
        | vm_compute; intuition congruence
        | vm_compute; repeat split; congruence ].

(** ** Memory blocks

    A block is the list of its bytes; [mem_read] and [mem_write] are [memcpy]
    out of and into it, undefined when the range leaves the block. *)
Definition mem_read (m : list Z) (off len : Z) : outcome (list Z) :=
  if (0 <=? off) && (0 <=? len) && (off + len <=? zlen m)
  then Ret (ztake len (zdrop off m)) else Undef.

Definition mem_write (m : list Z) (off : Z) (d : list Z) : outcome (list Z) :=
  if (0 <=? off) && (off + zlen d <=? zlen m)
  then Ret (ztake off m ++ d ++ zdrop (off + zlen d) m) else Undef.

Lemma mem_read_ok m off len :
  0 <= off -> 0 <= len -> off + len <= zlen m ->
  mem_read m off len = Ret (ztake len (zdrop off m)).
Proof. intros. unfold mem_read. ztest; try lia. done. Qed.

Lemma mem_write_ok m off d :
  0 <= off -> off + zlen d <= zlen m ->
  mem_write m off d = Ret (ztake off m ++ d ++ zdrop (off + zlen d) m).
Proof. intros. unfold mem_write. ztest; try lia. done. Qed.

Lemma mem_write_Ret m off d m' :
  mem_write m off d = Ret m' ->
  0 <= off /\ off + zlen d <= zlen m /\
  m' = ztake off m ++ d ++ zdrop (off + zlen d) m.
Proof. unfold mem_write. ztest; cbn; naive_solver. Qed.

Lemma mem_write_zlen m off d m' : mem_write m off d = Ret m' -> zlen m' = zlen m.
Proof.
  intros (? & ? & ->)%mem_write_Ret. zlen_facts. autorewrite with zlen. lia.
Qed.

Lemma mem_read_Ret m off len d :
  mem_read m off len = Ret d ->
  0 <= off /\ 0 <= len /\ off + len <= zlen m /\ d = ztake len (zdrop off m).
Proof. unfold mem_read. ztest; cbn; naive_solver. Qed.

Lemma mem_read_zlen m off len d : mem_read m off len = Ret d -> zlen d = len.
Proof. intros (? & ? & ? & ->)%mem_read_Ret. zlen_facts. zlen_simpl. lia. Qed.

Lemma mem_write_bytes m off d m' :
  byte_list m -> byte_list d -> mem_write m off d = Ret m' -> byte_list m'.
Proof.
  intros Hm Hd (? & ? & ->)%mem_write_Ret.
  rewrite !byte_list_app. auto with word.
Qed.

Lemma mem_read_write_same m off d m' :
  mem_write m off d = Ret m' -> mem_read m' off (zlen d) = Ret d.
Proof.
  intros H. pose proof (mem_write_zlen _ _ _ _ H).
  apply mem_write_Ret in H as (? & ? & ->). zlen_facts.
  rewrite mem_read_ok by lia. f_equal. zlist.
Qed.

Lemma mem_read_write_before m off d m' o n :
  mem_write m off d = Ret m' -> o + n <= off -> mem_read m' o n = mem_read m o n.
Proof.
  intros H Hle. pose proof (mem_write_zlen _ _ _ _ H) as Hz.
  apply mem_write_Ret in H as (? & ? & ->). zlen_facts.
  unfold mem_read. rewrite Hz. ztest; cbn; try done. f_equal. zlist.
Qed.

Lemma mem_read_write_after m off d m' o n :
  mem_write m off d = Ret m' -> off + zlen d <= o -> mem_read m' o n = mem_read m o n.
Proof.
  intros H Hle. pose proof (mem_write_zlen _ _ _ _ H) as Hz.
  apply mem_write_Ret in H as (? & ? & ->). zlen_facts.
  unfold mem_read. rewrite Hz. ztest; cbn; try done. f_equal. zlist.
Qed.
