(* ===== verification/Endian.v ===== *)
(** Byte order: the in-memory representation of integers on the little-endian
    host, the libc conversions to and from network order, and the 64-bit
    conversions that src/src/base/util.h defines as macros. *)

From stdpp Require Import base list numbers.
From S2P Require Import Prelude.

Open Scope Z_scope.
Open Scope outcome_scope.

(** The [n] bytes of [v] in memory, least significant first, and back. *)
Fixpoint le_bytes (n : nat) (v : Z) : list Z :=
  match n with
  | O => []
  | S n => v mod 256 :: le_bytes n (v / 256)
  end.
Fixpoint le_val (l : list Z) : Z :=
  match l with
  | [] => 0
  | b :: l => b + 256 * le_val l
  end.

(** Network order: most significant byte first. *)
Definition be_bytes (n : nat) (v : Z) : list Z := reverse (le_bytes n v).
Definition be_val (l : list Z) : Z := le_val (reverse l).

(** [htons]/[ntohs] and [htonl]/[ntohl]: the value whose bytes in memory are
    the network-order bytes of the argument. *)
Definition htons (v : Z) : Z := le_val (be_bytes 2 v).
Definition ntohs (v : Z) : Z := le_val (be_bytes 2 v).
Definition htonl (v : Z) : Z := le_val (be_bytes 4 v).
Definition ntohl (v : Z) : Z := le_val (be_bytes 4 v).

(** The macros of util.h for the little-endian case. *)
Definition htonll (x : Z) : Z :=
  Z.lor (u64 (Z.shiftl (htonl (Z.land x 0xFFFFFFFF)) 32)) (htonl (u32 (Z.shiftr x 32))).
Definition ntohll (x : Z) : Z :=
  Z.lor (u64 (Z.shiftl (ntohl (Z.land x 0xFFFFFFFF)) 32)) (ntohl (u32 (Z.shiftr x 32))).

Lemma length_le_bytes n v : length (le_bytes n v) = n.
Proof. revert v; induction n; intros; cbn; auto. Qed.
Lemma length_be_bytes n v : length (be_bytes n v) = n.
Proof. unfold be_bytes. by rewrite length_reverse, length_le_bytes. Qed.
Lemma zlen_be_bytes n v : zlen (be_bytes n v) = Z.of_nat n.
Proof. unfold zlen. by rewrite length_be_bytes. Qed.
Lemma zlen_le_bytes n v : zlen (le_bytes n v) = Z.of_nat n.
Proof. unfold zlen. by rewrite length_le_bytes. Qed.
#[export] Hint Rewrite zlen_be_bytes zlen_le_bytes : zlen.

Lemma le_bytes_byte n v : byte_list (le_bytes n v).
Proof.
  revert v; induction n; intros; constructor; [|apply IHn].
  by apply Z.mod_pos_bound.
Qed.
Lemma be_bytes_byte n v : byte_list (be_bytes n v).
Proof. apply Forall_reverse, le_bytes_byte. Qed.
#[export] Hint Resolve le_bytes_byte be_bytes_byte : word.

Lemma le_val_le_bytes n v :
  0 <= v < 256 ^ Z.of_nat n -> le_val (le_bytes n v) = v.
Proof.
  revert v; induction n; intros v Hv.
  - cbn in *. lia.
  - rewrite Nat2Z.inj_succ, Z.pow_succ_r in Hv by lia. cbn [le_val le_bytes].
    rewrite IHn.
    + rewrite Z.add_comm. symmetry. apply Z.div_mod. done.
    + split; [apply Z.div_pos; lia | apply Z.div_lt_upper_bound; lia].
Qed.

Lemma le_bytes_le_val l :
  byte_list l -> le_bytes (length l) (le_val l) = l.
Proof.
  unfold byte_list. induction 1 as [|b l Hb Hl IH]; [done|].
  cbn [le_val le_bytes length]. ranges. f_equal.
  - rewrite Z.mul_comm, Z.mod_add by done. by apply Z.mod_small.
  - rewrite Z.mul_comm, Z.div_add, Z.div_small by lia. exact IH.
Qed.

Lemma le_val_range l : byte_list l -> 0 <= le_val l < 256 ^ zlen l.
Proof.
  unfold byte_list. induction 1 as [|b l Hb Hl IH]; [done|].
  rewrite zlen_cons. rewrite Z.add_1_l, Z.pow_succ_r by apply zlen_nonneg.
  cbn [le_val]. ranges. lia.
Qed.

Lemma le_val_app l k : le_val (l ++ k) = le_val l + 256 ^ zlen l * le_val k.
Proof.
  induction l as [|b l IH]; cbn [le_val app].
  - change (256 ^ zlen (@nil Z)) with 1. lia.
  - rewrite zlen_cons, Z.add_1_l, Z.pow_succ_r, IH by apply zlen_nonneg. ring.
Qed.

Lemma le_bytes_app n m v :
  le_bytes (n + m) v = le_bytes n v ++ le_bytes m (v / 256 ^ Z.of_nat n).
Proof.
  revert v; induction n; intros v.
  - cbn [Nat.add le_bytes app]. by rewrite Z.pow_0_r, Z.div_1_r.
  - cbn [Nat.add le_bytes app]. rewrite IHn. do 3 f_equal.
    rewrite Nat2Z.inj_succ, Z.pow_succ_r by lia.
    rewrite Z.div_div; [done| done | apply Z.pow_pos_nonneg; lia].
Qed.

(** Only the low [n] bytes of a value reach [le_bytes n]. *)
Lemma le_bytes_low n a b : le_bytes n (a * 256 ^ Z.of_nat n + b) = le_bytes n b.
Proof.
  revert a b; induction n; intros a b; [done|].
  cbn [le_bytes]. rewrite Nat2Z.inj_succ, Z.pow_succ_r by lia.
  replace (a * (256 * 256 ^ Z.of_nat n) + b)
    with (b + a * 256 ^ Z.of_nat n * 256) by ring.
  rewrite Z.mod_add, Z.div_add by done.
  f_equal. rewrite Z.add_comm. apply IHn.
Qed.
Lemma le_bytes_mod n x : le_bytes n (x mod 256 ^ Z.of_nat n) = le_bytes n x.
Proof.
  assert (0 < 256 ^ Z.of_nat n) by (apply Z.pow_pos_nonneg; lia).
  rewrite (Z.div_mod x (256 ^ Z.of_nat n)) at 2 by lia.
  by rewrite (Z.mul_comm (256 ^ _)), le_bytes_low.
Qed.

Lemma be_val_be_bytes n v :
  0 <= v < 256 ^ Z.of_nat n -> be_val (be_bytes n v) = v.
Proof.
  unfold be_val, be_bytes. rewrite reverse_involutive. apply le_val_le_bytes.
Qed.
Lemma be_bytes_be_val l : byte_list l -> be_bytes (length l) (be_val l) = l.
Proof.
  intros H. unfold be_val, be_bytes. rewrite <- (length_reverse l).
  rewrite le_bytes_le_val by by apply Forall_reverse.
  apply reverse_involutive.
Qed.
Lemma be_val_range l : byte_list l -> 0 <= be_val l < 256 ^ zlen l.
Proof.
  intros H. unfold be_val.
  replace (zlen l) with (zlen (reverse l)) by (unfold zlen; by rewrite length_reverse).
  apply le_val_range. by apply Forall_reverse.
Qed.
Lemma be_bytes_app n m v :
  be_bytes (m + n) v = be_bytes n (v / 256 ^ Z.of_nat m) ++ be_bytes m v.
Proof. unfold be_bytes. by rewrite le_bytes_app, reverse_app. Qed.

(** What the conversions store in memory. *)
Lemma swap_bytes n v :
  le_bytes n (le_val (be_bytes n v)) = be_bytes n v.
Proof.
  rewrite <- (length_be_bytes n v) at 1.
  apply le_bytes_le_val, be_bytes_byte.
Qed.
Lemma htons_bytes v : le_bytes 2 (htons v) = be_bytes 2 v.
Proof. apply swap_bytes. Qed.
Lemma htonl_bytes v : le_bytes 4 (htonl v) = be_bytes 4 v.
Proof. apply swap_bytes. Qed.

Lemma swap_val l : byte_list l -> le_val (be_bytes (length l) (le_val l)) = be_val l.
Proof.
  intros H. unfold be_bytes, be_val. by rewrite le_bytes_le_val.
Qed.
Lemma ntohs_val l : byte_list l -> length l = 2%nat -> ntohs (le_val l) = be_val l.
Proof. intros H E. unfold ntohs. rewrite <- E. by apply swap_val. Qed.
Lemma ntohl_val l : byte_list l -> length l = 4%nat -> ntohl (le_val l) = be_val l.
Proof. intros H E. unfold ntohl. rewrite <- E. by apply swap_val. Qed.

Lemma lor_shiftl_add a b n :
  0 <= n -> 0 <= b < 2 ^ n -> Z.lor (Z.shiftl a n) b = a * 2 ^ n + b.
Proof.
  intros Hn Hb. rewrite <- Z.shiftl_mul_pow2 by lia.
  symmetry. rewrite <- Z.lxor_lor, Z.add_nocarry_lxor; try done.
  all: apply Z.bits_inj'; intros i Hi; rewrite Z.land_spec, Z.bits_0.
  all: rewrite Z.shiftl_spec by lia.
  all: destruct (Z.lt_ge_cases i n).
  all: try (rewrite (Z.testbit_neg_r a (i - n)) by lia; done).
  all: rewrite andb_false_iff; right; destruct (Z.eq_dec b 0) as [->|];
    [apply Z.bits_0|].
  all: apply Z.bits_above_log2; [lia|];
    apply Z.lt_le_trans with n; [apply Z.log2_lt_pow2; lia | lia].
Qed.

Lemma land_ones_mod x : Z.land x 0xFFFFFFFF = x mod 4294967296.
Proof. change 0xFFFFFFFF with (Z.ones 32). by rewrite Z.land_ones. Qed.

Lemma le_val_be_bytes_range n v : 0 <= le_val (be_bytes n v) < 256 ^ Z.of_nat n.
Proof. rewrite <- (zlen_be_bytes n v). apply le_val_range, be_bytes_byte. Qed.

Lemma htonll_arith x : in_u64 x ->
  htonll x = htonl (x mod 4294967296) * 2 ^ 32 + htonl (x / 4294967296).
Proof.
  intros Hx. unfold htonll. rewrite land_ones_mod.
  pose proof (le_val_be_bytes_range 4 (x mod 4294967296)).
  pose proof (le_val_be_bytes_range 4 (x / 4294967296)).
  fold (htonl (x mod 4294967296)) in *. fold (htonl (x / 4294967296)) in *.
  rewrite Z.shiftr_div_pow2 by lia. change (2 ^ 32) with 4294967296.
  rewrite (u32_small (x / _)).
  2:{ ranges. split; [apply Z.div_pos|apply Z.div_lt_upper_bound]; lia. }
  change (256 ^ Z.of_nat 4) with 4294967296 in *.
  rewrite u64_small.
  2:{ rewrite Z.shiftl_mul_pow2 by lia. word. }
  by rewrite lor_shiftl_add.
Qed.

(** The 64-bit macro stores the eight network-order bytes of its argument. *)
Lemma htonll_bytes x : in_u64 x -> le_bytes 8 (htonll x) = be_bytes 8 x.
Proof.
  intros Hx. rewrite htonll_arith by done.
  set (hi := x / 4294967296). set (lo := x mod 4294967296).
  pose proof (le_val_be_bytes_range 4 hi) as Hh. fold (htonl hi) in Hh.
  change (256 ^ Z.of_nat 4) with 4294967296 in *.
  rewrite (le_bytes_app 4 4), (be_bytes_app 4 4).
  change (256 ^ Z.of_nat 4) with 4294967296. change (2 ^ 32) with 4294967296.
  rewrite Z.div_add_l, (Z.div_small (htonl hi)), Z.add_0_r by lia.
  rewrite htonl_bytes. fold hi. f_equal.
  - rewrite <- htonl_bytes. apply (le_bytes_low 4%nat).
  - unfold be_bytes. by rewrite <- (le_bytes_mod 4%nat x).
Qed.

Lemma ntohll_val l : byte_list l -> length l = 8%nat -> ntohll (le_val l) = be_val l.
Proof.
  intros Hl Hlen.
  assert (in_u64 (le_val l)).
  { pose proof (le_val_range l Hl). unfold zlen in *. rewrite Hlen in *. word. }
  pose proof (htonll_bytes (le_val l) ltac:(done)) as E.
  apply (f_equal le_val) in E. rewrite le_val_le_bytes in E.
  - change (ntohll (le_val l)) with (htonll (le_val l)). rewrite E.
    rewrite <- Hlen. by apply swap_val.
  - rewrite htonll_arith by done.
    pose proof (le_val_be_bytes_range 4 (le_val l mod 4294967296)).
    pose proof (le_val_be_bytes_range 4 (le_val l / 4294967296)).
    unfold htonl. change (256 ^ Z.of_nat 4) with 4294967296 in *.
    change (256 ^ Z.of_nat 8) with 18446744073709551616.
    change (2 ^ 32) with 4294967296. lia.
Qed.

#[global] Arguments le_bytes : simpl never.
#[global] Arguments be_bytes : simpl never.
#[global] Arguments be_val : simpl never.
