(* ===== verification/DataWriter.v ===== *)
(** src/src/base/data_writer.{h,cpp}: sequential, bounds-checked writes of
    network-order integers and raw bytes into a caller's buffer. *)

From stdpp Require Import base list numbers.
From S2P Require Import Prelude Endian.

Open Scope Z_scope.
Open Scope outcome_scope.

(** [dw_buffer_] is the block [buffer_] points to: it may be larger or smaller
    than the [capacity_] the constructor was told. *)
Record DataWriter : Type := mkDataWriter {
  dw_buffer_ : list Z;
  dw_capacity_ : Z;
  dw_length_ : Z
}.

Definition DataWriter_new (buffer : list Z) (length : Z) : DataWriter :=
  mkDataWriter buffer length 0.

Definition DataWriter_writeBytes (w : DataWriter) (data : list Z)
  : outcome (bool * DataWriter) :=
  let length := zlen data in
  if dw_capacity_ w <? u64 (dw_length_ w + length) then Ret (false, w)
  else
    m <- mem_write (dw_buffer_ w) (dw_length_ w) data ;;
    Ret (true, mkDataWriter m (dw_capacity_ w) (u64 (dw_length_ w + length))).

(** [writeBytes(data, length)] with the block [data] points to: the bytes are
    read only once the bounds test has passed. *)
Definition DataWriter_writeFrom (w : DataWriter) (data : list Z) (length : Z)
  : outcome (bool * DataWriter) :=
  if dw_capacity_ w <? u64 (dw_length_ w + length) then Ret (false, w)
  else d <- mem_read data 0 length ;; DataWriter_writeBytes w d.

Definition DataWriter_writeUInt8 (w : DataWriter) (value : Z) :=
  DataWriter_writeBytes w (le_bytes 1 value).
Definition DataWriter_writeUInt16 (w : DataWriter) (value : Z) :=
  DataWriter_writeBytes w (le_bytes 2 (htons value)).
Definition DataWriter_writeUInt32 (w : DataWriter) (value : Z) :=
  DataWriter_writeBytes w (le_bytes 4 (htonl value)).
Definition DataWriter_writeUInt64 (w : DataWriter) (value : Z) :=
  DataWriter_writeBytes w (le_bytes 8 (htonll value)).

(** The loop stores at [buffer_[i]], from the start of the buffer. *)
Definition DataWriter_writeRandomBytes (w : DataWriter) (length : Z)
  : outcome (bool * DataWriter) :=
  if dw_capacity_ w <? u64 (dw_length_ w + length) then Ret (false, w)
  else
    m <- mem_write (dw_buffer_ w) 0 (replicate (Z.to_nat length) 0x23) ;;
    Ret (true, mkDataWriter m (dw_capacity_ w) (u64 (dw_length_ w + length))).

(** [begin()], [end()] delimit what has been written; [bytesWritten()]. *)
Definition DataWriter_bytesWritten (w : DataWriter) : Z := dw_length_ w.
Definition DataWriter_written (w : DataWriter) : list Z :=
  ztake (dw_length_ w) (dw_buffer_ w).

(** ** Invariant and behaviour of the writes *)
Record DataWriter_wf (w : DataWriter) : Prop := {
  dw_wf_len : 0 <= dw_length_ w <= dw_capacity_ w;
  dw_wf_cap : dw_capacity_ w <= zlen (dw_buffer_ w);
  dw_wf_u64 : in_u64 (dw_capacity_ w);
  dw_wf_bytes : byte_list (dw_buffer_ w)
}.

(** [dw_append w d w']: [w'] is [w] with [d] appended to what it holds. *)
Definition dw_append (w : DataWriter) (d : list Z) (w' : DataWriter) : Prop :=
  DataWriter_wf w' /\ dw_capacity_ w' = dw_capacity_ w /\
  dw_length_ w' = dw_length_ w + zlen d /\
  DataWriter_written w' = DataWriter_written w ++ d /\
  zlen (dw_buffer_ w') = zlen (dw_buffer_ w).

Lemma DataWriter_new_wf buffer length :
  byte_list buffer -> 0 <= length <= zlen buffer -> in_u64 length ->
  DataWriter_wf (DataWriter_new buffer length).
Proof. intros. split; cbn; try done; lia. Qed.

Lemma writeBytes_ok w d :
  DataWriter_wf w -> byte_list d -> dw_length_ w + zlen d <= dw_capacity_ w ->
  exists w', DataWriter_writeBytes w d = Ret (true, w') /\ dw_append w d w'.
Proof.
  intros [? ? ? Hb] Hd Hfit. unfold DataWriter_writeBytes.
  pose proof (zlen_nonneg d). rewrite u64_small by word.
  destruct (Z.ltb_spec (dw_capacity_ w) (dw_length_ w + zlen d)); [lia|].
  rewrite mem_write_ok by lia. cbn. eexists; split; [done|].
  split_and!; cbn; try done.
  - split; cbn; try done; try lia.
    + autorewrite with zlen. lia.
    + rewrite !byte_list_app. auto with word.
  - unfold DataWriter_written; cbn. zlist.
  - autorewrite with zlen. lia.
Qed.

(** One more write after a run of writes. *)
Lemma dw_append_step w0 ds w d :
  dw_append w0 ds w -> byte_list d -> dw_length_ w0 + zlen ds + zlen d <= dw_capacity_ w0 ->
  exists w', DataWriter_writeBytes w d = Ret (true, w') /\ dw_append w0 (ds ++ d) w'.
Proof.
  intros (Hw & Hc & Hl & Hr & Hz) Hd Hfit.
  destruct (writeBytes_ok w d Hw Hd ltac:(lia)) as (w' & E & (Hw' & Hc' & Hl' & Hr' & Hz')).
  exists w'. split; [done|]. split_and!; try done; try lia.
  - rewrite zlen_app. lia.
  - by rewrite Hr', Hr, app_assoc.
Qed.
Lemma dw_append_nil w : DataWriter_wf w -> dw_append w [] w.
Proof.
  intros. unfold dw_append. rewrite app_nil_r. change (zlen (@nil Z)) with 0.
  split_and!; try done. lia.
Qed.

Lemma writeBytes_full w d :
  dw_capacity_ w < dw_length_ w + zlen d -> in_u64 (dw_length_ w + zlen d) ->
  DataWriter_writeBytes w d = Ret (false, w).
Proof.
  intros ? ?. unfold DataWriter_writeBytes. rewrite u64_small by done.
  by destruct (Z.ltb_spec (dw_capacity_ w) (dw_length_ w + zlen d)); [|lia].
Qed.

Lemma writeFrom_bytes w data length :
  DataWriter_wf w -> 0 <= length <= zlen data -> dw_length_ w + length <= dw_capacity_ w ->
  DataWriter_writeFrom w data length = DataWriter_writeBytes w (ztake length data).
Proof.
  intros [? ? ? ?] ? ?. unfold DataWriter_writeFrom. rewrite u64_small by word.
  destruct (Z.ltb_spec (dw_capacity_ w) (dw_length_ w + length)); [lia|].
  rewrite mem_read_ok by lia. by rewrite zdrop_0 by lia.
Qed.

Lemma le_bytes_1 v : in_u8 v -> le_bytes 1 v = [v].
Proof. intros. cbv [le_bytes]. by rewrite Z.mod_small. Qed.
Lemma be_bytes_1 v : in_u8 v -> be_bytes 1 v = [v].
Proof. intros. unfold be_bytes. by rewrite le_bytes_1. Qed.

Lemma writeUInt8_bytes w v : in_u8 v ->
  DataWriter_writeUInt8 w v = DataWriter_writeBytes w (be_bytes 1 v).
Proof. intros. unfold DataWriter_writeUInt8. by rewrite le_bytes_1, be_bytes_1. Qed.
Lemma writeUInt16_bytes w v :
  DataWriter_writeUInt16 w v = DataWriter_writeBytes w (be_bytes 2 v).
Proof. unfold DataWriter_writeUInt16. by rewrite htons_bytes. Qed.
Lemma writeUInt32_bytes w v :
  DataWriter_writeUInt32 w v = DataWriter_writeBytes w (be_bytes 4 v).
Proof. unfold DataWriter_writeUInt32. by rewrite htonl_bytes. Qed.
Lemma writeUInt64_bytes w v : in_u64 v ->
  DataWriter_writeUInt64 w v = DataWriter_writeBytes w (be_bytes 8 v).
Proof. intros. unfold DataWriter_writeUInt64. by rewrite htonll_bytes. Qed.

(** A run of writes against one writer, as the serialisers do; the result of
    each call is discarded as in [Segment::writeSegmentTo]. *)
Fixpoint dw_writes (w : DataWriter) (ds : list (list Z)) : outcome DataWriter :=
  match ds with
  | [] => Ret w
  | d :: ds => p <- DataWriter_writeBytes w d ;; dw_writes p.2 ds
  end.

Lemma dw_writes_ok ds w :
  DataWriter_wf w -> Forall byte_list ds ->
  dw_length_ w + zlen (concat ds) <= dw_capacity_ w ->
  exists w', dw_writes w ds = Ret w' /\ dw_append w (concat ds) w'.
Proof.
  intros Hw Hds. revert w Hw. induction Hds as [|d ds Hd Hds IH]; intros w Hw Hfit.
  - exists w. split; [done|]. unfold dw_append. cbn [concat].
    rewrite app_nil_r. split_and!; try done. change (zlen (@nil Z)) with 0. lia.
  - cbn [concat] in Hfit. rewrite zlen_app in Hfit.
    pose proof (zlen_nonneg (concat ds)).
    destruct (writeBytes_ok w d Hw Hd ltac:(lia)) as (w1 & E1 & H1).
    destruct H1 as (Hw1 & Hc1 & Hl1 & Hr1 & Hz1).
    destruct (IH w1 Hw1 ltac:(lia)) as (w2 & E2 & (Hw2 & Hc2 & Hl2 & Hr2 & Hz2)).
    exists w2. cbn [dw_writes]. rewrite E1. cbn. rewrite E2. split; [done|].
    split_and!; try done; try lia.
    + rewrite zlen_app. lia.
    + by rewrite Hr2, Hr1, app_assoc.
Qed.

(** After [writeRandomBytes] the head of what had been written is padding: the
    bytes already in the buffer are overwritten and the bytes of the padding
    itself are left as they were. *)
Lemma writeRandomBytes_head w n :
  DataWriter_wf w -> 0 <= n -> dw_length_ w + n <= dw_capacity_ w ->
  exists w', DataWriter_writeRandomBytes w n = Ret (true, w') /\
    DataWriter_written w' =
      replicate (Z.to_nat n) 0x23 ++ ztake (dw_length_ w) (zdrop n (dw_buffer_ w)).
Proof.
  intros [? ? ? ?] Hn Hfit. unfold DataWriter_writeRandomBytes.
  rewrite u64_small by word.
  destruct (Z.ltb_spec (dw_capacity_ w) (dw_length_ w + n)); [lia|].
  set (r := replicate _ _).
  assert (zlen r = n) as Hr by (unfold zlen, r; rewrite length_replicate; lia).
  rewrite mem_write_ok by lia. cbn [obind]. eexists; split; [done|].
  unfold DataWriter_written; cbn [dw_buffer_ dw_length_].
  rewrite Hr, (ztake_0 0) by lia. cbn [app].
  apply zget_ext; intros i Hi. autorewrite with zget. rewrite Hr.
  ztest; try lia; try done; f_equal; lia.
Qed.
