(* ===== verification/DataReader.v ===== *)
(** src/src/base/data_reader.{h,cpp}: sequential, bounds-checked reads, and the
    round trip between the writer and the reader. *)

From stdpp Require Import base list numbers.
From S2P Require Import Prelude Endian DataWriter.

Open Scope Z_scope.
Open Scope outcome_scope.

Record DataReader : Type := mkDataReader {
  dr_buffer_ : list Z;
  dr_capacity_ : Z;
  dr_pos_ : Z
}.

Definition DataReader_new (buf : list Z) (capacity : Z) : DataReader :=
  mkDataReader buf capacity 0.

(** A read reports failure with [None] and then leaves its result object and
    the reader as they were. *)
Definition DataReader_readBytes (r : DataReader) (length : Z)
  : outcome (option (list Z) * DataReader) :=
  if dr_capacity_ r <? u64 (dr_pos_ r + length) then Ret (None, r)
  else
    d <- mem_read (dr_buffer_ r) (dr_pos_ r) length ;;
    Ret (Some d, mkDataReader (dr_buffer_ r) (dr_capacity_ r) (u64 (dr_pos_ r + length))).

Definition DataReader_readUInt8 (r : DataReader) : outcome (option Z * DataReader) :=
  p <- DataReader_readBytes r 1 ;; Ret (le_val <$> p.1, p.2).
Definition DataReader_readUInt16 (r : DataReader) : outcome (option Z * DataReader) :=
  p <- DataReader_readBytes r 2 ;; Ret ((fun d => ntohs (le_val d)) <$> p.1, p.2).
Definition DataReader_readUInt32 (r : DataReader) : outcome (option Z * DataReader) :=
  p <- DataReader_readBytes r 4 ;; Ret ((fun d => ntohl (le_val d)) <$> p.1, p.2).
Definition DataReader_readUInt64 (r : DataReader) : outcome (option Z * DataReader) :=
  p <- DataReader_readBytes r 8 ;; Ret ((fun d => ntohll (le_val d)) <$> p.1, p.2).

Definition DataReader_skip (r : DataReader) (length : Z) : bool * DataReader :=
  if dr_capacity_ r <? u64 (dr_pos_ r + length) then (false, r)
  else (true, mkDataReader (dr_buffer_ r) (dr_capacity_ r) (u64 (dr_pos_ r + length))).

Definition DataReader_reset (r : DataReader) : DataReader :=
  mkDataReader (dr_buffer_ r) (dr_capacity_ r) 0.

(** [buffer()] and [length()]: what is still to be read. *)
Definition DataReader_buffer (r : DataReader) : list Z := zdrop (dr_pos_ r) (dr_buffer_ r).
Definition DataReader_length (r : DataReader) : Z := u64 (dr_capacity_ r - dr_pos_ r).

(** ** Invariant *)
Record DataReader_wf (r : DataReader) : Prop := {
  dr_wf_pos : 0 <= dr_pos_ r <= dr_capacity_ r;
  dr_wf_cap : dr_capacity_ r <= zlen (dr_buffer_ r);
  dr_wf_u64 : in_u64 (dr_capacity_ r);
  dr_wf_bytes : byte_list (dr_buffer_ r)
}.

(** What is left to read. *)
Definition dr_rest (r : DataReader) : list Z :=
  ztake (dr_capacity_ r - dr_pos_ r) (zdrop (dr_pos_ r) (dr_buffer_ r)).

Lemma DataReader_new_wf buf :
  byte_list buf -> in_u64 (zlen buf) -> DataReader_wf (DataReader_new buf (zlen buf)).
Proof. intros. pose proof (zlen_nonneg buf). split; cbn; try done; lia. Qed.
Lemma dr_rest_new buf : dr_rest (DataReader_new buf (zlen buf)) = buf.
Proof. unfold dr_rest; cbn. rewrite zdrop_0, ztake_all by lia. done. Qed.

Lemma zlen_dr_rest r : DataReader_wf r -> zlen (dr_rest r) = dr_capacity_ r - dr_pos_ r.
Proof. intros [? ? ? ?]. unfold dr_rest. autorewrite with zlen. lia. Qed.

(** [dr_advance r d r']: [r'] is [r] after the bytes [d] were consumed. *)
Definition dr_advance (r : DataReader) (d : list Z) (r' : DataReader) : Prop :=
  DataReader_wf r' /\ dr_buffer_ r' = dr_buffer_ r /\
  dr_capacity_ r' = dr_capacity_ r /\ dr_pos_ r' = dr_pos_ r + zlen d /\
  dr_rest r = d ++ dr_rest r'.

Lemma readBytes_ok r n :
  DataReader_wf r -> 0 <= n <= zlen (dr_rest r) ->
  exists r', DataReader_readBytes r n = Ret (Some (ztake n (dr_rest r)), r') /\
    dr_advance r (ztake n (dr_rest r)) r'.
Proof.
  intros Hr Hn. pose proof Hr as [? ? ? ?]. rewrite zlen_dr_rest in Hn by done.
  unfold DataReader_readBytes. rewrite u64_small by word.
  destruct (Z.ltb_spec (dr_capacity_ r) (dr_pos_ r + n)); [lia|].
  rewrite mem_read_ok by lia. cbn [obind].
  assert (ztake n (zdrop (dr_pos_ r) (dr_buffer_ r)) = ztake n (dr_rest r)) as Ed.
  { unfold dr_rest. zlist. }
  assert (zlen (ztake n (dr_rest r)) = n) as Hd.
  { rewrite zlen_take, zlen_dr_rest by done. lia. }
  rewrite Ed. eexists; split; [done|].
  split_and!; cbn; try done; try lia.
  - split; cbn; try done; lia.
  - rewrite <- (ztake_zdrop n (dr_rest r)) at 1. f_equal.
    unfold dr_rest; cbn. zlist.
Qed.

Lemma readBytes_short r n :
  DataReader_wf r -> zlen (dr_rest r) < n -> in_u64 (dr_pos_ r + n) ->
  DataReader_readBytes r n = Ret (None, r).
Proof.
  intros Hr Hn ?. rewrite zlen_dr_rest in Hn by done.
  unfold DataReader_readBytes. rewrite u64_small by done.
  by destruct (Z.ltb_spec (dr_capacity_ r) (dr_pos_ r + n)); [|lia].
Qed.

Lemma skip_ok r n :
  DataReader_wf r -> 0 <= n <= zlen (dr_rest r) ->
  exists r', DataReader_skip r n = (true, r') /\ dr_advance r (ztake n (dr_rest r)) r'.
Proof.
  intros Hr Hn. destruct (readBytes_ok r n Hr Hn) as (r' & E & Ha).
  exists r'. split; [|done]. unfold DataReader_readBytes in E. unfold DataReader_skip.
  destruct (_ <? _); [done|].
  apply bind_Ret in E as (d & _ & [= _ <-]). done.
Qed.

(** Reading the front of the rest when it is known. *)
Lemma readBytes_app r d k :
  DataReader_wf r -> dr_rest r = d ++ k ->
  exists r', DataReader_readBytes r (zlen d) = Ret (Some d, r') /\ dr_advance r d r'
    /\ dr_rest r' = k.
Proof.
  intros Hr E. pose proof (zlen_nonneg d). pose proof (zlen_nonneg k).
  destruct (readBytes_ok r (zlen d) Hr) as (r' & E' & Ha).
  { rewrite E, zlen_app. lia. }
  assert (ztake (zlen d) (dr_rest r) = d) as Ed by (rewrite E; zlist).
  rewrite Ed in *. exists r'. split_and!; try done.
  destruct Ha as (_ & _ & _ & _ & Ha). rewrite Ha in E. by apply app_inv_head in E.
Qed.

Lemma readUInt8_app r v k :
  DataReader_wf r -> in_u8 v -> dr_rest r = be_bytes 1 v ++ k ->
  exists r', DataReader_readUInt8 r = Ret (Some v, r') /\
    dr_advance r (be_bytes 1 v) r' /\ dr_rest r' = k.
Proof.
  intros Hr Hv E. destruct (readBytes_app r _ _ Hr E) as (r' & E' & Ha & Hk).
  exists r'. split_and!; try done. unfold DataReader_readUInt8.
  rewrite zlen_be_bytes in E'. change (Z.of_nat 1) with 1 in E'. rewrite E'.
  cbn [obind fst snd]. rewrite be_bytes_1 by done. cbn. do 3 f_equal. lia.
Qed.
Lemma readUInt16_app r v k :
  DataReader_wf r -> in_u16 v -> dr_rest r = be_bytes 2 v ++ k ->
  exists r', DataReader_readUInt16 r = Ret (Some v, r') /\
    dr_advance r (be_bytes 2 v) r' /\ dr_rest r' = k.
Proof.
  intros Hr Hv E. destruct (readBytes_app r _ _ Hr E) as (r' & E' & Ha & Hk).
  exists r'. split_and!; try done. unfold DataReader_readUInt16.
  rewrite zlen_be_bytes in E'. change (Z.of_nat 2) with 2 in E'. rewrite E'.
  cbn [obind fst snd fmap option_fmap option_map]. rewrite ntohs_val by (auto using length_be_bytes with word).
  by rewrite be_val_be_bytes.
Qed.
Lemma readUInt32_app r v k :
  DataReader_wf r -> in_u32 v -> dr_rest r = be_bytes 4 v ++ k ->
  exists r', DataReader_readUInt32 r = Ret (Some v, r') /\
    dr_advance r (be_bytes 4 v) r' /\ dr_rest r' = k.
Proof.
  intros Hr Hv E. destruct (readBytes_app r _ _ Hr E) as (r' & E' & Ha & Hk).
  exists r'. split_and!; try done. unfold DataReader_readUInt32.
  rewrite zlen_be_bytes in E'. change (Z.of_nat 4) with 4 in E'. rewrite E'.
  cbn [obind fst snd fmap option_fmap option_map]. rewrite ntohl_val by (auto using length_be_bytes with word).
  by rewrite be_val_be_bytes.
Qed.
Lemma readUInt64_app r v k :
  DataReader_wf r -> in_u64 v -> dr_rest r = be_bytes 8 v ++ k ->
  exists r', DataReader_readUInt64 r = Ret (Some v, r') /\
    dr_advance r (be_bytes 8 v) r' /\ dr_rest r' = k.
Proof.
  intros Hr Hv E. destruct (readBytes_app r _ _ Hr E) as (r' & E' & Ha & Hk).
  exists r'. split_and!; try done. unfold DataReader_readUInt64.
  rewrite zlen_be_bytes in E'. change (Z.of_nat 8) with 8 in E'. rewrite E'.
  cbn [obind fst snd fmap option_fmap option_map]. rewrite ntohll_val by (auto using length_be_bytes with word).
  by rewrite be_val_be_bytes.
Qed.

(** Reading a field from arbitrary contents: its value is the big-endian value of
    the next bytes, and a field that does not fit is not read. *)
Lemma rest_split r n :
  DataReader_wf r -> (Z.of_nat n <= zlen (dr_rest r)) ->
  dr_rest r = be_bytes n (be_val (ztake (Z.of_nat n) (dr_rest r)))
              ++ zdrop (Z.of_nat n) (dr_rest r)
  /\ 0 <= be_val (ztake (Z.of_nat n) (dr_rest r)) < 256 ^ Z.of_nat n.
Proof.
  intros Hr Hn. set (d := ztake _ _).
  assert (byte_list d) as Hd by (apply byte_list_take, byte_list_take, byte_list_drop, Hr).
  assert (length d = n) as Hl by (apply Nat2Z.inj; fold (zlen d); unfold d; rewrite zlen_take; lia).
  split.
  - rewrite <- Hl at 1. rewrite be_bytes_be_val by done. unfold d. by rewrite ztake_zdrop.
  - replace (Z.of_nat n) with (zlen d) by (by rewrite <- Hl). by apply be_val_range.
Qed.

Lemma readUInt8_any r :
  DataReader_wf r -> 1 <= zlen (dr_rest r) ->
  exists r', DataReader_readUInt8 r = Ret (Some (be_val (ztake 1 (dr_rest r))), r') /\
    DataReader_wf r' /\ dr_rest r' = zdrop 1 (dr_rest r).
Proof.
  intros Hr Hn. destruct (rest_split r 1 Hr Hn) as [E Hv].
  destruct (readUInt8_app r _ _ Hr Hv E) as (r' & ? & (? & _) & ?). by exists r'.
Qed.
Lemma readUInt16_any r :
  DataReader_wf r -> 2 <= zlen (dr_rest r) ->
  exists r', DataReader_readUInt16 r = Ret (Some (be_val (ztake 2 (dr_rest r))), r') /\
    DataReader_wf r' /\ dr_rest r' = zdrop 2 (dr_rest r).
Proof.
  intros Hr Hn. destruct (rest_split r 2 Hr Hn) as [E Hv].
  destruct (readUInt16_app r _ _ Hr Hv E) as (r' & ? & (? & _) & ?). by exists r'.
Qed.
Lemma readUInt32_any r :
  DataReader_wf r -> 4 <= zlen (dr_rest r) ->
  exists r', DataReader_readUInt32 r = Ret (Some (be_val (ztake 4 (dr_rest r))), r') /\
    DataReader_wf r' /\ dr_rest r' = zdrop 4 (dr_rest r).
Proof.
  intros Hr Hn. destruct (rest_split r 4 Hr Hn) as [E Hv].
  destruct (readUInt32_app r _ _ Hr Hv E) as (r' & ? & (? & _) & ?). by exists r'.
Qed.

Lemma readBytes_none r n :
  DataReader_wf r -> zlen (dr_rest r) < n -> dr_capacity_ r + n < 18446744073709551616 ->
  DataReader_readBytes r n = Ret (None, r).
Proof.
  intros Hr Hn Hc. pose proof Hr as [? ? ? ?]. pose proof (zlen_nonneg (dr_rest r)).
  apply readBytes_short; [done|done|word].
Qed.

Lemma readBytes_case r n :
  DataReader_wf r -> 0 <= n -> dr_capacity_ r + n < 18446744073709551616 ->
  n <= zlen (dr_rest r) /\ (exists d r', DataReader_readBytes r n = Ret (Some d, r') /\
    DataReader_wf r' /\ zlen (dr_rest r') = zlen (dr_rest r) - n /\
    dr_capacity_ r' = dr_capacity_ r)
  \/ zlen (dr_rest r) < n /\ DataReader_readBytes r n = Ret (None, r).
Proof.
  intros Hr Hn Hc. destruct (Z.le_gt_cases n (zlen (dr_rest r))); [left|right].
  - split; [done|]. destruct (readBytes_ok r n Hr ltac:(lia)) as (r' & E & (? & ? & ? & ? & H')).
    eexists _, r'. split_and!; try done. rewrite H', zlen_app, zlen_take. lia.
  - split; [done|]. by apply readBytes_none.
Qed.

(** The bounds test [pos_ + length > capacity_] is computed in [size_t]:
    for a length close enough to 2^64 the sum wraps, [skip] reports success and
    moves the reader back to the start of its buffer. *)
Theorem skip_wraparound (r : DataReader) :
  DataReader_wf r -> 0 < dr_pos_ r ->
  DataReader_skip r (18446744073709551616 - dr_pos_ r) = (true, DataReader_reset r).
Proof.
  intros [? ? ? ?] Hp. unfold DataReader_skip, DataReader_reset.
  replace (u64 (dr_pos_ r + (18446744073709551616 - dr_pos_ r))) with 0.
  - destruct (Z.ltb_spec (dr_capacity_ r) 0); [lia|done].
  - by rewrite Z.add_sub_assoc, Z.add_comm, Z.add_simpl_r.
Qed.

Lemma skip_wraparound_witness :
  DataReader_skip (mkDataReader [1; 2; 3; 4] 4 3) 18446744073709551613
  = (true, DataReader_reset (mkDataReader [1; 2; 3; 4] 4 3)).
Proof.
  apply (skip_wraparound (mkDataReader [1; 2; 3; 4] 4 3)); [|done].
  split; cbn; ranges; try (vm_compute; split; congruence); try (vm_compute; congruence).
  repeat constructor; ranges; lia.
Defined.

(** ** Round trip: any record of fields written is read back *)
Inductive field : Type :=
  | F8 (v : Z) | F16 (v : Z) | F32 (v : Z) | F64 (v : Z) | FBytes (d : list Z).

Definition field_wf (f : field) : Prop :=
  match f with
  | F8 v => in_u8 v | F16 v => in_u16 v | F32 v => in_u32 v | F64 v => in_u64 v
  | FBytes d => byte_list d
  end.

Definition write_field (w : DataWriter) (f : field) : outcome (bool * DataWriter) :=
  match f with
  | F8 v => DataWriter_writeUInt8 w v
  | F16 v => DataWriter_writeUInt16 w v
  | F32 v => DataWriter_writeUInt32 w v
  | F64 v => DataWriter_writeUInt64 w v
  | FBytes d => DataWriter_writeBytes w d
  end.

(** Read one field of the same kind. *)
Definition read_field (r : DataReader) (f : field) : outcome (option field * DataReader) :=
  match f with
  | F8 _ => p <- DataReader_readUInt8 r ;; Ret (F8 <$> p.1, p.2)
  | F16 _ => p <- DataReader_readUInt16 r ;; Ret (F16 <$> p.1, p.2)
  | F32 _ => p <- DataReader_readUInt32 r ;; Ret (F32 <$> p.1, p.2)
  | F64 _ => p <- DataReader_readUInt64 r ;; Ret (F64 <$> p.1, p.2)
  | FBytes d => p <- DataReader_readBytes r (zlen d) ;; Ret (FBytes <$> p.1, p.2)
  end.

Fixpoint write_fields (w : DataWriter) (fs : list field) : outcome (bool * DataWriter) :=
  match fs with
  | [] => Ret (true, w)
  | f :: fs => p <- write_field w f ;; if p.1 then write_fields p.2 fs else Ret (false, p.2)
  end.
Fixpoint read_fields (r : DataReader) (fs : list field)
  : outcome (option (list field) * DataReader) :=
  match fs with
  | [] => Ret (Some [], r)
  | f :: fs =>
      p <- read_field r f ;;
      match p.1 with
      | None => Ret (None, p.2)
      | Some v => q <- read_fields p.2 fs ;; Ret (cons v <$> q.1, q.2)
      end
  end.

Definition field_bytes (f : field) : list Z :=
  match f with
  | F8 v => be_bytes 1 v | F16 v => be_bytes 2 v | F32 v => be_bytes 4 v
  | F64 v => be_bytes 8 v | FBytes d => d
  end.
Definition fields_bytes (fs : list field) : list Z := concat (field_bytes <$> fs).

Lemma field_bytes_byte f : field_wf f -> byte_list (field_bytes f).
Proof. destruct f; cbn; auto with word. Qed.

Lemma write_field_bytes w f :
  field_wf f -> write_field w f = DataWriter_writeBytes w (field_bytes f).
Proof.
  destruct f; cbn; intros.
  - unfold DataWriter_writeUInt8. by rewrite le_bytes_1, be_bytes_1.
  - apply writeUInt16_bytes.
  - apply writeUInt32_bytes.
  - by apply writeUInt64_bytes.
  - done.
Qed.

Lemma write_fields_ok fs w :
  Forall field_wf fs -> DataWriter_wf w ->
  dw_length_ w + zlen (fields_bytes fs) <= dw_capacity_ w ->
  exists w', write_fields w fs = Ret (true, w') /\ dw_append w (fields_bytes fs) w'.
Proof.
  intros Hfs. revert w. induction Hfs as [|f fs Hf Hfs IH]; intros w Hw Hfit.
  - exists w. split; [done|]. unfold dw_append, fields_bytes. cbn.
    rewrite app_nil_r. split_and!; try done. change (zlen (@nil Z)) with 0. lia.
  - unfold fields_bytes in *. cbn [fmap list_fmap concat] in Hfit.
    rewrite zlen_app in Hfit.
    pose proof (zlen_nonneg (concat (field_bytes <$> fs))).
    destruct (writeBytes_ok w (field_bytes f) Hw (field_bytes_byte _ Hf) ltac:(lia))
      as (w1 & E1 & (Hw1 & Hc1 & Hl1 & Hr1 & Hz1)).
    destruct (IH w1 Hw1 ltac:(lia)) as (w2 & E2 & (Hw2 & Hc2 & Hl2 & Hr2 & Hz2)).
    exists w2. cbn [write_fields]. rewrite write_field_bytes, E1 by done. cbn.
    split; [done|]. split_and!; try done; try lia.
    + change (concat (field_bytes <$> f :: fs))
        with (field_bytes f ++ concat (field_bytes <$> fs)). rewrite zlen_app. lia.
    + rewrite Hr2, Hr1, <- app_assoc. done.
Qed.

Lemma read_field_ok r f k :
  DataReader_wf r -> field_wf f -> dr_rest r = field_bytes f ++ k ->
  exists r', read_field r f = Ret (Some f, r') /\
    dr_advance r (field_bytes f) r' /\ dr_rest r' = k.
Proof.
  intros Hr Hf E. destruct f; cbn in *.
  - destruct (readUInt8_app r v k) as (r' & -> & ?); try done. by exists r'.
  - destruct (readUInt16_app r v k) as (r' & -> & ?); try done. by exists r'.
  - destruct (readUInt32_app r v k) as (r' & -> & ?); try done. by exists r'.
  - destruct (readUInt64_app r v k) as (r' & -> & ?); try done. by exists r'.
  - destruct (readBytes_app r d k) as (r' & -> & ?); try done. by exists r'.
Qed.

Lemma read_fields_ok fs r k :
  DataReader_wf r -> Forall field_wf fs -> dr_rest r = fields_bytes fs ++ k ->
  exists r', read_fields r fs = Ret (Some fs, r') /\ DataReader_wf r' /\
    dr_pos_ r' = dr_pos_ r + zlen (fields_bytes fs) /\ dr_rest r' = k.
Proof.
  intros Hr Hfs. revert r Hr. induction Hfs as [|f fs Hf Hfs IH]; intros r Hr E.
  - exists r. split_and!; try done. change (zlen (fields_bytes [])) with 0. lia.
  - unfold fields_bytes in *. cbn [fmap list_fmap concat] in *.
    rewrite <- app_assoc in E.
    destruct (read_field_ok r f _ Hr Hf E) as (r1 & E1 & Ha & Hk).
    destruct Ha as (Hr1 & _ & _ & Hp & _).
    destruct (IH r1 Hr1 Hk) as (r2 & E2 & Hr2 & Hp2 & Hk2).
    exists r2. cbn [read_fields]. rewrite E1. cbn. rewrite E2. cbn.
    split_and!; try done. rewrite zlen_app. lia.
Qed.

(** C9. Round trip of the wire codec: whatever sequence of 8-, 16-, 32- and
    64-bit integers and byte strings is written into a large enough buffer,
    reading the written bytes with the same sequence of reads gives back every
    value and consumes exactly what was written. *)
Theorem write_read_roundtrip (fs : list field) (buf : list Z) :
  Forall field_wf fs -> byte_list buf -> in_u64 (zlen buf) ->
  zlen (fields_bytes fs) <= zlen buf ->
  exists w r,
    write_fields (DataWriter_new buf (zlen buf)) fs = Ret (true, w) /\
    DataWriter_bytesWritten w = zlen (fields_bytes fs) /\
    read_fields (DataReader_new (DataWriter_written w) (DataWriter_bytesWritten w)) fs
      = Ret (Some fs, r) /\
    DataReader_length r = 0.
Proof.
  intros Hfs Hbuf H64 Hfit. pose proof (zlen_nonneg (fields_bytes fs)).
  assert (DataWriter_wf (DataWriter_new buf (zlen buf))) as Hw
    by (apply DataWriter_new_wf; [done|lia|done]).
  destruct (write_fields_ok fs _ Hfs Hw Hfit) as (w & Ew & (Hw' & Hc & Hl & Hwr & _)).
  cbn in Hl. rewrite Z.add_0_l in Hl.
  assert (DataWriter_written w = fields_bytes fs) as Ewr.
  { rewrite Hwr. unfold DataWriter_written; cbn. by rewrite ztake_0. }
  assert (byte_list (fields_bytes fs)) as Hby.
  { rewrite <- Ewr. apply byte_list_take. apply Hw'. }
  destruct (read_fields_ok fs (DataReader_new (fields_bytes fs) (zlen (fields_bytes fs))) [])
    as (r & Er & Hr & Hp & Hk); try done.
  { apply DataReader_new_wf; [done|word]. }
  { by rewrite dr_rest_new, app_nil_r. }
  exists w, r. unfold DataWriter_bytesWritten. rewrite Ewr, Hl. split_and!; try done.
  pose proof (zlen_dr_rest r Hr) as Hz. rewrite Hk in Hz. change (zlen (@nil Z)) with 0 in Hz.
  unfold DataReader_length. by rewrite <- Hz.
Qed.

Lemma write_read_roundtrip_witness :
  exists w r,
    write_fields (DataWriter_new (replicate 32 0) (zlen (replicate 32 0)))
      [F8 69; F16 1500; F32 4000000000; F64 1311768467463790320; FBytes [1; 2; 3]]
      = Ret (true, w) /\
    DataWriter_bytesWritten w = 18 /\
    read_fields (DataReader_new (DataWriter_written w) (DataWriter_bytesWritten w))
      [F8 69; F16 1500; F32 4000000000; F64 1311768467463790320; FBytes [1; 2; 3]]
      = Ret (Some [F8 69; F16 1500; F32 4000000000; F64 1311768467463790320;
                   FBytes [1; 2; 3]], r) /\
    DataReader_length r = 0.
Proof.
  apply (write_read_roundtrip
    [F8 69; F16 1500; F32 4000000000; F64 1311768467463790320; FBytes [1; 2; 3]]
    (replicate 32 0)).
  - repeat constructor; cbn; ranges; lia.
  - apply Forall_replicate. unfold in_u8. lia.
  - vm_compute. split; congruence.
  - vm_compute. congruence.
Defined.
