(* ===== verification/TimeBase.v ===== *)
(** src/src/base/time_base.{h,cpp}: points in time and signed differences, both
    64-bit signed counts of microseconds. Arithmetic that overflows is
    undefined behaviour. *)

From stdpp Require Import base list numbers strings pretty.
From S2P Require Import Prelude.

Open Scope Z_scope.
Open Scope outcome_scope.

Record Delta : Type := mkDelta { time_offset_ : Z }.
Record TimeBase : Type := mkTimeBase { time_ : Z }.

Definition kInfiniteTimeUs : Z := 9223372036854775807.

Definition Delta_zero : Delta := mkDelta 0.
Definition Delta_infinite : Delta := mkDelta kInfiniteTimeUs.
Definition Delta_fromSeconds (secs : Z) : outcome Delta :=
  t <- s64 (secs * 1000) ;; t <- s64 (t * 1000) ;; Ret (mkDelta t).
Definition Delta_fromMilliseconds (ms : Z) : outcome Delta :=
  t <- s64 (ms * 1000) ;; Ret (mkDelta t).
Definition Delta_fromMicroseconds (us : Z) : Delta := mkDelta us.

(** C++ division truncates. *)
Definition Delta_toSeconds (d : Delta) : Z := Z.quot (Z.quot (time_offset_ d) 1000) 1000.
Definition Delta_toMilliseconds (d : Delta) : Z := Z.quot (time_offset_ d) 1000.
Definition Delta_toMicroseconds (d : Delta) : Z := time_offset_ d.
(** [timeval{tv_sec, tv_usec}] *)
Definition Delta_toTimeval (d : Delta) : Z * Z :=
  (Z.quot (time_offset_ d) 1000000, Z.rem (time_offset_ d) 1000000).
Definition Delta_isZero (d : Delta) : bool := time_offset_ d =? 0.
Definition Delta_isInfinite (d : Delta) : bool := time_offset_ d =? kInfiniteTimeUs.

(** [std::abs] of the smallest value overflows. *)
Definition abs64 (z : Z) : outcome Z := s64 (Z.abs z).

Definition print_int64 (z : Z) : string :=
  if z <? 0 then "-" +:+ pretty (Z.to_N (- z)) else pretty (Z.to_N z).

Definition Delta_toDebugValue (d : Delta) : outcome string :=
  let one_ms := 1000 in
  let one_s := 1000 * one_ms in
  absolute_value <- abs64 (time_offset_ d) ;;
  Ret ((if (one_s <? absolute_value) && (Z.rem absolute_value one_s =? 0)
        then "s" +:+ print_int64 (Z.quot (time_offset_ d) one_s) else "")
       +:+ (if (one_ms <? absolute_value) && (Z.rem absolute_value one_ms =? 0)
            then "ms" +:+ print_int64 (Z.quot (time_offset_ d) one_ms) else "")
       +:+ "us" +:+ print_int64 (time_offset_ d)).

Definition TimeBase_zero : TimeBase := mkTimeBase 0.
Definition TimeBase_infinite : TimeBase := mkTimeBase kInfiniteTimeUs.
Definition TimeBase_toDebuggingValue (t : TimeBase) : Z := time_ t.
Definition TimeBase_isInitialized (t : TimeBase) : bool := negb (0 =? time_ t).

(** The relational operators: [!=], [>], [<=] and [>=] from [==] and [<]. *)
Definition Delta_eqb (lhs rhs : Delta) : bool := time_offset_ lhs =? time_offset_ rhs.
Definition Delta_neqb (lhs rhs : Delta) : bool := negb (Delta_eqb lhs rhs).
Definition Delta_ltb (lhs rhs : Delta) : bool := time_offset_ lhs <? time_offset_ rhs.
Definition Delta_gtb (lhs rhs : Delta) : bool := Delta_ltb rhs lhs.
Definition Delta_leb (lhs rhs : Delta) : bool := negb (Delta_ltb rhs lhs).
Definition Delta_geb (lhs rhs : Delta) : bool := negb (Delta_ltb lhs rhs).
Definition Delta_min (a b : Delta) : Delta := if Delta_ltb b a then b else a.
Definition TimeBase_eqb (lhs rhs : TimeBase) : bool := time_ lhs =? time_ rhs.
Definition TimeBase_neqb (lhs rhs : TimeBase) : bool := negb (TimeBase_eqb lhs rhs).
Definition TimeBase_ltb (lhs rhs : TimeBase) : bool := time_ lhs <? time_ rhs.
Definition TimeBase_gtb (lhs rhs : TimeBase) : bool := TimeBase_ltb rhs lhs.
Definition TimeBase_leb (lhs rhs : TimeBase) : bool := negb (TimeBase_ltb rhs lhs).
Definition TimeBase_geb (lhs rhs : TimeBase) : bool := negb (TimeBase_ltb lhs rhs).

(** Shifts of a signed value by a [size_t]: the count must be below 64; a left
    shift of a negative value, or one that leaves 64 bits, is undefined, and one
    into the sign bit converts to a negative value. *)
Definition Delta_shiftl (lhs : Delta) (rhs : Z) : outcome Delta :=
  if (64 <=? rhs) || (time_offset_ lhs <? 0) then Undef
  else
    let v := Z.shiftl (time_offset_ lhs) rhs in
    if 18446744073709551616 <=? v then Undef
    else Ret (mkDelta (if 9223372036854775808 <=? v then v - 18446744073709551616 else v)).
Definition Delta_shiftr (lhs : Delta) (rhs : Z) : outcome Delta :=
  if 64 <=? rhs then Undef else Ret (mkDelta (Z.shiftr (time_offset_ lhs) rhs)).

Definition Delta_add (lhs rhs : Delta) : outcome Delta :=
  t <- s64 (time_offset_ lhs + time_offset_ rhs) ;; Ret (mkDelta t).
Definition Delta_sub (lhs rhs : Delta) : outcome Delta :=
  t <- s64 (time_offset_ lhs - time_offset_ rhs) ;; Ret (mkDelta t).
(** [operator*] with an [int], on either side. *)
Definition Delta_mul (lhs : Delta) (rhs : Z) : outcome Delta :=
  t <- s64 (time_offset_ lhs * rhs) ;; Ret (mkDelta t).
Definition TimeBase_add (lhs : TimeBase) (rhs : Delta) : outcome TimeBase :=
  t <- s64 (time_ lhs + time_offset_ rhs) ;; Ret (mkTimeBase t).
Definition TimeBase_sub_delta (lhs : TimeBase) (rhs : Delta) : outcome TimeBase :=
  t <- s64 (time_ lhs - time_offset_ rhs) ;; Ret (mkTimeBase t).
Definition TimeBase_sub (lhs rhs : TimeBase) : outcome Delta :=
  t <- s64 (time_ lhs - time_ rhs) ;; Ret (mkDelta t).

(** [kTwoMSL] of src/src/tcp/type.h *)
Definition kTwoMSL : outcome Delta := Delta_fromSeconds 10.

(** Unit conversions. A whole number of seconds or milliseconds that fits
    survives the round trip, and a [timeval] is the offset split into seconds
    and a rest of the same sign of less than a second. *)
Theorem Delta_conversions (secs ms : Z) (d : Delta) :
  -9223372036854 <= secs <= 9223372036854 ->
  -9223372036854775 <= ms <= 9223372036854775 ->
  omap_ret Delta_toSeconds (Delta_fromSeconds secs) = Ret secs /\
  omap_ret Delta_toMilliseconds (Delta_fromMilliseconds ms) = Ret ms /\
  (let '(sec, usec) := Delta_toTimeval d in
   sec * 1000000 + usec = time_offset_ d /\ Z.abs usec < 1000000 /\
   0 <= usec * time_offset_ d).
Proof.
  intros. unfold Delta_fromSeconds, Delta_fromMilliseconds, omap_ret. split_and!.
  - rewrite s64_ok by word. cbn [obind]. rewrite s64_ok by word. cbn [obind].
    unfold Delta_toSeconds. cbn [time_offset_]. by rewrite !Z.quot_mul.
  - rewrite s64_ok by word. cbn [obind]. unfold Delta_toMilliseconds. cbn [time_offset_].
    by rewrite Z.quot_mul.
  - cbn. pose proof (Z.quot_rem (time_offset_ d) 1000000 ltac:(lia)).
    pose proof (Z.rem_bound_abs (time_offset_ d) 1000000 ltac:(lia)).
    pose proof (Z.rem_sign_mul (time_offset_ d) 1000000 ltac:(lia)). lia.
Qed.

Lemma Delta_conversions_witness :
  omap_ret Delta_toSeconds (Delta_fromSeconds (-3)) = Ret (-3) /\
  omap_ret Delta_toMilliseconds (Delta_fromMilliseconds 1500) = Ret 1500 /\
  (let '(sec, usec) := Delta_toTimeval (mkDelta (-1500000)) in
   sec * 1000000 + usec = -1500000 /\ Z.abs usec < 1000000 /\ 0 <= usec * -1500000).
Proof. apply (Delta_conversions (-3) 1500 (mkDelta (-1500000))); lia. Defined.
