(* ===== verification/Alarm.v ===== *)
(** src/src/base/alarm.{h,cpp}: the base class of alarms. The virtual functions
    of a concrete alarm are an interface: the class below gives access to the
    member [deadline_] of an alarm of the world [W] and the two overridden
    functions. *)

From stdpp Require Import base list numbers.
From S2P Require Import Prelude TimeBase.

Open Scope Z_scope.
Open Scope outcome_scope.

(** Alarms are objects on the heap, named by a number. *)
Abbreviation AlarmId := nat (only parsing).

Class AlarmImpl (W : Type) : Type := {
  alarm_deadline : AlarmId -> W -> outcome TimeBase;
  alarm_put_deadline : AlarmId -> TimeBase -> W -> outcome W;
  alarm_setImpl : AlarmId -> W -> outcome W;
  alarm_cancelImpl : AlarmId -> W -> outcome W
}.

(** [AlarmFactory]: the clock and the creation of alarms. *)
Class AlarmFactory (W : Type) : Type := {
  factory_now : W -> TimeBase;
  factory_createAlarm : W -> AlarmId * W
}.

Section alarm.
Context {W : Type} `{AlarmImpl W}.

Definition Alarm_isSet (a : AlarmId) (w : W) : outcome bool :=
  d <- alarm_deadline a w ;; Ret (TimeBase_isInitialized d).

Definition Alarm_set (bld : build) (a : AlarmId) (new_deadline : TimeBase) (w : W) : outcome W :=
  set <- Alarm_isSet a w ;;
  DCHECK bld (negb set) ;;;
  DCHECK bld (TimeBase_isInitialized new_deadline) ;;;
  w <- alarm_put_deadline a new_deadline w ;;
  alarm_setImpl a w.

Definition Alarm_cancel (a : AlarmId) (w : W) : outcome W :=
  set <- Alarm_isSet a w ;;
  if negb set then Ret w
  else
    w <- alarm_put_deadline a TimeBase_zero w ;;
    alarm_cancelImpl a w.

(** [fire]: [onAlarm] is the delegate of the alarm. *)
Definition Alarm_fire (onAlarm : AlarmId -> W -> outcome W) (a : AlarmId) (w : W) : outcome W :=
  set <- Alarm_isSet a w ;;
  if negb set then Ret w
  else
    w <- alarm_put_deadline a TimeBase_zero w ;;
    onAlarm a w.

Definition Alarm_updateImpl (a : AlarmId) (w : W) : outcome W :=
  new_deadline <- alarm_deadline a w ;;
  w <- alarm_put_deadline a TimeBase_zero w ;;
  w <- alarm_cancelImpl a w ;;
  w <- alarm_put_deadline a new_deadline w ;;
  alarm_setImpl a w.

Definition Alarm_update (a : AlarmId) (new_deadline : TimeBase) (granularity : Delta) (w : W)
  : outcome W :=
  if negb (TimeBase_isInitialized new_deadline) then Alarm_cancel a w
  else
    d <- alarm_deadline a w ;;
    diff <- TimeBase_sub new_deadline d ;;
    distance <- abs64 (Delta_toMicroseconds diff) ;;
    if distance <? Delta_toMicroseconds granularity then Ret w
    else
      was_set <- Alarm_isSet a w ;;
      w <- alarm_put_deadline a new_deadline w ;;
      if was_set : bool then Alarm_updateImpl a w else alarm_setImpl a w.
End alarm.

(** The default granularity of [update]: one millisecond. *)
Definition update_granularity : Delta := mkDelta 1000.

(** A world with something beside the alarms: the network, for instance. *)
Section product.
Context {W Q : Type} `{AlarmImpl W} `{AlarmFactory W}.

Definition on_fst (f : W -> outcome W) (p : W * Q) : outcome (W * Q) :=
  w <- f p.1 ;; Ret (w, p.2).

#[global] Instance AlarmImpl_prod : AlarmImpl (W * Q) := {|
  alarm_deadline a p := alarm_deadline a p.1;
  alarm_put_deadline a d := on_fst (alarm_put_deadline a d);
  alarm_setImpl a := on_fst (alarm_setImpl a);
  alarm_cancelImpl a := on_fst (alarm_cancelImpl a)
|}.
#[global] Instance AlarmFactory_prod : AlarmFactory (W * Q) := {|
  factory_now p := factory_now p.1;
  factory_createAlarm p := let '(a, w) := factory_createAlarm p.1 in (a, (w, p.2))
|}.

(** The operations of alarms act on the first component alone. *)
Lemma Alarm_isSet_prod a (p : W * Q) : Alarm_isSet a p = Alarm_isSet a p.1.
Proof. done. Qed.
Lemma on_fst_bind (f g : W -> outcome W) (p : W * Q) :
  (q <- on_fst f p ;; on_fst g q) = on_fst (fun w => w' <- f w ;; g w') p.
Proof. unfold on_fst. by destruct (f p.1). Qed.
Lemma Alarm_set_prod bld a d (p : W * Q) : Alarm_set bld a d p = on_fst (Alarm_set bld a d) p.
Proof.
  unfold Alarm_set. cbn. unfold on_fst. rewrite Alarm_isSet_prod. destruct (Alarm_isSet a p.1); try done.
  cbn. repeat (destruct (DCHECK bld _); try done; cbn).
  destruct (alarm_put_deadline a d p.1); try done.
Qed.
Lemma Alarm_cancel_prod a (p : W * Q) : Alarm_cancel a p = on_fst (Alarm_cancel a) p.
Proof.
  unfold Alarm_cancel. cbn. unfold on_fst. rewrite Alarm_isSet_prod.
  destruct (Alarm_isSet a p.1) as [[]| |]; cbn; try done; [|by destruct p].
  destruct (alarm_put_deadline a _ p.1); try done.
Qed.
Lemma Alarm_updateImpl_prod a (p : W * Q) : Alarm_updateImpl a p = on_fst (Alarm_updateImpl a) p.
Proof.
  unfold Alarm_updateImpl. cbn. unfold on_fst. destruct (alarm_deadline a p.1) as [d| |]; try done. cbn.
  destruct (alarm_put_deadline a _ p.1) as [w1| |]; try done. cbn.
  destruct (alarm_cancelImpl a w1) as [w2| |]; try done. cbn.
  destruct (alarm_put_deadline a d w2); try done.
Qed.
Lemma Alarm_update_prod a d g (p : W * Q) : Alarm_update a d g p = on_fst (Alarm_update a d g) p.
Proof.
  destruct p as [w q]. unfold Alarm_update. destruct (negb (TimeBase_isInitialized d)).
  { apply Alarm_cancel_prod. }
  rewrite Alarm_isSet_prod. cbn [alarm_deadline alarm_put_deadline AlarmImpl_prod fst].
  unfold on_fst at 2. cbn [fst snd].
  destruct (alarm_deadline a w) as [d'| |]; try done. cbn.
  destruct (TimeBase_sub d d'); try done. cbn. destruct (abs64 _); try done. cbn.
  destruct (_ <? _); [done|]. destruct (Alarm_isSet a w) as [b| |]; try done. cbn.
  unfold on_fst at 1. cbn. destruct (alarm_put_deadline a d w) as [w'| |]; try done. cbn.
  destruct b; [apply Alarm_updateImpl_prod|done].
Qed.
End product.
