(* ===== verification/EpollServer.v ===== *)
(** src/src/base/epoll_server.{h,cpp}, epoll_alarm.{h,cpp} and
    epoll_alarm_factory.{h,cpp}: the event loop and its alarms. *)

From stdpp Require Import base list numbers gmap fin_maps sorting.
From S2P Require Import Prelude TimeBase Alarm.

Open Scope Z_scope.
Open Scope outcome_scope.

(** ** [std::multimap<TimeBase, Alarm *>]

    The entries in key order; the token is the identity of the node, which is
    what an iterator keeps. *)
Record entry : Type := mkEntry {
  en_deadline : Z;
  en_token : nat;
  en_alarm : AlarmId
}.
#[global] Instance entry_eq_dec : EqDecision entry.
Proof. solve_decision. Defined.
Definition AlarmMap : Type := list entry.

(** [emplace]: behind the entries with an equal key. *)
Fixpoint alarm_map_emplace (e : entry) (m : AlarmMap) : AlarmMap :=
  match m with
  | [] => [e]
  | x :: m => if en_deadline e <? en_deadline x then e :: x :: m
              else x :: alarm_map_emplace e m
  end.

(** [erase(iterator)]: undefined when the node is not in the map. *)
Definition alarm_map_erase (t : nat) (m : AlarmMap) : outcome AlarmMap :=
  if bool_decide (t ∈ en_token <$> m)
  then Ret (filter (fun e => en_token e <> t) m) else Undef.

(** ** The server and the alarms on the heap

    A fresh [EpollAlarm] has an indeterminate token. [es_fresh] names the nodes
    and alarms allocated so far. *)
Record EpollAlarm : Type := mkEpollAlarm {
  ea_deadline_ : TimeBase;
  ea_token_ : option nat
}.

Record EpollServer : Type := mkEpollServer {
  es_epfd_ : Z;
  es_cb_map_ : gmap Z nat;
  es_alarm_map_ : AlarmMap;
  es_now_ : TimeBase;
  es_alarms : gmap AlarmId EpollAlarm;
  es_fresh : nat
}.

Definition es_put_alarms (al : gmap AlarmId EpollAlarm) (s : EpollServer) : EpollServer :=
  mkEpollServer (es_epfd_ s) (es_cb_map_ s) (es_alarm_map_ s) (es_now_ s) al (es_fresh s).
Definition es_put_alarm_map (m : AlarmMap) (s : EpollServer) : EpollServer :=
  mkEpollServer (es_epfd_ s) (es_cb_map_ s) m (es_now_ s) (es_alarms s) (es_fresh s).
Definition es_put_now (t : TimeBase) (s : EpollServer) : EpollServer :=
  mkEpollServer (es_epfd_ s) (es_cb_map_ s) (es_alarm_map_ s) t (es_alarms s) (es_fresh s).
Definition es_put_cb_map (cb : gmap Z nat) (s : EpollServer) : EpollServer :=
  mkEpollServer (es_epfd_ s) cb (es_alarm_map_ s) (es_now_ s) (es_alarms s) (es_fresh s).

(** Member access through a pointer: undefined when there is no such object. *)
Definition es_alarm (a : AlarmId) (s : EpollServer) : outcome EpollAlarm :=
  match es_alarms s !! a with Some al => Ret al | None => Undef end.

Definition EpollServer_registerAlarm (a : AlarmId) (s : EpollServer) : outcome (nat * EpollServer) :=
  al <- es_alarm a s ;;
  let t := es_fresh s in
  let m := alarm_map_emplace (mkEntry (time_ (ea_deadline_ al)) t a) (es_alarm_map_ s) in
  Ret (t, mkEpollServer (es_epfd_ s) (es_cb_map_ s) m (es_now_ s) (es_alarms s) (S t)).

Definition EpollServer_unregisterAlarm (t : nat) (s : EpollServer) : outcome EpollServer :=
  m <- alarm_map_erase t (es_alarm_map_ s) ;; Ret (es_put_alarm_map m s).

Definition EpollAlarm_put_deadline (a : AlarmId) (d : TimeBase) (s : EpollServer)
  : outcome EpollServer :=
  al <- es_alarm a s ;;
  Ret (es_put_alarms (<[a := mkEpollAlarm d (ea_token_ al)]> (es_alarms s)) s).

Definition EpollAlarm_setImpl (a : AlarmId) (s : EpollServer) : outcome EpollServer :=
  let* (t, s) := EpollServer_registerAlarm a s in
  al <- es_alarm a s ;;
  Ret (es_put_alarms (<[a := mkEpollAlarm (ea_deadline_ al) (Some t)]> (es_alarms s)) s).

Definition EpollAlarm_cancelImpl (a : AlarmId) (s : EpollServer) : outcome EpollServer :=
  al <- es_alarm a s ;;
  match ea_token_ al with
  | Some t => EpollServer_unregisterAlarm t s
  | None => Undef
  end.

#[global] Instance EpollAlarm_impl : AlarmImpl EpollServer := {|
  alarm_deadline a s := al <- es_alarm a s ;; Ret (ea_deadline_ al);
  alarm_put_deadline := EpollAlarm_put_deadline;
  alarm_setImpl := EpollAlarm_setImpl;
  alarm_cancelImpl := EpollAlarm_cancelImpl
|}.

(** [EpollAlarmFactory::createAlarm] and [~EpollAlarm]. *)
Definition EpollAlarmFactory_createAlarm (s : EpollServer) : AlarmId * EpollServer :=
  let a := es_fresh s in
  (a, mkEpollServer (es_epfd_ s) (es_cb_map_ s) (es_alarm_map_ s) (es_now_ s)
        (<[a := mkEpollAlarm TimeBase_zero None]> (es_alarms s)) (S a)).
Definition EpollAlarm_destroy (a : AlarmId) (s : EpollServer) : outcome EpollServer :=
  s <- Alarm_cancel a s ;; Ret (es_put_alarms (delete a (es_alarms s)) s).

Definition EpollServer_now (s : EpollServer) : TimeBase := es_now_ s.
Definition EpollAlarmFactory_now (s : EpollServer) : TimeBase := EpollServer_now s.

#[global] Instance EpollAlarmFactory_impl : AlarmFactory EpollServer := {|
  factory_now := EpollAlarmFactory_now;
  factory_createAlarm := EpollAlarmFactory_createAlarm
|}.

(** [updateNow]: [tv] is the result of [gettimeofday], [None] its failure. *)
Definition EpollServer_updateNow (tv : option (Z * Z)) (s : EpollServer) : outcome EpollServer :=
  match tv with
  | None => Fatal
  | Some (tv_sec, tv_usec) =>
      let t := Z.quot tv_usec 1000 in
      m <- s64 (tv_sec * 1000) ;;
      m <- s64 (m * 1000) ;;
      t <- s64 (t + m) ;;
      Ret (es_put_now (mkTimeBase t) s)
  end.

Definition EpollServer_new (epfd : Z) (tv : option (Z * Z)) : outcome EpollServer :=
  if epfd =? -1 then Fatal
  else EpollServer_updateNow tv (mkEpollServer epfd ∅ [] (mkTimeBase 0) ∅ 0).

(** [registerRead]: [rv] is the result of [epoll_ctl]. *)
Definition EpollServer_registerRead (fd : Z) (cb : nat) (rv : Z) (s : EpollServer)
  : bool * EpollServer :=
  match es_cb_map_ s !! fd with
  | Some _ => (true, es_put_cb_map (<[fd := cb]> (es_cb_map_ s)) s)
  | None => (negb (rv <? 0), es_put_cb_map (<[fd := cb]> (es_cb_map_ s)) s)
  end.

(** [incomingAlarm]: [begin()] of an empty map is not dereferenceable. *)
Definition EpollServer_incomingAlarm (s : EpollServer) : outcome Delta :=
  match es_alarm_map_ s with
  | [] => Undef
  | e :: _ =>
      rv <- TimeBase_sub (mkTimeBase (en_deadline e)) (EpollServer_now s) ;;
      if Delta_ltb rv Delta_zero then Ret Delta_zero else Ret rv
  end.

Section loop.
(** The virtual functions of the clients: what a delegate does when its alarm
    fires, and what the callback registered for a descriptor does. *)
Context (onAlarm : AlarmId -> EpollServer -> outcome EpollServer).
Context (onReadable : nat -> EpollServer -> outcome EpollServer).

(** [runAlarmEvent]; [None] when the fuel is used up. *)
Fixpoint EpollServer_runAlarmEvent (fuel : nat) (s : EpollServer) : outcome (option EpollServer) :=
  match fuel with
  | O => Ret None
  | S fuel =>
      match es_alarm_map_ s with
      | [] => Ret (Some s)
      | e :: _ =>
          if TimeBase_geb (EpollServer_now s) (mkTimeBase (en_deadline e)) then
            s <- Alarm_fire onAlarm (en_alarm e) s ;;
            s <- EpollServer_unregisterAlarm (en_token e) s ;;
            EpollServer_runAlarmEvent fuel s
          else Ret (Some s)
      end
  end.

(** The loop over the [rv] events that [epoll_wait] reported. *)
Fixpoint runReadEvent_loop (fds : list Z) (s : EpollServer) : outcome EpollServer :=
  match fds with
  | [] => Ret s
  | fd :: fds =>
      s <- match es_cb_map_ s !! fd with
           | Some cb => onReadable cb s
           | None => Ret s
           end ;;
      runReadEvent_loop fds s
  end.

(** [epoll_wait fd timeout] is the system call: its result and the descriptors of
    the events, at most 256. *)
Context (epoll_wait : Z -> Z -> Z * list Z).

Definition EpollServer_runReadEvent (wait : Delta) (s : EpollServer)
  : outcome (bool * EpollServer) :=
  let '(rv, fds) := epoll_wait (es_epfd_ s) (s32 (Delta_toMilliseconds wait)) in
  if rv <? 0 then Fatal
  else if rv =? 0 then Ret (false, s)
  else s <- runReadEvent_loop (ztake rv fds) s ;; Ret (true, s).

Definition EpollServer_runEventLoop (fuel : nat) (tv : option (Z * Z)) (wait : Delta)
  (s : EpollServer) : outcome (option (bool * EpollServer)) :=
  s <- EpollServer_updateNow tv s ;;
  incoming <- EpollServer_incomingAlarm s ;;
  let* (rv, s) := EpollServer_runReadEvent (Delta_min wait incoming) s in
  s' <- EpollServer_runAlarmEvent fuel s ;;
  Ret (pair rv <$> s').
End loop.

(** ** Lemmas on the multimap *)
Definition deadline_le (e f : entry) : Prop := en_deadline e <= en_deadline f.

Lemma emplace_perm e m : alarm_map_emplace e m ≡ₚ e :: m.
Proof.
  induction m as [|x m IH]; cbn; [done|]. destruct (_ <? _); [done|].
  rewrite IH. apply Permutation_swap.
Qed.
Lemma emplace_sorted e m :
  StronglySorted deadline_le m -> StronglySorted deadline_le (alarm_map_emplace e m).
Proof.
  induction 1 as [|x m Hs IH Hx]; cbn; [by repeat constructor|].
  destruct (Z.ltb_spec (en_deadline e) (en_deadline x)).
  - constructor; [by constructor|]. constructor; [unfold deadline_le; lia|].
    eapply Forall_impl; [exact Hx|]. unfold deadline_le. intros; lia.
  - constructor; [done|]. rewrite emplace_perm. constructor; [done|done].
Qed.
Lemma emplace_elem x e m : x ∈ alarm_map_emplace e m <-> x = e \/ x ∈ m.
Proof. rewrite emplace_perm. apply elem_of_cons. Qed.
Lemma erase_ok t m :
  t ∈ en_token <$> m -> alarm_map_erase t m = Ret (filter (fun e => en_token e <> t) m).
Proof. intros. unfold alarm_map_erase. by rewrite bool_decide_true. Qed.
Lemma filter_sorted (P : entry -> Prop) `{!forall e, Decision (P e)} m :
  StronglySorted deadline_le m -> StronglySorted deadline_le (filter P m).
Proof.
  induction 1 as [|x m Hs IH Hx]; [constructor|]. rewrite filter_cons.
  case_decide; [|done]. constructor; [done|].
  rewrite Forall_forall in *. intros y [_ Hy]%list_elem_of_filter. by apply Hx.
Qed.
Lemma filter_tokens_nodup (P : entry -> Prop) `{!forall e, Decision (P e)} m :
  NoDup (en_token <$> m) -> NoDup (en_token <$> filter P m).
Proof. intros. eapply sublist_NoDup; [done|apply fmap_sublist, sublist_filter]. Qed.

(** Nodes are identified by their token. *)
Lemma NoDup_fmap_inj_elem m (e f : entry) :
  NoDup (en_token <$> m) -> en_token e = en_token f -> e ∈ m -> f ∈ m -> e = f.
Proof.
  intros Hnd Ht (i & Hi)%list_elem_of_lookup (j & Hj)%list_elem_of_lookup.
  assert (i = j) as ->; [|congruence].
  eapply NoDup_lookup; [exact Hnd| |]; rewrite list_lookup_fmap.
  - by rewrite Hi.
  - rewrite Hj. cbn. by rewrite Ht.
Qed.

(** ** Invariant

    The map is sorted and holds exactly one node for every alarm that is set,
    under its deadline, and that alarm holds its token. While an alarm fires,
    its node is still in the map although the alarm is no longer set: the orphan. *)
Definition al_set (al : EpollAlarm) : Prop := time_ (ea_deadline_ al) <> 0.

Record es_inv (orphan : option entry) (s : EpollServer) : Prop := {
  inv_sorted : StronglySorted deadline_le (es_alarm_map_ s);
  inv_nodup : NoDup (en_token <$> es_alarm_map_ s);
  inv_fresh e : e ∈ es_alarm_map_ s -> (en_token e < es_fresh s)%nat;
  inv_alarm_fresh a al : es_alarms s !! a = Some al -> (a < es_fresh s)%nat;
  inv_entry e : e ∈ es_alarm_map_ s -> Some e <> orphan ->
    exists al, es_alarms s !! en_alarm e = Some al /\ en_deadline e <> 0 /\
      time_ (ea_deadline_ al) = en_deadline e /\ ea_token_ al = Some (en_token e);
  inv_set a al : es_alarms s !! a = Some al -> al_set al ->
    exists t, ea_token_ al = Some t /\
      Some (mkEntry (time_ (ea_deadline_ al)) t a) <> orphan /\
      mkEntry (time_ (ea_deadline_ al)) t a ∈ es_alarm_map_ s;
  inv_orphan e : orphan = Some e -> e ∈ es_alarm_map_ s
}.

(** The abstract state: which alarms are armed, and for when. *)
Definition al_armed (al : EpollAlarm) : option Z :=
  if time_ (ea_deadline_ al) =? 0 then None else Some (time_ (ea_deadline_ al)).
Definition armed (s : EpollServer) : gmap AlarmId Z := omap al_armed (es_alarms s).

Lemma omap_insert_armed a al (m : gmap AlarmId EpollAlarm) :
  omap al_armed (<[a := al]> m)
  = match al_armed al with Some d => <[a := d]> (omap al_armed m)
    | None => delete a (omap al_armed m) end.
Proof.
  destruct (al_armed al) eqn:E.
  - by apply omap_insert_Some.
  - by apply omap_insert_None.
Qed.
Lemma armed_insert a al s :
  armed (es_put_alarms (<[a := al]> (es_alarms s)) s)
  = match al_armed al with Some d => <[a := d]> (armed s) | None => delete a (armed s) end.
Proof. apply omap_insert_armed. Qed.

(** Arming an alarm that is not set. *)
Lemma set_step o s a al d :
  es_inv o s -> es_alarms s !! a = Some al -> time_ (ea_deadline_ al) = 0 -> time_ d <> 0 ->
  exists s', (w <- EpollAlarm_put_deadline a d s ;; EpollAlarm_setImpl a w) = Ret s' /\
    es_inv o s' /\ armed s' = <[a := time_ d]> (armed s) /\ es_now_ s' = es_now_ s /\
    es_alarm_map_ s' = alarm_map_emplace (mkEntry (time_ d) (es_fresh s) a) (es_alarm_map_ s).
Proof.
  intros Hinv Ha H0 Hd. unfold EpollAlarm_put_deadline, es_alarm. rewrite Ha. cbn [obind].
  unfold EpollAlarm_setImpl, EpollServer_registerAlarm, es_alarm. cbn.
  rewrite !lookup_insert_eq. cbn. rewrite !lookup_insert_eq. cbn.
  rewrite insert_insert_eq.
  set (e := mkEntry (time_ d) (es_fresh s) a).
  eexists; split; [done|]. split_and!; cbn; try done.
  - destruct Hinv as [Hso Hnd Hfr Haf Hen Hse Hor].
    split; cbn [es_alarm_map_ es_alarms es_fresh es_put_alarms].
    + by apply emplace_sorted.
    + rewrite emplace_perm. cbn. constructor; [|done].
      intros ([] & ? & ?%Hfr)%list_elem_of_fmap. cbn in *. lia.
    + intros x [->|Hx]%emplace_elem; [cbn; lia|]. specialize (Hfr x Hx). lia.
    + intros b bl Hb. destruct (decide (a = b)) as [<-|Hne].
      * specialize (Haf _ _ Ha). lia.
      * rewrite lookup_insert_ne in Hb by done. specialize (Haf _ _ Hb). lia.
    + intros x [->|Hx]%emplace_elem Ho.
      * eexists; split; [apply lookup_insert_eq|]. done.
      * destruct (Hen x Hx Ho) as (xl & Hxl & ? & Hxd & ?).
        exists xl. rewrite lookup_insert_ne; [done|]. intros ->.
        rewrite Ha in Hxl. injection Hxl as <-. congruence.
    + intros b bl Hb Hset. destruct (decide (a = b)) as [<-|Hne].
      * rewrite lookup_insert_eq in Hb. injection Hb as <-. cbn.
        eexists; split_and!; [done| |apply emplace_elem; by left].
        intros E%eq_sym%Hor%Hfr. cbn in *. lia.
      * rewrite lookup_insert_ne in Hb by done.
        destruct (Hse b bl Hb Hset) as (t & ? & ? & ?). exists t. split_and!; try done.
        apply emplace_elem. by right.
    + intros t Ht. apply emplace_elem. right. by apply Hor.
  - unfold armed. cbn. rewrite omap_insert_armed. unfold al_armed at 1. cbn.
    by rewrite (proj2 (Z.eqb_neq _ _)).
Qed.

(** Disarming an alarm that is set. *)
Lemma cancel_step o s a al :
  es_inv o s -> es_alarms s !! a = Some al -> al_set al ->
  exists s' t, (w <- EpollAlarm_put_deadline a TimeBase_zero s ;; EpollAlarm_cancelImpl a w) = Ret s' /\
    es_inv o s' /\ armed s' = delete a (armed s) /\ es_now_ s' = es_now_ s /\
    es_alarm_map_ s' = filter (fun e => en_token e <> t) (es_alarm_map_ s) /\
    es_alarms s' = <[a := mkEpollAlarm TimeBase_zero (Some t)]> (es_alarms s).
Proof.
  intros Hinv Ha Hset. destruct Hinv as [Hso Hnd Hfr Haf Hen Hse Hor].
  destruct (Hse a al Ha Hset) as (t & Ht & Hto & Hin).
  assert (t ∈ en_token <$> es_alarm_map_ s) as Htin
    by (apply list_elem_of_fmap; by exists (mkEntry (time_ (ea_deadline_ al)) t a)).
  unfold EpollAlarm_put_deadline, EpollAlarm_cancelImpl, es_alarm. rewrite Ha. cbn.
  rewrite lookup_insert_eq. cbn. rewrite Ht. unfold EpollServer_unregisterAlarm. cbn.
  rewrite erase_ok by done. cbn.
  eexists _, t; split; [done|]. split_and!; cbn; try done.
  - split; cbn [es_alarm_map_ es_alarms es_fresh es_put_alarms es_put_alarm_map].
    + by apply filter_sorted.
    + by apply filter_tokens_nodup.
    + intros e [_ He]%list_elem_of_filter. by apply Hfr.
    + intros b bl Hb. apply lookup_insert_Some in Hb as [[<- _]|[_ Hb]]; eauto.
    + intros e [Hne He]%list_elem_of_filter Ho. destruct (Hen e He Ho) as (el & Hel & ? & ? & ?).
      exists el. rewrite lookup_insert_ne; [done|]. intros ->. congruence.
    + intros b bl Hb Hs'. apply lookup_insert_Some in Hb as [[<- <-]|[Hne Hb]]; [done|].
      destruct (Hse b bl Hb Hs') as (u & ? & ? & Hu). exists u. split_and!; try done.
      apply list_elem_of_filter. split; [|done]. cbn. intros ->.
      apply Hne. assert (mkEntry (time_ (ea_deadline_ al)) t a = mkEntry (time_ (ea_deadline_ bl)) t b); [|congruence].
      eapply NoDup_fmap_inj_elem; [exact Hnd|done|done|done].
    + intros e He. pose proof (Hor e He) as Hin'. apply list_elem_of_filter. split; [|done].
      intros Heq. apply Hto. rewrite He. f_equal.
      eapply NoDup_fmap_inj_elem; [exact Hnd|done|done|done].
  - unfold armed. cbn. by rewrite omap_insert_armed.
Qed.

(** ** Public operations as commands, and their specification *)
Inductive alarm_cmd : Type :=
  | CmdCreate
  | CmdSet (a : AlarmId) (d : TimeBase)
  | CmdUpdate (a : AlarmId) (d : TimeBase) (granularity : Delta)
  | CmdCancel (a : AlarmId)
  | CmdDestroy (a : AlarmId).

Definition run_cmd (bld : build) (c : alarm_cmd) (s : EpollServer) : outcome EpollServer :=
  match c with
  | CmdCreate => Ret (EpollAlarmFactory_createAlarm s).2
  | CmdSet a d => Alarm_set bld a d s
  | CmdUpdate a d g => Alarm_update a d g s
  | CmdCancel a => Alarm_cancel a s
  | CmdDestroy a => EpollAlarm_destroy a s
  end.

(** What a caller has to respect: the alarm exists; [set] is not called on an
    alarm that is set, nor with the time zero; times are not negative. *)
Definition cmd_ok (c : alarm_cmd) (s : EpollServer) : Prop :=
  match c with
  | CmdCreate => True
  | CmdSet a d => is_Some (es_alarms s !! a) /\ armed s !! a = None /\ time_ d <> 0
  | CmdUpdate a d _ =>
      exists al, es_alarms s !! a = Some al /\ 0 <= time_ d <= kInfiniteTimeUs /\
        0 <= time_ (ea_deadline_ al) <= kInfiniteTimeUs
  | CmdCancel a | CmdDestroy a => is_Some (es_alarms s !! a)
  end.

(** The specification, on the finite map from armed alarms to deadlines. *)
Definition spec_cmd (c : alarm_cmd) (m : gmap AlarmId Z) : gmap AlarmId Z :=
  match c with
  | CmdCreate => m
  | CmdSet a d => <[a := time_ d]> m
  | CmdUpdate a d g =>
      if time_ d =? 0 then delete a m
      else if Z.abs (time_ d - default 0 (m !! a)) <? time_offset_ g then m
      else <[a := time_ d]> m
  | CmdCancel a | CmdDestroy a => delete a m
  end.

Lemma armed_lookup s a al :
  es_alarms s !! a = Some al -> armed s !! a = al_armed al.
Proof. intros Ha. unfold armed. by rewrite lookup_omap, Ha. Qed.
Lemma al_armed_None al : al_armed al = None <-> time_ (ea_deadline_ al) = 0.
Proof. unfold al_armed. destruct (Z.eqb_spec (time_ (ea_deadline_ al)) 0); naive_solver. Qed.
Lemma isInitialized_eq d : TimeBase_isInitialized d = negb (time_ d =? 0).
Proof. unfold TimeBase_isInitialized. by rewrite Z.eqb_sym. Qed.

Lemma Alarm_isSet_eq s a al :
  es_alarms s !! a = Some al -> Alarm_isSet a s = Ret (negb (time_ (ea_deadline_ al) =? 0)).
Proof.
  intros Ha. unfold Alarm_isSet. cbn. unfold es_alarm. rewrite Ha. cbn. by rewrite isInitialized_eq.
Qed.

Lemma Alarm_cancel_ok o s a :
  es_inv o s -> is_Some (es_alarms s !! a) ->
  exists s', Alarm_cancel a s = Ret s' /\ es_inv o s' /\ armed s' = delete a (armed s) /\
    es_now_ s' = es_now_ s /\ es_alarm_map_ s' `sublist_of` es_alarm_map_ s /\
    (exists al, es_alarms s' !! a = Some al /\ time_ (ea_deadline_ al) = 0).
Proof.
  intros Hinv [al Ha]. unfold Alarm_cancel. rewrite (Alarm_isSet_eq _ _ _ Ha). cbn [obind].
  destruct (Z.eqb_spec (time_ (ea_deadline_ al)) 0) as [E|E]; cbn [negb].
  - exists s. split_and!; try done; [|by exists al].
    symmetry. apply delete_id. rewrite (armed_lookup _ _ _ Ha). by apply al_armed_None.
  - destruct (cancel_step o s a al Hinv Ha E) as (s' & t & Hs & Hi & Har & Hn & Hm & Hal).
    exists s'. split_and!; try done.
    + rewrite Hm. apply sublist_filter.
    + rewrite Hal. eexists. by rewrite lookup_insert_eq.
Qed.

Lemma put_deadline_put s a d d' :
  (w <- EpollAlarm_put_deadline a d s ;; EpollAlarm_put_deadline a d' w)
  = EpollAlarm_put_deadline a d' s.
Proof.
  unfold EpollAlarm_put_deadline, es_alarm. destruct (es_alarms s !! a) as [al|] eqn:Ha; [|done].
  cbn. rewrite lookup_insert_eq. cbn. rewrite insert_insert_eq. done.
Qed.

(** Re-arming an alarm that is set. *)
Lemma update_step o s a al d :
  es_inv o s -> es_alarms s !! a = Some al -> al_set al -> time_ d <> 0 ->
  exists s', (w <- EpollAlarm_put_deadline a d s ;; Alarm_updateImpl a w) = Ret s' /\
    es_inv o s' /\ armed s' = <[a := time_ d]> (armed s) /\ es_now_ s' = es_now_ s /\
    exists m t, m `sublist_of` es_alarm_map_ s /\
      es_alarm_map_ s' = alarm_map_emplace (mkEntry (time_ d) t a) m.
Proof.
  intros Hinv Ha Hset Hd.
  destruct (cancel_step o s a al Hinv Ha Hset) as (s1 & t & E1 & Hi1 & Har1 & Hn1 & Hm1 & Hal1).
  assert (es_alarms s1 !! a = Some (mkEpollAlarm TimeBase_zero (Some t))) as Ha1
    by (rewrite Hal1; apply lookup_insert_eq).
  destruct (set_step o s1 a _ d Hi1 Ha1 eq_refl Hd) as (s2 & E2 & Hi2 & Har2 & Hn2 & Hm2).
  exists s2. split_and!; try done.
  - rewrite <- (put_deadline_put s a d) in E1.
    apply bind_Ret in E1 as (w0 & E1 & Ec). apply bind_Ret in E1 as (w & E1 & Ez).
    rewrite E1. cbn [obind]. unfold Alarm_updateImpl. cbn.
    assert (es_alarm a w = Ret (mkEpollAlarm d (ea_token_ al))) as ->.
    { revert E1. unfold EpollAlarm_put_deadline, es_alarm. rewrite Ha. cbn. intros [= <-].
      cbn. by rewrite lookup_insert_eq. }
    cbn. rewrite Ez. cbn. rewrite Ec. cbn. done.
  - rewrite Har2, Har1. apply insert_delete_eq.
  - congruence.
  - eexists _, _. split; [|exact Hm2]. rewrite Hm1. apply sublist_filter.
Qed.

Lemma Alarm_update_ok o s a al d g :
  es_inv o s -> es_alarms s !! a = Some al -> 0 <= time_ d <= kInfiniteTimeUs ->
  0 <= time_ (ea_deadline_ al) <= kInfiniteTimeUs ->
  exists s', Alarm_update a d g s = Ret s' /\ es_inv o s' /\
    armed s' = spec_cmd (CmdUpdate a d g) (armed s) /\ es_now_ s' = es_now_ s /\
    (es_alarm_map_ s' `sublist_of` es_alarm_map_ s \/
     exists m t, m `sublist_of` es_alarm_map_ s /\
      es_alarm_map_ s' = alarm_map_emplace (mkEntry (time_ d) t a) m).
Proof.
  unfold kInfiniteTimeUs. intros Hinv Ha Hd Hal. unfold Alarm_update. cbn [spec_cmd].
  rewrite isInitialized_eq, negb_involutive. destruct (Z.eqb_spec (time_ d) 0) as [E0|E0].
  { destruct (Alarm_cancel_ok o s a Hinv ltac:(by eexists)) as (s' & ? & ? & ? & ? & ? & _).
    exists s'. split_and!; try done. by left. }
  rewrite (Alarm_isSet_eq _ _ _ Ha). cbn [alarm_deadline EpollAlarm_impl obind].
  unfold es_alarm at 1. rewrite Ha. cbn [obind]. unfold TimeBase_sub, abs64.
  rewrite s64_ok by word. cbn [obind Delta_toMicroseconds time_offset_].
  rewrite s64_ok by word. cbn [obind]. unfold Delta_toMicroseconds.
  rewrite (armed_lookup _ _ _ Ha).
  assert (default 0 (al_armed al) = time_ (ea_deadline_ al)) as ->.
  { unfold al_armed. by destruct (Z.eqb_spec (time_ (ea_deadline_ al)) 0) as [->|]. }
  destruct (_ <? time_offset_ g).
  { exists s. split_and!; try done. by left. }
  destruct (Z.eqb_spec (time_ (ea_deadline_ al)) 0) as [E|E]; cbn [negb].
  - destruct (set_step o s a al d Hinv Ha E E0) as (s' & Es & ? & ? & ? & Hm).
    exists s'. split_and!; try done. right. by eexists _, _.
  - destruct (update_step o s a al d Hinv Ha E E0) as (s' & Es & ? & ? & ? & Hm).
    exists s'. split_and!; try done. by right.
Qed.

Lemma es_inv_create o s :
  es_inv o s -> es_inv o (EpollAlarmFactory_createAlarm s).2 /\
    armed (EpollAlarmFactory_createAlarm s).2 = armed s.
Proof.
  intros [Hso Hnd Hfr Haf Hen Hse Hor]. cbn.
  assert (es_alarms s !! es_fresh s = None) as Hnone.
  { destruct (es_alarms s !! es_fresh s) as [al|] eqn:E; [|done]. apply Haf in E. lia. }
  split; [split; cbn; try done|].
  - intros e He. specialize (Hfr e He). lia.
  - intros a al Ha. apply lookup_insert_Some in Ha as [[<- _]|[_ Ha]]; [lia|].
    apply Haf in Ha. lia.
  - intros e He Ho. destruct (Hen e He Ho) as (al & ? & ? & ? & ?). exists al.
    rewrite lookup_insert_ne by (intros E; congruence). done.
  - intros a al Ha Hs. apply lookup_insert_Some in Ha as [[<- <-]|[_ Ha]]; [done|].
    by apply Hse.
  - unfold armed; cbn. rewrite omap_insert_armed. cbn. apply delete_id.
    by rewrite lookup_omap, Hnone.
Qed.

Lemma es_inv_delete o s a al :
  es_inv o s -> es_alarms s !! a = Some al -> time_ (ea_deadline_ al) = 0 ->
  es_inv o (es_put_alarms (delete a (es_alarms s)) s).
Proof.
  intros [Hso Hnd Hfr Haf Hen Hse Hor] Ha H0. split; cbn; try done.
  - intros b bl [_ Hb]%lookup_delete_Some. eauto.
  - intros e He Ho. destruct (Hen e He Ho) as (el & Hel & ? & ? & ?). exists el.
    rewrite lookup_delete_ne; [done|]. intros ->. congruence.
  - intros b bl [_ Hb]%lookup_delete_Some Hs. eauto.
Qed.

(** Every public operation, respecting its contract, returns, keeps the
    invariant, leaves the clock alone and does what the specification says. *)
Lemma run_cmd_refines bld o c s :
  es_inv o s -> cmd_ok c s ->
  exists s', run_cmd bld c s = Ret s' /\ es_inv o s' /\ armed s' = spec_cmd c (armed s) /\
    es_now_ s' = es_now_ s.
Proof.
  intros Hinv Hok. destruct c as [|a d|a d g|a|a]; cbn [run_cmd spec_cmd cmd_ok] in *.
  - destruct (es_inv_create o s Hinv). eexists; by split_and!.
  - destruct Hok as ([al Ha] & Hn & Hd). rewrite (armed_lookup _ _ _ Ha) in Hn.
    apply al_armed_None in Hn. unfold Alarm_set. rewrite (Alarm_isSet_eq _ _ _ Ha), Hn.
    rewrite isInitialized_eq, (proj2 (Z.eqb_neq _ _) Hd). cbn [obind negb Z.eqb].
    rewrite !DCHECK_true. cbn [obind].
    destruct (set_step o s a al d Hinv Ha Hn Hd) as (s' & ? & ? & ? & ? & _). by exists s'.
  - destruct Hok as (al & Ha & ? & ?).
    destruct (Alarm_update_ok o s a al d g) as (s' & ? & ? & ? & ? & _); try done. by exists s'.
  - destruct (Alarm_cancel_ok o s a Hinv Hok) as (s' & ? & ? & ? & ? & _). by exists s'.
  - destruct (Alarm_cancel_ok o s a Hinv Hok) as (s' & E & ? & Har & ? & _ & al & Ha & H0).
    unfold EpollAlarm_destroy. rewrite E. cbn. eexists; split; [done|]. split_and!; try done.
    + by eapply es_inv_delete.
    + unfold armed in *. cbn. rewrite omap_delete, Har. by rewrite delete_delete_eq.
Qed.

(** Sequences of operations, each respecting its contract when it is issued. *)
Fixpoint run_cmds (bld : build) (cs : list alarm_cmd) (s : EpollServer) : outcome EpollServer :=
  match cs with
  | [] => Ret s
  | c :: cs => s <- run_cmd bld c s ;; run_cmds bld cs s
  end.
Fixpoint cmds_ok (bld : build) (cs : list alarm_cmd) (s : EpollServer) : Prop :=
  match cs with
  | [] => True
  | c :: cs => cmd_ok c s /\ forall s', run_cmd bld c s = Ret s' -> cmds_ok bld cs s'
  end.

Lemma run_cmds_refines (bld : build) (cs : list alarm_cmd) (s : EpollServer) :
  es_inv None s -> cmds_ok bld cs s ->
  exists s', run_cmds bld cs s = Ret s' /\ es_inv None s' /\
    armed s' = foldl (fun m c => spec_cmd c m) (armed s) cs /\ es_now_ s' = es_now_ s.
Proof.
  revert s. induction cs as [|c cs IH]; intros s Hinv Hok; [by exists s|].
  destruct Hok as [Hc Hcs].
  destruct (run_cmd_refines bld None c s Hinv Hc) as (s1 & E1 & Hi1 & Ha1 & Hn1).
  destruct (IH s1 Hi1 (Hcs s1 E1)) as (s2 & E2 & Hi2 & Ha2 & Hn2).
  exists s2. cbn. rewrite E1. cbn. split_and!; try done.
  - by rewrite Ha2, Ha1.
  - congruence.
Qed.

(** C4. The alarm registry refines a finite map from armed alarms to deadlines:
    any sequence of alarm creations, [set], [update], [cancel] and destructions
    that respects their contracts runs without touching an invalid token, keeps
    the map of the server sorted with exactly one node per armed alarm, and
    leaves armed exactly the alarms the specification says, for the deadlines it
    says. *)
Theorem EpollAlarm_refines_map (bld : build) (cs : list alarm_cmd) (s : EpollServer) :
  es_inv None s -> cmds_ok bld cs s ->
  exists s', run_cmds bld cs s = Ret s' /\ es_inv None s' /\
    armed s' = foldl (fun m c => spec_cmd c m) (armed s) cs /\ es_now_ s' = es_now_ s.
Proof. apply run_cmds_refines. Qed.

Lemma es_inv_empty epfd cb now fresh : es_inv None (mkEpollServer epfd cb [] now ∅ fresh).
Proof. split; cbn; try done; try constructor; intros ? ?; set_solver. Qed.

(** One command of a concrete run: its contract, then the state it leads to. *)
Ltac cmd_check :=
  split; [|let s := fresh "s" in let E := fresh "E" in
           intros s E; vm_compute in E; injection E as <-].

Definition example_server : EpollServer := mkEpollServer 3 ∅ [] (mkTimeBase 1000000) ∅ 0.

Lemma EpollAlarm_refines_map_witness :
  exists s', run_cmds Debug
      [CmdCreate; CmdCreate; CmdSet 0 (mkTimeBase 4000000); CmdUpdate 1 (mkTimeBase 7000000) (mkDelta 1000);
       CmdUpdate 0 (mkTimeBase 5000000) (mkDelta 1000); CmdCancel 1] example_server = Ret s' /\
    es_inv None s' /\
    armed s' = foldl (fun m c => spec_cmd c m) (armed example_server)
      [CmdCreate; CmdCreate; CmdSet 0 (mkTimeBase 4000000); CmdUpdate 1 (mkTimeBase 7000000) (mkDelta 1000);
       CmdUpdate 0 (mkTimeBase 5000000) (mkDelta 1000); CmdCancel 1] /\
    es_now_ s' = es_now_ example_server.
Proof.
  apply EpollAlarm_refines_map.
  - apply es_inv_empty.
  - cmd_check; [done|]. cmd_check; [done|].
    cmd_check; [split_and!; [by eexists|reflexivity|done]|].
    cmd_check; [eexists; split; [reflexivity|cbn; unfold kInfiniteTimeUs; lia]|].
    cmd_check; [eexists; split; [reflexivity|cbn; unfold kInfiniteTimeUs; lia]|].
    cmd_check; [by eexists|done].
Defined.

(** ** The alarm loop *)
Definition due (s : EpollServer) (e : entry) : Prop := en_deadline e <= time_ (es_now_ s).
#[global] Instance due_dec s e : Decision (due s e).
Proof. unfold due. apply _. Defined.
Definition due_entries (s : EpollServer) : list entry :=
  filter (due s) (es_alarm_map_ s).

(** What the loop relies on: while its alarm fires, a delegate only uses the
    operations of alarms (so that the invariant holds with the node being fired
    still in the map), and it does not arm an alarm for a time that is already
    due. *)
Definition clock_ok (s : EpollServer) : Prop := 0 < time_ (es_now_ s) < 4611686018427387904.
Definition delegate_ok (onAlarm : AlarmId -> EpollServer -> outcome EpollServer) : Prop :=
  forall o a s, es_inv o s -> clock_ok s -> is_Some (es_alarms s !! a) -> armed s !! a = None ->
    exists s', onAlarm a s = Ret s' /\ es_inv o s' /\ es_now_ s' = es_now_ s /\
      (length (due_entries s') <= length (due_entries s))%nat.

(** Starting to fire: the alarm is no longer set, its node is the orphan. *)
Lemma fire_step s e m :
  es_inv None s -> es_alarm_map_ s = e :: m ->
  exists al, es_alarms s !! en_alarm e = Some al /\ al_set al /\
    let s1 := es_put_alarms (<[en_alarm e := mkEpollAlarm TimeBase_zero (ea_token_ al)]> (es_alarms s)) s in
    es_inv (Some e) s1 /\ armed s1 !! en_alarm e = None.
Proof.
  intros [Hso Hnd Hfr Haf Hen Hse Hor] Hm.
  assert (e ∈ es_alarm_map_ s) as He by (rewrite Hm; by left).
  destruct (Hen e He ltac:(done)) as (al & Ha & Hne & Hd & Ht).
  exists al. split; [done|]. split; [unfold al_set; congruence|]. cbn zeta. split.
  - split; cbn; try done.
    + intros b bl Hb. apply lookup_insert_Some in Hb as [[<- _]|[_ Hb]]; eauto.
    + intros x Hx Hxe. destruct (Hen x Hx ltac:(done)) as (xl & Hxl & ? & ? & Hxt). exists xl.
      rewrite lookup_insert_ne; [done|]. intros Heq. rewrite <- Heq, Ha in Hxl.
      injection Hxl as <-. apply Hxe. f_equal.
      eapply NoDup_fmap_inj_elem; [exact Hnd|congruence|done|done].
    + intros b bl Hb Hs. apply lookup_insert_Some in Hb as [[<- <-]|[Hbe Hb]]; [done|].
      destruct (Hse b bl Hb Hs) as (t & ? & ? & ?). exists t. split_and!; try done.
      intros [= <-]. done.
    + by intros ? [= <-].
  - unfold armed. cbn. rewrite omap_insert_armed. cbn. apply lookup_delete_eq.
Qed.

Lemma filter_length_sublist {A} (P : A -> Prop) `{!forall x, Decision (P x)} (l k : list A) :
  l `sublist_of` k -> (length (filter P l) <= length (filter P k))%nat.
Proof.
  induction 1; rewrite ?filter_cons; [done| |]; repeat case_decide; cbn; lia.
Qed.
Lemma filter_filter_length {A} (P Q : A -> Prop) `{!forall x, Decision (P x), !forall x, Decision (Q x)}
  (x : A) (l : list A) :
  x ∈ l -> P x -> ~ Q x -> (length (filter P (filter Q l)) < length (filter P l))%nat.
Proof.
  intros Hx HP HQ.
  assert (forall k : list A, (length (filter P (filter Q k)) <= length (filter P k))%nat) as Hle.
  { intros k. apply filter_length_sublist, sublist_filter. }
  induction Hx as [x l|x y l Hx IH]; rewrite (filter_cons Q).
  - rewrite decide_False by done. rewrite (filter_cons P x l), decide_True by done.
    cbn. specialize (Hle l). lia.
  - specialize (IH HP HQ). case_decide; rewrite !filter_cons; repeat case_decide; cbn; lia.
Qed.

(** Removing the node of the alarm that has fired. *)
Lemma orphan_erase s e :
  es_inv (Some e) s ->
  exists s', EpollServer_unregisterAlarm (en_token e) s = Ret s' /\ es_inv None s' /\
    es_now_ s' = es_now_ s /\
    (due s e -> length (due_entries s') < length (due_entries s))%nat.
Proof.
  intros [Hso Hnd Hfr Haf Hen Hse Hor]. pose proof (Hor e eq_refl) as He.
  unfold EpollServer_unregisterAlarm. rewrite erase_ok by (apply list_elem_of_fmap; by exists e).
  cbn. eexists; split; [done|]. split_and!; try done.
  - split; cbn; try done.
    + by apply filter_sorted.
    + by apply filter_tokens_nodup.
    + intros x [_ Hx]%list_elem_of_filter. by apply Hfr.
    + intros x [Hne Hx]%list_elem_of_filter _. apply Hen; [done|]. intros [= ->]. done.
    + intros b bl Hb Hs. destruct (Hse b bl Hb Hs) as (t & Ht & Hto & Hin). exists t.
      split_and!; try done. apply list_elem_of_filter. split; [|done].
      intros Heq. apply Hto. f_equal. eapply NoDup_fmap_inj_elem; [exact Hnd|done|done|done].
  - intros Hdue. unfold due_entries. cbn.
    apply (filter_filter_length (due s) _ e); [done|done|]. by intros [].
Qed.

(** The same for delegates that rely on something more and establish something more:
    [B] does not depend on the alarms and survives removals, [L] does not depend on the
    nodes. *)
Record frame_ok (B L : EpollServer -> Prop) : Prop := {
  frame_alarms : forall al s, B s -> B (es_put_alarms al s);
  frame_filter : forall t s, B s ->
    B (es_put_alarm_map (filter (fun e => en_token e <> t) (es_alarm_map_ s)) s);
  frame_nodes : forall m s, L s -> L (es_put_alarm_map m s)
}.
Definition delegate_keeps (B L : EpollServer -> Prop)
  (onAlarm : AlarmId -> EpollServer -> outcome EpollServer) : Prop :=
  forall o a s, es_inv o s -> clock_ok s -> is_Some (es_alarms s !! a) -> armed s !! a = None -> B s ->
    exists s', onAlarm a s = Ret s' /\ es_inv o s' /\ es_now_ s' = es_now_ s /\
      (length (due_entries s') <= length (due_entries s))%nat /\ B s' /\ L s'.

Section run.
Context (B L : EpollServer -> Prop) (Hframe : frame_ok B L).
Context (onAlarm : AlarmId -> EpollServer -> outcome EpollServer).
Context (Hdel : delegate_keeps B L onAlarm).

Lemma runAlarmEvent_keeps fuel s :
  es_inv None s -> clock_ok s -> B s -> L s -> (length (due_entries s) < fuel)%nat ->
  exists s', EpollServer_runAlarmEvent onAlarm fuel s = Ret (Some s') /\ es_inv None s' /\
    es_now_ s' = es_now_ s /\ B s' /\ L s' /\
    Forall (fun e => time_ (es_now_ s') < en_deadline e) (es_alarm_map_ s').
Proof.
  revert s. induction fuel as [|fuel IH]; intros s Hinv Hck HB HL Hf; [lia|]. cbn.
  destruct (es_alarm_map_ s) as [|e m] eqn:Hm; [exists s; by rewrite Hm|].
  unfold TimeBase_geb, TimeBase_ltb, EpollServer_now. cbn [time_].
  destruct (Z.ltb_spec (time_ (es_now_ s)) (en_deadline e)) as [Hlt|Hge]; cbn [negb].
  { exists s. split_and!; try done. pose proof (inv_sorted _ _ Hinv) as Hso. rewrite Hm in *.
    apply StronglySorted_inv in Hso as [_ Hso]. constructor; [done|].
    eapply Forall_impl; [exact Hso|]. unfold deadline_le. intros; lia. }
  destruct (fire_step s e m Hinv Hm) as (al & Ha & Hset & Hi1 & Har1).
  unfold Alarm_fire. rewrite (Alarm_isSet_eq _ _ _ Ha), (proj2 (Z.eqb_neq _ _) Hset).
  cbn [obind negb alarm_put_deadline EpollAlarm_impl]. unfold EpollAlarm_put_deadline, es_alarm.
  rewrite Ha. cbn [obind]. set (s1 := es_put_alarms _ s) in *.
  assert (B s1) as HB1 by (by apply (frame_alarms _ _ Hframe)).
  destruct (Hdel _ (en_alarm e) s1 Hi1 Hck) as (s2 & -> & Hi2 & Hn2 & Hle2 & HB2 & HL2); [|done|done|].
  { subst s1; cbn. eexists. apply lookup_insert_eq. }
  cbn [obind]. destruct (orphan_erase s2 e Hi2) as (s3 & E3 & Hi3 & Hn3 & Hlt3). rewrite E3.
  assert (due s2 e) as Hdue by (unfold due; rewrite Hn2; subst s1; cbn; lia).
  specialize (Hlt3 Hdue). change (due_entries s1) with (due_entries s) in Hle2.
  assert (B s3 /\ L s3) as [HB3 HL3].
  { unfold EpollServer_unregisterAlarm, alarm_map_erase in E3. case_bool_decide; [|done].
    injection E3 as <-. split; [by apply (frame_filter _ _ Hframe)|by apply (frame_nodes _ _ Hframe)]. }
  cbn [obind]. assert (clock_ok s3) by (unfold clock_ok; by rewrite Hn3, Hn2).
  destruct (IH s3 Hi3 ltac:(done) HB3 HL3 ltac:(lia)) as (s' & -> & ? & Hn & ? & ? & ?).
  exists s'. split_and!; try done. rewrite Hn, Hn3, Hn2. done.
Qed.
End run.

Lemma runAlarmEvent_ok onAlarm fuel s :
  delegate_ok onAlarm -> es_inv None s -> clock_ok s -> (length (due_entries s) < fuel)%nat ->
  exists s', EpollServer_runAlarmEvent onAlarm fuel s = Ret (Some s') /\ es_inv None s' /\
    es_now_ s' = es_now_ s /\ Forall (fun e => time_ (es_now_ s') < en_deadline e) (es_alarm_map_ s').
Proof.
  intros Hdel Hinv Hck Hf.
  destruct (runAlarmEvent_keeps (fun _ => True) (fun _ => True) ltac:(done) onAlarm) with (fuel := fuel) (s := s)
    as (s' & ? & ? & ? & _ & _ & ?); try done; [|by exists s'].
  intros o a s0 ? ? ? ? _. destruct (Hdel o a s0) as (s1 & ? & ? & ? & ?); try done. by exists s1.
Qed.

(** The alarm loop terminates and fires everything that is due: when the
    delegates do not arm alarms in the past, one round for each node that was due
    and one more is enough, and then every alarm left in the map lies in the
    future, with the registry intact. *)
Theorem runAlarmEvent_terminates (onAlarm : AlarmId -> EpollServer -> outcome EpollServer)
  (s : EpollServer) :
  delegate_ok onAlarm -> es_inv None s -> clock_ok s ->
  exists s', EpollServer_runAlarmEvent onAlarm (S (length (es_alarm_map_ s))) s = Ret (Some s') /\
    es_inv None s' /\ es_now_ s' = es_now_ s /\
    Forall (fun e => time_ (es_now_ s') < en_deadline e) (es_alarm_map_ s').
Proof.
  intros Hdel Hinv Hck. apply runAlarmEvent_ok; [done|done|done|].
  apply Nat.lt_succ_r, sublist_length, sublist_filter.
Qed.

(** A delegate like those of the routing layer: it arms its alarm again, three
    seconds from now. *)
Definition rearm (a : AlarmId) (s : EpollServer) : outcome EpollServer :=
  t <- TimeBase_add (EpollServer_now s) (mkDelta 3000000) ;; Alarm_update a t update_granularity s.

Lemma due_emplace_future s e m :
  time_ (es_now_ s) < en_deadline e ->
  length (filter (due s) (alarm_map_emplace e m)) = length (filter (due s) m).
Proof.
  intros H. assert (filter (due s) (alarm_map_emplace e m) ≡ₚ filter (due s) (e :: m)) as ->
    by (by rewrite emplace_perm).
  rewrite (filter_cons (due s) e m), decide_False; [done|]. unfold due. lia.
Qed.

(** Arming for the future: the nodes are the old ones, less the one of this alarm, and one
    more; none of them is newly due. *)
Lemma update_future o s a al d g :
  es_inv o s -> es_alarms s !! a = Some al -> 0 <= time_ (ea_deadline_ al) <= kInfiniteTimeUs ->
  0 <= time_ (es_now_ s) -> time_ (es_now_ s) < time_ d <= kInfiniteTimeUs ->
  exists s', Alarm_update a d g s = Ret s' /\ es_inv o s' /\ es_now_ s' = es_now_ s /\
    (length (due_entries s') <= length (due_entries s))%nat /\
    (forall P : entry -> Prop, (forall t, P (mkEntry (time_ d) t a)) ->
       Forall P (es_alarm_map_ s) -> Forall P (es_alarm_map_ s')) /\
    armed s' = spec_cmd (CmdUpdate a d g) (armed s).
Proof.
  intros Hinv Ha Hal H0 Hd.
  destruct (Alarm_update_ok o s a al d g Hinv Ha ltac:(lia) Hal) as (s' & -> & ? & ? & Hn & Hm).
  exists s'. split_and!; try done.
  - unfold due_entries.
    assert (forall m : list entry, filter (due s') m = filter (due s) m) as ->.
    { intros m. apply list_filter_iff. intros e. unfold due. by rewrite Hn. }
    destruct Hm as [Hm|(m & t & Hm & ->)]; [|rewrite due_emplace_future by (cbn; lia)];
      by apply filter_length_sublist.
  - intros P HP Hall. rewrite Forall_forall in Hall. destruct Hm as [Hm|(m & t & Hm & ->)].
    + apply Forall_forall. intros e He. apply Hall. by eapply elem_of_sublist.
    + rewrite emplace_perm, Forall_cons. split; [apply HP|]. apply Forall_forall.
      intros e He. apply Hall. by eapply elem_of_sublist.
Qed.

Lemma rearm_ok : delegate_ok rearm.
Proof.
  intros o a s Hinv Hck [al Ha] Hun. unfold rearm, TimeBase_add, clock_ok, EpollServer_now in *.
  cbn [time_offset_]. rewrite s64_ok by word. cbn [obind].
  rewrite (armed_lookup _ _ _ Ha) in Hun. apply al_armed_None in Hun.
  destruct (update_future o s a al (mkTimeBase (time_ (es_now_ s) + 3000000)) update_granularity Hinv Ha)
    as (s' & -> & ? & ? & ? & _); [rewrite Hun; unfold kInfiniteTimeUs; lia|lia|cbn; unfold kInfiniteTimeUs; lia|].
  by exists s'.
Qed.

Definition example_armed : EpollServer :=
  match run_cmds Debug [CmdCreate; CmdCreate; CmdSet 0 (mkTimeBase 900000); CmdSet 1 (mkTimeBase 800000)]
          example_server with Ret s => s | _ => example_server end.

Lemma example_armed_inv : es_inv None example_armed.
Proof.
  destruct (run_cmds_refines Debug
    [CmdCreate; CmdCreate; CmdSet 0 (mkTimeBase 900000); CmdSet 1 (mkTimeBase 800000)] example_server)
    as (s & E & Hs & _); [apply es_inv_empty| |unfold example_armed; by rewrite E].
  cmd_check; [done|]. cmd_check; [done|].
  cmd_check; [split_and!; [by eexists|reflexivity|done]|].
  cmd_check; [split_and!; [by eexists|reflexivity|done]|done].
Qed.

Lemma example_armed_map :
  es_alarm_map_ example_armed = [mkEntry 800000 3 1; mkEntry 900000 2 0].
Proof. vm_compute. reflexivity. Qed.

Lemma runAlarmEvent_terminates_witness :
  exists s', EpollServer_runAlarmEvent rearm 3 example_armed = Ret (Some s') /\
    es_inv None s' /\ es_now_ s' = mkTimeBase 1000000 /\
    Forall (fun e => time_ (es_now_ s') < en_deadline e) (es_alarm_map_ s').
Proof.
  apply (runAlarmEvent_terminates rearm example_armed).
  - apply rearm_ok.
  - apply example_armed_inv.
  - vm_compute. split; congruence.
Defined.

(** ** The clock and the waiting time *)
Lemma updateNow_ok sec usec s :
  0 <= sec < 9223372036854 -> 0 <= usec < 1000000 ->
  EpollServer_updateNow (Some (sec, usec)) s
  = Ret (es_put_now (mkTimeBase (sec * 1000000 + usec / 1000)) s).
Proof.
  intros. unfold EpollServer_updateNow. rewrite Z.quot_div_nonneg by lia.
  assert (0 <= usec / 1000 < 1000)
    by (split; [apply Z.div_pos; lia|apply Z.div_lt_upper_bound; lia]).
  rewrite s64_ok by word. cbn [obind]. rewrite s64_ok by word. cbn [obind].
  rewrite s64_ok by word. cbn [obind]. do 3 f_equal. lia.
Qed.

(** The clock of the event loop. It never goes back when the system clock
    does not, but the microseconds of [gettimeofday] are divided by 1000 and then
    added to a count of microseconds: within a second the clock moves by less
    than one millisecond, and then it jumps by almost a second. *)
Theorem updateNow_clock (s : EpollServer) (sec1 usec1 sec2 usec2 : Z) :
  0 <= sec1 < 9223372036854 -> 0 <= usec1 < 1000000 ->
  0 <= sec2 < 9223372036854 -> 0 <= usec2 < 1000000 ->
  sec1 * 1000000 + usec1 <= sec2 * 1000000 + usec2 ->
  exists s1 s2,
    EpollServer_updateNow (Some (sec1, usec1)) s = Ret s1 /\
    EpollServer_updateNow (Some (sec2, usec2)) s = Ret s2 /\
    time_ (es_now_ s1) <= time_ (es_now_ s2) /\
    (sec1 = sec2 -> time_ (es_now_ s2) - time_ (es_now_ s1) < 1000) /\
    (sec1 < sec2 -> 999000 < time_ (es_now_ s2) - time_ (es_now_ s1)).
Proof.
  intros. eexists _, _. split; [by apply updateNow_ok|]. split; [by apply updateNow_ok|].
  cbn [es_now_ es_put_now time_].
  pose proof (Z.div_mod usec1 1000 ltac:(lia)). pose proof (Z.mod_pos_bound usec1 1000 ltac:(lia)).
  pose proof (Z.div_mod usec2 1000 ltac:(lia)). pose proof (Z.mod_pos_bound usec2 1000 ltac:(lia)).
  split_and!; lia.
Qed.

Lemma updateNow_clock_witness :
  exists s1 s2,
    EpollServer_updateNow (Some (1569000000, 100)) example_server = Ret s1 /\
    EpollServer_updateNow (Some (1569000000, 900000)) example_server = Ret s2 /\
    time_ (es_now_ s1) <= time_ (es_now_ s2) /\
    (1569000000 = 1569000000 -> time_ (es_now_ s2) - time_ (es_now_ s1) < 1000) /\
    (1569000000 < 1569000000 -> 999000 < time_ (es_now_ s2) - time_ (es_now_ s1)).
Proof. apply updateNow_clock; lia. Defined.

(** With an empty alarm map the event loop dereferences [begin()] of the
    empty map: undefined behaviour, whatever the descriptors report. *)
Theorem runEventLoop_without_alarms onAlarm onReadable epoll_wait fuel tv wait s s1 :
  es_alarm_map_ s = [] -> EpollServer_updateNow tv s = Ret s1 ->
  EpollServer_runEventLoop onAlarm onReadable epoll_wait fuel tv wait s = Undef.
Proof.
  intros Hm E. unfold EpollServer_runEventLoop. rewrite E. cbn [obind].
  assert (es_alarm_map_ s1 = []) as Hm1.
  { revert E. unfold EpollServer_updateNow. destruct tv as [[sec usec]|]; [|done].
    intros (? & _ & (? & _ & (? & _ & [= <-])%bind_Ret)%bind_Ret)%bind_Ret. done. }
  unfold EpollServer_incomingAlarm. by rewrite Hm1.
Qed.

Lemma runEventLoop_without_alarms_witness :
  EpollServer_runEventLoop rearm (fun _ s => Ret s) (fun _ _ => (0, [])) 5
    (Some (1, 0)) (mkDelta 10000) example_server = Undef.
Proof. eapply runEventLoop_without_alarms; reflexivity. Defined.

Lemma incomingAlarm_ok s :
  es_inv None s -> es_alarm_map_ s <> [] -> clock_ok s ->
  Forall (fun e => 0 <= en_deadline e <= kInfiniteTimeUs) (es_alarm_map_ s) ->
  exists d, EpollServer_incomingAlarm s = Ret d /\ 0 <= time_offset_ d /\
    Forall (fun e => time_ (es_now_ s) + time_offset_ d <= Z.max (time_ (es_now_ s)) (en_deadline e))
      (es_alarm_map_ s).
Proof.
  intros Hinv Hne Hck Hb. unfold EpollServer_incomingAlarm, clock_ok, kInfiniteTimeUs in *.
  pose proof (inv_sorted _ _ Hinv) as Hso.
  destruct (es_alarm_map_ s) as [|e m]; [done|]. clear Hne.
  apply Forall_cons_1 in Hb as [He Hb]. apply StronglySorted_inv in Hso as [_ Hso].
  unfold TimeBase_sub, EpollServer_now. cbn [time_]. rewrite s64_ok by word. cbn [obind].
  unfold Delta_ltb, Delta_zero. cbn [time_offset_].
  assert (forall d, time_ (es_now_ s) + d <= Z.max (time_ (es_now_ s)) (en_deadline e) ->
    Forall (fun x => time_ (es_now_ s) + d <= Z.max (time_ (es_now_ s)) (en_deadline x)) (e :: m)) as Hall.
  { intros d Hd. constructor; [done|]. eapply Forall_impl; [exact Hso|].
    unfold deadline_le. intros x Hx. lia. }
  destruct (Z.ltb_spec (en_deadline e - time_ (es_now_ s)) 0).
  - eexists; split; [done|]. cbn [time_offset_]. split; [lia|]. apply Hall. lia.
  - eexists; split; [done|]. cbn [time_offset_]. split; [lia|]. apply Hall. lia.
Qed.

(** One round of the event loop, no descriptor being readable. It returns; it
    asks [epoll_wait] to sleep no longer than [wait] and not beyond the deadline
    of any alarm; and afterwards no alarm is left that was due. *)
Theorem runEventLoop_ok onAlarm onReadable epoll_wait (sec usec : Z) (wait : Delta) (s : EpollServer) :
  delegate_ok onAlarm -> (forall fd timeout, (epoll_wait fd timeout).1 = 0) ->
  es_inv None s -> es_alarm_map_ s <> [] ->
  Forall (fun e => 0 <= en_deadline e <= kInfiniteTimeUs) (es_alarm_map_ s) ->
  0 < sec < 4611686018427 -> 0 <= usec < 1000000 -> 0 <= time_offset_ wait ->
  exists s' now d,
    now = sec * 1000000 + usec / 1000 /\
    EpollServer_incomingAlarm (es_put_now (mkTimeBase now) s) = Ret d /\
    0 <= time_offset_ (Delta_min wait d) <= time_offset_ wait /\
    Forall (fun e => now + time_offset_ (Delta_min wait d) <= Z.max now (en_deadline e)) (es_alarm_map_ s) /\
    EpollServer_runEventLoop onAlarm onReadable epoll_wait (S (length (es_alarm_map_ s)))
      (Some (sec, usec)) wait s = Ret (Some (false, s')) /\
    es_inv None s' /\ time_ (es_now_ s') = now /\
    Forall (fun e => now < en_deadline e) (es_alarm_map_ s').
Proof.
  intros Hdel Hep Hinv Hne Hb Hsec Husec Hw. set (now := sec * 1000000 + usec / 1000).
  set (s1 := es_put_now (mkTimeBase now) s).
  assert (0 <= usec / 1000 < 1000)
    by (split; [apply Z.div_pos; lia|apply Z.div_lt_upper_bound; lia]).
  assert (es_inv None s1) as Hi1 by (destruct Hinv; by split).
  assert (clock_ok s1) as Hck by (unfold clock_ok, now; cbn; lia).
  destruct (incomingAlarm_ok s1 Hi1 Hne Hck Hb) as (d & Ed & Hd & Hall).
  destruct (runAlarmEvent_ok onAlarm (S (length (es_alarm_map_ s1))) s1 Hdel Hi1 Hck) as (s' & Er & Hi' & Hn' & Hf).
  { apply Nat.lt_succ_r, sublist_length, sublist_filter. }
  exists s', now, d. cbn [time_ es_now_ es_put_now s1] in *.
  assert (time_offset_ (Delta_min wait d) = Z.min (time_offset_ wait) (time_offset_ d)) as Hmin.
  { unfold Delta_min, Delta_ltb. destruct (Z.ltb_spec (time_offset_ d) (time_offset_ wait)); lia. }
  rewrite Hmin. split_and!; try done; try lia.
  - eapply Forall_impl; [exact Hall|]. intros e He. cbn in He |- *. lia.
  - unfold EpollServer_runEventLoop. rewrite updateNow_ok by lia. fold now s1. cbn [obind].
    rewrite Ed. cbn [obind]. unfold EpollServer_runReadEvent.
    specialize (Hep (es_epfd_ s1) (s32 (Delta_toMilliseconds (Delta_min wait d)))).
    destruct (epoll_wait _ _) as [rv fds]. cbn in Hep. subst rv. cbn [obind].
    change (0 <? 0) with false. change (0 =? 0) with true. cbn [obind]. 
    change (es_alarm_map_ s1) with (es_alarm_map_ s) in Er. by rewrite Er.
  - by rewrite Hn'.
  - rewrite Hn' in Hf. exact Hf.
Qed.

Lemma runEventLoop_ok_witness :
  exists s' now d,
    now = 2 * 1000000 + 500 / 1000 /\
    EpollServer_incomingAlarm (es_put_now (mkTimeBase now) example_armed) = Ret d /\
    0 <= time_offset_ (Delta_min (mkDelta 10000) d) <= time_offset_ (mkDelta 10000) /\
    Forall (fun e => now + time_offset_ (Delta_min (mkDelta 10000) d) <= Z.max now (en_deadline e))
      (es_alarm_map_ example_armed) /\
    EpollServer_runEventLoop rearm (fun _ s => Ret s) (fun _ _ => (0, []))
      (S (length (es_alarm_map_ example_armed))) (Some (2, 500)) (mkDelta 10000) example_armed
      = Ret (Some (false, s')) /\
    es_inv None s' /\ time_ (es_now_ s') = now /\
    Forall (fun e => now < en_deadline e) (es_alarm_map_ s').
Proof.
  apply (runEventLoop_ok rearm (fun _ s => Ret s) (fun _ _ => (0, [])) 2 500 (mkDelta 10000) example_armed).
  - apply rearm_ok.
  - done.
  - apply example_armed_inv.
  - rewrite example_armed_map. done.
  - rewrite example_armed_map. repeat constructor; cbn; unfold kInfiniteTimeUs; lia.
  - lia.
  - lia.
  - cbn. lia.
Defined.
