(* ===== verification/EventLoop.v ===== *)
(** [ProtocolStack::startEventLoop] of src/src/posix/protocol_stack.cpp: the thread that
    runs the event loop of the stack for ever. *)

From stdpp Require Import base list numbers gmap fin_maps sorting.
From S2P Require Import Prelude TimeBase Alarm EpollServer.

Open Scope Z_scope.
Open Scope outcome_scope.

(** What the system gives in one round: the clock and the result of [epoll_wait]. *)
Record Round : Type := mkRound {
  rd_clock : option (Z * Z);
  rd_events : Z * list Z
}.

Section loop.
Context (onAlarm : AlarmId -> EpollServer -> outcome EpollServer).
Context (onReadable : nat -> EpollServer -> outcome EpollServer).

(** The first rounds of the loop; [None] when the fuel for the alarms, one for each node of
    the map and one more, is used up. *)
Fixpoint ProtocolStack_startEventLoop (rounds : list Round) (s : EpollServer)
  : outcome (option EpollServer) :=
  match rounds with
  | [] => Ret (Some s)
  | r :: rounds =>
      wait <- Delta_fromMilliseconds 1000 ;;
      rv <- EpollServer_runEventLoop onAlarm onReadable (fun _ _ => rd_events r)
              (S (length (es_alarm_map_ s))) (rd_clock r) wait s ;;
      match rv with
      | None => Ret None
      | Some (_, s) => ProtocolStack_startEventLoop rounds s
      end
  end.
End loop.

(** ** What keeps the loop alive

    Deadlines are times, and some alarm is armed. *)
Definition deadlines_ok (s : EpollServer) : Prop :=
  Forall (fun e => 0 <= en_deadline e <= kInfiniteTimeUs) (es_alarm_map_ s).
Definition some_armed (s : EpollServer) : Prop := armed s <> ∅.

Lemma loop_frame : frame_ok deadlines_ok some_armed.
Proof.
  split; [done| |done]. unfold deadlines_ok. intros t s. cbn. rewrite !Forall_forall.
  intros Hd e [_ He]%list_elem_of_filter. by apply Hd.
Qed.
Lemma some_armed_node s : es_inv None s -> some_armed s -> es_alarm_map_ s <> [].
Proof.
  intros Hi Ha Hm. apply Ha, map_empty. intros a. unfold armed. rewrite lookup_omap.
  destruct (es_alarms s !! a) as [al|] eqn:E; [|done]. cbn. unfold al_armed.
  destruct (Z.eqb_spec (time_ (ea_deadline_ al)) 0) as [|Hne]; [done|].
  destruct (inv_set _ _ Hi a al E Hne) as (t & _ & _ & Hin). rewrite Hm in Hin.
  by apply not_elem_of_nil in Hin.
Qed.

(** The callbacks of descriptors: like the delegates of alarms, they use the operations of
    alarms, arm none for a time that is already due, and leave one armed. *)
Definition callback_keeps (onReadable : nat -> EpollServer -> outcome EpollServer) : Prop :=
  forall cb s, es_inv None s -> clock_ok s -> deadlines_ok s -> some_armed s ->
    exists s', onReadable cb s = Ret s' /\ es_inv None s' /\ es_now_ s' = es_now_ s /\
      (length (due_entries s') <= length (due_entries s))%nat /\ deadlines_ok s' /\ some_armed s'.

Section alive.
Context (onAlarm : AlarmId -> EpollServer -> outcome EpollServer).
Context (onReadable : nat -> EpollServer -> outcome EpollServer).
Context (Hdel : delegate_keeps deadlines_ok some_armed onAlarm) (Hcb : callback_keeps onReadable).

Record live (s : EpollServer) : Prop := {
  live_inv : es_inv None s;
  live_deadlines : deadlines_ok s;
  live_armed : some_armed s
}.

Lemma runReadEvent_loop_live fds s :
  live s -> clock_ok s ->
  exists s', runReadEvent_loop onReadable fds s = Ret s' /\ live s' /\ es_now_ s' = es_now_ s /\
    (length (due_entries s') <= length (due_entries s))%nat.
Proof.
  revert s. induction fds as [|fd fds IH]; intros s [Hi Hd Ha] Hck; cbn [runReadEvent_loop].
  - exists s. split_and!; done.
  - destruct (es_cb_map_ s !! fd) as [cb|]; cbn [obind]; [|by apply IH].
    destruct (Hcb cb s Hi Hck Hd Ha) as (s1 & -> & ? & Hn1 & Hle1 & ? & ?). cbn [obind].
    destruct (IH s1) as (s' & -> & ? & Hn & Hle); [done|unfold clock_ok; by rewrite Hn1|].
    exists s'. split_and!; try done; [congruence|lia].
Qed.

Definition clock_reading (sec usec : Z) : Prop := 0 < sec < 4611686018427 /\ 0 <= usec < 1000000.
Definition reading (sec usec : Z) : Z := sec * 1000000 + usec / 1000.

(** One round. *)
Lemma runEventLoop_live sec usec rv fds wait s :
  live s -> clock_reading sec usec -> 0 <= rv ->
  exists b s', EpollServer_runEventLoop onAlarm onReadable (fun _ _ => (rv, fds))
      (S (length (es_alarm_map_ s))) (Some (sec, usec)) wait s = Ret (Some (b, s')) /\
    live s' /\ time_ (es_now_ s') = reading sec usec /\
    Forall (fun e => reading sec usec < en_deadline e) (es_alarm_map_ s').
Proof.
  intros [Hi Hd Ha] [Hsec Husec] Hrv. unfold EpollServer_runEventLoop. rewrite updateNow_ok by lia.
  cbn [obind]. fold (reading sec usec). set (s1 := es_put_now _ s).
  assert (0 <= usec / 1000 < 1000)
    by (split; [apply Z.div_pos; lia|apply Z.div_lt_upper_bound; lia]).
  assert (es_inv None s1) as Hi1 by (destruct Hi; by split).
  assert (clock_ok s1) as Hck by (unfold clock_ok, reading; cbn; unfold reading; lia).
  destruct (incomingAlarm_ok s1 Hi1) as (d & -> & _); [by apply some_armed_node|done|done|].
  cbn [obind]. unfold EpollServer_runReadEvent.
  assert (exists b s2, (if rv =? 0 then Ret (false, s1)
      else s <- runReadEvent_loop onReadable (ztake rv fds) s1 ;; Ret (true, s)) = Ret (b, s2) /\
    live s2 /\ es_now_ s2 = es_now_ s1 /\ (length (due_entries s2) <= length (due_entries s1))%nat)
    as (b & s2 & E & [Hi2 Hd2 Ha2] & Hn2 & Hle2).
  { destruct (rv =? 0); [by exists false, s1|].
    destruct (runReadEvent_loop_live (ztake rv fds) s1) as (s2 & -> & ? & ? & ?); [done|done|].
    by exists true, s2. }
  rewrite (proj2 (Z.ltb_ge _ _) Hrv), E. cbn [obind].
  destruct (runAlarmEvent_keeps _ _ loop_frame onAlarm Hdel (S (length (es_alarm_map_ s))) s2)
    as (s' & -> & ? & Hn & ? & ? & Hf); [done|unfold clock_ok; by rewrite Hn2|done|done| |].
  { apply Nat.lt_succ_r. etrans; [exact Hle2|]. apply (sublist_length (due_entries s1) (es_alarm_map_ s1)), sublist_filter. }
  exists b, s'. rewrite Hn, Hn2 in Hf. split_and!; try done. by rewrite Hn, Hn2.
Qed.
End alive.

(** C8. The thread of the event loop does not stop: with delegates and callbacks that use
    the operations of alarms, do not arm alarms in the past and leave one armed, and a
    system whose clock can be read and whose [epoll_wait] does not fail, every round
    returns, whichever descriptors are readable; the registry of alarms stays intact, some alarm
    stays armed (an empty map would be dereferenced), and after a round no alarm is due at
    the time read at its beginning. *)
Theorem startEventLoop_goes_on (onAlarm : AlarmId -> EpollServer -> outcome EpollServer)
  (onReadable : nat -> EpollServer -> outcome EpollServer) (rounds : list (Z * Z * (Z * list Z)))
  (sec usec rv : Z) (fds : list Z) (s : EpollServer) :
  delegate_keeps deadlines_ok some_armed onAlarm -> callback_keeps onReadable -> live s ->
  Forall (fun '(sec, usec, (rv, _)) => clock_reading sec usec /\ 0 <= rv) rounds ->
  clock_reading sec usec -> 0 <= rv ->
  exists s', ProtocolStack_startEventLoop onAlarm onReadable
      (((fun '(sec, usec, ev) => mkRound (Some (sec, usec)) ev) <$> rounds)
        ++ [mkRound (Some (sec, usec)) (rv, fds)]) s = Ret (Some s') /\
    live s' /\ time_ (es_now_ s') = reading sec usec /\
    Forall (fun e => reading sec usec < en_deadline e) (es_alarm_map_ s').
Proof.
  intros Hdel Hcb Hs Hall Hck Hrv. revert s Hs.
  induction Hall as [|[[sec1 usec1] [rv1 fds1]] rounds [Hck1 Hrv1] _ IH]; intros s Hs;
    cbn [fmap list_fmap app ProtocolStack_startEventLoop]; change (Delta_fromMilliseconds 1000) with (Ret (mkDelta 1000000));
    cbn [obind rd_events rd_clock].
  - destruct (runEventLoop_live onAlarm onReadable Hdel Hcb sec usec rv fds (mkDelta 1000000) s)
      as (b & s' & -> & ?); [done..|]. by exists s'.
  - destruct (runEventLoop_live onAlarm onReadable Hdel Hcb sec1 usec1 rv1 fds1 (mkDelta 1000000) s)
      as (b & s' & -> & ? & _); [done..|]. by apply IH.
Qed.

(** A callback that, like those of the routing layer, arms an alarm again, if it is there. *)
Definition touch (cb : nat) (s : EpollServer) : outcome EpollServer :=
  match es_alarms s !! cb with Some _ => rearm cb s | None => Ret s end.

(** What the two have in common. *)
Lemma rearm_live o a s al :
  es_inv o s -> clock_ok s -> es_alarms s !! a = Some al -> deadlines_ok s ->
  0 <= time_ (ea_deadline_ al) <= kInfiniteTimeUs ->
  exists s', rearm a s = Ret s' /\ es_inv o s' /\ es_now_ s' = es_now_ s /\
    (length (due_entries s') <= length (due_entries s))%nat /\ deadlines_ok s' /\
    armed s' = spec_cmd (CmdUpdate a (mkTimeBase (time_ (es_now_ s) + 3000000)) update_granularity) (armed s).
Proof.
  intros Hinv Hck Ha Hd Hal. unfold rearm, TimeBase_add, clock_ok, EpollServer_now in *.
  cbn [time_offset_]. rewrite s64_ok by word. cbn [obind].
  destruct (update_future o s a al (mkTimeBase (time_ (es_now_ s) + 3000000)) update_granularity Hinv Ha)
    as (s' & -> & ? & ? & ? & HP & ?); [done|lia|cbn; unfold kInfiniteTimeUs; lia|].
  exists s'. split_and!; try done. apply HP; [|done]. intros t. cbn. unfold kInfiniteTimeUs. lia.
Qed.
Lemma rearm_keeps : delegate_keeps deadlines_ok some_armed rearm.
Proof.
  intros o a s Hinv Hck [al Ha] Hun Hd. pose proof Hun as Hun'.
  rewrite (armed_lookup _ _ _ Ha) in Hun'. apply al_armed_None in Hun'.
  destruct (rearm_live o a s al Hinv Hck Ha Hd) as (s' & -> & ? & ? & ? & ? & Har);
    [rewrite Hun'; unfold kInfiniteTimeUs; lia|].
  exists s'. split_and!; try done. unfold some_armed. rewrite Har. cbn [spec_cmd time_].
  unfold clock_ok in Hck. rewrite Hun. cbn [default]. 
  rewrite (proj2 (Z.eqb_neq _ _)) by lia. rewrite (proj2 (Z.ltb_ge _ _)) by (cbn; lia).
  apply insert_non_empty.
Qed.
Lemma touch_keeps : callback_keeps touch.
Proof.
  intros cb s Hinv Hck Hd Ha. unfold touch. destruct (es_alarms s !! cb) as [al|] eqn:E; [|by exists s].
  destruct (rearm_live None cb s al Hinv Hck E Hd) as (s' & -> & ? & ? & ? & ? & Har).
  { destruct (decide (time_ (ea_deadline_ al) = 0)) as [->|Hne]; [unfold kInfiniteTimeUs; lia|].
    destruct (inv_set _ _ Hinv cb al E Hne) as (t & _ & _ & Hin).
    unfold deadlines_ok in Hd. rewrite Forall_forall in Hd. apply (Hd _ Hin). }
  exists s'. split_and!; try done. unfold some_armed in *. rewrite Har. cbn [spec_cmd time_].
  unfold clock_ok in Hck. rewrite (proj2 (Z.eqb_neq _ _)) by lia. case_match; [done|apply insert_non_empty].
Qed.

Lemma startEventLoop_goes_on_witness :
  exists s', ProtocolStack_startEventLoop rearm touch
      (((fun '(sec, usec, ev) => mkRound (Some (sec, usec)) ev) <$> [(2, 500, (1, [7])); (3, 0, (0, []))])
        ++ [mkRound (Some (9, 0)) (0, [])]) example_armed = Ret (Some s') /\
    live s' /\ time_ (es_now_ s') = reading 9 0 /\
    Forall (fun e => reading 9 0 < en_deadline e) (es_alarm_map_ s').
Proof.
  apply startEventLoop_goes_on.
  - apply rearm_keeps.
  - apply touch_keeps.
  - split.
    + apply example_armed_inv.
    + unfold deadlines_ok. rewrite example_armed_map.
      repeat constructor; cbn; unfold kInfiniteTimeUs; lia.
    + vm_compute. congruence.
  - repeat constructor; cbn; lia.
  - split; lia.
  - lia.
Defined.
