(* ===== verification/MockAlarm.v ===== *)
(** src/src/util/mock_alarm.{h,cpp} and mock_alarm_factory.{h,cpp}: the alarms of the unit
    tests. They register the way the alarms of the event loop do; the clock is set by the
    test. [EXPECT_TRUE] only reports. *)

From stdpp Require Import base list numbers gmap sorting.
From S2P Require Import Prelude TimeBase Alarm EpollServer.

Open Scope Z_scope.
Open Scope outcome_scope.

(** The factory with the alarms it has created; see [EpollServer] for the nodes of the map
    and their tokens. *)
Record MockAlarmFactory : Type := mkMockAlarmFactory {
  mf_alarm_map_ : AlarmMap;
  mf_now_ : TimeBase;
  mf_alarms : gmap AlarmId EpollAlarm;
  mf_fresh : nat
}.
Definition MockAlarmFactory_new : MockAlarmFactory := mkMockAlarmFactory [] (mkTimeBase 0) ∅ 0.
Definition mf_put_alarms (al : gmap AlarmId EpollAlarm) (m : MockAlarmFactory) : MockAlarmFactory :=
  mkMockAlarmFactory (mf_alarm_map_ m) (mf_now_ m) al (mf_fresh m).
Definition mf_put_now (t : TimeBase) (m : MockAlarmFactory) : MockAlarmFactory :=
  mkMockAlarmFactory (mf_alarm_map_ m) t (mf_alarms m) (mf_fresh m).
Definition mf_alarm (a : AlarmId) (m : MockAlarmFactory) : outcome EpollAlarm :=
  match mf_alarms m !! a with Some al => Ret al | None => Undef end.

Definition MockAlarmFactory_registerAlarm (a : AlarmId) (m : MockAlarmFactory)
  : outcome (nat * MockAlarmFactory) :=
  al <- mf_alarm a m ;;
  let t := mf_fresh m in
  Ret (t, mkMockAlarmFactory
            (alarm_map_emplace (mkEntry (time_ (ea_deadline_ al)) t a) (mf_alarm_map_ m))
            (mf_now_ m) (mf_alarms m) (S t)).
Definition MockAlarmFactory_unregisterAlarm (t : nat) (m : MockAlarmFactory) : outcome MockAlarmFactory :=
  map <- alarm_map_erase t (mf_alarm_map_ m) ;;
  Ret (mkMockAlarmFactory map (mf_now_ m) (mf_alarms m) (mf_fresh m)).

Definition MockAlarm_setImpl (a : AlarmId) (m : MockAlarmFactory) : outcome MockAlarmFactory :=
  let* (t, m) := MockAlarmFactory_registerAlarm a m in
  al <- mf_alarm a m ;;
  Ret (mf_put_alarms (<[a := mkEpollAlarm (ea_deadline_ al) (Some t)]> (mf_alarms m)) m).
Definition MockAlarm_cancelImpl (a : AlarmId) (m : MockAlarmFactory) : outcome MockAlarmFactory :=
  al <- mf_alarm a m ;;
  match ea_token_ al with
  | Some t => MockAlarmFactory_unregisterAlarm t m
  | None => Undef
  end.
#[global] Instance MockAlarm_impl : AlarmImpl MockAlarmFactory := {|
  alarm_deadline a m := al <- mf_alarm a m ;; Ret (ea_deadline_ al);
  alarm_put_deadline a d m :=
    al <- mf_alarm a m ;; Ret (mf_put_alarms (<[a := mkEpollAlarm d (ea_token_ al)]> (mf_alarms m)) m);
  alarm_setImpl := MockAlarm_setImpl;
  alarm_cancelImpl := MockAlarm_cancelImpl
|}.
Definition MockAlarmFactory_createAlarm (m : MockAlarmFactory) : AlarmId * MockAlarmFactory :=
  let a := mf_fresh m in
  (a, mkMockAlarmFactory (mf_alarm_map_ m) (mf_now_ m)
        (<[a := mkEpollAlarm TimeBase_zero None]> (mf_alarms m)) (S a)).
Definition MockAlarm_destroy (a : AlarmId) (m : MockAlarmFactory) : outcome MockAlarmFactory :=
  m <- Alarm_cancel a m ;; Ret (mf_put_alarms (delete a (mf_alarms m)) m).
#[global] Instance MockAlarmFactory_impl : AlarmFactory MockAlarmFactory := {|
  factory_now := mf_now_;
  factory_createAlarm := MockAlarmFactory_createAlarm
|}.

Section run.
Context (onAlarm : AlarmId -> MockAlarmFactory -> outcome MockAlarmFactory).

Fixpoint MockAlarmFactory_runAlarmEvent (fuel : nat) (m : MockAlarmFactory)
  : outcome (option MockAlarmFactory) :=
  match fuel with
  | O => Ret None
  | S fuel =>
      match mf_alarm_map_ m with
      | [] => Ret (Some m)
      | e :: _ =>
          if TimeBase_geb (mf_now_ m) (mkTimeBase (en_deadline e)) then
            m <- Alarm_fire onAlarm (en_alarm e) m ;;
            m <- MockAlarmFactory_unregisterAlarm (en_token e) m ;;
            MockAlarmFactory_runAlarmEvent fuel m
          else Ret (Some m)
      end
  end.

(** [elapse]: the clock goes from alarm to alarm. *)
Fixpoint MockAlarmFactory_elapse (fuel : nat) (delta : Delta) (m : MockAlarmFactory)
  : outcome (option MockAlarmFactory) :=
  match fuel with
  | O => Ret None
  | S fuel =>
      if Delta_gtb delta Delta_zero then
        step <- match mf_alarm_map_ m with
                | [] => Ret delta
                | e :: _ =>
                    d <- TimeBase_sub (mkTimeBase (en_deadline e)) (mf_now_ m) ;; Ret (Delta_min delta d)
                end ;;
        now <- TimeBase_add (mf_now_ m) step ;;
        delta <- Delta_sub delta step ;;
        r <- MockAlarmFactory_runAlarmEvent (S (length (mf_alarm_map_ m))) (mf_put_now now m) ;;
        match r with
        | None => Ret None
        | Some m => MockAlarmFactory_elapse fuel delta m
        end
      else Ret (Some m)
  end.
End run.

(** ** The mock as a server

    The factory keeps its alarms as the event loop does: seen as a server without
    descriptors, its operations are those of the server, so that the invariant and the
    lemmas of [EpollServer] apply. *)
Definition mf_to (m : MockAlarmFactory) : EpollServer :=
  mkEpollServer 0 ∅ (mf_alarm_map_ m) (mf_now_ m) (mf_alarms m) (mf_fresh m).
Definition lift_o (r : outcome MockAlarmFactory) : outcome EpollServer := m <- r ;; Ret (mf_to m).

Lemma lift_bind (r : outcome MockAlarmFactory) (f : EpollServer -> outcome EpollServer)
  (g : MockAlarmFactory -> outcome MockAlarmFactory) :
  (forall m, f (mf_to m) = lift_o (g m)) -> (s <- lift_o r ;; f s) = lift_o (m <- r ;; g m).
Proof. intros H. destruct r; cbn; [apply H|done..]. Qed.
Lemma deadline_to a m : alarm_deadline a (mf_to m) = alarm_deadline a m.
Proof. done. Qed.
Lemma put_deadline_to a d m :
  alarm_put_deadline a d (mf_to m) = lift_o (alarm_put_deadline a d m).
Proof. cbn. unfold EpollAlarm_put_deadline, es_alarm, mf_alarm. cbn. by destruct (_ !! a). Qed.
Lemma unregister_to t m :
  EpollServer_unregisterAlarm t (mf_to m) = lift_o (MockAlarmFactory_unregisterAlarm t m).
Proof.
  unfold EpollServer_unregisterAlarm, MockAlarmFactory_unregisterAlarm. cbn. by destruct (alarm_map_erase _ _).
Qed.
Lemma setImpl_to a m : alarm_setImpl a (mf_to m) = lift_o (alarm_setImpl a m).
Proof.
  cbn. unfold EpollAlarm_setImpl, MockAlarm_setImpl, EpollServer_registerAlarm,
    MockAlarmFactory_registerAlarm, es_alarm, mf_alarm. cbn.
  destruct (mf_alarms m !! a) eqn:E; [|done]. cbn. rewrite E. done.
Qed.
Lemma cancelImpl_to a m : alarm_cancelImpl a (mf_to m) = lift_o (alarm_cancelImpl a m).
Proof.
  cbn. unfold EpollAlarm_cancelImpl, MockAlarm_cancelImpl, es_alarm, mf_alarm. cbn.
  destruct (mf_alarms m !! a) as [[d [t|]]|]; [|done..]. apply unregister_to.
Qed.
Create Rewrite HintDb mock.
#[local] Hint Rewrite deadline_to put_deadline_to setImpl_to cancelImpl_to : mock.
#[local] Ltac mock_ops :=
  repeat (autorewrite with mock; first
    [done | apply lift_bind; intros ?
    | match goal with
      | |- context [@alarm_deadline MockAlarmFactory _ ?a ?m] => destruct (alarm_deadline a m); cbn [obind]
      end | case_match]).

Lemma cancel_to a m : Alarm_cancel a (mf_to m) = lift_o (Alarm_cancel a m).
Proof. unfold Alarm_cancel, Alarm_isSet. mock_ops. Qed.
Lemma updateImpl_to a m : Alarm_updateImpl a (mf_to m) = lift_o (Alarm_updateImpl a m).
Proof. unfold Alarm_updateImpl. mock_ops. Qed.
#[local] Hint Rewrite cancel_to updateImpl_to : mock.
Lemma update_to a t g m : Alarm_update a t g (mf_to m) = lift_o (Alarm_update a t g m).
Proof.
  unfold Alarm_update, Alarm_isSet. autorewrite with mock. case_match; [done|].
  destruct (alarm_deadline a m); [|done..]. cbn [obind].
  destruct (TimeBase_sub _ _); [|done..]. cbn [obind].
  destruct (abs64 _); [|done..]. cbn [obind]. mock_ops.
Qed.

(** ** [elapse]

    No alarm lies behind the clock: what [registerAlarm] expects. *)
Definition ahead (m : MockAlarmFactory) : Prop :=
  Forall (fun e => time_ (mf_now_ m) <= en_deadline e <= kInfiniteTimeUs) (mf_alarm_map_ m).
Definition future (m : MockAlarmFactory) : Prop :=
  Forall (fun e => time_ (mf_now_ m) < en_deadline e <= kInfiniteTimeUs) (mf_alarm_map_ m).

(** What is asked of a delegate, and only when its alarm fires on time: it uses the
    operations of alarms and arms none for now or earlier. *)
Definition punctual_ok (onAlarm : AlarmId -> MockAlarmFactory -> outcome MockAlarmFactory) : Prop :=
  forall e m, es_inv (Some e) (mf_to m) -> clock_ok (mf_to m) -> ahead m ->
    en_deadline e = time_ (mf_now_ m) ->
    is_Some (mf_alarms m !! en_alarm e) -> armed (mf_to m) !! en_alarm e = None ->
    exists m', onAlarm (en_alarm e) m = Ret m' /\ es_inv (Some e) (mf_to m') /\
      mf_now_ m' = mf_now_ m /\ ahead m' /\
      (length (due_entries (mf_to m')) <= length (due_entries (mf_to m)))%nat.

Lemma lift_Ret r s : lift_o r = Ret s -> exists m, r = Ret m /\ s = mf_to m.
Proof. destruct r; intros [= <-]. eauto. Qed.
Lemma erase_Forall (P : entry -> Prop) t m m' :
  MockAlarmFactory_unregisterAlarm t m = Ret m' ->
  Forall P (mf_alarm_map_ m) -> Forall P (mf_alarm_map_ m').
Proof.
  unfold MockAlarmFactory_unregisterAlarm, alarm_map_erase. case_bool_decide; [|done].
  intros [= <-]. cbn. rewrite !Forall_forall. intros HP e [_ He]%list_elem_of_filter. by apply HP.
Qed.

Section elapse.
Context (onAlarm : AlarmId -> MockAlarmFactory -> outcome MockAlarmFactory).
Context (Hdel : punctual_ok onAlarm).

Lemma mock_runAlarmEvent_ok fuel m :
  es_inv None (mf_to m) -> clock_ok (mf_to m) -> ahead m ->
  (length (due_entries (mf_to m)) < fuel)%nat ->
  exists m', MockAlarmFactory_runAlarmEvent onAlarm fuel m = Ret (Some m') /\
    es_inv None (mf_to m') /\ mf_now_ m' = mf_now_ m /\ future m'.
Proof.
  revert m. induction fuel as [|fuel IH]; intros m Hinv Hck Hah Hf; [lia|].
  cbn [MockAlarmFactory_runAlarmEvent].
  destruct (mf_alarm_map_ m) as [|e l] eqn:Hm.
  { exists m. split_and!; try done. unfold future. by rewrite Hm. }
  unfold TimeBase_geb, TimeBase_ltb. cbn [time_].
  pose proof Hah as Hah'. unfold ahead in Hah'. rewrite Hm in Hah'. apply Forall_cons_1 in Hah' as [He _].
  destruct (Z.ltb_spec (time_ (mf_now_ m)) (en_deadline e)) as [Hlt|Hge]; cbn [negb].
  { exists m. split_and!; try done. unfold future, ahead in *. pose proof (inv_sorted _ _ Hinv) as Hso.
    cbn in Hso. rewrite Hm in *. apply StronglySorted_inv in Hso as [_ Hso].
    rewrite Forall_cons. split; [lia|]. apply Forall_cons_1 in Hah as [_ Hah].
    rewrite Forall_forall in *. intros x Hx. specialize (Hso x Hx). specialize (Hah x Hx).
    unfold deadline_le in Hso. lia. }
  destruct (fire_step (mf_to m) e l Hinv Hm) as (al & Ha & Hset & Hi1 & Har1). cbn in Ha.
  unfold Alarm_fire, Alarm_isSet. cbn. unfold mf_alarm. rewrite Ha. cbn. unfold al_set in Hset.
  unfold TimeBase_isInitialized at 1. rewrite (Z.eqb_sym 0), (proj2 (Z.eqb_neq _ _) Hset). cbn.
  set (m1 := mf_put_alarms _ m) in *.
  destruct (Hdel e m1 Hi1 Hck Hah) as (m2 & -> & Hi2 & Hn2 & Hah2 & Hle2); [cbn; lia| |done|].
  { cbn. eexists. apply lookup_insert_eq. }
  cbn [obind]. destruct (orphan_erase (mf_to m2) e Hi2) as (s3 & E3 & Hi3 & Hn3 & Hlt3).
  rewrite unregister_to in E3. apply lift_Ret in E3 as (m3 & E3 & ->). rewrite E3. cbn [obind].
  cbn in Hn3. change (mf_now_ m1) with (mf_now_ m) in Hn2.
  assert (due (mf_to m2) e) as Hdue by (unfold due; cbn; rewrite Hn2; lia).
  specialize (Hlt3 Hdue). change (due_entries (mf_to m1)) with (due_entries (mf_to m)) in Hle2.
  destruct (IH m3 Hi3) as (m' & -> & ? & Hn & ?).
  - unfold clock_ok in *. cbn in *. by rewrite Hn3, Hn2.
  - unfold ahead. rewrite Hn3. by eapply erase_Forall.
  - lia.
  - exists m'. split_and!; try done. congruence.
Qed.

(** One round of [elapse]. *)
Lemma elapse_step fuel m delta :
  es_inv None (mf_to m) -> ahead m -> 0 <= time_ (mf_now_ m) -> 0 < time_offset_ delta ->
  time_ (mf_now_ m) + time_offset_ delta < 4611686018427387904 ->
  exists m' step, 0 <= step <= time_offset_ delta /\ (future m -> 0 < step) /\
    MockAlarmFactory_elapse onAlarm (S fuel) delta m
      = MockAlarmFactory_elapse onAlarm fuel (mkDelta (time_offset_ delta - step)) m' /\
    es_inv None (mf_to m') /\ time_ (mf_now_ m') = time_ (mf_now_ m) + step /\ future m'.
Proof.
  intros Hinv Hah H0 Hd Hb. cbn [MockAlarmFactory_elapse].
  unfold Delta_gtb, Delta_ltb. cbn [Delta_zero time_offset_]. rewrite (proj2 (Z.ltb_lt _ _) Hd).
  assert (exists step, 0 <= step <= time_offset_ delta /\ (future m -> 0 < step) /\
    0 < time_ (mf_now_ m) + step /\
    Forall (fun e => time_ (mf_now_ m) + step <= en_deadline e <= kInfiniteTimeUs) (mf_alarm_map_ m) /\
    match mf_alarm_map_ m with
    | [] => Ret delta
    | e :: _ => d <- TimeBase_sub (mkTimeBase (en_deadline e)) (mf_now_ m) ;; Ret (Delta_min delta d)
    end = Ret (mkDelta step)) as (step & Hs & Hpos & Hnow & Hall & ->).
  { unfold ahead, future in *. pose proof (inv_sorted _ _ Hinv) as Hso. cbn in Hso.
    destruct (mf_alarm_map_ m) as [|e l] eqn:Hm.
    { exists (time_offset_ delta). destruct delta. cbn in *. split_and!; try done; lia. }
    destruct (inv_entry _ _ Hinv e) as (al & _ & Hne & _); [cbn; rewrite Hm; by left|done|].
    apply StronglySorted_inv in Hso as [_ Hso]. apply Forall_cons_1 in Hah as [He Hah].
    unfold TimeBase_sub, kInfiniteTimeUs in *. cbn [time_]. rewrite s64_ok by word. cbn [obind].
    exists (Z.min (time_offset_ delta) (en_deadline e - time_ (mf_now_ m))).
    split_and!; try lia.
    - intros [? _]%Forall_cons_1. lia.
    - constructor; [lia|]. rewrite Forall_forall in *. intros x Hx. specialize (Hso x Hx).
      specialize (Hah x Hx). unfold deadline_le in Hso. lia.
    - unfold Delta_min, Delta_ltb. destruct delta as [d]. cbn.
      destruct (Z.ltb_spec (en_deadline e - time_ (mf_now_ m)) d); do 2 f_equal; lia. }
  cbn [obind]. unfold TimeBase_add, Delta_sub. cbn [time_offset_].
  rewrite s64_ok by word. cbn [obind]. rewrite s64_ok by word. cbn [obind].
  set (m1 := mf_put_now _ m).
  destruct (mock_runAlarmEvent_ok (S (length (mf_alarm_map_ m))) m1) as (m' & -> & ? & Hn & ?).
  - by destruct Hinv.
  - unfold clock_ok. cbn. lia.
  - exact Hall.
  - apply Nat.lt_succ_r. apply sublist_length, sublist_filter.
  - exists m', step. split_and!; try done; try lia. by rewrite Hn.
Qed.

Lemma elapse_future fuel : forall m delta,
  es_inv None (mf_to m) -> future m -> 0 <= time_ (mf_now_ m) -> 0 <= time_offset_ delta ->
  time_ (mf_now_ m) + time_offset_ delta < 4611686018427387904 ->
  (Z.to_nat (time_offset_ delta) < fuel)%nat ->
  exists m', MockAlarmFactory_elapse onAlarm fuel delta m = Ret (Some m') /\
    es_inv None (mf_to m') /\ time_ (mf_now_ m') = time_ (mf_now_ m) + time_offset_ delta /\ future m'.
Proof.
  induction fuel as [|fuel IH]; intros m delta Hinv Hfu H0 Hd Hb Hf; [lia|].
  destruct (decide (time_offset_ delta = 0)) as [E|].
  { cbn. unfold Delta_gtb, Delta_ltb. cbn. rewrite E. exists m. split_and!; try done. lia. }
  assert (ahead m) as Hah by (eapply Forall_impl; [exact Hfu|]; cbn; lia).
  destruct (elapse_step fuel m delta Hinv Hah H0 ltac:(lia) Hb) as (m' & step & Hs & Hp & -> & Hi & Hn & Hf').
  specialize (Hp Hfu).
  destruct (IH m' (mkDelta (time_offset_ delta - step))) as (m'' & -> & ? & Hn' & ?); cbn; try done; try lia.
  exists m''. split_and!; try done. rewrite Hn'. cbn. lia.
Qed.
End elapse.

(** C30. The clock of the unit tests. When no alarm lies behind the clock, [elapse]
    returns, having advanced the clock by exactly [delta]; the alarms are left
    registered as they should be, and none of them is due. Every alarm fires on time:
    the contract of the delegates holds only at the deadline of their alarm. One round
    for each microsecond and two more are enough. *)
Theorem mock_elapse (onAlarm : AlarmId -> MockAlarmFactory -> outcome MockAlarmFactory)
  (m : MockAlarmFactory) (delta : Delta) :
  punctual_ok onAlarm -> es_inv None (mf_to m) -> ahead m ->
  0 <= time_ (mf_now_ m) -> 0 <= time_offset_ delta ->
  time_ (mf_now_ m) + time_offset_ delta < 4611686018427387904 -> 
  exists m', MockAlarmFactory_elapse onAlarm (S (S (Z.to_nat (time_offset_ delta)))) delta m = Ret (Some m') /\
    es_inv None (mf_to m') /\ time_ (mf_now_ m') = time_ (mf_now_ m) + time_offset_ delta /\
    (0 < time_offset_ delta -> future m').
Proof.
  intros Hdel Hinv Hah H0 Hd Hb. destruct (decide (time_offset_ delta = 0)) as [E|].
  { exists m. rewrite E. cbn [MockAlarmFactory_elapse]. unfold Delta_gtb, Delta_ltb. cbn. rewrite E.
    split_and!; try done; lia. }
  destruct (elapse_step onAlarm Hdel (S (Z.to_nat (time_offset_ delta))) m delta Hinv Hah H0 ltac:(lia) Hb)
    as (m' & step & Hs & _ & -> & Hi & Hn & Hf).
  destruct (elapse_future onAlarm Hdel (S (Z.to_nat (time_offset_ delta))) m'
    (mkDelta (time_offset_ delta - step))) as (m'' & -> & ? & Hn' & ?); cbn; try done; try lia.
  exists m''. split_and!; try done. rewrite Hn'. cbn. lia.
Qed.

(** A delegate that arms its alarm again, a second later. *)
Definition mock_rearm (a : AlarmId) (m : MockAlarmFactory) : outcome MockAlarmFactory :=
  t <- TimeBase_add (factory_now m) (mkDelta 1000000) ;; Alarm_update a t update_granularity m.

Lemma mock_rearm_ok : punctual_ok mock_rearm.
Proof.
  intros e m Hinv Hck Hah He [al Ha] Hun. unfold mock_rearm, TimeBase_add, clock_ok in *. cbn in Hck |- *.
  rewrite s64_ok by word. cbn [obind].
  rewrite (armed_lookup (mf_to m) _ _ Ha) in Hun. apply al_armed_None in Hun.
  destruct (update_future (Some e) (mf_to m) (en_alarm e) al
              (mkTimeBase (time_ (mf_now_ m) + 1000000)) update_granularity
              Hinv Ha) as (s' & E & ? & Hn & ? & HP & _);
    [rewrite Hun; unfold kInfiniteTimeUs; lia|cbn; lia|cbn; unfold kInfiniteTimeUs; lia|].
  rewrite update_to in E. apply lift_Ret in E as (m' & -> & ->). cbn in Hn.
  exists m'. split_and!; try done. unfold ahead. rewrite Hn. apply HP; [|done].
  intros t. cbn. unfold kInfiniteTimeUs. lia.
Qed.

(** Two alarms, as the tests create them. *)
Definition example_mock : MockAlarmFactory :=
  let '(a, m) := MockAlarmFactory_createAlarm MockAlarmFactory_new in
  let '(b, m) := MockAlarmFactory_createAlarm m in
  match (m <- Alarm_set Debug a (mkTimeBase 900000) m ;; Alarm_set Debug b (mkTimeBase 800000) m) with
  | Ret m => m
  | _ => MockAlarmFactory_new
  end.

Lemma example_mock_inv : es_inv None (mf_to example_mock).
Proof.
  destruct (run_cmds_refines Debug
    [CmdCreate; CmdCreate; CmdSet 0 (mkTimeBase 900000); CmdSet 1 (mkTimeBase 800000)]
    (mf_to MockAlarmFactory_new)) as (s & E & Hs & _).
  - apply es_inv_empty.
  - cmd_check; [done|]. cmd_check; [done|].
    cmd_check; [split_and!; [by eexists|reflexivity|done]|].
    cmd_check; [split_and!; [by eexists|reflexivity|done]|done].
  - assert (s = mf_to example_mock) as ->; [|done].
    vm_compute in E. injection E as <-. vm_compute. reflexivity.
Qed.

Lemma mock_elapse_witness :
  exists m', MockAlarmFactory_elapse mock_rearm (S (S (Z.to_nat 2500000))) (mkDelta 2500000) example_mock
      = Ret (Some m') /\
    es_inv None (mf_to m') /\ time_ (mf_now_ m') = 0 + 2500000 /\ (0 < 2500000 -> future m').
Proof.
  apply (mock_elapse mock_rearm example_mock (mkDelta 2500000)).
  - apply mock_rearm_ok.
  - apply example_mock_inv.
  - repeat constructor; vm_compute; congruence.
  - vm_compute. congruence.
  - cbn. lia.
  - vm_compute. congruence.
Defined.
