(* ===== verification/RingBuffer.v ===== *)
(** src/src/base/ring_buffer.{h,cpp}: the byte ring used as send and receive
    buffer of a TCP session, refined against a bounded FIFO of bytes. *)

From stdpp Require Import base list numbers.
From S2P Require Import Prelude.

Open Scope Z_scope.
Open Scope outcome_scope.

Record RingBuffer : Type := mkRingBuffer {
  rb_size_ : Z;
  rb_buffer_ : list Z;
  rb_begin_ : Z;
  rb_end_ : Z
}.

(** [block] is the storage [new char[size]] returns, its bytes arbitrary. *)
Definition RingBuffer_new (size : Z) (block : list Z) : RingBuffer :=
  mkRingBuffer size block 0 0.

Definition RingBuffer_empty (rb : RingBuffer) : bool := rb_begin_ rb =? rb_end_ rb.
Definition RingBuffer_full (rb : RingBuffer) : bool :=
  u64 (rb_begin_ rb + rb_size_ rb) =? rb_end_ rb.
Definition RingBuffer_remaining (rb : RingBuffer) : Z := u64 (rb_end_ rb - rb_begin_ rb).
Definition RingBuffer_free (rb : RingBuffer) : Z :=
  u64 (rb_size_ rb - RingBuffer_remaining rb).

(** The bytes copied to the caller's buffer and the new state; the C++ return
    value is the number of these bytes. *)
Definition RingBuffer_read (bld : build) (rb : RingBuffer) (length : Z)
  : outcome (list Z * RingBuffer) :=
  if RingBuffer_empty rb then Ret ([], rb)
  else
    let length := Z.min length (RingBuffer_remaining rb) in
    DCHECK bld (rb_begin_ rb <? rb_size_ rb) ;;;
    if rb_size_ rb <=? u64 (rb_begin_ rb + length) then
      let len1 := u64 (rb_size_ rb - rb_begin_ rb) in
      d1 <- mem_read (rb_buffer_ rb) (rb_begin_ rb) len1 ;;
      d2 <- mem_read (rb_buffer_ rb) 0 (u64 (length - len1)) ;;
      Ret (d1 ++ d2,
           mkRingBuffer (rb_size_ rb) (rb_buffer_ rb)
             (u64 (rb_begin_ rb + length - rb_size_ rb)) (u64 (rb_end_ rb - rb_size_ rb)))
    else
      d <- mem_read (rb_buffer_ rb) (rb_begin_ rb) length ;;
      Ret (d, mkRingBuffer (rb_size_ rb) (rb_buffer_ rb)
                (u64 (rb_begin_ rb + length)) (rb_end_ rb)).

(** [buffer] holds at least [length] bytes. The number of bytes accepted and the
    new state. *)
Definition RingBuffer_write (bld : build) (rb : RingBuffer) (buffer : list Z) (length : Z)
  : outcome (Z * RingBuffer) :=
  if RingBuffer_full rb then Ret (0, rb)
  else
    let length := Z.min length (RingBuffer_free rb) in
    DCHECK bld (rb_begin_ rb <? rb_size_ rb) ;;;
    if rb_size_ rb <=? rb_end_ rb then
      d <- mem_read buffer 0 length ;;
      m <- mem_write (rb_buffer_ rb) (rb_end_ rb - rb_size_ rb) d ;;
      Ret (length, mkRingBuffer (rb_size_ rb) m (rb_begin_ rb) (rb_end_ rb))
    else if rb_size_ rb <=? u64 (rb_end_ rb + length) then
      let len1 := u64 (rb_size_ rb - rb_end_ rb) in
      d1 <- mem_read buffer 0 len1 ;;
      m1 <- mem_write (rb_buffer_ rb) (rb_end_ rb) d1 ;;
      d2 <- mem_read buffer len1 (u64 (length - len1)) ;;
      m2 <- mem_write m1 0 d2 ;;
      Ret (length, mkRingBuffer (rb_size_ rb) m2 (rb_begin_ rb) (u64 (rb_end_ rb + length)))
    else
      d <- mem_read buffer 0 length ;;
      m <- mem_write (rb_buffer_ rb) (rb_end_ rb) d ;;
      Ret (length, mkRingBuffer (rb_size_ rb) m (rb_begin_ rb) (u64 (rb_end_ rb + length))).

Definition RingBuffer_read_offset (bld : build) (rb : RingBuffer) (offset length : Z)
  : outcome (list Z) :=
  let begin_off := u64 (rb_begin_ rb + offset) in
  let length := Z.min length (u64 (rb_end_ rb - begin_off)) in
  if length =? 0 then Ret []
  else
    DCHECK bld (u64 (begin_off + length) <=? rb_end_ rb) ;;;
    if begin_off <? rb_size_ rb then
      if rb_size_ rb <=? u64 (begin_off + length) then
        let len1 := u64 (rb_size_ rb - begin_off) in
        let len2 := u64 (length - len1) in
        d1 <- mem_read (rb_buffer_ rb) begin_off len1 ;;
        d2 <- mem_read (rb_buffer_ rb) 0 len2 ;;
        Ret (d1 ++ d2)
      else mem_read (rb_buffer_ rb) begin_off length
    else mem_read (rb_buffer_ rb) (begin_off - rb_size_ rb) length.

Definition RingBuffer_consume (bld : build) (rb : RingBuffer) (length : Z)
  : outcome (Z * RingBuffer) :=
  let length := Z.min length (RingBuffer_remaining rb) in
  DCHECK bld (rb_begin_ rb <? rb_size_ rb) ;;;
  if rb_size_ rb <=? u64 (rb_begin_ rb + length) then
    Ret (length, mkRingBuffer (rb_size_ rb) (rb_buffer_ rb)
                   (u64 (rb_begin_ rb + length - rb_size_ rb))
                   (u64 (rb_end_ rb - rb_size_ rb)))
  else
    Ret (length, mkRingBuffer (rb_size_ rb) (rb_buffer_ rb)
                   (u64 (rb_begin_ rb + length)) (rb_end_ rb)).

(** ** Invariant and abstraction *)
Record rb_inv (rb : RingBuffer) : Prop := {
  rb_inv_size : 0 < rb_size_ rb < 4611686018427387904;
  rb_inv_block : zlen (rb_buffer_ rb) = rb_size_ rb;
  rb_inv_begin : 0 <= rb_begin_ rb < rb_size_ rb;
  rb_inv_end : rb_begin_ rb <= rb_end_ rb <= rb_begin_ rb + rb_size_ rb;
  rb_inv_bytes : byte_list (rb_buffer_ rb)
}.

(** The bytes in the ring, oldest first: a window of the doubled block. *)
Definition rb_contents (rb : RingBuffer) : list Z :=
  ztake (rb_end_ rb - rb_begin_ rb) (zdrop (rb_begin_ rb) (rb_buffer_ rb ++ rb_buffer_ rb)).

Lemma zlen_rb_contents rb : rb_inv rb -> zlen (rb_contents rb) = rb_end_ rb - rb_begin_ rb.
Proof. intros [? ? ? ? ?]. unfold rb_contents. autorewrite with zlen. lia. Qed.

Lemma rb_contents_bytes rb : rb_inv rb -> byte_list (rb_contents rb).
Proof.
  intros [? ? ? ? ?]. unfold rb_contents. apply byte_list_take, byte_list_drop.
  by rewrite byte_list_app.
Qed.

Lemma rb_inv_new size block :
  0 < size < 4611686018427387904 -> zlen block = size -> byte_list block ->
  rb_inv (RingBuffer_new size block) /\ rb_contents (RingBuffer_new size block) = [].
Proof.
  intros. split; [split; cbn; try done; lia|].
  unfold rb_contents; cbn. by rewrite ztake_0.
Qed.

Lemma rb_remaining rb : rb_inv rb -> RingBuffer_remaining rb = zlen (rb_contents rb).
Proof.
  intros H. rewrite zlen_rb_contents by done. destruct H.
  unfold RingBuffer_remaining. by unwrap.
Qed.
Lemma rb_free rb : rb_inv rb -> RingBuffer_free rb = rb_size_ rb - zlen (rb_contents rb).
Proof.
  intros H. unfold RingBuffer_free. rewrite rb_remaining by done.
  rewrite zlen_rb_contents by done. destruct H. by unwrap.
Qed.
Lemma rb_full rb : rb_inv rb ->
  RingBuffer_full rb = (rb_size_ rb =? zlen (rb_contents rb)).
Proof.
  intros H. rewrite zlen_rb_contents by done. destruct H.
  unfold RingBuffer_full. unwrap. ztest; lia || done.
Qed.
Lemma rb_empty rb : rb_inv rb -> RingBuffer_empty rb = (0 =? zlen (rb_contents rb)).
Proof.
  intros H. rewrite zlen_rb_contents by done.
  unfold RingBuffer_empty. ztest; lia || done.
Qed.

(** Compare two windows of a block of known length byte by byte. *)
Ltac rb_window Hz :=
  unfold rb_contents; cbn [rb_begin_ rb_end_ rb_size_ rb_buffer_];
  apply zget_ext; intros ? ?; autorewrite with zget; autorewrite with zlen;
  rewrite ?Hz; zprune; zlist_done.

(** Dropping the first [n] bytes, in the two forms the code uses: before the end
    of the block is reached, and past it. *)
Lemma rb_advance_straight rb n :
  rb_inv rb -> 0 <= n <= rb_end_ rb - rb_begin_ rb -> rb_begin_ rb + n < rb_size_ rb ->
  let rb' := mkRingBuffer (rb_size_ rb) (rb_buffer_ rb) (rb_begin_ rb + n) (rb_end_ rb) in
  rb_inv rb' /\ rb_size_ rb' = rb_size_ rb /\ rb_contents rb' = zdrop n (rb_contents rb).
Proof.
  intros [? Hz ? ? ?] Hn ?. split_and!; [split; cbn; try done; lia | done | rb_window Hz].
Qed.
Lemma rb_advance_wrapped rb n :
  rb_inv rb -> 0 <= n <= rb_end_ rb - rb_begin_ rb -> rb_size_ rb <= rb_begin_ rb + n ->
  let rb' := mkRingBuffer (rb_size_ rb) (rb_buffer_ rb)
    (rb_begin_ rb + n - rb_size_ rb) (rb_end_ rb - rb_size_ rb) in
  rb_inv rb' /\ rb_size_ rb' = rb_size_ rb /\ rb_contents rb' = zdrop n (rb_contents rb).
Proof.
  intros [? Hz ? ? ?] Hn ?. split_and!; [split; cbn; try done; lia | done | rb_window Hz].
Qed.

Lemma RingBuffer_consume_spec bld rb n :
  rb_inv rb -> in_u64 n ->
  exists rb', RingBuffer_consume bld rb n = Ret (Z.min n (zlen (rb_contents rb)), rb') /\
    rb_inv rb' /\ rb_size_ rb' = rb_size_ rb /\
    rb_contents rb' = zdrop n (rb_contents rb).
Proof.
  intros Hinv Hn. pose proof Hinv as [? ? ? ? ?].
  pose proof (zlen_rb_contents rb Hinv) as Hc.
  unfold RingBuffer_consume. rewrite rb_remaining by done. rewrite Hc.
  rewrite DCHECK_ok by (apply Z.ltb_lt; lia). cbn [obind].
  rewrite <- zdrop_min, Hc. set (k := Z.min n (rb_end_ rb - rb_begin_ rb)).
  assert (0 <= k <= rb_end_ rb - rb_begin_ rb) by (ranges; lia). unwrap.
  destruct (Z.leb_spec (rb_size_ rb) (rb_begin_ rb + k)); unwrap; eexists; split; try done.
  - by apply rb_advance_wrapped.
  - by apply rb_advance_straight.
Qed.

(** The beginning of the window moves by what is consumed, modulo the size; a write
    leaves it where it is. *)
Lemma RingBuffer_consume_begin bld rb n k rb' :
  rb_inv rb -> in_u64 n -> RingBuffer_consume bld rb n = Ret (k, rb') ->
  rb_begin_ rb' = (rb_begin_ rb + k) mod rb_size_ rb.
Proof.
  intros Hinv Hn. pose proof Hinv as [? ? ? ? ?].
  pose proof (zlen_rb_contents rb Hinv) as Hc.
  unfold RingBuffer_consume. rewrite rb_remaining by done. rewrite Hc.
  rewrite DCHECK_ok by (apply Z.ltb_lt; lia). cbn [obind].
  assert (0 <= Z.min n (rb_end_ rb - rb_begin_ rb) <= rb_end_ rb - rb_begin_ rb) by (ranges; lia).
  set (m := Z.min n (rb_end_ rb - rb_begin_ rb)) in *. unwrap.
  destruct (Z.leb_spec (rb_size_ rb) (rb_begin_ rb + m)); unwrap; intros [= <- <-]; cbn.
  - rewrite <- (Z.mod_add _ (-1)) by lia. rewrite Z.mod_small by lia. lia.
  - by rewrite Z.mod_small by lia.
Qed.
Lemma RingBuffer_write_begin bld rb d n k rb' :
  RingBuffer_write bld rb d n = Ret (k, rb') -> rb_begin_ rb' = rb_begin_ rb.
Proof.
  unfold RingBuffer_write. destruct (RingBuffer_full rb); [by intros [= <- <-]|].
  intros (? & _ & H)%bind_Ret. repeat case_match;
    repeat (apply bind_Ret in H as (? & _ & H)); by injection H as <- <-.
Qed.

Lemma RingBuffer_read_spec bld rb n :
  rb_inv rb -> in_u64 n ->
  exists rb', RingBuffer_read bld rb n = Ret (ztake n (rb_contents rb), rb') /\
    rb_inv rb' /\ rb_size_ rb' = rb_size_ rb /\
    rb_contents rb' = zdrop n (rb_contents rb).
Proof.
  intros Hinv Hn. pose proof Hinv as [? Hz ? ? ?].
  pose proof (zlen_rb_contents rb Hinv) as Hc.
  unfold RingBuffer_read. rewrite rb_empty, rb_remaining by done.
  destruct (Z.eqb_spec 0 (zlen (rb_contents rb))) as [E|E].
  { exists rb. rewrite (zlen_zero (rb_contents rb)) by done.
    unfold ztake, zdrop. by rewrite take_nil, drop_nil. }
  rewrite <- zdrop_min, <- ztake_min, Hc.
  rewrite DCHECK_ok by (apply Z.ltb_lt; lia). cbn [obind].
  set (k := Z.min n (rb_end_ rb - rb_begin_ rb)).
  assert (0 <= k <= rb_end_ rb - rb_begin_ rb) by (ranges; lia). unwrap.
  destruct (Z.leb_spec (rb_size_ rb) (rb_begin_ rb + k)); unwrap;
    rewrite !mem_read_ok by lia; cbn [obind]; eexists; split.
  - f_equal. f_equal. rb_window Hz.
  - by apply rb_advance_wrapped.
  - f_equal. f_equal. rb_window Hz.
  - by apply rb_advance_straight.
Qed.

Lemma RingBuffer_read_offset_spec bld rb off n :
  rb_inv rb -> in_u64 n -> 0 <= off <= zlen (rb_contents rb) ->
  RingBuffer_read_offset bld rb off n = Ret (ztake n (zdrop off (rb_contents rb))).
Proof.
  intros Hinv Hn Hoff. pose proof Hinv as [? Hz ? ? ?].
  rewrite zlen_rb_contents in Hoff by done.
  unfold RingBuffer_read_offset. unwrap.
  set (b := rb_begin_ rb + off) in *.
  set (k := Z.min n (rb_end_ rb - b)).
  assert (0 <= k <= rb_end_ rb - b) by (ranges; lia).
  assert (ztake n (zdrop off (rb_contents rb)) = ztake k (zdrop off (rb_contents rb))) as ->.
  { rewrite <- ztake_min, zlen_drop, zlen_rb_contents by done. f_equal. lia. }
  destruct (Z.eqb_spec k 0) as [->|Hk]; [by rewrite ztake_0|]. unwrap.
  rewrite DCHECK_ok by (apply Z.leb_le; lia). cbn [obind].
  destruct (Z.ltb_spec b (rb_size_ rb)); [destruct (Z.leb_spec (rb_size_ rb) (b + k))|];
    unwrap; rewrite !mem_read_ok by lia; cbn [obind]; f_equal; rb_window Hz.
Qed.

(** The two shapes of the window. *)
Lemma rb_contents_straight s m b e :
  zlen m = s -> 0 <= b -> b <= e <= s ->
  rb_contents (mkRingBuffer s m b e) = ztake (e - b) (zdrop b m).
Proof.
  intros. unfold rb_contents; cbn. rewrite zdrop_app, ztake_app, zlen_drop.
  rewrite (ztake_0 (e - b - _)) by lia. by rewrite app_nil_r.
Qed.
Lemma rb_contents_wrapped s m b e :
  zlen m = s -> 0 <= b <= s -> s <= e ->
  rb_contents (mkRingBuffer s m b e) = zdrop b m ++ ztake (e - s) m.
Proof.
  intros. unfold rb_contents; cbn. rewrite zdrop_app, ztake_app, zlen_drop.
  rewrite (ztake_all (e - b) (zdrop b m)) by (rewrite zlen_drop; lia). f_equal.
  rewrite (zdrop_0 (b - zlen m)) by lia. f_equal. lia.
Qed.

(** The block after the two copies of a write that passes the end. *)
Lemma wrapped_block (m d : list Z) s e k :
  zlen m = s -> 0 <= e < s -> s <= e + k -> k <= zlen d -> k <= s ->
  let d1 := ztake (s - e) (zdrop 0 d) in
  let d2 := ztake (k - (s - e)) (zdrop (s - e) d) in
  let m1 := ztake e m ++ d1 ++ zdrop (e + zlen d1) m in
  ztake 0 m1 ++ d2 ++ zdrop (0 + zlen d2) m1 =
  d2 ++ ztake (s - k) (zdrop (e + k - s) m) ++ ztake (s - e) d.
Proof.
  intros Hz ? ? ? ? d1 d2 m1.
  assert (zlen d1 = s - e) as Hd1 by (unfold d1; autorewrite with zlen; lia).
  assert (zlen d2 = e + k - s) as Hd2 by (unfold d2; autorewrite with zlen; lia).
  rewrite Hd2, (ztake_0 0), Z.add_0_l by lia. cbn [app]. f_equal.
  unfold m1. rewrite Hd1, !zdrop_app, zlen_take.
  rewrite (zdrop_all (e + (s - e))), (zdrop_0 _ d1) by lia.
  unfold zdrop at 2. rewrite drop_nil, app_nil_r, zdrop_ztake by lia.
  do 2 f_equal. lia.
Qed.

Lemma wrapped_contents (m d : list Z) s b e k :
  zlen m = s -> 0 <= b <= e -> e < s -> s <= e + k <= b + s -> 0 <= k <= zlen d ->
  rb_contents (mkRingBuffer s
    (ztake (k - (s - e)) (zdrop (s - e) d) ++
     ztake (s - k) (zdrop (e + k - s) m) ++ ztake (s - e) d) b (e + k)) =
  rb_contents (mkRingBuffer s m b e) ++ ztake k d.
Proof.
  intros Hz ? ? ? ?. rewrite (rb_contents_straight s m) by lia.
  rewrite rb_contents_wrapped by (autorewrite with zlen; lia).
  rewrite !zdrop_app, !ztake_app, !zlen_take, !zlen_drop.
  rewrite (zdrop_all b (ztake (k - (s - e)) _)) by (autorewrite with zlen; lia).
  rewrite (ztake_all (e + k - s) (ztake (k - (s - e)) _)) by (autorewrite with zlen; lia).
  rewrite (ztake_0 (e + k - s - _)), (ztake_0 (e + k - s - _ - _)) by lia.
  rewrite (zdrop_0 (b - _ - _)) by lia. cbn [app]. rewrite app_nil_r, <- app_assoc.
  rewrite zdrop_ztake, zdrop_zdrop by lia. f_equal; [f_equal; [|f_equal]; lia|].
  rewrite <- (ztake_zdrop (s - e) (ztake k d)).
  rewrite ztake_ztake, zdrop_ztake by lia. f_equal. f_equal. lia.
Qed.

Lemma RingBuffer_write_spec bld rb d :
  rb_inv rb -> byte_list d -> in_u64 (zlen d) ->
  rb_end_ rb < rb_size_ rb \/ RingBuffer_full rb = true ->
  let k := Z.min (zlen d) (rb_size_ rb - zlen (rb_contents rb)) in
  exists rb', RingBuffer_write bld rb d (zlen d) = Ret (k, rb') /\
    rb_inv rb' /\ rb_size_ rb' = rb_size_ rb /\
    rb_contents rb' = rb_contents rb ++ ztake k d.
Proof.
  intros Hinv Hd Hn Hcase k. pose proof Hinv as [? Hz ? ? Hb].
  pose proof (zlen_rb_contents rb Hinv) as Hc. pose proof (zlen_nonneg d) as Hd0.
  unfold RingBuffer_write. rewrite rb_full in * by done.
  destruct (Z.eqb_spec (rb_size_ rb) (zlen (rb_contents rb))) as [E|E].
  { exists rb. assert (k = 0) as -> by (subst k; lia).
    by rewrite ztake_0, app_nil_r. }
  destruct Hcase as [Hend|Hfull]; [|done].
  rewrite rb_free by done. fold k.
  assert (0 <= k <= zlen d /\ k <= rb_size_ rb - zlen (rb_contents rb)) by lia.
  rewrite DCHECK_ok by (apply Z.ltb_lt; lia). cbn [obind].
  rewrite Hc in *. clearbody k.
  destruct (Z.leb_spec (rb_size_ rb) (rb_end_ rb)); [lia|]. unwrap.
  destruct (Z.leb_spec (rb_size_ rb) (rb_end_ rb + k)); unwrap.
  - rewrite mem_read_ok by lia; cbn [obind].
    rewrite mem_write_ok by (rewrite ?zlen_take, ?zlen_drop; lia). cbn [obind].
    rewrite mem_read_ok by lia; cbn [obind].
    rewrite mem_write_ok by (autorewrite with zlen; lia). cbn [obind].
    rewrite wrapped_block by lia.
    eexists; split; [done|]. split_and!; [|done|].
    + split; cbn; try done; try lia.
      * autorewrite with zlen. lia.
      * auto 10 with word.
    + rewrite wrapped_contents by lia. by destruct rb.
  - rewrite mem_read_ok by lia; cbn [obind].
    rewrite mem_write_ok by (rewrite ?zlen_take, ?zlen_drop; lia). cbn [obind].
    eexists; split; [done|]. split_and!; [|done|].
    + split; cbn; try done; try lia.
      * autorewrite with zlen. lia.
      * auto 10 with word.
    + rb_window Hz.
Qed.

(** A write while the contents wrap around the end of the block copies the bytes
    but leaves [end_] where it was. *)
Lemma RingBuffer_write_wrapped bld rb d :
  rb_inv rb -> byte_list d -> in_u64 (zlen d) ->
  rb_size_ rb <= rb_end_ rb -> RingBuffer_full rb = false ->
  exists rb',
    RingBuffer_write bld rb d (zlen d)
      = Ret (Z.min (zlen d) (rb_size_ rb - zlen (rb_contents rb)), rb') /\
    rb_inv rb' /\ rb_size_ rb' = rb_size_ rb /\ rb_contents rb' = rb_contents rb.
Proof.
  intros Hinv Hd Hn Hend Hfull. pose proof Hinv as [? Hz ? ? Hb].
  pose proof (zlen_rb_contents rb Hinv) as Hc. pose proof (zlen_nonneg d) as Hd0.
  unfold RingBuffer_write. rewrite Hfull, rb_free by done.
  set (k := Z.min _ _).
  assert (0 <= k <= zlen d /\ k <= rb_size_ rb - zlen (rb_contents rb)) by lia.
  clearbody k. rewrite Hc in *.
  rewrite DCHECK_ok by (apply Z.ltb_lt; lia). cbn [obind].
  destruct (Z.leb_spec (rb_size_ rb) (rb_end_ rb)); [|lia].
  rewrite mem_read_ok by lia. cbn [obind].
  rewrite mem_write_ok by (autorewrite with zlen; lia). cbn [obind].
  eexists; split; [done|]. split_and!; [|done|].
  - split; cbn; try done; try lia.
    + autorewrite with zlen. lia.
    + auto 10 with word.
  - destruct rb as [s m b e]; cbn [rb_size_ rb_buffer_ rb_begin_ rb_end_] in *.
    rewrite !rb_contents_wrapped by (autorewrite with zlen; lia).
    rewrite !zdrop_app, !ztake_app, !zlen_take, !zlen_drop.
    rewrite (zdrop_all b (ztake (e - s) m)) by (autorewrite with zlen; lia).
    rewrite (zdrop_all (b - _)) by (autorewrite with zlen; lia).
    rewrite zdrop_zdrop by lia. cbn [app].
    rewrite ztake_ztake, (ztake_0 (e - s - _)), (ztake_0 (e - s - _ - _)) by lia.
    rewrite !app_nil_r. f_equal; f_equal; lia.
Qed.

(** ** Refinement of a bounded FIFO

    The abstract queue is the list of its bytes, oldest first. *)
Module fifo.
Definition write (cap : Z) (q d : list Z) : Z * list Z :=
  let k := Z.min (zlen d) (cap - zlen q) in (k, q ++ ztake k d).
Definition read (q : list Z) (n : Z) : list Z * list Z := (ztake n q, zdrop n q).
Definition peek (q : list Z) (off n : Z) : list Z := ztake n (zdrop off q).
Definition consume (q : list Z) (n : Z) : Z * list Z := (Z.min n (zlen q), zdrop n q).
End fifo.

Inductive rb_op : Type :=
  | OpWrite (d : list Z)
  | OpRead (n : Z)
  | OpPeek (off n : Z)
  | OpConsume (n : Z).

(** What the caller of an operation sees: the returned count and the bytes. *)
Definition rb_run_op (bld : build) (rb : RingBuffer) (op : rb_op)
  : outcome ((Z * list Z) * RingBuffer) :=
  match op with
  | OpWrite d => let* (k, rb') := RingBuffer_write bld rb d (zlen d) in Ret ((k, []), rb')
  | OpRead n => let* (d, rb') := RingBuffer_read bld rb n in Ret ((zlen d, d), rb')
  | OpPeek off n => d <- RingBuffer_read_offset bld rb off n ;; Ret ((zlen d, d), rb)
  | OpConsume n => let* (k, rb') := RingBuffer_consume bld rb n in Ret ((k, []), rb')
  end.

Definition fifo_run_op (cap : Z) (q : list Z) (op : rb_op) : (Z * list Z) * list Z :=
  match op with
  | OpWrite d => let '(k, q') := fifo.write cap q d in ((k, []), q')
  | OpRead n => let '(d, q') := fifo.read q n in ((zlen d, d), q')
  | OpPeek off n => let d := fifo.peek q off n in ((zlen d, d), q)
  | OpConsume n => let '(k, q') := fifo.consume q n in ((k, []), q')
  end.

(** The callers' obligations: byte strings and [size_t] counts, an offset inside
    the contents, and no write while the contents wrap. *)
Definition rb_op_ok (rb : RingBuffer) (op : rb_op) : Prop :=
  match op with
  | OpWrite d =>
      byte_list d /\ in_u64 (zlen d) /\
      (rb_end_ rb < rb_size_ rb \/ RingBuffer_full rb = true)
  | OpRead n => in_u64 n
  | OpPeek off n => in_u64 n /\ 0 <= off <= zlen (rb_contents rb)
  | OpConsume n => in_u64 n
  end.

Fixpoint rb_run (bld : build) (rb : RingBuffer) (ops : list rb_op)
  : outcome (list (Z * list Z) * RingBuffer) :=
  match ops with
  | [] => Ret ([], rb)
  | op :: ops =>
      let* (o, rb1) := rb_run_op bld rb op in
      let* (os, rb2) := rb_run bld rb1 ops in Ret (o :: os, rb2)
  end.
Fixpoint fifo_run (cap : Z) (q : list Z) (ops : list rb_op) : list (Z * list Z) * list Z :=
  match ops with
  | [] => ([], q)
  | op :: ops =>
      let '(o, q1) := fifo_run_op cap q op in
      let '(os, q2) := fifo_run cap q1 ops in (o :: os, q2)
  end.
Fixpoint rb_ops_ok (bld : build) (rb : RingBuffer) (ops : list rb_op) : Prop :=
  match ops with
  | [] => True
  | op :: ops =>
      rb_op_ok rb op /\
      match rb_run_op bld rb op with Ret (_, rb1) => rb_ops_ok bld rb1 ops | _ => True end
  end.

Lemma rb_run_op_refines bld rb op :
  rb_inv rb -> rb_op_ok rb op ->
  exists rb',
    rb_run_op bld rb op
      = Ret ((fifo_run_op (rb_size_ rb) (rb_contents rb) op).1, rb') /\
    rb_inv rb' /\ rb_size_ rb' = rb_size_ rb /\
    rb_contents rb' = (fifo_run_op (rb_size_ rb) (rb_contents rb) op).2.
Proof.
  intros Hinv Hok. destruct op; cbn in Hok.
  - destruct Hok as (? & ? & ?).
    destruct (RingBuffer_write_spec bld rb d) as (rb' & E & ? & ? & ?); try done.
    exists rb'. cbn. by rewrite E.
  - destruct (RingBuffer_read_spec bld rb n) as (rb' & E & ? & ? & ?); try done.
    exists rb'. cbn. by rewrite E.
  - destruct Hok. exists rb. cbn. by rewrite RingBuffer_read_offset_spec.
  - destruct (RingBuffer_consume_spec bld rb n) as (rb' & E & ? & ? & ?); try done.
    exists rb'. cbn. by rewrite E.
Qed.

(** C3. The ring buffer refines a bounded FIFO: over every sequence of write,
    read, peek and consume calls in which no write is made while the contents
    wrap around the end of the block, no call fails a check or leaves the block
    (in debug and in release builds), every call returns what the FIFO returns,
    and the state invariant holds at the end. *)
Theorem RingBuffer_refines_fifo bld rb ops :
  rb_inv rb -> rb_ops_ok bld rb ops ->
  exists rb',
    rb_run bld rb ops = Ret ((fifo_run (rb_size_ rb) (rb_contents rb) ops).1, rb') /\
    rb_inv rb' /\ rb_contents rb' = (fifo_run (rb_size_ rb) (rb_contents rb) ops).2.
Proof.
  revert rb. induction ops as [|op ops IH]; intros rb Hinv Hok; [by exists rb|].
  destruct Hok as [Hop Hops].
  destruct (rb_run_op_refines bld rb op Hinv Hop) as (rb1 & E & Hinv1 & Hs1 & Hc1).
  rewrite E in Hops. destruct (IH rb1 Hinv1 Hops) as (rb2 & E2 & Hinv2 & Hc2).
  exists rb2. cbn [rb_run fifo_run]. rewrite E. cbn [obind]. rewrite E2, Hs1, Hc1 in *.
  destruct (fifo_run_op _ _ op) as [o q1]. cbn in *.
  rewrite Hc2. by destruct (fifo_run _ q1 ops).
Qed.

Lemma RingBuffer_refines_fifo_witness :
  exists rb',
    rb_run Debug (RingBuffer_new 5 [0; 0; 0; 0; 0])
      [OpWrite [97; 97]; OpRead 1; OpWrite [49; 50; 51; 52]; OpPeek 1 4; OpRead 5]
    = Ret ([(2, []); (1, [97]); (4, []); (4, [49; 50; 51; 52]);
            (5, [97; 49; 50; 51; 52])], rb') /\
    rb_inv rb' /\ rb_contents rb' = [].
Proof.
  apply (RingBuffer_refines_fifo Debug (RingBuffer_new 5 [0; 0; 0; 0; 0])
    [OpWrite [97; 97]; OpRead 1; OpWrite [49; 50; 51; 52]; OpPeek 1 4; OpRead 5]).
  - split; cbn; concrete.
  - repeat split; concrete.
Defined.

(** Lost data: a write made while the contents wrap around the end of the
    block (and the ring is not full) reports that it accepted as many bytes as
    fit, but the contents of the ring are what they were before. *)
Theorem RingBuffer_wrapped_write_loses_data bld rb d :
  rb_inv rb -> byte_list d -> in_u64 (zlen d) -> d <> [] ->
  rb_size_ rb <= rb_end_ rb -> RingBuffer_full rb = false ->
  exists k rb',
    RingBuffer_write bld rb d (zlen d) = Ret (k, rb') /\ 0 < k /\
    rb_contents rb' = rb_contents rb /\
    rb_contents rb' <> (fifo.write (rb_size_ rb) (rb_contents rb) d).2.
Proof.
  intros Hinv Hd Hn Hne Hend Hfull.
  destruct (RingBuffer_write_wrapped bld rb d) as (rb' & E & _ & _ & Hc); try done.
  exists (Z.min (zlen d) (rb_size_ rb - zlen (rb_contents rb))), rb'.
  assert (0 < zlen d) by (destruct d; [done|rewrite zlen_cons; pose proof (zlen_nonneg d); lia]).
  rewrite rb_full in Hfull by done. apply Z.eqb_neq in Hfull.
  pose proof (zlen_rb_contents rb Hinv) as Hz. destruct Hinv.
  split_and!; [done | lia | done |]. rewrite Hc. cbn. intros Heq%(f_equal zlen).
  rewrite zlen_app, zlen_take in Heq. lia.
Qed.

Lemma RingBuffer_wrapped_write_loses_data_witness :
  exists k rb',
    RingBuffer_write Debug (mkRingBuffer 4 [5; 0; 7; 8] 2 5) [42] (zlen [42]) = Ret (k, rb') /\
    0 < k /\
    rb_contents rb' = rb_contents (mkRingBuffer 4 [5; 0; 7; 8] 2 5) /\
    rb_contents rb' <> (fifo.write 4 (rb_contents (mkRingBuffer 4 [5; 0; 7; 8] 2 5)) [42]).2.
Proof.
  apply (RingBuffer_wrapped_write_loses_data Debug (mkRingBuffer 4 [5; 0; 7; 8] 2 5) [42]);
    [split; cbn; concrete | concrete ..].
Defined.
