(* ===== verification/RandGenerator.v ===== *)
(** src/src/base/rand_generator.{h,cpp}: the Lehmer generator that draws initial
    sequence numbers and ephemeral ports. *)

From stdpp Require Import base numbers.
From S2P Require Import Prelude.

Open Scope Z_scope.
Open Scope outcome_scope.

Record RandGenerator : Type := mkRandGenerator {
  rg_seed_ : Z;
  rg_rand_ : Z
}.

Definition RandGenerator_new (seed : Z) : RandGenerator := mkRandGenerator seed seed.

(** [rand()], in 32-bit unsigned arithmetic. *)
Definition RandGenerator_rand (g : RandGenerator) : Z * RandGenerator :=
  let low := u32 (Z.land (rg_rand_ g) 0x7fff * 48271) in
  let high := u32 (Z.shiftr (rg_rand_ g) 15 * 48271) in
  let x := u32 (u32 (low + u32 (Z.shiftl (Z.land high 0xffff) 15)) + Z.shiftr high 16) in
  let r := u32 (Z.land x 0x7fffffff + Z.shiftr x 31) in
  (r, mkRandGenerator (rg_seed_ g) r).

(** [rand(lower, upper)]; [% 0] is undefined. *)
Definition RandGenerator_rand_between (bld : build) (g : RandGenerator) (lower upper : Z)
  : outcome (Z * RandGenerator) :=
  DCHECK bld (lower <? upper) ;;;
  let '(r, g') := RandGenerator_rand g in
  let m := u32 (upper - lower) in
  if m =? 0 then Undef else Ret (u32 (lower + r mod m), g').

Definition RandGenerator_rand_upper (bld : build) (g : RandGenerator) (upper : Z) :=
  RandGenerator_rand_between bld g 0 upper.

(** ** The generator is x -> 48271 x mod (2^31 - 1) *)
Definition lehmer_p : Z := 2147483647.

Definition rg_wf (g : RandGenerator) : Prop := 0 < rg_rand_ g < lehmer_p.

(** The 31-bit fold: congruent modulo 2^31 - 1. *)
Lemma rand_fold x : 0 <= x < 4294967296 ->
  Z.land x 0x7fffffff + Z.shiftr x 31 = x mod 2147483648 + x / 2147483648.
Proof.
  intros. change 0x7fffffff with (Z.ones 31).
  rewrite Z.land_ones, Z.shiftr_div_pow2 by lia. done.
Qed.

Lemma rand_mod_eq a b p : 0 <= a < p -> (exists q, b = a + q * p) -> a = b mod p.
Proof.
  intros Ha [q ->]. rewrite Z.mod_add by lia. symmetry. by apply Z.mod_small.
Qed.

(** A product of two numbers below the prime 2^31 - 1 is not divisible by it;
    the multiplier is inverted by 1899818559. *)
Lemma lehmer_nonzero r : 0 < r < lehmer_p -> (48271 * r) mod lehmer_p <> 0.
Proof.
  unfold lehmer_p. intros Hr H0.
  assert ((1899818559 * (48271 * r)) mod 2147483647 = 0) as H1.
  { rewrite Z.mul_mod, H0, Z.mul_0_r by lia. done. }
  replace (1899818559 * (48271 * r)) with (r + r * 42704 * 2147483647) in H1.
  - rewrite Z.mod_add, Z.mod_small in H1 by lia. lia.
  - lia.
Qed.

Lemma RandGenerator_rand_lehmer g :
  rg_wf g ->
  (RandGenerator_rand g).1 = (48271 * rg_rand_ g) mod lehmer_p /\
  (RandGenerator_rand g).2 = mkRandGenerator (rg_seed_ g) (RandGenerator_rand g).1.
Proof.
  intros Hr. split; [|done]. unfold rg_wf in Hr.
  pose proof (lehmer_nonzero _ Hr) as Hnz. unfold lehmer_p in *.
  unfold RandGenerator_rand; cbn [fst].
  set (r := rg_rand_ g) in *. clearbody r.
  change 0x7fff with (Z.ones 15). change 0xffff with (Z.ones 16).
  rewrite !Z.land_ones, (Z.shiftr_div_pow2 r 15), (Z.shiftl_mul_pow2 _ 15) by lia.
  change (2 ^ 15) with 32768. change (2 ^ 16) with 65536.
  pose proof (Z.div_mod r 32768 ltac:(lia)). pose proof (Z.mod_pos_bound r 32768 ltac:(lia)).
  set (rh := r / 32768) in *. set (rl := r mod 32768) in *.
  assert (0 <= rh < 65536) by lia. clearbody rh rl.
  rewrite (u32_small (rl * 48271)), (u32_small (rh * 48271)) by word.
  rewrite (Z.shiftr_div_pow2 (rh * 48271) 16) by lia. change (2 ^ 16) with 65536.
  pose proof (Z.div_mod (rh * 48271) 65536 ltac:(lia)).
  pose proof (Z.mod_pos_bound (rh * 48271) 65536 ltac:(lia)).
  set (hh := rh * 48271 / 65536) in *. set (hl := rh * 48271 mod 65536) in *.
  assert (0 <= hh < 48271) by lia. clearbody hh hl.
  rewrite (u32_small (hl * 32768)), (u32_small (_ + hl * 32768)) by word.
  set (x := rl * 48271 + hl * 32768 + hh) in *.
  rewrite (u32_small x) by (subst x; word).
  rewrite rand_fold by (subst x; lia).
  pose proof (Z.div_mod x 2147483648 ltac:(lia)).
  pose proof (Z.mod_pos_bound x 2147483648 ltac:(lia)).
  set (xh := x / 2147483648) in *. set (xl := x mod 2147483648) in *.
  assert (0 <= xh <= 1) by (subst x; lia). clearbody xh xl.
  rewrite u32_small by word.
  assert (48271 * r = xl + xh + (xh + hh) * 2147483647) as E by (subst x; lia).
  apply rand_mod_eq; [|by exists (xh + hh)].
  rewrite E, Z.mod_add in Hnz by lia.
  assert (xl + xh <> 2147483647) by (intros E'; by rewrite E' in Hnz).
  subst x. lia.
Qed.

#[global] Arguments RandGenerator_rand : simpl never.

Lemma RandGenerator_rand_wf g : rg_wf g -> rg_wf (RandGenerator_rand g).2.
Proof.
  intros H. destruct (RandGenerator_rand_lehmer g H) as [E1 E2].
  unfold rg_wf. rewrite E2; cbn [rg_rand_]. rewrite E1.
  pose proof (lehmer_nonzero _ H).
  pose proof (Z.mod_pos_bound (48271 * rg_rand_ g) lehmer_p ltac:(done)). lia.
Qed.

(** The state after [n] draws. *)
Fixpoint rand_iter (n : nat) (g : RandGenerator) : RandGenerator :=
  match n with O => g | S n => rand_iter n (RandGenerator_rand g).2 end.

(** C28. The optimised 32-bit step computes the Park-Miller generator exactly:
    from any seed in (0, 2^31-1) the state after n draws is
    48271^n * seed mod (2^31-1), and it never becomes 0. *)
Theorem RandGenerator_is_lehmer (n : nat) (seed : Z) :
  0 < seed < lehmer_p ->
  rg_rand_ (rand_iter n (RandGenerator_new seed))
    = (48271 ^ Z.of_nat n * seed) mod lehmer_p /\
  0 < rg_rand_ (rand_iter n (RandGenerator_new seed)) < lehmer_p.
Proof.
  intros Hs. cut (forall g, rg_wf g ->
    rg_rand_ (rand_iter n g) = (48271 ^ Z.of_nat n * rg_rand_ g) mod lehmer_p /\
    rg_wf (rand_iter n g)).
  { intros H. apply (H (RandGenerator_new seed)). exact Hs. }
  clear. induction n as [|n IH]; intros g Hg; cbn [rand_iter].
  - split; [|done]. rewrite Z.pow_0_r, Z.mul_1_l, Z.mod_small; [done|].
    unfold rg_wf in Hg; lia.
  - destruct (IH (RandGenerator_rand g).2 (RandGenerator_rand_wf g Hg)) as [E Hw].
    split; [|done]. rewrite E. destruct (RandGenerator_rand_lehmer g Hg) as [E1 E2].
    rewrite E2; cbn [rg_rand_]. rewrite E1, Nat2Z.inj_succ, Z.pow_succ_r by lia.
    rewrite Z.mul_mod_idemp_r by done. f_equal. ring.
Qed.

Lemma RandGenerator_is_lehmer_witness :
  rg_rand_ (rand_iter 3 (RandGenerator_new 19260817))
    = (48271 ^ Z.of_nat 3 * 19260817) mod lehmer_p /\
  0 < rg_rand_ (rand_iter 3 (RandGenerator_new 19260817)) < lehmer_p.
Proof. apply (RandGenerator_is_lehmer 3 19260817). unfold lehmer_p. lia. Defined.

(** A draw from [lower, upper). *)
Lemma RandGenerator_rand_between_spec bld g lower upper :
  0 <= lower < upper -> upper <= 4294967296 -> upper - lower < 4294967296 ->
  exists v, RandGenerator_rand_between bld g lower upper = Ret (v, (RandGenerator_rand g).2)
    /\ lower <= v < upper.
Proof.
  intros Hl Hu Hd. unfold RandGenerator_rand_between.
  rewrite DCHECK_ok by (apply Z.ltb_lt; lia). cbn [obind].
  destruct (RandGenerator_rand g) as [r g'] eqn:E. unwrap.
  destruct (Z.eqb_spec (upper - lower) 0); [lia|].
  pose proof (Z.mod_pos_bound r (upper - lower) ltac:(lia)).
  unwrap. eexists; split; [done|]. lia.
Qed.
