(* ===== verification/IPAddress.v ===== *)
(** src/src/ip/ip_address.{h,cpp} and src/src/ip/type.h: IPv4 addresses. The
    libc text conversions are an interface, with the dotted-quad functions as an
    instance of it. *)

From stdpp Require Import base list numbers strings.
From Stdlib Require Import Ascii.
From S2P Require Import Prelude Endian DataWriter DataReader.

Open Scope Z_scope.
Open Scope outcome_scope.

(** src/src/ip/type.h *)
Definition kIPv4AddressSize : Z := 32 / 8.
Definition kIPv6AddressSize : Z := 128 / 8.
Definition kMaxIpAddressSize : Z := kIPv6AddressSize.
Definition kMaxIpPacketLength : Z := 1500.
Definition kPacketHeaderLength : Z := 20.
Definition kDefaultTTL : Z := 64.
Definition kTTLHeaderOffset : Z := 8.

(** [enum class ServiceProtocol] of src/src/ip/ip_layer.h, by its values. *)
Definition ServiceProtocol_ICMP : Z := 1.
Definition ServiceProtocol_TCP : Z := 6.
Definition ServiceProtocol_TESTING0 : Z := 253.
Definition ServiceProtocol_TESTING1 : Z := 254.

Inductive IPAddressFamily : Type := IP_V4 | IP_V6 | IP_UNSPEC.
#[global] Instance IPAddressFamily_eq_dec : EqDecision IPAddressFamily.
Proof. solve_decision. Defined.

(** The union [address_] is its 16 bytes; [v4.s_addr] is the first four, in
    network order in memory. *)
Record IPAddress : Type := mkIPAddress {
  ip_bytes : list Z;
  ip_family_ : IPAddressFamily
}.

#[global] Instance IPAddress_eq_dec : EqDecision IPAddress.
Proof. solve_decision. Defined.

Definition ip_v4 (ip : IPAddress) : list Z := ztake kIPv4AddressSize (ip_bytes ip).
Definition ip_s_addr (ip : IPAddress) : Z := le_val (ip_v4 ip).

Definition IPAddress_default : IPAddress := mkIPAddress (replicate 16 0) IP_UNSPEC.

(** [IPAddress(const in_addr &)], the argument as its four bytes in memory. *)
Definition IPAddress_of_in_addr (v4 : list Z) : IPAddress :=
  mkIPAddress (v4 ++ replicate 12 0) IP_V4.

Definition IPAddress_eqb (lhs rhs : IPAddress) : bool :=
  if decide (ip_family_ lhs <> ip_family_ rhs) then false
  else match ip_family_ lhs with
  | IP_V4 => bool_decide (ztake kIPv4AddressSize (ip_bytes lhs)
                          = ztake kIPv4AddressSize (ip_bytes rhs))
  | IP_V6 => bool_decide (ztake kIPv6AddressSize (ip_bytes lhs)
                          = ztake kIPv6AddressSize (ip_bytes rhs))
  | IP_UNSPEC => true
  end.
Definition IPAddress_neqb (lhs rhs : IPAddress) : bool := negb (IPAddress_eqb lhs rhs).

(** [IPAddress] from a [DataReader] pointer: the result of [readBytes] is not looked at. *)
Definition IPAddress_of_reader (reader : DataReader) : outcome (IPAddress * DataReader) :=
  let* (d, r) := DataReader_readBytes reader kIPv4AddressSize in
  Ret (IPAddress_of_in_addr (default (replicate 4 0) d), r).

Definition IPAddress_writeTo (ip : IPAddress) (w : DataWriter) : outcome (bool * DataWriter) :=
  match ip_family_ ip with
  | IP_V4 => DataWriter_writeBytes w (ip_v4 ip)
  | _ => Fatal
  end.

(** [operator&] on two addresses. *)
Definition IPAddress_and (lhs rhs : IPAddress) : IPAddress :=
  if decide (ip_family_ lhs <> ip_family_ rhs) then IPAddress_default
  else match ip_family_ lhs with
  | IP_V4 => IPAddress_of_in_addr (le_bytes 4 (Z.land (ip_s_addr lhs) (ip_s_addr rhs)))
  | IP_V6 | IP_UNSPEC => IPAddress_default
  end.

Definition IPAddress_isInaddrAny (ip : IPAddress) : bool :=
  match ip_family_ ip with IP_V4 => ip_s_addr ip =? 0 | _ => false end.

(** The hash of the [unordered_set] of addresses. *)
Definition IpAddressHash (ip : IPAddress) : Z := ip_s_addr ip.

(** [fromDeviceName]: the results of the system calls it makes are arguments. *)
Definition IPAddress_fromDeviceName (socket_rv ioctl_rv : Z) (sin_addr : list Z) (close_rv : Z)
  : outcome IPAddress :=
  if socket_rv <? 0 then Fatal
  else if ioctl_rv <? 0 then Fatal
  else if close_rv <? 0 then Fatal
  else Ret (IPAddress_of_in_addr sin_addr).

(** ** The libc text conversions

    [inet_pton AF_INET] returns 1 with the four bytes, or 0 when the text is not
    an IPv4 address (-1 is for an unsupported address family). *)
Class LibcInet : Type := {
  inet_pton : string -> Z * list Z;
  inet_ntop : list Z -> string;
  inet_pton_result s :
    (inet_pton s).1 = 0 \/
    (inet_pton s).1 = 1 /\ byte_list (inet_pton s).2 /\ length (inet_pton s).2 = 4%nat;
  inet_pton_ntop b :
    byte_list b -> length b = 4%nat -> inet_pton (inet_ntop b) = (1, b)
}.

Section text.
Context `{LibcInet}.

Definition IPAddress_of_text (text : string) : IPAddress :=
  let '(rv, v4) := inet_pton text in
  if rv <? 0 then IPAddress_default
  else IPAddress_of_in_addr (if rv =? 1 then v4 else replicate 4 0).

Definition IPAddress_toString (ip : IPAddress) : string :=
  match ip_family_ ip with
  | IP_V4 => inet_ntop (ip_v4 ip)
  | _ => "unknown ipv4 address"
  end.

Definition IPAddress_fullMask : IPAddress := IPAddress_of_text "255.255.255.255".
Definition IPAddress_inaddrAny : IPAddress := IPAddress_of_text "0.0.0.0".
End text.

(** ** Invariant: sixteen bytes, an unspecified address is all zeros and an IPv4
    address uses the first four. *)
Definition ip_wf (ip : IPAddress) : Prop :=
  byte_list (ip_bytes ip) /\ length (ip_bytes ip) = 16%nat /\
  match ip_family_ ip with
  | IP_V4 => zdrop 4 (ip_bytes ip) = replicate 12 0
  | IP_V6 => True
  | IP_UNSPEC => ip_bytes ip = replicate 16 0
  end.
Definition ip4_wf (ip : IPAddress) : Prop := ip_wf ip /\ ip_family_ ip = IP_V4.

Lemma replicate_zero_bytes n : byte_list (replicate n 0).
Proof. apply Forall_replicate. unfold in_u8. lia. Qed.
#[export] Hint Resolve replicate_zero_bytes : word.

Lemma ip_default_wf : ip_wf IPAddress_default.
Proof. split_and!; [apply replicate_zero_bytes|done|done]. Qed.

Lemma ip_of_in_addr_wf v4 :
  byte_list v4 -> length v4 = 4%nat -> ip4_wf (IPAddress_of_in_addr v4).
Proof.
  intros Hb Hl. split; [|done]. split_and!; cbn [IPAddress_of_in_addr ip_bytes ip_family_].
  - auto with word.
  - rewrite length_app, length_replicate, Hl. done.
  - unfold zdrop. by rewrite drop_app_length' by (by rewrite Hl).
Qed.

Lemma ip_v4_of_in_addr v4 : length v4 = 4%nat -> ip_v4 (IPAddress_of_in_addr v4) = v4.
Proof. intros Hl. unfold ip_v4, ztake; cbn. by rewrite take_app_length' by (by rewrite Hl). Qed.

Lemma ip4_wf_inv ip :
  ip4_wf ip -> ip = IPAddress_of_in_addr (ip_v4 ip) /\ byte_list (ip_v4 ip) /\
    length (ip_v4 ip) = 4%nat.
Proof.
  destruct ip as [b f]. intros [(Hb & Hl & Hr) E]; cbn in *. subst f. split_and!.
  - unfold IPAddress_of_in_addr, ip_v4; cbn. f_equal.
    rewrite <- (ztake_zdrop 4 b) at 1. by rewrite Hr.
  - by apply byte_list_take.
  - unfold ip_v4, ztake; cbn. rewrite length_take, Hl. done.
Qed.

Lemma zlen_ip_v4 ip : ip4_wf ip -> zlen (ip_v4 ip) = 4.
Proof. intros (_ & _ & E)%ip4_wf_inv. unfold zlen. by rewrite E. Qed.
Lemma ip_v4_bytes ip : ip4_wf ip -> byte_list (ip_v4 ip).
Proof. by intros (_ & ? & _)%ip4_wf_inv. Qed.
#[export] Hint Resolve ip_v4_bytes : word.

(** [operator==] decides equality of well-formed addresses. *)
Lemma IPAddress_eqb_eq a b : ip_wf a -> ip_wf b -> IPAddress_eqb a b = true <-> a = b.
Proof.
  destruct a as [la fa], b as [lb fb]. intros (Ha & Hla & Hra) (Hb & Hlb & Hrb).
  unfold IPAddress_eqb; cbn in *. case_decide as Hf.
  { split; [done|]. intros [= -> ->]. done. }
  subst fb.
  destruct fa.
  - rewrite bool_decide_eq_true. split; [intros E|by intros [= ->]]. f_equal.
    rewrite <- (ztake_zdrop 4 la), <- (ztake_zdrop 4 lb), Hra, Hrb. f_equal. exact E.
  - rewrite bool_decide_eq_true. split; [intros E|by intros [= ->]]. f_equal.
    rewrite !ztake_all in E by (unfold zlen; rewrite ?Hla, ?Hlb; done). done.
  - split; [|done]. intros _. by subst.
Qed.

Lemma IPAddress_hash_consistent a b :
  ip_wf a -> ip_wf b -> IPAddress_eqb a b = true -> IpAddressHash a = IpAddressHash b.
Proof. intros Ha Hb E%IPAddress_eqb_eq; by subst. Qed.

Lemma IPAddress_isInaddrAny_spec ip :
  ip4_wf ip -> IPAddress_isInaddrAny ip = true <-> ip_v4 ip = replicate 4 0.
Proof.
  intros H. destruct (ip4_wf_inv ip H) as (_ & Hb & Hl). destruct H as [_ E].
  unfold IPAddress_isInaddrAny, ip_s_addr. rewrite E, Z.eqb_eq.
  pose proof (le_bytes_le_val (ip_v4 ip) Hb) as E1. rewrite Hl in E1.
  split; intros E0; [|by rewrite E0]. rewrite E0 in E1. by rewrite <- E1.
Qed.

(** ** Text round trip *)
Section text_facts.
Context `{LibcInet}.

Lemma IPAddress_text_roundtrip ip :
  ip4_wf ip -> IPAddress_of_text (IPAddress_toString ip) = ip.
Proof.
  intros Hip. destruct (ip4_wf_inv ip Hip) as (E & Hb & Hl). destruct Hip as [_ Hf].
  unfold IPAddress_of_text, IPAddress_toString.
  rewrite Hf, inet_pton_ntop by done. cbn. by rewrite <- E.
Qed.

Lemma IPAddress_of_text_wf text : ip4_wf (IPAddress_of_text text).
Proof.
  unfold IPAddress_of_text. destruct (inet_pton_result text) as [E|(E & Hb & Hl)];
    destruct (inet_pton text) as [rv v4]; cbn [fst snd] in *; subst rv.
  - change (ip4_wf (IPAddress_of_in_addr (replicate 4 0))).
    apply ip_of_in_addr_wf; auto with word.
  - change (ip4_wf (IPAddress_of_in_addr v4)). by apply ip_of_in_addr_wf.
Qed.

(** A text that is not an IPv4 address is not rejected: the constructor
    tests the result of [inet_pton] against a negative value, which is never
    returned for [AF_INET], and builds the specified address 0.0.0.0, equal to
    the wildcard address. *)
Theorem IPAddress_of_invalid_text (text : string) :
  (inet_pton text).1 = 0 ->
  IPAddress_of_text text = IPAddress_of_in_addr (replicate 4 0) /\
  IPAddress_isInaddrAny (IPAddress_of_text text) = true.
Proof.
  intros E. assert (IPAddress_of_text text = IPAddress_of_in_addr (replicate 4 0)) as ->.
  - unfold IPAddress_of_text. destruct (inet_pton text); cbn in *. by subst.
  - done.
Qed.
End text_facts.

(** ** An instance of the libc interface: dotted quads *)
Module dotted.
Definition digit (d : Z) : ascii := ascii_of_nat (48 + Z.to_nat d).
Definition print_octet (b : Z) (s : string) : string :=
  if b <? 10 then String (digit b) s
  else if b <? 100 then String (digit (b / 10)) (String (digit (b mod 10)) s)
  else String (digit (b / 100))
    (String (digit (b / 10 mod 10)) (String (digit (b mod 10)) s)).
Definition ntop (b : list Z) : string :=
  match b with
  | [b1; b2; b3; b4] =>
      print_octet b1 (String "."%char (print_octet b2 (String "."%char
        (print_octet b3 (String "."%char (print_octet b4 ""))))))
  | _ => ""
  end.

Definition is_digit (c : ascii) : option Z :=
  let n := Z.of_nat (nat_of_ascii c) in
  if (48 <=? n) && (n <=? 57) then Some (n - 48) else None.
(** Digits accumulate while the value stays below 256. *)
Fixpoint parse_octet (acc : option Z) (s : string) : option (Z * string) :=
  let stop := match acc with Some v => Some (v, s) | None => None end in
  match s with
  | "" => stop
  | String c s' =>
      match is_digit c with
      | None => stop
      | Some d =>
          let v := 10 * default 0 acc + d in
          if bool_decide (acc = Some 0) || (255 <? v) then None
          else parse_octet (Some v) s'
      end
  end.
Definition parse_dot (s : string) : option string :=
  match s with String "."%char s => Some s | _ => None end.
Definition pton (s : string) : Z * list Z :=
  match
    '(b1, s) ← parse_octet None s; s ← parse_dot s;
    '(b2, s) ← parse_octet None s; s ← parse_dot s;
    '(b3, s) ← parse_octet None s; s ← parse_dot s;
    '(b4, s) ← parse_octet None s;
    match s with "" => Some [b1; b2; b3; b4] | _ => None end
  with
  | Some l => (1, l)
  | None => (0, [])
  end.

Lemma parse_print_octet b s :
  in_u8 b -> s = "" \/ (exists s', s = String "."%char s') ->
  parse_octet None (print_octet b s) = Some (b, s).
Proof.
  intros Hb Hs. rewrite <- (Z2Nat.id b) by word.
  assert (Z.to_nat b < 256)%nat as Hn by word. generalize dependent (Z.to_nat b).
  clear Hb b. intros n Hn.
  do 256 (destruct n as [|n]; [destruct Hs as [->|[s' ->]]; vm_compute; reflexivity|]).
  lia.
Qed.

Lemma parse_octet_range acc s b s' :
  (forall v, acc = Some v -> in_u8 v) ->
  parse_octet acc s = Some (b, s') -> in_u8 b.
Proof.
  revert acc. induction s as [|c s IH]; intros acc Hacc; cbn.
  - destruct acc; naive_solver.
  - unfold is_digit at 1. destruct (_ && _) eqn:Ec.
    + apply andb_prop in Ec as [?%Z.leb_le ?%Z.leb_le].
      destruct (bool_decide _ || _) eqn:Ev; [done|].
      apply orb_false_elim in Ev as [_ Ev%Z.ltb_ge]. apply IH.
      intros v [= <-]. split; [|lia]. destruct acc as [v'|]; cbn in *; [|lia].
      specialize (Hacc v' eq_refl). word.
    + destruct acc; naive_solver.
Qed.

Lemma pton_result s :
  (pton s).1 = 0 \/ (pton s).1 = 1 /\ byte_list (pton s).2 /\ length (pton s).2 = 4%nat.
Proof.
  unfold pton. destruct (_ ≫= _) as [l|] eqn:E; [right|by left]. cbn.
  split; [done|].
  repeat match goal with
  | H : _ ≫= _ = Some _ |- _ => apply bind_Some in H as (? & ? & ?)
  | p : _ * _ |- _ => destruct p
  end.
  case_match; [|done]. simplify_eq.
  split; [|done]. repeat constructor; by eapply (parse_octet_range None).
Qed.

Lemma pton_ntop b : byte_list b -> length b = 4%nat -> pton (ntop b) = (1, b).
Proof.
  intros Hb Hl. destruct b as [|b1 [|b2 [|b3 [|b4 [|]]]]]; try done.
  unfold byte_list in Hb. rewrite !Forall_cons in Hb. destruct Hb as (?&?&?&?&_).
  unfold ntop, pton.
  do 3 (rewrite parse_print_octet by eauto; cbn [mbind option_bind parse_dot]).
  rewrite parse_print_octet by eauto. done.
Qed.
End dotted.

#[export] Instance dotted_inet : LibcInet := {|
  inet_pton := dotted.pton;
  inet_ntop := dotted.ntop;
  inet_pton_result := dotted.pton_result;
  inet_pton_ntop := dotted.pton_ntop
|}.

Example dotted_test : IPAddress_toString (IPAddress_of_in_addr [16; 32; 48; 64])
  = "16.32.48.64".
Proof. reflexivity. Qed.

Lemma IPAddress_of_invalid_text_witness :
  IPAddress_of_text "192.168.0" = IPAddress_of_in_addr (replicate 4 0) /\
  IPAddress_isInaddrAny (IPAddress_of_text "192.168.0") = true.
Proof. apply (IPAddress_of_invalid_text "192.168.0"). reflexivity. Defined.
