(* ===== verification/Checksum.v ===== *)
(** src/src/base/checksum.{h,cpp}: the Internet checksum, and its equivalence
    with the one's complement sum of the 16-bit words. *)

From stdpp Require Import base list numbers.
From S2P Require Import Prelude Endian DataWriter DataReader IPAddress.

Open Scope Z_scope.
Open Scope outcome_scope.

(** [sum = (sum & 0xffff) + (sum >> 16)] in 32 bits. *)
Definition cs_fold (sum : Z) : Z := u32 (Z.land sum 0xffff + Z.shiftr sum 16).

(** The loop over the [uint16_t] words of an even number of bytes. *)
Fixpoint Checksum_loop (sum : Z) (data : list Z) : Z :=
  match data with
  | a :: b :: data => Checksum_loop (cs_fold (u32 (sum + ntohs (le_val [a; b])))) data
  | _ => sum
  end.

(** [Checksum(begin, end)] on the bytes between the two pointers: the last byte
    of an odd number of bytes is the high byte of a word. *)
Definition Checksum_new (data : list Z) : Z :=
  let length := zlen data in
  if Z.odd length then
    u16 (Checksum_loop (Z.shiftl (u16 (List.last data 0)) 8) (ztake (length - 1) data))
  else u16 (Checksum_loop 0 data).

Definition Checksum_addHostUInt16 (sum_ value : Z) : Z :=
  u16 (cs_fold (u32 (sum_ + value))).
Definition Checksum_addNetworkUint16 (sum_ value : Z) : Z :=
  Checksum_addHostUInt16 sum_ (ntohs value).

(** [addIPAddress]: the address is written into a local [uint32_t] inside a
    [DCHECK], so a release build leaves that variable indeterminate. *)
Definition Checksum_addIPAddress (bld : build) (sum_ : Z) (ip : IPAddress) : outcome Z :=
  match bld with
  | Debug =>
      let* (ok, w) := IPAddress_writeTo ip (DataWriter_new (replicate 4 0) 8) in
      DCHECK Debug ok ;;;
      let buffer := le_val (dw_buffer_ w) in
      Ret (Checksum_addNetworkUint16
             (Checksum_addNetworkUint16 sum_ (u16 (Z.shiftr buffer 16))) (u16 buffer))
  | Release => Undef
  end.

(** [writeTo]: the complement, most significant byte first. *)
Definition Checksum_writeTo (sum_ : Z) (m : list Z) (off : Z) : outcome (list Z) :=
  let cs := u16 (Z.lnot sum_) in
  mem_write m off [u8 (Z.shiftr cs 8); u8 cs].

(** ** One's complement arithmetic

    [oc s] is the 16-bit one's complement representative of a sum [s]: 0 only
    for the sum 0. *)
Definition oc (s : Z) : Z := if s =? 0 then 0 else 1 + (s - 1) mod 65535.

Fixpoint word_sum (data : list Z) : Z :=
  match data with
  | a :: b :: data => 256 * a + b + word_sum data
  | [a] => 256 * a
  | [] => 0
  end.

Lemma oc_range s : 0 <= oc s <= 65535.
Proof.
  unfold oc. destruct (Z.eqb_spec s 0); [lia|].
  pose proof (Z.mod_pos_bound (s - 1) 65535 ltac:(lia)). lia.
Qed.
Lemma oc_small s : 0 <= s <= 65535 -> oc s = s.
Proof.
  intros. unfold oc. destruct (Z.eqb_spec s 0); [lia|]. rewrite Z.mod_small by lia. lia.
Qed.
(** Adding a multiple of 65535 to a nonzero sum changes nothing. *)
Lemma oc_add_mul s q : 0 < s -> 0 <= q -> oc (s + q * 65535) = oc s.
Proof.
  intros. unfold oc. destruct (Z.eqb_spec s 0), (Z.eqb_spec (s + q * 65535) 0); try lia.
  replace (s + q * 65535 - 1) with (s - 1 + q * 65535) by lia.
  by rewrite Z.mod_add by lia.
Qed.

(** The fold in the code: division with remainder by 2^16, and it computes [oc]
    on sums of at most two words. *)
Lemma cs_fold_arith s : in_u32 s -> cs_fold s = s mod 65536 + s / 65536.
Proof.
  intros. unfold cs_fold. change 0xffff with (Z.ones 16).
  rewrite Z.land_ones, Z.shiftr_div_pow2 by lia. change (2 ^ 16) with 65536.
  pose proof (Z.div_mod s 65536 ltac:(lia)). pose proof (Z.mod_pos_bound s 65536 ltac:(lia)).
  apply u32_small. word.
Qed.
Lemma cs_fold_oc s : 0 <= s <= 131070 -> cs_fold s = oc s.
Proof.
  intros. rewrite cs_fold_arith by word.
  pose proof (Z.div_mod s 65536 ltac:(lia)). pose proof (Z.mod_pos_bound s 65536 ltac:(lia)).
  assert (s / 65536 = 0 \/ s / 65536 = 1) as [E|E] by lia; rewrite E in *.
  - rewrite oc_small by lia. lia.
  - replace s with (s - 65535 + 1 * 65535) at 2 by lia. rewrite oc_add_mul by lia.
    rewrite oc_small by lia. lia.
Qed.

(** [oc] of a sum can be taken on the parts. *)
Lemma oc_oc_add s v : 0 <= s -> 0 <= v -> oc (oc s + v) = oc (s + v).
Proof.
  intros. unfold oc at 2. destruct (Z.eqb_spec s 0) as [->|]; [done|].
  pose proof (Z.div_mod (s - 1) 65535 ltac:(lia)).
  pose proof (Z.mod_pos_bound (s - 1) 65535 ltac:(lia)).
  replace (s + v) with (1 + (s - 1) mod 65535 + v + (s - 1) / 65535 * 65535) by lia.
  rewrite oc_add_mul; [done|lia|]. apply Z.div_pos; lia.
Qed.

Lemma ntohs_word a b : in_u8 a -> in_u8 b -> ntohs (le_val [a; b]) = 256 * a + b.
Proof.
  intros. rewrite ntohs_val; [|repeat constructor; word|done].
  unfold be_val. cbn. lia.
Qed.

(** Induction two bytes at a time. *)
Lemma pair_ind (P : list Z -> Prop) :
  P [] -> (forall a, P [a]) -> (forall a b l, P l -> P (a :: b :: l)) -> forall l, P l.
Proof.
  intros H0 H1 H2 l. enough (P l /\ forall x, P (x :: l)) as [? _]; [done|].
  induction l as [|x l [IH1 IH2]]; split; auto.
Qed.

Lemma word_sum_nonneg data : byte_list data -> 0 <= word_sum data.
Proof.
  induction data as [|a|a b l IH] using pair_ind; intros H; cbn; [lia| |].
  - apply byte_list_cons in H as [? _]. word.
  - apply byte_list_cons in H as [? H]. apply byte_list_cons in H as [? H].
    specialize (IH H). word.
Qed.

Lemma Checksum_loop_oc data sum :
  byte_list data -> Z.even (zlen data) = true -> 0 <= sum ->
  Checksum_loop (oc sum) data = oc (sum + word_sum data).
Proof.
  revert sum. induction data as [|a|a b l IH] using pair_ind; intros sum H He Hs.
  - cbn. by rewrite Z.add_0_r.
  - done.
  - apply byte_list_cons in H as [Ha H]. apply byte_list_cons in H as [Hb H].
    cbn [Checksum_loop word_sum]. rewrite ntohs_word by done.
    pose proof (oc_range sum). pose proof (word_sum_nonneg l H).
    rewrite u32_small by word. rewrite cs_fold_oc by word.
    rewrite oc_oc_add by word. rewrite IH; [f_equal; lia|done| |word].
    rewrite !zlen_cons in He. rewrite !Z.even_add in He. by destruct (Z.even (zlen l)).
Qed.

Lemma word_sum_snoc data b :
  Z.even (zlen data) = true -> word_sum (data ++ [b]) = word_sum data + 256 * b.
Proof.
  induction data as [|a|a c l IH] using pair_ind; intros He; cbn in *.
  - lia.
  - done.
  - rewrite IH; [lia|]. rewrite !zlen_cons, !Z.even_add in He.
    by destruct (Z.even (zlen l)).
Qed.
Lemma word_sum_app data k :
  Z.even (zlen data) = true -> word_sum (data ++ k) = word_sum data + word_sum k.
Proof.
  induction data as [|a|a c l IH] using pair_ind; intros He; cbn [app word_sum] in *.
  - lia.
  - done.
  - rewrite IH; [lia|]. rewrite !zlen_cons, !Z.even_add in He.
    by destruct (Z.even (zlen l)).
Qed.

Lemma Checksum_new_oc data : byte_list data -> Checksum_new data = oc (word_sum data).
Proof.
  intros H. unfold Checksum_new. rewrite <- Z.negb_even.
  destruct (Z.even (zlen data)) eqn:He; cbn [negb].
  - change 0 with (oc 0) at 1. rewrite Checksum_loop_oc by done. rewrite Z.add_0_l.
    pose proof (oc_range (word_sum data)). apply u16_small. word.
  - destruct (exists_last (l := data)) as (l & b & ->); [by intros ->|].
    rewrite List.last_last, zlen_app. change (zlen [b]) with 1. rewrite Z.add_simpl_r.
    rewrite ztake_app, ztake_all, Z.sub_diag, ztake_0, app_nil_r by lia.
    apply byte_list_app in H as [Hl [Hb _]%byte_list_cons].
    assert (Z.even (zlen l) = true) as Hel.
    { rewrite zlen_app, Z.even_add in He. by destruct (Z.even (zlen l)). }
    rewrite (u16_small b) by word. rewrite Z.shiftl_mul_pow2 by lia. change (2 ^ 8) with 256.
    rewrite <- (oc_small (b * 256)) by word. rewrite Checksum_loop_oc by (done || word).
    rewrite word_sum_snoc by done.
    pose proof (oc_range (b * 256 + word_sum l)). rewrite u16_small by word. f_equal. lia.
Qed.

(** C27. The folding loop computes the Internet checksum sum: for any block of
    bytes, of even or odd length, [getChecksum()] is the 16-bit one's complement
    sum of its big-endian words, the last byte of an odd block padded with a
    zero byte. *)
Theorem Checksum_new_correct (data : list Z) :
  byte_list data -> Checksum_new data = oc (word_sum data).
Proof. apply Checksum_new_oc. Qed.

Lemma Checksum_new_correct_witness :
  Checksum_new [0; 1; 0xf2; 3; 0xf4; 0xf5; 0xf6; 0xf7; 7]
  = oc (word_sum [0; 1; 0xf2; 3; 0xf4; 0xf5; 0xf6; 0xf7; 7]).
Proof. apply Checksum_new_correct. concrete. Defined.

Lemma addHostUInt16_oc s v :
  0 <= s -> in_u16 v -> Checksum_addHostUInt16 (oc s) v = oc (s + v).
Proof.
  intros Hs Hv. unfold Checksum_addHostUInt16. pose proof (oc_range s).
  rewrite u32_small by word. rewrite cs_fold_oc, oc_oc_add by word.
  pose proof (oc_range (s + v)). apply u16_small. word.
Qed.

Lemma word_sum_be_bytes v : in_u16 v -> word_sum (be_bytes 2 v) = v.
Proof.
  intros Hv. change (word_sum (be_bytes 2 v)) with (256 * ((v / 256) mod 256) + v mod 256 + 0).
  pose proof (Z.div_mod v 256 ltac:(lia)). rewrite (Z.mod_small (v / 256)); [lia|].
  split; [apply Z.div_pos; word|apply Z.div_lt_upper_bound; word].
Qed.

(** The pseudo-header words of an address. *)
Lemma addIPAddress_oc s ip :
  0 <= s -> ip4_wf ip ->
  Checksum_addIPAddress Debug (oc s) ip = Ret (oc (s + word_sum (ip_v4 ip))).
Proof.
  intros Hs Hip. destruct (ip4_wf_inv ip Hip) as (_ & Hb & Hl).
  destruct Hip as [_ Hf]. unfold Checksum_addIPAddress, IPAddress_writeTo. rewrite Hf.
  destruct (ip_v4 ip) as [|a [|b [|c [|d [|]]]]]; try done. clear Hl Hf.
  rewrite !byte_list_cons in Hb. destruct Hb as (?&?&?&?&_).
  assert (DataWriter_writeBytes (DataWriter_new (replicate 4 0) 8) [a; b; c; d]
          = Ret (true, mkDataWriter [a; b; c; d] 8 4)) as -> by done.
  cbn [obind DCHECK dw_buffer_].
  set (v := le_val [a; b; c; d]).
  assert (v = a + 256 * (b + 256 * (c + 256 * d))) as Ev by (subst v; cbn; lia).
  clearbody v.
  assert (u16 v = le_val [a; b]) as ->.
  { unfold u16. cbn. symmetry. apply (Z.mod_unique _ _ (c + 256 * d)); word. }
  rewrite Z.shiftr_div_pow2 by lia. change (2 ^ 16) with 65536.
  assert (v / 65536 = le_val [c; d]) as ->.
  { cbn. symmetry. apply (Z.div_unique _ _ _ (a + 256 * b)); word. }
  rewrite u16_small by (cbn; word).
  unfold Checksum_addNetworkUint16. rewrite !ntohs_word by done.
  rewrite !addHostUInt16_oc by word. do 2 f_equal. cbn. lia.
Qed.

(** The complement, put into the checksum field, makes every word sum to the
    all-ones value. *)
Lemma oc_complement s : 0 <= s -> oc (s + (65535 - oc s)) = 65535.
Proof.
  intros Hs. rewrite <- oc_oc_add by (pose proof (oc_range s); lia).
  pose proof (oc_range s). replace (oc s + (65535 - oc s)) with 65535 by lia.
  by rewrite oc_small by lia.
Qed.

Lemma Checksum_writeTo_bytes s m off :
  0 <= s -> Checksum_writeTo (oc s) m off = mem_write m off (be_bytes 2 (65535 - oc s)).
Proof.
  intros Hs. unfold Checksum_writeTo. pose proof (oc_range s).
  assert (u16 (Z.lnot (oc s)) = 65535 - oc s) as ->.
  { unfold u16. symmetry. apply (Z.mod_unique _ _ (-1)); unfold Z.lnot; lia. }
  set (c := 65535 - oc s). assert (in_u16 c) by word. clearbody c.
  f_equal. unfold be_bytes. cbv [le_bytes]. cbn.
  rewrite Z.shiftr_div_pow2 by lia. change (2 ^ 8) with 256.
  do 2 f_equal.
Qed.
