(* ===== verification/Ether.v ===== *)
(** src/src/ether: MAC addresses, devices and the device manager. The pcap
    library and the system calls are arguments: their results where the code
    looks at them. *)

From stdpp Require Import base list numbers strings.
From S2P Require Import Prelude Endian DataWriter DataReader IPAddress.

Open Scope Z_scope.
Open Scope outcome_scope.

(** src/src/ether/type.h *)
Definition kEtherDataLengthMin : Z := 46.
Definition kEtherDataLengthMax : Z := 1500.
Definition kMacAddressLength : Z := 6.
Definition kEtherHeaderLength : Z := kMacAddressLength * 2 + 2.
Definition kEtherChecksumLength : Z := 4.
Definition kEtherFrameLengthMax : Z := kEtherHeaderLength + kEtherDataLengthMax.

(** ** MAC addresses *)
Record MacAddress : Type := mkMacAddress {
  ma_is_spec_ : bool;
  ma_address_ : list Z
}.

Definition MacAddress_default : MacAddress := mkMacAddress false (replicate 6 0).
Definition MacAddress_of_ether_addr (addr : list Z) : MacAddress := mkMacAddress true addr.
(** From a reader: the address is zeroed and the result of the read ignored. *)
Definition MacAddress_of_reader (reader : DataReader) : outcome (MacAddress * DataReader) :=
  let* (d, r) := DataReader_readBytes reader kMacAddressLength in
  Ret (mkMacAddress true (default (replicate 6 0) d), r).
Definition MacAddress_writeTo (a : MacAddress) (w : DataWriter) : outcome DataWriter :=
  let* (_, w) := DataWriter_writeBytes w (ma_address_ a) in Ret w.
Definition MacAddress_isSpecified (a : MacAddress) : bool := ma_is_spec_ a.
Definition MacAddress_isBroadcast (a : MacAddress) : bool :=
  forallb (fun i => i =? 0xff) (ma_address_ a).
Definition MacAddress_eqb (lhs rhs : MacAddress) : bool :=
  bool_decide (ztake kMacAddressLength (ma_address_ lhs) = ztake kMacAddressLength (ma_address_ rhs)).
Definition MacAddress_neqb (lhs rhs : MacAddress) : bool := negb (MacAddress_eqb lhs rhs).

(** [ether_aton]: six bytes, or a null pointer. *)
Definition MacAddress_of_text (ether_aton : string -> option (list Z)) (text : string) : MacAddress :=
  match ether_aton text with
  | None => mkMacAddress false (replicate 6 0)
  | Some addr => mkMacAddress true addr
  end.

(** [toString]: [ether_ntoa] prints the six bytes. *)
Definition MacAddress_toString (ether_ntoa : list Z -> string) (a : MacAddress) : string :=
  ether_ntoa (ma_address_ a).

(** [fromDeviceName]: the name must fit into [ifr_name] (16 bytes); then the
    results of [socket] and [ioctl] and the fields of the answer. *)
Definition ARPHRD_ETHER : Z := 1.
Definition MacAddress_fromDeviceName (device_name : string) (fd ioctl_rv sa_family : Z)
  (sa_data : list Z) : outcome MacAddress :=
  if Z.of_nat (String.length device_name) <? 16 then
    if fd =? -1 then Ret MacAddress_default
    else if ioctl_rv =? -1 then Ret MacAddress_default
    else if negb (sa_family =? ARPHRD_ETHER) then Ret MacAddress_default
    else rv <- mem_read sa_data 0 6 ;; Ret (MacAddress_of_ether_addr rv)
  else Ret MacAddress_default.

(** ** Devices *)
Record Device : Type := mkDevice {
  dev_name_ : string;
  dev_cb_ : option nat;
  dev_mac_address_ : MacAddress;
  dev_peer_address_ : MacAddress;
  dev_ip_address_ : IPAddress
}.

Definition Device_new (name : string) (mac : MacAddress) (ip : IPAddress) : Device :=
  mkDevice name None mac MacAddress_default ip.
Definition Device_setCallback (cb : option nat) (d : Device) : Device :=
  mkDevice (dev_name_ d) cb (dev_mac_address_ d) (dev_peer_address_ d) (dev_ip_address_ d).
Definition dev_put_peer (a : MacAddress) (d : Device) : Device :=
  mkDevice (dev_name_ d) (dev_cb_ d) (dev_mac_address_ d) a (dev_ip_address_ d).
Definition Device_getIpAddress (d : Device) : IPAddress := dev_ip_address_ d.
Definition Device_getDeviceName (d : Device) : string := dev_name_ d.

(** [sendFrame] to an address and to the peer: the body is empty. *)
Definition Device_sendFrame_to (buf : list Z) (len : Z) (dst : MacAddress) (d : Device) : Device := d.
Definition Device_sendFrame (buf : list Z) (len : Z) (d : Device) : Device :=
  Device_sendFrame_to buf len (dev_peer_address_ d) d.

(** [onReadable]: the body is empty. *)
Definition Device_onReadable (d : Device) : Device := d.
(** [~Device]: the handle that is given to [pcap_close], if any. *)
Definition Device_destroy (pcap_ : option nat) : list nat :=
  match pcap_ with Some h => [h] | None => [] end.

(** [decodeFrame]: the device afterwards, and the call [cb_->onReceive(this, buf,
    len)] if there is one: the callback, the block behind [buf], and [len]. *)
Definition Device_decodeFrame (data : list Z) (length : Z) (d : Device)
  : outcome (option (nat * list Z * Z) * Device) :=
  match dev_cb_ d with
  | None => Ret (None, d)
  | Some cb =>
      let reader := DataReader_new data length in
      let* (destination, reader) := MacAddress_of_reader reader in
      let* (source, reader) := MacAddress_of_reader reader in
      if negb (MacAddress_isBroadcast destination)
         && MacAddress_neqb destination (dev_mac_address_ d) then Ret (None, d)
      else
        let d := if negb (MacAddress_isSpecified (dev_peer_address_ d))
                    && negb (MacAddress_isBroadcast source)
                 then dev_put_peer source d else d in
        let* (type, reader) := DataReader_readUInt16 reader in
        match type with
        | None => Ret (None, d)
        | Some type =>
            if type =? 0x0800 then
              Ret (Some (cb, DataReader_buffer reader, DataReader_length reader), d)
            else Ret (None, d)
        end
  end.

(** ** The device manager

    [dm_device_list_] is the hash map in its iteration order. *)
Record DeviceManager : Type := mkDeviceManager {
  dm_device_list_ : list (string * Device);
  dm_ip_set_ : list IPAddress
}.

Definition DeviceManager_findDevice (name : string) (m : DeviceManager) : option Device :=
  snd <$> List.find (fun p => bool_decide (p.1 = name)) (dm_device_list_ m).
Definition DeviceManager_findDefaultDevice (m : DeviceManager) : option Device :=
  snd <$> head (dm_device_list_ m).
Definition DeviceManager_getAllDevices (m : DeviceManager) : list Device := snd <$> dm_device_list_ m.
Definition DeviceManager_setCallback (cb : option nat) (m : DeviceManager) : DeviceManager :=
  mkDeviceManager (prod_map id (Device_setCallback cb) <$> dm_device_list_ m) (dm_ip_set_ m).
Definition DeviceManager_hasIpAddress (a : IPAddress) (m : DeviceManager) : bool :=
  existsb (fun b => (IpAddressHash a =? IpAddressHash b) && IPAddress_eqb a b) (dm_ip_set_ m).
Definition DeviceManager_broadcastFrame (buf : list Z) (len : Z) (m : DeviceManager) : DeviceManager :=
  mkDeviceManager (prod_map id (Device_sendFrame buf len) <$> dm_device_list_ m) (dm_ip_set_ m).

(** [addDevice]: the body is empty. The constructor calls it for each device. *)
Definition DeviceManager_addDevice (device : string) (m : DeviceManager) : DeviceManager := m.
Definition DeviceManager_new (all_dev : option (list string)) : DeviceManager :=
  match all_dev with
  | None => mkDeviceManager [] []
  | Some l => foldl (fun m d => DeviceManager_addDevice d m) (mkDeviceManager [] []) l
  end.

(** [activateDevice]: the results of the pcap calls in order. *)
Definition DLT_EN10MB : Z := 1.
Definition DeviceManager_activateDevice (activate_rv link_type setnonblock_rv : Z) : bool :=
  if (negb (activate_rv =? 0)) && (activate_rv <? 0) then false
  else if link_type <? 0 then false
  else if negb (link_type =? DLT_EN10MB) then false
  else negb (setnonblock_rv <? 0).

(** ** What a frame does *)
Definition frame_dst (f : list Z) : MacAddress := mkMacAddress true (ztake 6 f).
Definition frame_src (f : list Z) : MacAddress := mkMacAddress true (ztake 6 (zdrop 6 f)).
Definition frame_type (f : list Z) : Z := be_val (ztake 2 (zdrop 12 f)).

Lemma mac_of_reader_any r :
  DataReader_wf r -> 6 <= zlen (dr_rest r) ->
  exists r', MacAddress_of_reader r = Ret (mkMacAddress true (ztake 6 (dr_rest r)), r') /\
    DataReader_wf r' /\ dr_rest r' = zdrop 6 (dr_rest r) /\ dr_buffer_ r' = dr_buffer_ r /\
    dr_capacity_ r' = dr_capacity_ r /\ dr_pos_ r' = dr_pos_ r + 6.
Proof.
  intros Hr Hn. unfold MacAddress_of_reader, kMacAddressLength.
  destruct (readBytes_ok r 6 Hr ltac:(lia)) as (r' & -> & (Hr' & Hb & Hc & Hp & Hrest)).
  exists r'. split; [done|].
  assert (zlen (ztake 6 (dr_rest r)) = 6) as Hl by (rewrite zlen_take; lia).
  split_and!; try done; [|lia].
  rewrite Hrest. by rewrite zdrop_app_length.
Qed.

(** C31. Decoding a frame with a full header. The payload is handed up exactly
    when the frame is for the device or for everyone and its type is IPv4, and
    then it is everything behind the 14 bytes of the header; the peer is learned
    from the first such frame whose source is not the broadcast address, and never
    changes afterwards. *)
Theorem decodeFrame_spec (d : Device) (cb : nat) (frame : list Z) :
  dev_cb_ d = Some cb -> byte_list frame -> 14 <= zlen frame -> in_u64 (zlen frame) ->
  let accepted := MacAddress_isBroadcast (frame_dst frame)
                  || MacAddress_eqb (frame_dst frame) (dev_mac_address_ d) in
  Device_decodeFrame frame (zlen frame) d =
    Ret (if accepted && (frame_type frame =? 0x0800)
         then Some (cb, zdrop 14 frame, zlen frame - 14) else None,
         if accepted && negb (ma_is_spec_ (dev_peer_address_ d))
            && negb (MacAddress_isBroadcast (frame_src frame))
         then dev_put_peer (frame_src frame) d else d).
Proof.
  intros Hcb Hb Hlen H64 accepted. unfold Device_decodeFrame. rewrite Hcb.
  pose proof (DataReader_new_wf frame Hb H64) as Hr. pose proof (dr_rest_new frame) as E.
  destruct (mac_of_reader_any _ Hr) as (r1 & -> & Hr1 & E1 & Hb1 & Hc1 & Hp1);
    [rewrite E; lia|]. cbn [obind]. rewrite E in *. fold (frame_dst frame).
  destruct (mac_of_reader_any r1 Hr1) as (r2 & -> & Hr2 & E2 & Hb2 & Hc2 & Hp2);
    [rewrite E1, zlen_drop; lia|]. cbn [obind]. rewrite E1 in *. fold (frame_src frame).
  rewrite zdrop_zdrop in E2 by lia. change (6 + 6) with 12 in E2.
  destruct (readBytes_ok r2 2 Hr2) as (r3 & Er & (Hr3 & Hb3 & Hc3 & Hp3 & _));
    [rewrite E2, zlen_drop; lia|].
  assert (DataReader_readUInt16 r2 = Ret (Some (frame_type frame), r3)) as ->.
  { unfold DataReader_readUInt16. rewrite Er. cbn. rewrite E2. unfold frame_type.
    rewrite ntohs_val; [done|auto with word|].
    apply Nat2Z.inj. change (Z.of_nat (length ?l)) with (zlen l). rewrite zlen_take, zlen_drop. lia. }
  assert (zlen (ztake 2 (dr_rest r2)) = 2) as Hz by (rewrite zlen_take, E2, zlen_drop; lia).
  cbn [obind].
  assert (DataReader_buffer r3 = zdrop 14 frame /\ DataReader_length r3 = zlen frame - 14) as [-> ->].
  { unfold DataReader_buffer, DataReader_length.
    rewrite Hb3, Hb2, Hb1, Hc3, Hc2, Hc1, Hp3, Hp2, Hp1, Hz. cbn.
    split; [done|]. rewrite u64_small; [lia|word]. }
  unfold accepted, MacAddress_neqb, MacAddress_isSpecified. cbn [obind].
  destruct (MacAddress_isBroadcast (frame_dst frame)), (MacAddress_eqb (frame_dst frame) (dev_mac_address_ d));
    cbn; try done; by destruct (frame_type frame =? 2048).
Qed.

Definition example_device : Device :=
  Device_setCallback (Some 7%nat)
    (Device_new "eth0" (mkMacAddress true [2; 0; 0; 0; 0; 1]) (IPAddress_of_in_addr [10; 0; 0; 1])).
Definition example_frame : list Z :=
  [255; 255; 255; 255; 255; 255; 2; 0; 0; 0; 0; 9; 8; 0; 0x45; 0; 1].

Lemma decodeFrame_spec_witness :
  Device_decodeFrame example_frame 17 example_device =
    Ret (Some (7%nat, [0x45; 0; 1], 3),
         dev_put_peer (mkMacAddress true [2; 0; 0; 0; 0; 9]) example_device).
Proof. apply (decodeFrame_spec example_device 7 example_frame); concrete. Defined.
