(* ===== verification/RoutingTable.v ===== *)
(** src/src/ip/routing_table.{h,cpp}: the table of the distance vector protocol.
    [lookup], the dynamic half of [addEntry] and the body of [createDistVec] are
    empty in the source and are modelled as they are. [printTable] is the text it writes. *)

From stdpp Require Import base list numbers gmap strings.
From Stdlib Require Import Ascii.
From S2P Require Import Prelude Endian DataWriter DataReader TimeBase Alarm EpollServer IPAddress Ether.

Open Scope Z_scope.
Open Scope outcome_scope.

(** [ttl_alarm_] is null for an immortal entry; [device] names a device. *)
Record RtEntry : Type := mkRtEntry {
  re_dest : IPAddress;
  re_mask : IPAddress;
  re_device : nat;
  re_metric : Z;
  re_ttl_alarm_ : option AlarmId
}.

Definition RtEntry_Infinity : Z := 16.
Definition validInterval : outcome Delta := Delta_fromSeconds 6.

Section entries.
Context {W : Type} `{AlarmImpl W} `{AlarmFactory W}.
Context (bld : build).

(** The constructor; [timed] is whether an alarm factory was passed. *)
Definition RtEntry_new (dst msk : IPAddress) (dev : nat) (mtrc : Z) (timed : bool) (w : W)
  : outcome (RtEntry * W) :=
  if timed then
    let '(a, w) := factory_createAlarm w in
    d <- validInterval ;;
    t <- TimeBase_add (factory_now w) d ;;
    w <- Alarm_set bld a t w ;;
    Ret (mkRtEntry dst msk dev mtrc (Some a), w)
  else Ret (mkRtEntry dst msk dev mtrc None, w).

(** The delegate of the alarm. *)
Definition RtEntry_revokeRoute (e : RtEntry) : RtEntry :=
  mkRtEntry (re_dest e) (re_mask e) (re_device e) RtEntry_Infinity (re_ttl_alarm_ e).

Definition RtEntry_keepAlive (e : RtEntry) (w : W) : outcome W :=
  match re_ttl_alarm_ e with
  | None => Ret w
  | Some a =>
      d <- validInterval ;;
      t <- TimeBase_add (factory_now w) d ;;
      g <- Delta_fromSeconds 1 ;;
      Alarm_update a t g w
  end.

Definition RoutingTable : Type := list RtEntry.

Definition RoutingTable_lookup (ip_address : IPAddress) (t : RoutingTable) : option RtEntry := None.

Definition RoutingTable_addEntry (dest mask : IPAddress) (device : nat) (metric : Z) (immortal : bool)
  (t : RoutingTable) (w : W) : outcome (RoutingTable * W) :=
  if immortal then
    let* (e, w) := RtEntry_new dest mask device metric false w in Ret (t ++ [e], w)
  else Ret (t, w).

(** [updateTable]: the loop over the [length] elements of the vector. *)
Fixpoint updateTable_loop (n : nat) (reader : DataReader) (metric : option Z) (mask : IPAddress)
  (device : nat) (t : RoutingTable) (w : W) : outcome (RoutingTable * W) :=
  match n with
  | O => Ret (t, w)
  | S n =>
      let* (dest, reader) := IPAddress_of_reader reader in
      let* (m, reader) := DataReader_readUInt8 reader in
      let metric := match m with Some _ => m | None => metric end in
      mtrc <- match metric with Some v => Ret v | None => Undef end ;;
      let* (t, w) := RoutingTable_addEntry dest mask device mtrc false t w in
      updateTable_loop n reader metric mask device t w
  end.
Definition RoutingTable_updateTable (fullMask : IPAddress) (buf : list Z) (len : Z) (device : nat)
  (t : RoutingTable) (w : W) : outcome (RoutingTable * W) :=
  let reader := DataReader_new buf len in
  let* (length, reader) := DataReader_readUInt8 reader in
  length <- match length with Some v => Ret v | None => Undef end ;;
  DCHECK bld (len =? 1 + length * (4 + 1)) ;;;
  updateTable_loop (Z.to_nat length) reader None fullMask device t w.

Definition RoutingTable_new : RoutingTable := [].
Definition RoutingTable_Clear (t : RoutingTable) : RoutingTable := [].
End entries.

(** [DistVec(uint8_t length)]: the length in bytes and the buffer of that size. *)
Record DistVec : Type := mkDistVec {
  dv_len : Z;
  dv_buf : list Z
}.
Definition DistVec_new (length : Z) : DistVec :=
  let len := u8 (1 + length * (4 + 1)) in
  mkDistVec len (replicate (Z.to_nat len) 0).
Definition RoutingTable_createDistVec (device : nat) (t : RoutingTable) : DistVec :=
  DistVec_new (u8 (zlen t)).

(** ** [printTable]

    [std::setw(n) << std::left << s]: padded on the right with spaces, never cut. *)
Fixpoint spaces (n : nat) : string :=
  match n with O => EmptyString | S n => String " "%char (spaces n) end.
Definition setw (n : nat) (s : string) : string := String.append s (spaces (n - String.length s)).
Definition endl : string := String (Ascii.ascii_of_nat 10) EmptyString.
Definition PRINT_ENTRY (dest mask device metric : string) : string :=
  String.append (setw 16 dest) (String.append (setw 16 mask)
    (String.append (setw 10 device) (String.append (setw 6 metric) endl))).

(** What is written to [std::cout]; [names]: the name of a device. *)
Definition RoutingTable_printTable `{LibcInet} (names : nat -> string) (t : RoutingTable) : string :=
  String.append (PRINT_ENTRY "DEST" "MASK" "DEVICE" "METRIC")
  (foldr (fun e out =>
      String.append (PRINT_ENTRY (IPAddress_toString (re_dest e)) (IPAddress_toString (re_mask e))
        (names (re_device e)) (dotted.print_octet (re_metric e) "")) out)
    EmptyString t).

(** The size of a distance vector is computed in a byte: up to 50 entries the
    vector has one byte for the count and five for each entry, as its format says;
    from 51 to 255 entries the size wraps around and the buffer is too small, with
    51 entries it has no byte at all. *)
Theorem DistVec_length (t : RoutingTable) (device : nat) :
  let dv := RoutingTable_createDistVec device t in
  zlen (dv_buf dv) = dv_len dv /\
  (zlen t <= 50 -> dv_len dv = 1 + 5 * zlen t) /\
  (51 <= zlen t <= 255 -> dv_len dv < 1 + 5 * zlen t) /\
  (zlen t = 51 -> dv_len dv = 0).
Proof.
  cbn. pose proof (zlen_nonneg t). pose proof (u8_range (1 + u8 (zlen t) * (4 + 1))) as Hr.
  split; [unfold zlen at 1; rewrite length_replicate; word|].
  split; [|split]; intros.
  - rewrite (u8_small (zlen t)) by word. rewrite u8_small by word. lia.
  - word.
  - by replace (zlen t) with 51 by done.
Qed.

Lemma DistVec_length_witness :
  dv_len (RoutingTable_createDistVec 0
    (replicate 51 (mkRtEntry IPAddress_default IPAddress_default 0 1 None))) = 0.
Proof.
  apply (DistVec_length (replicate 51 (mkRtEntry IPAddress_default IPAddress_default 0 1 None)) 0).
  reflexivity.
Defined.

(** [keepAlive] of a dynamic entry. The alarm is armed for six seconds from now,
    unless it was armed for less than a second from that: an entry can expire up
    to a second before the interval for which the comment on [keepAlive] promises
    to keep it. *)
Theorem keepAlive_deadline (e : RtEntry) (a : AlarmId) (al : EpollAlarm) (s : EpollServer) :
  re_ttl_alarm_ e = Some a -> es_inv None s -> clock_ok s -> es_alarms s !! a = Some al ->
  0 <= time_ (ea_deadline_ al) <= kInfiniteTimeUs ->
  let six := time_ (es_now_ s) + 6000000 in
  exists s', RtEntry_keepAlive e s = Ret s' /\ es_inv None s' /\
    armed s' !! a = Some (if Z.abs (six - time_ (ea_deadline_ al)) <? 1000000
                          then time_ (ea_deadline_ al) else six).
Proof.
  intros He Hinv Hck Ha Hal six. unfold RtEntry_keepAlive. rewrite He.
  unfold clock_ok in Hck. unfold validInterval, Delta_fromSeconds.
  change (6 * 1000) with 6000. change (1 * 1000) with 1000.
  rewrite !s64_ok by word. cbn [obind]. rewrite !s64_ok by word. cbn [obind].
  unfold TimeBase_add. cbn [time_offset_]. change (factory_now s) with (es_now_ s).
  rewrite s64_ok by word. cbn [obind].
  destruct (Alarm_update_ok None s a al (mkTimeBase (time_ (es_now_ s) + 6000 * 1000))
              (mkDelta (1000 * 1000)) Hinv Ha) as (s' & -> & Hi & Har & _ & _);
    [cbn; unfold kInfiniteTimeUs; lia|done|].
  exists s'. split; [done|]. split; [done|]. rewrite Har. cbn [spec_cmd time_ time_offset_].
  change (6000 * 1000) with 6000000. fold six. change (1000 * 1000) with 1000000.
  destruct (Z.eqb_spec six 0); [unfold six in *; lia|].
  assert (default 0 (armed s !! a) = time_ (ea_deadline_ al)) as Ed.
  { rewrite (armed_lookup _ _ _ Ha). unfold al_armed.
    by destruct (Z.eqb_spec (time_ (ea_deadline_ al)) 0) as [->|]. }
  rewrite Ed. destruct (Z.ltb_spec (Z.abs (six - time_ (ea_deadline_ al))) 1000000).
  - rewrite (armed_lookup _ _ _ Ha). unfold al_armed.
    destruct (Z.eqb_spec (time_ (ea_deadline_ al)) 0); [unfold six in *; lia|done].
  - apply lookup_insert_eq.
Qed.

(** An entry armed for 5.5 seconds from now stays at that. *)
Definition example_timed : EpollServer :=
  match run_cmds Debug [CmdCreate; CmdSet 0 (mkTimeBase 6500000)] example_server with
  | Ret s => s | _ => example_server end.
Lemma example_timed_inv : es_inv None example_timed.
Proof.
  destruct (run_cmds_refines Debug [CmdCreate; CmdSet 0 (mkTimeBase 6500000)] example_server)
    as (s & E & Hs & _); [apply es_inv_empty| |unfold example_timed; by rewrite E].
  cmd_check; [done|]. cmd_check; [split_and!; [by eexists|reflexivity|done]|done].
Qed.

Lemma keepAlive_deadline_witness :
  exists s', RtEntry_keepAlive (mkRtEntry IPAddress_default IPAddress_default 0 1 (Some 0%nat))
      example_timed = Ret s' /\ es_inv None s' /\ armed s' !! 0%nat = Some 6500000.
Proof.
  apply (keepAlive_deadline (mkRtEntry IPAddress_default IPAddress_default 0 1 (Some 0%nat)) 0
    (mkEpollAlarm (mkTimeBase 6500000) (Some 1%nat)) example_timed).
  - done.
  - apply example_timed_inv.
  - vm_compute. split; congruence.
  - vm_compute. reflexivity.
  - vm_compute. split; congruence.
Defined.

(** ** The columns of [printTable] *)
Lemma length_sapp (a b : string) : String.length (String.append a b) = (String.length a + String.length b)%nat.
Proof.
  induction a as [|c a IH]; [done|].
  change (S (String.length (String.append a b)) = S (String.length a + String.length b)). by rewrite IH.
Qed.
Lemma length_spaces n : String.length (spaces n) = n.
Proof. induction n; cbn; by f_equal. Qed.
Lemma length_setw n s : String.length (setw n s) = Nat.max n (String.length s).
Proof. unfold setw. rewrite length_sapp, length_spaces. lia. Qed.
Lemma length_print_octet b : (String.length (dotted.print_octet b "") <= 3)%nat.
Proof. unfold dotted.print_octet. repeat case_match; cbn; lia. Qed.

(** When the texts of the addresses leave a space in their columns of sixteen (as those
    of version 4 do, with at most fifteen characters) and the names of the devices have
    at most ten, every row of [printTable] is 49 characters long: the columns line up. *)
Theorem printTable_columns `{LibcInet} (names : nat -> string) (t : RoutingTable) :
  Forall (fun e => (String.length (IPAddress_toString (re_dest e)) < 16)%nat /\
                   (String.length (IPAddress_toString (re_mask e)) < 16)%nat /\
                   (String.length (names (re_device e)) <= 10)%nat) t ->
  String.length (RoutingTable_printTable names t) = (49 * (1 + length t))%nat.
Proof.
  intros Ht. unfold RoutingTable_printTable. rewrite length_sapp. change (String.length (PRINT_ENTRY _ _ _ _)) with 49%nat.
  induction Ht as [|e t (Hd & Hm & Hn) _ IH]; [done|]. cbn [foldr length]. rewrite length_sapp.
  unfold PRINT_ENTRY at 1. rewrite !length_sapp, !length_setw.
  pose proof (length_print_octet (re_metric e)). change (String.length endl) with 1%nat. lia.
Qed.

Lemma printTable_columns_witness :
  let t := [mkRtEntry (IPAddress_of_in_addr [192; 168; 0; 123]) IPAddress_fullMask 1 0 None] in
  String.length (RoutingTable_printTable (fun _ => "dev1"%string) t) = 98%nat.
Proof.
  apply (printTable_columns (fun _ => "dev1"%string)
    [mkRtEntry (IPAddress_of_in_addr [192; 168; 0; 123]) IPAddress_fullMask 1 0 None]).
  repeat constructor.
Defined.
