(* ===== verification/IPLayer.v ===== *)
(** src/src/ip/ip_layer.{h,cpp}: the network layer. The delivery of packets and
    parts of [onReceive], [makePacket] and [sendProbePacket] are empty in the
    source and are modelled as they are. *)

From stdpp Require Import base list numbers gmap strings.
From S2P Require Import Prelude Endian DataWriter DataReader TimeBase Alarm EpollServer.
From S2P Require Import RandGenerator IPAddress Checksum Ether RoutingTable.

Open Scope Z_scope.
Open Scope outcome_scope.

Record IPLayer : Type := mkIPLayer {
  il_device_manager_ : DeviceManager;
  il_routing_table_ : RoutingTable;
  il_buffer_ : list Z;
  il_callback_ : option nat;
  il_probe_alarm_ : AlarmId;
  il_rand_generator_ : RandGenerator
}.

Definition il_put_buffer (b : list Z) (l : IPLayer) : IPLayer :=
  mkIPLayer (il_device_manager_ l) (il_routing_table_ l) b (il_callback_ l) (il_probe_alarm_ l)
    (il_rand_generator_ l).
Definition il_put_table (t : RoutingTable) (l : IPLayer) : IPLayer :=
  mkIPLayer (il_device_manager_ l) t (il_buffer_ l) (il_callback_ l) (il_probe_alarm_ l)
    (il_rand_generator_ l).
Definition IPLayer_setCallback (cb : option nat) (l : IPLayer) : IPLayer :=
  mkIPLayer (il_device_manager_ l) (il_routing_table_ l) (il_buffer_ l) cb (il_probe_alarm_ l)
    (il_rand_generator_ l).

(** [IPLayer()], which only the mock uses: what it leaves uninitialised is given. *)
Definition IPLayer_default (m : DeviceManager) (block : list Z) (cb : option nat) (a : AlarmId) : IPLayer :=
  mkIPLayer m RoutingTable_new block cb a (RandGenerator_new 0).

(** [deliverPacket]: the body is empty and returns [true]. *)
Definition IPLayer_deliverPacket (destination : IPAddress) (packet_length : Z) (l : IPLayer) : bool :=
  true.

(** [makePacket]: only the first four bytes of the header are written. *)
Definition IPLayer_makePacket (source destination : IPAddress) (proto : Z) (buf : list Z) (length : Z)
  (l : IPLayer) : outcome (bool * IPLayer) :=
  let packet_length := u64 (kPacketHeaderLength + length) in
  let data_writer := DataWriter_new (il_buffer_ l) kMaxIpPacketLength in
  let* (_, data_writer) := DataWriter_writeUInt8 data_writer 0x45 in
  let* (_, data_writer) := DataWriter_writeUInt8 data_writer 0 in
  let* (_, data_writer) := DataWriter_writeUInt16 data_writer (u16 packet_length) in
  Ret (true, il_put_buffer (dw_buffer_ data_writer) l).

Definition IPLayer_sendPacket (source destination : IPAddress) (proto : Z) (buf : list Z) (length : Z)
  (l : IPLayer) : outcome (bool * IPLayer) :=
  let* (ok, l) := IPLayer_makePacket source destination proto buf length l in
  if negb ok then Ret (false, l)
  else Ret (IPLayer_deliverPacket destination (u64 (kPacketHeaderLength + length)) l, l).

Definition IPLayer_routePacket (bld : build) (dest : IPAddress) (buf : list Z) (len : Z) (l : IPLayer)
  : outcome (bool * IPLayer) :=
  let data_writer := DataWriter_new (il_buffer_ l) kMaxIpPacketLength in
  let* (rv, data_writer) := DataWriter_writeFrom data_writer buf len in
  DCHECK bld rv ;;;
  let l := il_put_buffer (dw_buffer_ data_writer) l in
  Ret (IPLayer_deliverPacket dest len l, l).

(** [subtractTTL]: byte 8 of the packet, in place; the result and the packet. *)
Definition IPLayer_subtractTTL (buf : list Z) (len : Z) : outcome (bool * list Z) :=
  p <- mem_read buf kTTLHeaderOffset 1 ;;
  if le_val p =? 0 then Ret (false, buf)
  else
    buf <- mem_write buf kTTLHeaderOffset [u8 (le_val p - 1)] ;; Ret (true, buf).

(** The header fields as [onReceive] reads them: version, header length, protocol,
    source and destination. The read of the total length is inside a [DCHECK],
    which a release build does not evaluate. A byte that could not be read is
    uninitialised. *)
Record IpHeader : Type := mkIpHeader {
  ih_header_length : Z;
  ih_protocol : Z;
  ih_source : IPAddress;
  ih_destination : IPAddress
}.
Definition IPLayer_readHeader (bld : build) (buf : list Z) (len : Z) : outcome (option IpHeader) :=
  let reader := DataReader_new buf len in
  let* (rv, reader) := DataReader_readUInt8 reader in
  rv <- match rv with Some v => Ret v | None => Undef end ;;
  if negb (Z.shiftr rv 4 =? 0x4) then Ret None
  else
    let header_length := Z.land rv 0xf * 4 in
    let reader := (DataReader_skip reader 1).2 in
    reader <- match bld with
              | Debug =>
                  let* (total_length, reader) := DataReader_readUInt16 reader in
                  DCHECK Debug (bool_decide (is_Some total_length)) ;;; Ret reader
              | Release => Ret reader
              end ;;
    let reader := (DataReader_skip reader 5).2 in
    let* (p, reader) := DataReader_readUInt8 reader in
    let protocol := default rv p in
    let reader := (DataReader_skip reader 2).2 in
    let* (source, reader) := IPAddress_of_reader reader in
    let* (destination, reader) := IPAddress_of_reader reader in
    Ret (Some (mkIpHeader header_length protocol source destination)).

(** [onReceive]: the header, then the time to live in the buffer of the device;
    what follows has empty bodies. The packet afterwards is the result. *)
Definition IPLayer_onReceive (bld : build) (device : nat) (buf : list Z) (len : Z) (l : IPLayer)
  : outcome (list Z * IPLayer) :=
  DCHECK bld (kPacketHeaderLength <=? len) ;;;
  h <- IPLayer_readHeader bld buf len ;;
  match h with
  | None => Ret (buf, l)
  | Some h =>
      let* (alive, buf) := IPLayer_subtractTTL buf len in
      if negb alive then Ret (buf, l) else Ret (buf, l)
  end.

Section world.
Context {W : Type} `{AlarmImpl W} `{AlarmFactory W}.
Context (bld : build).

Definition probeInterval : outcome Delta := Delta_fromSeconds 3.

Definition IPLayer_processProbePacket (fullMask src dest : IPAddress) (buf : list Z) (len : Z)
  (device : nat) (l : IPLayer) (w : W) : outcome (IPLayer * W) :=
  if DeviceManager_hasIpAddress dest (il_device_manager_ l) then Ret (l, w)
  else
    let* (t, w) := RoutingTable_updateTable bld fullMask buf len device (il_routing_table_ l) w in
    Ret (il_put_table t l, w).

(** [sendProbePacket]: the loop over the devices has an empty body. *)
Definition IPLayer_sendProbePacket (l : IPLayer) (w : W) : outcome W :=
  d <- probeInterval ;;
  t <- TimeBase_add (factory_now w) d ;;
  Alarm_update (il_probe_alarm_ l) t update_granularity w.

(** The constructor: an immortal entry for each device, and the probe alarm. *)
Fixpoint IPLayer_self_entries (fullMask : IPAddress) (n : nat) (ds : list Device) (t : RoutingTable) (w : W)
  : outcome (RoutingTable * W) :=
  match ds with
  | [] => Ret (t, w)
  | d :: ds =>
      let* (t, w) := RoutingTable_addEntry bld (Device_getIpAddress d) fullMask n 0 true t w in
      IPLayer_self_entries fullMask (S n) ds t w
  end.
Definition IPLayer_new (fullMask : IPAddress) (m : DeviceManager) (block : list Z) (w : W)
  : outcome (IPLayer * W) :=
  let '(a, w) := factory_createAlarm w in
  let* (t, w) := IPLayer_self_entries fullMask 0 (DeviceManager_getAllDevices m) [] w in
  d <- probeInterval ;;
  time <- TimeBase_add (factory_now w) d ;;
  w <- Alarm_set bld a time w ;;
  Ret (mkIPLayer m t block None a (RandGenerator_new 233), w).

(** [getDefaultIP]: [findDefaultDevice()] is null when there is no device. *)
Definition IPLayer_getDefaultIP (l : IPLayer) : outcome IPAddress :=
  match DeviceManager_findDefaultDevice (il_device_manager_ l) with
  | Some d => Ret (Device_getIpAddress d)
  | None => Undef
  end.
End world.

(** ** Time to live *)
Definition ttl (p : list Z) : Z := default 0 (zget p 8).

Lemma subtractTTL_ok p len :
  byte_list p -> 9 <= zlen p ->
  IPLayer_subtractTTL p len =
    if ttl p =? 0 then Ret (false, p)
    else Ret (true, ztake 8 p ++ [ttl p - 1] ++ zdrop 9 p).
Proof.
  intros Hb Hl. unfold IPLayer_subtractTTL, kTTLHeaderOffset. rewrite mem_read_ok by lia.
  destruct (zget_is_Some p 8 ltac:(lia)) as [t Ht].
  assert (ztake 1 (zdrop 8 p) = [t]) as ->.
  { apply zget_ext. intros i Hi. autorewrite with zget. rewrite zget_cons, zget_nil.
    zprune; try done; try lia. by replace (Z.max 0 8 + i) with 8 by lia. }
  cbn [obind]. change (le_val [t]) with (t + 256 * 0). rewrite Z.mul_0_r, Z.add_0_r.
  unfold ttl. rewrite Ht. change (default 0 (Some t)) with t.
  destruct (Z.eqb_spec t 0); [done|].
  assert (in_u8 t) as Hu.
  { unfold zget in Ht. cbn in Ht. by eapply Forall_lookup_1 in Hb. }
  rewrite mem_write_ok by (change (zlen [_]) with 1; lia).
  change (8 + zlen [_]) with 9. rewrite u8_small by word. done.
Qed.

(** C35. Every packet that [onReceive] looks at loses one hop of its time to live,
    never going below zero, and nothing else of the packet changes; a packet with
    time to live zero is left alone. In particular the header checksum is not
    recomputed: it verified before, it does not after. *)
Theorem onReceive_TTL (device : nat) (p : list Z) (l : IPLayer) (h : IpHeader) :
  byte_list p -> 20 <= zlen p -> IPLayer_readHeader Debug p (zlen p) = Ret (Some h) ->
  exists p', IPLayer_onReceive Debug device p (zlen p) l = Ret (p', l) /\
    ttl p' = Z.max 0 (ttl p - 1) /\
    (forall i, i <> 8 -> zget p' i = zget p i) /\
    (ttl p <> 0 -> oc (word_sum (ztake 20 p)) = 65535 -> oc (word_sum (ztake 20 p')) <> 65535).
Proof.
  intros Hb Hl Hh. unfold IPLayer_onReceive, kPacketHeaderLength.
  destruct (Z.leb_spec 20 (zlen p)); [|lia]. cbn [DCHECK obind]. rewrite Hh. cbn [obind].
  rewrite subtractTTL_ok by (done || lia).
  destruct (zget_is_Some p 8 ltac:(lia)) as [t Ht].
  assert (in_u8 t) as Hu. { unfold zget in Ht. cbn in Ht. by eapply Forall_lookup_1 in Hb. }
  assert (ttl p = t) as Et by (unfold ttl; by rewrite Ht). rewrite Et.
  destruct (Z.eqb_spec t 0) as [->|Hne].
  { exists p. split; [done|]. split; [rewrite Et; done|]. split; [done|]. done. }
  cbn [obind negb]. eexists. split; [done|].
  assert (zlen (ztake 8 p) = 8) as H8 by (rewrite zlen_take; lia).
  split; [|split].
  - unfold ttl. rewrite zget_app, H8. change (8 <? 8) with false. change (8 - 8) with 0.
    change (zget ([t - 1] ++ zdrop 9 p) 0) with (Some (t - 1)).
    cbn [from_option id]. ranges. unfold id. lia.
  - intros i Hi. autorewrite with zget. rewrite H8. rewrite ?zget_cons, ?zget_drop, ?zget_nil.
    change (zlen [t - 1]) with 1. zprune; try done; try (by rewrite !zget_oob by lia). f_equal. lia.
  - intros _ Hv. set (r := ztake 11 (zdrop 9 p)).
    assert (ztake 20 (ztake 8 p ++ [t - 1] ++ zdrop 9 p) = ztake 8 p ++ (t - 1) :: r) as ->
      by (unfold r; rewrite ztake_app, H8, ztake_all by lia; done).
    assert (ztake 20 p = ztake 8 p ++ t :: r) as Ep.
    { apply zget_ext. intros i Hi. unfold r. autorewrite with zget. rewrite H8, ?zget_cons. autorewrite with zget.
      zprune; try done; try lia; [by replace i with 8 by lia|f_equal; lia]. }
    rewrite Ep in Hv. rewrite !word_sum_app in * by (by rewrite H8).
    assert (byte_list r) as Hrb by (unfold r; auto with word).
    assert (zlen r = 11) as Hrl by (unfold r; rewrite zlen_take, zlen_drop; lia).
    destruct r as [|b r]; [done|]. cbn [word_sum] in *.
    apply byte_list_cons in Hrb as [? Hrb]. pose proof (word_sum_nonneg r Hrb).
    pose proof (word_sum_nonneg (ztake 8 p) (byte_list_take 8 p Hb)).
    set (S := word_sum (ztake 8 p) + (256 * t + b + word_sum r)) in *.
    replace (word_sum (ztake 8 p) + (256 * (t - 1) + b + word_sum r)) with (S - 256) by (unfold S; lia).
    assert (256 <= S) by (unfold S; ranges; lia). clearbody S. clear -Hv H2.
    unfold oc in *. destruct (Z.eqb_spec S 0), (Z.eqb_spec (S - 256) 0); try lia.
    pose proof (Z.div_mod (S - 1) 65535 ltac:(lia)). pose proof (Z.div_mod (S - 256 - 1) 65535 ltac:(lia)).
    intros Hx. lia.
Qed.

(** An IPv4 packet, 20 bytes of header with a correct checksum. *)
Definition example_packet : list Z :=
  [0x45; 0; 0; 20; 0; 0; 0; 0; 64; 6; 0x66; 0xe1; 10; 0; 0; 1; 10; 0; 0; 2].
Definition example_layer : IPLayer :=
  mkIPLayer (mkDeviceManager [] []) [] (replicate 1500 0) None 0 (RandGenerator_new 233).

Lemma onReceive_TTL_witness :
  exists p', IPLayer_onReceive Debug 0 example_packet 20 example_layer = Ret (p', example_layer) /\
    ttl p' = Z.max 0 (64 - 1) /\
    (forall i, i <> 8 -> zget p' i = zget example_packet i) /\
    (64 <> 0 -> oc (word_sum (ztake 20 example_packet)) = 65535 ->
     oc (word_sum (ztake 20 p')) <> 65535).
Proof.
  apply (onReceive_TTL 0 example_packet example_layer
    (mkIpHeader 20 6 (IPAddress_of_in_addr [10; 0; 0; 1]) (IPAddress_of_in_addr [10; 0; 0; 2]))).
  - concrete.
  - concrete.
  - vm_compute. reflexivity.
Defined.

(** ** Where the header fields are read *)
Lemma ip_of_reader_any r :
  DataReader_wf r -> 4 <= zlen (dr_rest r) ->
  exists r', IPAddress_of_reader r = Ret (IPAddress_of_in_addr (ztake 4 (dr_rest r)), r') /\
    DataReader_wf r' /\ dr_rest r' = zdrop 4 (dr_rest r).
Proof.
  intros Hr Hn. unfold IPAddress_of_reader, kIPv4AddressSize. change (32 / 8) with 4.
  destruct (readBytes_ok r 4 Hr ltac:(lia)) as (r' & -> & (Hr' & _ & _ & _ & Hrest)).
  exists r'. split; [done|]. split; [done|]. rewrite Hrest.
  rewrite zdrop_app_length; [done|]. rewrite zlen_take. lia.
Qed.
Lemma skip_any r n :
  DataReader_wf r -> 0 <= n <= zlen (dr_rest r) ->
  DataReader_wf (DataReader_skip r n).2 /\ dr_rest (DataReader_skip r n).2 = zdrop n (dr_rest r).
Proof.
  intros Hr Hn. destruct (skip_ok r n Hr Hn) as (r' & -> & (Hr' & _ & _ & _ & Hrest)).
  cbn [snd]. split; [done|]. rewrite Hrest. rewrite zdrop_app_length; [done|]. rewrite zlen_take. lia.
Qed.

(** One read or skip, the rest of the packet being [zdrop o p]. *)
Ltac header_step :=
  match goal with
  | Hr : DataReader_wf ?r, E : dr_rest ?r = zdrop ?o ?p |- context [?rd ?r] =>
      let r' := fresh "r" in let Er := fresh "Er" in
      let H' := fresh "Hr" in let E' := fresh "E" in
      lazymatch rd with
      | DataReader_readUInt8 => destruct (readUInt8_any r Hr) as (r' & Er & H' & E')
      | DataReader_readUInt16 => destruct (readUInt16_any r Hr) as (r' & Er & H' & E')
      | IPAddress_of_reader => destruct (ip_of_reader_any r Hr) as (r' & Er & H' & E')
      end;
      [rewrite E; autorewrite with zlen; lia|];
      rewrite Er, E; cbn [obind]; rewrite E in E'; rewrite ?zdrop_zdrop in E' by lia; clear Er E Hr
  | Hr : DataReader_wf ?r, E : dr_rest ?r = zdrop ?o ?p |- context [(DataReader_skip ?r ?n).2] =>
      let H' := fresh "Hr" in let E' := fresh "E" in
      destruct (skip_any r n Hr) as [H' E'];
      [rewrite E; autorewrite with zlen; lia|];
      rewrite E in E'; rewrite ?zdrop_zdrop in E' by lia;
      generalize dependent (DataReader_skip r n).2; intros ? H' E'; clear E Hr
  end.

(** The fields at given positions. *)
Definition header_at (p : list Z) (proto src dst : Z) : IpHeader :=
  mkIpHeader (Z.land (be_val (ztake 1 p)) 0xf * 4) (be_val (ztake 1 (zdrop proto p)))
    (IPAddress_of_in_addr (ztake 4 (zdrop src p))) (IPAddress_of_in_addr (ztake 4 (zdrop dst p))).

(** Where the header is read. A checked build reads the protocol at byte 9 and
    the addresses at bytes 12 and 16, as in the format of RFC 791. In a release
    build the read of the total length, which stands inside a [DCHECK], is not
    there, and everything behind it is read two bytes too early. *)
Theorem readHeader_positions (p : list Z) :
  byte_list p -> 20 <= zlen p -> in_u64 (zlen p) -> Z.shiftr (be_val (ztake 1 p)) 4 = 4 ->
  IPLayer_readHeader Debug p (zlen p) = Ret (Some (header_at p 9 12 16)) /\
  IPLayer_readHeader Release p (zlen p) = Ret (Some (header_at p 7 10 14)).
Proof.
  intros Hb Hl H64 Hver. unfold IPLayer_readHeader.
  pose proof (DataReader_new_wf p Hb H64) as Hr0. pose proof (dr_rest_new p) as E0.
  set (r0 := DataReader_new p (zlen p)) in *. clearbody r0.
  assert (dr_rest r0 = zdrop 0 p) as E by (by rewrite zdrop_0). clear E0.
  split.
  - header_step. rewrite (zdrop_0 0 p) by lia. rewrite Hver. cbn [negb Z.eqb Pos.eqb].
    do 2 header_step. rewrite bool_decide_true by done. cbn [DCHECK obind].
    do 5 header_step. done.
  - header_step. rewrite (zdrop_0 0 p) by lia. rewrite Hver. cbn [negb Z.eqb Pos.eqb obind].
    do 6 header_step. done.
Qed.

Lemma readHeader_positions_witness :
  IPLayer_readHeader Debug example_packet 20 = Ret (Some (header_at example_packet 9 12 16)) /\
  IPLayer_readHeader Release example_packet 20 = Ret (Some (header_at example_packet 7 10 14)).
Proof. apply (readHeader_positions example_packet); concrete. Defined.

(** ** The probe *)

(** The delegate of the probe alarm respects the contract of the event loop:
    fired at any consistent state it returns, leaves the registry consistent and
    arms its alarm in the future, three seconds from now. With it the alarm loop
    terminates. *)
Theorem sendProbePacket_delegate (l : IPLayer) (o : option entry) (s : EpollServer) :
  es_inv o s -> clock_ok s -> is_Some (es_alarms s !! il_probe_alarm_ l) ->
  armed s !! il_probe_alarm_ l = None ->
  exists s', IPLayer_sendProbePacket l s = Ret s' /\ es_inv o s' /\ es_now_ s' = es_now_ s /\
    armed s' = <[il_probe_alarm_ l := time_ (es_now_ s) + 3000000]> (armed s) /\
    (length (due_entries s') <= length (due_entries s))%nat.
Proof.
  intros Hinv Hck Hal Hun.
  assert (IPLayer_sendProbePacket l s = rearm (il_probe_alarm_ l) s) as -> by reflexivity.
  destruct (rearm_ok o (il_probe_alarm_ l) s Hinv Hck Hal Hun) as (s' & E & Hi & Hn & Hd).
  exists s'. split; [done|]. split; [done|]. split; [done|]. split; [|done].
  revert E. unfold rearm, TimeBase_add, EpollServer_now, clock_ok in *. cbn [time_offset_].
  rewrite s64_ok by word. cbn [obind]. intros E. destruct Hal as [al Ha].
  rewrite (armed_lookup _ _ _ Ha) in Hun. apply al_armed_None in Hun.
  destruct (Alarm_update_ok o s (il_probe_alarm_ l) al (mkTimeBase (time_ (es_now_ s) + 3000000))
              update_granularity Hinv Ha) as (s1 & E1 & _ & Har & _);
    [cbn; unfold kInfiniteTimeUs; lia|rewrite Hun; unfold kInfiniteTimeUs; lia|].
  assert (s' = s1) as -> by congruence. rewrite Har. cbn [spec_cmd time_ time_offset_].
  destruct (Z.eqb_spec (time_ (es_now_ s) + 3000000) 0); [lia|].
  assert (default 0 (armed s !! il_probe_alarm_ l) = 0) as ->
    by (rewrite (armed_lookup _ _ _ Ha), (proj2 (al_armed_None al) Hun); done).
  unfold update_granularity. cbn [time_offset_].
  destruct (Z.ltb_spec (Z.abs (time_ (es_now_ s) + 3000000 - 0)) 1000); [lia|done].
Qed.

Lemma sendProbePacket_delegate_witness :
  exists s', IPLayer_sendProbePacket example_layer (EpollAlarmFactory_createAlarm example_server).2 = Ret s' /\
    es_inv None s' /\ es_now_ s' = mkTimeBase 1000000 /\
    armed s' = <[0%nat := 1000000 + 3000000]> (armed (EpollAlarmFactory_createAlarm example_server).2) /\
    (length (due_entries s') <= 0)%nat.
Proof.
  apply (sendProbePacket_delegate example_layer None (EpollAlarmFactory_createAlarm example_server).2).
  - apply es_inv_create, es_inv_empty.
  - vm_compute. split; congruence.
  - by eexists.
  - reflexivity.
Defined.
