(* ===== verification/SocketAddress.v ===== *)
(** src/src/tcp/socket_address.{h,cpp} and the constants of src/src/tcp/type.h:
    an IP address with a port, and its conversion from a [sockaddr]. *)

From stdpp Require Import base list numbers strings pretty.
From S2P Require Import Prelude Endian DataWriter DataReader IPAddress.

Open Scope Z_scope.
Open Scope outcome_scope.

(** src/src/tcp/type.h *)
Definition kTcpHeaderLength : Z := 20.
Definition kMaxSegmentSize : Z := 1460.
Definition kMaxTCPPacketLength : Z := 1480.

Record SocketAddress : Type := mkSocketAddress {
  sa_host_ : IPAddress;
  sa_port_ : Z
}.

#[global] Instance SocketAddress_eq_dec : EqDecision SocketAddress.
Proof. solve_decision. Defined.

(** [SocketAddress()]: an unspecified host and port 0. *)
Definition SocketAddress_default : SocketAddress := mkSocketAddress IPAddress_default 0.

(** Layout of the libc structures: [sin_family] at 0, [sin_port] at 2 and
    [sin_addr] at 4; their sizes and the address families. *)
Definition AF_INET : Z := 2.
Definition AF_INET6 : Z := 10.
Definition SOCK_STREAM : Z := 1.
Definition SOCK_DGRAM : Z := 2.
Definition IPPROTO_TCP : Z := 6.
Definition IPPROTO_UDP : Z := 17.
Definition sizeof_sockaddr : Z := 16.
Definition sizeof_sockaddr_in : Z := 16.
Definition sizeof_sockaddr_in6 : Z := 28.
Definition sizeof_sockaddr_storage : Z := 128.

(** [SocketAddress(const sockaddr_storage &)] *)
Definition SocketAddress_of_storage (saddr : list Z) : outcome SocketAddress :=
  ss_family <- mem_read saddr 0 2 ;;
  if le_val ss_family =? AF_INET then
    sin_port <- mem_read saddr 2 2 ;;
    sin_addr <- mem_read saddr 4 4 ;;
    Ret (mkSocketAddress (IPAddress_of_in_addr sin_addr) (ntohs (le_val sin_port)))
  else Ret SocketAddress_default.

(** [SocketAddress(const sockaddr *, socklen_t)]: [saddr] is the caller's block.
    The tests after the first one read [saddr->sa_family]. *)
Definition SocketAddress_of_sockaddr (saddr : list Z) (len : Z) : outcome SocketAddress :=
  if len <? sizeof_sockaddr then Ret SocketAddress_default
  else
    sa_family <- mem_read saddr 0 2 ;;
    if ((le_val sa_family =? AF_INET) && (len <? sizeof_sockaddr_in))
       || ((le_val sa_family =? AF_INET6) && (len <? sizeof_sockaddr_in6))
       || (sizeof_sockaddr_storage <? len)
    then Ret SocketAddress_default
    else
      data <- mem_read saddr 0 len ;;
      storage <- mem_write (replicate (Z.to_nat sizeof_sockaddr_storage) 0) 0 data ;;
      SocketAddress_of_storage storage.

Definition SocketAddress_eqb (lhs rhs : SocketAddress) : bool :=
  (sa_port_ lhs =? sa_port_ rhs) && IPAddress_eqb (sa_host_ lhs) (sa_host_ rhs).

Definition SocketAddress_toString `{LibcInet} (a : SocketAddress) : string :=
  IPAddress_toString (sa_host_ a) +:+ ":" +:+ pretty (Z.to_N (sa_port_ a)).

(** ** Well-formed addresses *)
Definition sa_wf (a : SocketAddress) : Prop := ip_wf (sa_host_ a) /\ in_u16 (sa_port_ a).
Definition sa4_wf (a : SocketAddress) : Prop := ip4_wf (sa_host_ a) /\ in_u16 (sa_port_ a).

(** A [sockaddr_in] as the caller fills it. *)
Definition sockaddr_in (v4 : list Z) (port : Z) : list Z :=
  le_bytes 2 AF_INET ++ be_bytes 2 port ++ v4 ++ replicate 8 0.

Lemma SocketAddress_eqb_eq a b :
  sa_wf a -> sa_wf b ->
  SocketAddress_eqb a b = true <-> a = b.
Proof.
  intros [Ha ?] [Hb ?]. unfold SocketAddress_eqb. rewrite andb_true_iff, Z.eqb_eq.
  rewrite IPAddress_eqb_eq by done. destruct a, b; cbn. naive_solver.
Qed.

Lemma sa4_wf_sa_wf a : sa4_wf a -> sa_wf a.
Proof. intros [[? ?] ?]. by split. Qed.

(** What the constructor accepts. *)
Definition sockaddr_is_v4 (saddr : list Z) (len : Z) : bool :=
  (sizeof_sockaddr_in <=? len) && (len <=? sizeof_sockaddr_storage)
  && (le_val (ztake 2 saddr) =? AF_INET).

Lemma storage_read saddr len o n :
  0 <= o -> 0 <= n -> o + n <= len -> len <= zlen saddr -> len <= 128 ->
  mem_read (ztake 0 (replicate 128 0) ++ ztake len saddr ++ zdrop (0 + zlen (ztake len saddr)) (replicate 128 0)) o n
  = Ret (ztake n (zdrop o saddr)).
Proof.
  intros. assert (zlen (replicate 128 0) = 128) as Hr by done.
  pose proof (zlen_nonneg saddr).
  rewrite mem_read_ok; [|lia|lia|autorewrite with zlen; rewrite Hr; lia].
  f_equal. set (R := replicate 128 0) in *. clearbody R. zlist.
Qed.

(** Every call of [SocketAddress(saddr, len)] on a block of at least [len]
    bytes returns: an AF_INET address of an accepted length gives its address
    and its port in host order, anything else the unspecified address. *)
Theorem SocketAddress_of_sockaddr_spec (saddr : list Z) (len : Z) :
  0 <= len <= zlen saddr ->
  SocketAddress_of_sockaddr saddr len =
    Ret (if sockaddr_is_v4 saddr len
         then mkSocketAddress (IPAddress_of_in_addr (ztake 4 (zdrop 4 saddr)))
                (ntohs (le_val (ztake 2 (zdrop 2 saddr))))
         else SocketAddress_default).
Proof.
  intros Hlen. unfold SocketAddress_of_sockaddr, sockaddr_is_v4,
    sizeof_sockaddr, sizeof_sockaddr_in, sizeof_sockaddr_in6, sizeof_sockaddr_storage.
  destruct (Z.ltb_spec len 16); [by destruct (Z.leb_spec 16 len); [lia|]|].
  destruct (Z.leb_spec 16 len); [|lia].
  rewrite mem_read_ok by lia. rewrite zdrop_0 by lia. cbn [obind].
  set (f := le_val (ztake 2 saddr)).
  destruct (Z.ltb_spec 128 len), (Z.leb_spec len 128); try lia.
  { rewrite orb_true_r. by rewrite andb_false_r. }
  rewrite andb_false_r, orb_false_r. cbn [andb orb].
  destruct (Z.eqb_spec f AF_INET6) as [E6|_]; cbn [andb].
  - assert ((f =? AF_INET) = false) as E4 by (by rewrite E6). rewrite E4.
    destruct (_ <? _); [done|].
    rewrite mem_read_ok by lia. rewrite zdrop_0 by lia. cbn [obind].
    rewrite mem_write_ok by (autorewrite with zlen; change (zlen (replicate (Z.to_nat 128) 0)) with 128; lia).
    cbn [obind]. unfold SocketAddress_of_storage.
    rewrite storage_read, zdrop_0 by lia. cbn [obind]. fold f. by rewrite E4.
  - rewrite mem_read_ok by lia. rewrite zdrop_0 by lia. cbn [obind].
    rewrite mem_write_ok by (autorewrite with zlen; change (zlen (replicate (Z.to_nat 128) 0)) with 128; lia).
    cbn [obind]. unfold SocketAddress_of_storage.
    rewrite storage_read, zdrop_0 by lia. cbn [obind]. fold f.
    destruct (f =? AF_INET); [|done].
    rewrite !storage_read by lia. done.
Qed.

Lemma SocketAddress_of_sockaddr_spec_witness :
  SocketAddress_of_sockaddr (sockaddr_in [10; 100; 1; 2] 8080) 16
  = Ret (mkSocketAddress (IPAddress_of_in_addr [10; 100; 1; 2]) 8080).
Proof.
  rewrite (SocketAddress_of_sockaddr_spec (sockaddr_in [10; 100; 1; 2] 8080) 16);
    [reflexivity|vm_compute; split; congruence].
Defined.
