(* ===== verification/Segment.v ===== *)
(** src/src/tcp/segment.{h,cpp} and src/src/tcp/segment_factory.{h,cpp}: TCP
    segments, their wire format and its checksum. *)

From stdpp Require Import base list numbers strings pretty.
From S2P Require Import Prelude Endian DataWriter DataReader IPAddress Checksum SocketAddress.

Open Scope Z_scope.
Open Scope outcome_scope.

Definition FIN : Z := 0x01.
Definition SYN : Z := 0x02.
Definition RST : Z := 0x04.
Definition PSH : Z := 0x08.
Definition ACK : Z := 0x10.
Definition URG : Z := 0x20.

(** [seg_data_] is what the pointer [data_] points to: the bytes from there to the
    end of their block, the empty list for [nullptr]. *)
Record Segment : Type := mkSegment {
  seg_source_ : SocketAddress;
  seg_destination_ : SocketAddress;
  seg_sequence_ : Z;
  seg_acknowledgment_ : Z;
  seg_flags_ : Z;
  seg_window_ : Z;
  seg_data_ : list Z;
  seg_own_data_ : bool;
  seg_data_length_ : Z
}.

Definition Segment_isACK (s : Segment) : bool := negb (Z.land (seg_flags_ s) ACK =? 0).
Definition Segment_isRST (s : Segment) : bool := negb (Z.land (seg_flags_ s) RST =? 0).
Definition Segment_isFIN (s : Segment) : bool := negb (Z.land (seg_flags_ s) FIN =? 0).
Definition Segment_isSYN (s : Segment) : bool := negb (Z.land (seg_flags_ s) SYN =? 0).

(** [writeSegmentTo]: the results of the writes are not looked at, and the
    function returns [false] always. *)
Definition Segment_writeSegmentTo (bld : build) (s : Segment) (w : DataWriter)
  : outcome (bool * DataWriter) :=
  let* (_, w) := DataWriter_writeUInt16 w (sa_port_ (seg_source_ s)) in
  let* (_, w) := DataWriter_writeUInt16 w (sa_port_ (seg_destination_ s)) in
  let* (_, w) := DataWriter_writeUInt32 w (seg_sequence_ s) in
  let* (_, w) := DataWriter_writeUInt32 w (seg_acknowledgment_ s) in
  let* (_, w) := DataWriter_writeUInt8 w 0x50 in
  let* (_, w) := DataWriter_writeUInt8 w (seg_flags_ s) in
  let* (_, w) := DataWriter_writeUInt16 w (seg_window_ s) in
  let* (_, w) := DataWriter_writeUInt16 w 0 in
  let* (_, w) := DataWriter_writeUInt16 w 0 in
  let* (_, w) := DataWriter_writeFrom w (seg_data_ s) (seg_data_length_ s) in
  let tcp_length := u16 (seg_data_length_ s + kTcpHeaderLength) in
  let checksum := Checksum_new (DataWriter_written w) in
  checksum <- Checksum_addIPAddress bld checksum (sa_host_ (seg_source_ s)) ;;
  checksum <- Checksum_addIPAddress bld checksum (sa_host_ (seg_destination_ s)) ;;
  let checksum := Checksum_addHostUInt16 checksum ServiceProtocol_TCP in
  let checksum := Checksum_addHostUInt16 checksum tcp_length in
  m <- Checksum_writeTo checksum (dw_buffer_ w) 16 ;;
  Ret (false, mkDataWriter m (dw_capacity_ w) (dw_length_ w)).

(** A local that a failed read leaves uninitialised: its later use is undefined. *)
Definition initialised {A} (o : option A) : outcome A :=
  match o with Some a => Ret a | None => Undef end.

(** [parse(source, destination, buf, len)]. The segment comes from
    [make_unique<Segment>()] and is zeroed, the locals are not; the read of the
    window is inside a [DCHECK]. [buf] is the block the pointer points into. *)
Definition Segment_parse (bld : build) (source destination : IPAddress) (buf : list Z) (len : Z)
  : outcome Segment :=
  let reader := DataReader_new buf len in
  let* (source_port, reader) := DataReader_readUInt16 reader in
  let* (destination_port, reader) := DataReader_readUInt16 reader in
  source_port <- initialised source_port ;;
  destination_port <- initialised destination_port ;;
  let* (sequence_, reader) := DataReader_readUInt32 reader in
  let* (acknowledgment_, reader) := DataReader_readUInt32 reader in
  let* (offset, reader) := DataReader_readUInt8 reader in
  offset <- initialised offset ;;
  let offset := u8 (Z.shiftr offset 2) in
  let* (flags_, reader) := DataReader_readUInt8 reader in
  window_ <- match bld with
             | Debug =>
                 let* (window_, _) := DataReader_readUInt16 reader in
                 DCHECK Debug (bool_decide (is_Some window_)) ;;; Ret (default 0 window_)
             | Release => Ret 0
             end ;;
  if zlen buf <? offset then Undef
  else Ret {| seg_source_ := mkSocketAddress source source_port;
              seg_destination_ := mkSocketAddress destination destination_port;
              seg_sequence_ := default 0 sequence_;
              seg_acknowledgment_ := default 0 acknowledgment_;
              seg_flags_ := default 0 flags_;
              seg_window_ := window_;
              seg_data_ := zdrop offset buf;
              seg_own_data_ := false;
              seg_data_length_ := u64 (len - offset) |}.

Definition Segment_writeDataTo (s : Segment) (w : DataWriter) : outcome (bool * DataWriter) :=
  if seg_data_length_ s =? 0 then Ret (true, w)
  else DataWriter_writeFrom w (seg_data_ s) (seg_data_length_ s).

Definition Segment_copyData (s : Segment) : outcome Segment :=
  if seg_own_data_ s then Ret s
  else if seg_data_length_ s =? 0 then Ret s
  else
    data <- mem_read (seg_data_ s) 0 (seg_data_length_ s) ;;
    Ret {| seg_source_ := seg_source_ s; seg_destination_ := seg_destination_ s;
           seg_sequence_ := seg_sequence_ s; seg_acknowledgment_ := seg_acknowledgment_ s;
           seg_flags_ := seg_flags_ s; seg_window_ := seg_window_ s;
           seg_data_ := data; seg_own_data_ := true;
           seg_data_length_ := seg_data_length_ s |}.

Definition Segment_toString (s : Segment) : string :=
  "SEQ=" +:+ pretty (Z.to_N (seg_sequence_ s))
  +:+ (if Segment_isACK s then " ACK=" +:+ pretty (Z.to_N (seg_acknowledgment_ s)) else "")
  +:+ (if Segment_isSYN s then " SYN" else "")
  +:+ (if Segment_isRST s then " RST" else "")
  +:+ (if Segment_isFIN s then " FIN" else "")
  +:+ (if 0 <? seg_data_length_ s then " len=" +:+ pretty (Z.to_N (seg_data_length_ s)) else "").

(** ** The factory of one connection *)
Record SegmentFactory : Type := mkSegmentFactory {
  sf_local_address_ : SocketAddress;
  sf_remote_address_ : SocketAddress
}.

Definition SegmentFactory_createSegment_data (f : SegmentFactory) (seq ack ctl : Z)
  (data : list Z) (data_length : Z) : Segment :=
  {| seg_source_ := sf_local_address_ f;
     seg_destination_ := sf_remote_address_ f;
     seg_sequence_ := seq;
     seg_acknowledgment_ := ack;
     seg_flags_ := ctl;
     seg_window_ := 65535;
     seg_data_ := data;
     seg_own_data_ := false;
     seg_data_length_ := data_length |}.
Definition SegmentFactory_createSegment_ack (f : SegmentFactory) (seq ack ctl : Z) : Segment :=
  SegmentFactory_createSegment_data f seq ack ctl [] 0.
Definition SegmentFactory_createSegment (bld : build) (f : SegmentFactory) (seq ctl : Z)
  : outcome Segment :=
  DCHECK bld (Z.land ctl ACK =? 0) ;;;
  Ret (SegmentFactory_createSegment_ack f seq 0 ctl).

(** ** Invariant *)
Record seg_wf (s : Segment) : Prop := {
  seg_wf_src : sa4_wf (seg_source_ s);
  seg_wf_dst : sa4_wf (seg_destination_ s);
  seg_wf_seq : in_u32 (seg_sequence_ s);
  seg_wf_ack : in_u32 (seg_acknowledgment_ s);
  seg_wf_flags : in_u8 (seg_flags_ s);
  seg_wf_window : in_u16 (seg_window_ s);
  seg_wf_data : byte_list (seg_data_ s);
  seg_wf_len : 0 <= seg_data_length_ s <= zlen (seg_data_ s)
}.

Definition seg_payload (s : Segment) : list Z := ztake (seg_data_length_ s) (seg_data_ s).

(** The wire format of RFC 793, the checksum field given. *)
Definition seg_bytes (s : Segment) (checksum : Z) : list Z :=
  (be_bytes 2 (sa_port_ (seg_source_ s)) ++ be_bytes 2 (sa_port_ (seg_destination_ s))
   ++ be_bytes 4 (seg_sequence_ s) ++ be_bytes 4 (seg_acknowledgment_ s)
   ++ be_bytes 1 0x50 ++ be_bytes 1 (seg_flags_ s) ++ be_bytes 2 (seg_window_ s))
  ++ be_bytes 2 checksum ++ be_bytes 2 0 ++ seg_payload s.

(** The words of the pseudo-header. *)
Definition pseudo_sum (s : Segment) : Z :=
  word_sum (ip_v4 (sa_host_ (seg_source_ s))) + word_sum (ip_v4 (sa_host_ (seg_destination_ s)))
  + 6 + (seg_data_length_ s + 20).

Lemma zlen_seg_payload s : seg_wf s -> zlen (seg_payload s) = seg_data_length_ s.
Proof. intros Hs. pose proof (seg_wf_len s Hs). unfold seg_payload. rewrite zlen_take. lia. Qed.
Lemma seg_payload_bytes s : seg_wf s -> byte_list (seg_payload s).
Proof. intros Hs. apply byte_list_take, Hs. Qed.
Lemma zlen_seg_bytes s c : seg_wf s -> zlen (seg_bytes s c) = 20 + seg_data_length_ s.
Proof.
  intros. unfold seg_bytes. rewrite !zlen_app, !zlen_be_bytes, zlen_seg_payload by done. lia.
Qed.
Lemma seg_bytes_byte s c : seg_wf s -> byte_list (seg_bytes s c).
Proof.
  intros Hs. unfold seg_bytes. rewrite !byte_list_app. pose proof (seg_payload_bytes s Hs).
  split_and!; auto with word.
Qed.

(** The checksum field is one word of the sum. *)
Lemma word_sum_seg_bytes s c :
  in_u16 c -> word_sum (seg_bytes s c) = word_sum (seg_bytes s 0) + c.
Proof.
  intros Hc. unfold seg_bytes.
  set (h := be_bytes 2 (sa_port_ (seg_source_ s)) ++ _). set (t := be_bytes 2 0 ++ seg_payload s).
  assert (Z.even (zlen h) = true) as He.
  { unfold h. by rewrite !zlen_app, !zlen_be_bytes. }
  clearbody h t. rewrite !(word_sum_app h) by done.
  rewrite !word_sum_app by (by rewrite zlen_be_bytes).
  rewrite !word_sum_be_bytes by word. lia.
Qed.

(** One field: a write of the code is a write of its big-endian bytes. *)
Ltac write_field_step :=
  rewrite ?writeUInt16_bytes, ?writeUInt32_bytes, ?writeUInt8_bytes by word;
  match goal with
  | H : dw_append ?w0 ?D ?w |- context [DataWriter_writeBytes ?w ?d] =>
      let w' := fresh "w" in let E := fresh "E" in let H' := fresh "H" in
      destruct (dw_append_step w0 D w d H) as (w' & E & H');
      [auto with word
      |rewrite ?zlen_app, ?zlen_be_bytes; change (zlen (@nil Z)) with 0; lia
      |rewrite E; cbn [obind]; clear E H]
  end.

(** The writes of the serialiser, without the checksum. *)
Lemma writeSegmentTo_written s w0 :
  seg_wf s -> DataWriter_wf w0 -> dw_length_ w0 + 20 + seg_data_length_ s <= dw_capacity_ w0 ->
  exists w', dw_append w0 (seg_bytes s 0) w' /\ forall bld,
    Segment_writeSegmentTo bld s w0 =
      (c <- Checksum_addIPAddress bld (Checksum_new (DataWriter_written w'))
              (sa_host_ (seg_source_ s)) ;;
       c <- Checksum_addIPAddress bld c (sa_host_ (seg_destination_ s)) ;;
       m <- Checksum_writeTo
              (Checksum_addHostUInt16 (Checksum_addHostUInt16 c ServiceProtocol_TCP)
                 (u16 (seg_data_length_ s + kTcpHeaderLength))) (dw_buffer_ w') 16 ;;
       Ret (false, mkDataWriter m (dw_capacity_ w') (dw_length_ w'))).
Proof.
  intros Hs Hw Hfit. pose proof (seg_wf_len s Hs). pose proof (seg_wf_flags s Hs).
  pose proof (seg_payload_bytes s Hs). pose proof (zlen_seg_payload s Hs).
  unfold Segment_writeSegmentTo. pose proof (dw_append_nil w0 Hw) as Ha.
  do 9 write_field_step.
  match goal with H : dw_append _ _ ?w |- _ =>
    rewrite (writeFrom_bytes w);
    [|apply H|done|destruct H as (_ & ? & Hl & _); rewrite ?zlen_app, ?zlen_be_bytes in Hl;
      change (zlen (@nil Z)) with 0 in Hl; lia] end.
  fold (seg_payload s). write_field_step.
  eexists; split; [|done]. unfold seg_bytes. rewrite <- ?app_assoc in *. done.
Qed.

(** Overwriting the checksum field in the writer. *)
Lemma seg_bytes_patch s w m c :
  seg_wf s -> DataWriter_wf w -> DataWriter_written w = seg_bytes s 0 ->
  mem_write (dw_buffer_ w) 16 (be_bytes 2 c) = Ret m ->
  DataWriter_written (mkDataWriter m (dw_capacity_ w) (dw_length_ w)) = seg_bytes s c.
Proof.
  intros Hs [? ? ? ?] Hw (? & Hle & ->)%mem_write_Ret.
  pose proof (zlen_seg_bytes s 0 Hs) as Hz. pose proof (seg_wf_len s Hs).
  rewrite <- Hw in Hz. unfold DataWriter_written in *. rewrite zlen_take in Hz.
  cbn [dw_length_ dw_buffer_]. rewrite zlen_be_bytes in *. change (Z.of_nat 2) with 2 in *.
  assert (ztake 16 (dw_buffer_ w) = ztake 16 (seg_bytes s 0)) as -> by (rewrite <- Hw; zlist).
  assert (ztake (dw_length_ w - 18) (zdrop (16 + 2) (dw_buffer_ w)) = zdrop 18 (seg_bytes s 0)) as Hd
    by (rewrite <- Hw; zlist).
  rewrite !ztake_app, zlen_take, zlen_seg_bytes, zlen_be_bytes by done.
  change (Z.of_nat 2) with 2.
  rewrite (ztake_all _ (ztake 16 _)) by (rewrite zlen_take; lia).
  rewrite (ztake_all _ (be_bytes 2 c)) by (rewrite zlen_be_bytes; lia).
  replace (dw_length_ w - _ - 2) with (dw_length_ w - 18) by lia. rewrite Hd.
  unfold seg_bytes at 3. set (h := be_bytes 2 (sa_port_ (seg_source_ s)) ++ _).
  unfold seg_bytes. fold h.
  assert (zlen h = 16) as Hh by (unfold h; by rewrite !zlen_app, !zlen_be_bytes).
  rewrite ztake_app, zdrop_app, Hh, ztake_all, ztake_0, app_nil_r, zdrop_all by lia.
  rewrite zdrop_app, zlen_be_bytes, zdrop_all, zdrop_0 by (rewrite ?zlen_be_bytes; lia). done.
Qed.

(** The serialiser writes the RFC 793 format, with a checksum that verifies. *)
Lemma writeSegmentTo_ok s w0 :
  seg_wf s -> seg_data_length_ s <= 65515 -> DataWriter_wf w0 -> dw_length_ w0 = 0 ->
  20 + seg_data_length_ s <= dw_capacity_ w0 ->
  exists w c, Segment_writeSegmentTo Debug s w0 = Ret (false, w) /\ in_u16 c /\
    DataWriter_written w = seg_bytes s c /\ DataWriter_bytesWritten w = 20 + seg_data_length_ s /\
    oc (pseudo_sum s + word_sum (seg_bytes s c)) = 65535.
Proof.
  intros Hs Hmax Hw H0 Hfit.
  destruct (writeSegmentTo_written s w0 Hs Hw ltac:(lia)) as (w & (Hw' & Hc & Hl & Hwr & Hz) & ->).
  rewrite zlen_seg_bytes in Hl by done. pose proof (seg_wf_len s Hs).
  assert (DataWriter_written w = seg_bytes s 0) as Hwr'.
  { rewrite Hwr. unfold DataWriter_written. by rewrite H0, ztake_0. }
  pose proof (seg_bytes_byte s 0 Hs) as Hby. pose proof (word_sum_nonneg _ Hby).
  destruct (seg_wf_src s Hs) as [Hsrc ?], (seg_wf_dst s Hs) as [Hdst ?].
  pose proof (word_sum_nonneg _ (proj1 (proj2 (ip4_wf_inv _ Hsrc)))).
  pose proof (word_sum_nonneg _ (proj1 (proj2 (ip4_wf_inv _ Hdst)))).
  rewrite Hwr', Checksum_new_oc by done.
  rewrite addIPAddress_oc by done. cbn [obind]. rewrite addIPAddress_oc by (done || lia). cbn [obind].
  unfold ServiceProtocol_TCP, kTcpHeaderLength. rewrite u16_small by word.
  rewrite !addHostUInt16_oc by word. rewrite Checksum_writeTo_bytes by lia.
  set (S := _ + (seg_data_length_ s + 20)). pose proof (oc_range S).
  rewrite mem_write_ok by (rewrite ?zlen_be_bytes; destruct Hw'; lia). cbn [obind].
  eexists _, (65535 - oc S). split; [done|]. split; [word|]. split.
  - eapply seg_bytes_patch; try done. by rewrite mem_write_ok by (rewrite ?zlen_be_bytes; destruct Hw'; lia).
  - split; [cbn; lia|]. rewrite word_sum_seg_bytes by word.
    transitivity (oc (S + (65535 - oc S))); [f_equal; unfold S, pseudo_sum; lia|].
    apply oc_complement. lia.
Qed.

(** The fields of the header, read back one by one. *)
Ltac read_field_step :=
  match goal with
  | Hr : DataReader_wf ?r, E : dr_rest ?r = be_bytes ?n ?v ++ ?k |- _ =>
      let r' := fresh "r" in let Ha := fresh "Ha" in let Hk := fresh "Hk" in
      let Er := fresh "Er" in
      first [ destruct (readUInt8_app r v k Hr) as (r' & Er & Ha & Hk); [word|exact E|]
            | destruct (readUInt16_app r v k Hr) as (r' & Er & Ha & Hk); [word|exact E|]
            | destruct (readUInt32_app r v k Hr) as (r' & Er & Ha & Hk); [word|exact E|] ];
      rewrite Er; cbn [obind initialised]; clear E Hr Er; destruct Ha as (? & _);
      rewrite <- ?app_assoc in Hk
  end.

(** The window of a parsed segment: a release build does not read it. *)
Definition parsed_window (bld : build) (window : Z) : Z :=
  match bld with Debug => window | Release => 0 end.

Lemma Segment_parse_bytes_bld bld src dst s c :
  seg_wf s -> in_u16 c -> seg_data_length_ s <= 65515 ->
  Segment_parse bld src dst (seg_bytes s c) (20 + seg_data_length_ s)
  = Ret {| seg_source_ := mkSocketAddress src (sa_port_ (seg_source_ s));
           seg_destination_ := mkSocketAddress dst (sa_port_ (seg_destination_ s));
           seg_sequence_ := seg_sequence_ s; seg_acknowledgment_ := seg_acknowledgment_ s;
           seg_flags_ := seg_flags_ s; seg_window_ := parsed_window bld (seg_window_ s);
           seg_data_ := seg_payload s; seg_own_data_ := false;
           seg_data_length_ := seg_data_length_ s |}.
Proof.
  intros Hs Hc Hmax. pose proof (seg_wf_len s Hs). pose proof (zlen_seg_bytes s c Hs) as Hz.
  pose proof (seg_bytes_byte s c Hs) as Hby. unfold Segment_parse. rewrite <- Hz.
  pose proof (DataReader_new_wf (seg_bytes s c) Hby ltac:(rewrite Hz; word)) as Hr.
  pose proof (dr_rest_new (seg_bytes s c)) as E.
  set (r0 := DataReader_new _ _) in *. clearbody r0.
  unfold seg_bytes in E at 1. rewrite <- !app_assoc in E.
  destruct (seg_wf_src s Hs) as [? ?], (seg_wf_dst s Hs) as [? ?].
  pose proof (seg_wf_seq s Hs). pose proof (seg_wf_ack s Hs).
  pose proof (seg_wf_flags s Hs). pose proof (seg_wf_window s Hs).
  do 5 read_field_step. change (u8 (80 ≫ 2)) with 20. read_field_step.
  match goal with |- context [match bld with Debug => ?d | Release => ?r end] =>
    assert (match bld with Debug => d | Release => r end = Ret (parsed_window bld (seg_window_ s))) as -> end.
  { destruct bld; [|done]. read_field_step. cbn [default DCHECK]. by rewrite bool_decide_true. }
  cbn [obind default].
  destruct (Z.ltb_spec (zlen (seg_bytes s c)) 20); [lia|].
  assert (zdrop 20 (seg_bytes s c) = seg_payload s) as ->.
  { unfold seg_bytes. rewrite !app_assoc. apply zdrop_app_length.
    by rewrite !zlen_app, !zlen_be_bytes. }
  rewrite Hz, u64_small by word. by replace (20 + seg_data_length_ s - 20) with (seg_data_length_ s) by lia.
Qed.

Lemma Segment_parse_bytes src dst s c :
  seg_wf s -> in_u16 c -> seg_data_length_ s <= 65515 ->
  Segment_parse Debug src dst (seg_bytes s c) (20 + seg_data_length_ s)
  = Ret {| seg_source_ := mkSocketAddress src (sa_port_ (seg_source_ s));
           seg_destination_ := mkSocketAddress dst (sa_port_ (seg_destination_ s));
           seg_sequence_ := seg_sequence_ s; seg_acknowledgment_ := seg_acknowledgment_ s;
           seg_flags_ := seg_flags_ s; seg_window_ := seg_window_ s;
           seg_data_ := seg_payload s; seg_own_data_ := false;
           seg_data_length_ := seg_data_length_ s |}.
Proof. apply Segment_parse_bytes_bld. Qed.

(** C1. Wire round trip, in both builds. A build with [DCHECK]s serialises every
    well-formed segment between IPv4 endpoints, its payload any bytes up to the
    65535-byte limit of the length field, into a large enough buffer as header and
    payload, which with the pseudo-header sum to 0xffff: the checksum verifies. Parsing
    those bytes gives the same endpoints, numbers, flags and payload back in either
    build, and the same window in a build with [DCHECK]s; a release build leaves the
    window 0, since it drops the [DCHECK] that reads it. A release build does not get as
    far as the bytes: the checksum adds a word that is never initialised, because the
    address is written inside a [DCHECK], which is undefined behaviour. The result [false]
    of the serialiser says nothing about success. *)
Theorem Segment_wire_roundtrip (s : Segment) (buf : list Z) :
  seg_wf s -> seg_data_length_ s <= 65515 -> byte_list buf -> in_u64 (zlen buf) ->
  20 + seg_data_length_ s <= zlen buf ->
  exists w c,
    Segment_writeSegmentTo Debug s (DataWriter_new buf (zlen buf)) = Ret (false, w) /\
    DataWriter_written w = seg_bytes s c /\
    oc (pseudo_sum s + word_sum (DataWriter_written w)) = 65535 /\
    (forall bld, Segment_parse bld (sa_host_ (seg_source_ s)) (sa_host_ (seg_destination_ s))
      (DataWriter_written w) (DataWriter_bytesWritten w)
    = Ret (mkSegment (seg_source_ s) (seg_destination_ s) (seg_sequence_ s)
             (seg_acknowledgment_ s) (seg_flags_ s)
             (match bld with Debug => seg_window_ s | Release => 0 end)
             (seg_payload s) false (seg_data_length_ s))) /\
    Segment_writeSegmentTo Release s (DataWriter_new buf (zlen buf)) = Undef.
Proof.
  intros Hs Hmax Hb H64 Hfit. pose proof (zlen_nonneg buf).
  destruct (writeSegmentTo_ok s (DataWriter_new buf (zlen buf)) Hs Hmax) as (w & c & E & Hc & Hw & Hl & Ho).
  { by apply DataWriter_new_wf. }
  { done. }
  { done. }
  exists w, c. rewrite Hw, Hl. split_and!; try done.
  - intros bld. rewrite Segment_parse_bytes_bld by done. by destruct (seg_source_ s), (seg_destination_ s).
  - destruct (writeSegmentTo_written s (DataWriter_new buf (zlen buf)) Hs) as (w' & _ & Hr);
      [by apply DataWriter_new_wf|cbn; lia|apply Hr].
Qed.

(** A segment for witnesses: "hi!" from 10.0.0.1:49162 to 10.0.0.2:80. *)
Definition example_segment : Segment :=
  mkSegment (mkSocketAddress (IPAddress_of_in_addr [10; 0; 0; 1]) 49162)
            (mkSocketAddress (IPAddress_of_in_addr [10; 0; 0; 2]) 80)
            4294967290 7 (Z.lor ACK PSH) 65535 [104; 105; 33; 0] false 3.

Lemma example_segment_wf : seg_wf example_segment.
Proof.
  split; cbn; try concrete.
  - split; [apply ip_of_in_addr_wf; concrete|concrete].
  - split; [apply ip_of_in_addr_wf; concrete|concrete].
Qed.

Lemma Segment_wire_roundtrip_witness :
  exists w c,
    Segment_writeSegmentTo Debug example_segment (DataWriter_new (replicate 23 0) 23)
      = Ret (false, w) /\
    DataWriter_written w = seg_bytes example_segment c /\
    oc (pseudo_sum example_segment + word_sum (DataWriter_written w)) = 65535 /\
    (forall bld, Segment_parse bld (sa_host_ (seg_source_ example_segment))
      (sa_host_ (seg_destination_ example_segment))
      (DataWriter_written w) (DataWriter_bytesWritten w)
    = Ret (mkSegment (seg_source_ example_segment) (seg_destination_ example_segment)
             4294967290 7 (Z.lor ACK PSH) (match bld with Debug => 65535 | Release => 0 end)
             [104; 105; 33] false 3)) /\
    Segment_writeSegmentTo Release example_segment (DataWriter_new (replicate 23 0) 23) = Undef.
Proof.
  apply (Segment_wire_roundtrip example_segment (replicate 23 0)).
  - apply example_segment_wf.
  - concrete.
  - apply replicate_zero_bytes.
  - concrete.
  - concrete.
Defined.

(** ** Parsing arbitrary bytes *)
Definition be_field (buf : list Z) (o n : Z) : Z := be_val (ztake n (zdrop o buf)).

(** Reading leaves the capacity of the reader as it is. *)
Lemma readBytes_capacity r n o r' :
  DataReader_readBytes r n = Ret (o, r') -> dr_capacity_ r' = dr_capacity_ r.
Proof.
  unfold DataReader_readBytes. case_match; [by intros [= _ <-]|].
  by intros (d & _ & [= _ <-])%bind_Ret.
Qed.
Ltac read_capacity Er :=
  unfold DataReader_readUInt8, DataReader_readUInt16, DataReader_readUInt32 in Er;
  let Eb := fresh in apply bind_Ret in Er as ([? ?] & Eb & [= _ <-]); exact (readBytes_capacity _ _ _ _ Eb).

Ltac read_any_step :=
  match goal with
  | Hr : DataReader_wf ?r, E : dr_rest ?r = ?k |- context [?rd ?r] =>
      let r' := fresh "r" in let Er := fresh "Er" in
      let H' := fresh "Hr" in let E' := fresh "E" in
      lazymatch rd with
      | DataReader_readUInt8 => destruct (readUInt8_any r Hr) as (r' & Er & H' & E')
      | DataReader_readUInt16 => destruct (readUInt16_any r Hr) as (r' & Er & H' & E')
      | DataReader_readUInt32 => destruct (readUInt32_any r Hr) as (r' & Er & H' & E')
      end;
      [rewrite E; autorewrite with zlen; lia|];
      let Hc := fresh "Hc" in
      assert (dr_capacity_ r' = dr_capacity_ r) as Hc by (clear - Er; read_capacity Er);
      repeat match goal with H : dr_capacity_ r = _ |- _ => rewrite H in Hc; clear H end;
      rewrite Er, E; cbn [obind initialised default fst snd]; rewrite E in E';
      rewrite ?zdrop_zdrop in E' by lia; 
      lazymatch type of E' with _ = zdrop ?n _ =>
        let n' := eval vm_compute in n in change n with n' in E' end; clear Er E Hr
  end.

Definition parsed_segment (bld : build) (source destination : IPAddress) (buf : list Z) (len : Z) : Segment :=
  let p := ztake len buf in
  let offset := be_field p 12 1 / 4 in
  mkSegment (mkSocketAddress source (be_field p 0 2))
            (mkSocketAddress destination (be_field p 2 2))
            (be_field p 4 4) (be_field p 8 4) (be_field p 13 1) (parsed_window bld (be_field p 14 2))
            (zdrop offset buf) false (u64 (len - offset)).

(** The bytes [parse] has to find: a release build needs neither flags nor window. *)
Definition parse_min (bld : build) : Z := match bld with Debug => 16 | Release => 13 end.

(** The common tail of [parse]: what it makes of the fields. *)
Lemma parse_offset (o : Z) : in_u8 o -> u8 (o ≫ 2) = o / 4.
Proof.
  intros Ho. rewrite Z.shiftr_div_pow2 by lia. change (2 ^ 2) with 4. rewrite u8_small; [done|].
  ranges. split; [apply Z.div_pos|apply Z.div_lt_upper_bound]; lia.
Qed.
Lemma be_field_u8 (p : list Z) (o : Z) : byte_list p -> 0 <= o < zlen p -> in_u8 (be_field p o 1).
Proof.
  intros Hp Ho. assert (byte_list (ztake 1 (zdrop o p))) as Hby by auto with word.
  pose proof (be_val_range _ Hby) as Hv. rewrite zlen_take, zlen_drop in Hv.
  replace (Z.max 0 _) with 1 in Hv by lia. exact Hv.
Qed.

Lemma Segment_parse_long bld source destination (buf : list Z) (len : Z) :
  byte_list buf -> parse_min bld <= len <= zlen buf -> in_u64 len ->
  Segment_parse bld source destination buf len =
    if zlen buf <? be_field (ztake len buf) 12 1 / 4 then Undef
    else Ret (parsed_segment bld source destination buf len).
Proof.
  intros Hb Hlen H64. unfold Segment_parse, parsed_segment. set (p := ztake len buf).
  assert (13 <= len) by (destruct bld; cbn in Hlen; lia).
  assert (zlen p = len) as Hp by (unfold p; rewrite zlen_take; lia).
  assert (DataReader_wf (DataReader_new buf len)) as Hr by (split; cbn; try done; lia).
  assert (dr_rest (DataReader_new buf len) = zdrop 0 p) as E.
  { unfold dr_rest; cbn. by rewrite !zdrop_0, Z.sub_0_r by lia. }
  assert (dr_capacity_ (DataReader_new buf len) = len) as Hcap by done.
  set (r0 := DataReader_new buf len) in *. clearbody r0.
  do 5 read_any_step. unfold be_field at 1.
  rewrite parse_offset by (apply (be_field_u8 p 12); [unfold p; auto with word|lia]).
  destruct bld; cbn [parse_min] in Hlen.
  - do 2 read_any_step. cbn [DCHECK]. by rewrite bool_decide_true.
  - destruct (decide (len = 13)) as [->|]; [|by read_any_step].
    assert (zdrop 13 p = []) as E13 by (apply zdrop_all; lia).
    match goal with Er : dr_rest ?r = zdrop 13 p |- _ => rewrite E13 in Er;
      unfold DataReader_readUInt8 at 1; rewrite (readBytes_none r 1) by (done || rewrite ?Er; done || lia) end.
    unfold be_field. by rewrite E13.
Qed.

(** With fewer bytes than this there is no result. *)
Definition parse_none (bld : build) : Z := match bld with Debug => 16 | Release => 5 end.
Lemma Segment_parse_short bld source destination (buf : list Z) (len : Z) (s : Segment) :
  byte_list buf -> 0 <= len < parse_none bld -> len <= zlen buf ->
  Segment_parse bld source destination buf len <> Ret s.
Proof.
  intros Hb Hlen Hbuf. assert (0 <= len < 16) by (destruct bld; cbn in Hlen; lia).
  unfold Segment_parse, DataReader_readUInt16, DataReader_readUInt32, DataReader_readUInt8.
  assert (DataReader_wf (DataReader_new buf len)) as Hr by (split; cbn; try done; word).
  pose proof (zlen_dr_rest _ Hr) as E. assert (dr_capacity_ (DataReader_new buf len) = len) as Hc by done.
  cbn [dr_capacity_ dr_pos_ DataReader_new] in E. set (r0 := DataReader_new buf len) in *. clearbody r0.
  destruct bld; cbn [parse_none] in Hlen;
  repeat (match goal with
  | Hr : DataReader_wf ?r |- context [DataReader_readBytes ?r ?n] =>
      destruct (readBytes_case r n Hr ltac:(lia) ltac:(lia))
        as [(? & ? & ? & Er & ? & ? & ?)|(? & Er)]; rewrite Er; clear Er;
      cbn [obind fst snd fmap option_fmap option_map initialised];
      try (exfalso; lia); try done
  end).
Qed.

(** C32. [parse] on any bytes, in both builds. When there are at least 16 of them, 13 in a
    release build, [parse] reads the header fields at their RFC 793 positions (the flags of
    13 bytes are 0; a release build leaves the window 0, since it drops the [DCHECK] that
    reads it) and the payload starts at the fourth part of byte 12. Nothing is compared with
    the length: a payload pointer behind the block is undefined behaviour, and an offset
    larger than the length makes the payload length wrap around 2^64. Fewer than 16 bytes,
    5 in a release build, never parse: the [DCHECK] of the window stops the program, or an
    uninitialised port or offset is used. *)
Theorem Segment_parse_spec (bld : build) (source destination : IPAddress) (buf : list Z) (len : Z) :
  byte_list buf -> 0 <= len <= zlen buf -> in_u64 len ->
  ((match bld with Debug => 16 | Release => 13 end) <= len ->
   Segment_parse bld source destination buf len =
     if zlen buf <? be_field (ztake len buf) 12 1 / 4 then Undef
     else Ret (parsed_segment bld source destination buf len)) /\
  (len < (match bld with Debug => 16 | Release => 5 end) ->
   forall s, Segment_parse bld source destination buf len <> Ret s).
Proof.
  intros Hb Hlen H64. split; intros Hm.
  - apply Segment_parse_long; [done| |done]. by destruct bld; cbn in *; lia.
  - intros s. apply Segment_parse_short; [done| |lia]. destruct bld; cbn in *; lia.
Qed.

(** A 20-byte segment whose data offset says 60, at the start of a receive
    buffer of 64 bytes. *)
Definition bad_offset_buffer : list Z :=
  [192; 10; 0; 80; 0; 0; 0; 1; 0; 0; 0; 2; 0xf0; 0x10; 255; 255; 0; 0; 0; 0]
  ++ replicate 44 0.

Lemma Segment_parse_spec_witness :
  (exists s, Segment_parse Release (IPAddress_of_in_addr [10; 0; 0; 1])
              (IPAddress_of_in_addr [10; 0; 0; 2]) bad_offset_buffer 20 = Ret s
    /\ seg_data_length_ s = 18446744073709551576 /\ seg_window_ s = 0) /\
  Segment_parse Debug (IPAddress_of_in_addr [10; 0; 0; 1]) (IPAddress_of_in_addr [10; 0; 0; 2])
    bad_offset_buffer 7 <> Ret example_segment.
Proof.
  split.
  - rewrite (proj1 (Segment_parse_spec Release (IPAddress_of_in_addr [10; 0; 0; 1])
             (IPAddress_of_in_addr [10; 0; 0; 2]) bad_offset_buffer 20 ltac:(concrete) ltac:(concrete)
             ltac:(concrete)) ltac:(concrete)).
    eexists; split; [reflexivity|split; reflexivity].
  - apply (Segment_parse_spec Debug (IPAddress_of_in_addr [10; 0; 0; 1])
             (IPAddress_of_in_addr [10; 0; 0; 2]) bad_offset_buffer 7); concrete.
Defined.

(** In between, a release build goes on after a read that failed: of 10 bytes it takes the
    ninth as the data offset and the tenth as the flags. *)
Example Segment_parse_misaligned :
  exists s, Segment_parse Release (IPAddress_of_in_addr [10; 0; 0; 1]) (IPAddress_of_in_addr [10; 0; 0; 2])
    [192; 10; 0; 80; 0; 0; 0; 1; 20; 2] 10 = Ret s /\
    seg_sequence_ s = 1 /\ seg_acknowledgment_ s = 0 /\ Segment_isSYN s = true /\ seg_data_length_ s = 5.
Proof. eexists. split; [reflexivity|]. repeat split. Qed.
