(* ===== verification/ControlBlock.v ===== *)
(** src/src/tcp/control_block.h: the transmission control block and its
    comparisons of sequence numbers relative to the initial one. *)

From stdpp Require Import base list numbers.
From S2P Require Import Prelude.

Open Scope Z_scope.

Record SendBlock : Type := mkSendBlock {
  snd_unack : Z;
  snd_next : Z;
  snd_urgent_pointer : Z;
  snd_last_update_seq : Z;
  snd_last_update_ack : Z;
  snd_initial : Z
}.

Record ReceiveBlock : Type := mkReceiveBlock {
  rcv_next : Z;
  rcv_urgent_pointer : Z;
  rcv_initial : Z;
  rcv_SYN_received : bool
}.

Record ControlBlock : Type := mkControlBlock {
  cb_send : SendBlock;
  cb_receive : ReceiveBlock
}.

(** [send{}] and [receive{}]: everything zero. *)
Definition ControlBlock_zero : ControlBlock :=
  mkControlBlock (mkSendBlock 0 0 0 0 0 0) (mkReceiveBlock 0 0 0 false).

(** [MODULO_COMPARISIONS]: both sides are [uint32_t] differences. *)
Section modulo.
Context (initial : Z).

Definition seq_equal (a b : Z) : bool := u32 (a - initial) =? u32 (b - initial).
Definition seq_lessThan (a b : Z) : bool := u32 (a - initial) <? u32 (b - initial).
Definition seq_lessOrEqual (a b : Z) : bool := u32 (a - initial) <=? u32 (b - initial).
Definition seq_greaterThan (a b : Z) : bool := u32 (b - initial) <? u32 (a - initial).
Definition seq_greaterOrEqual (a b : Z) : bool := u32 (b - initial) <=? u32 (a - initial).
Definition seq_inMiddle (x a b : Z) : bool := seq_lessOrEqual a x && seq_lessThan x b.

(** The i-th sequence number of a connection. *)
Definition seq_at (i : Z) : Z := u32 (initial + i).

Lemma seq_at_sub i : u32 (seq_at i - initial) = u32 i.
Proof. unfold seq_at, u32. rewrite Zminus_mod_idemp_l. f_equal. lia. Qed.

(** C29. The comparisons order the first 2^32 sequence numbers of a connection by
    their position, whatever the initial number and wherever the 32-bit counter
    wraps; positions a full cycle apart are identified. *)
Theorem seq_comparisons_order (i j k : Z) :
  in_u32 i -> in_u32 j -> in_u32 k ->
  seq_equal (seq_at i) (seq_at j) = (i =? j) /\
  seq_lessThan (seq_at i) (seq_at j) = (i <? j) /\
  seq_lessOrEqual (seq_at i) (seq_at j) = (i <=? j) /\
  seq_greaterThan (seq_at i) (seq_at j) = (j <? i) /\
  seq_greaterOrEqual (seq_at i) (seq_at j) = (j <=? i) /\
  seq_inMiddle (seq_at k) (seq_at i) (seq_at j) = ((i <=? k) && (k <? j)) /\
  seq_equal (seq_at i) (seq_at (i + 4294967296)) = true.
Proof.
  intros. unfold seq_inMiddle, seq_equal, seq_lessThan, seq_lessOrEqual, seq_greaterThan,
    seq_greaterOrEqual. rewrite !seq_at_sub, !u32_small by done. split_and!; try done.
  unfold u32. rewrite <- (Z.mul_1_l 4294967296) at 1. rewrite Z.mod_add by done.
  rewrite Z.mod_small by done. apply Z.eqb_refl.
Qed.
End modulo.

Lemma seq_comparisons_order_witness :
  seq_lessThan 4294967290 4294967295 3 = true /\ seq_greaterThan 4294967290 3 4294967290 = true.
Proof.
  split.
  - apply (seq_comparisons_order 4294967290 5 9 0); concrete.
  - apply (seq_comparisons_order 4294967290 9 0 0); concrete.
Defined.
