(* ===== verification/SendBuffer.v ===== *)
(** src/src/tcp/send_buffer.{h,cpp}: the sending side of a connection, and
    src/src/util/mock_ip_layer.cpp, the network it is tested against. The network
    below is an interface; the buffer, the control block it shares with the
    session and the world are threaded through every operation. [SendStream] composes the
    operations to whole connections. *)

From stdpp Require Import base list numbers gmap.
From S2P Require Import Prelude Endian DataWriter DataReader TimeBase Alarm EpollServer.
From S2P Require Import RingBuffer IPAddress Checksum SocketAddress Segment ControlBlock.

Open Scope Z_scope.
Open Scope outcome_scope.

(** [IPLayer::sendPacket(source, destination, proto, buf, length)], virtual. *)
Class IPSender (W : Type) : Type := {
  ip_sendPacket : IPAddress -> IPAddress -> Z -> list Z -> W -> outcome (bool * W)
}.

Inductive CtlState : Type := CtlNone | CtlSent | CtlAcked.
#[global] Instance CtlState_eq_dec : EqDecision CtlState.
Proof. solve_decision. Defined.

Definition kMaxBytesInFlight : Z := kMaxSegmentSize * 10.

Record SendBuffer : Type := mkSendBuffer {
  sb_buffer_ : RingBuffer;
  sb_SYN_ : CtlState;
  sb_FIN_ : CtlState;
  sb_bytes_in_flight_ : Z;
  sb_source_ : IPAddress;
  sb_destination_ : IPAddress;
  sb_segment_factory_ : SegmentFactory;
  sb_retransmission_alarm_ : AlarmId
}.

Definition sb_put_buffer (rb : RingBuffer) (sb : SendBuffer) : SendBuffer :=
  mkSendBuffer rb (sb_SYN_ sb) (sb_FIN_ sb) (sb_bytes_in_flight_ sb) (sb_source_ sb)
    (sb_destination_ sb) (sb_segment_factory_ sb) (sb_retransmission_alarm_ sb).
Definition sb_put_SYN (c : CtlState) (sb : SendBuffer) : SendBuffer :=
  mkSendBuffer (sb_buffer_ sb) c (sb_FIN_ sb) (sb_bytes_in_flight_ sb) (sb_source_ sb)
    (sb_destination_ sb) (sb_segment_factory_ sb) (sb_retransmission_alarm_ sb).
Definition sb_put_FIN (c : CtlState) (sb : SendBuffer) : SendBuffer :=
  mkSendBuffer (sb_buffer_ sb) (sb_SYN_ sb) c (sb_bytes_in_flight_ sb) (sb_source_ sb)
    (sb_destination_ sb) (sb_segment_factory_ sb) (sb_retransmission_alarm_ sb).
Definition sb_put_bif (n : Z) (sb : SendBuffer) : SendBuffer :=
  mkSendBuffer (sb_buffer_ sb) (sb_SYN_ sb) (sb_FIN_ sb) n (sb_source_ sb)
    (sb_destination_ sb) (sb_segment_factory_ sb) (sb_retransmission_alarm_ sb).
Definition SendBuffer_setSource (source : IPAddress) (sb : SendBuffer) : SendBuffer :=
  mkSendBuffer (sb_buffer_ sb) (sb_SYN_ sb) (sb_FIN_ sb) (sb_bytes_in_flight_ sb) source
    (sb_destination_ sb) (sb_segment_factory_ sb) (sb_retransmission_alarm_ sb).
Definition SendBuffer_setDestination (destination : IPAddress) (sb : SendBuffer) : SendBuffer :=
  mkSendBuffer (sb_buffer_ sb) (sb_SYN_ sb) (sb_FIN_ sb) (sb_bytes_in_flight_ sb) (sb_source_ sb)
    destination (sb_segment_factory_ sb) (sb_retransmission_alarm_ sb).

Definition SendBuffer_SYN_acked (sb : SendBuffer) : bool := bool_decide (sb_SYN_ sb = CtlAcked).
Definition SendBuffer_FIN_acked (sb : SendBuffer) : bool := bool_decide (sb_FIN_ sb = CtlAcked).

(** Updates of the send half of the control block. *)
Definition tcb_put_send (b : SendBlock) (tcb : ControlBlock) : ControlBlock :=
  mkControlBlock b (cb_receive tcb).
Definition snd_put_unack (n : Z) (b : SendBlock) : SendBlock :=
  mkSendBlock n (snd_next b) (snd_urgent_pointer b) (snd_last_update_seq b)
    (snd_last_update_ack b) (snd_initial b).
Definition snd_put_next (n : Z) (b : SendBlock) : SendBlock :=
  mkSendBlock (snd_unack b) n (snd_urgent_pointer b) (snd_last_update_seq b)
    (snd_last_update_ack b) (snd_initial b).
Definition snd_put_initial (n : Z) (b : SendBlock) : SendBlock :=
  mkSendBlock (snd_unack b) (snd_next b) (snd_urgent_pointer b) (snd_last_update_seq b)
    (snd_last_update_ack b) n.
Definition tcb_unack (tcb : ControlBlock) : Z := snd_unack (cb_send tcb).
Definition tcb_next (tcb : ControlBlock) : Z := snd_next (cb_send tcb).
Definition tcb_initial (tcb : ControlBlock) : Z := snd_initial (cb_send tcb).
Definition tcb_put_unack (n : Z) (tcb : ControlBlock) : ControlBlock :=
  tcb_put_send (snd_put_unack n (cb_send tcb)) tcb.
Definition tcb_put_next (n : Z) (tcb : ControlBlock) : ControlBlock :=
  tcb_put_send (snd_put_next n (cb_send tcb)) tcb.
Definition tcb_put_initial (n : Z) (tcb : ControlBlock) : ControlBlock :=
  tcb_put_send (snd_put_initial n (cb_send tcb)) tcb.

(** What an operation reads and writes: the buffer, the control block behind
    [tcb_], and the rest of the world. *)
Record SendState (W : Type) : Type := mkSendState {
  ss_sb : SendBuffer;
  ss_tcb : ControlBlock;
  ss_world : W
}.
Arguments mkSendState {W} _ _ _.
Arguments ss_sb {W} _.
Arguments ss_tcb {W} _.
Arguments ss_world {W} _.

Section send_buffer.
Context {W : Type} `{AlarmImpl W} `{AlarmFactory W} `{IPSender W}.
Context (bld : build).

Definition ss_put_sb (sb : SendBuffer) (st : SendState W) : SendState W :=
  mkSendState sb (ss_tcb st) (ss_world st).
Definition ss_put_tcb (tcb : ControlBlock) (st : SendState W) : SendState W :=
  mkSendState (ss_sb st) tcb (ss_world st).
Definition ss_put_world (w : W) (st : SendState W) : SendState W :=
  mkSendState (ss_sb st) (ss_tcb st) w.
Definition on_sb (f : SendBuffer -> SendBuffer) (st : SendState W) : SendState W :=
  ss_put_sb (f (ss_sb st)) st.
Definition on_tcb (f : ControlBlock -> ControlBlock) (st : SendState W) : SendState W :=
  ss_put_tcb (f (ss_tcb st)) st.

(** [alarm_factory_->now() + TimeBase::Delta::fromSeconds(secs)] *)
Definition seconds_from_now (secs : Z) (w : W) : outcome TimeBase :=
  d <- Delta_fromSeconds secs ;; TimeBase_add (factory_now w) d.

(** The constructor: 256 KB of buffer, and an alarm in one second. *)
Definition SendBuffer_new (factory : SegmentFactory) (tcb : ControlBlock) (block : list Z) (w : W)
  : outcome (SendState W) :=
  let '(a, w) := factory_createAlarm w in
  let sb := mkSendBuffer (RingBuffer_new (1024 * 256) block) CtlNone CtlNone 0
              IPAddress_default IPAddress_default factory a in
  t <- seconds_from_now 1 w ;;
  w <- Alarm_set bld a t w ;;
  Ret (mkSendState sb tcb w).

(** [sendSegment]: the segment goes into a local buffer of 1480 bytes. *)
Definition SendBuffer_sendSegment (segment : Segment) (st : SendState W)
  : outcome (bool * SendState W) :=
  let writer := DataWriter_new (replicate (Z.to_nat kMaxTCPPacketLength) 0) kMaxTCPPacketLength in
  let* (_, writer) := Segment_writeSegmentTo bld segment writer in
  let* (ok, w) := ip_sendPacket (sb_source_ (ss_sb st)) (sb_destination_ (ss_sb st))
                    ServiceProtocol_TCP (DataWriter_written writer) (ss_world st) in
  Ret (ok, ss_put_world w st).

Definition SendBuffer_transmit_SYN (st : SendState W) : outcome (SendState W) :=
  let tcb := ss_tcb st in
  if rcv_SYN_received (cb_receive tcb) then
    let segment := SegmentFactory_createSegment_ack (sb_segment_factory_ (ss_sb st))
                     (tcb_initial tcb) (rcv_next (cb_receive tcb)) (Z.lor SYN ACK) in
    let* (_, st) := SendBuffer_sendSegment segment st in Ret st
  else
    segment <- SegmentFactory_createSegment bld (sb_segment_factory_ (ss_sb st))
                 (tcb_initial tcb) SYN ;;
    let* (_, st) := SendBuffer_sendSegment segment st in Ret st.

(** The loop of [transmit], one round per segment; [None] when the fuel is used
    up. *)
Fixpoint transmit_loop (fuel : nat) (st : SendState W) : outcome (option (SendState W)) :=
  match fuel with
  | O => Ret None
  | S fuel =>
      let sb := ss_sb st in
      let tcb := ss_tcb st in
      let bif := sb_bytes_in_flight_ sb in
      if bif <? kMaxBytesInFlight then
        buf <- RingBuffer_read_offset bld (sb_buffer_ sb) bif kMaxSegmentSize ;;
        let length := zlen buf in
        let seq := u32 (tcb_unack tcb + bif) in
        let st := on_sb (sb_put_bif (u64 (bif + length))) st in
        let fin := bool_decide (sb_FIN_ sb = CtlSent)
                   && seq_equal (tcb_initial tcb) (u32 (seq + length + 1)) (tcb_next tcb) in
        if negb fin && (length =? 0) then Ret (Some st)
        else
          let flags := if fin then Z.lor ACK FIN else ACK in
          let segment := SegmentFactory_createSegment_data (sb_segment_factory_ sb) seq
                           (rcv_next (cb_receive tcb)) flags buf length in
          let* (ok, st) := SendBuffer_sendSegment segment st in
          if negb ok then Ret (Some st)
          else if length =? 0 then
            DCHECK bld (bool_decide (sb_FIN_ sb = CtlSent)) ;;; Ret (Some st)
          else transmit_loop fuel st
      else Ret (Some st)
  end.

(** Ten full segments fill the window and a short one is followed by an empty
    one: twelve rounds are more than the loop can take. *)
Definition transmit_fuel : nat := 12.

Definition SendBuffer_transmit (st : SendState W) : outcome (SendState W) :=
  match sb_SYN_ (ss_sb st) with
  | CtlNone => Ret st
  | CtlSent => SendBuffer_transmit_SYN st
  | CtlAcked =>
      r <- transmit_loop transmit_fuel st ;;
      match r with Some st => Ret st | None => Undef end
  end.

Definition SendBuffer_sendSYN (initial : Z) (st : SendState W) : outcome (SendState W) :=
  DCHECK bld (bool_decide (sb_FIN_ (ss_sb st) = CtlNone)) ;;;
  let st := on_tcb (tcb_put_initial initial) st in
  let st := on_tcb (tcb_put_next (u32 (initial + 1))) st in
  let st := on_tcb (tcb_put_unack initial) st in
  SendBuffer_transmit (on_sb (sb_put_SYN CtlSent) st).

Definition SendBuffer_sendData (data : list Z) (length : Z) (st : SendState W)
  : outcome (Z * SendState W) :=
  DCHECK bld (bool_decide (sb_FIN_ (ss_sb st) = CtlNone)) ;;;
  if RingBuffer_full (sb_buffer_ (ss_sb st)) then Ret (0, st)
  else
    let* (consumed, rb) := RingBuffer_write bld (sb_buffer_ (ss_sb st)) data length in
    let st := on_sb (sb_put_buffer rb) st in
    let st := on_tcb (fun tcb => tcb_put_next (u32 (tcb_next tcb + consumed)) tcb) st in
    if SendBuffer_SYN_acked (ss_sb st) then
      st <- SendBuffer_transmit st ;; Ret (consumed, st)
    else Ret (consumed, st).

Definition SendBuffer_sendFIN (st : SendState W) : outcome (SendState W) :=
  let st := on_sb (sb_put_FIN CtlSent) st in
  let st := on_tcb (fun tcb => tcb_put_next (u32 (tcb_next tcb + 1)) tcb) st in
  if RingBuffer_empty (sb_buffer_ (ss_sb st)) then SendBuffer_transmit st else Ret st.

(** [acknowledge]. [consumed] is a [size_t] that holds a 32-bit difference. *)
Definition SendBuffer_acknowledge (ack : Z) (st : SendState W) : outcome (SendState W) :=
  st <- match sb_SYN_ (ss_sb st) with
        | CtlSent =>
            let tcb := ss_tcb st in
            DCHECK bld (seq_greaterThan (tcb_initial tcb) ack (tcb_initial tcb)) ;;;
            Ret (on_tcb (tcb_put_unack (u32 (tcb_initial tcb + 1)))
                   (on_sb (sb_put_SYN CtlAcked) st))
        | _ => Ret st
        end ;;
  DCHECK bld (seq_greaterOrEqual (tcb_initial (ss_tcb st)) ack (tcb_unack (ss_tcb st))) ;;;
  let consumed := u32 (ack - tcb_unack (ss_tcb st)) in
  let* (k, rb) := RingBuffer_consume bld (sb_buffer_ (ss_sb st)) consumed in
  let st := on_sb (sb_put_buffer rb) st in
  let st := on_tcb (fun tcb => tcb_put_unack (u32 (tcb_unack tcb + k)) tcb) st in
  let st := on_sb (fun sb => sb_put_bif (u64 (sb_bytes_in_flight_ sb - consumed)) sb) st in
  st <- (if sb_bytes_in_flight_ (ss_sb st) =? 0 then
           t <- seconds_from_now 1 (ss_world st) ;;
           w <- Alarm_update (sb_retransmission_alarm_ (ss_sb st)) t update_granularity (ss_world st) ;;
           Ret (ss_put_world w st)
         else Ret st) ;;
  st <- (if bool_decide (sb_FIN_ (ss_sb st) = CtlSent)
            && seq_equal (tcb_initial (ss_tcb st)) ack (tcb_next (ss_tcb st)) then
           DCHECK bld (RingBuffer_empty (sb_buffer_ (ss_sb st))) ;;;
           let st := on_sb (sb_put_FIN CtlAcked) st in
           w <- Alarm_cancel (sb_retransmission_alarm_ (ss_sb st)) (ss_world st) ;;
           let st := ss_put_world w st in
           Ret (on_tcb (fun tcb => tcb_put_unack (u32 (tcb_unack tcb + 1)) tcb) st)
         else Ret st) ;;
  if 0 <? consumed then SendBuffer_transmit st else Ret st.

(** [retransmit]: the delegate of the alarm. *)
Definition SendBuffer_retransmit (st : SendState W) : outcome (SendState W) :=
  let st := on_sb (sb_put_bif 0) st in
  st <- SendBuffer_transmit st ;;
  t <- seconds_from_now 1 (ss_world st) ;;
  w <- Alarm_set bld (sb_retransmission_alarm_ (ss_sb st)) t (ss_world st) ;;
  Ret (ss_put_world w st).
End send_buffer.

(** ** src/src/util/mock_ip_layer.cpp: packets are parsed and queued *)
Definition kMaxQueueLength : Z := 16.

Definition MockIPLayer_sendPacket (bld : build) (source destination : IPAddress) (proto : Z)
  (buf : list Z) (queue_ : list Segment) : outcome (bool * list Segment) :=
  if kMaxQueueLength <=? zlen queue_ then Ret (false, queue_)
  else
    segment <- Segment_parse bld source destination buf (zlen buf) ;;
    segment <- Segment_copyData segment ;;
    Ret (true, queue_ ++ [segment]).

(** A world of alarms and the queue of the mock network, in a debug build. In a release
    build [Segment_writeSegmentTo], which comes before the network, is undefined (the
    checksum takes in a word that was never written), so that there is no sending side of
    a release build to speak of. *)
Definition MockWorld : Type := EpollServer * list Segment.
#[global] Instance MockWorld_impl : AlarmImpl MockWorld := AlarmImpl_prod.
#[global] Instance MockWorld_factory : AlarmFactory MockWorld := AlarmFactory_prod.
#[global] Instance MockWorld_sender : IPSender MockWorld := {|
  ip_sendPacket source destination proto buf w :=
    let* (ok, q) := MockIPLayer_sendPacket Debug source destination proto buf w.2 in
    Ret (ok, (w.1, q))
|}.

(** ** Sending one segment through the mock network *)
Definition received (source destination : IPAddress) (s : Segment) : Segment :=
  mkSegment (mkSocketAddress source (sa_port_ (seg_source_ s)))
            (mkSocketAddress destination (sa_port_ (seg_destination_ s)))
            (seg_sequence_ s) (seg_acknowledgment_ s) (seg_flags_ s) (seg_window_ s)
            (seg_payload s) (0 <? seg_data_length_ s) (seg_data_length_ s).

Lemma copyData_received src dst s g :
  seg_wf s -> seg_payload g = seg_payload s ->
  Segment_copyData (mkSegment (mkSocketAddress src (sa_port_ (seg_source_ s)))
    (mkSocketAddress dst (sa_port_ (seg_destination_ s))) (seg_sequence_ s) (seg_acknowledgment_ s)
    (seg_flags_ s) (seg_window_ s) (seg_payload g) false (seg_data_length_ s))
  = Ret (received src dst s).
Proof.
  intros Hs ->. pose proof (seg_wf_len s Hs). unfold Segment_copyData.
  cbn [seg_own_data_ seg_data_length_ seg_data_].
  unfold received. pose proof (zlen_seg_payload s Hs) as Hp.
  destruct (Z.eqb_spec (seg_data_length_ s) 0) as [E|E].
  - rewrite E. done.
  - rewrite mem_read_ok by lia. cbn [obind]. rewrite zdrop_0, ztake_all by lia.
    destruct (Z.ltb_spec 0 (seg_data_length_ s)); [done|lia].
Qed.

Definition mock_st (sb : SendBuffer) (tcb : ControlBlock) (e : EpollServer) (q : list Segment)
  : SendState MockWorld := mkSendState sb tcb (e, q).

Lemma sendSegment_mock sb tcb e q s :
  seg_wf s -> seg_data_length_ s <= kMaxSegmentSize -> zlen q < kMaxQueueLength ->
  SendBuffer_sendSegment Debug s (mock_st sb tcb e q)
  = Ret (true, mock_st sb tcb e (q ++ [received (sb_source_ sb) (sb_destination_ sb) s])).
Proof.
  unfold kMaxSegmentSize, kMaxQueueLength. intros Hs Hlen Hq. unfold SendBuffer_sendSegment.
  pose proof (seg_wf_len s Hs).
  set (w0 := DataWriter_new _ _).
  assert (DataWriter_wf w0) as Hw.
  { apply DataWriter_new_wf; [apply replicate_zero_bytes| |unfold kMaxTCPPacketLength; word].
    unfold zlen. rewrite length_replicate. unfold kMaxTCPPacketLength. lia. }
  destruct (writeSegmentTo_ok s w0 Hs ltac:(lia) Hw eq_refl) as (w & c & -> & Hc & Hwr & Hl & _).
  { unfold w0, kMaxTCPPacketLength. cbn. lia. }
  cbn [obind]. cbn [ip_sendPacket MockWorld_sender mock_st ss_world ss_sb snd fst].
  unfold MockIPLayer_sendPacket, kMaxQueueLength. destruct (Z.leb_spec 16 (zlen q)); [lia|].
  rewrite Hwr, zlen_seg_bytes, Segment_parse_bytes by (done || lia). cbn [obind].
  by rewrite (copyData_received (sb_source_ sb) (sb_destination_ sb) s s).
Qed.

(** ** The stream the buffer sends *)
Record tx_ok (sb : SendBuffer) (tcb : ControlBlock) : Prop := {
  tx_rb : rb_inv (sb_buffer_ sb);
  tx_local : sa4_wf (sf_local_address_ (sb_segment_factory_ sb));
  tx_remote : sa4_wf (sf_remote_address_ (sb_segment_factory_ sb));
  tx_rcv : in_u32 (rcv_next (cb_receive tcb))
}.

Definition sb_contents (sb : SendBuffer) : list Z := rb_contents (sb_buffer_ sb).

(** The segment with the bytes [d] that start [off] bytes behind the first
    unacknowledged one, as it is created and as the network receives it. *)
Definition out_segment (sb : SendBuffer) (tcb : ControlBlock) (off flags : Z) (d : list Z) : Segment :=
  SegmentFactory_createSegment_data (sb_segment_factory_ sb) (u32 (tcb_unack tcb + off))
    (rcv_next (cb_receive tcb)) flags d (zlen d).
Definition in_segment (sb : SendBuffer) (tcb : ControlBlock) (off flags : Z) (d : list Z) : Segment :=
  received (sb_source_ sb) (sb_destination_ sb) (out_segment sb tcb off flags d).

(** [carries sb tcb off segs data]: the segments are ACK segments of at most one
    MSS with consecutive sequence numbers from [off], their payloads [data]. *)
Fixpoint carries (sb : SendBuffer) (tcb : ControlBlock) (off : Z) (segs : list Segment)
  (data : list Z) : Prop :=
  match segs with
  | [] => data = []
  | s :: segs =>
      exists d rest, data = d ++ rest /\ 0 < zlen d <= kMaxSegmentSize /\
        s = in_segment sb tcb off ACK d /\ carries sb tcb (off + zlen d) segs rest
  end.

Lemma out_segment_wf sb tcb off flags d :
  tx_ok sb tcb -> in_u8 flags -> byte_list d -> seg_wf (out_segment sb tcb off flags d).
Proof.
  intros [? ? ? ?] ? ?. split; cbn; try done; try (word || apply u32_range).
  pose proof (zlen_nonneg d). lia.
Qed.

Lemma sb_contents_bytes sb tcb off n :
  tx_ok sb tcb -> byte_list (ztake n (zdrop off (sb_contents sb))).
Proof. intros [? _ _ _]. by apply byte_list_take, byte_list_drop, rb_contents_bytes. Qed.

(** Sending one chunk: what a round of the loop does when there is data. *)
Lemma send_chunk sb tcb e q n flags d :
  tx_ok sb tcb -> in_u8 flags -> byte_list d -> zlen d <= kMaxSegmentSize -> zlen q < kMaxQueueLength ->
  SendBuffer_sendSegment Debug (out_segment sb tcb n flags d) (mock_st (sb_put_bif (n + zlen d) sb) tcb e q)
  = Ret (true, mock_st (sb_put_bif (n + zlen d) sb) tcb e (q ++ [in_segment sb tcb n flags d])).
Proof.
  intros. by rewrite sendSegment_mock by (try apply out_segment_wf; done).
Qed.

Lemma transmit_loop_data fuel sb tcb e q :
  tx_ok sb tcb -> sb_FIN_ sb <> CtlSent ->
  0 <= sb_bytes_in_flight_ sb <= zlen (sb_contents sb) ->
  (sb_bytes_in_flight_ sb = zlen (sb_contents sb) /\ (1 <= fuel)%nat) \/
  (kMaxBytesInFlight - sb_bytes_in_flight_ sb <= kMaxSegmentSize * (Z.of_nat fuel - 2) /\
   (2 <= fuel)%nat /\ zlen q + (Z.of_nat fuel - 2) <= kMaxQueueLength) ->
  exists n segs,
    transmit_loop Debug fuel (mock_st sb tcb e q)
      = Ret (Some (mock_st (sb_put_bif n sb) tcb e (q ++ segs))) /\
    sb_bytes_in_flight_ sb <= n <= zlen (sb_contents sb) /\
    (n = zlen (sb_contents sb) \/ kMaxBytesInFlight <= n) /\
    n <= Z.max (sb_bytes_in_flight_ sb) (kMaxBytesInFlight + kMaxSegmentSize - 1) /\
    carries sb tcb (sb_bytes_in_flight_ sb) segs
      (ztake (n - sb_bytes_in_flight_ sb) (zdrop (sb_bytes_in_flight_ sb) (sb_contents sb))).
Proof.
  unfold kMaxBytesInFlight, kMaxQueueLength, kMaxSegmentSize. intros Htx Hfin.
  remember (sb_bytes_in_flight_ sb) as bif eqn:Eb.
  assert (sb = sb_put_bif bif sb) as Esb by (by subst; destruct sb).
  replace (mock_st sb tcb e q) with (mock_st (sb_put_bif bif sb) tcb e q) by (by rewrite <- Esb).
  clear Eb Esb.
  revert bif q. induction fuel as [|fuel IH]; intros bif q Hbif Hfuel; [lia|].
  cbn [transmit_loop mock_st ss_sb ss_tcb sb_put_bif sb_bytes_in_flight_ sb_FIN_ sb_buffer_
       sb_segment_factory_].
  unfold kMaxBytesInFlight, kMaxSegmentSize.
  destruct (Z.ltb_spec bif (1460 * 10)) as [Hlt|Hge].
  2: { exists bif, []. rewrite app_nil_r. do 4 (split; [done || lia|]).
       cbn. rewrite Z.sub_diag. by apply ztake_0. }
  rewrite RingBuffer_read_offset_spec by (apply Htx || word || done). cbn [obind].
  fold (sb_contents sb). set (d := ztake 1460 (zdrop bif (sb_contents sb))).
  assert (zlen d = Z.min 1460 (zlen (sb_contents sb) - bif)) as Hd
    by (unfold d; rewrite zlen_take, zlen_drop; lia).
  rewrite bool_decide_false by done. cbn [andb negb].
  rewrite u64_small by word.
  destruct (Z.eqb_spec (zlen d) 0) as [E0|E0].
  { exists bif, []. rewrite E0, Z.add_0_r, app_nil_r. do 4 (split; [done || lia|]).
    cbn. rewrite Z.sub_diag. by apply ztake_0. }
  destruct Hfuel as [[? _]|(Hm & Hf & Hq)]; [lia|].
  change (SendBuffer_sendSegment Debug _ _) with
    (SendBuffer_sendSegment Debug (out_segment sb tcb bif ACK d)
       (mock_st (sb_put_bif (bif + zlen d) sb) tcb e q)).
  rewrite send_chunk; [|done|unfold ACK; word|by eapply sb_contents_bytes|unfold kMaxSegmentSize; lia
                       |unfold kMaxQueueLength; lia].
  cbn [obind negb].
  destruct (IH (bif + zlen d) (q ++ [in_segment sb tcb bif ACK d])) as (n & segs & -> & Hn & Hend & Hmax & Hc).
  { lia. }
  { rewrite zlen_app. change (zlen [_]) with 1.
    destruct (Z.eq_dec (bif + zlen d) (zlen (sb_contents sb))); [left|right]; lia. }
  exists n, (in_segment sb tcb bif ACK d :: segs).
  split; [by rewrite <- app_assoc|]. split; [lia|]. split; [lia|]. split; [lia|].
  cbn [carries]. exists d, (ztake (n - (bif + zlen d)) (zdrop (bif + zlen d) (sb_contents sb))).
  split; [|split; [unfold kMaxSegmentSize; lia|done]].
  unfold d at 1. zlist.
Qed.

Lemma transmit_data sb tcb e q :
  tx_ok sb tcb -> sb_SYN_ sb = CtlAcked -> sb_FIN_ sb <> CtlSent ->
  0 <= sb_bytes_in_flight_ sb <= zlen (sb_contents sb) -> zlen q <= 6 ->
  exists n segs,
    SendBuffer_transmit Debug (mock_st sb tcb e q) = Ret (mock_st (sb_put_bif n sb) tcb e (q ++ segs)) /\
    sb_bytes_in_flight_ sb <= n <= zlen (sb_contents sb) /\
    (n = zlen (sb_contents sb) \/ kMaxBytesInFlight <= n) /\
    n <= Z.max (sb_bytes_in_flight_ sb) (kMaxBytesInFlight + kMaxSegmentSize - 1) /\
    carries sb tcb (sb_bytes_in_flight_ sb) segs
      (ztake (n - sb_bytes_in_flight_ sb) (zdrop (sb_bytes_in_flight_ sb) (sb_contents sb))).
Proof.
  intros Htx Hsyn Hfin Hbif Hq.
  destruct (transmit_loop_data transmit_fuel sb tcb e q Htx Hfin Hbif) as (n & segs & E & H').
  { right. unfold transmit_fuel, kMaxBytesInFlight, kMaxSegmentSize, kMaxQueueLength. lia. }
  exists n, segs. split; [|done]. unfold SendBuffer_transmit. cbn [mock_st ss_sb]. rewrite Hsyn.
  fold (mock_st sb tcb e q). by rewrite E.
Qed.

(** A full window: nothing happens. *)
Lemma transmit_full sb tcb e q :
  sb_SYN_ sb = CtlAcked -> kMaxBytesInFlight <= sb_bytes_in_flight_ sb ->
  SendBuffer_transmit Debug (mock_st sb tcb e q) = Ret (mock_st sb tcb e q).
Proof.
  intros Hsyn Hbif. unfold SendBuffer_transmit, transmit_fuel. cbn [mock_st ss_sb]. rewrite Hsyn.
  cbn [transmit_loop ss_sb mock_st].
  destruct (Z.ltb_spec (sb_bytes_in_flight_ sb) kMaxBytesInFlight); [lia|done].
Qed.

(** Once the SYN is acknowledged, [transmit] returns, and it sends exactly the
    stream: the segments it queues carry consecutive chunks of at most one MSS of
    the bytes of the buffer that were not in flight, in order, with the sequence
    numbers of those bytes; it stops when everything is in flight or the window
    of ten segments is used up, and never goes over it by more than one segment. *)
Theorem transmit_sends_stream (sb : SendBuffer) (tcb : ControlBlock) (e : EpollServer) (q : list Segment) :
  tx_ok sb tcb -> sb_SYN_ sb = CtlAcked -> sb_FIN_ sb <> CtlSent ->
  0 <= sb_bytes_in_flight_ sb <= zlen (sb_contents sb) -> zlen q <= 6 ->
  exists n segs,
    SendBuffer_transmit Debug (mock_st sb tcb e q) = Ret (mock_st (sb_put_bif n sb) tcb e (q ++ segs)) /\
    sb_bytes_in_flight_ sb <= n <= zlen (sb_contents sb) /\
    (n = zlen (sb_contents sb) \/ kMaxBytesInFlight <= n) /\
    n <= Z.max (sb_bytes_in_flight_ sb) (kMaxBytesInFlight + kMaxSegmentSize - 1) /\
    carries sb tcb (sb_bytes_in_flight_ sb) segs
      (ztake (n - sb_bytes_in_flight_ sb) (zdrop (sb_bytes_in_flight_ sb) (sb_contents sb))).
Proof. apply transmit_data. Qed.

(** A small established connection for the witnesses: four bytes buffered. *)
Definition example_factory : SegmentFactory :=
  mkSegmentFactory (mkSocketAddress (IPAddress_of_in_addr [10; 0; 0; 1]) 49162)
                   (mkSocketAddress (IPAddress_of_in_addr [10; 0; 0; 2]) 80).
Definition example_sb (fin : CtlState) (bif : Z) : SendBuffer :=
  mkSendBuffer (mkRingBuffer 8 [1; 2; 3; 4; 0; 0; 0; 0] 0 4) CtlAcked fin bif
    (IPAddress_of_in_addr [10; 0; 0; 1]) (IPAddress_of_in_addr [10; 0; 0; 2]) example_factory 0.
Definition example_tcb (next : Z) : ControlBlock :=
  mkControlBlock (mkSendBlock 101 next 0 0 0 100) (mkReceiveBlock 501 0 500 true).

Lemma example_tx_ok fin bif next : tx_ok (example_sb fin bif) (example_tcb next).
Proof.
  split.
  - split; cbn; concrete.
  - split; [apply ip_of_in_addr_wf; concrete|cbn; word].
  - split; [apply ip_of_in_addr_wf; concrete|cbn; word].
  - cbn. word.
Qed.

Lemma transmit_sends_stream_witness :
  exists n segs,
    SendBuffer_transmit Debug (mock_st (example_sb CtlNone 1) (example_tcb 105) example_server [])
      = Ret (mock_st (sb_put_bif n (example_sb CtlNone 1)) (example_tcb 105) example_server segs) /\
    1 <= n <= 4 /\ (n = 4 \/ kMaxBytesInFlight <= n) /\
    n <= Z.max 1 (kMaxBytesInFlight + kMaxSegmentSize - 1) /\
    carries (example_sb CtlNone 1) (example_tcb 105) 1 segs (ztake (n - 1) [2; 3; 4]).
Proof.
  apply (transmit_sends_stream (example_sb CtlNone 1) (example_tcb 105) example_server []).
  - apply example_tx_ok.
  - done.
  - done.
  - vm_compute. split; congruence.
  - vm_compute. congruence.
Defined.

(** ** FIN *)
Lemma fin_due (tcb : ControlBlock) off len :
  tcb_next tcb = u32 (tcb_unack tcb + off + len + 1) ->
  seq_equal (tcb_initial tcb) (u32 (u32 (tcb_unack tcb + off) + len + 1)) (tcb_next tcb) = true.
Proof.
  intros ->. unfold seq_equal. rewrite <- Z.add_assoc, u32_u32_add, !u32_u32_sub.
  apply Z.eqb_eq. f_equal. lia.
Qed.

(** One round of the loop that sends the FIN, with the rest of the data. *)
Lemma fin_round fuel sb tcb e q bif d :
  tx_ok sb tcb -> sb_FIN_ sb = CtlSent -> 0 <= bif < kMaxBytesInFlight ->
  zdrop bif (sb_contents sb) = d -> zlen d <= kMaxSegmentSize -> bif <= zlen (sb_contents sb) ->
  tcb_next tcb = u32 (tcb_unack tcb + zlen (sb_contents sb) + 1) -> zlen q < kMaxQueueLength ->
  transmit_loop Debug (S fuel) (mock_st (sb_put_bif bif sb) tcb e q)
  = let st := mock_st (sb_put_bif (zlen (sb_contents sb)) sb) tcb e
                (q ++ [in_segment sb tcb bif (Z.lor ACK FIN) d]) in
    if zlen d =? 0 then Ret (Some st) else transmit_loop Debug fuel st.
Proof.
  unfold kMaxBytesInFlight, kMaxSegmentSize. intros Htx Hfin Hbif Ed Hd HL Hnext Hq.
  assert (zlen d = zlen (sb_contents sb) - bif) as Hz by (rewrite <- Ed, zlen_drop; lia).
  cbn [transmit_loop mock_st ss_sb ss_tcb sb_put_bif sb_bytes_in_flight_
      sb_FIN_ sb_buffer_ sb_segment_factory_]. unfold kMaxBytesInFlight, kMaxSegmentSize.
  destruct (Z.ltb_spec bif (1460 * 10)); [|lia].
  rewrite RingBuffer_read_offset_spec; [|apply Htx|word|split; [lia|done]].
  fold (sb_contents sb). rewrite Ed, ztake_all by lia. cbn [obind].
  rewrite u64_small by word. rewrite Hfin, bool_decide_true by done.
  rewrite fin_due by (rewrite Hnext; f_equal; lia). cbn [andb negb].
  replace (bif + zlen d) with (zlen (sb_contents sb)) by lia.
  change (SendBuffer_sendSegment Debug _ _) with
    (SendBuffer_sendSegment Debug (out_segment sb tcb bif (Z.lor ACK FIN) d)
       (mock_st (sb_put_bif (zlen (sb_contents sb)) sb) tcb e q)).
  rewrite sendSegment_mock; [|apply out_segment_wf| |done]; try done.
  rewrite <- Ed. apply byte_list_drop, rb_contents_bytes, Htx.
Qed.

(** The FIN. With everything still to be sent fitting into one segment,
    [transmit] sets FIN on the segment with the data and then sends a second,
    empty segment with FIN behind it: the FIN of a connection with unsent data
    goes out twice. Without data it is sent once. *)
Theorem transmit_sends_FIN (sb : SendBuffer) (tcb : ControlBlock) (e : EpollServer) (q : list Segment) :
  tx_ok sb tcb -> sb_SYN_ sb = CtlAcked -> sb_FIN_ sb = CtlSent -> sb_bytes_in_flight_ sb = 0 ->
  zlen (sb_contents sb) <= kMaxSegmentSize ->
  tcb_next tcb = u32 (tcb_unack tcb + zlen (sb_contents sb) + 1) -> zlen q <= 6 ->
  SendBuffer_transmit Debug (mock_st sb tcb e q) =
    Ret (mock_st (sb_put_bif (zlen (sb_contents sb)) sb) tcb e
      (q ++ (if zlen (sb_contents sb) =? 0 then []
             else [in_segment sb tcb 0 (Z.lor ACK FIN) (sb_contents sb)])
         ++ [in_segment sb tcb (zlen (sb_contents sb)) (Z.lor ACK FIN) []])).
Proof.
  intros Htx Hsyn Hfin Hbif Hlen Hnext Hq. pose proof (zlen_nonneg (sb_contents sb)) as HL.
  unfold SendBuffer_transmit. cbn [mock_st ss_sb]. rewrite Hsyn.
  assert (sb = sb_put_bif 0 sb) as Esb by (rewrite <- Hbif; by destruct sb).
  replace (mock_st sb tcb e q) with (mock_st (sb_put_bif 0 sb) tcb e q) by (by rewrite <- Esb).
  unfold transmit_fuel, kMaxSegmentSize in *.
  rewrite (fin_round _ sb tcb e q 0 (sb_contents sb)); try done; try (by apply zdrop_0);
    unfold kMaxBytesInFlight, kMaxSegmentSize, kMaxQueueLength; try lia.
  cbn zeta. destruct (Z.eqb_spec (zlen (sb_contents sb)) 0) as [E0|E0].
  - cbn [obind]. rewrite E0. apply zlen_zero in E0. by rewrite E0.
  - rewrite (fin_round _ sb tcb e _ (zlen (sb_contents sb)) []);
      [|done|done|unfold kMaxBytesInFlight, kMaxSegmentSize; lia|apply zdrop_all; lia
       |unfold kMaxSegmentSize; change (zlen (@nil Z)) with 0; lia|lia|done
       |unfold kMaxQueueLength; rewrite zlen_app; change (zlen [_]) with 1; lia].
    cbn zeta. change (zlen (@nil Z) =? 0) with true. cbn [obind]. by rewrite <- app_assoc.
Qed.

Lemma transmit_sends_FIN_witness :
  SendBuffer_transmit Debug (mock_st (example_sb CtlSent 0) (example_tcb 106) example_server []) =
    Ret (mock_st (sb_put_bif 4 (example_sb CtlSent 0)) (example_tcb 106) example_server
      [in_segment (example_sb CtlSent 0) (example_tcb 106) 0 (Z.lor ACK FIN) [1; 2; 3; 4];
       in_segment (example_sb CtlSent 0) (example_tcb 106) 4 (Z.lor ACK FIN) []]).
Proof.
  apply (transmit_sends_FIN (example_sb CtlSent 0) (example_tcb 106) example_server []); try done.
  - apply example_tx_ok.
Defined.

(** ** Acknowledgments *)

(** The retransmission alarm exists and the clock leaves room for a second. *)
Definition alarm_ok (e : EpollServer) (a : AlarmId) : Prop :=
  es_inv None e /\ clock_ok e /\
  exists al, es_alarms e !! a = Some al /\ 0 <= time_ (ea_deadline_ al) <= kInfiniteTimeUs.

Lemma seconds_from_now_ok secs (e : EpollServer) (q : list Segment) :
  clock_ok e -> 0 <= secs <= 10 ->
  seconds_from_now secs ((e, q) : MockWorld) = Ret (mkTimeBase (time_ (es_now_ e) + secs * 1000000)).
Proof.
  unfold clock_ok. intros Hc Hs. unfold seconds_from_now, Delta_fromSeconds.
  rewrite s64_ok by word. cbn [obind]. rewrite s64_ok by word. cbn [obind].
  unfold TimeBase_add. cbn [time_offset_].
  change (factory_now _) with (es_now_ e). rewrite s64_ok by word. cbn [obind]. do 2 f_equal. lia.
Qed.

(** One second from now. *)
Definition second_later (e : EpollServer) : TimeBase := mkTimeBase (time_ (es_now_ e) + 1 * 1000000).

Lemma restart_alarm e q a :
  alarm_ok e a ->
  exists e', (t <- seconds_from_now 1 ((e, q) : MockWorld) ;; Alarm_update a t update_granularity (e, q))
    = Ret (e', q) /\ es_inv None e' /\ es_now_ e' = es_now_ e /\
    armed e' = spec_cmd (CmdUpdate a (second_later e) update_granularity) (armed e).
Proof.
  intros (Hinv & Hck & al & Ha & Hal). unfold second_later. rewrite seconds_from_now_ok by (done || lia). cbn [obind].
  unfold clock_ok in Hck. set (t := mkTimeBase _).
  destruct (Alarm_update_ok None e a al t update_granularity) as (e' & E & ? & ? & ? & _); try done.
  { cbn. unfold kInfiniteTimeUs. lia. }
  exists e'. split; [|done].
  pose proof (Alarm_update_prod (W:=EpollServer) (Q:=list Segment) a t update_granularity (e, q)) as Ep.
  unfold on_fst in Ep. cbn [fst snd] in Ep. rewrite E in Ep. exact Ep.
Qed.

Lemma ack_distance initial i k :
  0 <= k < 4294967296 -> u32 (u32 (initial + i + k) - u32 (initial + i)) = k.
Proof.
  intros. rewrite u32_u32_sub, u32_sub_u32. replace (_ - _) with k by lia. by apply u32_small.
Qed.

Lemma ack_order initial i k :
  0 <= i -> 0 <= k -> i + k < 4294967296 ->
  seq_greaterOrEqual initial (u32 (initial + i + k)) (u32 (initial + i)) = true.
Proof.
  intros. unfold seq_greaterOrEqual. rewrite !u32_u32_sub.
  replace (initial + i - initial) with i by lia. replace (initial + i + k - initial) with (i + k) by lia.
  rewrite !u32_small by word. apply Z.leb_le. lia.
Qed.

(** The count of bytes in flight as a number that may have wrapped around. *)
Lemma u64_eq_0 z : - 18446744073709551616 < z < 18446744073709551616 -> (u64 z =? 0) = (z =? 0).
Proof.
  intros Hz. destruct (Z.eqb_spec z 0) as [->|Hne]; [done|]. apply Z.eqb_neq. unfold u64.
  destruct (Z.le_gt_cases 0 z); [by rewrite Z.mod_small by lia|].
  rewrite <- (Z.mod_add z 1), Z.mod_small by lia. lia.
Qed.
Lemma u64_neg z : - 18446744073709551616 <= z < 0 -> u64 z = 18446744073709551616 + z.
Proof. intros Hz. unfold u64. rewrite <- (Z.mod_add z 1), Z.mod_small by lia. lia. Qed.

(** Acknowledging [k] of the buffered bytes, up to the call of [transmit]; [f] bytes are
    in flight, fewer than none when more than that was acknowledged before. *)
Lemma acknowledge_step_any sb tcb e q i k f :
  tx_ok sb tcb -> sb_SYN_ sb = CtlAcked ->
  (sb_FIN_ sb = CtlSent -> i + zlen (sb_contents sb) + 1 < 4294967296 /\
     tcb_next tcb = u32 (tcb_initial tcb + i + (zlen (sb_contents sb) + 1))) ->
  0 <= k <= zlen (sb_contents sb) -> sb_bytes_in_flight_ sb = u64 f ->
  - 4294967296 < f <= zlen (sb_contents sb) ->
  0 <= i -> i + zlen (sb_contents sb) < 4294967296 ->
  tcb_unack tcb = u32 (tcb_initial tcb + i) -> alarm_ok e (sb_retransmission_alarm_ sb) ->
  exists rb' e',
    let tcb' := tcb_put_unack (u32 (tcb_initial tcb + i + k)) tcb in
    let st' := mock_st (sb_put_bif (u64 (f - k)) (sb_put_buffer rb' sb)) tcb' e' q in
    SendBuffer_acknowledge Debug (u32 (tcb_initial tcb + i + k)) (mock_st sb tcb e q)
      = (if 0 <? k then SendBuffer_transmit Debug st' else Ret st') /\
    rb_inv rb' /\ rb_size_ rb' = rb_size_ (sb_buffer_ sb) /\
    rb_contents rb' = zdrop k (sb_contents sb) /\
    rb_begin_ rb' = (rb_begin_ (sb_buffer_ sb) + k) mod rb_size_ (sb_buffer_ sb) /\
    es_inv None e' /\ es_now_ e' = es_now_ e /\
    armed e' = if f - k =? 0
               then spec_cmd (CmdUpdate (sb_retransmission_alarm_ sb) (second_later e) update_granularity)
                      (armed e)
               else armed e.
Proof.
  intros Htx Hsyn Hfin Hk Hbif HL Hi Hwrap Hun Hal. cbn zeta.
  unfold SendBuffer_acknowledge. cbn [mock_st ss_sb ss_tcb]. rewrite Hsyn. cbn [obind ss_tcb ss_sb mock_st].
  rewrite Hun, ack_order by lia. cbn [DCHECK obind]. rewrite ack_distance by lia.
  destruct (RingBuffer_consume_spec Debug (sb_buffer_ sb) k (tx_rb _ _ Htx) ltac:(word))
    as (rb' & Erb & Hrb & Hsz & Hcon). fold (sb_contents sb) in *. rewrite Erb.
  apply RingBuffer_consume_begin in Erb; [|apply Htx|word].
  cbn [obind]. rewrite Z.min_l in * by lia.
  set (tcb' := tcb_put_unack (u32 (tcb_initial tcb + i + k)) tcb).
  set (m := f - k). set (sb1 := sb_put_bif (u64 m) (sb_put_buffer rb' sb)).
  set (X := on_sb _ (on_tcb _ _)).
  assert (X = mock_st sb1 tcb' e q) as ->.
  { change X with (mock_st (sb_put_bif (u64 (sb_bytes_in_flight_ sb - k)) (sb_put_buffer rb' sb))
                     (tcb_put_unack (u32 (tcb_unack tcb + k)) tcb) e q).
    unfold sb1, m, tcb'. rewrite Hun, u32_u32_add, Hbif. do 2 f_equal. unfold u64. by rewrite Zminus_mod_idemp_l. }
  cbn [mock_st ss_sb ss_tcb ss_world].
  destruct (restart_alarm e q (sb_retransmission_alarm_ sb1) Hal) as (e1 & Ea & Hi1 & Hn1 & Har1).
  exists rb', (if m =? 0 then e1 else e). split; [|destruct (m =? 0); split_and!; try done; apply Hal].
  change (sb_bytes_in_flight_ sb1) with (u64 m). rewrite u64_eq_0 by lia.
  assert ((if m =? 0 then
      t <- seconds_from_now 1 ((e, q) : MockWorld) ;;
      w <- Alarm_update (sb_retransmission_alarm_ sb1) t update_granularity ((e, q) : MockWorld) ;;
      Ret (ss_put_world w (mock_st sb1 tcb' e q)) else Ret (mock_st sb1 tcb' e q))
    = Ret (mock_st sb1 tcb' (if m =? 0 then e1 else e) q)) as Ea'.
  { destruct (_ =? 0); [|done]. apply bind_Ret in Ea as (t & -> & Ea). cbn [obind].
    exact (f_equal (fun o => w <- o ;; Ret (ss_put_world w (mock_st sb1 tcb' e q))) Ea). }
  rewrite Ea'. cbn [obind mock_st ss_sb ss_tcb]. change (sb_FIN_ sb1) with (sb_FIN_ sb).
  change (tcb_next tcb') with (tcb_next tcb). change (tcb_initial tcb') with (tcb_initial tcb).
  assert (bool_decide (sb_FIN_ sb = CtlSent)
    && seq_equal (tcb_initial tcb) (u32 (tcb_initial tcb + i + k)) (tcb_next tcb) = false) as ->; [|done].
  destruct (bool_decide_reflect (sb_FIN_ sb = CtlSent)) as [E|E]; [|done]. cbn [andb].
  destruct (Hfin E) as [HL2 ->]. unfold seq_equal. rewrite !u32_u32_sub.
  set (L := zlen (sb_contents sb)) in *.
  replace (tcb_initial tcb + i + k - tcb_initial tcb) with (i + k) by lia.
  replace (tcb_initial tcb + i + (L + 1) - tcb_initial tcb) with (i + (L + 1)) by lia.
  rewrite !u32_small by word. apply Z.eqb_neq. lia.
Qed.
Lemma acknowledge_step sb tcb e q i k :
  tx_ok sb tcb -> sb_SYN_ sb = CtlAcked ->
  (sb_FIN_ sb = CtlSent -> i + zlen (sb_contents sb) + 1 < 4294967296 /\
     tcb_next tcb = u32 (tcb_initial tcb + i + (zlen (sb_contents sb) + 1))) ->
  0 <= k <= sb_bytes_in_flight_ sb -> sb_bytes_in_flight_ sb <= zlen (sb_contents sb) ->
  0 <= i -> i + zlen (sb_contents sb) < 4294967296 ->
  tcb_unack tcb = u32 (tcb_initial tcb + i) -> alarm_ok e (sb_retransmission_alarm_ sb) ->
  exists rb' e',
    let tcb' := tcb_put_unack (u32 (tcb_initial tcb + i + k)) tcb in
    let m := sb_bytes_in_flight_ sb - k in
    let st' := mock_st (sb_put_bif m (sb_put_buffer rb' sb)) tcb' e' q in
    SendBuffer_acknowledge Debug (u32 (tcb_initial tcb + i + k)) (mock_st sb tcb e q)
      = (if 0 <? k then SendBuffer_transmit Debug st' else Ret st') /\
    rb_inv rb' /\ rb_size_ rb' = rb_size_ (sb_buffer_ sb) /\
    rb_contents rb' = zdrop k (sb_contents sb) /\
    rb_begin_ rb' = (rb_begin_ (sb_buffer_ sb) + k) mod rb_size_ (sb_buffer_ sb) /\
    es_inv None e' /\ es_now_ e' = es_now_ e /\
    armed e' = if m =? 0
               then spec_cmd (CmdUpdate (sb_retransmission_alarm_ sb) (second_later e) update_granularity)
                      (armed e)
               else armed e.
Proof.
  intros Htx Hsyn Hfin Hk HL Hi Hwrap Hun Hal.
  pose proof (acknowledge_step_any sb tcb e q i k (sb_bytes_in_flight_ sb)) as Hs.
  rewrite (u64_small (sb_bytes_in_flight_ sb - k)) in Hs by word. apply Hs; try done; try lia.
  by rewrite u64_small by word.
Qed.

(** An acknowledgment of [k] bytes in flight, on a connection whose stream has
    not yet reached 2^32 bytes. It removes exactly these bytes from the buffer and
    moves [send.unack] to it, [send.next] stays; when it is new, the window it
    opened is used at once to send the following bytes of the stream. *)
Theorem acknowledge_data (sb : SendBuffer) (tcb : ControlBlock) (e : EpollServer) (q : list Segment)
  (i k : Z) :
  tx_ok sb tcb -> sb_SYN_ sb = CtlAcked -> sb_FIN_ sb = CtlNone ->
  0 <= k <= sb_bytes_in_flight_ sb -> sb_bytes_in_flight_ sb <= zlen (sb_contents sb) ->
  0 <= i -> i + zlen (sb_contents sb) < 4294967296 ->
  tcb_unack tcb = u32 (tcb_initial tcb + i) -> zlen q <= 6 -> alarm_ok e (sb_retransmission_alarm_ sb) ->
  exists sb' n segs e',
    let tcb' := tcb_put_unack (u32 (tcb_initial tcb + i + k)) tcb in
    let m := sb_bytes_in_flight_ sb - k in
    SendBuffer_acknowledge Debug (u32 (tcb_initial tcb + i + k)) (mock_st sb tcb e q)
      = Ret (mock_st (sb_put_bif n sb') tcb' e' (q ++ segs)) /\
    sb_contents sb' = zdrop k (sb_contents sb) /\ es_inv None e' /\
    carries sb' tcb' m segs (ztake (n - m) (zdrop m (sb_contents sb'))) /\
    (k = 0 -> n = m /\ segs = []) /\
    (0 < k -> n = zlen (sb_contents sb') \/ kMaxBytesInFlight <= n).
Proof.
  intros Htx Hsyn Hfin Hk HL Hi Hwrap Hun Hq Hal. cbn zeta.
  destruct (acknowledge_step sb tcb e q i k) as (rb' & e' & E & Hrb & _ & Hc1 & _ & Hinv' & _); try done.
  { by rewrite Hfin. }
  cbn zeta in E. set (tcb' := tcb_put_unack _ _) in *. set (m := sb_bytes_in_flight_ sb - k) in *.
  set (sb1 := sb_put_bif m (sb_put_buffer rb' sb)) in *.
  assert (0 <= m <= zlen (sb_contents sb1)) as Hm
    by (unfold m; change (sb_contents sb1) with (rb_contents rb'); rewrite Hc1, zlen_drop; lia).
  destruct (Z.ltb_spec 0 k) as [Hpos|Hzero].
  - assert (tx_ok sb1 tcb') as Htx1 by (destruct Htx; by split).
    destruct (transmit_data sb1 tcb' e' q Htx1) as (n & segs & E' & Hn & Hend & _ & Hcar);
      [done|cbn; by rewrite Hfin|done|done|].
    exists sb1, n, segs, e'. rewrite E. split; [exact E'|]. split_and!; try done; intros; lia.
  - exists sb1, m, [], e'. rewrite E, app_nil_r. split; [done|]. split_and!; try done; try lia.
    cbn. rewrite Z.sub_diag. by apply ztake_0.
Qed.

(** A server with the retransmission alarm of the example, unarmed. *)
Definition example_alarms : EpollServer := (EpollAlarmFactory_createAlarm example_server).2.
Lemma example_alarm_ok : alarm_ok example_alarms 0%nat.
Proof.
  split; [apply es_inv_create, es_inv_empty|]. split; [vm_compute; split; congruence|].
  eexists; split; [reflexivity|]. vm_compute. split; congruence.
Qed.

Lemma acknowledge_data_witness :
  exists sb' n segs e',
    let tcb' := tcb_put_unack (u32 (100 + 1 + 2)) (example_tcb 105) in
    let m := 2 in
    SendBuffer_acknowledge Debug (u32 (100 + 1 + 2))
      (mock_st (example_sb CtlNone 4) (example_tcb 105) example_alarms [])
      = Ret (mock_st (sb_put_bif n sb') tcb' e' segs) /\
    sb_contents sb' = [3; 4] /\ es_inv None e' /\
    carries sb' tcb' m segs (ztake (n - m) (zdrop m (sb_contents sb'))) /\
    (2 = 0 -> n = m /\ segs = []) /\
    (0 < 2 -> n = zlen (sb_contents sb') \/ kMaxBytesInFlight <= n).
Proof.
  apply (acknowledge_data (example_sb CtlNone 4) (example_tcb 105) example_alarms [] 1 2).
  - apply example_tx_ok.
  - done.
  - done.
  - cbn. lia.
  - vm_compute. congruence.
  - lia.
  - vm_compute. congruence.
  - done.
  - vm_compute. congruence.
  - apply example_alarm_ok.
Defined.

(** Sequence numbers are compared by their distance from the initial one: the
    acknowledgment that takes the stream of a connection past 2^32 bytes counts as
    older than [send.unack], and a checked build aborts. *)
Theorem acknowledge_wraparound (sb : SendBuffer) (tcb : ControlBlock) (e : EpollServer)
  (q : list Segment) (i k : Z) :
  sb_SYN_ sb = CtlAcked -> 0 <= i < 4294967296 -> 4294967296 <= i + k < 4294967296 + i ->
  tcb_unack tcb = u32 (tcb_initial tcb + i) ->
  SendBuffer_acknowledge Debug (u32 (tcb_initial tcb + i + k)) (mock_st sb tcb e q) = Fatal.
Proof.
  intros Hsyn Hi Hk Hun. unfold SendBuffer_acknowledge. cbn [mock_st ss_sb ss_tcb].
  rewrite Hsyn. cbn [obind ss_tcb ss_sb mock_st]. rewrite Hun.
  unfold seq_greaterOrEqual. rewrite !u32_u32_sub.
  replace (tcb_initial tcb + i - tcb_initial tcb) with i by lia.
  replace (tcb_initial tcb + i + k - tcb_initial tcb) with ((i + k - 4294967296) + 1 * 4294967296) by lia.
  rewrite u32_small by word. unfold u32. rewrite Z.mod_add, Z.mod_small by lia.
  destruct (Z.leb_spec i (i + k - 4294967296)); [lia|done].
Qed.

Lemma acknowledge_wraparound_witness :
  SendBuffer_acknowledge Debug 110
    (mock_st (example_sb CtlNone 4)
       (mkControlBlock (mkSendBlock 90 94 0 0 0 100) (mkReceiveBlock 501 0 500 true))
       example_alarms []) = Fatal.
Proof.
  apply (acknowledge_wraparound (example_sb CtlNone 4)
    (mkControlBlock (mkSendBlock 90 94 0 0 0 100) (mkReceiveBlock 501 0 500 true))
    example_alarms [] 4294967286 20); cbn; (done || lia).
Defined.

(** The acknowledgment of everything and the FIN, [f] bytes being in flight. *)
Lemma acknowledge_FIN_step sb tcb e q i f :
  tx_ok sb tcb -> sb_SYN_ sb = CtlAcked -> sb_FIN_ sb = CtlSent ->
  sb_bytes_in_flight_ sb = u64 f -> - 4294967296 < f <= zlen (sb_contents sb) ->
  0 <= i -> i + zlen (sb_contents sb) + 1 < 4294967296 -> tcb_unack tcb = u32 (tcb_initial tcb + i) ->
  tcb_next tcb = u32 (tcb_initial tcb + i + (zlen (sb_contents sb) + 1)) ->
  alarm_ok e (sb_retransmission_alarm_ sb) ->
  exists rb' e',
    SendBuffer_acknowledge Debug (tcb_next tcb) (mock_st sb tcb e q)
      = Ret (mock_st (sb_put_FIN CtlAcked (sb_put_bif (u64 (f - (zlen (sb_contents sb) + 1)))
               (sb_put_buffer rb' sb))) (tcb_put_unack (tcb_next tcb) tcb) e' q) /\
    rb_inv rb' /\ rb_size_ rb' = rb_size_ (sb_buffer_ sb) /\ rb_contents rb' = [] /\
    es_inv None e' /\ es_now_ e' = es_now_ e /\
    armed e' = delete (sb_retransmission_alarm_ sb) (armed e).
Proof.
  intros Htx Hsyn Hfin Hbif Hf Hi Hwrap Hun Hnext Hal.
  pose proof (zlen_nonneg (sb_contents sb)) as HL.
  remember (zlen (sb_contents sb)) as L eqn:EL.
  unfold SendBuffer_acknowledge. cbn [mock_st ss_sb ss_tcb]. rewrite Hsyn.
  cbn [obind ss_tcb ss_sb mock_st]. rewrite Hun, Hnext, ack_order by lia. cbn [DCHECK obind].
  rewrite ack_distance by lia.
  destruct (RingBuffer_consume_spec Debug (sb_buffer_ sb) (L + 1) (tx_rb _ _ Htx) ltac:(word))
    as (rb' & -> & Hrb & Hsz & Hcon). fold (sb_contents sb) in Hcon |- *. rewrite <- EL.
  cbn [obind]. rewrite Z.min_r by lia. rewrite zdrop_all in Hcon by lia.
  set (X := on_sb _ (on_tcb _ _)).
  set (sb1 := sb_put_bif (u64 (f - (L + 1))) (sb_put_buffer rb' sb)).
  assert (X = mock_st sb1 (tcb_put_unack (u32 (tcb_initial tcb + i + L)) tcb) e q) as ->.
  { change X with (mock_st (sb_put_bif (u64 (sb_bytes_in_flight_ sb - (L + 1))) (sb_put_buffer rb' sb))
                     (tcb_put_unack (u32 (tcb_unack tcb + L)) tcb) e q).
    unfold sb1. rewrite Hun, u32_u32_add, Hbif. do 2 f_equal. unfold u64. by rewrite Zminus_mod_idemp_l. }
  set (tcb1 := tcb_put_unack _ tcb).
  cbn [mock_st ss_sb ss_tcb ss_world]. change (sb_bytes_in_flight_ sb1) with (u64 (f - (L + 1))).
  rewrite u64_eq_0 by lia. destruct (Z.eqb_spec (f - (L + 1)) 0); [lia|].
  cbn [obind mock_st ss_sb ss_tcb ss_world].
  change (sb_FIN_ sb1) with (sb_FIN_ sb). change (tcb_next tcb1) with (tcb_next tcb).
  rewrite Hfin, bool_decide_true by done. cbn [andb].
  rewrite Hnext. unfold seq_equal. rewrite Z.eqb_refl.
  change (sb_buffer_ sb1) with rb'. rewrite (rb_empty rb' Hrb), Hcon.
  change (0 =? zlen (@nil Z)) with true. cbn [DCHECK obind].
  destruct Hal as (Hinv & _ & al & Ha & _).
  destruct (Alarm_cancel_ok None e (sb_retransmission_alarm_ sb) Hinv ltac:(by eexists))
    as (e' & Ec & Hinv' & Har & Hn' & _).
  pose proof (Alarm_cancel_prod (W:=EpollServer) (Q:=list Segment) (sb_retransmission_alarm_ sb) (e, q)) as Ep.
  unfold on_fst in Ep. cbn [fst snd] in Ep. rewrite Ec in Ep. cbn [obind] in Ep.
  match goal with |- context [obind ?c _] => assert (c = Ret ((e', q) : MockWorld)) as -> by exact Ep end.
  cbn [obind]. destruct (Z.ltb_spec 0 (L + 1)); [|lia].
  exists rb', e'. split; [|by split_and!]. fold sb1.
  set (X := on_tcb _ _).
  assert (X = mock_st (sb_put_FIN CtlAcked sb1)
            (tcb_put_unack (u32 (tcb_initial tcb + i + (L + 1))) tcb) e' q) as ->.
  { change X with (mock_st (sb_put_FIN CtlAcked sb1)
      (tcb_put_unack (u32 (u32 (tcb_initial tcb + i + L) + 1)) tcb) e' q).
    rewrite u32_u32_add. by replace (tcb_initial tcb + i + L + 1) with (tcb_initial tcb + i + (L + 1)) by lia. }
  apply transmit_full; [exact Hsyn|]. unfold kMaxBytesInFlight, kMaxSegmentSize.
  change (sb_bytes_in_flight_ _) with (u64 (f - (L + 1))). rewrite u64_neg by lia. lia.
Qed.

(** C33. The acknowledgment of the FIN, all data being in flight: the buffer
    becomes empty, the FIN counts as acknowledged, [send.unack] reaches
    [send.next], the retransmission alarm is disarmed and nothing is sent. The
    count of bytes in flight, from which the FIN is subtracted although it was
    never added, wraps around to 2^64 - 1. *)
Theorem acknowledge_FIN (sb : SendBuffer) (tcb : ControlBlock) (e : EpollServer) (q : list Segment)
  (i : Z) :
  tx_ok sb tcb -> sb_SYN_ sb = CtlAcked -> sb_FIN_ sb = CtlSent ->
  sb_bytes_in_flight_ sb = zlen (sb_contents sb) ->
  0 <= i -> i + zlen (sb_contents sb) + 1 < 4294967296 -> tcb_unack tcb = u32 (tcb_initial tcb + i) ->
  tcb_next tcb = u32 (tcb_initial tcb + i + (zlen (sb_contents sb) + 1)) ->
  alarm_ok e (sb_retransmission_alarm_ sb) ->
  exists sb' e',
    SendBuffer_acknowledge Debug (tcb_next tcb) (mock_st sb tcb e q)
      = Ret (mock_st sb' (tcb_put_unack (tcb_next tcb) tcb) e' q) /\
    sb_contents sb' = [] /\ sb_FIN_ sb' = CtlAcked /\
    sb_bytes_in_flight_ sb' = 18446744073709551615 /\
    es_inv None e' /\ armed e' = delete (sb_retransmission_alarm_ sb) (armed e).
Proof.
  intros Htx Hsyn Hfin Hbif Hi Hwrap Hun Hnext Hal.
  pose proof (zlen_nonneg (sb_contents sb)) as HL.
  destruct (acknowledge_FIN_step sb tcb e q i (zlen (sb_contents sb))) as (rb' & e' & E & _ & _ & Hc & ? & _ & ?);
    try done; [|lia|].
  { by rewrite u64_small by word. }
  eexists _, e'. split; [exact E|]. split_and!; try done. cbn.
  by replace (_ - _) with (-1) by lia.
Qed.

Lemma acknowledge_FIN_witness :
  exists sb' e',
    SendBuffer_acknowledge Debug 106 (mock_st (example_sb CtlSent 4) (example_tcb 106) example_alarms [])
      = Ret (mock_st sb' (tcb_put_unack 106 (example_tcb 106)) e' []) /\
    sb_contents sb' = [] /\ sb_FIN_ sb' = CtlAcked /\
    sb_bytes_in_flight_ sb' = 18446744073709551615 /\
    es_inv None e' /\ armed e' = delete 0%nat (armed example_alarms).
Proof.
  apply (acknowledge_FIN (example_sb CtlSent 4) (example_tcb 106) example_alarms [] 1); try done.
  - apply example_tx_ok.
  - apply example_alarm_ok.
Defined.
