(* ===== verification/SocketSession.v ===== *)
(** src/src/tcp/socket_session.{h,cpp}: one TCP connection. Several handlers of
    the source are empty; they are modelled as they are. *)

From stdpp Require Import base list numbers gmap.
From S2P Require Import Prelude Endian DataWriter DataReader TimeBase Alarm EpollServer.
From S2P Require Import RingBuffer RandGenerator IPAddress Checksum SocketAddress Segment ControlBlock.
From S2P Require Import SendBuffer.

Open Scope Z_scope.
Open Scope outcome_scope.

Inductive ConnectionState : Type :=
  | LISTEN | SYN_SENT | SYN_RECEIVED | ESTABLISHED | FIN_WAIT_1 | FIN_WAIT_2
  | CLOSE_WAIT | CLOSING | LAST_ACK | TIME_WAIT | CLOSED.
#[global] Instance ConnectionState_eq_dec : EqDecision ConnectionState.
Proof. solve_decision. Defined.

(** The messages of a session to its user, as the bits of the source. *)
Definition MSG_READABLE : Z := 0x001.
Definition MSG_WRITABLE : Z := 0x002.
Definition MSG_CLOSED : Z := 0x004.
Definition MSG_CLOSING : Z := 0x008.
Definition MSG_RESET : Z := 0x010.
Definition MSG_REFUSED : Z := 0x020.
Definition MSG_NOTEXIST : Z := 0x040.
Definition MSG_NOSERVICE : Z := 0x080.

(** A session and what it shares: the send buffer with the control block and the
    world, and the generator of initial sequence numbers. *)
Record SocketSession (W : Type) : Type := mkSocketSession {
  se_send : SendState W;
  se_state_ : ConnectionState;
  se_factory_ : SegmentFactory;
  se_rand : RandGenerator;
  se_callback_ : option nat;
  se_receive_buffer_ : RingBuffer;
  se_time_wait_alarm_ : AlarmId
}.
Arguments mkSocketSession {W} _ _ _ _ _ _ _.
Arguments se_send {W} _.
Arguments se_state_ {W} _.
Arguments se_factory_ {W} _.
Arguments se_rand {W} _.
Arguments se_callback_ {W} _.
Arguments se_receive_buffer_ {W} _.
Arguments se_time_wait_alarm_ {W} _.

Section session.
Context {W : Type} `{AlarmImpl W} `{AlarmFactory W} `{IPSender W}.
Context (bld : build).
(** [callback_->onMessage(message)]: the user of the session. *)
Context (onMessage : nat -> Z -> W -> outcome W).

Definition se_put_send (st : SendState W) (s : SocketSession W) : SocketSession W :=
  mkSocketSession st (se_state_ s) (se_factory_ s) (se_rand s) (se_callback_ s)
    (se_receive_buffer_ s) (se_time_wait_alarm_ s).
Definition se_put_state (c : ConnectionState) (s : SocketSession W) : SocketSession W :=
  mkSocketSession (se_send s) c (se_factory_ s) (se_rand s) (se_callback_ s)
    (se_receive_buffer_ s) (se_time_wait_alarm_ s).
Definition se_put_rand (g : RandGenerator) (s : SocketSession W) : SocketSession W :=
  mkSocketSession (se_send s) (se_state_ s) (se_factory_ s) g (se_callback_ s)
    (se_receive_buffer_ s) (se_time_wait_alarm_ s).
Definition SocketSession_setCallback (cb : option nat) (s : SocketSession W) : SocketSession W :=
  mkSocketSession (se_send s) (se_state_ s) (se_factory_ s) (se_rand s) cb
    (se_receive_buffer_ s) (se_time_wait_alarm_ s).

(** The constructor; the blocks are the fresh memory of the two buffers. *)
Definition SocketSession_new (local remote : SocketAddress) (rand : RandGenerator)
  (send_block receive_block : list Z) (w : W) : outcome (SocketSession W) :=
  let factory := mkSegmentFactory local remote in
  st <- SendBuffer_new bld factory ControlBlock_zero send_block w ;;
  let '(a, w) := factory_createAlarm (ss_world st) in
  Ret (mkSocketSession (mkSendState (ss_sb st) (ss_tcb st) w) CLOSED factory rand None
         (RingBuffer_new (kMaxSegmentSize * 10) receive_block) a).

Definition SocketSession_signalUser (message : Z) (s : SocketSession W) : outcome (SocketSession W) :=
  match se_callback_ s with
  | None => Ret s
  | Some cb =>
      w <- onMessage cb message (ss_world (se_send s)) ;;
      Ret (se_put_send (mkSendState (ss_sb (se_send s)) (ss_tcb (se_send s)) w) s)
  end.

(** The handlers whose bodies are empty. *)
Definition SocketSession_onSegmentArrival (segment : Segment) (s : SocketSession W)
  : SocketSession W := s.
Definition SocketSession_onSegmentArrival_CLOSED (segment : Segment) (s : SocketSession W)
  : SocketSession W := s.
Definition SocketSession_onSegmentArrival_SYN_SENT (segment : Segment) (s : SocketSession W)
  : SocketSession W := s.
Definition SocketSession_onSegmentArrival_OTHERWISE (segment : Segment) (s : SocketSession W)
  : SocketSession W := s.

(** [send] and [receive] have a [size_t] result and no [return]. *)
Definition SocketSession_send (data : list Z) (length : Z) (s : SocketSession W)
  : outcome (Z * SocketSession W) := Undef.
Definition SocketSession_receive (length : Z) (s : SocketSession W)
  : outcome (list Z * SocketSession W) := Undef.

(** [sendSegmentNow(seq, ctl)] *)
Definition SocketSession_sendSegmentNow (seq ctl : Z) (s : SocketSession W)
  : outcome (SocketSession W) :=
  seg <- SegmentFactory_createSegment bld (se_factory_ s) seq ctl ;;
  let* (_, st) := SendBuffer_sendSegment bld seg (se_send s) in
  Ret (se_put_send st s).

(** [rand_generator_->rand(std::numeric_limits<SequenceNumber>::max())] *)
Definition SocketSession_initial (s : SocketSession W) : outcome (Z * SocketSession W) :=
  let* (initial, g) := RandGenerator_rand_upper bld (se_rand s) 4294967295 in
  Ret (initial, se_put_rand g s).

Definition tcb_put_receive (b : ReceiveBlock) (tcb : ControlBlock) : ControlBlock :=
  mkControlBlock (cb_send tcb) b.

Definition SocketSession_onSegmentArrival_LISTEN (segment : Segment) (s : SocketSession W)
  : outcome (SocketSession W) :=
  if Segment_isRST segment then Ret s
  else if Segment_isACK segment then
    SocketSession_sendSegmentNow (seg_acknowledgment_ segment) RST s
  else if Segment_isSYN segment then
    let rcv := cb_receive (ss_tcb (se_send s)) in
    let rcv := mkReceiveBlock (u32 (seg_sequence_ segment + 1)) (rcv_urgent_pointer rcv)
                 (seg_sequence_ segment) true in
    let s := se_put_send (on_tcb (tcb_put_receive rcv) (se_send s)) s in
    let* (initial, s) := SocketSession_initial s in
    st <- SendBuffer_sendSYN bld initial (se_send s) ;;
    Ret (se_put_state SYN_RECEIVED (se_put_send st s))
  else Ret s.

(** [open()] of an active socket and [open(seg)] of a passive one. *)
Definition SocketSession_open (s : SocketSession W) : outcome (SocketSession W) :=
  if decide (se_state_ s <> CLOSED) then Fatal
  else
    let* (initial, s) := SocketSession_initial s in
    st <- SendBuffer_sendSYN bld initial (se_send s) ;;
    Ret (se_put_state SYN_SENT (se_put_send st s)).
Definition SocketSession_open_segment (seg : Segment) (s : SocketSession W)
  : outcome (SocketSession W) :=
  if decide (se_state_ s <> CLOSED) then Fatal
  else Ret (SocketSession_onSegmentArrival seg (se_put_state LISTEN s)).

Definition SocketSession_isClosed (s : SocketSession W) : bool := bool_decide (se_state_ s = CLOSED).

Definition SocketSession_close (s : SocketSession W) : outcome (SocketSession W) :=
  match se_state_ s with
  | CLOSED | LISTEN | SYN_SENT => Ret (se_put_state CLOSED s)
  | SYN_RECEIVED | ESTABLISHED =>
      st <- SendBuffer_sendFIN bld (se_send s) ;;
      Ret (se_put_state FIN_WAIT_1 (se_put_send st s))
  | FIN_WAIT_1 | FIN_WAIT_2 | CLOSING | LAST_ACK | TIME_WAIT => Fatal
  | CLOSE_WAIT =>
      st <- SendBuffer_sendFIN bld (se_send s) ;;
      Ret (se_put_state LAST_ACK (se_put_send st s))
  end.

Definition SocketSession_getLocalAddress (s : SocketSession W) : SocketAddress :=
  sf_local_address_ (se_factory_ s).
Definition SocketSession_getRemoteAddress (s : SocketSession W) : SocketAddress :=
  sf_remote_address_ (se_factory_ s).

(** The delegate of the TIME_WAIT alarm. *)
Definition SocketSession_enterCLOSED (s : SocketSession W) : SocketSession W :=
  se_put_state CLOSED s.
End session.

(** ** Behaviour on the mock network *)
Definition syn_tcb (initial : Z) (tcb : ControlBlock) : ControlBlock :=
  tcb_put_unack initial (tcb_put_next (u32 (initial + 1)) (tcb_put_initial initial tcb)).

(** The SYN of a connection, a SYN-ACK once the SYN of the peer was received. *)
Definition syn_segment (sb : SendBuffer) (initial : Z) (tcb : ControlBlock) : Segment :=
  received (sb_source_ sb) (sb_destination_ sb)
    (if rcv_SYN_received (cb_receive tcb)
     then SegmentFactory_createSegment_ack (sb_segment_factory_ sb) initial
            (rcv_next (cb_receive tcb)) (Z.lor SYN ACK)
     else SegmentFactory_createSegment_ack (sb_segment_factory_ sb) initial 0 SYN).

Lemma ctl_segment_wf sb tcb seq ack flags :
  tx_ok sb tcb -> in_u32 seq -> in_u32 ack -> in_u8 flags ->
  seg_wf (SegmentFactory_createSegment_ack (sb_segment_factory_ sb) seq ack flags).
Proof.
  intros [? ? ? ?] ? ? ?. split; cbn; try done; try word. constructor.
Qed.

Lemma send_ctl_mock sb tcb e q seq ack flags :
  tx_ok sb tcb -> in_u32 seq -> in_u32 ack -> in_u8 flags -> zlen q < kMaxQueueLength ->
  forall tcb', SendBuffer_sendSegment Debug
    (SegmentFactory_createSegment_ack (sb_segment_factory_ sb) seq ack flags) (mock_st sb tcb' e q)
  = Ret (true, mock_st sb tcb' e (q ++ [received (sb_source_ sb) (sb_destination_ sb)
      (SegmentFactory_createSegment_ack (sb_segment_factory_ sb) seq ack flags)])).
Proof.
  intros Htx ? ? ? ? tcb'.
  apply sendSegment_mock; [by eapply ctl_segment_wf|unfold kMaxSegmentSize; cbn; lia|done].
Qed.

Lemma transmit_SYN_mock sb tcb e q :
  tx_ok sb tcb -> sb_SYN_ sb = CtlSent -> in_u32 (tcb_initial tcb) -> zlen q < kMaxQueueLength ->
  SendBuffer_transmit Debug (mock_st sb tcb e q)
  = Ret (mock_st sb tcb e (q ++ [syn_segment sb (tcb_initial tcb) tcb])).
Proof.
  intros Htx Hsyn Hi Hq. unfold SendBuffer_transmit. cbn [mock_st ss_sb]. rewrite Hsyn.
  unfold SendBuffer_transmit_SYN, syn_segment. cbn [mock_st ss_tcb ss_sb].
  pose proof (tx_rcv _ _ Htx).
  destruct (rcv_SYN_received (cb_receive tcb)).
  - rewrite (send_ctl_mock sb tcb); try done.
  - unfold SegmentFactory_createSegment. cbn [obind].
    change (DCHECK Debug (Z.land SYN ACK =? 0)) with (Ret tt). cbn [obind].
    rewrite (send_ctl_mock sb tcb); try done.
Qed.

Lemma sendSYN_mock sb tcb e q initial :
  tx_ok sb tcb -> sb_FIN_ sb = CtlNone -> in_u32 initial -> zlen q < kMaxQueueLength ->
  SendBuffer_sendSYN Debug initial (mock_st sb tcb e q)
  = Ret (mock_st (sb_put_SYN CtlSent sb) (syn_tcb initial tcb) e (q ++ [syn_segment sb initial tcb])).
Proof.
  intros Htx Hfin Hi Hq. unfold SendBuffer_sendSYN. cbn [mock_st ss_sb].
  rewrite Hfin, bool_decide_true by done. cbn [DCHECK obind].
  change (on_sb _ _) with (mock_st (sb_put_SYN CtlSent sb) (syn_tcb initial tcb) e q).
  rewrite transmit_SYN_mock; try done. destruct Htx. by split.
Qed.

(** A session on the mock network. *)
Record session_ok (s : SocketSession MockWorld) (sb : SendBuffer) (tcb : ControlBlock)
  (e : EpollServer) (q : list Segment) : Prop := {
  so_send : se_send s = mock_st sb tcb e q;
  so_factory : sb_segment_factory_ sb = se_factory_ s;
  so_tx : tx_ok sb tcb
}.

Lemma initial_ok s :
  exists v g, SocketSession_initial (W := MockWorld) Debug s = Ret (v, se_put_rand g s) /\ in_u32 v.
Proof.
  unfold SocketSession_initial, RandGenerator_rand_upper.
  destruct (RandGenerator_rand_between_spec Debug (se_rand s) 0 4294967295) as (v & -> & Hv);
    [lia|lia|lia|]. exists v. eexists. split; [done|word].
Qed.

(** C13. An active open. In any state but CLOSED the program aborts, whatever the session,
    the network and the build. In state CLOSED, for a session that has not sent a FIN, on
    the mock network of the unit tests with room in its queue and in a build with
    [DCHECK]s: it picks an initial sequence number, sends exactly one segment with that
    number, a SYN, or a SYN-ACK if the session had already received a SYN, and goes to
    SYN_SENT with [send.unack] at the SYN and [send.next] behind it. *)
Theorem open_sends_SYN :
  (forall (W : Type) `{AlarmImpl W, AlarmFactory W, IPSender W} (bld : build) (s : SocketSession W),
     se_state_ s <> CLOSED -> SocketSession_open bld s = Fatal) /\
  (forall (s : SocketSession MockWorld) sb tcb e q,
     session_ok s sb tcb e q -> se_state_ s = CLOSED -> sb_FIN_ sb = CtlNone ->
     zlen q < kMaxQueueLength ->
     exists initial s', SocketSession_open Debug s = Ret s' /\ in_u32 initial /\
       se_state_ s' = SYN_SENT /\
       se_send s' = mock_st (sb_put_SYN CtlSent sb) (syn_tcb initial tcb) e
         (q ++ [received (sb_source_ sb) (sb_destination_ sb)
           (if rcv_SYN_received (cb_receive tcb)
            then SegmentFactory_createSegment_ack (se_factory_ s) initial
                   (rcv_next (cb_receive tcb)) (Z.lor SYN ACK)
            else SegmentFactory_createSegment_ack (se_factory_ s) initial 0 SYN)]) /\
       tcb_unack (ss_tcb (se_send s')) = initial /\
       tcb_next (ss_tcb (se_send s')) = u32 (initial + 1)).
Proof.
  split.
  - intros W ? ? ? bld s Hst. unfold SocketSession_open. by rewrite decide_True.
  - intros s sb tcb e q [Hsend Hfac Htx] Hst Hfin Hq. unfold SocketSession_open.
    rewrite decide_False by (intros E; by apply E).
    destruct (initial_ok s) as (v & g & -> & Hv). cbn [obind].
    change (se_send (se_put_rand g s)) with (se_send s). rewrite Hsend, sendSYN_mock by done.
    cbn [obind]. exists v. eexists. split; [done|]. rewrite <- Hfac. by split_and!.
Qed.

(** A fresh session for the witnesses. *)
Definition fresh_session (c : ConnectionState) : SocketSession MockWorld :=
  mkSocketSession
    (mock_st (mkSendBuffer (RingBuffer_new 8 (replicate 8 0)) CtlNone CtlNone 0
                (IPAddress_of_in_addr [10; 0; 0; 1]) (IPAddress_of_in_addr [10; 0; 0; 2])
                example_factory 0) ControlBlock_zero example_alarms [])
    c example_factory (RandGenerator_new 233) None (RingBuffer_new 8 (replicate 8 0)) 1.

Lemma fresh_session_ok c :
  session_ok (fresh_session c) (ss_sb (se_send (fresh_session c))) ControlBlock_zero example_alarms [].
Proof.
  split; [done|done|]. split.
  - apply rb_inv_new; [lia|done|apply replicate_zero_bytes].
  - apply (tx_local _ _ (example_tx_ok CtlNone 0 0)).
  - apply (tx_remote _ _ (example_tx_ok CtlNone 0 0)).
  - cbn. word.
Qed.

Lemma open_sends_SYN_witness :
  SocketSession_open Release (fresh_session TIME_WAIT) = Fatal /\
  exists initial s', SocketSession_open Debug (fresh_session CLOSED) = Ret s' /\ in_u32 initial /\
    se_state_ s' = SYN_SENT /\
    se_send s' = mock_st (sb_put_SYN CtlSent (ss_sb (se_send (fresh_session CLOSED))))
                   (syn_tcb initial ControlBlock_zero) example_alarms
                   [received (IPAddress_of_in_addr [10; 0; 0; 1]) (IPAddress_of_in_addr [10; 0; 0; 2])
                      (SegmentFactory_createSegment_ack example_factory initial 0 SYN)] /\
    tcb_unack (ss_tcb (se_send s')) = initial /\
    tcb_next (ss_tcb (se_send s')) = u32 (initial + 1).
Proof.
  split; [apply (proj1 open_sends_SYN MockWorld _ _ _ Release (fresh_session TIME_WAIT)); discriminate|].
  apply (proj2 open_sends_SYN (fresh_session CLOSED) (ss_sb (se_send (fresh_session CLOSED)))
    ControlBlock_zero example_alarms []).
  - apply fresh_session_ok.
  - done.
  - done.
  - vm_compute. congruence.
Defined.

(** C11. The LISTEN handler follows RFC 793, on the mock network of the unit tests with
    room in its queue and in a build with [DCHECK]s: a reset is ignored; an acknowledgment is
    answered by one reset that carries its number, the state kept; a SYN makes the
    session record the numbers of the peer, answer with one SYN-ACK for the next
    number and go to SYN_RECEIVED; anything else is ignored. *)
Theorem LISTEN_handler (s : SocketSession MockWorld) sb tcb e q (g : Segment) :
  session_ok s sb tcb e q -> sb_FIN_ sb = CtlNone -> zlen q < kMaxQueueLength ->
  in_u32 (seg_sequence_ g) -> in_u32 (seg_acknowledgment_ g) ->
  if Segment_isRST g then SocketSession_onSegmentArrival_LISTEN Debug g s = Ret s
  else if Segment_isACK g then
    SocketSession_onSegmentArrival_LISTEN Debug g s =
      Ret (se_put_send (mock_st sb tcb e
        (q ++ [received (sb_source_ sb) (sb_destination_ sb)
                 (SegmentFactory_createSegment_ack (se_factory_ s) (seg_acknowledgment_ g) 0 RST)])) s)
  else if Segment_isSYN g then
    exists initial s' tcb', SocketSession_onSegmentArrival_LISTEN Debug g s = Ret s' /\
      in_u32 initial /\ se_state_ s' = SYN_RECEIVED /\
      cb_receive tcb' = mkReceiveBlock (u32 (seg_sequence_ g + 1))
                          (rcv_urgent_pointer (cb_receive tcb)) (seg_sequence_ g) true /\
      tcb_unack tcb' = initial /\ tcb_next tcb' = u32 (initial + 1) /\
      se_send s' = mock_st (sb_put_SYN CtlSent sb) tcb' e
        (q ++ [received (sb_source_ sb) (sb_destination_ sb)
                 (SegmentFactory_createSegment_ack (se_factory_ s) initial
                    (u32 (seg_sequence_ g + 1)) (Z.lor SYN ACK))])
  else SocketSession_onSegmentArrival_LISTEN Debug g s = Ret s.
Proof.
  intros [Hsend Hfac Htx] Hfin Hq Hseq Hack. unfold SocketSession_onSegmentArrival_LISTEN.
  destruct (Segment_isRST g); [done|]. destruct (Segment_isACK g).
  - unfold SocketSession_sendSegmentNow, SegmentFactory_createSegment. cbn [obind].
    change (DCHECK Debug (Z.land RST ACK =? 0)) with (Ret tt). cbn [obind].
    rewrite Hsend, <- Hfac, (send_ctl_mock sb tcb); try done.
  - destruct (Segment_isSYN g); [|done].
    set (rcv := mkReceiveBlock _ _ _ _). set (s1 := se_put_send _ _).
    destruct (initial_ok s1) as (v & r & -> & Hv). cbn [obind].
    change (se_send (se_put_rand r s1)) with (on_tcb (tcb_put_receive rcv) (se_send s)).
    rewrite Hsend. change (on_tcb _ _) with (mock_st sb (tcb_put_receive rcv tcb) e q).
    assert (tx_ok sb (tcb_put_receive rcv tcb)) as Htx'.
    { destruct Htx. split; try done. apply u32_range. }
    rewrite sendSYN_mock by done. cbn [obind].
    exists v. eexists _, (syn_tcb v (tcb_put_receive rcv tcb)). split; [done|].
    split; [done|]. split; [done|].
    split; [unfold rcv; by rewrite Hsend|]. split; [done|]. split; [done|].
    cbn [se_send se_put_state se_put_send]. unfold syn_segment. cbn. by rewrite Hfac.
Qed.

Lemma LISTEN_handler_witness :
  exists initial s' tcb', SocketSession_onSegmentArrival_LISTEN Debug
      (mkSegment SocketAddress_default SocketAddress_default 4294967295 0 SYN 65535 [] false 0)
      (fresh_session LISTEN) = Ret s' /\
    in_u32 initial /\ se_state_ s' = SYN_RECEIVED /\
    cb_receive tcb' = mkReceiveBlock 0 0 4294967295 true /\
    tcb_unack tcb' = initial /\ tcb_next tcb' = u32 (initial + 1) /\
    se_send s' = mock_st (sb_put_SYN CtlSent (ss_sb (se_send (fresh_session LISTEN)))) tcb' example_alarms
      [received (IPAddress_of_in_addr [10; 0; 0; 1]) (IPAddress_of_in_addr [10; 0; 0; 2])
         (SegmentFactory_createSegment_ack example_factory initial 0 (Z.lor SYN ACK))].
Proof.
  apply (LISTEN_handler (fresh_session LISTEN) (ss_sb (se_send (fresh_session LISTEN))) ControlBlock_zero example_alarms []
    (mkSegment SocketAddress_default SocketAddress_default 4294967295 0 SYN 65535 [] false 0)).
  - apply fresh_session_ok.
  - done.
  - vm_compute. congruence.
  - cbn. word.
  - cbn. word.
Defined.

(** The transition of [close] on the state alone; [None] is an abort. *)
Definition close_state (c : ConnectionState) : option ConnectionState :=
  match c with
  | CLOSED | LISTEN | SYN_SENT => Some CLOSED
  | SYN_RECEIVED | ESTABLISHED => Some FIN_WAIT_1
  | CLOSE_WAIT => Some LAST_ACK
  | FIN_WAIT_1 | FIN_WAIT_2 | CLOSING | LAST_ACK | TIME_WAIT => None
  end.

(** [sendFIN] of an established connection whose data is all acknowledged. *)
Lemma sendFIN_mock sb tcb e q :
  tx_ok sb tcb -> sb_SYN_ sb = CtlAcked -> sb_bytes_in_flight_ sb = 0 -> sb_contents sb = [] ->
  tcb_next tcb = tcb_unack tcb -> in_u32 (tcb_next tcb) -> zlen q <= 6 ->
  let tcb' := tcb_put_next (u32 (tcb_next tcb + 1)) tcb in
  SendBuffer_sendFIN Debug (mock_st sb tcb e q)
  = Ret (mock_st (sb_put_FIN CtlSent sb) tcb' e
           (q ++ [in_segment sb tcb' 0 (Z.lor ACK FIN) []])).
Proof.
  intros Htx Hsyn Hbif Hcon Hnext Hu Hq tcb'. unfold SendBuffer_sendFIN.
  change (on_tcb _ _) with (mock_st (sb_put_FIN CtlSent sb) tcb' e q).
  cbn [mock_st ss_sb sb_put_FIN sb_buffer_]. rewrite (rb_empty _ (tx_rb _ _ Htx)).
  fold (sb_contents sb). rewrite Hcon. change (0 =? zlen (@nil Z)) with true.
  change (mkSendState _ tcb' (e, q)) with (mock_st (sb_put_FIN CtlSent sb) tcb' e q).
  assert (tx_ok (sb_put_FIN CtlSent sb) tcb') as Htx' by (destruct Htx; by split).
  assert (sb_contents (sb_put_FIN CtlSent sb) = []) as Hcon' by exact Hcon.
  pose proof (fin_round 11 (sb_put_FIN CtlSent sb) tcb' e q 0 []) as Hr. rewrite Hcon' in Hr.
  unfold SendBuffer_transmit. cbn [mock_st ss_sb sb_put_FIN sb_SYN_]. rewrite Hsyn.
  assert (sb_put_FIN CtlSent sb = sb_put_bif 0 (sb_put_FIN CtlSent sb)) as Esb
    by (rewrite <- Hbif; by destruct sb).
  change (mkSendState _ tcb' (e, q)) with (mock_st (sb_put_FIN CtlSent sb) tcb' e q).
  rewrite Esb. unfold transmit_fuel. rewrite Hr; try done.
  - unfold tcb_next, tcb_unack in *. cbn. rewrite Hnext. f_equal.
    change (zlen (@nil Z)) with 0. lia.
  - unfold kMaxQueueLength. lia.
Qed.

(** A FIN behind a SYN that is not acknowledged yet: the SYN is sent once more. *)
Lemma sendFIN_early_mock sb tcb e q :
  tx_ok sb tcb -> sb_SYN_ sb = CtlSent -> sb_contents sb = [] -> in_u32 (tcb_initial tcb) ->
  zlen q < kMaxQueueLength ->
  SendBuffer_sendFIN Debug (mock_st sb tcb e q)
  = Ret (mock_st (sb_put_FIN CtlSent sb) (tcb_put_next (u32 (tcb_next tcb + 1)) tcb) e
           (q ++ [syn_segment sb (tcb_initial tcb) tcb])).
Proof.
  intros Htx Hsyn Hcon Hi Hq. unfold SendBuffer_sendFIN.
  set (tcb' := tcb_put_next (u32 (tcb_next tcb + 1)) tcb).
  change (on_tcb _ _) with (mock_st (sb_put_FIN CtlSent sb) tcb' e q).
  cbn [mock_st ss_sb sb_put_FIN sb_buffer_]. rewrite (rb_empty _ (tx_rb _ _ Htx)).
  fold (sb_contents sb). rewrite Hcon. change (0 =? zlen (@nil Z)) with true.
  change (mkSendState _ tcb' (e, q)) with (mock_st (sb_put_FIN CtlSent sb) tcb' e q).
  rewrite transmit_SYN_mock; try done. destruct Htx. by split.
Qed.

(** C14. [close()] by state. Whatever the session, the network and the build: from CLOSED,
    LISTEN and SYN_SENT the session is closed at once; while it is closing already the
    program aborts; from SYN_RECEIVED, ESTABLISHED and CLOSE_WAIT with data in the send
    buffer nothing is sent, the FIN takes one sequence number, and the state is FIN_WAIT_1,
    or LAST_ACK from CLOSE_WAIT. From these three states with an empty send buffer, on the
    mock network of the unit tests with room in its queue (for ten segments or, before the
    SYN is acknowledged, one) and in a build with [DCHECK]s, the numbers and states change
    in the same way and exactly one segment is sent: the FIN, when the SYN and all data are
    acknowledged and nothing is in flight; the SYN or SYN-ACK once more, when it is not
    acknowledged yet. *)
Theorem close_transitions :
  (forall (W : Type) `{AlarmImpl W, AlarmFactory W, IPSender W} (bld : build) (s : SocketSession W),
     match close_state (se_state_ s) with
     | None => SocketSession_close bld s = Fatal
     | Some CLOSED => SocketSession_close bld s = Ret (se_put_state CLOSED s)
     | Some c =>
         RingBuffer_empty (sb_buffer_ (ss_sb (se_send s))) = false ->
         SocketSession_close bld s = Ret (se_put_state c (se_put_send
           (on_tcb (fun tcb => tcb_put_next (u32 (tcb_next tcb + 1)) tcb)
             (on_sb (sb_put_FIN CtlSent) (se_send s))) s))
     end) /\
  (forall (s : SocketSession MockWorld) sb tcb e q c,
     session_ok s sb tcb e q -> close_state (se_state_ s) = Some c -> c <> CLOSED ->
     sb_contents sb = [] ->
     let tcb' := tcb_put_next (u32 (tcb_next tcb + 1)) tcb in
     let closed g := Ret (se_put_state c (se_put_send
                       (mock_st (sb_put_FIN CtlSent sb) tcb' e (q ++ [g])) s)) in
     (sb_SYN_ sb = CtlAcked -> sb_bytes_in_flight_ sb = 0 -> tcb_next tcb = tcb_unack tcb ->
      in_u32 (tcb_next tcb) -> zlen q <= 6 ->
      SocketSession_close Debug s = closed (in_segment sb tcb' 0 (Z.lor ACK FIN) [])) /\
     (sb_SYN_ sb = CtlSent -> in_u32 (tcb_initial tcb) -> zlen q < kMaxQueueLength ->
      SocketSession_close Debug s = closed (syn_segment sb (tcb_initial tcb) tcb))).
Proof.
  split.
  - intros W ? ? ? bld s. unfold SocketSession_close, SendBuffer_sendFIN.
    destruct (se_state_ s); cbn [close_state]; try done; cbn; by intros ->.
  - intros s sb tcb e q c [Hsend Hfac Htx] Hc Hne Hcon tcb' closed. unfold SocketSession_close. split.
    + intros Hsyn Hbif Hnext Hu Hq.
      destruct (se_state_ s); simplify_eq/=; rewrite Hsend, sendFIN_mock by done; done.
    + intros Hsyn Hi Hq.
      destruct (se_state_ s); simplify_eq/=; rewrite Hsend, sendFIN_early_mock by done; done.
Qed.

(** An established session that has sent nothing but its SYN. *)
Definition idle_sb : SendBuffer := sb_put_buffer (RingBuffer_new 8 (replicate 8 0)) (example_sb CtlNone 0).
Definition idle_session (c : ConnectionState) : SocketSession MockWorld :=
  se_put_send (mock_st idle_sb (example_tcb 101) example_alarms []) (fresh_session c).
Lemma idle_session_ok c : session_ok (idle_session c) idle_sb (example_tcb 101) example_alarms [].
Proof.
  split; [done|done|]. split.
  - apply rb_inv_new; [lia|done|apply replicate_zero_bytes].
  - apply (tx_local _ _ (example_tx_ok CtlNone 0 0)).
  - apply (tx_remote _ _ (example_tx_ok CtlNone 0 0)).
  - cbn. word.
Qed.

Lemma close_transitions_witness :
  SocketSession_close Release (fresh_session SYN_SENT) = Ret (se_put_state CLOSED (fresh_session SYN_SENT)) /\
  SocketSession_close Release (fresh_session FIN_WAIT_2) = Fatal /\
  SocketSession_close Debug (idle_session ESTABLISHED) =
  Ret (se_put_state FIN_WAIT_1 (se_put_send
    (mock_st (sb_put_FIN CtlSent idle_sb) (tcb_put_next 102 (example_tcb 101)) example_alarms
       [in_segment idle_sb (tcb_put_next 102 (example_tcb 101)) 0 (Z.lor ACK FIN) []])
    (idle_session ESTABLISHED))).
Proof.
  split; [apply (proj1 close_transitions _ _ _ _ Release (fresh_session SYN_SENT))|].
  split; [apply (proj1 close_transitions _ _ _ _ Release (fresh_session FIN_WAIT_2))|].
  apply (proj1 (proj2 close_transitions (idle_session ESTABLISHED) idle_sb (example_tcb 101) example_alarms []
    FIN_WAIT_1 (idle_session_ok ESTABLISHED) eq_refl ltac:(done) eq_refl)); try done; concrete.
Defined.
