(* ===== verification/SendStream.v ===== *)
(** The sending side of a connection over its whole life: sequences of the events
    that reach a [SendBuffer] (data of the application, acknowledgments, the end of
    the stream, the retransmission alarm, the clock), on the mock network, refine
    an abstract byte stream. *)

From stdpp Require Import base list numbers gmap.
From S2P Require Import Prelude Endian DataWriter DataReader TimeBase Alarm EpollServer.
From S2P Require Import RingBuffer IPAddress Checksum SocketAddress Segment ControlBlock.
From S2P Require Import SendBuffer SocketSession.

Open Scope Z_scope.
Open Scope outcome_scope.

(** ** The loop of [transmit], with or without a FIN at the end of the data *)

(** The flags of the segment with [len] bytes at [off], of [L] bytes buffered. *)
Definition tx_flags (fin : bool) (L off len : Z) : Z :=
  if fin && (off + len =? L) then Z.lor ACK FIN else ACK.

(** How many bytes are in flight after [transmit], of [L] buffered and [b] in flight
    before: segments are added until the window is used up. *)
Definition fill (b L : Z) : Z :=
  if kMaxBytesInFlight <=? b then b
  else Z.min L (b + kMaxSegmentSize * ((kMaxBytesInFlight - b + kMaxSegmentSize - 1) / kMaxSegmentSize)).

Lemma fill_step b L :
  b < kMaxBytesInFlight -> b <= L ->
  fill (b + Z.min kMaxSegmentSize (L - b)) L = fill b L.
Proof.
  unfold fill, kMaxBytesInFlight, kMaxSegmentSize. intros Hb HL.
  set (c := (1460 * 10 - b + 1460 - 1) / 1460).
  assert (1460 * 10 - b <= 1460 * c < 1460 * 10 - b + 1460) as Hc.
  { unfold c. pose proof (Z.mul_div_le (1460 * 10 - b + 1460 - 1) 1460).
    pose proof (Z.mul_succ_div_gt (1460 * 10 - b + 1460 - 1) 1460). lia. }
  destruct (Z.leb_spec (1460 * 10) b); [lia|].
  set (b' := b + Z.min 1460 (L - b)). set (c' := (1460 * 10 - b' + 1460 - 1) / 1460).
  assert (1460 * 10 - b' <= 1460 * c' < 1460 * 10 - b' + 1460) as Hc'.
  { unfold c'. pose proof (Z.mul_div_le (1460 * 10 - b' + 1460 - 1) 1460).
    pose proof (Z.mul_succ_div_gt (1460 * 10 - b' + 1460 - 1) 1460). lia. }
  destruct (Z.leb_spec (1460 * 10) b'); lia.
Qed.

Lemma fill_range b L :
  b <= L -> b <= fill b L <= L /\ (fill b L = L \/ kMaxBytesInFlight <= fill b L) /\
    fill b L <= Z.max b (kMaxBytesInFlight + kMaxSegmentSize - 1).
Proof.
  unfold fill, kMaxBytesInFlight, kMaxSegmentSize. intros HL.
  destruct (Z.leb_spec (1460 * 10) b); [lia|].
  pose proof (Z.mul_div_le (1460 * 10 - b + 1460 - 1) 1460).
  pose proof (Z.mul_succ_div_gt (1460 * 10 - b + 1460 - 1) 1460). lia.
Qed.
Lemma fill_full b L : kMaxBytesInFlight <= b -> fill b L = b.
Proof. unfold fill. intros ?. by rewrite (proj2 (Z.leb_le _ _)). Qed.
Lemma fill_all L : fill L L = L.
Proof. destruct (fill_range L L); lia. Qed.


(** The count may also be below zero: more was acknowledged than it says. The code then
    takes the window for full. *)
Definition refill (b L : Z) : Z := if b <? 0 then b else fill b L.
Lemma refill_neg b L : b < 0 -> refill b L = b.
Proof. unfold refill. intros ?. by rewrite (proj2 (Z.ltb_lt b 0)). Qed.
Lemma refill_pos b L : 0 <= b -> refill b L = fill b L.
Proof. unfold refill. intros ?. by rewrite (proj2 (Z.ltb_ge b 0)). Qed.
Lemma refill_range b L :
  b <= L -> b <= refill b L <= L /\ (refill b L < 0 \/ refill b L = L \/ kMaxBytesInFlight <= refill b L) /\
    refill b L <= Z.max b (kMaxBytesInFlight + kMaxSegmentSize - 1).
Proof.
  intros HL. destruct (Z.lt_ge_cases b 0); [rewrite refill_neg by done; lia|].
  rewrite refill_pos by done. pose proof (fill_range b L HL). lia.
Qed.

(** A segment with bytes of the buffer, behind the first unacknowledged one. *)
Definition chunk_at (sb : SendBuffer) (tcb : ControlBlock) (fin : bool) (off : Z) (d : list Z)
  (s : Segment) : Prop :=
  s = in_segment sb tcb off (tx_flags fin (zlen (sb_contents sb)) off (zlen d)) d /\
  0 <= off /\ off + zlen d <= zlen (sb_contents sb) /\ zlen d <= kMaxSegmentSize /\
  d = ztake (zlen d) (zdrop off (sb_contents sb)).
Definition chunk (sb : SendBuffer) (tcb : ControlBlock) (fin : bool) (s : Segment) : Prop :=
  exists off d, chunk_at sb tcb fin off d s.

(** [segs] send the bytes from [b] up to [n], and the FIN if [n] is the end. *)
Record sends (sb : SendBuffer) (tcb : ControlBlock) (fin : bool) (b n : Z) (segs : list Segment)
  : Prop := {
  sends_chunks : Forall (chunk sb tcb fin) segs;
  sends_all i : b <= i < n ->
    exists off d s, s ∈ segs /\ chunk_at sb tcb fin off d s /\ off <= i < off + zlen d;
  sends_fin : fin = true -> n = zlen (sb_contents sb) -> b < kMaxBytesInFlight ->
    exists off d s, s ∈ segs /\ chunk_at sb tcb fin off d s /\ off + zlen d = zlen (sb_contents sb)
}.

(** What holds of the control block when the FIN is to be sent. *)
Definition fin_ok (sb : SendBuffer) (tcb : ControlBlock) : Prop :=
  sb_FIN_ sb = CtlSent ->
  tcb_next tcb = u32 (tcb_unack tcb + zlen (sb_contents sb) + 1) /\ zlen (sb_contents sb) < 4294967295.

Abbreviation is_fin sb := (bool_decide (sb_FIN_ sb = CtlSent)).

Lemma fin_test sb tcb off len :
  fin_ok sb tcb -> 0 <= off -> 0 <= len -> off + len <= zlen (sb_contents sb) ->
  bool_decide (sb_FIN_ sb = CtlSent)
    && seq_equal (tcb_initial tcb) (u32 (u32 (tcb_unack tcb + off) + len + 1)) (tcb_next tcb)
  = is_fin sb && (off + len =? zlen (sb_contents sb)).
Proof.
  intros Hfin Ho Hl HL. destruct (bool_decide_reflect (sb_FIN_ sb = CtlSent)) as [E|E]; [|done]. cbn [andb].
  destruct (Hfin E) as [-> HL2]. unfold seq_equal.
  rewrite <- Z.add_assoc, u32_u32_add, !u32_u32_sub.
  set (i := tcb_initial tcb). set (u := tcb_unack tcb). set (L := zlen _) in *.
  destruct (Z.eqb_spec (off + len) L) as [<-|Hne].
  - apply Z.eqb_eq. f_equal. lia.
  - apply Z.eqb_neq. intros Eu. apply Hne.
    assert (u32 (u32 (u + L + 1 - i) - u32 (u + off + (len + 1) - i)) = 0) as E0.
    { rewrite Eu, Z.sub_diag. done. }
    rewrite u32_u32_sub, u32_sub_u32 in E0.
    replace (u + L + 1 - i - (u + off + (len + 1) - i)) with (L - (off + len)) in E0 by lia.
    rewrite u32_small in E0 by word. lia.
Qed.

(** One more round in front: a chunk of [d] at [b], then what the rest sends. *)
Lemma sends_cons sb tcb fin b d n segs :
  0 <= b -> b + zlen d <= zlen (sb_contents sb) -> zlen d <= kMaxSegmentSize ->
  d = ztake (zlen d) (zdrop b (sb_contents sb)) ->
  sends sb tcb fin (b + zlen d) n segs \/ (segs = [] /\ n = b + zlen d) ->
  (fin = true -> n = zlen (sb_contents sb) -> b + zlen d < kMaxBytesInFlight \/ b + zlen d = n) ->
  sends sb tcb fin b n
    (in_segment sb tcb b (tx_flags fin (zlen (sb_contents sb)) b (zlen d)) d :: segs).
Proof.
  intros Hb HL Hd Ed Hrest Hn.
  assert (chunk_at sb tcb fin b d
    (in_segment sb tcb b (tx_flags fin (zlen (sb_contents sb)) b (zlen d)) d)) as Hch by done.
  destruct Hrest as [[Hc Ha Hf]|[-> ->]].
  2: { split; [by repeat constructor; exists b, d| |]; intros; exists b, d; eexists;
         (split; [by left|]); (split; [done|lia]). }
  split.
  - constructor; [by exists b, d|done].
  - intros i Hi. destruct (Z.lt_decidable i (b + zlen d)).
    + exists b, d. eexists. split; [by left|]. split; [done|lia].
    + destruct (Ha i ltac:(lia)) as (off & d' & s & ? & ?). exists off, d', s. split; [by right|done].
  - intros Efin En Hlt. destruct (Hn Efin En) as [Hw|Hw].
    + destruct (Hf Efin En Hw) as (off & d' & s & ? & ?). exists off, d', s. split; [by right|done].
    + exists b, d. eexists. split; [by left|]. split; [done|lia].
Qed.
Lemma sends_nil sb tcb fin b :
  (fin = true -> b = zlen (sb_contents sb) -> kMaxBytesInFlight <= b) -> sends sb tcb fin b b [].
Proof. intros Hn. split; [done|lia|]. intros E1 E2 ?. specialize (Hn E1 E2). lia. Qed.

(** The bytes of the next segment, [bif] bytes being in flight. *)
Definition next_chunk (sb : SendBuffer) (bif : Z) : list Z :=
  ztake kMaxSegmentSize (zdrop bif (sb_contents sb)).
Lemma next_chunk_ok sb bif (d := next_chunk sb bif) :
  0 <= bif <= zlen (sb_contents sb) ->
  zlen d = Z.min kMaxSegmentSize (zlen (sb_contents sb) - bif) /\
  d = ztake (zlen d) (zdrop bif (sb_contents sb)).
Proof.
  intros Hb. assert (zlen d = Z.min kMaxSegmentSize (zlen (sb_contents sb) - bif)) as Hd
    by (unfold d, next_chunk, kMaxSegmentSize; rewrite zlen_take, zlen_drop; lia).
  split; [done|]. unfold d at 1, next_chunk. rewrite <- ztake_min. f_equal. rewrite Hd, zlen_drop. lia.
Qed.

(** One round of the loop. *)
Lemma transmit_loop_round fuel sb tcb e q bif (d := next_chunk sb bif)
  (seg := in_segment sb tcb bif (tx_flags (is_fin sb) (zlen (sb_contents sb)) bif (zlen d)) d) :
  tx_ok sb tcb -> fin_ok sb tcb -> 0 <= bif <= zlen (sb_contents sb) -> bif < kMaxBytesInFlight ->
  zlen q < kMaxQueueLength ->
  transmit_loop Debug (S fuel) (mock_st (sb_put_bif bif sb) tcb e q)
  = if zlen d =? 0 then
      Ret (Some (mock_st (sb_put_bif bif sb) tcb e (q ++ if is_fin sb then [seg] else [])))
    else transmit_loop Debug fuel (mock_st (sb_put_bif (bif + zlen d) sb) tcb e (q ++ [seg])).
Proof.
  intros Htx Hfin Hbif Hlt Hq. destruct (next_chunk_ok sb bif Hbif) as [Hd _]. fold d in Hd.
  cbn [transmit_loop mock_st ss_sb ss_tcb sb_put_bif sb_bytes_in_flight_ sb_FIN_ sb_buffer_ sb_segment_factory_].
  rewrite (proj2 (Z.ltb_lt _ _) Hlt).
  rewrite RingBuffer_read_offset_spec by (apply Htx || (unfold kMaxSegmentSize; word) || done). cbn [obind].
  fold (sb_contents sb). fold (next_chunk sb bif). fold d.
  unfold kMaxBytesInFlight, kMaxSegmentSize in *. pose proof (zlen_nonneg d) as Hd0.
  rewrite fin_test by (done || lia). rewrite u64_small by word.
  set (f := is_fin sb && (bif + zlen d =? zlen (sb_contents sb))).
  assert (zlen d = 0 -> f = is_fin sb) as Hf0
    by (intros E; unfold f; rewrite (proj2 (Z.eqb_eq _ _)) by lia; by rewrite andb_true_r).
  change (SendBuffer_sendSegment Debug _ _) with
    (SendBuffer_sendSegment Debug (out_segment sb tcb bif (if f then Z.lor ACK FIN else ACK) d)
       (mock_st (sb_put_bif (bif + zlen d) sb) tcb e q)).
  rewrite send_chunk; [|done|by destruct f|by eapply sb_contents_bytes|unfold kMaxSegmentSize; lia|done].
  change (if f then Z.lor ACK FIN else ACK) with (tx_flags (is_fin sb) (zlen (sb_contents sb)) bif (zlen d)).
  fold seg. cbn [obind negb].
  destruct (Z.eqb_spec (zlen d) 0) as [E|E]; [|by rewrite andb_false_r].
  rewrite (Hf0 E), E, Z.add_0_r. destruct (is_fin sb); cbn [negb andb DCHECK obind]; by rewrite ?app_nil_r.
Qed.

Lemma transmit_loop_sends fuel sb tcb e q :
  tx_ok sb tcb -> fin_ok sb tcb ->
  0 <= sb_bytes_in_flight_ sb <= zlen (sb_contents sb) ->
  (sb_bytes_in_flight_ sb = zlen (sb_contents sb) /\ (1 <= fuel)%nat /\ zlen q < kMaxQueueLength) \/
  (kMaxBytesInFlight - sb_bytes_in_flight_ sb <= kMaxSegmentSize * (Z.of_nat fuel - 2) /\
   (2 <= fuel)%nat /\ zlen q + Z.of_nat fuel - 1 <= kMaxQueueLength) ->
  let n := fill (sb_bytes_in_flight_ sb) (zlen (sb_contents sb)) in
  exists segs,
    transmit_loop Debug fuel (mock_st sb tcb e q)
      = Ret (Some (mock_st (sb_put_bif n sb) tcb e (q ++ segs))) /\
    sends sb tcb (is_fin sb) (sb_bytes_in_flight_ sb) n segs.
Proof.
  unfold kMaxQueueLength. intros Htx Hfin.
  remember (sb_bytes_in_flight_ sb) as bif eqn:Eb.
  assert (sb = sb_put_bif bif sb) as Esb by (by subst; destruct sb).
  replace (mock_st sb tcb e q) with (mock_st (sb_put_bif bif sb) tcb e q) by (by rewrite <- Esb).
  clear Eb Esb. revert bif q. induction fuel as [|fuel IH]; intros bif q Hbif Hfuel; cbn zeta; [lia|].
  destruct (Z.lt_decidable bif kMaxBytesInFlight) as [Hlt|Hge].
  2: { exists []. rewrite app_nil_r, fill_full by lia.
       cbn [transmit_loop mock_st ss_sb ss_tcb sb_put_bif sb_bytes_in_flight_].
       rewrite (proj2 (Z.ltb_ge _ _)) by lia. split; [done|]. apply sends_nil. lia. }
  rewrite transmit_loop_round by (done || (unfold kMaxQueueLength; lia)).
  destruct (next_chunk_ok sb bif Hbif) as [Hd Ed]. set (d := next_chunk sb bif) in *.
  pose proof (fill_step bif (zlen (sb_contents sb)) Hlt ltac:(lia)) as Hstep. rewrite <- Hd in Hstep.
  unfold kMaxBytesInFlight, kMaxSegmentSize in *. pose proof (zlen_nonneg d) as Hd0.
  destruct (Z.eqb_spec (zlen d) 0) as [E0|E0].
  { assert (bif = zlen (sb_contents sb)) as EL by lia. assert (fill bif (zlen (sb_contents sb)) = bif) as ->
      by (rewrite EL; apply fill_all). eexists. split; [done|].
    destruct (is_fin sb); [|by apply sends_nil].
    apply sends_cons; try done; unfold kMaxSegmentSize; try lia. right. split; [done|lia]. }
  destruct (IH (bif + zlen d) (q ++ [in_segment sb tcb bif
    (tx_flags (is_fin sb) (zlen (sb_contents sb)) bif (zlen d)) d])) as (segs & -> & Hs).
  { lia. }
  { rewrite zlen_app. change (zlen [_]) with 1.
    destruct (Z.eq_dec (bif + zlen d) (zlen (sb_contents sb))); [left|right]; lia. }
  eexists. rewrite <- app_assoc, Hstep in *. split; [done|].
  apply sends_cons; try done; unfold kMaxSegmentSize, kMaxBytesInFlight in *; try lia; [by left|].
  intros _ EL. destruct (Z.lt_decidable (bif + zlen d) (1460 * 10)); [by left|right].
  rewrite <- Hstep. symmetry. apply fill_full. unfold kMaxBytesInFlight, kMaxSegmentSize. lia.
Qed.

Lemma transmit_sends sb tcb e q :
  tx_ok sb tcb -> fin_ok sb tcb -> sb_SYN_ sb = CtlAcked ->
  0 <= sb_bytes_in_flight_ sb <= zlen (sb_contents sb) -> zlen q <= 5 ->
  let n := fill (sb_bytes_in_flight_ sb) (zlen (sb_contents sb)) in
  exists segs,
    SendBuffer_transmit Debug (mock_st sb tcb e q) = Ret (mock_st (sb_put_bif n sb) tcb e (q ++ segs)) /\
    sends sb tcb (is_fin sb) (sb_bytes_in_flight_ sb) n segs.
Proof.
  intros Htx Hfin Hsyn Hbif Hq.
  destruct (transmit_loop_sends transmit_fuel sb tcb e q Htx Hfin Hbif) as (segs & E & Hs).
  { right. unfold transmit_fuel, kMaxBytesInFlight, kMaxSegmentSize, kMaxQueueLength. lia. }
  exists segs. split; [|done]. unfold SendBuffer_transmit. cbn [mock_st ss_sb]. rewrite Hsyn.
  fold (mock_st sb tcb e q). by rewrite E.
Qed.

(** ** The abstract stream

    What the application wrote, how much of it the peer has acknowledged, how much more
    counts as in flight (less than nothing, when the peer acknowledges bytes from before
    a timeout) and how far it was ever sent, whether the end was announced and
    acknowledged, the clock, and when the retransmission alarm is due. *)
Record stream : Type := mkStream {
  sm_bytes : list Z;
  sm_acked : Z;
  sm_flight : Z;
  sm_sent : Z;
  sm_fin : CtlState;
  sm_now : Z;
  sm_alarm : option Z
}.
Definition sm_left (sm : stream) : Z := zlen (sm_bytes sm) - sm_acked sm.

Ltac sm_cbn :=
  unfold sm_left in *; cbn [sm_bytes sm_acked sm_flight sm_sent sm_fin sm_now sm_alarm] in *.

(** [EvAck k] acknowledges [k] sequence numbers from the first unacknowledged one. *)
Inductive send_event : Type :=
  | EvData (d : list Z)
  | EvAck (k : Z)
  | EvFIN
  | EvTimeout
  | EvClock (t : Z).

(** [update] of the alarm to a second from now, with its granularity. *)
Definition spec_update (sm : stream) : option Z :=
  let d := sm_now sm + 1000000 in
  if Z.abs (d - default 0 (sm_alarm sm)) <? 1000 then sm_alarm sm else Some d.

(** [cap]: the size of the buffer. *)
Definition spec_event (cap : Z) (ev : send_event) (sm : stream) : stream :=
  let '(mkStream bytes acked flight sent fin now alarm) := sm in
  match ev with
  | EvData d =>
      let bytes := bytes ++ ztake (Z.min (zlen d) (cap - sm_left sm)) d in
      let flight := if sm_left sm =? cap then flight else refill flight (zlen bytes - acked) in
      mkStream bytes acked flight (Z.max sent (acked + flight)) fin now alarm
  | EvAck k =>
      if bool_decide (fin = CtlSent) && (k =? sm_left sm + 1) then
        mkStream bytes (zlen bytes) 0 sent CtlAcked now None
      else
        let flight' := if 0 <? k then refill (flight - k) (sm_left sm - k) else flight in
        mkStream bytes (acked + k) flight' (Z.max sent (acked + k + flight')) fin now
          (if flight - k =? 0 then spec_update sm else alarm)
  | EvFIN => mkStream bytes acked flight sent CtlSent now alarm
  | EvTimeout =>
      match alarm with
      | Some d =>
          if d <=? now then
            let flight := fill 0 (sm_left sm) in
            mkStream bytes acked flight (Z.max sent (acked + flight)) fin now (Some (now + 1000000))
          else sm
      | None => sm
      end
  | EvClock t => mkStream bytes acked flight sent fin t alarm
  end.
Definition spec_events (cap : Z) (evs : list send_event) (sm : stream) : stream :=
  foldl (fun sm ev => spec_event cap ev sm) sm evs.

(** The events a connection may meet: data before the end is announced, while the
    contents of the ring do not pass the end of its block or it is full, and 2^32
    bytes in all; acknowledgments, not older than the last one, of what was ever sent, or
    of all the data, all of which was sent, and the FIN; one FIN; a clock that does not go
    back. *)
Definition event_ok (cap : Z) (ev : send_event) (sm : stream) : Prop :=
  match ev with
  | EvData d => byte_list d /\ sm_fin sm = CtlNone /\ zlen (sm_bytes sm) + zlen d + 2 < 4294967296 /\
      (sm_acked sm mod cap + sm_left sm < cap \/ sm_left sm = cap)
  | EvAck k => sm_fin sm <> CtlAcked /\ 0 <= k /\
      (sm_acked sm + k <= sm_sent sm \/
       (sm_fin sm = CtlSent /\ sm_sent sm = zlen (sm_bytes sm) /\ k = sm_left sm + 1))
  | EvFIN => sm_fin sm = CtlNone
  | EvTimeout => True
  | EvClock t => sm_now sm <= t < 4611686018427387904
  end.
Fixpoint events_ok (cap : Z) (evs : list send_event) (sm : stream) : Prop :=
  match evs with
  | [] => True
  | ev :: evs => event_ok cap ev sm /\ events_ok cap evs (spec_event cap ev sm)
  end.

#[global] Instance event_ok_dec cap ev sm : Decision (event_ok cap ev sm).
Proof. destruct ev; cbn [event_ok]; unfold byte_list; apply _. Defined.
#[global] Instance events_ok_dec cap evs sm : Decision (events_ok cap evs sm).
Proof. revert sm. induction evs as [|ev evs IH]; intros sm; cbn [events_ok]; apply _. Defined.

(** The invariant of the stream: the window is used as far as there is data, but for the
    time between an acknowledgment of more than counts as in flight and the next timeout;
    it is never exceeded by a whole segment, and until the FIN is acknowledged the alarm
    is armed, at most a second (and the granularity of [update]) ahead. *)
Record stream_ok (cap : Z) (sm : stream) : Prop := {
  sk_acked : 0 <= sm_acked sm <= zlen (sm_bytes sm);
  sk_size : zlen (sm_bytes sm) + 2 < 4294967296;
  sk_cap : sm_left sm <= cap;
  sk_flight : - sm_acked sm <= sm_flight sm <= sm_left sm;
  sk_sent : sm_acked sm <= sm_sent sm <= zlen (sm_bytes sm) /\ sm_acked sm + sm_flight sm <= sm_sent sm;
  sk_window : sm_flight sm < 0 \/ sm_flight sm = sm_left sm \/ kMaxBytesInFlight <= sm_flight sm;
  sk_limit : sm_flight sm < kMaxBytesInFlight + kMaxSegmentSize;
  sk_now : 0 < sm_now sm < 4611686018427387904;
  sk_alarm : match sm_alarm sm with
             | Some d => sm_fin sm <> CtlAcked /\ 0 < d < sm_now sm + 1001000
             | None => sm_fin sm = CtlAcked /\ sm_left sm = 0
             end
}.

Lemma zlen_accepted cap sm (d : list Z) :
  stream_ok cap sm ->
  zlen (ztake (Z.min (zlen d) (cap - sm_left sm)) d) = Z.min (zlen d) (cap - sm_left sm).
Proof. intros []. pose proof (zlen_nonneg d). rewrite zlen_take. lia. Qed.

Lemma spec_event_ok cap ev sm : stream_ok cap sm -> event_ok cap ev sm -> stream_ok cap (spec_event cap ev sm).
Proof.
  intros Hsm. pose proof (fun d => zlen_accepted cap sm d Hsm) as Hacc.
  destruct Hsm as [Ha Hs Hc Hf Ht Hw Hl Hn Hal], sm as [bytes acked flight sent fin now alarm].
  sm_cbn. destruct ev as [d|k| | |t]; cbn [event_ok spec_event]; sm_cbn.
  - intros (Hd & -> & Hz & Hwr). specialize (Hacc d). pose proof (zlen_nonneg d).
    destruct (Z.eqb_spec (zlen bytes - acked) cap) as [E|E].
    + rewrite E, Z.sub_diag, ztake_0, app_nil_r, Z.max_l by lia. by split.
    + set (bytes' := bytes ++ _). assert (zlen bytes' = zlen bytes + Z.min (zlen d) (cap - (zlen bytes - acked)))
        as Hb' by (unfold bytes'; rewrite zlen_app; lia).
      destruct (refill_range flight (zlen bytes' - acked)) as (? & ? & ?); [lia|].
      split; sm_cbn; try done; try lia. destruct alarm; [done|]. by destruct Hal.
  - intros (Hfin & Hk0 & Hk).
    destruct (bool_decide (fin = CtlSent) && (k =? zlen bytes - acked + 1)) eqn:Ef.
    + destruct Hk as [?|(_ & -> & _)]; [apply andb_true_iff in Ef as [_ ?%Z.eqb_eq]; lia|].
      split; sm_cbn; try done; try lia. split; [done|lia].
    + assert (acked + k <= sent) as Hk'.
      { destruct Hk as [?|(-> & _ & ->)]; [done|]. by rewrite Z.eqb_refl, bool_decide_true in Ef. }
      destruct alarm as [d|]; [|by destruct Hal].
      destruct (refill_range (flight - k) (zlen bytes - acked - k)) as (? & ? & ?); [lia|].
      split; sm_cbn; try done; try lia; try (destruct (Z.ltb_spec 0 k); lia).
      unfold spec_update. sm_cbn.
      destruct (flight - k =? 0); [|exact Hal]. cbn [default].
      destruct (_ <? 1000); [exact Hal|split; [apply Hal|lia]].
  - intros ->. split; sm_cbn; try done. destruct alarm; [split; [done|apply Hal]|]. by destruct Hal.
  - intros _. destruct alarm as [d|]; [|by split]. destruct (Z.leb_spec d now); [|by split].
    destruct (fill_range 0 (zlen bytes - acked)) as (? & ? & ?); [lia|].
    split; unfold kMaxBytesInFlight, kMaxSegmentSize in *; sm_cbn; try done; try lia. split; [apply Hal|lia].
  - intros Ht'. split; sm_cbn; try done; try lia. destruct alarm; [|done].
    split; [apply Hal|lia].
Qed.

(** ** The events on the code *)

(** The alarms of the world, seen from the state of a buffer: [Alarm_fire] then runs
    the delegate of the buffer on that state. *)
#[global] Instance SendState_alarms {W : Type} `{AlarmImpl W} : AlarmImpl (SendState W) := {|
  alarm_deadline a st := alarm_deadline a (ss_world st);
  alarm_put_deadline a d st := w <- alarm_put_deadline a d (ss_world st) ;; Ret (ss_put_world w st);
  alarm_setImpl a st := w <- alarm_setImpl a (ss_world st) ;; Ret (ss_put_world w st);
  alarm_cancelImpl a st := w <- alarm_cancelImpl a (ss_world st) ;; Ret (ss_put_world w st)
|}.

(** One round of [runAlarmEvent] when the first node of the map is that of the
    retransmission alarm: it is fired, then its node is removed. *)
Definition retransmission_event (st : SendState MockWorld) : outcome (SendState MockWorld) :=
  match es_alarm_map_ (ss_world st).1 with
  | [] => Ret st
  | en :: _ =>
      if bool_decide (en_alarm en = sb_retransmission_alarm_ (ss_sb st))
         && TimeBase_geb (EpollServer_now (ss_world st).1) (mkTimeBase (en_deadline en)) then
        st <- Alarm_fire (fun _ => SendBuffer_retransmit Debug) (en_alarm en) st ;;
        e <- EpollServer_unregisterAlarm (en_token en) (ss_world st).1 ;;
        Ret (ss_put_world (e, (ss_world st).2) st)
      else Ret st
  end.

Definition run_event (ev : send_event) (st : SendState MockWorld) : outcome (SendState MockWorld) :=
  match ev with
  | EvData d => let* (_, st) := SendBuffer_sendData Debug d (zlen d) st in Ret st
  | EvAck k => SendBuffer_acknowledge Debug (u32 (tcb_unack (ss_tcb st) + k)) st
  | EvFIN => SendBuffer_sendFIN Debug st
  | EvTimeout => retransmission_event st
  | EvClock t => Ret (ss_put_world (es_put_now (mkTimeBase t) (ss_world st).1, (ss_world st).2) st)
  end.

(** The network takes what was queued after every event; the segments of a run in
    the order in which they were sent. *)
Fixpoint run_events (evs : list send_event) (st : SendState MockWorld)
  : outcome (list Segment * SendState MockWorld) :=
  match evs with
  | [] => Ret ([], st)
  | ev :: evs =>
      st <- run_event ev st ;;
      let* (segs, st') := run_events evs (ss_put_world ((ss_world st).1, []) st) in
      Ret ((ss_world st).2 ++ segs, st')
  end.

(** ** The abstraction relation *)
Definition alarm_of (sm : stream) (a : AlarmId) : gmap AlarmId Z :=
  match sm_alarm sm with Some d => {[a := d]} | None => ∅ end.

Record conn_refines (cap initial : Z) (sm : stream) (sb : SendBuffer) (tcb : ControlBlock)
  (e : EpollServer) : Prop := {
  cr_ok : stream_ok cap sm;
  cr_tx : tx_ok sb tcb;
  cr_cap : rb_size_ (sb_buffer_ sb) = cap;
  cr_begin : sm_fin sm = CtlNone -> rb_begin_ (sb_buffer_ sb) = sm_acked sm mod cap;
  cr_syn : sb_SYN_ sb = CtlAcked;
  cr_fin : sb_FIN_ sb = sm_fin sm;
  cr_bytes : sb_contents sb = zdrop (sm_acked sm) (sm_bytes sm);
  cr_flight : sm_fin sm <> CtlAcked -> sb_bytes_in_flight_ sb = u64 (sm_flight sm);
  cr_initial : tcb_initial tcb = initial;
  cr_unack : tcb_unack tcb =
    u32 (initial + 1 + sm_acked sm + if decide (sm_fin sm = CtlAcked) then 1 else 0);
  cr_next : tcb_next tcb =
    u32 (initial + 1 + zlen (sm_bytes sm) + if decide (sm_fin sm = CtlNone) then 0 else 1);
  cr_inv : es_inv None e;
  cr_now : time_ (es_now_ e) = sm_now sm;
  cr_armed : armed e = alarm_of sm (sb_retransmission_alarm_ sb)
}.

(** A segment with the bytes of the stream from [off] on, that bears their sequence
    number, and a FIN only at the end of a stream that is closed. *)
Definition seg_at (initial : Z) (sm : stream) (off : Z) (s : Segment) : Prop :=
  0 <= off /\ off + zlen (seg_payload s) <= zlen (sm_bytes sm) /\
  zlen (seg_payload s) <= kMaxSegmentSize /\
  seg_sequence_ s = u32 (initial + 1 + off) /\
  seg_payload s = ztake (zlen (seg_payload s)) (zdrop off (sm_bytes sm)) /\
  (seg_flags_ s = ACK \/
   seg_flags_ s = Z.lor ACK FIN /\ sm_fin sm <> CtlNone /\
   off + zlen (seg_payload s) = zlen (sm_bytes sm)).

(** [segs] are segments of the stream and carry all that was sent for the first time
    between the two states. *)
Record emits (initial : Z) (sm sm' : stream) (segs : list Segment) : Prop := {
  em_segs s : s ∈ segs -> exists off, seg_at initial sm' off s;
  em_all i : sm_sent sm <= i < sm_sent sm' ->
    exists off s, s ∈ segs /\ seg_at initial sm' off s /\ off <= i < off + zlen (seg_payload s)
}.

Lemma in_segment_payload sb tcb off flags d : seg_payload (in_segment sb tcb off flags d) = d.
Proof.
  unfold in_segment, received, out_segment, seg_payload. cbn.
  by rewrite !ztake_all by (rewrite ?ztake_all; lia).
Qed.

Lemma chunk_seg_at initial sm sb tcb off d s :
  sb_contents sb = zdrop (sm_acked sm) (sm_bytes sm) -> sb_FIN_ sb = sm_fin sm ->
  0 <= sm_acked sm <= zlen (sm_bytes sm) -> tcb_unack tcb = u32 (initial + 1 + sm_acked sm) ->
  chunk_at sb tcb (is_fin sb) off d s ->
  seg_payload s = d /\ seg_at initial sm (sm_acked sm + off) s.
Proof.
  intros Hc Hfin Ha Hu (-> & Ho & HL & Hd & Ed). rewrite in_segment_payload. split; [done|].
  unfold seg_at. rewrite in_segment_payload. rewrite Hc, zlen_drop in HL.
  pose proof (zlen_nonneg d). split_and!; try done; try lia.
  - cbn. rewrite Hu, u32_u32_add. f_equal. lia.
  - rewrite Ed at 1. by rewrite Hc, zdrop_zdrop by lia.
  - cbn. unfold tx_flags. rewrite Hc, zlen_drop, Hfin.
    destruct (bool_decide_reflect (sm_fin sm = CtlSent)) as [E|E]; cbn [andb]; [|by left].
    destruct (Z.eqb_spec (off + zlen d) (Z.max 0 (zlen (sm_bytes sm) - Z.max 0 (sm_acked sm)))); [|by left].
    right. split; [done|]. split; [by rewrite E|lia].
Qed.

(** What [transmit] needs of the buffer and the control block, [b] bytes being in
    flight: all of [conn_refines] but the window. *)
Record ready (cap initial : Z) (sm : stream) (sb : SendBuffer) (tcb : ControlBlock) (b : Z) : Prop := {
  rd_tx : tx_ok sb tcb;
  rd_syn : sb_SYN_ sb = CtlAcked;
  rd_fin : sb_FIN_ sb = sm_fin sm;
  rd_open : sm_fin sm <> CtlAcked;
  rd_bytes : sb_contents sb = zdrop (sm_acked sm) (sm_bytes sm);
  rd_acked : 0 <= sm_acked sm <= zlen (sm_bytes sm);
  rd_size : zlen (sm_bytes sm) + 2 < 4294967296;
  rd_unack : tcb_unack tcb = u32 (initial + 1 + sm_acked sm);
  rd_next : tcb_next tcb =
    u32 (initial + 1 + zlen (sm_bytes sm) + if decide (sm_fin sm = CtlNone) then 0 else 1);
  rd_flight : sb_bytes_in_flight_ sb = u64 b;
  rd_range : - 4294967296 < b <= sm_left sm
}.

Lemma ready_left cap initial sm sb tcb b : ready cap initial sm sb tcb b -> zlen (sb_contents sb) = sm_left sm.
Proof. intros []. unfold sm_left. rewrite rd_bytes0, zlen_drop. lia. Qed.

Lemma ready_fin_ok cap initial sm sb tcb b : ready cap initial sm sb tcb b -> fin_ok sb tcb.
Proof.
  intros H Hs. rewrite (ready_left _ _ _ _ _ _ H). destruct H. unfold sm_left. split; [|lia].
  rewrite rd_next0, rd_unack0, <- (Z.add_assoc (u32 _)), u32_u32_add. rewrite decide_False by congruence.
  f_equal. lia.
Qed.

Lemma transmit_emits cap initial sm sb tcb e b :
  ready cap initial sm sb tcb b ->
  exists segs,
    SendBuffer_transmit Debug (mock_st sb tcb e [])
      = Ret (mock_st (sb_put_bif (u64 (refill b (sm_left sm))) sb) tcb e segs) /\
    (forall s, s ∈ segs -> exists off, seg_at initial sm off s) /\
    (forall i, sm_acked sm + b <= i < sm_acked sm + refill b (sm_left sm) ->
      exists off s, s ∈ segs /\ seg_at initial sm off s /\ off <= i < off + zlen (seg_payload s)).
Proof.
  intros H. pose proof (ready_left _ _ _ _ _ _ H) as HL. pose proof (ready_fin_ok _ _ _ _ _ _ H) as Hf.
  destruct H as [Htx Hsyn Hfin Hop Hb Ha Hs Hu Hn Hfl Hr]. unfold sm_left in *.
  destruct (Z.lt_ge_cases b 0) as [Hneg|Hpos].
  { rewrite refill_neg by done. exists []. rewrite <- Hfl. split; [|split].
    - rewrite transmit_full; [by destruct sb|done|]. rewrite Hfl, u64_neg by lia.
      unfold kMaxBytesInFlight, kMaxSegmentSize. lia.
    - intros s Hs'. by apply not_elem_of_nil in Hs'.
    - lia. }
  rewrite refill_pos by done. destruct (fill_range b (zlen (sm_bytes sm) - sm_acked sm)) as (? & _); [lia|].
  rewrite u64_small in Hfl by word.
  destruct (transmit_sends sb tcb e [] Htx Hf Hsyn) as (segs & E & [Hc Hall _]); [lia|done|].
  rewrite Hfl, HL in *. exists segs. rewrite u64_small by word. split; [exact E|]. split.
  - intros s Hin. rewrite Forall_forall in Hc. destruct (Hc s Hin) as (off & d & Hch).
    eexists. by eapply chunk_seg_at.
  - intros i Hi. destruct (Hall (i - sm_acked sm) ltac:(lia)) as (off & d & s & Hin & Hch & ?).
    eapply chunk_seg_at in Hch as [Ed Hat]; try done. exists (sm_acked sm + off), s.
    rewrite Ed. split; [done|]. split; [done|lia].
Qed.

(** ... and the whole relation, once the window is known. *)
Lemma ready_refines cap initial sm sb tcb b e :
  ready cap initial sm sb tcb b -> stream_ok cap sm -> rb_size_ (sb_buffer_ sb) = cap ->
  (sm_fin sm = CtlNone -> rb_begin_ (sb_buffer_ sb) = sm_acked sm mod cap) ->
  tcb_initial tcb = initial -> es_inv None e -> time_ (es_now_ e) = sm_now sm ->
  armed e = alarm_of sm (sb_retransmission_alarm_ sb) ->
  conn_refines cap initial sm (sb_put_bif (u64 (sm_flight sm)) sb) tcb e.
Proof.
  intros [] Hok Hcap Hbeg Hini Hinv Hnow Har. split; try done.
  - destruct rd_tx0. by split.
  - by rewrite decide_False, Z.add_0_r by done.
Qed.
Lemma transmit_refines cap initial sm sb tcb b e :
  ready cap initial sm sb tcb b -> stream_ok cap sm -> sm_flight sm = refill b (sm_left sm) ->
  rb_size_ (sb_buffer_ sb) = cap ->
  (sm_fin sm = CtlNone -> rb_begin_ (sb_buffer_ sb) = sm_acked sm mod cap) ->
  tcb_initial tcb = initial -> es_inv None e -> time_ (es_now_ e) = sm_now sm ->
  armed e = alarm_of sm (sb_retransmission_alarm_ sb) ->
  exists segs,
    SendBuffer_transmit Debug (mock_st sb tcb e []) = Ret (mock_st (sb_put_bif (u64 (sm_flight sm)) sb) tcb e segs) /\
    conn_refines cap initial sm (sb_put_bif (u64 (sm_flight sm)) sb) tcb e /\
    forall sm0, sm_acked sm + b <= sm_sent sm0 ->
      sm_sent sm = Z.max (sm_sent sm0) (sm_acked sm + sm_flight sm) -> emits initial sm0 sm segs.
Proof.
  intros Hrd Hok Hf Hcap Hbeg Hini Hinv Hnow Har.
  destruct (transmit_emits cap initial sm sb tcb e b Hrd) as (segs & E & Hseg & Hall). rewrite <- Hf in *.
  exists segs. split; [done|]. split; [by eapply ready_refines|].
  intros sm0 H0 Hsent. split; [done|]. intros i Hi. apply Hall. lia.
Qed.

(** An alarm that is armed may be armed again, updated and cancelled. *)
Lemma armed_alarm_ok e a d :
  es_inv None e -> clock_ok e -> armed e !! a = Some d -> 0 <= d <= kInfiniteTimeUs -> alarm_ok e a.
Proof.
  intros Hinv Hck Hl Hd. split; [done|]. split; [done|]. unfold armed in Hl. rewrite lookup_omap in Hl.
  destruct (es_alarms e !! a) as [al|]; [|done]. exists al. split; [done|].
  cbn in Hl. unfold al_armed in Hl. destruct (Z.eqb_spec (time_ (ea_deadline_ al)) 0); [done|].
  by injection Hl as ->.
Qed.

(** The alarm of an open connection. *)
Lemma conn_alarm_ok cap initial sm sb tcb e :
  conn_refines cap initial sm sb tcb e -> sm_fin sm <> CtlAcked ->
  alarm_ok e (sb_retransmission_alarm_ sb) /\
  exists d, sm_alarm sm = Some d /\ armed e = {[sb_retransmission_alarm_ sb := d]}.
Proof.
  intros [Hok _ _ _ _ _ _ _ _ _ _ Hinv Hnow Har] Hfin. destruct Hok as [_ _ _ _ _ _ _ Hck Hal].
  unfold alarm_of in Har. destruct (sm_alarm sm) as [d|] eqn:E; [|by destruct Hal].
  split; [|by exists d]. apply (armed_alarm_ok e _ d); [done|unfold clock_ok; lia| |unfold kInfiniteTimeUs; lia].
  by rewrite Har, lookup_singleton_eq.
Qed.

(** ** Every event *)
Definition event_refines (cap initial : Z) (ev : send_event) (sm : stream) (sb : SendBuffer)
  (tcb : ControlBlock) (e : EpollServer) : Prop :=
  exists segs sb' tcb' e',
    run_event ev (mock_st sb tcb e []) = Ret (mock_st sb' tcb' e' segs) /\
    conn_refines cap initial (spec_event cap ev sm) sb' tcb' e' /\
    sb_retransmission_alarm_ sb' = sb_retransmission_alarm_ sb /\
    emits initial sm (spec_event cap ev sm) segs.

Lemma emits_none initial sm sm' :
  sm_sent sm' <= sm_sent sm -> emits initial sm sm' [].
Proof. intros. split; [intros s Hs; by apply not_elem_of_nil in Hs|lia]. Qed.

Lemma data_refines cap initial sm sb tcb e d :
  conn_refines cap initial sm sb tcb e -> event_ok cap (EvData d) sm ->
  event_refines cap initial (EvData d) sm sb tcb e.
Proof.
  intros Hcr Hev. pose proof (spec_event_ok cap (EvData d) sm (cr_ok _ _ _ _ _ _ Hcr) Hev) as Hok'.
  pose proof (zlen_accepted cap sm d (cr_ok _ _ _ _ _ _ Hcr)) as Hacc.
  destruct Hcr as [Hok Htx Hcap Hbeg Hsyn Hfin Hby Hfl Hini Hun Hnx Hinv Hnow Har].
  destruct Hev as (Hd & Hnone & Hz & Hwrap). unfold event_refines. cbn [run_event].
  destruct sm as [bytes acked flight sent fin now alarm]. unfold sm_left in *.
  cbn [sm_bytes sm_acked sm_flight sm_sent sm_fin sm_now sm_alarm spec_event] in *. rewrite Hnone in *. clear fin Hnone.
  pose proof (zlen_nonneg d). pose proof (zlen_nonneg bytes). unfold sm_left in *. cbn [sm_bytes sm_acked] in *.
  assert (zlen (sb_contents sb) = zlen bytes - acked) as HL
    by (destruct Hok; cbn in *; rewrite Hby, zlen_drop; lia).
  unfold SendBuffer_sendData. cbn [mock_st ss_sb]. rewrite Hfin, bool_decide_true by done. cbn [DCHECK obind].
  rewrite (rb_full _ (tx_rb _ _ Htx)). fold (sb_contents sb). rewrite Hcap, HL.
  rewrite (Z.eqb_sym cap). destruct (Z.eqb_spec (zlen bytes - acked) cap) as [E|E].
  { assert (bytes ++ ztake (Z.min (zlen d) (cap - (zlen bytes - acked))) d = bytes) as Hsame
      by (rewrite ztake_0, app_nil_r by lia; done).
    assert (Z.max sent (acked + flight) = sent) as Hmax by (destruct Hok; sm_cbn; lia).
    rewrite Hsame, Hmax in *. exists [], sb, tcb, e. split; [done|].
    split; [by split|]. split; [done|]. by apply emits_none. }
  set (bytes' := bytes ++ _) in *.
  destruct (RingBuffer_write_spec Debug (sb_buffer_ sb) d (tx_rb _ _ Htx) Hd ltac:(word))
    as (rb' & Ew & Hrb & Hsz & Hcon).
  { left. pose proof (zlen_rb_contents _ (tx_rb _ _ Htx)). fold (sb_contents sb) in *.
    rewrite Hcap. rewrite (Hbeg eq_refl) in *. lia. }
  cbn zeta in *. fold (sb_contents sb) in *. rewrite Hcap, HL in *. rewrite Ew. cbn [obind].
  apply RingBuffer_write_begin in Ew.
  set (k := Z.min (zlen d) (cap - (zlen bytes - acked))) in *.
  set (sb1 := sb_put_buffer rb' sb). set (tcb1 := tcb_put_next (u32 (tcb_next tcb + k)) tcb).
  change (on_tcb _ _) with (mock_st sb1 tcb1 e []).
  change (SendBuffer_SYN_acked (ss_sb (mock_st sb1 tcb1 e []))) with (bool_decide (sb_SYN_ sb = CtlAcked)).
  rewrite Hsyn, bool_decide_true by done.
  assert (zlen bytes' = zlen bytes + k) as Hb' by (unfold bytes'; rewrite zlen_app, Hacc; done).
  set (sm' := mkStream bytes' acked (refill flight (zlen bytes' - acked)) _ CtlNone now alarm) in *.
  assert (ready cap initial sm' sb1 tcb1 flight) as Hrd.
  { destruct Hok. split; try done; subst sm'; sm_cbn; try lia; try (by apply Hfl).
    - destruct Htx. by split.
    - unfold sb_contents. cbn. rewrite Hcon, Hby. unfold bytes'. rewrite zdrop_app.
      rewrite (zdrop_0 (acked - zlen bytes)) by lia. done.
    - change (tcb_unack tcb1) with (tcb_unack tcb). rewrite Hun, decide_False by done. f_equal. lia.
    - change (tcb_next tcb1) with (u32 (tcb_next tcb + k)). rewrite Hnx, u32_u32_add, Hb'.
      rewrite !decide_True by done. f_equal. lia. }
  destruct (transmit_refines cap initial sm' sb1 tcb1 flight e Hrd) as (segs & -> & Hcr & Hem); try done.
  { intros _. cbn. rewrite Ew. by apply Hbeg. }
  cbn [obind]. eexists segs, _, tcb1, e. split; [done|]. split; [exact Hcr|]. split; [done|].
  apply Hem; [|done]. pose proof (sk_sent _ _ Hok) as Hst. subst sm'. sm_cbn. lia.
Qed.

(** The alarm after an acknowledgment that leaves nothing in flight. *)
Lemma update_armed sm a e :
  0 < sm_now sm -> time_ (es_now_ e) = sm_now sm -> armed e = alarm_of sm a ->
  spec_cmd (CmdUpdate a (second_later e) update_granularity) (armed e)
  = match spec_update sm with Some d => {[a := d]} | None => ∅ end.
Proof.
  intros Hpos Hnow Har. cbn [spec_cmd]. unfold second_later, spec_update. cbn [time_].
  change (1 * 1000000) with 1000000. change (time_offset_ update_granularity) with 1000. rewrite Hnow.
  destruct (Z.eqb_spec (sm_now sm + 1000000) 0); [lia|].
  assert (armed e !! a = sm_alarm sm) as ->.
  { rewrite Har. unfold alarm_of. destruct (sm_alarm sm); [apply lookup_singleton_eq|apply lookup_empty]. }
  destruct (_ <? 1000); [by rewrite Har|]. rewrite Har. unfold alarm_of.
  destruct (sm_alarm sm); [by rewrite insert_singleton_eq|done].
Qed.

(** The acknowledgment of buffered bytes. *)
Lemma spec_ack cap k sm :
  k <= sm_left sm ->
  let flight' := if 0 <? k then refill (sm_flight sm - k) (sm_left sm - k) else sm_flight sm in
  spec_event cap (EvAck k) sm = mkStream (sm_bytes sm) (sm_acked sm + k) flight'
    (Z.max (sm_sent sm) (sm_acked sm + k + flight'))
    (sm_fin sm) (sm_now sm) (if sm_flight sm - k =? 0 then spec_update sm else sm_alarm sm).
Proof.
  destruct sm. unfold sm_left. cbn [spec_event]. sm_cbn. intros Hk.
  destruct (Z.eqb_spec k (zlen sm_bytes0 - sm_acked0 + 1)); [lia|]. by rewrite andb_false_r.
Qed.
Lemma ack_refines cap initial sm sb tcb e k :
  conn_refines cap initial sm sb tcb e -> sm_fin sm <> CtlAcked -> 0 <= k -> sm_acked sm + k <= sm_sent sm ->
  event_refines cap initial (EvAck k) sm sb tcb e.
Proof.
  intros Hcr Hopen Hk0 Hk.
  assert (event_ok cap (EvAck k) sm) as Hev by (split; [done|]; split; [lia|]; left; lia).
  pose proof (spec_event_ok cap (EvAck k) sm (cr_ok _ _ _ _ _ _ Hcr) Hev) as Hok'.
  destruct (conn_alarm_ok _ _ _ _ _ _ Hcr Hopen) as (Hal & dl & Esm & Hsing).
  destruct Hcr as [Hok Htx Hcap Hbeg Hsyn Hfin Hby Hfl Hini Hun Hnx Hinv Hnow Har].
  pose proof (sk_acked _ _ Hok) as Hacked. pose proof (sk_size _ _ Hok) as Hsize.
  pose proof (sk_flight _ _ Hok) as Hflight. pose proof (sk_now _ _ Hok) as Hck. pose proof (sk_sent _ _ Hok) as Hsent.
  rewrite decide_False in Hun by done. rewrite Z.add_0_r in Hun. specialize (Hfl Hopen).
  assert (zlen (sb_contents sb) = sm_left sm) as HL by (rewrite Hby, zlen_drop; unfold sm_left; lia).
  unfold event_refines. cbn [run_event mock_st ss_tcb].
  destruct (acknowledge_step_any sb tcb e [] (1 + sm_acked sm) k (sm_flight sm))
    as (rb' & e' & E & Hrb & Hsz & Hcon & Hb & Hi' & Hn' & Har');
    try done; rewrite ?HL; unfold sm_left in *; try lia.
  { intros Es. split; [lia|]. rewrite Hnx, Hini, decide_False by congruence. f_equal. lia. }
  { rewrite Hun, Hini. f_equal. lia. }
  cbn zeta in E. rewrite Hini in E.
  replace (u32 (tcb_unack tcb + k)) with (u32 (initial + (1 + sm_acked sm) + k))
    by (rewrite Hun, u32_u32_add; f_equal; lia).
  replace (u32 (initial + (1 + sm_acked sm) + k)) with (u32 (initial + 1 + (sm_acked sm + k))) in * by (f_equal; lia).
  fold (mock_st sb tcb e []). rewrite E.
  set (tcb1 := tcb_put_unack _ tcb) in *.
  set (sb1 := sb_put_bif (u64 (sm_flight sm - k)) (sb_put_buffer rb' sb)) in *.
  rewrite spec_ack in * by (unfold sm_left; lia). set (sm' := mkStream _ _ _ _ _ _ _) in *.
  assert (ready cap initial sm' sb1 tcb1 (sm_flight sm - k)) as Hrd.
  { split; try done; subst sm'; sm_cbn; try lia.
    - destruct Htx. by split.
    - change (sb_contents sb1) with (rb_contents rb'). rewrite Hcon, Hby, zdrop_zdrop by lia. done. }
  assert (alarm_of sm' (sb_retransmission_alarm_ sb) = armed e') as Har2.
  { rewrite Har'. unfold alarm_of at 1. subst sm'. sm_cbn. destruct (_ =? 0); [|by rewrite Har].
    rewrite (update_armed sm) by (done || lia). done. }
  assert (sm_fin sm = CtlNone -> rb_begin_ rb' = (sm_acked sm + k) mod cap) as Hbeg'.
  { intros En. rewrite Hb, (Hbeg En), Hcap. by rewrite Zplus_mod_idemp_l. }
  destruct (Z.ltb_spec 0 k) as [Hpos|Hzero].
  - destruct (transmit_refines cap initial sm' sb1 tcb1 (sm_flight sm - k) e' Hrd) as (segs & -> & Hcr & Hem);
      try done; [|cbn; congruence|by rewrite Hn'|].
    { subst sm'. unfold sm_left. sm_cbn. f_equal. lia. }
    eexists segs, _, tcb1, e'. split; [done|]. split; [exact Hcr|]. split; [done|].
    apply Hem; [subst sm'; sm_cbn; lia|done].
  - assert (k = 0) as -> by lia. exists [], sb1, tcb1, e'. split; [done|]. split; [|split; [done|]].
    + replace sb1 with (sb_put_bif (u64 (sm_flight sm')) sb1) by (subst sb1 sm'; sm_cbn; by rewrite Z.sub_0_r).
      eapply ready_refines; try done; [cbn; congruence|by rewrite Hn'].
    + apply emits_none. subst sm'. sm_cbn. lia.
Qed.

(** The acknowledgment of everything and the FIN. *)
Lemma ack_FIN_refines cap initial sm sb tcb e :
  conn_refines cap initial sm sb tcb e -> sm_fin sm = CtlSent -> sm_sent sm = zlen (sm_bytes sm) ->
  event_refines cap initial (EvAck (sm_left sm + 1)) sm sb tcb e.
Proof.
  intros Hcr Hsent Hall.
  assert (event_ok cap (EvAck (sm_left sm + 1)) sm) as Hev.
  { pose proof (sk_acked _ _ (cr_ok _ _ _ _ _ _ Hcr)). split; [by rewrite Hsent|].
    split; [unfold sm_left; lia|by right]. }
  pose proof (spec_event_ok cap _ sm (cr_ok _ _ _ _ _ _ Hcr) Hev) as Hok'.
  destruct (conn_alarm_ok _ _ _ _ _ _ Hcr ltac:(by rewrite Hsent)) as (Hal & dl & Esm & Hsing).
  destruct Hcr as [Hok Htx Hcap _ Hsyn Hfin Hby Hfl Hini Hun Hnx Hinv Hnow _].
  pose proof (sk_acked _ _ Hok) as Hacked. pose proof (sk_size _ _ Hok) as Hsize.
  pose proof (sk_flight _ _ Hok) as Hflight.
  rewrite Hsent in *. specialize (Hfl ltac:(done)).
  rewrite decide_False in Hun by done. rewrite Z.add_0_r in Hun. rewrite decide_False in Hnx by done.
  assert (zlen (sb_contents sb) = sm_left sm) as HL by (rewrite Hby, zlen_drop; unfold sm_left; lia).
  unfold event_refines. cbn [run_event mock_st ss_tcb].
  destruct (acknowledge_FIN_step sb tcb e [] (1 + sm_acked sm) (sm_flight sm)) as (rb' & e' & E & Hrb & Hsz & Hcon & Hi' & Hn' & Har');
    try done; rewrite ?HL; unfold sm_left in *; try lia.
  { rewrite Hun, Hini. f_equal. lia. }
  { rewrite Hnx, Hini. f_equal. lia. }
  replace (u32 (tcb_unack tcb + (zlen (sm_bytes sm) - sm_acked sm + 1))) with (tcb_next tcb)
    by (rewrite Hnx, Hun, u32_u32_add; f_equal; lia).
  fold (mock_st sb tcb e []). rewrite E.
  assert (spec_event cap (EvAck (zlen (sm_bytes sm) - sm_acked sm + 1)) sm
    = mkStream (sm_bytes sm) (zlen (sm_bytes sm)) 0 (sm_sent sm) CtlAcked (sm_now sm) None) as Espec.
  { destruct sm. cbn [spec_event]. sm_cbn. subst. by rewrite Z.eqb_refl. }
  rewrite Espec in *. eexists [], _, _, e'. split; [done|]. split; [|split; [done|]].
  - split; try done; sm_cbn.
    + destruct Htx. by split.
    + cbn. congruence.
    + unfold sb_contents. cbn. rewrite Hcon, zdrop_all by lia. done.
    + congruence.
    + rewrite Har', Hsing. cbn. by rewrite delete_singleton_eq.
  - apply emits_none. sm_cbn. lia.
Qed.

Lemma fin_refines cap initial sm sb tcb e :
  conn_refines cap initial sm sb tcb e -> event_ok cap EvFIN sm ->
  event_refines cap initial EvFIN sm sb tcb e.
Proof.
  intros Hcr Hev. pose proof (spec_event_ok cap _ sm (cr_ok _ _ _ _ _ _ Hcr) Hev) as Hok'.
  destruct Hcr as [Hok Htx Hcap Hbeg Hsyn Hfin Hby Hfl Hini Hun Hnx Hinv Hnow Har].
  cbn [event_ok] in Hev. pose proof (sk_acked _ _ Hok) as Hacked. pose proof (sk_size _ _ Hok) as Hsize.
  pose proof (sk_flight _ _ Hok) as Hflight.
  rewrite Hev in *. specialize (Hfl ltac:(done)).
  rewrite decide_False in Hun by done. rewrite Z.add_0_r in Hun. rewrite decide_True in Hnx by done.
  rewrite Z.add_0_r in Hnx.
  assert (zlen (sb_contents sb) = sm_left sm) as HL by (rewrite Hby, zlen_drop; unfold sm_left; lia).
  unfold event_refines. cbn [run_event]. unfold SendBuffer_sendFIN.
  set (sb1 := sb_put_FIN CtlSent sb). set (tcb1 := tcb_put_next (u32 (tcb_next tcb + 1)) tcb).
  change (on_tcb _ _) with (mock_st sb1 tcb1 e []).
  change (sb_buffer_ (ss_sb (mock_st sb1 tcb1 e []))) with (sb_buffer_ sb).
  rewrite (rb_empty _ (tx_rb _ _ Htx)). fold (sb_contents sb). rewrite HL.
  set (sm' := spec_event cap EvFIN sm) in *.
  assert (sm' = mkStream (sm_bytes sm) (sm_acked sm) (sm_flight sm) (sm_sent sm) CtlSent (sm_now sm) (sm_alarm sm))
    as Esm' by (by destruct sm). clearbody sm'. subst sm'. set (sm' := mkStream _ _ _ _ _ _ _) in *.
  pose proof (sk_sent _ _ Hok) as Hst.
  assert (ready cap initial sm' sb1 tcb1 (sm_flight sm)) as Hrd.
  { split; try done; subst sm'; sm_cbn; try lia.
    - destruct Htx. by split.
    - change (tcb_next tcb1) with (u32 (tcb_next tcb + 1)). rewrite Hnx, u32_u32_add.
      rewrite decide_False by done. f_equal. }
  destruct (Z.eqb_spec 0 (sm_left sm)) as [E0|E0].
  - destruct (transmit_refines cap initial sm' sb1 tcb1 (sm_flight sm) e Hrd) as (segs & -> & Hcr & Hem); try done.
    { change (sm_left sm') with (sm_left sm). rewrite <- E0. change (sm_flight sm') with (sm_flight sm).
      destruct (Z.lt_ge_cases (sm_flight sm) 0); [by rewrite refill_neg|].
      assert (sm_flight sm = 0) as -> by lia. by rewrite refill_pos, fill_all. }
    eexists segs, _, tcb1, e. split; [done|]. split; [exact Hcr|]. split; [done|].
    apply Hem; subst sm'; sm_cbn; lia.
  - exists [], sb1, tcb1, e. split; [done|]. split; [|split; [done|]].
    + replace sb1 with (sb_put_bif (u64 (sm_flight sm')) sb1) by (subst sm'; sm_cbn; rewrite <- Hfl; by destruct sb).
      by eapply ready_refines.
    + apply emits_none. subst sm'; sm_cbn; lia.
Qed.

Lemma clock_refines cap initial sm sb tcb e t :
  conn_refines cap initial sm sb tcb e -> event_ok cap (EvClock t) sm ->
  event_refines cap initial (EvClock t) sm sb tcb e.
Proof.
  intros Hcr Hev. pose proof (spec_event_ok cap _ sm (cr_ok _ _ _ _ _ _ Hcr) Hev) as Hok'.
  destruct Hcr. eexists [], sb, tcb, (es_put_now (mkTimeBase t) e). split; [done|].
  split; [|split; [done|]].
  - destruct sm. split; try done. by destruct cr_inv0.
  - apply emits_none. destruct sm; sm_cbn; cbn. lia.
Qed.

(** The nodes of the map are those of the armed alarms. *)
Lemma entry_armed e en :
  es_inv None e -> en ∈ es_alarm_map_ e -> armed e !! en_alarm en = Some (en_deadline en).
Proof.
  intros Hinv He. destruct (inv_entry _ _ Hinv en He ltac:(done)) as (al & Ha & Hne & Hd & _).
  rewrite (armed_lookup _ _ _ Ha). unfold al_armed. rewrite Hd. by rewrite (proj2 (Z.eqb_neq _ _)).
Qed.
Lemma armed_none e : es_inv None e -> armed e = ∅ -> es_alarm_map_ e = [].
Proof.
  intros Hinv Har. destruct (es_alarm_map_ e) as [|en m] eqn:Em; [done|].
  pose proof (entry_armed e en Hinv ltac:(rewrite Em; by left)) as Hl. by rewrite Har in Hl.
Qed.
Lemma armed_one e a d :
  es_inv None e -> armed e = {[a := d]} ->
  exists en m, es_alarm_map_ e = en :: m /\ en_alarm en = a /\ en_deadline en = d.
Proof.
  intros Hinv Har.
  assert (armed e !! a = Some d) as Hl by (by rewrite Har, lookup_singleton_eq).
  unfold armed in Hl. rewrite lookup_omap in Hl. destruct (es_alarms e !! a) as [al|] eqn:Ha; [|done].
  cbn in Hl. unfold al_armed in Hl. destruct (Z.eqb_spec (time_ (ea_deadline_ al)) 0) as [|Hset]; [done|].
  destruct (inv_set _ _ Hinv a al Ha Hset) as (t & _ & _ & Hin).
  destruct (es_alarm_map_ e) as [|en m] eqn:Em; [by apply not_elem_of_nil in Hin|].
  exists en, m. split; [done|].
  pose proof (entry_armed e en Hinv ltac:(rewrite Em; by left)) as He. rewrite Har in He.
  by apply lookup_singleton_Some in He as [-> ->].
Qed.

(** Arming the alarm for a second later, when no alarm is armed. *)
Lemma set_again o e a q :
  es_inv o e -> clock_ok e -> is_Some (es_alarms e !! a) -> armed e = ∅ ->
  exists e', (t <- seconds_from_now 1 ((e, q) : MockWorld) ;; Alarm_set Debug a t ((e, q) : MockWorld))
      = Ret ((e', q) : MockWorld) /\
    es_inv o e' /\ es_now_ e' = es_now_ e /\ armed e' = {[a := time_ (es_now_ e) + 1000000]}.
Proof.
  intros Hinv Hck [al Ha] Har. rewrite seconds_from_now_ok by (done || lia). cbn [obind].
  change (1 * 1000000) with 1000000.
  assert (time_ (ea_deadline_ al) = 0) as H0.
  { apply al_armed_None. rewrite <- (armed_lookup _ _ _ Ha), Har. apply lookup_empty. }
  destruct (set_step o e a al (mkTimeBase (time_ (es_now_ e) + 1000000)) Hinv Ha H0)
    as (e' & Es & Hi' & Har' & Hn' & _); [unfold clock_ok in Hck; cbn; lia|].
  exists e'. split; [|split_and!; try done; by rewrite Har', Har].
  etransitivity; [exact (Alarm_set_prod (W:=EpollServer) (Q:=list Segment) Debug a _ (e, q))|].
  unfold on_fst. cbn [fst snd]. unfold Alarm_set. rewrite (Alarm_isSet_eq _ _ _ Ha), H0. cbn [obind Z.eqb negb DCHECK].
  rewrite isInitialized_eq. cbn [time_]. rewrite (proj2 (Z.eqb_neq _ _)) by (unfold clock_ok in Hck; lia).
  cbn [negb DCHECK obind]. cbn [alarm_put_deadline alarm_setImpl EpollAlarm_impl]. by rewrite Es.
Qed.

(** The alarm is fired: its deadline is cleared and [retransmit] runs. *)
Lemma fire_retransmission sb tcb e al :
  es_alarms e !! sb_retransmission_alarm_ sb = Some al -> time_ (ea_deadline_ al) <> 0 ->
  Alarm_fire (fun _ => SendBuffer_retransmit Debug) (sb_retransmission_alarm_ sb) (mock_st sb tcb e [])
  = SendBuffer_retransmit Debug (mock_st sb tcb
      (es_put_alarms (<[sb_retransmission_alarm_ sb := mkEpollAlarm TimeBase_zero (ea_token_ al)]> (es_alarms e)) e) []).
Proof.
  intros Ha Hset. unfold Alarm_fire, Alarm_isSet. cbn [alarm_deadline alarm_put_deadline SendState_alarms
    MockWorld_impl AlarmImpl_prod EpollAlarm_impl mock_st ss_world fst].
  unfold on_fst, EpollAlarm_put_deadline, es_alarm.
  cbn [fst snd]. rewrite Ha. cbn [obind]. by rewrite isInitialized_eq, (proj2 (Z.eqb_neq _ _) Hset).
Qed.
Lemma unregister_armed t e e' : EpollServer_unregisterAlarm t e = Ret e' -> armed e' = armed e.
Proof. unfold EpollServer_unregisterAlarm, alarm_map_erase. intros E. case_bool_decide; [|done]. by injection E as <-. Qed.

Lemma spec_timeout cap sm :
  spec_event cap EvTimeout sm =
  match sm_alarm sm with
  | Some d => if d <=? sm_now sm then mkStream (sm_bytes sm) (sm_acked sm) (fill 0 (sm_left sm))
                (Z.max (sm_sent sm) (sm_acked sm + fill 0 (sm_left sm))) (sm_fin sm)
                (sm_now sm) (Some (sm_now sm + 1000000)) else sm
  | None => sm
  end.
Proof. by destruct sm. Qed.

Lemma timeout_refines cap initial sm sb tcb e :
  conn_refines cap initial sm sb tcb e -> event_refines cap initial EvTimeout sm sb tcb e.
Proof.
  intros Hcr. pose proof (spec_event_ok cap EvTimeout sm (cr_ok _ _ _ _ _ _ Hcr) I) as Hok'.
  pose proof Hcr as [Hok Htx Hcap Hbeg Hsyn Hfin Hby Hfl Hini Hun Hnx Hinv Hnow Har].
  unfold event_refines. cbn [run_event]. unfold retransmission_event. cbn [mock_st ss_world ss_sb fst snd].
  pose proof (sk_alarm _ _ Hok) as Hal. unfold alarm_of in Har.
  rewrite spec_timeout in *.
  destruct (sm_alarm sm) as [d|] eqn:Ea.
  2: { rewrite (armed_none e Hinv Har). exists [], sb, tcb, e. split; [done|]. split; [done|].
       split; [done|]. by apply emits_none. }
  destruct Hal as [Hopen Hd].
  destruct (armed_one e _ d Hinv Har) as (en & m & Em & Een & Ed). rewrite Em, Een, Ed.
  rewrite bool_decide_true by done. cbn [andb]. unfold TimeBase_geb, TimeBase_ltb, EpollServer_now. cbn [time_].
  rewrite Hnow, <- Z.leb_antisym. destruct (Z.leb_spec d (sm_now sm)) as [Hdue|Hdue].
  2: { exists [], sb, tcb, e. split; [done|]. split; [done|]. split; [done|]. by apply emits_none. }
  set (a := sb_retransmission_alarm_ sb) in *.
  destruct (fire_step e en m Hinv Em) as (al & Ha & Hset & Hi1 & _). rewrite Een in *.
  set (e1 := es_put_alarms _ e) in Hi1.
  unfold a at 1. rewrite (fire_retransmission sb tcb e al Ha Hset). fold a e1.
  set (sm' := mkStream _ _ _ _ _ _ _) in *.
  pose proof (sk_acked _ _ Hok) as Hacked. pose proof (sk_size _ _ Hok) as Hsize.
  pose proof (sk_sent _ _ Hok) as Hsent. pose proof (sk_now _ _ Hok) as Hck.
  assert (ready cap initial sm' (sb_put_bif 0 sb) tcb 0) as Hrd.
  { split; try done; subst sm'; sm_cbn; try lia.
    - destruct Htx. by split.
    - by rewrite Hun, decide_False, Z.add_0_r by done. }
  unfold SendBuffer_retransmit. change (on_sb _ _) with (mock_st (sb_put_bif 0 sb) tcb e1 []).
  destruct (transmit_emits cap initial sm' _ tcb e1 0 Hrd) as (segs & -> & Hseg & Hall).
  rewrite refill_pos in * by lia.
  cbn [obind mock_st ss_world ss_sb]. change (sm_left sm') with (sm_left sm) in *.
  set (sb1 := sb_put_bif (u64 (fill 0 (sm_left sm))) _). change (sb_retransmission_alarm_ sb1) with a.
  assert (armed e1 = ∅) as Har1.
  { unfold e1. rewrite armed_insert, Har. cbn. apply delete_singleton_eq. }
  destruct (set_again (Some en) e1 a segs Hi1) as (e2 & E2 & Hi2 & Hn2 & Har2);
    [unfold clock_ok; cbn; lia|unfold e1; cbn; by rewrite lookup_insert_eq|done|].
  apply bind_Ret in E2 as (t & -> & E2). cbn [obind]. unfold MockWorld in E2 |- *. rewrite E2. cbn [obind ss_world fst snd ss_put_world].
  destruct (orphan_erase e2 en Hi2) as (e3 & E3 & Hi3 & Hn3 & _). rewrite E3. cbn [obind].
  exists segs, sb1, tcb, e3. split; [done|]. split; [|split; [done|]].
  - apply (ready_refines cap initial sm' (sb_put_bif 0 sb) tcb 0); try done; [by rewrite Hn3, Hn2|].
    unfold alarm_of. subst sm'. sm_cbn. rewrite (unregister_armed _ _ _ E3), Har2. cbn. by rewrite Hnow.
  - split; [exact Hseg|]. intros i Hi. apply Hall. subst sm'. sm_cbn. lia.
Qed.

Lemma run_event_refines cap initial ev sm sb tcb e :
  conn_refines cap initial sm sb tcb e -> event_ok cap ev sm -> event_refines cap initial ev sm sb tcb e.
Proof.
  intros Hcr Hev. destruct ev.
  - by apply data_refines.
  - destruct Hev as (? & ? & [?|(? & ? & ->)]); [by apply ack_refines|by apply ack_FIN_refines].
  - by apply fin_refines.
  - by apply timeout_refines.
  - by apply clock_refines.
Qed.

(** ** Runs *)
Lemma seg_at_later cap initial ev sm off s :
  stream_ok cap sm -> event_ok cap ev sm -> seg_at initial sm off s -> seg_at initial (spec_event cap ev sm) off s.
Proof.
  intros Hok Hev (H1 & H2 & H3 & H4 & H5 & H6). pose proof (zlen_nonneg (seg_payload s)).
  destruct sm as [bytes acked flight sent fin now alarm], ev as [d|k| | |t]; cbn [spec_event event_ok] in *; unfold seg_at; sm_cbn.
  - destruct Hev as (_ & -> & _). destruct H6 as [H6|(_ & [] & _)]; [|done].
    rewrite zlen_app. pose proof (zlen_nonneg (ztake (Z.min (zlen d) (cap - (zlen bytes - acked))) d)).
    split_and!; try done; try lia.
    rewrite zdrop_app, ztake_app, zlen_drop, (ztake_0 (_ - _)), app_nil_r by lia. done.
  - destruct (bool_decide_reflect (fin = CtlSent)) as [->|E]; cbn [andb];
      [destruct (k =? _)|]; cbn [sm_bytes sm_fin]; split_and!; try done;
      (destruct H6 as [?|(? & ? & ?)]; [by left|by right]).
  - split_and!; try done. destruct H6 as [?|(? & ? & ?)]; [by left|by right].
  - destruct alarm as [d|]; [destruct (d <=? now)|]; by split_and!.
  - by split_and!.
Qed.

Lemma spec_event_fold cap ev evs sm : spec_events cap (ev :: evs) sm = spec_events cap evs (spec_event cap ev sm).
Proof. done. Qed.

Lemma seg_at_final cap initial evs : forall sm off s,
  stream_ok cap sm -> events_ok cap evs sm -> seg_at initial sm off s -> seg_at initial (spec_events cap evs sm) off s.
Proof.
  induction evs as [|ev evs IH]; intros sm off s Hok Hevs Hs; [done|].
  destruct Hevs as [Hev Hevs]. rewrite spec_event_fold.
  apply IH; [by apply spec_event_ok|done|by apply seg_at_later].
Qed.

Lemma run_events_refines cap initial evs : forall sm sb tcb e,
  conn_refines cap initial sm sb tcb e -> events_ok cap evs sm ->
  exists segs sb' tcb' e',
    run_events evs (mock_st sb tcb e []) = Ret (segs, mock_st sb' tcb' e' []) /\
    conn_refines cap initial (spec_events cap evs sm) sb' tcb' e' /\
    emits initial sm (spec_events cap evs sm) segs.
Proof.
  induction evs as [|ev evs IH]; intros sm sb tcb e Hcr Hevs.
  { exists [], sb, tcb, e. split; [done|]. split; [done|]. by apply emits_none. }
  destruct Hevs as [Hev Hevs].
  destruct (run_event_refines cap initial ev sm sb tcb e Hcr Hev) as (q & sb1 & tcb1 & e1 & E1 & Hcr1 & _ & [Hs1 Ha1]).
  cbn [run_events]. rewrite E1. cbn [obind mock_st ss_world fst snd].
  change (ss_put_world _ _) with (mock_st sb1 tcb1 e1 []).
  destruct (IH _ sb1 tcb1 e1 Hcr1 Hevs) as (segs & sb' & tcb' & e' & -> & Hcr' & [Hs2 Ha2]).
  cbn [obind]. exists (q ++ segs), sb', tcb', e'. rewrite spec_event_fold. split; [done|]. split; [done|].
  pose proof (fun off s => seg_at_final cap initial evs _ off s (cr_ok _ _ _ _ _ _ Hcr1) Hevs) as Hlift.
  split.
  - intros s [Hin|Hin]%elem_of_app; [|by apply Hs2]. destruct (Hs1 s Hin) as (off & ?). eauto.
  - intros i Hi. set (sm1 := spec_event cap ev sm) in *.
    destruct (Z.lt_decidable i (sm_sent sm1)).
    + destruct (Ha1 i ltac:(lia)) as (off & s & ? & ? & ?). exists off, s. rewrite elem_of_app. eauto.
    + destruct (Ha2 i ltac:(lia)) as (off & s & ? & ? & ?). exists off, s. rewrite elem_of_app. eauto.
Qed.

(** ** The handshake *)

(** The SYN being acknowledged, [acknowledge] goes on as for a connection that is
    established. *)
Lemma acknowledge_SYN sb tcb e q ack :
  sb_SYN_ sb = CtlSent -> seq_greaterThan (tcb_initial tcb) ack (tcb_initial tcb) = true ->
  SendBuffer_acknowledge Debug ack (mock_st sb tcb e q)
  = SendBuffer_acknowledge Debug ack
      (mock_st (sb_put_SYN CtlAcked sb) (tcb_put_unack (u32 (tcb_initial tcb + 1)) tcb) e q).
Proof.
  intros Hs Hg. unfold SendBuffer_acknowledge. cbn [mock_st ss_sb ss_tcb sb_put_SYN sb_SYN_].
  rewrite Hs, Hg. done.
Qed.

(** A server on which no alarm is armed yet. *)
Definition quiet (e : EpollServer) : Prop :=
  es_inv None e /\ 0 < time_ (es_now_ e) < 4611686018427387904 /\ armed e = ∅.

Definition connected (now : Z) : stream := mkStream [] 0 0 0 CtlNone now (Some (now + 1000000)).

(** What [SocketSession] does with its buffer to open a connection: it is created,
    the SYN is sent and acknowledged. *)
Definition handshake (factory : SegmentFactory) (tcb : ControlBlock) (block : list Z) (initial : Z)
  (w : MockWorld) : outcome (SendState MockWorld) :=
  st <- SendBuffer_new Debug factory tcb block w ;;
  st <- SendBuffer_sendSYN Debug initial st ;;
  SendBuffer_acknowledge Debug (u32 (initial + 1)) st.

Lemma handshake_ok factory tcb block initial e :
  sa4_wf (sf_local_address_ factory) -> sa4_wf (sf_remote_address_ factory) ->
  in_u32 (rcv_next (cb_receive tcb)) -> zlen block = 262144 -> byte_list block ->
  in_u32 initial -> quiet e ->
  exists sb tcb' e',
    handshake factory tcb block initial (e, [])
      = Ret (mock_st sb tcb' e' [syn_segment sb initial tcb]) /\
    conn_refines 262144 initial (connected (time_ (es_now_ e))) sb tcb' e'.
Proof.
  intros Hlo Hre Hrcv Hbl Hby Hini (Hinv & Hck & Har). unfold handshake, SendBuffer_new.
  cbn [factory_createAlarm MockWorld_factory AlarmFactory_prod EpollAlarmFactory_impl fst snd].
  destruct (EpollAlarmFactory_createAlarm e) as [a e0] eqn:Ec.
  pose proof (es_inv_create None e Hinv) as [Hi0 Har0]. rewrite Ec in Hi0, Har0. cbn [snd] in *.
  assert (es_now_ e0 = es_now_ e /\ is_Some (es_alarms e0 !! a)) as [Hn0 Ha0].
  { injection Ec as <- <-. split; [done|]. cbn. by rewrite lookup_insert_eq. }
  destruct (rb_inv_new 262144 block ltac:(lia) Hbl Hby) as [Hrb Hcon].
  change (1024 * 256) with 262144. set (rb := RingBuffer_new 262144 block) in *.
  destruct (set_again None e0 a [] Hi0) as (e1 & E1 & Hi1 & Hn1 & Har1);
    [unfold clock_ok; by rewrite Hn0|done|by rewrite Har0|].
  apply bind_Ret in E1 as (t & Et & E1). unfold MockWorld in *. rewrite Et. cbn [obind]. rewrite E1. cbn [obind].
  set (sb0 := mkSendBuffer rb _ _ _ _ _ _ _). change (mkSendState sb0 tcb (e1, [])) with (mock_st sb0 tcb e1 []).
  assert (tx_ok sb0 tcb) as Htx by by split.
  rewrite sendSYN_mock by (done || (unfold kMaxQueueLength; cbn; lia)). cbn [obind app].
  rewrite acknowledge_SYN; [|done|].
  2: { unfold seq_greaterThan. cbn. rewrite u32_u32_sub. replace (initial + 1 - initial) with 1 by lia.
       by rewrite Z.sub_diag. }
  set (sb1 := sb_put_SYN CtlAcked _). set (tcb1 := tcb_put_unack _ _).
  assert (alarm_ok e1 a) as Hal.
  { eapply armed_alarm_ok; [done|unfold clock_ok; by rewrite Hn1, Hn0|by rewrite Har1, lookup_singleton_eq|].
    rewrite Hn0. unfold kInfiniteTimeUs. lia. }
  assert (zlen (sb_contents sb1) = 0) as HL by (unfold sb_contents; cbn; by rewrite Hcon).
  destruct (acknowledge_step sb1 tcb1 e1 [syn_segment sb0 initial tcb] 1 0)
    as (rb' & e2 & E2 & Hrb' & Hsz' & Hcon' & Hb' & Hi2 & Hn2 & Har2); try done; rewrite ?HL; try (cbn; lia).
  cbn zeta in E2. change (tcb_initial tcb1) with initial in E2. rewrite Z.add_0_r in E2.
  rewrite E2. change (0 <? 0) with false.
  exists (sb_put_bif (sb_bytes_in_flight_ sb1 - 0) (sb_put_buffer rb' sb1)).
  eexists _, e2. split; [reflexivity|].
  assert (sb_contents sb1 = []) as Hc1 by exact Hcon.
  unfold connected. split; cbn [sm_bytes sm_acked sm_flight sm_sent sm_fin sm_now sm_alarm]; try done.
  - split; unfold sm_left, kMaxBytesInFlight, kMaxSegmentSize;
      cbn [sm_bytes sm_acked sm_flight sm_sent sm_fin sm_now sm_alarm]; change (zlen (@nil Z)) with 0; try lia.
    split; [done|lia].
  - by rewrite decide_False, !Z.add_0_r by done.
  - rewrite decide_True by done. change (zlen (@nil Z)) with 0. by rewrite !Z.add_0_r.
  - by rewrite Hn2, Hn1, Hn0.
  - rewrite Har2. cbn [sb_bytes_in_flight_ sb1 sb0 sb_put_SYN Z.sub Z.eqb].
    rewrite (update_armed (connected (time_ (es_now_ e))));
      [|cbn; lia|by rewrite Hn1, Hn0|by rewrite Har1, Hn0].
    unfold spec_update. cbn. by replace (Z.abs _) with 0 by lia.
Qed.

(** A connection: the handshake, then events. *)
Definition connection_run (factory : SegmentFactory) (tcb : ControlBlock) (block : list Z) (initial : Z)
  (evs : list send_event) (w : MockWorld) : outcome (list Segment * SendState MockWorld) :=
  st <- handshake factory tcb block initial w ;;
  run_events evs (ss_put_world ((ss_world st).1, []) st).

(** What a connection starts from: addresses of version 4, fresh memory for the
    buffer, an initial sequence number, and a server without armed alarms. *)
Record start_ok (factory : SegmentFactory) (tcb : ControlBlock) (block : list Z) (initial : Z)
  (e : EpollServer) : Prop := {
  so_local : sa4_wf (sf_local_address_ factory);
  so_remote : sa4_wf (sf_remote_address_ factory);
  so_rcv : in_u32 (rcv_next (cb_receive tcb));
  so_block : zlen block = 262144 /\ byte_list block;
  so_initial : in_u32 initial;
  so_quiet : quiet e
}.

Lemma connection_run_ok factory tcb block initial e evs :
  start_ok factory tcb block initial e ->
  events_ok 262144 evs (connected (time_ (es_now_ e))) ->
  let sm := spec_events 262144 evs (connected (time_ (es_now_ e))) in
  exists segs sb tcb' e',
    connection_run factory tcb block initial evs (e, []) = Ret (segs, mock_st sb tcb' e' []) /\
    conn_refines 262144 initial sm sb tcb' e' /\
    emits initial (connected (time_ (es_now_ e))) sm segs.
Proof.
  intros [Hlo Hre Hrcv [Hbl Hby] Hini Hq] Hevs. cbn zeta.
  destruct (handshake_ok factory tcb block initial e) as (sb0 & tcb0 & e0 & E0 & Hcr); try done.
  unfold connection_run. rewrite E0. cbn [obind mock_st ss_world fst].
  change (ss_put_world _ _) with (mock_st sb0 tcb0 e0 []). by apply run_events_refines.
Qed.

(** C2. A whole connection refines an abstract byte stream, in a build with [DCHECK]s and
    on the mock network of the unit tests, which takes every segment. From the constructor
    and the handshake on, the connection meets any sequence of: writes of the application
    before the FIN, fewer than 2^32 bytes in all, none of them while the contents of the
    ring pass the end of its block (unless it is full); acknowledgments, none older than
    the one before, of bytes that were sent at least once, also of bytes from before a
    timeout, and as the last one that of all bytes, all of them sent, and the FIN; timeouts;
    clock ticks; and the FIN. Then no operation fails; the buffer holds exactly the accepted and unacknowledged
    bytes; [send.unack] and [send.next] count the acknowledged and the accepted ones; the
    window is used whenever there is data for it, except from an acknowledgment of more
    bytes than counted in flight (which a timeout sets back) until the next timeout, when
    nothing is sent; the window is never exceeded by a whole segment; and the retransmission
    alarm stays armed until the FIN is acknowledged. *)
Theorem SendBuffer_refines_stream (factory : SegmentFactory) (tcb : ControlBlock) (block : list Z)
  (initial : Z) (e : EpollServer) (evs : list send_event) :
  start_ok factory tcb block initial e ->
  events_ok 262144 evs (connected (time_ (es_now_ e))) ->
  exists segs sb tcb' e',
    connection_run factory tcb block initial evs (e, []) = Ret (segs, mock_st sb tcb' e' []) /\
    conn_refines 262144 initial (spec_events 262144 evs (connected (time_ (es_now_ e)))) sb tcb' e'.
Proof.
  intros Hst Hevs. destruct (connection_run_ok factory tcb block initial e evs Hst Hevs) as (segs & sb & tcb' & e' & ? & ? & _).
  by exists segs, sb, tcb', e'.
Qed.

(** ** What the peer can make of the segments

    A receiver that stores the payload of every segment it gets at the offset its
    sequence number gives. *)
Definition rx_offset (initial : Z) (s : Segment) : Z := u32 (seg_sequence_ s - initial - 1).
Definition reassemble (initial : Z) (segs : list Segment) : gmap Z Z :=
  foldr (fun s m => map_seqZ (rx_offset initial s) (seg_payload s) ∪ m) ∅ segs.

Lemma seg_at_offset initial sm off s :
  zlen (sm_bytes sm) < 4294967296 -> seg_at initial sm off s -> 0 < zlen (seg_payload s) -> rx_offset initial s = off.
Proof.
  intros Hs (H1 & H2 & _ & H4 & _) Hp. unfold rx_offset. rewrite H4.
  rewrite <- Z.sub_add_distr, u32_u32_sub. replace (_ - _) with off by lia. apply u32_small. word.
Qed.

Lemma stream_lookup (bytes : list Z) off n i x :
  0 <= off <= i -> ztake n (zdrop off bytes) !! Z.to_nat (i - off) = Some x ->
  bytes !! Z.to_nat i = Some x.
Proof.
  intros Hi. unfold ztake, zdrop. intros [Hl _]%lookup_take_Some. rewrite lookup_drop in Hl.
  rewrite <- Hl. f_equal. lia.
Qed.

Lemma seg_at_stored initial sm off s :
  zlen (sm_bytes sm) < 4294967296 -> seg_at initial sm off s ->
  (map_seqZ (rx_offset initial s) (seg_payload s) : gmap Z Z) ⊆ map_seqZ 0 (sm_bytes sm).
Proof.
  intros Hs Hat. apply map_subseteq_spec. intros i x [Hle Hl]%lookup_map_seqZ_Some.
  assert (0 < zlen (seg_payload s)) as Hp.
  { destruct (seg_payload s); [by rewrite lookup_nil in Hl|]. unfold zlen. cbn. lia. }
  rewrite (seg_at_offset _ _ _ _ Hs Hat Hp) in *. destruct Hat as (H1 & _ & _ & _ & H5 & _).
  apply lookup_map_seqZ_Some. rewrite Z.sub_0_r. split; [lia|].
  rewrite H5 in Hl. eapply stream_lookup; [|exact Hl]. lia.
Qed.

Lemma reassemble_sound initial sm segs :
  zlen (sm_bytes sm) < 4294967296 -> (forall s, s ∈ segs -> exists off, seg_at initial sm off s) ->
  reassemble initial segs ⊆ map_seqZ 0 (sm_bytes sm).
Proof.
  intros Hs. induction segs as [|s segs IH]; intros Hall; [apply map_empty_subseteq|]. cbn.
  destruct (Hall s) as (off & Hat); [by left|].
  apply map_union_least; [by eapply seg_at_stored|]. apply IH. intros s' ?. apply Hall. by right.
Qed.

Lemma reassemble_stores initial segs s i :
  s ∈ segs -> rx_offset initial s <= i < rx_offset initial s + zlen (seg_payload s) ->
  is_Some (reassemble initial segs !! i).
Proof.
  intros Hin Hi. induction Hin as [s segs|s s' segs Hin IH]; cbn; rewrite lookup_union_is_Some.
  - left. apply lookup_map_seqZ_is_Some. done.
  - right. by apply IH.
Qed.

(** C5. What the network delivers is the stream, in a build with [DCHECK]s and for the
    events of a connection listed in C2: no write while the ring is wrapped, fewer than
    2^32 bytes, acknowledgments of bytes sent at least once, the last one perhaps of the
    FIN. Of all the segments such a
    connection has sent, retransmissions included, the peer may get any, in any order and
    any number of times: what it stores is then a part of the stream the application wrote,
    each byte at its place; and when it gets all of them, it has every byte that was
    ever sent, from the first one on. *)
Theorem network_delivers_stream (factory : SegmentFactory) (tcb : ControlBlock) (block : list Z)
  (initial : Z) (e : EpollServer) (evs : list send_event) :
  start_ok factory tcb block initial e ->
  events_ok 262144 evs (connected (time_ (es_now_ e))) ->
  let sm := spec_events 262144 evs (connected (time_ (es_now_ e))) in
  exists segs st,
    connection_run factory tcb block initial evs (e, []) = Ret (segs, st) /\
    (forall got, got ⊆ segs -> reassemble initial got ⊆ map_seqZ 0 (sm_bytes sm)) /\
    map_seqZ 0 (ztake (sm_sent sm) (sm_bytes sm)) ⊆ reassemble initial segs.
Proof.
  intros Hst Hevs sm.
  destruct (connection_run_ok factory tcb block initial e evs Hst Hevs)
    as (segs & sb & tcb' & e' & E & Hcr & [Hsegs Hall]). fold sm in Hcr, Hsegs, Hall.
  pose proof (sk_size _ _ (cr_ok _ _ _ _ _ _ Hcr)) as Hsz.
  assert (forall got, got ⊆ segs -> reassemble initial got ⊆ map_seqZ 0 (sm_bytes sm)) as Hsound.
  { intros got Hgot. apply reassemble_sound; [lia|]. intros s Hs. by apply Hsegs, Hgot. }
  exists segs. eexists. split; [exact E|]. split; [done|].
  apply map_subseteq_spec. intros i x [Hi Hl]%lookup_map_seqZ_Some. rewrite Z.sub_0_r in Hl.
  unfold ztake in Hl. apply lookup_take_Some in Hl as [Hl Hlt].
  destruct (Hall i) as (off & s & Hin & Hat & Hoff); [cbn; lia|].
  assert (rx_offset initial s = off) as Eo by (eapply seg_at_offset; [|exact Hat|]; lia).
  destruct (reassemble_stores initial segs s i Hin ltac:(lia)) as [y Hy]. rewrite Hy. f_equal.
  specialize (Hsound segs ltac:(done)). rewrite map_subseteq_spec in Hsound. apply Hsound in Hy.
  apply lookup_map_seqZ_Some in Hy as [_ Hy]. rewrite Z.sub_0_r in Hy. congruence.
Qed.

(** A connection for the witnesses: data, a timeout, acknowledgments and the end. *)
Definition example_events : list send_event :=
  [EvData [1; 2; 3]; EvClock 2000001; EvTimeout; EvAck 2; EvData [4]; EvFIN; EvAck 3].

Lemma example_events_ok : events_ok 262144 example_events (connected 1000000).
Proof.
  apply (bool_decide_unpack _). vm_compute. exact I.
Qed.

Lemma example_start_ok :
  start_ok example_factory ControlBlock_zero (replicate (Z.to_nat 262144) 0) 100 example_server.
Proof.
  split.
  - apply (tx_local _ _ (example_tx_ok CtlNone 0 0)).
  - apply (tx_remote _ _ (example_tx_ok CtlNone 0 0)).
  - cbn. word.
  - split; [rewrite zlen_replicate; lia|apply replicate_zero_bytes].
  - word.
  - split; [apply es_inv_empty|]. split; [cbn; lia|done].
Qed.

Lemma SendBuffer_refines_stream_witness :
  exists segs sb tcb' e',
    connection_run example_factory ControlBlock_zero (replicate (Z.to_nat 262144) 0) 100 example_events
      (example_server, []) = Ret (segs, mock_st sb tcb' e' []) /\
    conn_refines 262144 100 (mkStream [1; 2; 3; 4] 4 0 4 CtlAcked 2000001 None) sb tcb' e'.
Proof.
  exact (SendBuffer_refines_stream example_factory ControlBlock_zero _ 100 example_server example_events
    example_start_ok example_events_ok).
Defined.

Lemma network_delivers_stream_witness :
  exists segs st,
    connection_run example_factory ControlBlock_zero (replicate (Z.to_nat 262144) 0) 100 example_events
      (example_server, []) = Ret (segs, st) /\
    (forall got, got ⊆ segs -> reassemble 100 got ⊆ map_seqZ 0 [1; 2; 3; 4]) /\
    map_seqZ 0 [1; 2; 3; 4] ⊆ reassemble 100 segs.
Proof.
  exact (network_delivers_stream example_factory ControlBlock_zero _ 100 example_server example_events
    example_start_ok example_events_ok).
Defined.

(** ** Late acknowledgments

    A timeout sets the count of bytes in flight back; the window it fills again may
    end before bytes that were sent earlier. The acknowledgment of these is then
    larger than the count, which wraps around: nothing is sent, as if the window
    were full, although it is open and there may be data left. *)
Theorem late_ack_stalls (cap initial : Z) (sm : stream) (sb : SendBuffer) (tcb : ControlBlock)
  (e : EpollServer) (k : Z) :
  conn_refines cap initial sm sb tcb e -> sm_fin sm = CtlNone -> 0 <= sm_flight sm < k -> k <= sm_left sm ->
  exists sb' tcb',
    run_event (EvAck k) (mock_st sb tcb e []) = Ret (mock_st sb' tcb' e []) /\
    sb_contents sb' = zdrop (sm_acked sm + k) (sm_bytes sm) /\
    sb_bytes_in_flight_ sb' = 18446744073709551616 + sm_flight sm - k /\
    forall e' q, SendBuffer_transmit Debug (mock_st sb' tcb' e' q) = Ret (mock_st sb' tcb' e' q).
Proof.
  intros [Hok Htx Hcap Hbeg Hsyn Hfin Hby Hfl Hini Hun Hnx Hinv Hnow Har] Hnone Hk HkL.
  pose proof (sk_acked _ _ Hok) as Hacked. pose proof (sk_size _ _ Hok) as Hsize.
  pose proof (sk_flight _ _ Hok) as Hflight. rewrite Hnone in *. specialize (Hfl ltac:(done)).
  rewrite decide_False, Z.add_0_r in Hun by done. unfold sm_left in *. rewrite u64_small in Hfl by word.
  assert (zlen (sb_contents sb) = zlen (sm_bytes sm) - sm_acked sm) as HL by (rewrite Hby, zlen_drop; lia).
  assert (u32 (tcb_unack tcb + k) = u32 (initial + (1 + sm_acked sm) + k)) as Eack
    by (rewrite Hun, u32_u32_add; f_equal; lia).
  replace (initial + 1 + sm_acked sm) with (initial + (1 + sm_acked sm)) in Hun by lia.
  cbn [run_event mock_st ss_tcb]. rewrite Eack. unfold SendBuffer_acknowledge. cbn [mock_st ss_sb ss_tcb].
  rewrite Hsyn. cbn [obind mock_st ss_tcb ss_sb]. rewrite Hini, Hun, ack_order by lia. cbn [DCHECK obind].
  rewrite ack_distance by lia.
  destruct (RingBuffer_consume_spec Debug (sb_buffer_ sb) k (tx_rb _ _ Htx) ltac:(word))
    as (rb' & -> & Hrb & Hsz & Hcon). fold (sb_contents sb) in *. cbn [obind]. rewrite Z.min_l by lia.
  set (X := on_sb _ (on_tcb _ _)).
  set (tcb1 := tcb_put_unack (u32 (initial + (1 + sm_acked sm) + k)) tcb).
  set (sb1 := sb_put_bif (18446744073709551616 + sm_flight sm - k) (sb_put_buffer rb' sb)).
  assert (X = mock_st sb1 tcb1 e []) as ->.
  { change X with (mock_st (sb_put_bif (u64 (sb_bytes_in_flight_ sb - k)) (sb_put_buffer rb' sb))
                     (tcb_put_unack (u32 (tcb_unack tcb + k)) tcb) e []).
    unfold sb1, tcb1. rewrite Hun, u32_u32_add, Hfl. do 2 f_equal. unfold u64.
    rewrite <- (Z.mod_add _ 1), Z.mod_small by lia. lia. }
  cbn [mock_st ss_sb ss_tcb ss_world]. change (sb_bytes_in_flight_ sb1) with (18446744073709551616 + sm_flight sm - k).
  destruct (Z.eqb_spec (18446744073709551616 + sm_flight sm - k) 0); [lia|]. cbn [obind mock_st ss_sb].
  change (sb_FIN_ sb1) with (sb_FIN_ sb). rewrite Hfin. rewrite bool_decide_false by done. cbn [andb obind].
  destruct (Z.ltb_spec 0 k); [|lia]. fold (mock_st sb1 tcb1 e []).
  assert (forall e' q, SendBuffer_transmit Debug (mock_st sb1 tcb1 e' q) = Ret (mock_st sb1 tcb1 e' q)) as Hstop.
  { intros. apply transmit_full; [done|]. unfold kMaxBytesInFlight, kMaxSegmentSize. cbn. lia. }
  exists sb1, tcb1. split; [apply Hstop|]. split; [|done].
  change (sb_contents sb1) with (rb_contents rb'). by rewrite Hcon, Hby, zdrop_zdrop by lia.
Qed.

(** 16059 bytes in flight, then a timeout after which 14600 are: all 16059 are
    acknowledged, and the 1540 bytes left are not sent. *)
Definition late_events : list send_event :=
  [EvData (replicate (Z.to_nat 14599) 7); EvData (replicate (Z.to_nat 3000) 7); EvClock 2000001; EvTimeout].

Lemma late_events_ok : events_ok 262144 late_events (connected 1000000).
Proof.
  apply (bool_decide_unpack _). vm_compute. exact I.
Qed.

Lemma late_ack_stalls_witness :
  sm_flight (spec_events 262144 (take 2 late_events) (connected 1000000)) = 16059 /\
  exists segs sb tcb e sb' tcb',
    connection_run example_factory ControlBlock_zero (replicate (Z.to_nat 262144) 0) 100 late_events
      (example_server, []) = Ret (segs, mock_st sb tcb e []) /\
    run_event (EvAck 16059) (mock_st sb tcb e []) = Ret (mock_st sb' tcb' e []) /\
    sb_contents sb' = replicate (Z.to_nat 1540) 7.
Proof.
  split; [vm_compute; reflexivity|].
  destruct (connection_run_ok example_factory ControlBlock_zero _ 100 example_server late_events
    example_start_ok late_events_ok) as (segs & sb & tcb & e & E & Hcr & _).
  destruct (late_ack_stalls _ _ _ _ _ _ 16059 Hcr) as (sb' & tcb' & Ea & Hc & _).
  - vm_compute. reflexivity.
  - vm_compute. split; [congruence|reflexivity].
  - vm_compute. congruence.
  - exists segs, sb, tcb, e, sb', tcb'. split; [exact E|]. split; [exact Ea|]. rewrite Hc. vm_compute. reflexivity.
Defined.

(** The next timeout ends the stall: the rest is sent and can be acknowledged. *)
Definition recovered_events : list send_event :=
  late_events ++ [EvAck 16059; EvClock 3000002; EvTimeout; EvAck 1540].
Example late_ack_recovers :
  exists segs st,
    connection_run example_factory ControlBlock_zero (replicate (Z.to_nat 262144) 0) 100 recovered_events
      (example_server, []) = Ret (segs, st) /\ sb_contents (ss_sb st) = [] /\
    sb_bytes_in_flight_ (ss_sb st) = 0 /\ tcb_unack (ss_tcb st) = 100 + 1 + 17599.
Proof.
  assert (events_ok 262144 recovered_events (connected 1000000)) as Hev
    by (apply (bool_decide_unpack _); vm_compute; exact I).
  destruct (connection_run_ok example_factory ControlBlock_zero _ 100 example_server recovered_events
    example_start_ok Hev) as (segs & sb & tcb & e & E & [_ _ _ _ _ _ Hb Hf _ Hu _ _ _ _] & _).
  exists segs, (mock_st sb tcb e []). split; [exact E|]. cbn [mock_st ss_sb ss_tcb].
  rewrite Hb, Hf, Hu by (vm_compute; congruence). vm_compute. split; [reflexivity|split; reflexivity].
Qed.
