(* ===== verification/UnitTests.v ===== *)
(** The unit tests of the repository as programs on the model: ring_buffer_test.cpp,
    ip_address_test.cpp, and of routing_table_test.cpp and socket_session_test.cpp the
    tests that do not let time pass. A test is the list of the results of its
    expectations, in order; [Undef] where it goes on with a null pointer or an empty
    queue. The first two files pass; the tests of the routing table and of the session
    need the functions that are left as exercises. *)

From stdpp Require Import base list numbers gmap strings.
From Stdlib Require Import Ascii.
From S2P Require Import Prelude Endian DataWriter DataReader TimeBase Alarm EpollServer MockAlarm.
From S2P Require Import RingBuffer RandGenerator IPAddress Checksum Ether RoutingTable SocketAddress Segment.
From S2P Require Import ControlBlock SendBuffer SocketSession.

Open Scope Z_scope.
Open Scope outcome_scope.

(** The bytes of a string literal. *)
Fixpoint bytes_of (s : string) : list Z :=
  match s with EmptyString => [] | String c s => Z.of_nat (nat_of_ascii c) :: bytes_of s end.

(** A test: its expectations so far and the object under test. *)
Definition test (S A : Type) : Type := S -> outcome (list bool * A * S).
Definition tret {S A} (a : A) : test S A := fun s => Ret ([], a, s).
Definition tbind {S A B} (t : test S A) (f : A -> test S B) : test S B := fun s =>
  let* (la, s) := t s in
  let* (lb, s) := f la.2 s in
  Ret (la.1 ++ lb.1, lb.2, s).
Definition EXPECT {S} (b : bool) : test S unit := fun s => Ret ([b], tt, s).
Definition run_test {S A} (t : test S A) (s : S) : outcome (list bool) :=
  let* (la, _) := t s in Ret la.1.

Declare Scope test_scope.
Delimit Scope test_scope with test.
Notation "x <-- t ;; f" := (tbind t (fun x => f)) (at level 100, t at next level, right associativity) : test_scope.
Notation "t ;; f" := (tbind t (fun _ => f)) (at level 100, right associativity) : test_scope.

Module RingBufferTest.
Local Open Scope test_scope.
Definition SetUp : RingBuffer := RingBuffer_new 5 (replicate 5 0).

Definition write (s : string) : test RingBuffer Z := fun rb =>
  let* (n, rb) := RingBuffer_write Debug rb (bytes_of s) (zlen (bytes_of s)) in Ret ([], n, rb).
Definition expectWrite (s : string) : test RingBuffer unit :=
  n <-- write s ;; EXPECT (n =? zlen (bytes_of s)).
Definition read (len : Z) : test RingBuffer (list Z) := fun rb =>
  let* (d, rb) := RingBuffer_read Debug rb len in Ret ([], d, rb).
Definition read_offset (offset len : Z) : test RingBuffer (list Z) := fun rb =>
  (obind (RingBuffer_read_offset Debug rb offset len) (fun d => Ret ([], d, rb)))%outcome.
Definition full : test RingBuffer bool := fun rb => Ret ([], RingBuffer_full rb, rb).
Definition empty : test RingBuffer bool := fun rb => Ret ([], RingBuffer_empty rb, rb).
Definition expectRead (t : test RingBuffer (list Z)) (s : string) : test RingBuffer unit :=
  d <-- t ;; EXPECT (bool_decide (d = bytes_of s)).

Definition Basic : test RingBuffer unit :=
  b <-- empty ;; EXPECT b ;; expectWrite "hello" ;; b <-- full ;; EXPECT b ;; expectRead (read 5) "hello".
Definition RingReadWrite : test RingBuffer unit :=
  expectWrite "aa" ;; read 1 ;; expectWrite "1234" ;; b <-- full ;; EXPECT b ;; expectRead (read 5) "a1234".
Definition RingBufferReadOffset : test RingBuffer unit :=
  expectWrite "aa" ;; read 1 ;; expectWrite "1234" ;; b <-- full ;; EXPECT b ;;
  expectRead (read_offset 0 5) "a1234" ;; expectRead (read_offset 0 6) "a1234" ;;
  expectRead (read_offset 1 4) "1234" ;; expectRead (read_offset 1 2) "12" ;;
  expectRead (read_offset 2 3) "234" ;; expectRead (read_offset 4 1) "4" ;; expectRead (read_offset 4 0) "".
End RingBufferTest.

Module IpAddressTest.
Local Open Scope test_scope.
(** The fixture reads the address; then the reader is empty. *)
Definition SetUp : test unit IPAddress := fun s =>
  let* (ip, reader) := IPAddress_of_reader (DataReader_new [16; 32; 48; 64] 4) in
  Ret ([DataReader_length reader =? 0], ip, s).
Definition ByteOrder : test unit unit :=
  ip <-- SetUp ;;
  fun s =>
    let* (ok, w) := IPAddress_writeTo ip (DataWriter_new (replicate 4 0) 4) in
    Ret ([ok : bool; bool_decide (zget (DataWriter_written w) 0 = Some 16)], tt, s).
Definition ToString : test unit unit :=
  ip <-- SetUp ;; EXPECT (bool_decide (IPAddress_toString ip = "16.32.48.64"%string)).
End IpAddressTest.

(** All expectations of a test hold. *)
Definition passes {S} (t : test S unit) (s : S) : Prop :=
  exists l, run_test t s = Ret l /\ Forall (fun b => b = true) l.

(** The tests of the ring buffer and of addresses pass. *)
Theorem base_tests_pass :
  passes RingBufferTest.Basic RingBufferTest.SetUp /\
  passes RingBufferTest.RingReadWrite RingBufferTest.SetUp /\
  passes RingBufferTest.RingBufferReadOffset RingBufferTest.SetUp /\
  passes IpAddressTest.ByteOrder tt /\ passes IpAddressTest.ToString tt.
Proof. split_and!; eexists; (split; [vm_compute; reflexivity|repeat constructor]). Qed.

Module RoutingTableTest.
Local Open Scope test_scope.
(** The table and the factory of mock alarms; devices are named by their numbers. *)
Definition fixture : Type := RoutingTable * MockAlarmFactory.
Definition SetUp : fixture := (RoutingTable_new, MockAlarmFactory_new).

Definition addEntry (dest mask : string) (device : nat) (metric : Z) (immortal : bool) : test fixture unit :=
  fun '(t, w) =>
    let* (t, w) := RoutingTable_addEntry Debug (IPAddress_of_text dest) (IPAddress_of_text mask) device
                     metric immortal t w in
    Ret ([], tt, (t, w)).
Definition lookup (ip : string) : test fixture (option RtEntry) :=
  fun f => Ret ([], RoutingTable_lookup (IPAddress_of_text ip) f.1, f).
(** Access through the pointer that [lookup] returned. *)
Definition deref {A} (e : option RtEntry) (get : RtEntry -> A) : test fixture A :=
  fun f => match e with Some e => Ret ([], get e, f) | None => Undef end.
Definition not_null (e : option RtEntry) : bool := match e with Some _ => true | None => false end.

(** [ASSERT_NE(entry, nullptr)] ends the test when it fails. *)
Definition SimpleMatch : test fixture unit :=
  addEntry "192.168.0.123" "255.255.255.255" 1 0 true ;;
  addEntry "192.168.0.233" "255.255.255.255" 2 0 true ;;
  entry <-- lookup "192.168.0.233" ;;
  EXPECT (not_null entry) ;;
  if not_null entry then
    num <-- deref entry re_device ;; EXPECT (bool_decide (num = 2%nat)) ;;
    entry <-- lookup "192.168.0.1" ;; EXPECT (negb (not_null entry))
  else tret tt.
Definition DVCalculation : test fixture unit :=
  addEntry "192.168.0.123" "255.255.255.255" 1 3 false ;;
  entry <-- lookup "192.168.0.123" ;;
  metric <-- deref entry re_metric ;; EXPECT (metric =? 4).
Definition CreateDisVec : test fixture unit :=
  addEntry "192.168.0.123" "255.255.255.255" 1 0 true ;;
  addEntry "192.168.0.124" "255.255.255.255" 2 1 true ;;
  addEntry "192.168.0.125" "255.255.255.255" 3 1 true ;;
  dist_vec <-- (fun f => Ret ([], RoutingTable_createDistVec 2 f.1, f)) ;;
  EXPECT (dv_len dist_vec =? 1 + 2 * (4 + 1)).
End RoutingTableTest.

Module SocketSessionTest.
Local Open Scope test_scope.
Definition world : Type := MockAlarmFactory * list Segment.
#[global] Instance test_sender : IPSender world := {|
  ip_sendPacket source destination proto buf w :=
    let* (ok, q) := MockIPLayer_sendPacket Debug source destination proto buf w.2 in
    Ret (ok, (w.1, q))
|}.

Definition subject_ : SocketAddress := mkSocketAddress (IPAddress_of_text "192.168.0.0") 10086.
Definition tester_ : SocketAddress := mkSocketAddress (IPAddress_of_text "192.168.0.1") 65535.
Definition seg_factory_ : SegmentFactory := mkSegmentFactory tester_ subject_.
Definition SetUp : outcome (SocketSession world) :=
  SocketSession_new Debug subject_ tester_ (RandGenerator_new 20191106)
    (replicate (Z.to_nat 262144) 0) (replicate (Z.to_nat 14600) 0) (MockAlarmFactory_new, []).

Definition session_test (A : Type) : Type := test (SocketSession world) A.
Definition expectState (c : ConnectionState) : session_test unit :=
  fun s => Ret ([bool_decide (se_state_ s = c)], tt, s).
Definition popSegment : session_test Segment := fun s =>
  let st := se_send s in
  let '(m, q) := ss_world st in
  match q with
  | [] => Undef
  | seg :: q => Ret ([true], seg, se_put_send (mkSendState (ss_sb st) (ss_tcb st) (m, q)) s)
  end.
Definition open : session_test unit := fun s =>
  obind (SocketSession_open Debug s) (fun s => Ret ([], tt, s)).
Definition close : session_test unit := fun s =>
  obind (SocketSession_close Debug s) (fun s => Ret ([], tt, s)).
Definition reply (seq ack flags : Z) : session_test unit := fun s =>
  Ret ([], tt, SocketSession_onSegmentArrival
         (SegmentFactory_createSegment_ack seg_factory_ seq ack flags) s).

Definition ClientBasic3WayHandshake : session_test unit :=
  open ;; expectState SYN_SENT ;;
  seg <-- popSegment ;; EXPECT (Segment_isSYN seg) ;;
  reply 666 (u32 (seg_sequence_ seg + 1)) (Z.lor SYN ACK) ;;
  expectState ESTABLISHED ;;
  popSegment ;; tret tt.
Definition SimultaneousSyncA : session_test unit :=
  open ;; seg <-- popSegment ;;
  reply 300 0 SYN ;; expectState SYN_RECEIVED ;;
  reply 300 (u32 (seg_sequence_ seg + 1)) (Z.lor SYN ACK) ;; expectState ESTABLISHED.
Definition NormalCloseB : session_test unit :=
  open ;; seg <-- popSegment ;;
  reply 99 (u32 (seg_sequence_ seg + 1)) (Z.lor SYN ACK) ;;
  reply 100 (u32 (seg_sequence_ seg + 1)) (Z.lor ACK FIN) ;; expectState CLOSE_WAIT ;;
  close ;; expectState LAST_ACK ;;
  reply 101 (u32 (seg_sequence_ seg + 2)) ACK ;; expectState CLOSED.

Definition run (t : session_test unit) : outcome (list bool) := obind SetUp (run_test t).
(** The expectations before the session gets a segment. *)
Definition first_expectations : session_test unit :=
  open ;; expectState SYN_SENT ;; seg <-- popSegment ;; EXPECT (Segment_isSYN seg).
End SocketSessionTest.

(** The other tests need the exercises: the table finds no entry and its vector has
    every entry in it, and a session that has sent its SYN ignores what it receives. *)
Theorem lab_tests_fail :
  run_test RoutingTableTest.SimpleMatch RoutingTableTest.SetUp = Ret [false] /\
  run_test RoutingTableTest.DVCalculation RoutingTableTest.SetUp = Undef /\
  run_test RoutingTableTest.CreateDisVec RoutingTableTest.SetUp = Ret [false] /\
  SocketSessionTest.run SocketSessionTest.first_expectations = Ret [true; true; true] /\
  SocketSessionTest.run SocketSessionTest.ClientBasic3WayHandshake = Undef /\
  SocketSessionTest.run SocketSessionTest.SimultaneousSyncA = Ret [true; false; false] /\
  SocketSessionTest.run SocketSessionTest.NormalCloseB = Ret [true; false; false; true].
Proof. vm_compute. repeat split. Qed.
