(* ===== verification/Dispatchers.v ===== *)
(** src/src/posix/segment_dispatcher.{h,cpp}, the tables of listen_dispatcher and
    reset_dispatcher.{h,cpp}: who gets a segment. Sessions and sockets are named by
    their object on the heap. *)

From stdpp Require Import base list numbers.
From S2P Require Import Prelude Endian DataWriter DataReader TimeBase Alarm EpollServer.
From S2P Require Import RingBuffer IPAddress Checksum SocketAddress Segment ControlBlock SendBuffer.

Open Scope Z_scope.
Open Scope outcome_scope.

(** ** Established sessions: local address, peer, session *)
Definition Established : Type := list (SocketAddress * SocketAddress * nat).

Fixpoint SegmentDispatcher_lookupSession (to from : SocketAddress) (established_ : Established)
  : option nat :=
  match established_ with
  | [] => None
  | (local, peer, session) :: rest =>
      if SocketAddress_eqb local to && SocketAddress_eqb peer from then Some session
      else SegmentDispatcher_lookupSession to from rest
  end.

Definition SegmentDispatcher_addSession (local peer : SocketAddress) (session : nat)
  (established_ : Established) : Established := established_ ++ [(local, peer, session)].

Fixpoint SegmentDispatcher_removeSession (session : nat) (established_ : Established) : Established :=
  match established_ with
  | [] => []
  | e :: rest =>
      if bool_decide (e.2 = session) then rest
      else e :: SegmentDispatcher_removeSession session rest
  end.

(** ** Listening sockets: address and socket *)
Definition Listeners : Type := list (SocketAddress * nat).

Definition listener_matches (to listener : SocketAddress) : bool :=
  (sa_port_ to =? sa_port_ listener)
  && (IPAddress_isInaddrAny (sa_host_ listener) || IPAddress_eqb (sa_host_ to) (sa_host_ listener)).

Fixpoint ListenDispatcher_lookupSession (to : SocketAddress) (vector_ : Listeners) : option nat :=
  match vector_ with
  | [] => None
  | (listener, st) :: rest =>
      if listener_matches to listener then Some st else ListenDispatcher_lookupSession to rest
  end.
Definition ListenDispatcher_addListener (target : SocketAddress) (st : nat) (vector_ : Listeners)
  : Listeners := vector_ ++ [(target, st)].
Fixpoint ListenDispatcher_removeSession (st : nat) (vector_ : Listeners) : Listeners :=
  match vector_ with
  | [] => []
  | e :: rest =>
      if bool_decide (e.2 = st) then rest else e :: ListenDispatcher_removeSession st rest
  end.

(** ** Segments nobody expects *)
Section reset.
Context {W : Type} `{IPSender W}.
Context (bld : build).

(** The response of RFC 793 is built, and then the received segment is the one
    that is written. [buffer_] has 1480 bytes. *)
Definition ResetDispatcher_response (segment : Segment) : outcome Segment :=
  let factory := mkSegmentFactory (seg_destination_ segment) (seg_source_ segment) in
  if Segment_isACK segment then
    SegmentFactory_createSegment bld factory (seg_acknowledgment_ segment) RST
  else
    Ret (SegmentFactory_createSegment_ack factory 0
           (u32 (seg_sequence_ segment + seg_data_length_ segment)) (Z.lor RST ACK)).
Definition ResetDispatcher_onReceivePacket (buffer : list Z) (length : Z) (source destination : IPAddress)
  (buffer_ : list Z) (w : W) : outcome (list Z * W) :=
  segment <- Segment_parse bld source destination buffer length ;;
  response <- ResetDispatcher_response segment ;;
  let writer := DataWriter_new buffer_ kMaxTCPPacketLength in
  let* (_, writer) := Segment_writeSegmentTo bld segment writer in
  let* (_, w) := ip_sendPacket (sa_host_ (seg_destination_ segment)) (sa_host_ (seg_source_ segment))
                   ServiceProtocol_TCP (DataWriter_written writer) w in
  Ret (dw_buffer_ writer, w).
End reset.

(** ** The tables *)
Definition es_wf (es : Established) : Prop := Forall (fun e => sa_wf e.1.1 /\ sa_wf e.1.2) es.

Lemma lookupSession_cons l p e es :
  sa_wf l -> sa_wf p -> sa_wf e.1.1 /\ sa_wf e.1.2 ->
  SegmentDispatcher_lookupSession l p (e :: es)
  = if decide (e.1 = (l, p)) then Some e.2 else SegmentDispatcher_lookupSession l p es.
Proof.
  destruct e as [[a b] i]. cbn. intros Hl Hp [Ha Hb].
  destruct (SocketAddress_eqb a l && SocketAddress_eqb b p) eqn:E.
  - apply andb_true_iff in E as [Ea Eb].
    apply SocketAddress_eqb_eq in Ea; [|done|done]. apply SocketAddress_eqb_eq in Eb; [|done|done].
    subst. by rewrite decide_True.
  - rewrite decide_False; [done|]. intros [= -> ->].
    rewrite (proj2 (SocketAddress_eqb_eq l l Hl Hl) eq_refl),
      (proj2 (SocketAddress_eqb_eq p p Hp Hp) eq_refl) in E. done.
Qed.

Lemma lookupSession_first l p es id :
  es_wf es -> sa_wf l -> sa_wf p ->
  SegmentDispatcher_lookupSession l p es = Some id <->
  exists pre post, es = pre ++ (l, p, id) :: post /\ Forall (fun e => e.1 <> (l, p)) pre.
Proof.
  intros Hes Hl Hp. induction Hes as [|e es He Hes IH].
  - split; [done|]. by intros ([|] & ? & ? & _).
  - rewrite lookupSession_cons by done. case_decide as Heq.
    + split.
      * intros [= <-]. exists [], es. rewrite <- Heq. by destruct e.
      * intros ([|x pre] & post & E & Hpre); cbn in E; injection E as -> ->; [done|].
        by apply Forall_cons_1 in Hpre as [? _].
    + rewrite IH. split.
      * intros (pre & post & -> & Hpre). exists (e :: pre), post. by split; [|constructor].
      * intros ([|x pre] & post & E & Hpre); cbn in E; injection E as -> ->; [done|].
        apply Forall_cons_1 in Hpre as [_ Hpre]. by exists pre, post.
Qed.

Lemma lookupSession_none l p es :
  es_wf es -> sa_wf l -> sa_wf p ->
  SegmentDispatcher_lookupSession l p es = None <-> Forall (fun e => e.1 <> (l, p)) es.
Proof.
  intros Hes Hl Hp. induction Hes as [|e es He Hes IH]; [done|].
  rewrite lookupSession_cons, Forall_cons_iff by done. case_decide; naive_solver.
Qed.

Lemma lookupSession_add l p es id :
  es_wf es -> sa_wf l -> sa_wf p ->
  SegmentDispatcher_lookupSession l p (SegmentDispatcher_addSession l p id es)
  = Some (default id (SegmentDispatcher_lookupSession l p es)).
Proof.
  intros Hes Hl Hp. unfold SegmentDispatcher_addSession. induction Hes as [|e es He Hes IH].
  - change ([] ++ [(l, p, id)]) with [(l, p, id)]. rewrite lookupSession_cons by done.
    by rewrite decide_True.
  - change ((e :: es) ++ [(l, p, id)]) with (e :: (es ++ [(l, p, id)])).
    rewrite !lookupSession_cons by done. by case_decide.
Qed.

Lemma lookupSession_elem l p es id :
  SegmentDispatcher_lookupSession l p es = Some id -> id ∈ snd <$> es.
Proof.
  induction es as [|[[a b] i] es IH]; cbn; [done|].
  destruct (_ && _); [intros [= ->]; by left|]. intros H. right. by apply IH.
Qed.

Lemma removeSession_elem id es :
  NoDup (snd <$> es) -> id ∉ snd <$> SegmentDispatcher_removeSession id es.
Proof.
  induction es as [|e es IH]; cbn; [by intros _ ?%elem_of_nil|].
  intros Hnd. inversion_clear Hnd as [|? ? Hn Hd]. case_bool_decide as E; [by rewrite <- E|].
  cbn. intros [->|Hin]%elem_of_cons; [done|]. by apply IH.
Qed.

(** The table of sessions, addresses being IPv4 or unspecified. A lookup gives
    the session of the first entry whose two ends are the ends of the segment, and
    nothing if there is none; a new entry is found unless an older one has the same
    ends; removing a session that is in the table once makes it unreachable. *)
Theorem SegmentDispatcher_table (es : Established) (local peer : SocketAddress) (session : nat) :
  es_wf es -> sa_wf local -> sa_wf peer ->
  (forall id, SegmentDispatcher_lookupSession local peer es = Some id <->
     exists pre post, es = pre ++ (local, peer, id) :: post /\
       Forall (fun e => e.1 <> (local, peer)) pre) /\
  (SegmentDispatcher_lookupSession local peer es = None <->
     Forall (fun e => e.1 <> (local, peer)) es) /\
  SegmentDispatcher_lookupSession local peer (SegmentDispatcher_addSession local peer session es)
    = Some (default session (SegmentDispatcher_lookupSession local peer es)) /\
  (NoDup (snd <$> es) ->
   SegmentDispatcher_lookupSession local peer (SegmentDispatcher_removeSession session es)
     <> Some session).
Proof.
  intros Hes Hl Hp. split_and!.
  - intros id. by apply lookupSession_first.
  - by apply lookupSession_none.
  - by apply lookupSession_add.
  - intros Hd Hx%lookupSession_elem. by apply (removeSession_elem session es).
Qed.

Definition example_sa (n : Z) (port : Z) : SocketAddress :=
  mkSocketAddress (IPAddress_of_in_addr [10; 0; 0; n]) port.
Lemma example_sa_wf n port : in_u8 n -> in_u16 port -> sa4_wf (example_sa n port).
Proof.
  intros. split; [|done]. apply ip_of_in_addr_wf; [|done]. repeat constructor; try word.
Qed.

Lemma SegmentDispatcher_table_witness :
  SegmentDispatcher_lookupSession (example_sa 1 80) (example_sa 2 50000)
    (SegmentDispatcher_removeSession 3 [(example_sa 1 80, example_sa 2 50000, 3%nat)]) <> Some 3%nat.
Proof.
  apply (SegmentDispatcher_table [(example_sa 1 80, example_sa 2 50000, 3%nat)]
    (example_sa 1 80) (example_sa 2 50000) 3).
  - constructor; [split; apply sa4_wf_sa_wf, example_sa_wf; word|constructor].
  - apply sa4_wf_sa_wf, example_sa_wf; word.
  - apply sa4_wf_sa_wf, example_sa_wf; word.
  - apply NoDup_singleton.
Defined.

(** A segment without a socket should be answered by a reset. The dispatcher
    builds that reset, but writes the segment it received: what the network gets,
    addressed back to the sender, is the unexpected segment itself, with its own
    ports, numbers, flags and payload. *)
Theorem reset_echoes_segment (s : Segment) (c : Z) (buffer_ : list Z) (e : EpollServer) (q : list Segment) :
  seg_wf s -> in_u16 c -> seg_data_length_ s <= kMaxSegmentSize ->
  byte_list buffer_ -> zlen buffer_ = kMaxTCPPacketLength -> zlen q < kMaxQueueLength ->
  let src := sa_host_ (seg_source_ s) in
  let dst := sa_host_ (seg_destination_ s) in
  exists r b,
    ResetDispatcher_response Debug s = Ret r /\ Segment_isRST r = true /\
    ResetDispatcher_onReceivePacket Debug (seg_bytes s c) (20 + seg_data_length_ s) src dst buffer_
      ((e, q) : MockWorld)
    = Ret (b, (e, q ++ [received dst src s])).
Proof.
  intros Hs Hc Hlen Hb Hz Hq src dst.
  unfold kMaxSegmentSize, kMaxTCPPacketLength, kMaxQueueLength in *. pose proof (seg_wf_len s Hs).
  assert (exists r, ResetDispatcher_response Debug s = Ret r /\ Segment_isRST r = true) as (r & Er & Hrst).
  { unfold ResetDispatcher_response, SegmentFactory_createSegment.
    change (DCHECK Debug (Z.land RST ACK =? 0)) with (Ret tt).
    destruct (Segment_isACK s); eexists; split; done. }
  set (g := mkSegment (seg_source_ s) (seg_destination_ s) (seg_sequence_ s) (seg_acknowledgment_ s)
              (seg_flags_ s) (seg_window_ s) (seg_payload s) false (seg_data_length_ s)).
  assert (seg_payload g = seg_payload s) as Hpg.
  { unfold seg_payload at 1. cbn. apply ztake_all. rewrite zlen_seg_payload by done. lia. }
  assert (seg_wf g) as Hg.
  { destruct Hs. split; cbn; try done; [by apply byte_list_take|].
    unfold seg_payload. rewrite zlen_take. lia. }
  assert (DataWriter_wf (DataWriter_new buffer_ 1480)) as Hw by (apply DataWriter_new_wf; [done|lia|word]).
  destruct (writeSegmentTo_ok g (DataWriter_new buffer_ 1480) Hg) as (w & c' & Ew & Hc' & Hwr & Hl & _);
    [cbn; lia|done|done|cbn; lia|].
  exists r, (dw_buffer_ w). split; [done|]. split; [done|].
  unfold ResetDispatcher_onReceivePacket. rewrite Segment_parse_bytes by (done || lia).
  replace (mkSegment _ _ _ _ _ _ _ _ _) with g
    by (unfold g, src, dst; by destruct (seg_source_ s), (seg_destination_ s)).
  cbn [obind]. assert (ResetDispatcher_response Debug g = ResetDispatcher_response Debug s) as -> by done.
  rewrite Er. cbn [obind]. unfold kMaxTCPPacketLength. rewrite Ew. cbn [obind].
  cbn [ip_sendPacket MockWorld_sender snd fst]. unfold MockIPLayer_sendPacket, kMaxQueueLength.
  destruct (Z.leb_spec 16 (zlen q)); [lia|].
  change (sa_host_ (seg_destination_ g)) with dst. change (sa_host_ (seg_source_ g)) with src.
  rewrite Hwr, zlen_seg_bytes, Segment_parse_bytes by (done || cbn; lia). cbn [obind].
  assert (Segment_copyData (mkSegment (mkSocketAddress dst (sa_port_ (seg_source_ g)))
    (mkSocketAddress src (sa_port_ (seg_destination_ g))) (seg_sequence_ g) (seg_acknowledgment_ g)
    (seg_flags_ g) (seg_window_ g) (seg_payload g) false (seg_data_length_ g)) = Ret (received dst src s)) as ->;
    [|done].
  exact (copyData_received dst src s g Hs Hpg).
Qed.

Lemma reset_echoes_segment_witness :
  exists r b,
    ResetDispatcher_response Debug example_segment = Ret r /\ Segment_isRST r = true /\
    ResetDispatcher_onReceivePacket Debug (seg_bytes example_segment 0) 23
      (IPAddress_of_in_addr [10; 0; 0; 1]) (IPAddress_of_in_addr [10; 0; 0; 2])
      (replicate 1480 0) ((example_server, []) : MockWorld)
    = Ret (b, (example_server, [received (IPAddress_of_in_addr [10; 0; 0; 2])
                                  (IPAddress_of_in_addr [10; 0; 0; 1]) example_segment])).
Proof.
  apply (reset_echoes_segment example_segment 0 (replicate 1480 0) example_server []).
  - apply example_segment_wf.
  - word.
  - concrete.
  - apply replicate_zero_bytes.
  - reflexivity.
  - concrete.
Defined.
