(* ===== verification/ProtocolStack.v ===== *)
(** src/src/posix/socket_struct.{h,cpp}, listen_dispatcher.cpp and
    protocol_stack.{h,cpp}: POSIX sockets on top of the stack. The calls of the C
    library that are wrapped ([__real_*], [dup]) are arguments by their results.
    An operation holds the mutex of the stack from its first access to a socket to its
    end, so operations are the steps of the program. [_socket] and the tests of [ownFD]
    run without the mutex: a call is its test and its part under the mutex, [*_locked],
    and [StackThreads] puts those of several threads between each other. [_read] has no
    body and [_accept] waits for ever on a listening socket. *)

From stdpp Require Import base list numbers gmap.
From S2P Require Import Prelude Endian DataWriter DataReader TimeBase Alarm EpollServer.
From S2P Require Import RingBuffer RandGenerator IPAddress Checksum Ether RoutingTable IPLayer.
From S2P Require Import SocketAddress Segment ControlBlock SendBuffer SocketSession Dispatchers.

Open Scope Z_scope.
Open Scope outcome_scope.

(** ** Sockets *)
Inductive StType : Type := PASSIVE | ACTIVE | UNSPECIFIED.
#[global] Instance StType_eq_dec : EqDecision StType.
Proof. solve_decision. Defined.

(** [st_message_] is not initialised by the constructor. *)
Record SocketStruct : Type := mkSocketStruct {
  st_session : option nat;
  st_backlog : Z;
  st_pending : list nat;
  st_bind_address : SocketAddress;
  st_type : StType;
  st_closing : bool;
  st_message_ : option Z
}.

Definition SocketStruct_new (address : SocketAddress) : SocketStruct :=
  mkSocketStruct None 0 [] address UNSPECIFIED false None.

Definition SocketStruct_onMessage (message : Z) (st : SocketStruct) : outcome SocketStruct :=
  match st_message_ st with
  | None => Undef
  | Some m =>
      Ret (mkSocketStruct (st_session st) (st_backlog st) (st_pending st) (st_bind_address st)
             (st_type st) (if message =? MSG_CLOSING then true else st_closing st)
             (Some (Z.lor m message)))
  end.
(** [waitMessage], up to the wait. *)
Definition SocketStruct_waitMessage (st : SocketStruct) : SocketStruct :=
  mkSocketStruct (st_session st) (st_backlog st) (st_pending st) (st_bind_address st)
    (st_type st) (st_closing st) (Some 0).
Definition SocketStruct_isErrorMessage (message_ : Z) : bool :=
  negb (Z.land message_ (u32 (Z.lnot (Z.lor MSG_READABLE MSG_WRITABLE))) =? 0).

Definition st_put_bind (a : SocketAddress) (st : SocketStruct) : SocketStruct :=
  mkSocketStruct (st_session st) (st_backlog st) (st_pending st) a (st_type st) (st_closing st)
    (st_message_ st).
Definition st_put_listening (backlog : Z) (st : SocketStruct) : SocketStruct :=
  mkSocketStruct (st_session st) backlog (st_pending st) (st_bind_address st) PASSIVE
    (st_closing st) (st_message_ st).
Definition st_put_active (session : nat) (st : SocketStruct) : SocketStruct :=
  mkSocketStruct (Some session) (st_backlog st) (st_pending st) (st_bind_address st) ACTIVE
    (st_closing st) (st_message_ st).
Definition st_put_pending (l : list nat) (st : SocketStruct) : SocketStruct :=
  mkSocketStruct (st_session st) (st_backlog st) l (st_bind_address st) (st_type st)
    (st_closing st) (st_message_ st).

(** ** The stack

    Sockets and sessions live on the heap; [ps_fd_set_] owns the sockets, a socket or
    [ps_garbage_] owns a session. A stored session has no world of its own. *)
Record ProtocolStack (W : Type) : Type := mkProtocolStack {
  ps_fd_set_ : gmap Z nat;
  ps_structs : gmap nat SocketStruct;
  ps_sessions : gmap nat (SocketSession unit);
  ps_garbage_ : list nat;
  ps_established : Established;
  ps_listeners : Listeners;
  ps_reset_buffer : list Z;
  ps_rand : RandGenerator;
  ps_world : W;
  ps_fresh : nat
}.
Arguments mkProtocolStack {W} _ _ _ _ _ _ _ _ _ _.
Arguments ps_fd_set_ {W} _.
Arguments ps_structs {W} _.
Arguments ps_sessions {W} _.
Arguments ps_garbage_ {W} _.
Arguments ps_established {W} _.
Arguments ps_listeners {W} _.
Arguments ps_reset_buffer {W} _.
Arguments ps_rand {W} _.
Arguments ps_world {W} _.
Arguments ps_fresh {W} _.

(** [int] results: a value, or -1 with [errno]. *)
Inductive PosixResult : Type := RetVal (v : Z) | Errno (e : Z).
Definition EBADF : Z := 9.
Definition EINVAL : Z := 22.
Definition EOPNOTSUPP : Z := 95.
Definition ECONNABORTED : Z := 103.
Definition EISCONN : Z := 106.
Definition ENOTCONN : Z := 107.

Section stack.
Context {W : Type} `{AlarmImpl W} `{AlarmFactory W} `{IPSender W}.
Context (bld : build).

Definition ps_put_fds (m : gmap Z nat) (ps : ProtocolStack W) : ProtocolStack W :=
  mkProtocolStack m (ps_structs ps) (ps_sessions ps) (ps_garbage_ ps) (ps_established ps)
    (ps_listeners ps) (ps_reset_buffer ps) (ps_rand ps) (ps_world ps) (ps_fresh ps).
Definition ps_put_structs (m : gmap nat SocketStruct) (ps : ProtocolStack W) : ProtocolStack W :=
  mkProtocolStack (ps_fd_set_ ps) m (ps_sessions ps) (ps_garbage_ ps) (ps_established ps)
    (ps_listeners ps) (ps_reset_buffer ps) (ps_rand ps) (ps_world ps) (ps_fresh ps).
Definition ps_put_garbage (l : list nat) (ps : ProtocolStack W) : ProtocolStack W :=
  mkProtocolStack (ps_fd_set_ ps) (ps_structs ps) (ps_sessions ps) l (ps_established ps)
    (ps_listeners ps) (ps_reset_buffer ps) (ps_rand ps) (ps_world ps) (ps_fresh ps).
Definition ps_put_established (l : Established) (ps : ProtocolStack W) : ProtocolStack W :=
  mkProtocolStack (ps_fd_set_ ps) (ps_structs ps) (ps_sessions ps) (ps_garbage_ ps) l
    (ps_listeners ps) (ps_reset_buffer ps) (ps_rand ps) (ps_world ps) (ps_fresh ps).
Definition ps_put_listeners (l : Listeners) (ps : ProtocolStack W) : ProtocolStack W :=
  mkProtocolStack (ps_fd_set_ ps) (ps_structs ps) (ps_sessions ps) (ps_garbage_ ps)
    (ps_established ps) l (ps_reset_buffer ps) (ps_rand ps) (ps_world ps) (ps_fresh ps).
Definition ps_put_rand (g : RandGenerator) (ps : ProtocolStack W) : ProtocolStack W :=
  mkProtocolStack (ps_fd_set_ ps) (ps_structs ps) (ps_sessions ps) (ps_garbage_ ps)
    (ps_established ps) (ps_listeners ps) (ps_reset_buffer ps) g (ps_world ps) (ps_fresh ps).
Definition ps_put_fresh (n : nat) (ps : ProtocolStack W) : ProtocolStack W :=
  mkProtocolStack (ps_fd_set_ ps) (ps_structs ps) (ps_sessions ps) (ps_garbage_ ps)
    (ps_established ps) (ps_listeners ps) (ps_reset_buffer ps) (ps_rand ps) (ps_world ps) n.
Definition ps_put_struct (p : nat) (st : SocketStruct) (ps : ProtocolStack W) : ProtocolStack W :=
  ps_put_structs (<[p := st]> (ps_structs ps)) ps.

(** A session with and without the world it shares. *)
Definition se_attach (w : W) (g : RandGenerator) (s : SocketSession unit) : SocketSession W :=
  mkSocketSession (mkSendState (ss_sb (se_send s)) (ss_tcb (se_send s)) w) (se_state_ s)
    (se_factory_ s) g (se_callback_ s) (se_receive_buffer_ s) (se_time_wait_alarm_ s).
Definition se_detach (s : SocketSession W) : SocketSession unit :=
  mkSocketSession (mkSendState (ss_sb (se_send s)) (ss_tcb (se_send s)) tt) (se_state_ s)
    (se_factory_ s) (se_rand s) (se_callback_ s) (se_receive_buffer_ s) (se_time_wait_alarm_ s).

Definition ps_store (i : nat) (s : SocketSession W) (ps : ProtocolStack W) : ProtocolStack W :=
  mkProtocolStack (ps_fd_set_ ps) (ps_structs ps) (<[i := se_detach s]> (ps_sessions ps))
    (ps_garbage_ ps) (ps_established ps) (ps_listeners ps) (ps_reset_buffer ps)
    (se_rand s) (ss_world (se_send s)) (ps_fresh ps).

(** A call on the session behind a pointer: undefined when it is gone. *)
Definition on_session (i : nat) (f : SocketSession W -> outcome (SocketSession W))
  (ps : ProtocolStack W) : outcome (ProtocolStack W) :=
  match ps_sessions ps !! i with
  | None => Undef
  | Some s => s <- f (se_attach (ps_world ps) (ps_rand ps) s) ;; Ret (ps_store i s ps)
  end.
(** [make_unique<SocketSession>(ip_layer, alarm_factory, local, remote, rand)] *)
Definition new_session (local remote : SocketAddress) (ps : ProtocolStack W)
  : outcome (nat * ProtocolStack W) :=
  s <- SocketSession_new bld local remote (ps_rand ps) (replicate (Z.to_nat (1024 * 256)) 0)
         (replicate (Z.to_nat (kMaxSegmentSize * 10)) 0) (ps_world ps) ;;
  let i := ps_fresh ps in
  Ret (i, ps_put_fresh (S i) (ps_store i s ps)).

Definition ProtocolStack_ownFD (fd : Z) (ps : ProtocolStack W) : bool :=
  bool_decide (is_Some (ps_fd_set_ ps !! fd)).
(** [lookupStruct] and the access through the pointer it returns. *)
Definition ProtocolStack_lookupStruct (fd : Z) (ps : ProtocolStack W) : outcome (nat * SocketStruct) :=
  match ps_fd_set_ ps !! fd with
  | None => Undef
  | Some p => match ps_structs ps !! p with Some st => Ret (p, st) | None => Undef end
  end.
(** [fd_set_.erase(fd)] destroys the socket; its only caller has moved the sessions of the
    socket out of it. *)
Definition ProtocolStack_removeStruct (fd : Z) (ps : ProtocolStack W) : ProtocolStack W :=
  match ps_fd_set_ ps !! fd with
  | None => ps
  | Some p => ps_put_fds (delete fd (ps_fd_set_ ps)) (ps_put_structs (delete p (ps_structs ps)) ps)
  end.

(** [~SocketSession]: the alarms it owns, [time_wait_alarm_] and then the one of its send
    buffer, are destroyed with it, and an alarm that is destroyed cancels itself. *)
Definition destroy_session (i : nat) (ps : ProtocolStack W) : outcome (ProtocolStack W) :=
  match ps_sessions ps !! i with
  | None => Undef
  | Some s =>
      w <- Alarm_cancel (se_time_wait_alarm_ s) (ps_world ps) ;;
      w <- Alarm_cancel (sb_retransmission_alarm_ (ss_sb (se_send s))) w ;;
      Ret (mkProtocolStack (ps_fd_set_ ps) (ps_structs ps) (delete i (ps_sessions ps))
        (ps_garbage_ ps) (ps_established ps) (ps_listeners ps) (ps_reset_buffer ps)
        (ps_rand ps) w (ps_fresh ps))
  end.
Fixpoint destroy_sessions (l : list nat) (ps : ProtocolStack W) : outcome (ProtocolStack W) :=
  match l with
  | [] => Ret ps
  | i :: l => ps <- destroy_session i ps ;; destroy_sessions l ps
  end.
(** The sessions a socket owns; [~SocketStruct] destroys them in this order. *)
Definition struct_sessions (st : SocketStruct) : list nat :=
  st_pending st ++ option_list (st_session st).
Definition destroy_struct (p : nat) (ps : ProtocolStack W) : outcome (ProtocolStack W) :=
  match ps_structs ps !! p with
  | None => Undef
  | Some st =>
      ps <- destroy_sessions (struct_sessions st) ps ;;
      Ret (ps_put_structs (delete p (ps_structs ps)) ps)
  end.

(** [_socket]: [real_rv] and [dup_fd] are the results of [__real_socket] and [dup],
    [default_ip] that of [getDefaultIP]. The assignment to [fd_set_[fd]] destroys the
    socket that was there, if there was one. *)
Definition ProtocolStack_socket (domain type protocol real_rv dup_fd : Z) (default_ip : outcome IPAddress)
  (ps : ProtocolStack W) : outcome (Z * ProtocolStack W) :=
  if negb (domain =? AF_INET) || negb (type =? SOCK_STREAM)
     || (negb (protocol =? 0) && negb (protocol =? IPPROTO_TCP)) then Ret (real_rv, ps)
  else
    let fd := dup_fd in
    DCHECK bld (negb (ProtocolStack_ownFD fd ps)) ;;;
    ip <- default_ip ;;
    let* (port, g) := RandGenerator_rand_between bld (ps_rand ps) 49162 65536 in
    let address := mkSocketAddress ip (u16 port) in
    let ps := ps_put_rand g ps in
    ps <- match ps_fd_set_ ps !! fd with Some old => destroy_struct old ps | None => Ret ps end ;;
    let p := ps_fresh ps in
    let ps := ps_put_struct p (SocketStruct_new address) (ps_put_fresh (S p) ps) in
    Ret (fd, ps_put_fds (<[fd := p]> (ps_fd_set_ ps)) ps).

(** The calls on a descriptor test [ownFD] first, without the mutex, and hand the call
    to the C library when the stack does not own it; the rest runs under the mutex. *)
Definition ProtocolStack_bind_locked (socket : Z) (address : list Z) (address_len : Z) (ps : ProtocolStack W)
  : outcome (PosixResult * ProtocolStack W) :=
  socket_address <- SocketAddress_of_sockaddr address address_len ;;
  let* (p, st) := ProtocolStack_lookupStruct socket ps in
  Ret (RetVal 0, ps_put_struct p (st_put_bind socket_address st) ps).
Definition ProtocolStack_bind (socket : Z) (address : list Z) (address_len real_rv : Z)
  (ps : ProtocolStack W) : outcome (PosixResult * ProtocolStack W) :=
  if negb (ProtocolStack_ownFD socket ps) then Ret (RetVal real_rv, ps)
  else ProtocolStack_bind_locked socket address address_len ps.

Definition ProtocolStack_listen_locked (socket backlog : Z) (ps : ProtocolStack W)
  : outcome (PosixResult * ProtocolStack W) :=
  let backlog := if backlog <=? 0 then 1 else backlog in
  let* (p, st) := ProtocolStack_lookupStruct socket ps in
  if negb (bool_decide (st_type st = UNSPECIFIED)) then Ret (Errno EINVAL, ps)
  else
    let ps := ps_put_struct p (st_put_listening (u32 backlog) st) ps in
    Ret (RetVal 0, ps_put_listeners
           (ListenDispatcher_addListener (st_bind_address st) p (ps_listeners ps)) ps).
Definition ProtocolStack_listen (socket backlog real_rv : Z) (ps : ProtocolStack W)
  : outcome (PosixResult * ProtocolStack W) :=
  if negb (ProtocolStack_ownFD socket ps) then Ret (RetVal real_rv, ps)
  else ProtocolStack_listen_locked socket backlog ps.

Definition ProtocolStack_connect_locked (socket : Z) (address : list Z) (address_len : Z) (ps : ProtocolStack W)
  : outcome (PosixResult * ProtocolStack W) :=
  let* (p, st) := ProtocolStack_lookupStruct socket ps in
  peer_address <- SocketAddress_of_sockaddr address address_len ;;
  match st_type st with
  | PASSIVE => Ret (Errno EOPNOTSUPP, ps)
  | ACTIVE => Ret (Errno EISCONN, ps)
  | UNSPECIFIED =>
      let* (i, ps) := new_session (st_bind_address st) peer_address ps in
      let ps := ps_put_struct p (st_put_active i st) ps in
      let ps := ps_put_established
                  (SegmentDispatcher_addSession (st_bind_address st) peer_address i
                     (ps_established ps)) ps in
      ps <- on_session i (SocketSession_open bld) ps ;;
      ps <- on_session i (fun s => Ret (SocketSession_setCallback (Some p) s)) ps ;;
      Ret (RetVal 0, ps)
  end.
Definition ProtocolStack_connect (socket : Z) (address : list Z) (address_len real_rv : Z)
  (ps : ProtocolStack W) : outcome (PosixResult * ProtocolStack W) :=
  if negb (ProtocolStack_ownFD socket ps) then Ret (RetVal real_rv, ps)
  else ProtocolStack_connect_locked socket address address_len ps.

(** [_accept]: [None] while the calling thread waits; the loop has no exit. *)
Definition ProtocolStack_accept_locked (socket : Z) (ps : ProtocolStack W)
  : outcome (option PosixResult * ProtocolStack W) :=
  let* (p, st) := ProtocolStack_lookupStruct socket ps in
  if negb (bool_decide (st_type st = PASSIVE)) then Ret (Some (Errno EINVAL), ps)
  else Ret (None, ps_put_struct p (SocketStruct_waitMessage st) ps).
Definition ProtocolStack_accept (socket real_rv : Z) (ps : ProtocolStack W)
  : outcome (option PosixResult * ProtocolStack W) :=
  if negb (ProtocolStack_ownFD socket ps) then Ret (Some (RetVal real_rv), ps)
  else ProtocolStack_accept_locked socket ps.

(** [_write], up to the call of [session->send], which is empty. *)
Definition ProtocolStack_write_locked (fildes : Z) (buf : list Z) (nbyte : Z) (ps : ProtocolStack W)
  : outcome (PosixResult * ProtocolStack W) :=
  let* (p, st) := ProtocolStack_lookupStruct fildes ps in
  match st_type st with
  | UNSPECIFIED => Ret (Errno ENOTCONN, ps)
  | PASSIVE => Ret (Errno EBADF, ps)
  | ACTIVE =>
      match st_session st with
      | None => Undef
      | Some i =>
          match ps_sessions ps !! i with
          | None => Undef
          | Some s =>
              let* (rv, s) := SocketSession_send buf nbyte (se_attach (ps_world ps) (ps_rand ps) s) in
              Ret (RetVal rv, ps_store i s ps)
          end
      end
  end.
Definition ProtocolStack_write (fildes : Z) (buf : list Z) (nbyte real_rv : Z) (ps : ProtocolStack W)
  : outcome (PosixResult * ProtocolStack W) :=
  if negb (ProtocolStack_ownFD fildes ps) then Ret (RetVal real_rv, ps)
  else ProtocolStack_write_locked fildes buf nbyte ps.

(** The loop of [_close] over the pending sessions of a passive socket. *)
Fixpoint close_pending (l : list nat) (ps : ProtocolStack W) : outcome (ProtocolStack W) :=
  match l with
  | [] => Ret ps
  | i :: l =>
      ps <- on_session i (SocketSession_close bld) ps ;;
      close_pending l (ps_put_garbage (ps_garbage_ ps ++ [i]) ps)
  end.

Definition ProtocolStack_close_locked (fildes : Z) (ps : ProtocolStack W)
  : outcome (PosixResult * ProtocolStack W) :=
  let* (p, st) := ProtocolStack_lookupStruct fildes ps in
  ps <- match st_type st with
        | UNSPECIFIED => Ret ps
        | ACTIVE =>
            match st_session st with
            | None => Undef
            | Some i =>
                ps <- on_session i (SocketSession_close bld) ps ;;
                Ret (ps_put_garbage (ps_garbage_ ps ++ [i]) ps)
            end
        | PASSIVE => close_pending (st_pending st) ps
        end ;;
  Ret (RetVal 0, ProtocolStack_removeStruct fildes ps).
Definition ProtocolStack_close (fildes real_rv : Z) (ps : ProtocolStack W)
  : outcome (PosixResult * ProtocolStack W) :=
  if negb (ProtocolStack_ownFD fildes ps) then Ret (RetVal real_rv, ps)
  else ProtocolStack_close_locked fildes ps.

Definition ProtocolStack_canClose (ps : ProtocolStack W) : bool :=
  bool_decide (ps_garbage_ ps = []).

(** [closeAllFDs]: [begin] is the key of [fd_set_.begin()], in whatever order the map has.
    Every turn takes one descriptor out of the map, so that its size bounds the turns. *)
Fixpoint closeAllFDs_loop (fuel : nat) (begin : gmap Z nat -> Z) (ps : ProtocolStack W)
  : outcome (ProtocolStack W) :=
  if decide (ps_fd_set_ ps = ∅) then Ret ps
  else
    match fuel with
    | O => Undef
    | S fuel =>
        let* (_, ps) := ProtocolStack_close (begin (ps_fd_set_ ps)) 0 ps in
        closeAllFDs_loop fuel begin ps
    end.
Definition ProtocolStack_closeAllFDs (begin : gmap Z nat -> Z) (ps : ProtocolStack W)
  : outcome (ProtocolStack W) := closeAllFDs_loop (size (ps_fd_set_ ps)) begin ps.

(** [ListenDispatcher::onReceivePacket], then [SegmentDispatcher::onReceivePacket]. *)
Definition ListenDispatcher_onReceivePacket (buffer : list Z) (length : Z) (source destination : IPAddress)
  (ps : ProtocolStack W) : outcome (ProtocolStack W) :=
  segment <- Segment_parse bld source destination buffer length ;;
  let to := seg_destination_ segment in
  let from := seg_source_ segment in
  match ListenDispatcher_lookupSession to (ps_listeners ps) with
  | None =>
      let* (b, w) := ResetDispatcher_onReceivePacket bld buffer length source destination
                       (ps_reset_buffer ps) (ps_world ps) in
      Ret (mkProtocolStack (ps_fd_set_ ps) (ps_structs ps) (ps_sessions ps) (ps_garbage_ ps)
             (ps_established ps) (ps_listeners ps) b (ps_rand ps) w (ps_fresh ps))
  | Some p =>
      match ps_structs ps !! p with
      | None => Undef
      | Some st =>
          if st_backlog st <=? zlen (st_pending st) then Ret ps
          else
            let* (i, ps) := new_session to from ps in
            let ps := ps_put_struct p (st_put_pending (st_pending st ++ [i]) st) ps in
            ps <- on_session i (SocketSession_open_segment segment) ps ;;
            Ret (ps_put_established
                   (SegmentDispatcher_addSession to from i (ps_established ps)) ps)
      end
  end.

Definition SegmentDispatcher_onReceivePacket (buffer : list Z) (length : Z) (source destination : IPAddress)
  (ps : ProtocolStack W) : outcome (ProtocolStack W) :=
  segment <- Segment_parse bld source destination buffer length ;;
  match SegmentDispatcher_lookupSession (seg_destination_ segment) (seg_source_ segment)
          (ps_established ps) with
  | None => ListenDispatcher_onReceivePacket buffer length source destination ps
  | Some i => on_session i (fun s => Ret (SocketSession_onSegmentArrival segment s)) ps
  end.
(** The mutex is taken first; what that means among threads is in [StackThreads]. *)
Definition ProtocolStack_onReceivePacket (buffer : list Z) (length : Z) (source destination : IPAddress)
  (ps : ProtocolStack W) : outcome (ProtocolStack W) :=
  SegmentDispatcher_onReceivePacket buffer length source destination ps.
End stack.

(** ** What the operations leave alone *)
Section frame.
Context {W : Type} `{AlarmImpl W} `{AlarmFactory W} `{IPSender W}.
Context (bld : build).
Implicit Types ps : ProtocolStack W.

(** The tables of the stack; calls on sessions do not touch them. *)
Definition same_tables ps ps' : Prop :=
  ps_fd_set_ ps' = ps_fd_set_ ps /\ ps_structs ps' = ps_structs ps /\
  ps_garbage_ ps' = ps_garbage_ ps /\ ps_established ps' = ps_established ps /\
  ps_listeners ps' = ps_listeners ps.

Lemma on_session_frame i f ps ps' : on_session i f ps = Ret ps' -> same_tables ps ps'.
Proof.
  unfold on_session. destruct (ps_sessions ps !! i); [|done].
  intros (s' & _ & [= <-])%bind_Ret. done.
Qed.
Lemma new_session_frame local remote ps i ps' :
  new_session bld local remote ps = Ret (i, ps') -> same_tables ps ps'.
Proof. unfold new_session. intros (s & _ & [= <- <-])%bind_Ret. done. Qed.

Lemma lookupStruct_Ret fd ps p st :
  ProtocolStack_lookupStruct fd ps = Ret (p, st) <->
  ps_fd_set_ ps !! fd = Some p /\ ps_structs ps !! p = Some st.
Proof.
  unfold ProtocolStack_lookupStruct. destruct (ps_fd_set_ ps !! fd) as [q|] eqn:E; [|naive_solver].
  destruct (ps_structs ps !! q) eqn:E'; naive_solver.
Qed.
Lemma ownFD_lookup fd ps p : ps_fd_set_ ps !! fd = Some p -> ProtocolStack_ownFD fd ps = true.
Proof. intros E. unfold ProtocolStack_ownFD. apply bool_decide_true. rewrite E. by eexists. Qed.

Lemma close_pending_frame l ps ps' :
  close_pending bld l ps = Ret ps' ->
  ps_fd_set_ ps' = ps_fd_set_ ps /\ ps_structs ps' = ps_structs ps /\
  ps_garbage_ ps' = ps_garbage_ ps ++ l /\ ps_established ps' = ps_established ps /\
  ps_listeners ps' = ps_listeners ps.
Proof.
  revert ps. induction l as [|i l IH]; intros ps; cbn [close_pending].
  - intros [= <-]. by rewrite app_nil_r.
  - intros (ps1 & (Hf & Hs & Hg & He & Hl)%on_session_frame & (Hf' & Hs' & Hg' & He' & Hl')%IH)%bind_Ret.
    cbn in *. rewrite Hf', Hs', Hg', He', Hl', Hf, Hs, Hg, He, Hl, <- app_assoc. done.
Qed.

(** ** Steps of the program *)
Inductive ps_step : ProtocolStack W -> ProtocolStack W -> Prop :=
  | step_socket d t pr rv fd ip ps v ps' :
      ProtocolStack_socket bld d t pr rv fd ip ps = Ret (v, ps') -> ps_step ps ps'
  | step_bind fd a n rv ps v ps' :
      ProtocolStack_bind fd a n rv ps = Ret (v, ps') -> ps_step ps ps'
  | step_listen fd b rv ps v ps' :
      - 2147483648 <= b < 2147483648 ->
      ProtocolStack_listen fd b rv ps = Ret (v, ps') -> ps_step ps ps'
  | step_connect fd a n rv ps v ps' :
      ProtocolStack_connect bld fd a n rv ps = Ret (v, ps') -> ps_step ps ps'
  | step_accept fd rv ps v ps' :
      ProtocolStack_accept fd rv ps = Ret (v, ps') -> ps_step ps ps'
  | step_write fd b n rv ps v ps' :
      ProtocolStack_write fd b n rv ps = Ret (v, ps') -> ps_step ps ps'
  | step_close fd rv ps v ps' :
      ProtocolStack_close bld fd rv ps = Ret (v, ps') -> ps_step ps ps'
  | step_packet buf n src dst ps ps' :
      ProtocolStack_onReceivePacket bld buf n src dst ps = Ret ps' -> ps_step ps ps'.

(** ** The invariant of the stack *)

(** What the type of a socket says about its sessions. *)
Definition struct_ok (ses : gmap nat (SocketSession unit)) (st : SocketStruct) : Prop :=
  match st_type st with
  | UNSPECIFIED => st_pending st = []
  | ACTIVE => st_pending st = [] /\ exists i, st_session st = Some i /\ is_Some (ses !! i)
  | PASSIVE => 1 <= st_backlog st /\ zlen (st_pending st) <= st_backlog st /\
               Forall (fun i => is_Some (ses !! i)) (st_pending st)
  end.

Record stack_inv ps : Prop := {
  inv_owner : forall fd p, ps_fd_set_ ps !! fd = Some p -> is_Some (ps_structs ps !! p);
  inv_inj : forall fd fd' p,
    ps_fd_set_ ps !! fd = Some p -> ps_fd_set_ ps !! fd' = Some p -> fd = fd';
  inv_fresh : forall p st, ps_structs ps !! p = Some st -> (p < ps_fresh ps)%nat;
  inv_listen_fresh : forall a p, (a, p) ∈ ps_listeners ps -> (p < ps_fresh ps)%nat;
  inv_listen : forall a p st,
    (a, p) ∈ ps_listeners ps -> ps_structs ps !! p = Some st -> st_type st = PASSIVE;
  inv_struct : forall p st, ps_structs ps !! p = Some st -> struct_ok (ps_sessions ps) st;
  inv_sessions : forall p q st st' i,
    ps_structs ps !! p = Some st -> ps_structs ps !! q = Some st' ->
    i ∈ struct_sessions st -> i ∈ struct_sessions st' -> p = q;
  inv_sessions_fresh : forall p st i,
    ps_structs ps !! p = Some st -> i ∈ struct_sessions st -> (i < ps_fresh ps)%nat
}.

(** More sessions, other worlds, garbage and established connections. *)
Record grows ps ps' : Prop := {
  gr_fds : ps_fd_set_ ps' = ps_fd_set_ ps;
  gr_structs : ps_structs ps' = ps_structs ps;
  gr_listeners : ps_listeners ps' = ps_listeners ps;
  gr_fresh : (ps_fresh ps <= ps_fresh ps')%nat;
  gr_sessions : forall i, is_Some (ps_sessions ps !! i) -> is_Some (ps_sessions ps' !! i);
  gr_garbage : ps_garbage_ ps `prefix_of` ps_garbage_ ps'
}.
#[global] Instance grows_preorder : PreOrder grows.
Proof.
  split; [by intros ps; split|].
  intros ps1 ps2 ps3 [] []. split; try (by etrans); try congruence; auto with lia.
Qed.

Lemma store_grows i s ps : grows ps (ps_store i s ps).
Proof.
  split; try done. intros j Hj. cbn. destruct (decide (i = j)) as [->|].
  - rewrite lookup_insert_eq. by eexists.
  - by rewrite lookup_insert_ne.
Qed.
Lemma on_session_grows i f ps ps' : on_session i f ps = Ret ps' -> grows ps ps'.
Proof.
  unfold on_session. destruct (ps_sessions ps !! i); [|done].
  intros (s' & _ & [= <-])%bind_Ret. apply store_grows.
Qed.
Lemma new_session_grows local remote ps i ps' :
  new_session bld local remote ps = Ret (i, ps') ->
  grows ps ps' /\ is_Some (ps_sessions ps' !! i).
Proof.
  unfold new_session. intros (s & _ & [= <- <-])%bind_Ret. split.
  - destruct (store_grows (ps_fresh ps) s ps) as [? ? ? ? ? ?]. split; cbn in *; auto.
  - cbn. rewrite lookup_insert_eq. by eexists.
Qed.
Lemma garbage_grows l ps : grows ps (ps_put_garbage (ps_garbage_ ps ++ l) ps).
Proof. split; try done. cbn. by eexists. Qed.
Lemma close_pending_grows l ps ps' : close_pending bld l ps = Ret ps' -> grows ps ps'.
Proof.
  revert ps. induction l as [|i l IH]; intros ps; cbn [close_pending]; [by intros [= <-]|].
  intros (ps1 & E1%on_session_grows & E2%IH)%bind_Ret.
  etrans; [exact E1|]. etrans; [|exact E2]. apply garbage_grows.
Qed.

Lemma struct_ok_mono ses ses' st :
  (forall i, is_Some (ses !! i) -> is_Some (ses' !! i)) -> struct_ok ses st -> struct_ok ses' st.
Proof.
  intros Hm. unfold struct_ok. destruct (st_type st); [|naive_solver|done].
  intros (? & ? & HF). split; [done|]. split; [done|]. eapply Forall_impl; [exact HF|done].
Qed.
Lemma inv_grows ps ps' : grows ps ps' -> stack_inv ps -> stack_inv ps'.
Proof.
  intros [Hf Hs Hl Hn Hse _] [Io Ii If Il It Is Iw Ix]. split; rewrite ?Hf, ?Hs, ?Hl; try done.
  - intros p st E. specialize (If p st E). lia.
  - intros a p E. specialize (Il a p E). lia.
  - intros p st E. eapply struct_ok_mono; [exact Hse|]. by eapply Is.
  - intros p st i E Hi. specialize (Ix p st i E Hi). lia.
Qed.

(** Updating a live socket, which may get a session no socket has. *)
Lemma inv_put_struct p st st' ps :
  ps_structs ps !! p = Some st -> struct_ok (ps_sessions ps) st' ->
  (st_type st = PASSIVE -> st_type st' = PASSIVE) ->
  (forall i, i ∈ struct_sessions st' -> i ∈ struct_sessions st \/
     (i < ps_fresh ps)%nat /\ forall q st1, ps_structs ps !! q = Some st1 -> i ∉ struct_sessions st1) ->
  stack_inv ps -> stack_inv (ps_put_struct p st' ps).
Proof.
  intros E Hok Ht Hown [Io Ii If Il It Is Iw Ix]. split; cbn; try done.
  - intros fd q Hq. destruct (decide (p = q)) as [->|]; [rewrite lookup_insert_eq; by eexists|].
    rewrite lookup_insert_ne by done. eauto.
  - intros q st1. rewrite lookup_insert_Some. intros [[<- _]|[_ ?]]; eauto.
  - intros a q st1 Ha. rewrite lookup_insert_Some. intros [[<- <-]|[_ ?]]; eauto.
  - intros q st1. rewrite lookup_insert_Some. intros [[<- <-]|[_ ?]]; eauto.
  - intros q q' st1 st2 i. rewrite !lookup_insert_Some.
    intros [[<- <-]|[? Eq]] [[<- <-]|[? Eq']]; [done| | |eauto].
    + intros [?|[_ Hn]]%Hown Hi2; [eauto|]. by destruct (Hn _ _ Eq' Hi2).
    + intros Hi1 [?|[_ Hn]]%Hown; [eauto|]. by destruct (Hn _ _ Eq Hi1).
  - intros q st1 i. rewrite lookup_insert_Some. intros [[<- <-]|[_ Hq]]; [|eauto].
    intros [?|[? _]]%Hown; eauto.
Qed.
Lemma inv_removeStruct fd ps : stack_inv ps -> stack_inv (ProtocolStack_removeStruct fd ps).
Proof.
  intros [Io Ii If Il It Is Iw Ix]. unfold ProtocolStack_removeStruct.
  destruct (ps_fd_set_ ps !! fd) as [p|] eqn:E; [|by split].
  assert (Hd : forall q st, delete p (ps_structs ps) !! q = Some st -> ps_structs ps !! q = Some st)
    by (intros q st; rewrite lookup_delete_Some; tauto).
  split; cbn; eauto.
  - intros fd' q. rewrite lookup_delete_Some. intros [Hne Hq].
    rewrite lookup_delete_ne; [eauto|]. intros ->. apply Hne. eauto.
  - intros fd1 fd2 q. rewrite !lookup_delete_Some. intros [_ ?] [_ ?]. eauto.
Qed.

(** Destroying a socket and its sessions. *)
Lemma destroy_sessions_spec l ps ps' :
  destroy_sessions l ps = Ret ps' ->
  ps_fd_set_ ps' = ps_fd_set_ ps /\ ps_structs ps' = ps_structs ps /\
  ps_garbage_ ps' = ps_garbage_ ps /\ ps_listeners ps' = ps_listeners ps /\
  ps_fresh ps' = ps_fresh ps /\ forall i, i ∉ l -> ps_sessions ps' !! i = ps_sessions ps !! i.
Proof.
  revert ps. induction l as [|j l IH]; intros ps; cbn [destroy_sessions]; [by intros [= <-]|].
  intros (ps1 & E & (Ef & Es & Eg & El & Ep & Ei)%IH)%bind_Ret. unfold destroy_session in E.
  destruct (ps_sessions ps !! j) as [s|]; [|done].
  apply bind_Ret in E as (w1 & _ & (w2 & _ & [= <-])%bind_Ret). cbn in *. split_and!; try done.
  intros i [Hij Hil]%not_elem_of_cons. rewrite Ei by done. by apply lookup_delete_ne.
Qed.
Lemma struct_ok_ext ses ses' st :
  (forall i, i ∈ struct_sessions st -> ses' !! i = ses !! i) -> struct_ok ses st -> struct_ok ses' st.
Proof.
  unfold struct_ok, struct_sessions. intros He. destruct (st_type st); [|intros (? & i & Ei & ?)|done].
  - intros (? & ? & HF). split; [done|]. split; [done|]. rewrite Forall_forall in *.
    intros i Hi. rewrite He; [by apply HF|]. apply elem_of_app. by left.
  - split; [done|]. exists i. split; [done|]. rewrite He; [done|].
    rewrite Ei. apply elem_of_app. right. by left.
Qed.
Lemma destroy_struct_inv fd p ps ps' :
  ps_fd_set_ ps !! fd = Some p -> destroy_struct p ps = Ret ps' -> stack_inv ps ->
  stack_inv (ps_put_fds (delete fd (ps_fd_set_ ps')) ps') /\ ps_garbage_ ps' = ps_garbage_ ps /\
  ps_fd_set_ ps' = ps_fd_set_ ps /\ ps_fresh ps' = ps_fresh ps.
Proof.
  unfold destroy_struct. destruct (ps_structs ps !! p) as [st|] eqn:Hp; [|done].
  intros Hf (ps1 & (Ef & Es & Eg & El & Ep & Ei)%destroy_sessions_spec & [= <-])%bind_Ret
    [Io Ii If Il It Is Iw Ix]. split; [|done].
  assert (Hd : forall q st1, delete p (ps_structs ps) !! q = Some st1 -> ps_structs ps !! q = Some st1 /\ q <> p)
    by (intros q st1; rewrite lookup_delete_Some; naive_solver).
  split; cbn; rewrite ?Ef, ?Es, ?El, ?Ep; eauto.
  - intros fd' q. rewrite lookup_delete_Some. intros [Hne Hq].
    rewrite lookup_delete_ne; [eauto|]. intros ->. apply Hne. eauto.
  - intros fd1 fd2 q. rewrite !lookup_delete_Some. intros [_ ?] [_ ?]. eauto.
  - intros q st1 [? _]%Hd. eauto.
  - intros a q st1 Ha [? _]%Hd. eauto.
  - intros q st1 [Hq Hne]%Hd. eapply struct_ok_ext; [|by eapply Is].
    intros i Hi. apply Ei. intros Hi'. apply Hne. by eapply (Iw q p).
  - intros q q' st1 st2 i [? _]%Hd [? _]%Hd. eauto.
  - intros q st1 i [? _]%Hd. eauto.
Qed.
Lemma removeStruct_garbage fd ps :
  ps_garbage_ (ProtocolStack_removeStruct fd ps) = ps_garbage_ ps.
Proof. unfold ProtocolStack_removeStruct. by destruct (ps_fd_set_ ps !! fd). Qed.

(** A session that has just been made is of no socket yet. *)
Lemma new_session_unowned local remote ps i ps' :
  stack_inv ps -> new_session bld local remote ps = Ret (i, ps') ->
  (i < ps_fresh ps')%nat /\ forall q st, ps_structs ps' !! q = Some st -> i ∉ struct_sessions st.
Proof.
  unfold new_session. intros Hi (s & _ & [= <- <-])%bind_Ret. cbn. split; [lia|].
  intros q st Hq Hin. pose proof (inv_sessions_fresh _ Hi _ _ _ Hq Hin). lia.
Qed.

(** ** Every operation *)

(** One step keeps the invariant and only adds garbage. *)
Definition keeps ps ps' : Prop :=
  stack_inv ps -> stack_inv ps' /\ ps_garbage_ ps `prefix_of` ps_garbage_ ps'.

Lemma keeps_refl ps : keeps ps ps.
Proof. by intros Hi. Qed.
Lemma grows_keeps ps ps' : grows ps ps' -> keeps ps ps'.
Proof. intros Hg Hi. split; [by eapply inv_grows|apply Hg]. Qed.

(** The common shape of the operations on a descriptor. *)
Lemma owned_cases {A} fd ps (other : outcome (A * ProtocolStack W))
  (f : nat * SocketStruct -> outcome (A * ProtocolStack W)) r :
  (if negb (ProtocolStack_ownFD fd ps) then other
   else obind (ProtocolStack_lookupStruct fd ps) f) = Ret r ->
  other = Ret r \/
  exists p st, ps_fd_set_ ps !! fd = Some p /\ ps_structs ps !! p = Some st /\ f (p, st) = Ret r.
Proof.
  destruct (ProtocolStack_ownFD fd ps); cbn [negb]; [|by left].
  intros ([p st] & [? ?]%lookupStruct_Ret & E)%bind_Ret. right. by exists p, st.
Qed.

(** A new socket under a descriptor that is free. *)
Lemma inv_new_struct fd address ps :
  ps_fd_set_ ps !! fd = None -> stack_inv ps ->
  stack_inv (ps_put_fds (<[fd := ps_fresh ps]> (ps_fd_set_ ps))
    (ps_put_struct (ps_fresh ps) (SocketStruct_new address) (ps_put_fresh (S (ps_fresh ps)) ps))).
Proof.
  intros Hn [Io Ii If Il It Is Iw Ix].
  assert (Hfr : forall fd' q, ps_fd_set_ ps !! fd' = Some q -> q <> ps_fresh ps).
  { intros fd' q Hq ->. destruct (Io _ _ Hq) as [st Hst]. specialize (If _ _ Hst). lia. }
  assert (He : forall i, i ∉ struct_sessions (SocketStruct_new address)) by (intros i; apply not_elem_of_nil).
  split; cbn.
  - intros fd' q. rewrite lookup_insert_Some. intros [[<- <-]|[_ Hq]].
    + rewrite lookup_insert_eq. by eexists.
    + rewrite lookup_insert_ne by (symmetry; eauto). eauto.
  - intros fd1 fd2 q. rewrite !lookup_insert_Some.
    intros [[<- <-]|[? H1']] [[<- Hq]|[? H2']]; try done; try (by exfalso; eapply Hfr); eauto.
  - intros q st. rewrite lookup_insert_Some. intros [[<- _]|[_ Hq]]; [lia|].
    specialize (If _ _ Hq). lia.
  - intros a0 q Hq. specialize (Il _ _ Hq). lia.
  - intros a0 q st Hq. rewrite lookup_insert_Some. intros [[<- <-]|[_ Hst]]; [|eauto].
    specialize (Il _ _ Hq). lia.
  - intros q st. rewrite lookup_insert_Some. intros [[<- <-]|[_ Hst]]; [done|eauto].
  - intros q q' st st' i. rewrite !lookup_insert_Some.
    intros [[<- <-]|[? Eq]] [[<- <-]|[? Eq']] H1' H2'; [done|by destruct (He i)..|eauto].
  - intros q st i. rewrite lookup_insert_Some. intros [[<- <-]|[_ Hst]] Hi; [by destruct (He i)|].
    specialize (Ix _ _ _ Hst Hi). lia.
Qed.
Lemma socket_keeps d t pr rv fd ip ps v ps' :
  ProtocolStack_socket bld d t pr rv fd ip ps = Ret (v, ps') -> keeps ps ps'.
Proof.
  unfold ProtocolStack_socket. case_match; [intros [= <- <-]; apply keeps_refl|].
  intros ([] & _ & (a & _ & ([port g] & _ & E)%bind_Ret)%bind_Ret)%bind_Ret.
  apply bind_Ret in E as (ps1 & E & [= <- <-]). intros Hi.
  assert (Hg : grows ps (ps_put_rand g ps)) by (by split). apply (inv_grows _ _ Hg) in Hi.
  destruct (ps_fd_set_ (ps_put_rand g ps) !! fd) as [old|] eqn:Ef.
  - destruct (destroy_struct_inv _ _ _ _ Ef E Hi) as (Hi1 & Eg & Efd & Efr).
    pose proof (inv_new_struct fd (mkSocketAddress a (u16 port)) _ (lookup_delete_eq _ _) Hi1) as Hn.
    cbn in Hn. rewrite insert_delete_eq in Hn. split; [exact Hn|]. cbn in *. by rewrite Eg.
  - injection E as <-. split; [by apply inv_new_struct|done].
Qed.

Lemma struct_ok_bind ses a st : struct_ok ses (st_put_bind a st) <-> struct_ok ses st.
Proof. done. Qed.
Lemma struct_ok_wait ses st : struct_ok ses (SocketStruct_waitMessage st) <-> struct_ok ses st.
Proof. done. Qed.

Lemma bind_keeps fd a n rv ps v ps' :
  ProtocolStack_bind fd a n rv ps = Ret (v, ps') -> keeps ps ps'.
Proof.
  unfold ProtocolStack_bind, ProtocolStack_bind_locked. case_match; [intros [= <- <-]; apply keeps_refl|].
  intros (sa & _ & ([p st] & [Hf Hs]%lookupStruct_Ret & [= <- <-])%bind_Ret)%bind_Ret Hi.
  split; [|done]. eapply inv_put_struct; [exact Hs| |done|by left|done].
  apply struct_ok_bind. by eapply inv_struct.
Qed.
Lemma accept_keeps fd rv ps v ps' :
  ProtocolStack_accept fd rv ps = Ret (v, ps') -> keeps ps ps'.
Proof.
  unfold ProtocolStack_accept, ProtocolStack_accept_locked. intros [[= <- <-]|(p & st & Hf & Hs & E)]%owned_cases; [apply keeps_refl|].
  case_bool_decide; cbn in E; injection E as <- <-; [|apply keeps_refl].
  intros Hi. split; [|done]. eapply inv_put_struct; [exact Hs| |done|by left|done].
  apply struct_ok_wait. by eapply inv_struct.
Qed.
Lemma write_keeps fd b n rv ps v ps' :
  ProtocolStack_write fd b n rv ps = Ret (v, ps') -> keeps ps ps'.
Proof.
  unfold ProtocolStack_write, ProtocolStack_write_locked. intros [[= <- <-]|(p & st & Hf & Hs & E)]%owned_cases; [apply keeps_refl|].
  destruct (st_type st); [|destruct (st_session st) as [i|]; [|done]|].
  - injection E as <- <-. apply keeps_refl.
  - destruct (ps_sessions ps !! i); [|done]. apply bind_Ret in E as ([r s'] & _ & [= <- <-]).
    apply grows_keeps, store_grows.
  - injection E as <- <-. apply keeps_refl.
Qed.
Lemma listen_keeps fd b rv ps v ps' :
  - 2147483648 <= b < 2147483648 ->
  ProtocolStack_listen fd b rv ps = Ret (v, ps') -> keeps ps ps'.
Proof.
  intros Hb. unfold ProtocolStack_listen, ProtocolStack_listen_locked.
  intros [[= <- <-]|(p & st & Hf & Hs & E)]%owned_cases; [apply keeps_refl|].
  case_bool_decide as Ht; cbn in E; injection E as <- <-; [|apply keeps_refl].
  intros Hi. split; [|done].
  assert (Hb1 : 1 <= u32 (if b <=? 0 then 1 else b)) by (destruct (Z.leb_spec b 0); unwrap; lia).
  revert Hb1. generalize (u32 (if b <=? 0 then 1 else b)) as backlog. intros backlog Hb1.
  assert (Hok : struct_ok (ps_sessions ps) (st_put_listening backlog st)).
  { pose proof (inv_struct _ Hi _ _ Hs) as Hst. unfold struct_ok in *. rewrite Ht in Hst.
    unfold st_put_listening. simpl. rewrite Hst. rewrite zlen_nil.
    split; [done|]. split; [lia|constructor]. }
  destruct (inv_put_struct p st _ ps Hs Hok ltac:(done) ltac:(by left) Hi) as [Io Ii If Il It Is Iw Ix].
  split; cbn in *; try done.
  - intros a q [Hq|[= -> ->]%list_elem_of_singleton]%elem_of_app; [eauto|]. eapply inv_fresh; eauto.
  - intros a q st' [Hq|[= -> ->]%list_elem_of_singleton]%elem_of_app; [eauto|].
    rewrite lookup_insert_eq. by intros [= <-].
Qed.
Lemma connect_keeps fd a n rv ps v ps' :
  ProtocolStack_connect bld fd a n rv ps = Ret (v, ps') -> keeps ps ps'.
Proof.
  unfold ProtocolStack_connect, ProtocolStack_connect_locked. intros [[= <- <-]|(p & st & Hf & Hs & E)]%owned_cases; [apply keeps_refl|].
  apply bind_Ret in E as (peer & _ & E). destruct (st_type st) eqn:Ht;
    [injection E as <- <-; apply keeps_refl|injection E as <- <-; apply keeps_refl|].
  apply bind_Ret in E as ([i ps1] & En & E). pose proof En as [G1 Hi1]%new_session_grows.
  apply bind_Ret in E as (ps2 & E2%on_session_grows & E).
  apply bind_Ret in E as (ps3 & E3%on_session_grows & [= <- <-]).
  intros Hi. pose proof (inv_grows _ _ G1 Hi) as Hi'. pose proof (new_session_unowned _ _ _ _ _ Hi En) as Hu.
  assert (Hi2 : stack_inv (ps_put_struct p (st_put_active i st) ps1)).
  { eapply inv_put_struct; [rewrite (gr_structs _ _ G1); exact Hs| |by rewrite Ht| |done];
      pose proof (inv_struct _ Hi _ _ Hs) as Hst; unfold struct_ok in *; rewrite Ht in Hst; cbn.
    - split; [done|]. by exists i.
    - unfold struct_sessions. cbn. rewrite Hst. intros j ->%list_elem_of_singleton. by right. }
  assert (G4 : grows (ps_put_struct p (st_put_active i st) ps1) ps3).
  { etrans; [|exact E3]. etrans; [|exact E2]. by split. }
  split; [by eapply inv_grows|]. etrans; [apply (gr_garbage _ _ G1)|apply (gr_garbage _ _ G4)].
Qed.
Lemma close_keeps fd rv ps v ps' :
  ProtocolStack_close bld fd rv ps = Ret (v, ps') -> keeps ps ps'.
Proof.
  unfold ProtocolStack_close, ProtocolStack_close_locked. intros [[= <- <-]|(p & st & Hf & Hs & E)]%owned_cases; [apply keeps_refl|].
  apply bind_Ret in E as (ps1 & E & [= <- <-]).
  assert (G : grows ps ps1).
  { destruct (st_type st); [by apply close_pending_grows in E| |by injection E as <-].
    destruct (st_session st) as [i|]; [|done]. apply bind_Ret in E as (ps2 & E%on_session_grows & [= <-]).
    etrans; [exact E|apply garbage_grows]. }
  intros Hi. split; [by eapply inv_removeStruct, inv_grows|].
  rewrite removeStruct_garbage. apply G.
Qed.

Lemma lookupListener_elem to ls p :
  ListenDispatcher_lookupSession to ls = Some p -> exists a, (a, p) ∈ ls.
Proof.
  induction ls as [|[a q] ls IH]; cbn; [done|]. destruct (listener_matches to a).
  - intros [= <-]. exists a. left.
  - intros [b Hb]%IH. exists b. by right.
Qed.
Lemma listen_packet_keeps buf n src dst ps ps' :
  ListenDispatcher_onReceivePacket bld buf n src dst ps = Ret ps' -> keeps ps ps'.
Proof.
  unfold ListenDispatcher_onReceivePacket. intros (g & _ & E)%bind_Ret.
  destruct (ListenDispatcher_lookupSession _ _) as [p|] eqn:El.
  2: { apply bind_Ret in E as ([b w] & _ & [= <-]). by apply grows_keeps. }
  destruct (ps_structs ps !! p) as [st|] eqn:Hs; [|done].
  destruct (Z.leb_spec (st_backlog st) (zlen (st_pending st))); [injection E as <-; apply keeps_refl|].
  apply bind_Ret in E as ([i ps1] & En & E). pose proof En as [G1 Hi1]%new_session_grows.
  apply bind_Ret in E as (ps2 & E2%on_session_grows & [= <-]).
  intros Hi. pose proof (inv_grows _ _ G1 Hi) as Hi'. pose proof (new_session_unowned _ _ _ _ _ Hi En) as Hu.
  apply lookupListener_elem in El as [a Ha]. pose proof (inv_listen _ Hi _ _ _ Ha Hs) as Ht.
  assert (Hi2 : stack_inv (ps_put_struct p (st_put_pending (st_pending st ++ [i]) st) ps1)).
  { eapply inv_put_struct; [rewrite (gr_structs _ _ G1); exact Hs| |done| |done].
    2: { unfold struct_sessions. cbn. intros j. rewrite !elem_of_app, list_elem_of_singleton. naive_solver. }
    pose proof (struct_ok_mono _ _ st (gr_sessions _ _ G1) (inv_struct _ Hi _ _ Hs)) as Hst.
    unfold struct_ok in *. cbn. rewrite Ht in Hst |- *. destruct Hst as (? & ? & HF).
    split; [done|]. split; [rewrite zlen_app, zlen_cons, zlen_nil; lia|]. apply Forall_app; auto. }
  split; [eapply inv_grows; [|exact Hi2]; etrans; [exact E2|by split]|].
  etrans; [apply (gr_garbage _ _ G1)|apply (gr_garbage _ _ E2)].
Qed.
Lemma packet_keeps buf n src dst ps ps' :
  ProtocolStack_onReceivePacket bld buf n src dst ps = Ret ps' -> keeps ps ps'.
Proof.
  unfold ProtocolStack_onReceivePacket, SegmentDispatcher_onReceivePacket. intros (g & _ & E)%bind_Ret.
  destruct (SegmentDispatcher_lookupSession _ _ _); [|by eapply listen_packet_keeps].
  by apply grows_keeps; eapply on_session_grows.
Qed.

#[local] Hint Resolve socket_keeps bind_keeps listen_keeps connect_keeps accept_keeps
  write_keeps close_keeps packet_keeps : core.

Lemma step_keeps ps ps' : ps_step ps ps' -> keeps ps ps'.
Proof. intros []; eauto. Qed.
Lemma steps_keep ps ps' : rtc ps_step ps ps' -> keeps ps ps'.
Proof.
  induction 1 as [|ps1 ps2 ps3 Hs _ IH]; [apply keeps_refl|].
  intros Hi. destruct (step_keeps _ _ Hs Hi) as [Hi2 Hp]. destruct (IH Hi2) as [? ?].
  split; [done|by etrans].
Qed.
End frame.

(** ** Properties *)
Section properties.
Context {W : Type} `{AlarmImpl W} `{AlarmFactory W} `{IPSender W}.
Context (bld : build).
Implicit Types ps : ProtocolStack W.

(** Whatever the sequence of calls and of received packets, the tables of the
    stack stay consistent: every descriptor owns a live socket and no two own the same;
    a connected socket has a live session; a listening socket has a backlog of at least
    one and never more pending sessions than its backlog, all of them live; a socket in
    the table of listeners that is still alive is a listening one. *)
Theorem stack_stays_consistent ps ps' :
  stack_inv ps -> rtc (ps_step bld) ps ps' ->
  stack_inv ps' /\
  forall fd, ProtocolStack_ownFD fd ps' = true ->
    exists p st, ProtocolStack_lookupStruct fd ps' = Ret (p, st) /\ struct_ok (ps_sessions ps') st.
Proof.
  intros Hi Hs. destruct (steps_keep bld _ _ Hs Hi) as [Hi' _]. split; [done|].
  intros fd Hfd. apply bool_decide_eq_true_1 in Hfd as [p Hp].
  destruct (inv_owner _ Hi' _ _ Hp) as [st Hst]. exists p, st.
  split; [by apply lookupStruct_Ret|by eapply inv_struct].
Qed.

(** A session that has been closed stays in [garbage_] for ever: after the close
    of a connected socket no sequence of operations makes [canClose] true again, so
    the loop of the program's exit that waits for it does not end. *)
Theorem garbage_is_never_collected ps ps1 ps2 fd rv r p st :
  stack_inv ps -> ProtocolStack_lookupStruct fd ps = Ret (p, st) -> st_type st = ACTIVE ->
  ProtocolStack_close bld fd rv ps = Ret (r, ps1) -> rtc (ps_step bld) ps1 ps2 ->
  ProtocolStack_canClose ps2 = false.
Proof.
  intros Hi Hl Ht Hc Hs. destruct (close_keeps bld _ _ _ _ _ Hc Hi) as [Hi1 _].
  destruct (steps_keep bld _ _ Hs Hi1) as [_ [k Hk]].
  unfold ProtocolStack_canClose. apply bool_decide_eq_false_2. rewrite Hk.
  unfold ProtocolStack_close, ProtocolStack_close_locked in Hc. rewrite (ownFD_lookup _ _ p), Hl in Hc
    by (by apply lookupStruct_Ret in Hl as [? _]). cbn [negb obind] in Hc. rewrite Ht in Hc.
  destruct (st_session st) as [i|]; [|done].
  apply bind_Ret in Hc as (ps3 & (ps4 & _ & [= <-])%bind_Ret & [= _ <-]).
  rewrite removeStruct_garbage. cbn. by destruct (ps_garbage_ ps4).
Qed.

(** C39. Closing a listening socket destroys it, but its entry in the table of the
    [ListenDispatcher] stays: the next segment to its address that belongs to no
    connection follows a dangling pointer. *)
Theorem closed_listener_dangles ps ps' fd rv r p st segment buf n src dst :
  ProtocolStack_lookupStruct fd ps = Ret (p, st) -> st_type st = PASSIVE ->
  ProtocolStack_close bld fd rv ps = Ret (r, ps') ->
  Segment_parse bld src dst buf n = Ret segment ->
  SegmentDispatcher_lookupSession (seg_destination_ segment) (seg_source_ segment)
    (ps_established ps) = None ->
  ListenDispatcher_lookupSession (seg_destination_ segment) (ps_listeners ps) = Some p ->
  ProtocolStack_onReceivePacket bld buf n src dst ps' = Undef.
Proof.
  intros Hl Ht Hc Hg He Hp. apply lookupStruct_Ret in Hl as Hl'. destruct Hl' as [Hf Hst].
  unfold ProtocolStack_close, ProtocolStack_close_locked in Hc. rewrite (ownFD_lookup _ _ p), Hl in Hc by done.
  cbn [negb obind] in Hc. rewrite Ht in Hc.
  apply bind_Ret in Hc as (ps1 & (Ef & Es & _ & Ee & El)%close_pending_frame & [= _ <-]).
  unfold ProtocolStack_onReceivePacket, SegmentDispatcher_onReceivePacket, ListenDispatcher_onReceivePacket, ProtocolStack_removeStruct.
  rewrite Ef, Hf, Hg. cbn. rewrite Ee, He, El, Hp, Es, lookup_delete_eq. done.
Qed.

(** C34. The errors of POSIX on a socket of the stack, by the type of the socket, none
    of which changes the stack; and what [listen] does to a fresh one. Descriptors the
    stack does not own get the result of the C library. *)
Theorem posix_call_table ps fd p st a n b rv buf peer :
  ProtocolStack_lookupStruct fd ps = Ret (p, st) -> SocketAddress_of_sockaddr a n = Ret peer ->
  (forall fd', ProtocolStack_ownFD fd' ps = false ->
     ProtocolStack_listen fd' b rv ps = Ret (RetVal rv, ps) /\
     ProtocolStack_connect bld fd' a n rv ps = Ret (RetVal rv, ps) /\
     ProtocolStack_accept fd' rv ps = Ret (Some (RetVal rv), ps) /\
     ProtocolStack_write fd' buf n rv ps = Ret (RetVal rv, ps) /\
     ProtocolStack_close bld fd' rv ps = Ret (RetVal rv, ps)) /\
  match st_type st with
  | UNSPECIFIED =>
      ProtocolStack_accept fd rv ps = Ret (Some (Errno EINVAL), ps) /\
      ProtocolStack_write fd buf n rv ps = Ret (Errno ENOTCONN, ps) /\
      exists ps', ProtocolStack_listen fd b rv ps = Ret (RetVal 0, ps') /\
        ps_structs ps' = <[p := st_put_listening (u32 (Z.max 1 b)) st]> (ps_structs ps) /\
        ps_listeners ps' = ps_listeners ps ++ [(st_bind_address st, p)] /\
        ps_sessions ps' = ps_sessions ps
  | PASSIVE =>
      ProtocolStack_listen fd b rv ps = Ret (Errno EINVAL, ps) /\
      ProtocolStack_connect bld fd a n rv ps = Ret (Errno EOPNOTSUPP, ps) /\
      ProtocolStack_write fd buf n rv ps = Ret (Errno EBADF, ps)
  | ACTIVE =>
      ProtocolStack_listen fd b rv ps = Ret (Errno EINVAL, ps) /\
      ProtocolStack_connect bld fd a n rv ps = Ret (Errno EISCONN, ps) /\
      ProtocolStack_accept fd rv ps = Ret (Some (Errno EINVAL), ps)
  end.
Proof.
  intros Hl Ha. apply lookupStruct_Ret in Hl as Hl'. destruct Hl' as [Hf Hst]. split.
  - intros fd' Hn. unfold ProtocolStack_listen, ProtocolStack_listen_locked, ProtocolStack_connect, ProtocolStack_connect_locked, ProtocolStack_accept, ProtocolStack_accept_locked,
      ProtocolStack_write, ProtocolStack_write_locked, ProtocolStack_close, ProtocolStack_close_locked. by rewrite Hn.
  - unfold ProtocolStack_listen, ProtocolStack_listen_locked, ProtocolStack_connect, ProtocolStack_connect_locked, ProtocolStack_accept, ProtocolStack_accept_locked, ProtocolStack_write, ProtocolStack_write_locked.
    rewrite (ownFD_lookup _ _ p), Hl, Ha by done. cbn [negb obind].
    destruct (st_type st) eqn:Ht; try done. cbn. split; [done|]. split; [done|].
    eexists. split; [done|]. cbn. replace (Z.max 1 b) with (if b <=? 0 then 1 else b); [done|].
    destruct (Z.leb_spec b 0); lia.
Qed.
End properties.

(** ** A stack with a listening socket (descriptor 4) and a connecting one (5) *)
Definition example_structs : gmap nat SocketStruct :=
  <[0%nat := mkSocketStruct None 2 [] (example_sa 2 80) PASSIVE false None]>
  (<[1%nat := mkSocketStruct (Some 2%nat) 0 [] (example_sa 2 50001) ACTIVE false None]> ∅).
Definition example_stack : ProtocolStack MockWorld :=
  mkProtocolStack (<[4 := 0%nat]> (<[5 := 1%nat]> ∅)) example_structs
    (<[2%nat := se_detach (fresh_session SYN_SENT)]> ∅) [] [] [(example_sa 2 80, 0%nat)]
    (replicate 1480 0) (RandGenerator_new 19260817) (example_server, []) 3.

Lemma example_stack_inv : stack_inv example_stack.
Proof.
  assert (Hs : forall p st, example_structs !! p = Some st ->
    (p = 0%nat /\ st_type st = PASSIVE \/ p = 1%nat) /\ struct_ok (ps_sessions example_stack) st).
  { intros p st. unfold example_structs. rewrite !lookup_insert_Some.
    intros [[<- <-]|[? [[<- <-]|[? ?]]]]; [| |done].
    - split; [auto|]. split; [done|]. split; [done|constructor].
    - split; [auto|]. split; [done|]. exists 2%nat. split; [done|]. by eexists. }
  split; cbn.
  - intros fd p. rewrite !lookup_insert_Some. intros [[_ <-]|[_ [[_ <-]|[_ ?]]]]; [by eexists..|done].
  - intros fd fd' p. rewrite !lookup_insert_Some. naive_solver.
  - intros p st [[[-> _]| ->] _]%Hs; lia.
  - intros a p [= -> ->]%list_elem_of_singleton. lia.
  - intros a p st [= -> ->]%list_elem_of_singleton [[[_ ?]|?] _]%Hs; done.
  - intros p st [_ ?]%Hs. done.
  - intros p q st st' i. unfold example_structs. rewrite !lookup_insert_Some, lookup_empty.
    intros [[<- <-]|[_ [[<- <-]|[_ ?]]]] [[<- <-]|[_ [[<- <-]|[_ ?]]]] Hi Hi'; try done;
      by apply not_elem_of_nil in Hi || by apply not_elem_of_nil in Hi'.
  - intros p st i. unfold example_structs. rewrite !lookup_insert_Some, lookup_empty.
    intros [[<- <-]|[_ [[<- <-]|[_ ?]]]] Hi; [by apply not_elem_of_nil in Hi| |done].
    apply list_elem_of_singleton in Hi. lia.
Qed.

(** A SYN to the listening socket. *)
Definition example_SYN : list Z :=
  [195; 80; 0; 80; 0; 0; 0; 7; 0; 0; 0; 0; 80; 2; 255; 255; 0; 0; 0; 0].

Lemma stack_stays_consistent_witness :
  exists ps, ProtocolStack_bind 4 (replicate 16 0) 16 0 example_stack = Ret (RetVal 0, ps) /\
    stack_inv ps.
Proof.
  destruct (ProtocolStack_bind 4 (replicate 16 0) 16 0 example_stack) as [[v ps]| |] eqn:E; try by vm_compute in E.
  exists ps. split; [by vm_compute in E |- *; injection E as <- <-|].
  apply (stack_stays_consistent Debug example_stack ps); [apply example_stack_inv|].
  eapply rtc_once, step_bind. exact E.
Defined.

Lemma garbage_is_never_collected_witness :
  exists ps, ProtocolStack_close Debug 5 0 example_stack = Ret (RetVal 0, ps) /\
    ProtocolStack_canClose ps = false.
Proof.
  destruct (ProtocolStack_close Debug 5 0 example_stack) as [[v ps]| |] eqn:E; try by vm_compute in E.
  exists ps. split; [by vm_compute in E |- *; injection E as <- <-|].
  eapply (garbage_is_never_collected Debug example_stack ps ps 5 0 v 1);
    [apply example_stack_inv|reflexivity|reflexivity|exact E|apply rtc_refl].
Defined.

Lemma closed_listener_dangles_witness :
  exists ps, ProtocolStack_close Debug 4 0 example_stack = Ret (RetVal 0, ps) /\
    ProtocolStack_onReceivePacket Debug example_SYN 20 (IPAddress_of_in_addr [10; 0; 0; 1])
      (IPAddress_of_in_addr [10; 0; 0; 2]) ps = Undef.
Proof.
  eexists. split; [reflexivity|].
  eapply (closed_listener_dangles Debug example_stack _ 4 0); reflexivity.
Defined.

Lemma posix_call_table_witness :
  ProtocolStack_connect Debug 4 (replicate 16 0) 16 0 example_stack = Ret (Errno EOPNOTSUPP, example_stack) /\
  ProtocolStack_connect Debug 5 (replicate 16 0) 16 0 example_stack = Ret (Errno EISCONN, example_stack).
Proof.
  split.
  - apply (posix_call_table Debug example_stack 4 0
      (mkSocketStruct None 2 [] (example_sa 2 80) PASSIVE false None)
      (replicate 16 0) 16 1 0 [] SocketAddress_default); reflexivity.
  - apply (posix_call_table Debug example_stack 5 1
      (mkSocketStruct (Some 2%nat) 0 [] (example_sa 2 50001) ACTIVE false None)
      (replicate 16 0) 16 1 0 [] SocketAddress_default); reflexivity.
Defined.
