(* ===== verification/StackThreads.v ===== *)
(** src/src/posix/protocol_stack.cpp under threads. The calls on a descriptor test
    [ownFD] before they take the mutex, and [_socket] does not take it at all: here the
    test, the part under the mutex, [_socket] and the reception of a packet each have a
    beginning, where they read the tables, and an end, where they write them, and those of
    several threads and of the event loop interleave. Two accesses that overlap without the
    mutex between them are a data race. Then the waiting loop of [_write], for any [send]
    of a session. *)

From stdpp Require Import base list numbers gmap relations.
From S2P Require Import Prelude Endian DataWriter DataReader TimeBase Alarm EpollServer.
From S2P Require Import RingBuffer RandGenerator IPAddress Checksum Ether RoutingTable IPLayer.
From S2P Require Import SocketAddress Segment ControlBlock SendBuffer SocketSession Dispatchers.
From S2P Require Import ProtocolStack.

Open Scope Z_scope.
Open Scope outcome_scope.

(** The calls with a test of [ownFD], with their arguments. *)
Inductive call : Type :=
  | CBind (fd : Z) (address : list Z) (address_len : Z)
  | CListen (fd backlog : Z)
  | CConnect (fd : Z) (address : list Z) (address_len : Z)
  | CAccept (fd : Z)
  | CWrite (fd : Z) (buf : list Z) (nbyte : Z)
  | CClose (fd : Z).

Definition call_fd (c : call) : Z :=
  match c with
  | CBind fd _ _ | CListen fd _ | CConnect fd _ _ | CAccept fd | CWrite fd _ _ | CClose fd => fd
  end.
(** [backlog] is an [int]. *)
Definition call_ok (c : call) : Prop :=
  match c with CListen _ b => - 2147483648 <= b < 2147483648 | _ => True end.

Section threads.
Context {W : Type} `{AlarmImpl W} `{AlarmFactory W} `{IPSender W}.
Context (bld : build).
Implicit Types ps : ProtocolStack W.

Definition lift_result (o : outcome (PosixResult * ProtocolStack W))
  : outcome (option PosixResult * ProtocolStack W) := let* (r, ps) := o in Ret (Some r, ps).

(** The part of a call under the mutex, and the whole call when nothing comes in
    between; [rv] is the result of the C library. *)
Definition run_locked (c : call) ps : outcome (option PosixResult * ProtocolStack W) :=
  match c with
  | CBind fd a n => lift_result (ProtocolStack_bind_locked fd a n ps)
  | CListen fd b => lift_result (ProtocolStack_listen_locked fd b ps)
  | CConnect fd a n => lift_result (ProtocolStack_connect_locked bld fd a n ps)
  | CAccept fd => ProtocolStack_accept_locked fd ps
  | CWrite fd buf n => lift_result (ProtocolStack_write_locked fd buf n ps)
  | CClose fd => lift_result (ProtocolStack_close_locked bld fd ps)
  end.
Definition run_call (c : call) (rv : Z) ps : outcome (option PosixResult * ProtocolStack W) :=
  match c with
  | CBind fd a n => lift_result (ProtocolStack_bind fd a n rv ps)
  | CListen fd b => lift_result (ProtocolStack_listen fd b rv ps)
  | CConnect fd a n => lift_result (ProtocolStack_connect bld fd a n rv ps)
  | CAccept fd => ProtocolStack_accept fd rv ps
  | CWrite fd buf n => lift_result (ProtocolStack_write fd buf n rv ps)
  | CClose fd => lift_result (ProtocolStack_close bld fd rv ps)
  end.

(** What a thread is doing. A test carries what it has read, the others what they will
    leave of the stack. *)
Inductive phase : Type :=
  | InTest (c : call) (own : bool)
  | Passed (c : call)
  | InMutex (c : call) (r : option PosixResult) (result : ProtocolStack W)
  | InSocket (result : ProtocolStack W)
  | InPacket (result : ProtocolStack W).

Record threads : Type := mkThreads {
  th_stack : ProtocolStack W;
  th_phases : gmap nat phase
}.

Definition holds_mutex (ph : phase) : bool :=
  match ph with InMutex _ _ _ | InPacket _ => true | _ => false end.
Definition mutex_free (m : gmap nat phase) : Prop :=
  forall t ph, m !! t = Some ph -> holds_mutex ph = false.
Definition ph_result (ph : phase) : option (ProtocolStack W) :=
  match ph with InMutex _ _ ps | InSocket ps | InPacket ps => Some ps | _ => None end.

(** A call reads [fd_set_] for its test, goes to the C library or on to the mutex, and
    has it for the rest; [_socket] works on [rand_generator_] and [fd_set_] without the
    mutex, under a descriptor [dup] has just given it; the event loop has the mutex. *)
Inductive th_step : threads -> threads -> Prop :=
  | th_test t c ps m :
      m !! t = None -> call_ok c ->
      th_step (mkThreads ps m) (mkThreads ps (<[t := InTest c (ProtocolStack_ownFD (call_fd c) ps)]> m))
  | th_foreign t c ps m :
      m !! t = Some (InTest c false) -> th_step (mkThreads ps m) (mkThreads ps (delete t m))
  | th_pass t c ps m :
      m !! t = Some (InTest c true) -> th_step (mkThreads ps m) (mkThreads ps (<[t := Passed c]> m))
  | th_lock t c r ps ps' m :
      m !! t = Some (Passed c) -> mutex_free m -> run_locked c ps = Ret (r, ps') ->
      th_step (mkThreads ps m) (mkThreads ps (<[t := InMutex c r ps']> m))
  | th_socket t d ty pr rv fd ip v ps ps' m :
      m !! t = None -> ProtocolStack_ownFD fd ps = false ->
      ProtocolStack_socket bld d ty pr rv fd ip ps = Ret (v, ps') ->
      th_step (mkThreads ps m) (mkThreads ps (<[t := InSocket ps']> m))
  | th_packet t buf n src dst ps ps' m :
      m !! t = None -> mutex_free m ->
      ProtocolStack_onReceivePacket bld buf n src dst ps = Ret ps' ->
      th_step (mkThreads ps m) (mkThreads ps (<[t := InPacket ps']> m))
  | th_end t ph ps ps' m :
      m !! t = Some ph -> ph_result ph = Some ps' ->
      th_step (mkThreads ps m) (mkThreads ps' (delete t m)).

(** Accesses to the same data, one of them a write, that no mutex keeps apart: those of
    [_socket] with any other; the lookup of a test with the [erase] of [_close] and with
    [fd_set_[socket]] in [_bind], which is not one of the accesses the standard counts as
    reads. *)
Definition conflicts (ph ph' : phase) : bool :=
  match ph, ph' with
  | InSocket _, (InTest _ _ | InMutex _ _ _ | InPacket _ | InSocket _)
  | (InTest _ _ | InMutex _ _ _ | InPacket _), InSocket _
  | InMutex (CClose _ | CBind _ _ _) _ _, InTest _ _
  | InTest _ _, InMutex (CClose _ | CBind _ _ _) _ _ => true
  | _, _ => false
  end.
Definition race_free (s : threads) : Prop :=
  forall t t' ph ph', th_phases s !! t = Some ph -> th_phases s !! t' = Some ph' -> t <> t' ->
    conflicts ph ph' = false.

(** The discipline a program keeps: it does not close a descriptor on which another
    of its threads has a call under way. *)
Definition ph_call (ph : phase) : option call :=
  match ph with InTest c _ | Passed c | InMutex c _ _ => Some c | _ => None end.
Definition close_alone (s : threads) : Prop :=
  forall t t' ph ph' fd c, th_phases s !! t = Some ph -> th_phases s !! t' = Some ph' -> t <> t' ->
    ph_call ph = Some (CClose fd) -> ph_call ph' = Some c -> call_fd c <> fd.
Definition disciplined (s s' : threads) : Prop :=
  th_step s s' /\ (race_free s /\ close_alone s) /\ race_free s' /\ close_alone s'.

(** ** What the part under the mutex does to the descriptors *)
Lemma lift_result_Ret o r ps :
  lift_result o = Ret (r, ps) -> exists r', o = Ret (r', ps).
Proof. intros ([r' ps'] & -> & [= _ <-])%bind_Ret. by exists r'. Qed.

Lemma locked_call c rv ps :
  ProtocolStack_ownFD (call_fd c) ps = true -> run_locked c ps = run_call c rv ps.
Proof.
  intros Ho. destruct c; cbn [run_locked run_call call_fd] in *;
    unfold ProtocolStack_bind, ProtocolStack_listen, ProtocolStack_connect, ProtocolStack_accept,
      ProtocolStack_write, ProtocolStack_close; by rewrite Ho.
Qed.
Lemma run_call_step c rv ps r ps' :
  call_ok c -> run_call c rv ps = Ret (r, ps') -> ps_step bld ps ps'.
Proof.
  intros Hc. destruct c; cbn [run_call]; try (intros (r' & ?)%lift_result_Ret);
    [eapply step_bind|eapply step_listen|eapply step_connect|eapply step_accept|eapply step_write
    |eapply step_close]; done.
Qed.

Lemma locked_fds c ps r ps' :
  run_locked c ps = Ret (r, ps') ->
  ps_fd_set_ ps' = match c with CClose fd => delete fd (ps_fd_set_ ps) | _ => ps_fd_set_ ps end.
Proof.
  destruct c; cbn [run_locked]; try (intros (r' & E)%lift_result_Ret; revert E).
  - unfold ProtocolStack_bind_locked.
    by intros (sa & _ & ([p st] & _ & [= <- <-])%bind_Ret)%bind_Ret.
  - unfold ProtocolStack_listen_locked. intros ([p st] & _ & E)%bind_Ret.
    destruct (negb _); by injection E as <- <-.
  - unfold ProtocolStack_connect_locked. intros ([p st] & _ & (peer & _ & E)%bind_Ret)%bind_Ret.
    destruct (st_type st); [by injection E as <- <-..|].
    apply bind_Ret in E as ([i ps1] & [G1 _]%new_session_grows & E).
    apply bind_Ret in E as (ps2 & E2%on_session_grows & E).
    apply bind_Ret in E as (ps3 & E3%on_session_grows & [= _ <-]).
    transitivity (ps_fd_set_ ps1); [by rewrite (gr_fds _ _ E3), (gr_fds _ _ E2)|apply G1].
  - unfold ProtocolStack_accept_locked. intros ([p st] & _ & E)%bind_Ret.
    destruct (negb _); by injection E as <- <-.
  - unfold ProtocolStack_write_locked. intros ([p st] & _ & E)%bind_Ret.
    destruct (st_type st); [by injection E as <- <-| |by injection E as <- <-].
    destruct (st_session st); [|done]. by destruct (ps_sessions ps !! _).
  - unfold ProtocolStack_close_locked. intros ([p st] & [Hf _]%lookupStruct_Ret & E)%bind_Ret.
    apply bind_Ret in E as (ps1 & E & [= _ <-]).
    assert (ps_fd_set_ ps1 = ps_fd_set_ ps) as Eq.
    { destruct (st_type st); [by apply close_pending_grows in E as []| |by injection E as <-].
      destruct (st_session st) as [i|]; [|done].
      apply bind_Ret in E as (ps2 & E%on_session_grows & [= <-]). apply E. }
    unfold ProtocolStack_removeStruct. rewrite Eq, Hf. done.
Qed.

Lemma socket_fds d ty pr rv fd ip ps v ps' fd' :
  ProtocolStack_ownFD fd ps = false -> ProtocolStack_socket bld d ty pr rv fd ip ps = Ret (v, ps') ->
  ProtocolStack_ownFD fd' ps = true -> ProtocolStack_ownFD fd' ps' = true.
Proof.
  intros Hn. unfold ProtocolStack_socket. case_match; [by intros [= <- <-]|].
  intros ([] & _ & (a & _ & ([port g] & _ & E)%bind_Ret)%bind_Ret)%bind_Ret.
  unfold ProtocolStack_ownFD in *. apply bool_decide_eq_false in Hn. rewrite !bool_decide_eq_true.
  intros [p Hp]. cbn in E. destruct (ps_fd_set_ ps !! fd) as [q|] eqn:Eq; [destruct Hn; by eexists|].
  cbn in E. injection E as <- <-. cbn.
  destruct (decide (fd = fd')) as [->|]; [rewrite lookup_insert_eq; by eexists|].
  rewrite lookup_insert_ne by done. by exists p.
Qed.
Lemma listen_packet_fds buf n src dst ps ps' :
  ListenDispatcher_onReceivePacket bld buf n src dst ps = Ret ps' -> ps_fd_set_ ps' = ps_fd_set_ ps.
Proof.
  unfold ListenDispatcher_onReceivePacket. intros (g & _ & E)%bind_Ret.
  destruct (ListenDispatcher_lookupSession _ _) as [p|].
  2: { by apply bind_Ret in E as ([b w] & _ & [= <-]). }
  destruct (ps_structs ps !! p) as [st|]; [|done].
  destruct (_ <=? _); [by injection E as <-|].
  apply bind_Ret in E as ([i ps1] & [G1 _]%new_session_grows & E).
  apply bind_Ret in E as (ps2 & E2%on_session_grows & [= <-]).
  transitivity (ps_fd_set_ ps1); [apply (gr_fds _ _ E2)|apply G1].
Qed.
Lemma packet_fds buf n src dst ps ps' :
  ProtocolStack_onReceivePacket bld buf n src dst ps = Ret ps' -> ps_fd_set_ ps' = ps_fd_set_ ps.
Proof.
  unfold ProtocolStack_onReceivePacket, SegmentDispatcher_onReceivePacket. intros (g & _ & E)%bind_Ret.
  destruct (SegmentDispatcher_lookupSession _ _ _); [|by eapply listen_packet_fds].
  by apply on_session_grows in E as [].
Qed.

(** ** Interleavings *)

(** What a thread has read, and what it is about to write, is what the stack says now. *)
Definition ph_inv ps (ph : phase) : Prop :=
  match ph with
  | InTest c own => call_ok c /\ ProtocolStack_ownFD (call_fd c) ps = own
  | Passed c => call_ok c /\ ProtocolStack_ownFD (call_fd c) ps = true
  | InMutex c r ps' =>
      call_ok c /\ ProtocolStack_ownFD (call_fd c) ps = true /\ run_locked c ps = Ret (r, ps')
  | InSocket ps' => exists d ty pr rv fd ip v, ProtocolStack_ownFD fd ps = false /\
      ProtocolStack_socket bld d ty pr rv fd ip ps = Ret (v, ps')
  | InPacket ps' => exists buf n src dst, ProtocolStack_onReceivePacket bld buf n src dst ps = Ret ps'
  end.
Record th_inv (s : threads) : Prop := {
  ti_phase : forall t ph, th_phases s !! t = Some ph -> ph_inv (th_stack s) ph;
  ti_mutex : forall t t' ph ph', th_phases s !! t = Some ph -> th_phases s !! t' = Some ph' ->
    holds_mutex ph = true -> holds_mutex ph' = true -> t = t'
}.

(** The end of a phase is a step of the stack. *)
Lemma end_step ps ph ps' : ph_inv ps ph -> ph_result ph = Some ps' -> ps_step bld ps ps'.
Proof.
  destruct ph as [c own|c|c r res|res|res]; cbn [ph_inv ph_result]; intros Hp E; simplify_eq.
  - destruct Hp as (Hc & Hown & Hr). rewrite (locked_call c 0 ps Hown) in Hr. by eapply run_call_step.
  - destruct Hp as (d & ty & pr & rv & fd & ip & v & _ & Hr). by eapply step_socket.
  - destruct Hp as (buf & n & src & dst & Hr). by eapply step_packet.
Qed.
(** What it leaves of the descriptors. *)
Lemma end_fds ps ph ps' :
  ph_inv ps ph -> ph_result ph = Some ps' ->
  match ph with
  | InMutex (CClose fd) _ _ => ps_fd_set_ ps' = delete fd (ps_fd_set_ ps)
  | InSocket _ => forall fd, ProtocolStack_ownFD fd ps = true -> ProtocolStack_ownFD fd ps' = true
  | _ => ps_fd_set_ ps' = ps_fd_set_ ps
  end.
Proof.
  destruct ph as [c own|c|c r res|res|res]; cbn [ph_inv ph_result]; intros Hp E; simplify_eq.
  - destruct Hp as (_ & _ & Hr). apply locked_fds in Hr. by destruct c.
  - destruct Hp as (d & ty & pr & rv & fd & ip & v & Hn & Hr). intros fd'. by eapply socket_fds.
  - destruct Hp as (buf & n & src & dst & Hr). by eapply packet_fds.
Qed.
(** What it leaves of the others, when there is no race. *)
Lemma end_others ps ph ps' ph' :
  ph_inv ps ph -> ph_result ph = Some ps' -> conflicts ph ph' = false ->
  (holds_mutex ph = true -> holds_mutex ph' = false) ->
  (forall fd c, ph_call ph = Some (CClose fd) -> ph_call ph' = Some c -> call_fd c <> fd) ->
  ph_inv ps ph' -> ph_inv ps' ph'.
Proof.
  intros Hp Hr Hcf Hm Hcl. pose proof (end_fds _ _ _ Hp Hr) as Hf. unfold ProtocolStack_ownFD in Hf.
  assert (forall c, ph_call ph' = Some c -> ProtocolStack_ownFD (call_fd c) ps = true ->
    ProtocolStack_ownFD (call_fd c) ps' = true) as Hown.
  { intros c Hc. unfold ProtocolStack_ownFD. destruct ph as [| |[] ? ?| |]; try (by rewrite Hf); [|by apply Hf].
    rewrite Hf, lookup_delete_ne; [done|]. intros E. symmetry in E. by eapply (Hcl _ c). }
  destruct ph' as [c own|c|c r res|res|res]; cbn [ph_inv].
  - intros [? <-]. split; [done|]. unfold ProtocolStack_ownFD.
    destruct ph as [| |[] ? ?| |]; try done; by rewrite Hf.
  - intros [? ?]. split; [done|]. by apply Hown.
  - by destruct ph; try done; discriminate (Hm eq_refl).
  - by destruct ph as [| |[] ? ?| |].
  - by destruct ph; try done; discriminate (Hm eq_refl).
Qed.

(** A thread that goes on to a phase that agrees with the stack. *)
Lemma move_inv t ph ps m :
  th_inv (mkThreads ps m) -> ph_inv ps ph ->
  (holds_mutex ph = true -> mutex_free m) -> th_inv (mkThreads ps (<[t := ph]> m)).
Proof.
  intros [Hp Hm] Hph Hfree. split; cbn in *.
  - intros u q. rewrite lookup_insert_Some. intros [[_ <-]|[_ ?]]; eauto.
  - intros u u' q q'. rewrite !lookup_insert_Some.
    intros [[<- <-]|[_ Hu]] [[<- <-]|[_ Hu']] Hq Hq'; [done| | |eauto].
    + by rewrite (Hfree Hq _ _ Hu') in Hq'.
    + by rewrite (Hfree Hq' _ _ Hu) in Hq.
Qed.
Lemma drop_inv t ps m : th_inv (mkThreads ps m) -> th_inv (mkThreads ps (delete t m)).
Proof.
  intros [Hp Hm]. split; cbn in *.
  - intros u q [_ ?]%lookup_delete_Some. eauto.
  - intros u u' q q' [_ ?]%lookup_delete_Some [_ ?]%lookup_delete_Some. eauto.
Qed.
Lemma end_inv t ph ps ps' m :
  m !! t = Some ph -> ph_result ph = Some ps' ->
  race_free (mkThreads ps m) -> close_alone (mkThreads ps m) ->
  th_inv (mkThreads ps m) -> th_inv (mkThreads ps' (delete t m)).
Proof.
  intros Ht Hr Hrf Hca Hi. split; cbn.
  - intros u q [Hne Hu]%lookup_delete_Some. pose proof (ti_phase _ Hi u q Hu) as Hq.
    eapply (end_others ps ph); [by apply (ti_phase _ Hi t)|done|by eapply Hrf| |intros fd c Hc Hc'; exact (Hca t u ph q fd c Ht Hu Hne Hc Hc')|done].
    intros Hh. destruct (holds_mutex q) eqn:Eq; [|done]. destruct Hne. by eapply (ti_mutex _ Hi).
  - intros u u' q q' [_ ?]%lookup_delete_Some [_ ?]%lookup_delete_Some. by apply (ti_mutex _ Hi).
Qed.

Lemma disciplined_step s s' :
  disciplined s s' -> th_inv s -> rtc (ps_step bld) (th_stack s) (th_stack s') /\ th_inv s'.
Proof.
  intros (Hs & (Hrf & Hca) & _) Hi.
  destruct Hs as [t c ps m Hn Hc|t c ps m Ht|t c ps m Ht|t c r ps ps' m Ht Hf Hr
    |t d ty pr rv fd ip v ps ps' m Hn Ho Hr|t buf n src dst ps ps' m Hn Hf Hr|t ph ps ps' m Ht Hr]; cbn [th_stack].
  - split; [done|]. by apply move_inv.
  - split; [done|]. by apply drop_inv.
  - split; [done|]. apply move_inv; [done| |done]. apply (ti_phase _ Hi t _ Ht).
  - split; [done|]. destruct (ti_phase _ Hi t _ Ht). by apply move_inv.
  - split; [done|]. apply move_inv; [done| |done]. cbn. eauto 10.
  - split; [done|]. apply move_inv; [done| |done]. cbn. eauto 10.
  - split; [|by eapply end_inv]. apply rtc_once. eapply end_step; [apply (ti_phase _ Hi t _ Ht)|done].
Qed.
Lemma disciplined_steps s s' :
  rtc disciplined s s' -> th_inv s -> rtc (ps_step bld) (th_stack s) (th_stack s') /\ th_inv s'.
Proof.
  induction 1 as [s|s1 s2 s3 Hs _ IH]; intros Hi; [done|].
  destruct (disciplined_step _ _ Hs Hi) as [H1' Hi2]. destruct (IH Hi2). split; [by etrans|done].
Qed.
Lemma th_start_inv ps : th_inv (mkThreads ps ∅).
Proof. split; cbn; intros t; [intros ph|intros t' ph ph']; by rewrite lookup_empty. Qed.

(** C7. Calls of threads are atomic in every execution without a data race in which no
    descriptor is closed while another call on it is under way. A test of [ownFD], the
    part of a call under the mutex, [_socket] (which has no mutex) and the reception of a
    packet each read the tables when they begin and write them when they end, and
    interleave in any order; a data race is a [_socket] that overlaps with any of the
    others, or a test that overlaps with the locked part of a [_bind] or [_close].
    In such executions the stack goes through states it also reaches with calls that run
    one after the other; its tables stay consistent; at most one thread has the mutex; a
    call that has passed its test finds its socket and does under the mutex what it would
    do without the others; and a call that has the mutex leaves what that gives. *)
Theorem threads_linearize ps (s : threads) :
  stack_inv ps -> rtc disciplined (mkThreads ps ∅) s ->
  rtc (ps_step bld) ps (th_stack s) /\ stack_inv (th_stack s) /\
  (forall t t' ph ph', th_phases s !! t = Some ph -> th_phases s !! t' = Some ph' ->
     holds_mutex ph = true -> holds_mutex ph' = true -> t = t') /\
  (forall t c rv, th_phases s !! t = Some (Passed c) ->
     run_locked c (th_stack s) = run_call c rv (th_stack s) /\
     exists p st, ProtocolStack_lookupStruct (call_fd c) (th_stack s) = Ret (p, st)) /\
  forall t c r ps' rv, th_phases s !! t = Some (InMutex c r ps') ->
    run_call c rv (th_stack s) = Ret (r, ps').
Proof.
  intros Hi Hs. destruct (disciplined_steps _ _ Hs (th_start_inv ps)) as [Hr Ht].
  destruct (steps_keep bld _ _ Hr Hi) as [Hi' _]. split; [done|]. split; [done|].
  split; [apply (ti_mutex _ Ht)|]. split.
  - intros t c rv Hc. destruct (ti_phase _ Ht t _ Hc) as [_ Hown]. split; [by apply locked_call|].
    apply bool_decide_eq_true_1 in Hown as [p Hp]. destruct (inv_owner _ Hi' _ _ Hp) as [st Hst].
    exists p, st. by apply lookupStruct_Ret.
  - intros t c r ps' rv Hc. destruct (ti_phase _ Ht t _ Hc) as (_ & Hown & <-). symmetry. by apply locked_call.
Qed.

(** The mutex does not exclude races: whenever [_socket] and the reception of a packet
    both succeed, an execution has them overlap, and the results of one are lost. *)
Theorem socket_races_with_packet ps ps1 ps2 d ty pr rv fd ip v buf n src dst (t t' : nat) :
  t <> t' -> ProtocolStack_ownFD fd ps = false ->
  ProtocolStack_socket bld d ty pr rv fd ip ps = Ret (v, ps1) ->
  ProtocolStack_onReceivePacket bld buf n src dst ps = Ret ps2 ->
  exists s, rtc th_step (mkThreads ps ∅) s /\ ~ race_free s /\ rtc th_step s (mkThreads ps1 ∅).
Proof.
  intros Hne Ho H1' H2'. set (m := <[t' := InPacket ps2]> {[t := InSocket ps1]} : gmap nat phase).
  assert (Et : m !! t = Some (InSocket ps1)) by (unfold m; by rewrite lookup_insert_ne, lookup_singleton_eq).
  assert (Et' : m !! t' = Some (InPacket ps2)) by (unfold m; by rewrite lookup_insert_eq).
  exists (mkThreads ps m). split_and!.
  - eapply rtc_l; [by eapply (th_socket t); [apply lookup_empty| |]|]. apply rtc_once.
    eapply (th_packet t'); [by apply lookup_singleton_ne| |done].
    by intros u ph [_ <-]%lookup_singleton_Some.
  - intros Hrf. by specialize (Hrf t t' _ _ Et Et' Hne).
  - eapply rtc_l; [by eapply (th_end t')|]. apply rtc_once.
    assert (Em : delete t (delete t' m) = ∅).
    { unfold m. rewrite delete_insert_id by (by apply lookup_singleton_ne). apply delete_singleton_eq. }
    rewrite <- Em. eapply th_end; [by rewrite lookup_delete_ne|done].
Qed.

(** Without the discipline: when one thread closes a descriptor between the test and
    the mutex of another's call, that call follows a null pointer. *)
Theorem close_race_undefined ps ps' fd (c : call) r (t t' : nat) :
  call_fd c = fd -> call_ok c -> t <> t' -> ProtocolStack_ownFD fd ps = true ->
  match c with CBind _ a n => exists sa, SocketAddress_of_sockaddr a n = Ret sa | _ => True end ->
  run_locked (CClose fd) ps = Ret (r, ps') ->
  exists s, rtc th_step (mkThreads ps ∅) s /\ th_stack s = ps' /\ th_phases s = {[t' := Passed c]} /\
    run_locked c (th_stack s) = Undef.
Proof.
  intros Hfd Hok Hne Hown Hb Hr. exists (mkThreads ps' {[t' := Passed c]}). split_and!.
  - eapply rtc_l; [apply (th_test t' c); [apply lookup_empty|done]|]. rewrite Hfd, Hown.
    eapply rtc_l; [apply (th_pass t' c), lookup_insert_eq|]. rewrite insert_insert_eq.
    eapply rtc_l; [apply (th_test t (CClose fd)); [by rewrite lookup_insert_ne|done]|]. cbn [call_fd]. rewrite Hown.
    eapply rtc_l; [apply (th_pass t (CClose fd)), lookup_insert_eq|]. rewrite insert_insert_eq.
    eapply rtc_l; [eapply (th_lock t (CClose fd)); [apply lookup_insert_eq| |exact Hr]|].
    { intros u ph. rewrite !lookup_insert_Some, lookup_empty. by intros [[_ <-]|[_ [[_ <-]|[_ ?]]]]. }
    rewrite insert_insert_eq. apply rtc_once.
    match goal with |- th_step (mkThreads _ ?m) _ => replace ({[t' := Passed c]} : gmap nat phase) with (delete t m) end.
    + by eapply th_end; [apply lookup_insert_eq|].
    + by rewrite delete_insert_id by (by rewrite lookup_insert_ne).
  - done.
  - done.
  - apply locked_fds in Hr. cbn [th_stack].
    assert (forall fd', fd' = fd -> ProtocolStack_lookupStruct fd' ps' = Undef) as Hl.
    { intros ? ->. unfold ProtocolStack_lookupStruct. by rewrite Hr, lookup_delete_eq. }
    destruct c; cbn [run_locked call_fd] in *;
      unfold ProtocolStack_bind_locked, ProtocolStack_listen_locked, ProtocolStack_connect_locked,
        ProtocolStack_accept_locked, ProtocolStack_write_locked, ProtocolStack_close_locked;
      try (by rewrite Hl).
    destruct Hb as [sa ->]. cbn [obind]. by rewrite Hl.
Qed.
End threads.

(** ** The waiting loop of [_write] *)
Section write.
Context {W : Type} `{AlarmImpl W} `{AlarmFactory W} `{IPSender W}.
Implicit Types ps : ProtocolStack W.

(** [session->send] has no body in the source: any function in its place. *)
Context (send : list Z -> Z -> SocketSession W -> outcome (Z * SocketSession W)).

(** Access through the pointer [st] the caller keeps while it waits. *)
Definition struct_at (p : nat) ps : outcome SocketStruct :=
  match ps_structs ps !! p with Some st => Ret st | None => Undef end.
Definition struct_message (p : nat) ps : outcome Z :=
  st <- struct_at p ps ;;
  match st_message_ st with Some m => Ret m | None => Undef end.

(** [send(buf, nbyte)] of the session of the socket. *)
Definition write_send (p : nat) (buf : list Z) (nbyte : Z) ps : outcome (Z * ProtocolStack W) :=
  st <- struct_at p ps ;;
  match st_session st with
  | None => Undef
  | Some i =>
      match ps_sessions ps !! i with
      | None => Undef
      | Some s =>
          let* (rv, s) := send buf nbyte (se_attach (ps_world ps) (ps_rand ps) s) in
          Ret (rv, ps_store i s ps)
      end
  end.

(** The [while (true)]; an element of [wakes] is what other threads do to the stack
    until the caller is woken up and has the mutex again. [None]: it still waits. *)
Fixpoint write_wait (wakes : list (ProtocolStack W -> outcome (ProtocolStack W))) (p : nat)
  (buf : list Z) (nbyte : Z) ps : outcome (option PosixResult * ProtocolStack W) :=
  st <- struct_at p ps ;;
  let ps := ps_put_struct p (SocketStruct_waitMessage st) ps in
  match wakes with
  | [] => Ret (None, ps)
  | wake :: wakes =>
      ps <- wake ps ;;
      m <- struct_message p ps ;;
      let* (sent, ps) :=
        if negb (Z.land m MSG_WRITABLE =? 0) then write_send p buf nbyte ps else Ret (0, ps) in
      if 0 <? sent then Ret (Some (RetVal sent), ps)
      else
        m <- struct_message p ps ;;
        if SocketStruct_isErrorMessage m then Ret (Some (Errno ECONNABORTED), ps)
        else write_wait wakes p buf nbyte ps
  end.

(** [_write] in full. *)
Definition ProtocolStack_write_full (wakes : list (ProtocolStack W -> outcome (ProtocolStack W)))
  (fildes : Z) (buf : list Z) (nbyte real_rv : Z) ps : outcome (option PosixResult * ProtocolStack W) :=
  if negb (ProtocolStack_ownFD fildes ps) then Ret (Some (RetVal real_rv), ps)
  else
    let* (p, st) := ProtocolStack_lookupStruct fildes ps in
    match st_type st with
    | UNSPECIFIED => Ret (Some (Errno ENOTCONN), ps)
    | PASSIVE => Ret (Some (Errno EBADF), ps)
    | ACTIVE =>
        let* (rv, ps) := write_send p buf nbyte ps in
        if 0 <? rv then Ret (Some (RetVal rv), ps) else write_wait wakes p buf nbyte ps
    end.

(** The message of a session to its socket while the caller waits. *)
Definition deliver (p : nat) (message : Z) ps : outcome (ProtocolStack W) :=
  st <- struct_at p ps ;;
  st <- SocketStruct_onMessage message st ;;
  Ret (ps_put_struct p st ps).

Lemma write_wait_deliver wakes p buf n m ps st :
  ps_structs ps !! p = Some st ->
  let st' := mkSocketStruct (st_session st) (st_backlog st) (st_pending st) (st_bind_address st)
               (st_type st) (if m =? MSG_CLOSING then true else st_closing st) (Some m) in
  let ps' := ps_put_struct p st' ps in
  write_wait (deliver p m :: wakes) p buf n ps =
    let* (sent, ps2) :=
      if negb (Z.land m MSG_WRITABLE =? 0) then write_send p buf n ps' else Ret (0, ps') in
    if 0 <? sent then Ret (Some (RetVal sent), ps2)
    else m2 <- struct_message p ps2 ;;
      if SocketStruct_isErrorMessage m2 then Ret (Some (Errno ECONNABORTED), ps2)
      else write_wait wakes p buf n ps2.
Proof.
  intros Hp st' ps'. cbn [write_wait]. unfold struct_at at 1. rewrite Hp. cbn [obind].
  unfold deliver, struct_at at 1. cbn [ps_put_struct ps_put_structs ps_structs]. rewrite lookup_insert_eq.
  cbn [obind SocketStruct_onMessage SocketStruct_waitMessage st_message_ st_session st_backlog st_pending
    st_bind_address st_type st_closing]. rewrite Z.lor_0_l.
  match goal with |- context [ps_put_struct p ?a (ps_put_struct p ?b ps)] =>
    assert (ps_put_struct p a (ps_put_struct p b ps) = ps') as -> end.
  { unfold ps', ps_put_struct, ps_put_structs. cbn. by rewrite insert_insert_eq. }
  unfold struct_message at 1, struct_at at 1. unfold ps' at 1. cbn [ps_put_struct ps_put_structs ps_structs].
  rewrite lookup_insert_eq. cbn [obind st_message_ st']. done.
Qed.

Lemma write_wait_result wakes p buf n ps r ps' :
  write_wait wakes p buf n ps = Ret (Some r, ps') ->
  (exists v, 0 < v /\ r = RetVal v) \/ r = Errno ECONNABORTED.
Proof.
  revert ps. induction wakes as [|wake wakes IH]; intros ps; cbn [write_wait]; intros (st & _ & E)%bind_Ret; [done|].
  apply bind_Ret in E as (ps1 & _ & (m & _ & E)%bind_Ret). apply bind_Ret in E as ([sent ps2] & _ & E).
  destruct (Z.ltb_spec 0 sent); [injection E as <- _; left; by exists sent|].
  apply bind_Ret in E as (m2 & _ & E). destruct (SocketStruct_isErrorMessage m2); [|by eapply IH].
  injection E as <- _. by right.
Qed.

(** A message that neither opens the window nor reports an error. *)
Definition quiet_message (m : Z) : Prop :=
  Z.land m MSG_WRITABLE = 0 /\ SocketStruct_isErrorMessage m = false.

Lemma write_wait_quiet ms wakes p buf n : Forall quiet_message ms -> forall ps st,
  ps_structs ps !! p = Some st ->
  exists st', st_session st' = st_session st /\
    write_wait (map (deliver p) ms ++ wakes) p buf n ps = write_wait wakes p buf n (ps_put_struct p st' ps).
Proof.
  induction 1 as [|m ms [Hw He] _ IH]; intros ps st Hp.
  { exists st. split; [done|]. cbn [map app]. f_equal. destruct ps; unfold ps_put_struct, ps_put_structs; cbn in *.
    by rewrite insert_id. }
  cbn [map app]. rewrite (write_wait_deliver _ p buf n m ps st Hp), Hw. cbn [Z.eqb negb obind].
  set (st1 := mkSocketStruct _ _ _ _ _ _ _). change (0 <? 0) with false.
  unfold struct_message at 1, struct_at at 1. cbn [ps_put_struct ps_put_structs ps_structs].
  rewrite lookup_insert_eq. cbn [obind st_message_ st1]. rewrite He.
  destruct (IH (ps_put_struct p st1 ps) st1) as (st' & Hst' & ->); [cbn; apply lookup_insert_eq|].
  exists st'. split; [done|]. f_equal. unfold ps_put_struct, ps_put_structs. cbn. by rewrite insert_insert_eq.
Qed.

(** One more message, [m], after quiet ones: the session is asked again when the window
    is open. *)
Lemma write_wait_message ms m wakes p buf n ps st i s :
  Forall quiet_message ms -> ps_structs ps !! p = Some st -> st_session st = Some i ->
  ps_sessions ps !! i = Some s ->
  (forall v s2, Z.land m MSG_WRITABLE <> 0 -> send buf n (se_attach (ps_world ps) (ps_rand ps) s) = Ret (v, s2) ->
     0 < v -> exists ps', write_wait (map (deliver p) ms ++ deliver p m :: wakes) p buf n ps
       = Ret (Some (RetVal v), ps') /\ ps_sessions ps' !! i = Some (se_detach s2)) /\
  (SocketStruct_isErrorMessage m = true ->
     Z.land m MSG_WRITABLE = 0 \/
       (exists s2, send buf n (se_attach (ps_world ps) (ps_rand ps) s) = Ret (0, s2)) ->
     exists ps', write_wait (map (deliver p) ms ++ deliver p m :: wakes) p buf n ps
       = Ret (Some (Errno ECONNABORTED), ps')).
Proof.
  intros Hms Hp Hs Hi.
  destruct (write_wait_quiet ms (deliver p m :: wakes) p buf n Hms ps st Hp) as (st' & Hst' & ->).
  rewrite (write_wait_deliver wakes p buf n m _ st') by (cbn; apply lookup_insert_eq).
  set (st1 := mkSocketStruct _ _ _ _ _ _ _). set (ps1 := ps_put_struct p st1 _).
  assert (Hp1 : ps_structs ps1 !! p = Some st1) by (unfold ps1; cbn; apply lookup_insert_eq).
  assert (Hw : forall v s2, send buf n (se_attach (ps_world ps) (ps_rand ps) s) = Ret (v, s2) ->
    write_send p buf n ps1 = Ret (v, ps_store i s2 ps1)).
  { intros v s2 Es. unfold write_send, struct_at. rewrite Hp1. cbn [obind]. unfold st1 at 1. cbn [st_session].
    rewrite Hst', Hs. change (ps_sessions ps1) with (ps_sessions ps). rewrite Hi.
    change (ps_world ps1) with (ps_world ps). change (ps_rand ps1) with (ps_rand ps). by rewrite Es. }
  split.
  - intros v s2 Hm Es Hv. rewrite (proj2 (Z.eqb_neq _ 0) Hm). cbn [negb].
    rewrite (Hw v s2 Es). cbn [obind]. rewrite (proj2 (Z.ltb_lt 0 v) Hv).
    eexists. split; [done|]. cbn. apply lookup_insert_eq.
  - assert (Hmsg : forall ps2, ps_structs ps2 = ps_structs ps1 -> struct_message p ps2 = Ret m).
    { intros ps2 E2. unfold struct_message, struct_at. by rewrite E2, Hp1. }
    intros He [Hm|[s2 Es]].
    + rewrite Hm. cbn [negb Z.eqb obind]. change (0 <? 0) with false. rewrite Hmsg by done.
      cbn [obind]. rewrite He. by eexists.
    + destruct (negb _); [rewrite (Hw 0 s2 Es)|]; cbn [obind]; change (0 <? 0) with false;
        rewrite Hmsg by done; cbn [obind]; rewrite He; by eexists.
Qed.

(** C12. [_write] on a connected socket, for any [send]. If [send] accepts [v > 0] bytes at
    the first try, [_write] returns [v] at once, with the session [send] left. If it accepts
    none, [_write] waits through every message that neither opens the window nor reports an
    error; at the next message that opens the window it asks [send] again and, if this
    accepts [v > 0] bytes, returns [v] with the session [send] left; and at the next message
    that reports an error, unless [send] accepts bytes then, it returns ECONNABORTED. It
    returns nothing but a positive count or ECONNABORTED. *)
Theorem write_waits_for_window fd buf n rv ps p st i s :
  ProtocolStack_lookupStruct fd ps = Ret (p, st) -> st_type st = ACTIVE -> st_session st = Some i ->
  ps_sessions ps !! i = Some s ->
  (forall wakes r ps', ProtocolStack_write_full wakes fd buf n rv ps = Ret (Some r, ps') ->
     (exists v, 0 < v /\ r = RetVal v) \/ r = Errno ECONNABORTED) /\
  (forall wakes v s1, send buf n (se_attach (ps_world ps) (ps_rand ps) s) = Ret (v, s1) -> 0 < v ->
     ProtocolStack_write_full wakes fd buf n rv ps = Ret (Some (RetVal v), ps_store i s1 ps)) /\
  forall ms s1,
    Forall quiet_message ms ->
    send buf n (se_attach (ps_world ps) (ps_rand ps) s) = Ret (0, s1) ->
    let again := send buf n (se_attach (ss_world (se_send s1)) (se_rand s1) (se_detach s1)) in
    (exists ps', ProtocolStack_write_full (map (deliver p) ms) fd buf n rv ps = Ret (None, ps')) /\
    (forall m wakes v s2, Z.land m MSG_WRITABLE <> 0 -> again = Ret (v, s2) -> 0 < v ->
       exists ps', ProtocolStack_write_full (map (deliver p) ms ++ deliver p m :: wakes) fd buf n rv ps
         = Ret (Some (RetVal v), ps') /\ ps_sessions ps' !! i = Some (se_detach s2)) /\
    (forall m wakes, SocketStruct_isErrorMessage m = true ->
       Z.land m MSG_WRITABLE = 0 \/ (exists s2, again = Ret (0, s2)) ->
       exists ps', ProtocolStack_write_full (map (deliver p) ms ++ deliver p m :: wakes) fd buf n rv ps
         = Ret (Some (Errno ECONNABORTED), ps')).
Proof.
  intros Hl Ht Hs Hi. apply lookupStruct_Ret in Hl as Hl'. destruct Hl' as [Hf Hp].
  unfold ProtocolStack_write_full. rewrite (ownFD_lookup _ _ p Hf), Hl. cbn [negb obind]. rewrite Ht. split; [|split].
  - intros wakes r ps' ([sent ps1] & _ & E)%bind_Ret.
    destruct (Z.ltb_spec 0 sent); [injection E as <- _; left; by exists sent|]. by eapply write_wait_result.
  - intros wakes v s1 E1 Hv. unfold write_send, struct_at. rewrite Hp. cbn [obind].
    rewrite Hs, Hi, E1. cbn [obind]. by rewrite (proj2 (Z.ltb_lt 0 v) Hv).
  - intros ms s1 Hms E1. unfold write_send, struct_at. rewrite Hp. cbn [obind].
    rewrite Hs, Hi, E1. cbn [obind]. change (0 <? 0) with false.
    assert (ps_structs (ps_store i s1 ps) !! p = Some st) as Hp1 by done.
    assert (ps_sessions (ps_store i s1 ps) !! i = Some (se_detach s1)) as Hi1 by (cbn; apply lookup_insert_eq).
    split; [|split; intros m wakes].
    2: exact (proj1 (write_wait_message ms m wakes p buf n _ st i _ Hms Hp1 Hs Hi1)).
    2: exact (proj2 (write_wait_message ms m wakes p buf n _ st i _ Hms Hp1 Hs Hi1)).
    destruct (write_wait_quiet ms [] p buf n Hms _ st Hp1) as (st' & _ & Ew). rewrite app_nil_r in Ew. rewrite Ew.
    cbn [write_wait]. unfold struct_at. cbn [ps_put_struct ps_put_structs ps_structs].
    rewrite lookup_insert_eq. by eexists.
Qed.

(** Closing the descriptor while a call waits destroys the socket it holds a pointer
    to, condition variable included. *)
Theorem write_wait_dangles bld wakes fd buf n rv ps p ps' r st :
  ProtocolStack_lookupStruct fd ps = Ret (p, st) ->
  ProtocolStack_close bld fd rv (ps_put_struct p (SocketStruct_waitMessage st) ps) = Ret (r, ps') ->
  write_wait ((fun ps => let* (_, ps) := ProtocolStack_close bld fd rv ps in Ret ps) :: wakes) p buf n ps = Undef.
Proof.
  intros Hl Hc. apply lookupStruct_Ret in Hl as [Hf Hp]. cbn [write_wait].
  unfold struct_at at 1. rewrite Hp. cbn [obind]. rewrite Hc. cbn [obind].
  unfold struct_message, struct_at. set (ps1 := ps_put_struct p _ ps) in *.
  assert (ps_fd_set_ ps1 !! fd = Some p) as Hf1 by done.
  unfold ProtocolStack_close, ProtocolStack_close_locked in Hc. rewrite (ownFD_lookup _ _ p Hf1) in Hc. cbn [negb] in Hc.
  apply bind_Ret in Hc as ([q st1] & [Hf2 _]%lookupStruct_Ret & Hc). rewrite Hf1 in Hf2. injection Hf2 as <-.
  apply bind_Ret in Hc as (ps2 & E & [= _ <-]).
  assert (ps_fd_set_ ps2 !! fd = Some p) as Hf3.
  { destruct (st_type st1); [by apply close_pending_grows in E as [-> _ _ _ _ _]| |by injection E as <-].
    destruct (st_session st1) as [i|]; [|done].
    apply bind_Ret in E as (ps3 & E%on_session_grows & [= <-]). cbn. by rewrite (gr_fds _ _ E). }
  unfold ProtocolStack_removeStruct. rewrite Hf3. cbn. by rewrite lookup_delete_eq.
Qed.
End write.

(** ** Witnesses *)

(** Thread 1 is accepting on descriptor 4 and has the mutex, thread 2 is about to close
    descriptor 5. *)
Definition example_accepting : ProtocolStack MockWorld :=
  ps_put_struct 0 (mkSocketStruct None 2 [] (example_sa 2 80) PASSIVE false (Some 0)) example_stack.
Definition example_threads (n : nat) : threads (W := MockWorld) :=
  mkThreads example_stack match n with
    | 0%nat => ∅
    | 1%nat => <[1%nat := InTest (CAccept 4) true]> ∅
    | 2%nat => <[1%nat := Passed (CAccept 4)]> ∅
    | 3%nat => <[2%nat := InTest (CClose 5) true]> (<[1%nat := Passed (CAccept 4)]> ∅)
    | 4%nat => <[2%nat := Passed (CClose 5)]> (<[1%nat := Passed (CAccept 4)]> ∅)
    | _ => <[1%nat := InMutex (CAccept 4) None example_accepting]>
        (<[2%nat := Passed (CClose 5)]> (<[1%nat := Passed (CAccept 4)]> ∅))
    end.
Lemma example_threads_ok n : race_free (example_threads n) /\ close_alone (example_threads n).
Proof.
  split; [intros t t' ph ph'|intros t t' ph ph' fd c]; unfold example_threads;
    destruct n as [|[|[|[|[|n]]]]]; cbn [th_phases]; rewrite ?lookup_insert_Some, ?lookup_empty;
    intros; repeat match goal with H : _ \/ _ |- _ => destruct H | H : _ /\ _ |- _ => destruct H end;
    by simplify_eq/=.
Qed.
Lemma example_threads_steps : rtc (disciplined Debug) (mkThreads example_stack ∅) (example_threads 5).
Proof.
  assert (Hd : forall n n', th_step Debug (example_threads n) (example_threads n') ->
    disciplined Debug (example_threads n) (example_threads n'))
    by (intros; split; [done|]; split; apply example_threads_ok).
  assert (Hpass : forall t c m, th_step Debug (mkThreads example_stack (<[t := InTest c true]> m))
      (mkThreads example_stack (<[t := Passed c]> m))).
  { intros t c m. rewrite <- (insert_insert_eq m t (Passed c) (InTest c true)). apply th_pass, lookup_insert_eq. }
  change (mkThreads example_stack ∅) with (example_threads 0).
  eapply rtc_l; [apply (Hd 0%nat 1%nat); by apply (th_test Debug 1 (CAccept 4) example_stack ∅)|].
  eapply rtc_l; [apply (Hd 1%nat 2%nat), Hpass|].
  eapply rtc_l; [apply (Hd 2%nat 3%nat);
    by apply (th_test Debug 2 (CClose 5) example_stack (<[1%nat := Passed (CAccept 4)]> ∅))|].
  eapply rtc_l; [apply (Hd 3%nat 4%nat), Hpass|].
  apply rtc_once, (Hd 4%nat 5%nat), (th_lock Debug 1 (CAccept 4)); [reflexivity| |reflexivity].
  intros t ph. rewrite !lookup_insert_Some, lookup_empty. by intros [[_ <-]|[_ [[_ <-]|[_ ?]]]].
Qed.

Lemma threads_linearize_witness :
  exists s : threads (W := MockWorld), rtc (disciplined Debug) (mkThreads example_stack ∅) s /\
    th_phases s !! 2%nat = Some (Passed (CClose 5)) /\ stack_inv (th_stack s) /\
    run_locked Debug (CClose 5) (th_stack s) = run_call Debug (CClose 5) 0 (th_stack s) /\
    run_call Debug (CAccept 4) 0 (th_stack s) = Ret (None, example_accepting).
Proof.
  exists (example_threads 5).
  destruct (threads_linearize Debug example_stack (example_threads 5) example_stack_inv example_threads_steps)
    as (_ & Hi & _ & Hp & Hm).
  split; [apply example_threads_steps|]. split; [reflexivity|]. split; [exact Hi|].
  split; [by apply (Hp 2%nat)|by apply (Hm 1%nat)].
Defined.

(** A SYN to a port where nobody listens. *)
Definition example_stray : list Z :=
  [195; 80; 0; 81; 0; 0; 0; 7; 0; 0; 0; 0; 80; 2; 255; 255; 0; 0; 0; 0].
Lemma socket_races_with_packet_witness :
  exists s : threads (W := MockWorld), rtc (th_step Debug) (mkThreads example_stack ∅) s /\ ~ race_free s.
Proof.
  destruct (ProtocolStack_socket Debug AF_INET SOCK_STREAM 0 0 6 (Ret (IPAddress_of_in_addr [10; 0; 0; 2]))
    example_stack) as [[v ps1]| |] eqn:E1; try by vm_compute in E1.
  destruct (ProtocolStack_onReceivePacket Debug example_stray 20 (IPAddress_of_in_addr [10; 0; 0; 1])
      (IPAddress_of_in_addr [10; 0; 0; 2]) example_stack) as [ps2| |] eqn:E2; try by vm_compute in E2.
  destruct (socket_races_with_packet Debug example_stack ps1 ps2 AF_INET SOCK_STREAM 0 0 6
    (Ret (IPAddress_of_in_addr [10; 0; 0; 2])) v example_stray 20 (IPAddress_of_in_addr [10; 0; 0; 1])
    (IPAddress_of_in_addr [10; 0; 0; 2]) 1 2) as (s & ? & ? & _); [done|reflexivity|exact E1|exact E2|]. exists s. split; assumption.
Defined.

Lemma close_race_undefined_witness :
  exists s : threads (W := MockWorld), rtc (th_step Debug) (mkThreads example_stack ∅) s /\
    th_phases s !! 2%nat = Some (Passed (CWrite 5 [1] 1)) /\
    run_locked Debug (CWrite 5 [1] 1) (th_stack s) = Undef.
Proof.
  destruct (run_locked Debug (CClose 5) example_stack) as [[r ps']| |] eqn:E; try by vm_compute in E.
  destruct (close_race_undefined Debug example_stack ps' 5 (CWrite 5 [1] 1) r 1 2) as (s & ? & ? & Es & ?);
    try done. exists s. by rewrite Es.
Defined.

(** A session that accepts nothing the first time and everything the second. *)
Definition second_send (buf : list Z) (n : Z) (s : SocketSession MockWorld)
  : outcome (Z * SocketSession MockWorld) :=
  if decide (se_state_ s = ESTABLISHED) then Ret (n, s) else Ret (0, se_put_state ESTABLISHED s).

Lemma write_waits_for_window_witness :
  (exists ps', ProtocolStack_write_full second_send [deliver 1 MSG_READABLE] 5 [1; 2; 3] 3 0 example_stack
     = Ret (None, ps')) /\
  (exists ps', ProtocolStack_write_full second_send [deliver 1 MSG_READABLE; deliver 1 MSG_WRITABLE] 5
    [1; 2; 3] 3 0 example_stack = Ret (Some (RetVal 3), ps')) /\
  exists ps', ProtocolStack_write_full second_send [deliver 1 MSG_READABLE; deliver 1 MSG_CLOSING] 5
    [1; 2; 3] 3 0 example_stack = Ret (Some (Errno ECONNABORTED), ps').
Proof.
  destruct (write_waits_for_window second_send 5 [1; 2; 3] 3 0 example_stack 1
    (mkSocketStruct (Some 2%nat) 0 [] (example_sa 2 50001) ACTIVE false None) 2
    (se_detach (fresh_session SYN_SENT))) as (_ & _ & Hw); [reflexivity..|].
  destruct (Hw [MSG_READABLE] _ ltac:(by repeat constructor) eq_refl) as (Hwait & Hopen & Herr).
  split; [exact Hwait|]. split.
  - destruct (Hopen MSG_WRITABLE [] 3 _ ltac:(done) eq_refl ltac:(lia)) as (ps' & E & _). by exists ps'.
  - apply (Herr MSG_CLOSING []); [reflexivity|by left].
Defined.

Lemma write_wait_dangles_witness :
  write_wait second_send [fun ps => let* (_, ps) := ProtocolStack_close Debug 5 0 ps in Ret ps] 1
    [1; 2; 3] 3 example_stack = Undef.
Proof.
  destruct (ProtocolStack_close Debug 5 0 (ps_put_struct 1 (SocketStruct_waitMessage
    (mkSocketStruct (Some 2%nat) 0 [] (example_sa 2 50001) ACTIVE false None)) example_stack))
    as [[r ps']| |] eqn:E; [|by vm_compute in E..].
  eapply (write_wait_dangles second_send Debug [] 5 [1; 2; 3] 3 0 example_stack 1 ps' r); [reflexivity|exact E].
Defined.
