(* ===== verification/PosixSocket.v ===== *)
(** src/src/posix/posix_socket.cpp, the life of the stack in
    src/src/posix/protocol_stack.cpp (construction, [getInstance], the thread of the event
    loop), src/eval/clean_up.c and src/eval/router.c: the stack of a process, created by the
    first wrapped call, and what happens to it when the process ends. *)

From stdpp Require Import base list numbers gmap relations.
From S2P Require Import Prelude Endian DataWriter DataReader TimeBase Alarm EpollServer.
From S2P Require Import RingBuffer RandGenerator IPAddress Checksum Ether RoutingTable IPLayer.
From S2P Require Import SocketAddress Segment ControlBlock SendBuffer SocketSession Dispatchers.
From S2P Require Import ProtocolStack.

Open Scope Z_scope.
Open Scope outcome_scope.

(** ** [getInstance], by several threads

    A thread is between two accesses to what the threads share: [instance], the mutex
    [mtx], the heap and the threads of event loops. Stacks are named by numbers. *)
Inductive gi_pc : Type :=
  | GiEnter                (* [if (instance == nullptr)] *)
  | GiLock                 (* [lock_guard guard(mtx)] *)
  | GiCheck                (* the second [if (instance == nullptr)] *)
  | GiNew                  (* [new ProtocolStack()] *)
  | GiSpawn (rv : nat)     (* [std::thread(startEventLoop, ...).detach()] *)
  | GiPublish (rv : nat)   (* [instance = rv] *)
  | GiUnlock               (* the end of the block *)
  | GiReturn               (* [return *instance] *)
  | GiDone (r : option nat).
#[global] Instance gi_pc_eq_dec : EqDecision gi_pc.
Proof. solve_decision. Defined.

Record Singleton : Type := mkSingleton {
  sg_instance : option nat;
  sg_mtx : option nat;
  sg_stacks : list nat;
  sg_loops : list nat;
  sg_threads : list gi_pc
}.

(** The next step of thread [t]; [None] when it has to wait, or has returned. Every access
    is one step, as if sequentially consistent; [instance] is a plain pointer in the
    source, so that the first read is a data race with the store ([getInstance_races]). *)
Definition gi_step (t : nat) (s : Singleton) : option Singleton :=
  let goto pc := <[t := pc]> (sg_threads s) in
  match sg_threads s !! t with
  | Some GiEnter =>
      let pc := match sg_instance s with None => GiLock | Some _ => GiReturn end in
      Some (mkSingleton (sg_instance s) (sg_mtx s) (sg_stacks s) (sg_loops s) (goto pc))
  | Some GiLock =>
      match sg_mtx s with
      | None => Some (mkSingleton (sg_instance s) (Some t) (sg_stacks s) (sg_loops s) (goto GiCheck))
      | Some _ => None
      end
  | Some GiCheck =>
      let pc := match sg_instance s with None => GiNew | Some _ => GiUnlock end in
      Some (mkSingleton (sg_instance s) (sg_mtx s) (sg_stacks s) (sg_loops s) (goto pc))
  | Some GiNew =>
      let rv := length (sg_stacks s) in
      Some (mkSingleton (sg_instance s) (sg_mtx s) (sg_stacks s ++ [rv]) (sg_loops s) (goto (GiSpawn rv)))
  | Some (GiSpawn rv) =>
      Some (mkSingleton (sg_instance s) (sg_mtx s) (sg_stacks s) (sg_loops s ++ [rv]) (goto (GiPublish rv)))
  | Some (GiPublish rv) =>
      Some (mkSingleton (Some rv) (sg_mtx s) (sg_stacks s) (sg_loops s) (goto GiUnlock))
  | Some GiUnlock =>
      Some (mkSingleton (sg_instance s) None (sg_stacks s) (sg_loops s) (goto GiReturn))
  | Some GiReturn =>
      Some (mkSingleton (sg_instance s) (sg_mtx s) (sg_stacks s) (sg_loops s) (goto (GiDone (sg_instance s))))
  | Some (GiDone _) | None => None
  end.
Definition gi_next (s s' : Singleton) : Prop := exists t, gi_step t s = Some s'.
(** [n] threads call [getInstance] for the first time. *)
Definition gi_start (n : nat) : Singleton := mkSingleton None None [] [] (replicate n GiEnter).

(** How far the one thread that holds the mutex has come. *)
Definition gi_phase (pc : gi_pc) (s : Singleton) : Prop :=
  match pc with
  | GiCheck => sg_instance s = None /\ sg_stacks s = [] /\ sg_loops s = [] \/
               sg_instance s = Some 0%nat /\ sg_stacks s = [0%nat] /\ sg_loops s = [0%nat]
  | GiNew => sg_instance s = None /\ sg_stacks s = [] /\ sg_loops s = []
  | GiSpawn rv => rv = 0%nat /\ sg_instance s = None /\ sg_stacks s = [0%nat] /\ sg_loops s = []
  | GiPublish rv => rv = 0%nat /\ sg_instance s = None /\ sg_stacks s = [0%nat] /\ sg_loops s = [0%nat]
  | GiUnlock => sg_instance s = Some 0%nat /\ sg_stacks s = [0%nat] /\ sg_loops s = [0%nat]
  | _ => False
  end.
(** The threads that do not hold it. *)
Definition gi_free (pc : gi_pc) (s : Singleton) : Prop :=
  match pc with
  | GiEnter | GiLock => True
  | GiReturn => sg_instance s = Some 0%nat
  | GiDone r => r = Some 0%nat /\ sg_instance s = Some 0%nat
  | _ => False
  end.
Record gi_inv (s : Singleton) : Prop := {
  gi_threads : forall t pc, sg_threads s !! t = Some pc ->
    if decide (sg_mtx s = Some t) then gi_phase pc s else gi_free pc s;
  gi_owner : forall t, sg_mtx s = Some t -> is_Some (sg_threads s !! t);
  gi_idle : sg_mtx s = None ->
    sg_instance s = None /\ sg_stacks s = [] /\ sg_loops s = [] \/
    sg_instance s = Some 0%nat /\ sg_stacks s = [0%nat] /\ sg_loops s = [0%nat]
}.

Lemma gi_start_inv n : gi_inv (gi_start n).
Proof.
  split; cbn; [|done|auto]. intros t pc [-> _]%lookup_replicate_1. done.
Qed.

(** What a step of thread [t] may change for the others. *)
Lemma gi_free_mono pc s s' :
  (forall i, sg_instance s = Some i -> sg_instance s' = Some i) -> gi_free pc s -> gi_free pc s'.
Proof. intros Hm. destruct pc; cbn; naive_solver. Qed.


(** A step of the thread that holds the mutex, or takes it. *)
Lemma gi_move_holder t pc pc' s s' :
  gi_inv s -> sg_threads s !! t = Some pc -> sg_threads s' = <[t := pc']> (sg_threads s) ->
  sg_mtx s = None \/ sg_mtx s = Some t -> sg_mtx s' = None \/ sg_mtx s' = Some t ->
  (forall i, sg_instance s = Some i -> sg_instance s' = Some i) ->
  (if decide (sg_mtx s' = Some t) then gi_phase pc' s' else gi_free pc' s') ->
  (sg_mtx s' = None ->
    sg_instance s' = None /\ sg_stacks s' = [] /\ sg_loops s' = [] \/
    sg_instance s' = Some 0%nat /\ sg_stacks s' = [0%nat] /\ sg_loops s' = [0%nat]) ->
  gi_inv s'.
Proof.
  intros [Ht _ _] Epc Eth Hm Hm' Hmono Hnew Hidle. split; [| |done].
  - intros u q. rewrite Eth, list_lookup_insert_Some. intros [(<- & <- & _)|[Hne Hu]]; [done|].
    specialize (Ht u q Hu). rewrite decide_False in Ht by naive_solver.
    rewrite decide_False by naive_solver. by eapply gi_free_mono.
  - intros u Hu. assert (u = t) as -> by naive_solver. rewrite Eth. eexists.
    apply list_lookup_insert_eq. by eapply lookup_lt_Some.
Qed.
(** A step of another thread, which changes nothing. *)
Lemma gi_move_free t pc pc' s s' :
  gi_inv s -> sg_threads s !! t = Some pc ->
  s' = mkSingleton (sg_instance s) (sg_mtx s) (sg_stacks s) (sg_loops s) (<[t := pc']> (sg_threads s)) ->
  sg_mtx s <> Some t -> gi_free pc' s' -> gi_inv s'.
Proof.
  intros [Ht Ho Hi] Epc -> Hm Hf. split; cbn in *; [| |done].
  - intros u q. rewrite list_lookup_insert_Some. intros [(<- & <- & _)|[Hne Hu]].
    + by rewrite decide_False.
    + apply (Ht u q Hu).
  - intros u Hu. destruct (Ho u Hu) as [q Hq]. exists q. rewrite list_lookup_insert_ne; congruence.
Qed.

Lemma gi_step_inv t s s' : gi_step t s = Some s' -> gi_inv s -> gi_inv s'.
Proof.
  unfold gi_step. intros E Hinv.
  destruct (sg_threads s !! t) as [pc|] eqn:Epc; [|done]. pose proof (gi_threads _ Hinv t pc Epc) as Hpc.
  destruct (decide (sg_mtx s = Some t)) as [Hm|Hm].
  - destruct pc; try done; simplify_eq;
      (eapply gi_move_holder; [exact Hinv|exact Epc|reflexivity|by right|cbn; tauto|..]); cbn; rewrite ?Hm;
      try (rewrite decide_True by done); destruct s; cbn in *; naive_solver.
  - destruct pc; try done; simplify_eq.
    + eapply gi_move_free; [done|done|done|done|]. cbn. destruct (sg_instance s) as [i|] eqn:Ei; [|done].
      cbn. destruct (sg_mtx s) as [u|] eqn:Eu.
      * destruct (gi_owner _ Hinv u Eu) as [q Hq]. pose proof (gi_threads _ Hinv u q Hq) as Hp.
        rewrite decide_True in Hp by done. destruct q; cbn in Hp; naive_solver.
      * destruct (gi_idle _ Hinv Eu); naive_solver.
    + destruct (sg_mtx s) eqn:Eu; [done|]. simplify_eq.
      eapply gi_move_holder; [exact Hinv|exact Epc|reflexivity|by left|by right|done|..]; cbn; [|done].
      rewrite decide_True by done. apply (gi_idle _ Hinv Eu).
    + eapply gi_move_free; [done|done|done|done|]. cbn in *. by rewrite Hpc.
Qed.

(** The steps a thread still has to take, at most. *)
Definition gi_rank (pc : gi_pc) : nat :=
  match pc with
  | GiEnter => 8 | GiLock => 7 | GiCheck => 6 | GiNew => 5 | GiSpawn _ => 4
  | GiPublish _ => 3 | GiUnlock => 2 | GiReturn => 1 | GiDone _ => 0
  end%nat.
Lemma sum_rank_insert l t pc pc' :
  l !! t = Some pc -> (gi_rank pc' < gi_rank pc)%nat ->
  (sum_list_with gi_rank (<[t := pc']> l) < sum_list_with gi_rank l)%nat.
Proof.
  revert t. induction l as [|x l IH]; intros [|t] E Hr; [done|done| |].
  - injection E as ->. change (<[0%nat := pc']> (pc :: l)) with (pc' :: l). cbn. lia.
  - specialize (IH t E Hr). change (<[S t := pc']> (x :: l)) with (x :: <[t := pc']> l). cbn. lia.
Qed.
Lemma gi_step_rank t s s' :
  gi_step t s = Some s' ->
  (sum_list_with gi_rank (sg_threads s') < sum_list_with gi_rank (sg_threads s))%nat.
Proof.
  unfold gi_step. destruct (sg_threads s !! t) as [pc|] eqn:E; [|done].
  destruct pc; intros Es; simplify_eq/=; repeat case_match; simplify_eq/=;
    (eapply sum_rank_insert; [exact E|cbn; lia]).
Qed.
Lemma gi_run k s s' :
  nsteps gi_next k s s' -> gi_inv s ->
  gi_inv s' /\ (k + sum_list_with gi_rank (sg_threads s') <= sum_list_with gi_rank (sg_threads s))%nat.
Proof.
  induction 1 as [s|k s1 s2 s3 [t Ht] _ IH]; intros Hi; [split; [done|lia]|].
  destruct (IH (gi_step_inv _ _ _ Ht Hi)). apply gi_step_rank in Ht. split; [done|lia].
Qed.
(** A thread that has not returned can go on, or waits for one that can. *)
Lemma gi_progress s t pc :
  gi_inv s -> sg_threads s !! t = Some pc -> (forall r, pc <> GiDone r) -> exists s', gi_next s s'.
Proof.
  intros Hi Ht Hd. destruct (decide (exists u, sg_mtx s = Some u)) as [[u Hu]|Hn].
  - destruct (gi_owner _ Hi u Hu) as [q Hq]. pose proof (gi_threads _ Hi u q Hq) as Hp.
    rewrite decide_True in Hp by done. unfold gi_next.
    destruct q; try done; eexists; exists u; unfold gi_step; rewrite Hq; reflexivity.
  - destruct (sg_mtx s) as [u|] eqn:Em; [naive_solver|].
    destruct pc; try (by exfalso; eapply Hd); eexists; exists t; unfold gi_step; rewrite Ht, ?Em; reflexivity.
Qed.

(** What has been built, as [instance] tells. *)
Lemma gi_stages s :
  gi_inv s ->
  sg_instance s = None /\ (sg_stacks s = [] \/ sg_stacks s = [0%nat]) /\
    (sg_loops s = [] \/ sg_loops s = [0%nat]) \/
  sg_instance s = Some 0%nat /\ sg_stacks s = [0%nat] /\ sg_loops s = [0%nat].
Proof.
  intros Hi. destruct (sg_mtx s) as [u|] eqn:Eu.
  - destruct (gi_owner _ Hi u Eu) as [q Hq]. pose proof (gi_threads _ Hi u q Hq) as Hp.
    rewrite decide_True in Hp by done. destruct q; cbn in Hp; tauto.
  - destruct (gi_idle _ Hi Eu) as [?|?]; tauto.
Qed.

(** C10. The stack is a singleton. When any number of threads make the first wrapped calls
    of a process and their accesses, taken as sequentially consistent, are interleaved in
    any order, at most one
    [ProtocolStack] is constructed and one event loop started; every thread that has
    returned from [getInstance] has that stack, whose event loop runs; no thread needs more
    than eight steps; and a state in which no thread can go on is one in which all of
    them have returned. *)
Theorem getInstance_once (n k : nat) (s : Singleton) :
  nsteps gi_next k (gi_start n) s ->
  (k <= 8 * n)%nat /\ (length (sg_stacks s) <= 1)%nat /\ (length (sg_loops s) <= 1)%nat /\
  (forall t r, sg_threads s !! t = Some (GiDone r) ->
     r = sg_instance s /\ exists i, r = Some i /\ sg_stacks s = [i] /\ sg_loops s = [i]) /\
  ((forall s', ~ gi_next s s') -> forall t pc, sg_threads s !! t = Some pc -> exists r, pc = GiDone r).
Proof.
  intros Hs. destruct (gi_run _ _ _ Hs (gi_start_inv n)) as [Hi Hk].
  pose proof (gi_stages s Hi) as Hst.
  split_and!.
  - cbn in Hk. assert (sum_list_with gi_rank (replicate n GiEnter) = 8 * n)%nat as Hr.
    { clear. induction n as [|n IH]; cbn in *; lia. }
    lia.
  - destruct Hst as [(_ & [->| ->] & _)|(_ & -> & _)]; cbn; lia.
  - destruct Hst as [(_ & _ & [->| ->])|(_ & _ & ->)]; cbn; lia.
  - intros t r Ht. pose proof (gi_threads _ Hi t _ Ht) as Hp.
    destruct (decide _); [done|]. destruct Hp as [-> Hp]. split; [done|]. exists 0%nat.
    destruct Hst as [[E _]|(_ & ? & ?)]; [congruence|done].
  - intros Hn t pc Ht. destruct pc as [| | | | | | | |r]; [..|by exists r];
      (destruct (gi_progress s t _ Hi Ht) as [s' Hs']; [done|by apply Hn in Hs']).
Qed.

Definition gi_run_threads (ts : list nat) (s : Singleton) : option Singleton :=
  foldl (fun s t => s ≫= gi_step t) (Some s) ts.
Lemma gi_run_threads_steps ts s s' :
  gi_run_threads ts s = Some s' -> nsteps gi_next (length ts) s s'.
Proof.
  unfold gi_run_threads. revert s. induction ts as [|t ts IH]; intros s; cbn.
  - intros [= <-]. constructor.
  - destruct (gi_step t s) as [s1|] eqn:E.
    + intros ?%IH. econstructor; [by exists t|done].
    + intros H. exfalso. clear -H. induction ts as [|u ts IH]; [done|by apply IH].
Qed.

(** Two threads see [nullptr]; the second waits for the mutex and finds the stack. *)
Definition gi_two_done : Singleton :=
  mkSingleton (Some 0%nat) None [0%nat] [0%nat] [GiDone (Some 0%nat); GiDone (Some 0%nat)].
Lemma getInstance_once_witness :
  gi_run_threads [0; 1; 0; 0; 0; 0; 0; 0; 1; 1; 1; 0; 1]%nat (gi_start 2) = Some gi_two_done /\
  (length (sg_stacks gi_two_done) <= 1)%nat.
Proof.
  split; [reflexivity|].
  apply (getInstance_once 2 13 gi_two_done).
  apply (gi_run_threads_steps [0; 1; 0; 0; 0; 0; 0; 0; 1; 1; 1; 0; 1]%nat). reflexivity.
Defined.

(** The first test of [instance] is made without the mutex, on a plain pointer: there is a
    run in which one thread is about to read it while another is about to write it. *)
Example getInstance_races :
  exists s, gi_run_threads [0; 0; 0; 0; 0]%nat (gi_start 2) = Some s /\
    sg_threads s !! 0%nat = Some (GiPublish 0) /\ sg_threads s !! 1%nat = Some GiEnter.
Proof. eexists. split; [reflexivity|split; reflexivity]. Qed.

(** ** The stack of a process *)
Definition ProtocolStack_seed : Z := 19260817.

Section process.
Context {W : Type} `{AlarmImpl W} `{AlarmFactory W} `{IPSender W}.
Context (bld : build).

(** [new ProtocolStack()]: [world] is what the constructors of the event loop, the devices
    and the IP layer leave, [null_fd] the result of [open], [buffer] the uninitialised
    buffer of the [ResetDispatcher]. *)
Definition ProtocolStack_new (world : outcome W) (null_fd : Z) (buffer : list Z)
  : outcome (ProtocolStack W) :=
  w <- world ;;
  if null_fd <? 0 then Fatal
  else Ret (mkProtocolStack ∅ ∅ ∅ [] [] [] buffer (RandGenerator_new ProtocolStack_seed) w 0).

(** The static [instance], and the number of event loops started. *)
Record Process : Type := mkProcess {
  pr_instance : option (ProtocolStack W);
  pr_loops : nat
}.

Context (world : outcome W) (null_fd : Z) (buffer : list Z).

Definition ProtocolStack_getInstance (pr : Process) : outcome (ProtocolStack W * Process) :=
  match pr_instance pr with
  | Some ps => Ret (ps, pr)
  | None =>
      rv <- ProtocolStack_new world null_fd buffer ;;
      Ret (rv, mkProcess (Some rv) (S (pr_loops pr)))
  end.
Definition with_stack {A} (f : ProtocolStack W -> outcome (A * ProtocolStack W)) (pr : Process)
  : outcome (A * Process) :=
  let* (ps, pr) := ProtocolStack_getInstance pr in
  let* (v, ps) := f ps in
  Ret (v, mkProcess (Some ps) (pr_loops pr)).

(** The wrapped calls; the results of the C library are arguments, as in [ProtocolStack]. *)
Definition wrap_socket (domain type protocol real_rv dup_fd : Z) (default_ip : outcome IPAddress)
  : Process -> outcome (Z * Process) :=
  with_stack (ProtocolStack_socket bld domain type protocol real_rv dup_fd default_ip).
Definition wrap_bind (socket : Z) (address : list Z) (address_len real_rv : Z)
  : Process -> outcome (PosixResult * Process) :=
  with_stack (ProtocolStack_bind socket address address_len real_rv).
Definition wrap_listen (socket backlog real_rv : Z) : Process -> outcome (PosixResult * Process) :=
  with_stack (ProtocolStack_listen socket backlog real_rv).
Definition wrap_connect (socket : Z) (address : list Z) (address_len real_rv : Z)
  : Process -> outcome (PosixResult * Process) :=
  with_stack (ProtocolStack_connect bld socket address address_len real_rv).
Definition wrap_accept (socket real_rv : Z) : Process -> outcome (option PosixResult * Process) :=
  with_stack (ProtocolStack_accept socket real_rv).
(** [_read] has no body. *)
Definition ProtocolStack_read (fildes nbyte : Z) (ps : ProtocolStack W)
  : outcome (PosixResult * ProtocolStack W) := Undef.
Definition wrap_read (fildes nbyte : Z) : Process -> outcome (PosixResult * Process) :=
  with_stack (ProtocolStack_read fildes nbyte).
Definition wrap_write (fildes : Z) (buf : list Z) (nbyte real_rv : Z)
  : Process -> outcome (PosixResult * Process) :=
  with_stack (ProtocolStack_write fildes buf nbyte real_rv).
Definition wrap_close (fildes real_rv : Z) : Process -> outcome (PosixResult * Process) :=
  with_stack (ProtocolStack_close bld fildes real_rv).
Definition ProtocolStack_getaddrinfo (real_rv : Z) (ps : ProtocolStack W)
  : outcome (Z * ProtocolStack W) := Ret (real_rv, ps).
Definition wrap_getaddrinfo (real_rv : Z) : Process -> outcome (Z * Process) :=
  with_stack (ProtocolStack_getaddrinfo real_rv).

(** [~ProtocolStack], which closes like [closeAllFDs]; the instance is never deleted. *)
Definition ProtocolStack_destroy (begin : gmap Z nat -> Z) (ps : ProtocolStack W) : outcome (ProtocolStack W) :=
  ProtocolStack_closeAllFDs bld begin ps.
Definition destory_protocol_stack (begin : gmap Z nat -> Z) (pr : Process) : outcome Process :=
  let* (_, pr) := with_stack (fun ps => ps <- ProtocolStack_closeAllFDs bld begin ps ;; Ret (tt, ps)) pr in
  Ret pr.
Definition can_close_protocol_stack : Process -> outcome (bool * Process) :=
  with_stack (fun ps => Ret (ProtocolStack_canClose ps, ps)).

(** [__clean_up]: a list of what the other threads do during the calls of [sleep]; the
    result is [false] while the function still waits. *)
Fixpoint clean_up_wait (sleeps : list (Process -> outcome Process)) (pr : Process)
  : outcome (bool * Process) :=
  let* (can, pr) := can_close_protocol_stack pr in
  if can : bool then Ret (true, pr)
  else
    match sleeps with
    | [] => Ret (false, pr)
    | f :: sleeps => pr <- f pr ;; clean_up_wait sleeps pr
    end.
Definition clean_up (begin : gmap Z nat -> Z) (sleeps : list (Process -> outcome Process)) (pr : Process)
  : outcome (bool * Process) :=
  pr <- destory_protocol_stack begin pr ;; clean_up_wait sleeps pr.

(** [main] of the router: it activates the stack and sleeps for ever. *)
Fixpoint router_sleep (sleeps : list (Process -> outcome Process)) (pr : Process) : outcome Process :=
  match sleeps with
  | [] => Ret pr
  | f :: sleeps => pr <- f pr ;; router_sleep sleeps pr
  end.
Definition router_main (real_rv : Z) (sleeps : list (Process -> outcome Process)) (pr : Process)
  : outcome Process :=
  let* (_, pr) := wrap_getaddrinfo real_rv pr in router_sleep sleeps pr.

(** ** Steps of a process *)
Inductive pr_step : Process -> Process -> Prop :=
  | pr_socket d t p rv fd ip pr v pr' : wrap_socket d t p rv fd ip pr = Ret (v, pr') -> pr_step pr pr'
  | pr_bind fd a n rv pr v pr' : wrap_bind fd a n rv pr = Ret (v, pr') -> pr_step pr pr'
  | pr_listen fd b rv pr v pr' :
      - 2147483648 <= b < 2147483648 -> wrap_listen fd b rv pr = Ret (v, pr') -> pr_step pr pr'
  | pr_connect fd a n rv pr v pr' : wrap_connect fd a n rv pr = Ret (v, pr') -> pr_step pr pr'
  | pr_accept fd rv pr v pr' : wrap_accept fd rv pr = Ret (v, pr') -> pr_step pr pr'
  | pr_read fd n pr v pr' : wrap_read fd n pr = Ret (v, pr') -> pr_step pr pr'
  | pr_write fd b n rv pr v pr' : wrap_write fd b n rv pr = Ret (v, pr') -> pr_step pr pr'
  | pr_close fd rv pr v pr' : wrap_close fd rv pr = Ret (v, pr') -> pr_step pr pr'
  | pr_getaddrinfo rv pr v pr' : wrap_getaddrinfo rv pr = Ret (v, pr') -> pr_step pr pr'
  | pr_destory begin pr pr' : destory_protocol_stack begin pr = Ret pr' -> pr_step pr pr'
  | pr_can_close pr v pr' : can_close_protocol_stack pr = Ret (v, pr') -> pr_step pr pr'
  | pr_packet buf n src dst ps ps' k :
      ProtocolStack_onReceivePacket bld buf n src dst ps = Ret ps' ->
      pr_step (mkProcess (Some ps) k) (mkProcess (Some ps') k).

(** ** The stack of a process is consistent *)
Definition process_inv (pr : Process) : Prop :=
  match pr_instance pr with
  | None => pr_loops pr = 0%nat
  | Some ps => pr_loops pr = 1%nat /\ stack_inv ps
  end.

Lemma ProtocolStack_new_inv ps :
  ProtocolStack_new world null_fd buffer = Ret ps -> stack_inv ps /\ ps_garbage_ ps = [].
Proof.
  unfold ProtocolStack_new. intros (w & _ & E)%bind_Ret. case_match; [done|]. simplify_eq.
  split; [|done]. by split; cbn; intros *; rewrite ?lookup_empty; try done; intros ?%not_elem_of_nil.
Qed.
Lemma getInstance_inv pr ps pr' :
  ProtocolStack_getInstance pr = Ret (ps, pr') -> process_inv pr ->
  pr_instance pr' = Some ps /\ process_inv pr' /\ (is_Some (pr_instance pr) -> pr' = pr).
Proof.
  unfold ProtocolStack_getInstance, process_inv. destruct (pr_instance pr) as [ps0|] eqn:E.
  - intros [= <- <-] Hi. by rewrite E.
  - intros (rv & Hn & [= <- <-])%bind_Ret ->. apply ProtocolStack_new_inv in Hn as [? _].
    cbn. split; [done|]. split; [done|]. by intros [? ?].
Qed.
(** A step keeps the invariant and, of a stack that is there, the garbage. *)
Definition pr_keeps (pr pr' : Process) : Prop :=
  process_inv pr -> process_inv pr' /\
  forall ps, pr_instance pr = Some ps ->
    exists ps', pr_instance pr' = Some ps' /\ ps_garbage_ ps `prefix_of` ps_garbage_ ps'.

Lemma with_stack_keeps {A} (f : ProtocolStack W -> outcome (A * ProtocolStack W)) pr v pr' :
  (forall ps ps', f ps = Ret (v, ps') -> keeps ps ps') ->
  with_stack f pr = Ret (v, pr') -> pr_keeps pr pr'.
Proof.
  intros Hf. unfold with_stack.
  intros ([ps pr1] & Hg & ([v1 ps'] & E & [= -> <-])%bind_Ret)%bind_Ret Hi.
  destruct (getInstance_inv _ _ _ Hg Hi) as (E1 & Hi1 & E0). unfold process_inv in Hi1. rewrite E1 in Hi1.
  destruct Hi1 as [? Hs]. destruct (Hf ps ps' E Hs) as [? ?]. split; [by split|].
  intros ps0 Hps0. assert (pr1 = pr) as -> by (apply E0; by eexists).
  exists ps'. split; [done|]. congruence.
Qed.
Lemma closeAllFDs_loop_keeps fuel begin ps ps' :
  closeAllFDs_loop bld fuel begin ps = Ret ps' -> keeps ps ps'.
Proof.
  revert ps. induction fuel as [|fuel IH]; intros ps; cbn [closeAllFDs_loop];
    (destruct (decide _); [intros [= <-]; apply keeps_refl|]); [done|].
  intros ([r ps1] & E1%close_keeps & E2%IH)%bind_Ret Hi.
  destruct (E1 Hi) as [Hi1 Hp1]. destruct (E2 Hi1) as [? ?]. split; [done|by etrans].
Qed.

#[local] Hint Resolve socket_keeps bind_keeps listen_keeps connect_keeps accept_keeps
  write_keeps close_keeps packet_keeps : core.
Lemma pr_step_keeps pr pr' : pr_step pr pr' -> pr_keeps pr pr'.
Proof.
  destruct 1 as [| | | | | | | | |begin pr pr' E| |buf n src dst ps ps' k E];
    try (eapply with_stack_keeps; [|done]; intros ps ps'; by eauto).
  - eapply with_stack_keeps; [|done]. intros ps ps' [= <- <-]. apply keeps_refl.
  - unfold destory_protocol_stack in E. apply bind_Ret in E as ([[] pr1] & E & [= <-]).
    eapply with_stack_keeps; [|exact E]. intros ps ps' (ps1 & Hc & [= <-])%bind_Ret.
    by eapply closeAllFDs_loop_keeps.
  - eapply with_stack_keeps; [|done]. intros ps ps' [= <- <-]. apply keeps_refl.
  - intros [? Hi]. destruct (packet_keeps bld _ _ _ _ _ _ E Hi) as [? ?]. split; [done|].
    cbn. intros ? [= <-]. eauto.
Qed.
Lemma pr_steps_keep pr pr' : rtc pr_step pr pr' -> pr_keeps pr pr'.
Proof.
  induction 1 as [pr|pr1 pr2 pr3 H12%pr_step_keeps _ IH]; intros Hi; [split; [done|]; eauto|].
  destruct (H12 Hi) as [Hi2 Hg2]. destruct (IH Hi2) as [Hi3 Hg3]. split; [done|].
  intros ps (ps2 & E2 & ?)%Hg2. destruct (Hg3 _ E2) as (ps3 & ? & ?). exists ps3. split; [done|by etrans].
Qed.

(** ** Closing everything *)
Definition sessions_of (st : SocketStruct) : list nat :=
  match st_type st with
  | UNSPECIFIED => []
  | ACTIVE => option_list (st_session st)
  | PASSIVE => st_pending st
  end.
(** The sessions behind a descriptor. *)
Definition fd_sessions (ps : ProtocolStack W) (fd : Z) : list nat :=
  from_option sessions_of [] (ps_fd_set_ ps !! fd ≫= fun p => ps_structs ps !! p).

Lemma close_spec fd rv r ps ps' p st :
  ps_fd_set_ ps !! fd = Some p -> ps_structs ps !! p = Some st ->
  ProtocolStack_close bld fd rv ps = Ret (r, ps') ->
  ps_fd_set_ ps' = delete fd (ps_fd_set_ ps) /\ ps_structs ps' = delete p (ps_structs ps) /\
  ps_garbage_ ps' = ps_garbage_ ps ++ fd_sessions ps fd.
Proof.
  intros Hf Hs. unfold ProtocolStack_close, ProtocolStack_close_locked, fd_sessions.
  rewrite (ownFD_lookup _ _ _ Hf), Hf. cbn [mbind option_bind]. rewrite Hs. cbn [negb from_option].
  rewrite (proj2 (lookupStruct_Ret fd ps p st)) by done. cbn [obind].
  intros (ps1 & E & [= _ <-])%bind_Ret. unfold ProtocolStack_removeStruct, sessions_of.
  destruct (st_type st).
  - apply close_pending_frame in E as (Ef & Es & Eg & _). rewrite Ef, Hf. cbn. by rewrite Es, Eg.
  - destruct (st_session st) as [i|]; [|done].
    apply bind_Ret in E as (ps2 & (Ef & Es & Eg & _)%on_session_frame & [= <-]).
    cbn. rewrite Ef, Hf. cbn. by rewrite Es, Eg.
  - injection E as <-. rewrite Hf. cbn. by rewrite app_nil_r.
Qed.
Lemma close_other_sessions fd rv r ps ps' p fd' :
  stack_inv ps -> ps_fd_set_ ps !! fd = Some p -> ProtocolStack_close bld fd rv ps = Ret (r, ps') ->
  fd' <> fd -> fd_sessions ps' fd' = fd_sessions ps fd'.
Proof.
  intros Hi Hf Hc Hne. destruct (inv_owner _ Hi _ _ Hf) as [st Hs].
  destruct (close_spec _ _ _ _ _ _ _ Hf Hs Hc) as (Ef & Es & _). unfold fd_sessions.
  rewrite Ef, Es, lookup_delete_ne by done. destruct (ps_fd_set_ ps !! fd') as [p'|] eqn:Hf'; [|done].
  cbn. rewrite lookup_delete_ne; [done|]. intros ->. apply Hne. by eapply inv_inj.
Qed.

(** [begin()] of a map that is not empty is one of its elements. *)
Definition begin_ok (begin : gmap Z nat -> Z) : Prop := forall m, m <> ∅ -> is_Some (m !! begin m).

(** One turn of the loop. *)
Lemma close_begin begin rv r ps ps' :
  begin_ok begin -> stack_inv ps -> ps_fd_set_ ps <> ∅ ->
  ProtocolStack_close bld (begin (ps_fd_set_ ps)) rv ps = Ret (r, ps') ->
  size (ps_fd_set_ ps) = S (size (ps_fd_set_ ps')) /\
  ps_garbage_ ps' = ps_garbage_ ps ++ fd_sessions ps (begin (ps_fd_set_ ps)) /\
  (forall fd, fd <> begin (ps_fd_set_ ps) -> fd_sessions ps' fd = fd_sessions ps fd) /\ stack_inv ps'.
Proof.
  intros Hb Hi Hne E. destruct (Hb _ Hne) as [p Hp]. destruct (inv_owner _ Hi _ _ Hp) as [st Hs].
  destruct (close_spec _ _ _ _ _ _ _ Hp Hs E) as (Ef & _ & Eg). split_and!.
  - rewrite Ef, (map_size_delete_Some _ _ (mk_is_Some _ _ Hp)).
    rewrite <- map_size_empty_iff in Hne. destruct (size (ps_fd_set_ ps)); [done|reflexivity].
  - done.
  - intros fd Hfd. by eapply close_other_sessions.
  - by eapply close_keeps.
Qed.
Lemma closeAllFDs_loop_spec fuel begin ps ps' :
  begin_ok begin -> stack_inv ps -> closeAllFDs_loop bld fuel begin ps = Ret ps' ->
  ps_fd_set_ ps' = ∅ /\ exists l, ps_garbage_ ps' = ps_garbage_ ps ++ l /\
    forall fd i, i ∈ fd_sessions ps fd -> i ∈ l.
Proof.
  intros Hb. assert (He : forall ps fd i, ps_fd_set_ ps = ∅ -> i ∈ fd_sessions ps fd -> i ∈ @nil nat).
  { intros ps0 fd i E. unfold fd_sessions. by rewrite E, lookup_empty. }
  revert ps. induction fuel as [|fuel IH]; intros ps Hi; cbn [closeAllFDs_loop];
    (destruct (decide _) as [E|E]; [intros [= <-]; split; [done|]; exists []; rewrite app_nil_r; eauto|]); [done|].
  intros ([r ps1] & E1 & E2)%bind_Ret. destruct (close_begin _ _ _ _ _ Hb Hi E E1) as (_ & Eg & Eo & Hi1).
  destruct (IH ps1 Hi1 E2) as (Ef & l & Eg' & Hl). split; [done|].
  exists (fd_sessions ps (begin (ps_fd_set_ ps)) ++ l). rewrite Eg', Eg, app_assoc. split; [done|].
  intros fd i Hin. rewrite elem_of_app. destruct (decide (fd = begin (ps_fd_set_ ps))) as [->|Hne]; [by left|].
  right. apply (Hl fd). by rewrite Eo.
Qed.

(** Sockets without sessions can always be closed. *)
Lemma close_idle fd rv ps p st :
  ps_fd_set_ ps !! fd = Some p -> ps_structs ps !! p = Some st -> stack_inv ps ->
  fd_sessions ps fd = [] -> exists r ps', ProtocolStack_close bld fd rv ps = Ret (r, ps').
Proof.
  intros Hf Hs Hi. unfold ProtocolStack_close, ProtocolStack_close_locked, fd_sessions.
  rewrite (ownFD_lookup _ _ _ Hf), Hf. cbn [mbind option_bind]. rewrite Hs. cbn [negb from_option].
  rewrite (proj2 (lookupStruct_Ret fd ps p st)) by done. cbn [obind].
  pose proof (inv_struct _ Hi _ _ Hs) as Hok. unfold struct_ok, sessions_of in *.
  destruct (st_type st); [intros ->; by do 2 eexists| |by do 2 eexists].
  by destruct Hok as (_ & i & -> & _).
Qed.
Lemma closeAllFDs_loop_idle fuel begin ps :
  begin_ok begin -> stack_inv ps -> (size (ps_fd_set_ ps) <= fuel)%nat ->
  (forall fd, fd_sessions ps fd = []) ->
  exists ps', closeAllFDs_loop bld fuel begin ps = Ret ps' /\ ps_garbage_ ps' = ps_garbage_ ps.
Proof.
  intros Hb. revert ps. induction fuel as [|fuel IH]; intros ps Hi Hsz Hid; cbn [closeAllFDs_loop];
    (destruct (decide _) as [E|E]; [by eexists|]).
  { destruct E. apply map_size_empty_inv. lia. }
  destruct (Hb _ E) as [p Hp]. destruct (inv_owner _ Hi _ _ Hp) as [st Hs].
  destruct (close_idle _ 0 _ _ _ Hp Hs Hi (Hid _)) as (r & ps1 & E1). rewrite E1. cbn [obind].
  destruct (close_begin _ _ _ _ _ Hb Hi E E1) as (Hs1 & Eg & Eo & Hi1). rewrite Hid, app_nil_r in Eg.
  destruct (close_spec _ _ _ _ _ _ _ Hp Hs E1) as (Ef & _ & _).
  destruct (IH ps1) as (ps' & E2 & Eg2); [done|lia| |exists ps'; split; [done|congruence]].
  intros fd. destruct (decide (fd = begin (ps_fd_set_ ps))) as [->|Hne]; [|by rewrite Eo].
  unfold fd_sessions. by rewrite Ef, lookup_delete_eq.
Qed.
(** The fuel of the loop is enough: with more the result is the same. *)
Lemma closeAllFDs_fuel n begin ps :
  begin_ok begin -> stack_inv ps -> (size (ps_fd_set_ ps) <= n)%nat ->
  closeAllFDs_loop bld n begin ps = ProtocolStack_closeAllFDs bld begin ps.
Proof.
  intros Hb. unfold ProtocolStack_closeAllFDs. remember (size (ps_fd_set_ ps)) as k eqn:Ek.
  revert n ps Ek. induction k as [|k IH]; intros n ps Ek Hi Hn.
  { symmetry in Ek. apply map_size_empty_inv in Ek. destruct n; cbn [closeAllFDs_loop]; by rewrite !decide_True. }
  destruct n as [|n]; [lia|]. cbn [closeAllFDs_loop]. destruct (decide _) as [E|E]; [done|].
  destruct (ProtocolStack_close _ _ _ _) as [[r ps1]| |] eqn:E1; cbn [obind]; [|done..].
  destruct (close_begin _ _ _ _ _ Hb Hi E E1) as (Hs1 & _ & _ & Hi1). apply IH; [lia|done|lia].
Qed.

(** Once there is garbage, the loop of [__clean_up] goes on. *)
Lemma clean_up_wait_garbage sleeps pr ps e pr' :
  Forall (fun f => forall pr pr', f pr = Ret pr' -> rtc pr_step pr pr') sleeps ->
  process_inv pr -> pr_instance pr = Some ps -> ps_garbage_ ps <> [] ->
  clean_up_wait sleeps pr = Ret (e, pr') -> e = false.
Proof.
  revert pr ps. induction sleeps as [|f sleeps IH]; intros pr ps Hf Hi Eps Hg;
    cbn [clean_up_wait]; unfold can_close_protocol_stack, with_stack, ProtocolStack_getInstance at 1;
    rewrite Eps; cbn [obind]; unfold ProtocolStack_canClose; rewrite bool_decide_false by done.
  - by intros [= <- _].
  - apply Forall_cons_1 in Hf as [Hf Hfs]. intros (pr1 & E1%Hf & E2)%bind_Ret.
    assert (Hi0 : process_inv (mkProcess (Some ps) (pr_loops pr))).
    { unfold process_inv in *. by rewrite Eps in Hi. }
    destruct (pr_steps_keep _ _ E1 Hi0) as [Hi1 Hk]. destruct (Hk ps eq_refl) as (ps1 & E3 & [k Hk1]).
    eapply IH; [done|exact Hi1|exact E3| |exact E2]. rewrite Hk1. by destruct (ps_garbage_ ps).
Qed.
End process.

(** ** Properties *)
Section properties.
Context {W : Type} `{AlarmImpl W} `{AlarmFactory W} `{IPSender W}.
Context (bld : build) (world : outcome W) (null_fd : Z) (buffer : list Z).

(** C6. A process that uses the stack. After any sequence of wrapped calls, of received
    packets and of calls of its exit, starting with no stack at all: the stack has been
    constructed at most once and its event loop started exactly when it has. Its tables are
    consistent: every descriptor owns a live socket and no two own the same; a connected
    socket has a live session; a listening socket has a backlog of at least one and never
    more pending sessions than its backlog, all of them live; no session
    belongs to two sockets; a socket in the table of listeners that is still alive is a
    listening one. *)
Theorem process_stays_consistent (pr : Process) :
  rtc (pr_step bld world null_fd buffer) (mkProcess None 0) pr ->
  (pr_loops pr <= 1)%nat /\ (pr_loops pr = 1%nat <-> is_Some (pr_instance pr)) /\
  forall ps, pr_instance pr = Some ps ->
    stack_inv ps /\
    forall fd, ProtocolStack_ownFD fd ps = true ->
      exists p st, ProtocolStack_lookupStruct fd ps = Ret (p, st) /\ struct_ok (ps_sessions ps) st.
Proof.
  intros Hs. destruct (pr_steps_keep _ _ _ _ _ _ Hs eq_refl) as [Hi _]. unfold process_inv in Hi.
  destruct (pr_instance pr) as [ps|].
  - destruct Hi as [-> Hi]. split; [lia|]. split; [by split|]. intros ? [= <-]. split; [done|].
    intros fd Hfd. apply bool_decide_eq_true_1 in Hfd as [p Hp].
    destruct (inv_owner _ Hi _ _ Hp) as [st Hst]. exists p, st.
    split; [by apply lookupStruct_Ret|by eapply inv_struct].
  - rewrite Hi. split; [lia|]. split; [split; [done|by intros [? ?]]|done].
Qed.

(** C38. The end of a process, whatever the order in which the map gives its descriptors.
    [__clean_up] closes every descriptor of the stack and returns
    if no connection has ever been made, whatever else is open; but if a session is in
    [garbage_] or behind a descriptor, it waits for ever: whatever the other threads
    do while it sleeps, and however often it looks. *)
Theorem clean_up_ends (begin : gmap Z nat -> Z) (sleeps : list (Process -> outcome Process)) (ps : ProtocolStack W) :
  stack_inv ps -> begin_ok begin ->
  Forall (fun f => forall pr pr', f pr = Ret pr' -> rtc (pr_step bld world null_fd buffer) pr pr') sleeps ->
  (ps_garbage_ ps = [] -> (forall fd, fd_sessions ps fd = []) ->
     exists ps', clean_up bld world null_fd buffer begin sleeps (mkProcess (Some ps) 1)
       = Ret (true, mkProcess (Some ps') 1) /\ ps_fd_set_ ps' = ∅) /\
  (ps_garbage_ ps <> [] \/ (exists fd, fd_sessions ps fd <> []) ->
     forall e pr', clean_up bld world null_fd buffer begin sleeps (mkProcess (Some ps) 1) = Ret (e, pr') ->
       e = false).
Proof.
  intros Hi Hb Hsl. unfold clean_up, destory_protocol_stack, with_stack.
  cbn [ProtocolStack_getInstance pr_instance obind pr_loops]. split.
  - intros Hg Hid. destruct (closeAllFDs_loop_idle bld _ begin ps Hb Hi (le_n _) Hid) as (ps' & E & Eg).
    destruct (closeAllFDs_loop_spec bld _ _ _ _ Hb Hi E) as [Hfd _].
    unfold ProtocolStack_closeAllFDs. rewrite E. cbn [obind]. exists ps'. split; [|done].
    destruct sleeps; cbn [clean_up_wait]; unfold can_close_protocol_stack, with_stack;
      cbn [obind ProtocolStack_getInstance pr_instance pr_loops]; unfold ProtocolStack_canClose;
      by rewrite bool_decide_true by congruence.
  - intros Hor e pr' (pr1 & ([[] pr2] & Ec & [= <-])%bind_Ret & Ew)%bind_Ret.
    apply bind_Ret in Ec as ([u ps'] & (ps1 & E & [= <- <-])%bind_Ret & [= <-]).
    destruct (closeAllFDs_loop_spec bld _ _ _ _ Hb Hi E) as (_ & l & Hg' & Hl).
    eapply (clean_up_wait_garbage bld world null_fd buffer); [exact Hsl| | | |exact Ew].
    + split; [done|]. exact (proj1 (closeAllFDs_loop_keeps bld _ _ _ _ E Hi)).
    + reflexivity.
    + rewrite Hg'. intros [Hg0 ->]%app_eq_nil. destruct Hor as [?|[fd Hne]]; [done|].
      destruct (fd_sessions ps fd) as [|i k] eqn:Efd; [done|].
      apply (not_elem_of_nil i), (Hl fd). rewrite Efd. left.
Qed.
End properties.

(** ** Concrete processes *)
Definition example_world : outcome MockWorld := Ret (example_server, []).
Definition first_socket : outcome (Z * Process (W := MockWorld)) :=
  wrap_socket Debug example_world 3 (replicate 1480 0) AF_INET SOCK_STREAM 0 0 4
    (Ret (IPAddress_of_in_addr [10; 0; 0; 2])) (mkProcess None 0).

Lemma process_stays_consistent_witness :
  exists pr, first_socket = Ret (4, pr) /\ (pr_loops pr = 1%nat <-> is_Some (pr_instance pr)).
Proof.
  destruct first_socket as [[v pr]| |] eqn:E; try by vm_compute in E.
  exists pr. split; [by vm_compute in E |- *; injection E as <- <-|].
  apply (process_stays_consistent Debug example_world 3 (replicate 1480 0) pr).
  eapply rtc_once, pr_socket. exact E.
Defined.

(** A socket that was never connected does not delay the exit; a connected one does. *)
Definition example_bound : ProtocolStack MockWorld :=
  mkProtocolStack (<[4 := 0%nat]> ∅) (<[0%nat := SocketStruct_new (example_sa 2 80)]> ∅) ∅ [] [] []
    (replicate 1480 0) (RandGenerator_new 19260817) (example_server, []) 1.
Lemma example_bound_inv : stack_inv example_bound.
Proof.
  split; cbn.
  - intros fd p [[_ <-]|[_ ?]]%lookup_insert_Some; [by eexists|done].
  - by intros fd fd' p [[<- _]|[_ ?]]%lookup_insert_Some [[<- _]|[_ ?]]%lookup_insert_Some.
  - intros p st [[<- _]|[_ ?]]%lookup_insert_Some; [lia|done].
  - intros a p ?%not_elem_of_nil. done.
  - intros a p st ?%not_elem_of_nil. done.
  - intros p st [[<- <-]|[_ ?]]%lookup_insert_Some; done.
  - by intros p q st st' i [[<- _]|[_ ?]]%lookup_insert_Some [[<- _]|[_ ?]]%lookup_insert_Some.
  - intros p st i [[<- <-]|[_ ?]]%lookup_insert_Some; [|done]. intros Hi. by apply not_elem_of_nil in Hi.
Qed.

(** The first descriptor in the order of the keys of a [gmap]. *)
Definition first_key (m : gmap Z nat) : Z := from_option fst 0 (head (map_to_list m)).
Lemma first_key_ok : begin_ok first_key.
Proof.
  intros m Hm. unfold first_key. destruct (map_to_list m) as [|[k v] l] eqn:E.
  - by apply map_to_list_empty_iff in E.
  - cbn. exists v. apply elem_of_map_to_list. rewrite E. left.
Qed.

Lemma clean_up_ends_witness :
  (exists ps', clean_up Debug example_world 3 (replicate 1480 0) first_key [] (mkProcess (Some example_bound) 1)
     = Ret (true, mkProcess (Some ps') 1) /\ ps_fd_set_ ps' = ∅) /\
  exists e pr', clean_up Debug example_world 3 (replicate 1480 0) first_key [] (mkProcess (Some example_stack) 1)
    = Ret (e, pr') /\ e = false.
Proof.
  split.
  - apply (clean_up_ends Debug example_world 3 (replicate 1480 0) first_key [] example_bound).
    + apply example_bound_inv.
    + apply first_key_ok.
    + constructor.
    + reflexivity.
    + intros fd. unfold fd_sessions. cbn [ps_fd_set_ ps_structs example_bound].
      destruct (decide (fd = 4)) as [->|Hne]; [reflexivity|]. by rewrite lookup_insert_ne, lookup_empty.
  - destruct (clean_up Debug example_world 3 (replicate 1480 0) first_key [] (mkProcess (Some example_stack) 1))
      as [[e pr']| |] eqn:E; try by vm_compute in E.
    exists e, pr'. split; [reflexivity|].
    refine (proj2 (clean_up_ends Debug example_world 3 (replicate 1480 0) first_key [] example_stack
      example_stack_inv first_key_ok (List.Forall_nil _)) _ e pr' E).
    right. exists 5. discriminate.
Defined.

(** The router: its one call activates the stack. *)
Example router_activates :
  exists ps, router_main example_world 3 (replicate 1480 0) (-2) [] (mkProcess None 0)
    = Ret (mkProcess (Some ps) 1).
Proof. eexists. reflexivity. Qed.
