(* ===== verification/Posix.v ===== *)
(** The C library and the kernel as the C programs of src/eval and src/3rd/mperf see
    them: a class of worlds with the calls the programs make, the monad of a program
    that runs in such a world, what a byte stream promises to its reader and its writer,
    and a scripted world that keeps those promises. *)

From stdpp Require Import base list numbers strings.
From S2P Require Import Prelude.

Open Scope Z_scope.

(** ** Programs

    A program returns, leaves the process, runs into undefined behaviour, or is still
    in one of its loops when the bound on the iterations is used up. *)
Inductive res (A : Type) : Type :=
  | Done (a : A)
  | Exited (code : Z)
  | Fault
  | NoFuel.
Arguments Done {A} a.
Arguments Exited {A} code.
Arguments Fault {A}.
Arguments NoFuel {A}.

Definition io (W A : Type) : Type := W -> res A * W.

Definition io_ret {W A} (a : A) : io W A := fun w => (Done a, w).
Definition io_bind {W A B} (m : io W A) (f : A -> io W B) : io W B := fun w =>
  match m w with
  | (Done a, w) => f a w
  | (Exited c, w) => (Exited c, w)
  | (Fault, w) => (Fault, w)
  | (NoFuel, w) => (NoFuel, w)
  end.
Definition io_exit {W A} (code : Z) : io W A := fun w => (Exited code, w).
Definition io_fault {W A} : io W A := fun w => (Fault, w).
Definition io_nofuel {W A} : io W A := fun w => (NoFuel, w).
(** Accesses to memory: an access outside the object is a fault. *)
Definition io_mem {W A} (m : outcome A) : io W A := fun w =>
  match m with Ret a => (Done a, w) | Fatal => (Fault, w) | Undef => (Fault, w) end.

Declare Scope io_scope.
Delimit Scope io_scope with io.
Notation "x <- m ;; k" := (io_bind m (fun x => k))
  (at level 100, m at next level, right associativity) : io_scope.
Notation "'let*' pat := m 'in' k" := (io_bind m (fun x => match x with pat => k end))
  (at level 10, pat strict pattern, m at level 100, k at level 200) : io_scope.
Notation "m ;;; k" := (io_bind m (fun _ => k))
  (at level 100, right associativity) : io_scope.
Open Scope io_scope.

(** ** Worlds *)

(** Output for the user: the format with its integer arguments. *)
Record message : Type := mkMessage { msg_format : string; msg_args : list Z }.

(** The flags that signal handlers reset (lock.h). *)
Inductive flag : Type := SigInt | SigAlrm | SigChld | SigUsr1 | SigUsr2.
#[global] Instance flag_eq_dec : EqDecision flag.
Proof. solve_decision. Defined.

(** Calls of which only the [int] they return matters. *)
Inductive call : Type :=
  | CSocket (domain type protocol : Z)
  | CConnect (fd : Z) (address : list Z)
  | CBind (fd : Z) (address : list Z)
  | CListen (fd backlog : Z)
  | CAccept (fd : Z)
  | CClose (fd : Z)
  | CSetsockopt (fd level name value : Z)
  | CFork
  | COpen (path : list Z)
  | CSetns (fd nstype : Z)
  | CKill (pid signal : Z)
  | CAlarm (seconds : Z)
  | CSigaction (signal : Z)
  | CGetppid
  | CSleep (seconds : Z)
  | CRand
  | CGetpid
  | CGetaddrinfo (node : list Z) (family socktype : Z)
  | CFreeaddrinfo
  | CGetsockopt (fd level name : Z)
  | CSignal (signal : Z)
  | CWaitpid
  | CMmap (length : Z)
  | COpenLog (path : list Z)
  | CGettimeofday
  | CNanosleep (sec nsec : Z)
  | CUsleep (usec : Z).

Class Posix (W : Type) := {
  sys_errno : W -> Z;
  sys_put_errno : Z -> W -> W;
  (** [read]: the result and the bytes stored *)
  sys_read : Z -> Z -> W -> Z * list Z * W;
  sys_write : Z -> list Z -> W -> Z * W;
  sys_call : call -> W -> Z * W;
  sys_print : message -> W -> W;
  (** handlers run at any time: testing a flag may find it reset *)
  sys_isLocked : flag -> W -> bool * W;
  sys_putLock : flag -> bool -> W -> W
}.

Definition EINTR : Z := 4.
Definition ECHILD : Z := 10.
Definition EPIPE : Z := 32.
Definition ECONNRESET : Z := 104.
Definition EINPROGRESS : Z := 115.

Section calls.
Context {W : Type} `{Posix W}.

Definition errno : io W Z := fun w => (Done (sys_errno w), w).
Definition put_errno (e : Z) : io W unit := fun w => (Done tt, sys_put_errno e w).
Definition read (fd n : Z) : io W (Z * list Z) := fun w =>
  let '(r, d, w) := sys_read fd n w in (Done (r, d), w).
Definition write (fd : Z) (d : list Z) : io W Z := fun w =>
  let '(r, w) := sys_write fd d w in (Done r, w).
Definition syscall (c : call) : io W Z := fun w =>
  let '(r, w) := sys_call c w in (Done r, w).
Definition printf (format : string) (args : list Z) : io W unit := fun w =>
  (Done tt, sys_print (mkMessage format args) w).
Definition isLocked (f : flag) : io W bool := fun w =>
  let '(b, w) := sys_isLocked f w in (Done b, w).
Definition setLock (f : flag) : io W unit := fun w => (Done tt, sys_putLock f true w).
Definition release (f : flag) : io W unit := fun w => (Done tt, sys_putLock f false w).
End calls.

(** ** What a stream promises

    A reader of descriptor [fd] gets the bytes of [src_stream] in order, in pieces of
    any size, with at most [src_delay] interruptions; the end of the file comes after
    the last byte. *)
Class ByteSource (W : Type) `{Posix W} (fd : Z) := {
  src_ok : W -> Prop;
  src_stream : W -> list Z;
  src_delay : W -> nat;
  src_print : forall m w, src_ok w ->
    src_ok (sys_print m w) /\ src_stream (sys_print m w) = src_stream w /\
    src_delay (sys_print m w) = src_delay w;
  src_read : forall n w, 0 < n -> src_ok w ->
    let '(r, d, w') := sys_read fd n w in
    src_ok w' /\
    ((r = -1 /\ d = [] /\ sys_errno w' = EINTR /\
      src_stream w' = src_stream w /\ (src_delay w' < src_delay w)%nat) \/
     (r = zlen d /\ zlen d <= n /\ src_stream w = d ++ src_stream w' /\
      (d = [] -> src_stream w = []) /\ (src_delay w' <= src_delay w)%nat))
}.

(** A writer puts bytes at the end of [snk_stream]; a call takes a part of what it is
    given, at least one byte, or is interrupted, at most [snk_delay] times. *)
Class ByteSink (W : Type) `{Posix W} (fd : Z) := {
  snk_ok : W -> Prop;
  snk_stream : W -> list Z;
  snk_delay : W -> nat;
  snk_print : forall m w, snk_ok w ->
    snk_ok (sys_print m w) /\ snk_stream (sys_print m w) = snk_stream w /\
    snk_delay (sys_print m w) = snk_delay w;
  snk_write : forall d w, d <> [] -> snk_ok w ->
    let '(r, w') := sys_write fd d w in
    snk_ok w' /\
    ((r = -1 /\ sys_errno w' = EINTR /\ snk_stream w' = snk_stream w /\
      (snk_delay w' < snk_delay w)%nat) \/
     (1 <= r <= zlen d /\ snk_stream w' = snk_stream w ++ ztake r d /\
      (snk_delay w' <= snk_delay w)%nat))
}.

(** ** A scripted world *)
Inductive read_event : Type := Chunk (d : list Z) | ReadError (e : Z).
Inductive write_event : Type := Accepts (n : Z) | WriteError (e : Z).

Record Script : Type := mkScript {
  sc_reads : list read_event;
  sc_writes : list write_event;
  sc_results : list Z;            (* of the other calls; then 0 *)
  sc_sent : list Z;
  sc_calls : list call;
  sc_output : list message;
  sc_errno : Z;
  sc_locked : flag -> bool;
  sc_signals : list (option flag) (* what happens before a flag is tested *)
}.

Definition sc_put_locked (f : flag) (b : bool) (l : flag -> bool) : flag -> bool :=
  fun g => if decide (f = g) then b else l g.

Definition Script_read (n : Z) (w : Script) : Z * list Z * Script :=
  let k (evs : list read_event) (e : Z) :=
    mkScript evs (sc_writes w) (sc_results w) (sc_sent w) (sc_calls w) (sc_output w) e
      (sc_locked w) (sc_signals w) in
  match sc_reads w with
  | [] => (0, [], w)
  | ReadError e :: evs => (-1, [], k evs e)
  | Chunk d :: evs =>
      if zlen d <=? n then (zlen d, d, k evs (sc_errno w))
      else (n, ztake n d, k (Chunk (zdrop n d) :: evs) (sc_errno w))
  end.
Definition Script_write (d : list Z) (w : Script) : Z * Script :=
  let k (evs : list write_event) (n e : Z) :=
    mkScript (sc_reads w) evs (sc_results w) (sc_sent w ++ ztake n d) (sc_calls w) (sc_output w) e
      (sc_locked w) (sc_signals w) in
  match sc_writes w with
  | [] => (zlen d, k [] (zlen d) (sc_errno w))
  | WriteError e :: evs => (-1, k evs 0 e)
  | Accepts n :: evs => let n := Z.max 1 (Z.min n (zlen d)) in (n, k evs n (sc_errno w))
  end.
#[global] Instance Script_posix : Posix Script := {|
  sys_errno := sc_errno;
  sys_put_errno e w :=
    mkScript (sc_reads w) (sc_writes w) (sc_results w) (sc_sent w) (sc_calls w) (sc_output w) e
      (sc_locked w) (sc_signals w);
  sys_read _ := Script_read;
  sys_write _ := Script_write;
  sys_call c w :=
    let k r l :=
      (r, mkScript (sc_reads w) (sc_writes w) l (sc_sent w) (sc_calls w ++ [c]) (sc_output w)
            (sc_errno w) (sc_locked w) (sc_signals w)) in
    match sc_results w with [] => k 0 [] | r :: l => k r l end;
  sys_print m w :=
    mkScript (sc_reads w) (sc_writes w) (sc_results w) (sc_sent w) (sc_calls w)
      (sc_output w ++ [m]) (sc_errno w) (sc_locked w) (sc_signals w);
  sys_isLocked f w :=
    let k l evs :=
      (l f, mkScript (sc_reads w) (sc_writes w) (sc_results w) (sc_sent w) (sc_calls w)
              (sc_output w) (sc_errno w) l evs) in
    match sc_signals w with
    | Some g :: evs => k (sc_put_locked g false (sc_locked w)) evs
    | None :: evs => k (sc_locked w) evs
    | [] => k (sc_locked w) []
    end;
  sys_putLock f b w :=
    mkScript (sc_reads w) (sc_writes w) (sc_results w) (sc_sent w) (sc_calls w) (sc_output w)
      (sc_errno w) (sc_put_locked f b (sc_locked w)) (sc_signals w)
|}.

(** ** The scripted world keeps the promises *)
Definition read_stream (evs : list read_event) : list Z :=
  mjoin ((fun ev => match ev with Chunk d => d | ReadError _ => [] end) <$> evs).
Definition read_ok (ev : read_event) : Prop :=
  match ev with Chunk d => d <> [] | ReadError e => e = EINTR end.
Definition write_ok (ev : write_event) : Prop :=
  match ev with Accepts _ => True | WriteError e => e = EINTR end.

#[global] Program Instance Script_source fd : ByteSource Script fd := {|
  src_ok w := Forall read_ok (sc_reads w);
  src_stream w := read_stream (sc_reads w);
  src_delay w := length (sc_reads w)
|}.
Next Obligation. done. Qed.
Next Obligation.
  intros fd n w Hn Hok. cbn in *. unfold Script_read. destruct (sc_reads w) as [|[d|e] evs] eqn:E.
  - rewrite E. split; [done|]. right. split; [done|]. split; [by apply Z.lt_le_incl|]. split; [done|]. split; [done|cbn; lia].
  - inversion_clear Hok as [|? ? Hd Hevs]. destruct (Z.leb_spec (zlen d) n).
    + split; [done|]. right. cbn. split; [done|]. split; [lia|]. split; [done|]. split; [by intros ->|lia].
    + assert (zlen (ztake n d) = n) as Hl by (rewrite zlen_take; lia). split.
      * constructor; [|done]. cbn. intros Hz. assert (zlen (zdrop n d) = 0) as Hz' by (by rewrite Hz).
        rewrite zlen_drop in Hz'. lia.
      * right. cbn. unfold read_stream. cbn. rewrite Hl. repeat split; try done; try lia.
        -- by rewrite app_assoc, ztake_zdrop.
        -- intros Hz. rewrite Hz, zlen_nil in Hl. lia.
  - inversion_clear Hok as [|? ? He Hevs]. split; [done|]. left. cbn in *. repeat split; done || lia.
Qed.

#[global] Program Instance Script_sink fd : ByteSink Script fd := {|
  snk_ok w := Forall write_ok (sc_writes w);
  snk_stream := sc_sent;
  snk_delay w := length (sc_writes w)
|}.
Next Obligation. done. Qed.
Next Obligation.
  intros fd d w Hd Hok. cbn in *. unfold Script_write.
  assert (0 < zlen d) by (destruct d; [done|rewrite zlen_cons; pose proof (zlen_nonneg d); lia]).
  destruct (sc_writes w) as [|[n|e] evs] eqn:E.
  - cbn. split; [done|]. right. repeat split; try done; lia.
  - inversion_clear Hok as [|? ? _ Hevs]. split; [done|]. right. cbn. repeat split; try done; lia.
  - inversion_clear Hok as [|? ? He Hevs]. split; [done|]. left. cbn in *.
    repeat split; try done; [|lia]. by rewrite ztake_0, app_nil_r.
Qed.

(** A world with nothing to say. *)
Definition quiet : Script :=
  mkScript [] [] [] [] [] [] 0 (fun _ => false) [].
Definition with_reads (evs : list read_event) : Script :=
  mkScript evs [] [] [] [] [] 0 (fun _ => false) [].
Definition with_writes (evs : list write_event) : Script :=
  mkScript [] evs [] [] [] [] 0 (fun _ => false) [].

(** ** C strings *)
Fixpoint bytes_of (s : string) : list Z :=
  match s with
  | EmptyString => []
  | String c s => Z.of_N (Ascii.N_of_ascii c) :: bytes_of s
  end.
(** The string at the start of a block: undefined when there is no NUL. *)
Fixpoint c_string (m : list Z) : outcome (list Z) :=
  match m with
  | [] => Undef
  | c :: m => if c =? 0 then Ret [] else omap_ret (cons c) (c_string m)
  end.
(** Conversion of [size_t] to [ssize_t] (and of [int] to [ssize_t]). *)
Definition ssize (z : Z) : Z := (z + 9223372036854775808) mod 18446744073709551616 - 9223372036854775808.

Lemma ssize_small z : -9223372036854775808 <= z < 9223372036854775808 -> ssize z = z.
Proof. intros. unfold ssize. rewrite Z.mod_small by lia. lia. Qed.
Lemma s32_small z : -2147483648 <= z < 2147483648 -> s32 z = z.
Proof. intros. unfold s32. rewrite Z.mod_small by lia. lia. Qed.

Lemma c_string_app s m : Forall (fun c => c <> 0) s -> c_string (s ++ 0 :: m) = Ret s.
Proof.
  induction 1 as [|c s Hc _ IH]; [done|]. cbn. destruct (Z.eqb_spec c 0); [done|]. by rewrite IH.
Qed.

(** Two stores, one behind the other. *)
Lemma store_twice (m d e : list Z) off :
  0 <= off -> off + zlen d <= zlen m ->
  let m' := ztake off m ++ d ++ zdrop (off + zlen d) m in
  ztake (off + zlen d) m' ++ e ++ zdrop (off + zlen d + zlen e) m'
  = ztake off m ++ (d ++ e) ++ zdrop (off + zlen d + zlen e) m.
Proof.
  intros Ho Hd. cbn zeta. pose proof (zlen_nonneg d). pose proof (zlen_nonneg e).
  assert (zlen (ztake off m ++ d) = off + zlen d) as Hl by (rewrite zlen_app, zlen_take; lia).
  rewrite (app_assoc (ztake off m) d), ztake_app_length by done.
  rewrite zdrop_app, (zdrop_all _ (ztake off m ++ d)), Hl by lia. cbn [app].
  rewrite zdrop_zdrop by lia. rewrite <- !app_assoc. repeat f_equal. lia.
Qed.

(** ** Running a program *)
Section run.
Context {W A B : Type} `{Posix W}.

Lemma bind_Done (m : io W A) (k : A -> io W B) w a w' :
  m w = (Done a, w') -> io_bind m k w = k a w'.
Proof. intros E. unfold io_bind. by rewrite E. Qed.
Lemma bind_mem (m : outcome A) (k : A -> io W B) w a :
  m = Ret a -> io_bind (io_mem m) k w = k a w.
Proof. by intros ->. Qed.
Lemma bind_fault (m : outcome A) (k : A -> io W B) w :
  m = Undef -> io_bind (io_mem m) k w = (Fault, w).
Proof. by intros ->. Qed.
Lemma bind_read (k : Z * list Z -> io W B) fd n w r d w' :
  sys_read fd n w = (r, d, w') -> io_bind (read fd n) k w = k (r, d) w'.
Proof. intros E. unfold io_bind, read. by rewrite E. Qed.
Lemma bind_write (k : Z -> io W B) fd d w r w' :
  sys_write fd d w = (r, w') -> io_bind (write fd d) k w = k r w'.
Proof. intros E. unfold io_bind, write. by rewrite E. Qed.
Lemma bind_call (k : Z -> io W B) c w r w' :
  sys_call c w = (r, w') -> io_bind (syscall c) k w = k r w'.
Proof. intros E. unfold io_bind, syscall. by rewrite E. Qed.
Lemma bind_isLocked (k : bool -> io W B) f w b w' :
  sys_isLocked f w = (b, w') -> io_bind (isLocked f) k w = k b w'.
Proof. intros E. unfold io_bind, isLocked. by rewrite E. Qed.
Lemma bind_errno (k : Z -> io W B) w : io_bind errno k w = k (sys_errno w) w.
Proof. done. Qed.
Lemma bind_put_errno (k : unit -> io W B) e w :
  io_bind (put_errno e) k w = k tt (sys_put_errno e w).
Proof. done. Qed.
Lemma bind_printf (k : unit -> io W B) s args w :
  io_bind (printf s args) k w = k tt (sys_print (mkMessage s args) w).
Proof. done. Qed.
Lemma bind_ret (k : A -> io W B) a w : io_bind (io_ret a) k w = k a w.
Proof. done. Qed.
End run.

(** A stream of bytes with no interruption ahead. *)
Class CalmSink (W : Type) `{!Posix W} (fd : Z) `{!ByteSink W fd} := {
  snk_calm : W -> Prop;
  snk_calm_print : forall m w, snk_calm w -> snk_calm (sys_print m w);
  snk_calm_write : forall d w, d <> [] -> snk_ok w -> snk_calm w ->
    let '(r, w') := sys_write fd d w in 1 <= r /\ snk_calm w'
}.
#[global] Program Instance Script_calm fd : CalmSink Script fd := {|
  snk_calm w := Forall (fun ev => match ev with Accepts _ => True | WriteError _ => False end)
                  (sc_writes w)
|}.
Next Obligation. done. Qed.
Next Obligation.
  intros fd d w Hd Hok Hc. cbn in *. unfold Script_write.
  assert (0 < zlen d) by (destruct d; [done|rewrite zlen_cons; pose proof (zlen_nonneg d); lia]).
  destruct (sc_writes w) as [|[n|e] evs]; cbn; [split; [lia|constructor]| |].
  - inversion_clear Hc. split; [lia|done].
  - by inversion_clear Hc.
Qed.

(** ** A connection with no interruption ahead, both ways

    No signal resets a flag. Timers can be set, and setting them, like printing, does not touch the connection. *)
Definition timer_call (c : call) : Prop :=
  match c with CAlarm _ | CSigaction _ => True | _ => False end.

Class Peer (W : Type) `{Posix W} (fd : Z) := {
  peer_ok : W -> Prop;
  peer_in : W -> list Z;
  peer_out : W -> list Z;
  peer_locked : W -> flag -> bool;
  peer_print : forall m w, peer_ok w ->
    peer_ok (sys_print m w) /\ peer_in (sys_print m w) = peer_in w /\
    peer_out (sys_print m w) = peer_out w /\ peer_locked (sys_print m w) = peer_locked w;
  peer_put_errno : forall e w, peer_ok w ->
    let w' := sys_put_errno e w in
    peer_ok w' /\ peer_in w' = peer_in w /\ peer_out w' = peer_out w /\ peer_locked w' = peer_locked w;
  peer_timer : forall c w, timer_call c -> peer_ok w ->
    let '(r, w') := sys_call c w in
    0 <= r /\ peer_ok w' /\ peer_in w' = peer_in w /\ peer_out w' = peer_out w /\
    peer_locked w' = peer_locked w;
  peer_isLocked : forall f w, peer_ok w ->
    let '(b, w') := sys_isLocked f w in
    b = peer_locked w f /\ peer_ok w' /\ peer_in w' = peer_in w /\ peer_out w' = peer_out w /\
    peer_locked w' = peer_locked w;
  peer_read : forall n w, 0 < n -> peer_ok w ->
    let '(r, d, w') := sys_read fd n w in
    r = zlen d /\ zlen d <= n /\ peer_in w = d ++ peer_in w' /\ (d = [] -> peer_in w = []) /\
    peer_ok w' /\ peer_out w' = peer_out w /\ peer_locked w' = peer_locked w;
  peer_write : forall d w, d <> [] -> peer_ok w ->
    let '(r, w') := sys_write fd d w in
    1 <= r <= zlen d /\ peer_out w' = peer_out w ++ ztake r d /\
    peer_ok w' /\ peer_in w' = peer_in w /\ peer_locked w' = peer_locked w
}.

#[global] Program Instance Script_peer fd : Peer Script fd := {|
  peer_ok w :=
    Forall (fun ev => match ev with Chunk d => d <> [] | ReadError _ => False end) (sc_reads w) /\
    Forall (fun ev => match ev with Accepts _ => True | WriteError _ => False end) (sc_writes w) /\
    sc_results w = [] /\ sc_signals w = [];
  peer_locked := sc_locked;
  peer_in w := read_stream (sc_reads w);
  peer_out := sc_sent
|}.
Next Obligation. done. Qed.
Next Obligation. done. Qed.
Next Obligation. intros fd c w _ (Hr & Hw & He & Hs). cbn. rewrite He. by repeat split. Qed.
Next Obligation. intros fd f w (Hr & Hw & He & Hs). cbn. rewrite Hs. by repeat split. Qed.
Next Obligation.
  intros fd n w Hn (Hr & Hw & He & Hsg). cbn in *. unfold Script_read.
  destruct (sc_reads w) as [|[d|e] evs] eqn:E.
  - rewrite E. split; [done|]. split; [by apply Z.lt_le_incl|]. done.
  - inversion_clear Hr as [|? ? Hd Hevs]. destruct (Z.leb_spec (zlen d) n).
    + split; [done|]. split; [done|]. split; [done|]. by split; [intros ->|].
    + assert (zlen (ztake n d) = n) as Hl by (rewrite zlen_take; lia). rewrite Hl.
      split; [done|]. split; [lia|]. split.
      { unfold read_stream. cbn. by rewrite app_assoc, ztake_zdrop. }
      split; [intros Hz; rewrite Hz in Hl; change (@zlen Z []) with 0 in Hl; lia|].
      split; [|done]. split; [|done]. constructor; [|done]. intros Hz.
      assert (zlen (zdrop n d) = 0) as Hz' by (by rewrite Hz). rewrite zlen_drop in Hz'. lia.
  - by inversion_clear Hr.
Qed.
Next Obligation.
  intros fd d w Hd (Hr & Hw & He & Hsg). cbn in *. unfold Script_write.
  assert (0 < zlen d) by (destruct d; [done|rewrite zlen_cons; pose proof (zlen_nonneg d); lia]).
  destruct (sc_writes w) as [|[n|e] evs]; cbn.
  - split; [lia|]. by repeat split.
  - inversion_clear Hw. split; [lia|]. by repeat split.
  - by inversion_clear Hw.
Qed.

(** ** Programs that end

    A program without an unbounded loop ends in every world: it never uses up its fuel. *)
Section ends.
Context {W : Type} `{Posix W}.

Definition ends {A} (m : io W A) : Prop := forall w, (m w).1 <> NoFuel.

Lemma ends_ret {A} (a : A) : ends (io_ret a).
Proof. done. Qed.
Lemma ends_exit {A} n : ends (A := A) (io_exit n).
Proof. done. Qed.
Lemma ends_fault {A} : ends (A := A) io_fault.
Proof. done. Qed.
Lemma ends_mem {A} (m : outcome A) : ends (io_mem m).
Proof. by destruct m. Qed.
Lemma ends_call c : ends (syscall c).
Proof. intros w. unfold syscall. by destruct (sys_call c w). Qed.
Lemma ends_printf f args : ends (printf f args).
Proof. done. Qed.
Lemma ends_errno : ends errno.
Proof. done. Qed.
Lemma ends_bind {A B} (m : io W A) (k : A -> io W B) : ends m -> (forall a, ends (k a)) -> ends (io_bind m k).
Proof.
  intros Hm Hk w. unfold io_bind. specialize (Hm w).
  destruct (m w) as [[a| | |] w']; try done. apply Hk.
Qed.
Lemma ends_if {A} (b : bool) (m1 m2 : io W A) : ends m1 -> ends m2 -> ends (if b then m1 else m2).
Proof. by destruct b. Qed.
End ends.
Create HintDb ends.
#[export] Hint Resolve ends_ret ends_exit ends_fault ends_mem ends_call ends_printf ends_errno
  ends_bind ends_if : ends.
