(* ===== verification/CText.v ===== *)
(** Numbers as text, the way the C library prints and reads them for the C programs:
    [%d] of [sprintf] and [sscanf], and [atoi]. *)

From stdpp Require Import base list numbers.
From S2P Require Import Prelude Posix.

Open Scope Z_scope.
Open Scope outcome_scope.

(** ** [%d] of [sprintf] and [sscanf] *)
Fixpoint dec_digits (fuel : nat) (n : Z) (acc : list Z) : list Z :=
  match fuel with
  | O => acc
  | S fuel => if n <? 10 then 48 + n :: acc else dec_digits fuel (n / 10) (48 + n mod 10 :: acc)
  end.
Definition sprintf_d (z : Z) : list Z :=
  if z <? 0 then 45 :: dec_digits 20 (- z) [] else dec_digits 20 z [].

Definition is_space (c : Z) : bool := (c =? 32) || ((9 <=? c) && (c <=? 13)).
Definition is_digit (c : Z) : bool := (48 <=? c) && (c <=? 57).
Fixpoint skip_spaces (s : list Z) : list Z :=
  match s with c :: s' => if is_space c then skip_spaces s' else s | [] => [] end.
Fixpoint scan_digits (s : list Z) (v : Z) : Z * list Z :=
  match s with
  | c :: s' => if is_digit c then scan_digits s' (10 * v + (c - 48)) else (v, s)
  | [] => (v, [])
  end.
(** One [%d]: no value when there is no number; a number that is not an [int] is
    undefined behaviour. *)
Definition sscanf_d (s : list Z) : outcome (option (Z * list Z)) :=
  let s := skip_spaces s in
  let '(neg, s) := match s with
                   | c :: s' => if c =? 45 then (true, s') else if c =? 43 then (false, s') else (false, s)
                   | [] => (false, [])
                   end in
  match s with
  | c :: _ =>
      if is_digit c then
        let '(v, rest) := scan_digits s 0 in
        let v := if (neg : bool) then - v else v in
        if (-2147483648 <=? v) && (v <? 2147483648) then Ret (Some (v, rest)) else Undef
      else Ret None
  | [] => Ret None
  end.
(** [sscanf(s, "%d%d%d", ...)]: the variables it assigns. *)
Definition sscanf_ddd (s : list Z) : outcome (option Z * option Z * option Z) :=
  (r1 <- sscanf_d s ;;
   match r1 with
   | None => Ret (None, None, None)
   | Some (a, s) =>
       r2 <- sscanf_d s ;;
       match r2 with
       | None => Ret (Some a, None, None)
       | Some (b, s) =>
           r3 <- sscanf_d s ;;
           Ret (Some a, Some b, fst <$> r3)
       end
   end).
Definition assigned (v : option Z) : outcome Z := match v with Some z => Ret z | None => Undef end.

(** [atoi]: 0 when there is no number. *)
Definition atoi (s : list Z) : outcome Z :=
  r <- sscanf_d s ;; Ret (match r with Some (v, _) => v | None => 0 end).

(** The sum of two [int]s: overflow is undefined behaviour. *)
Definition int_of (z : Z) : outcome Z :=
  if (-2147483648 <=? z) && (z <? 2147483648) then Ret z else Undef.

(** ** Numbers as text *)
Definition in_int (z : Z) : Prop := -2147483648 <= z < 2147483648.

Lemma dec_digits_app fuel n acc rest : dec_digits fuel n acc ++ rest = dec_digits fuel n (acc ++ rest).
Proof.
  revert n acc. induction fuel as [|fuel IH]; intros n acc; [done|]. cbn.
  destruct (n <? 10); [done|]. apply IH.
Qed.
Lemma digit_is_digit n : 0 <= n < 10 -> is_digit (48 + n) = true.
Proof. intros. unfold is_digit. ztest; lia || done. Qed.

(** Reading the digits of a number back. *)
Lemma scan_dec_digits fuel n acc :
  0 <= n < 10 ^ Z.of_nat fuel -> (0 < fuel)%nat ->
  scan_digits (dec_digits fuel n acc) 0 = scan_digits acc n.
Proof.
  revert n acc. induction fuel as [|fuel IH]; intros n acc Hn Hf; [lia|]. cbn [dec_digits].
  destruct (Z.ltb_spec n 10).
  - cbn [scan_digits]. rewrite digit_is_digit by lia. f_equal. lia.
  - assert (0 < fuel)%nat as Hf' by (destruct fuel; [cbn in Hn|]; lia).
    rewrite Nat2Z.inj_succ, Z.pow_succ_r in Hn by lia.
    pose proof (Z.mod_pos_bound n 10 ltac:(lia)). pose proof (Z.div_mod n 10 ltac:(lia)).
    rewrite IH; [|split; [apply Z.div_pos; lia|apply Z.div_lt_upper_bound; lia]|done].
    cbn [scan_digits]. rewrite digit_is_digit by lia. f_equal. lia.
Qed.
Lemma dec_digits_head fuel n acc :
  0 <= n -> (0 < fuel)%nat -> n < 10 ^ Z.of_nat fuel ->
  exists c l, dec_digits fuel n acc = c :: l /\ is_digit c = true.
Proof.
  revert n acc. induction fuel as [|fuel IH]; intros n acc Hn Hf Hb; [lia|]. cbn [dec_digits].
  destruct (Z.ltb_spec n 10).
  - eexists _, _. split; [done|]. by apply digit_is_digit.
  - assert (0 < fuel)%nat as Hf' by (destruct fuel; [cbn in Hb|]; lia).
    rewrite Nat2Z.inj_succ, Z.pow_succ_r in Hb by lia.
    apply IH; [apply Z.div_pos; lia|done|apply Z.div_lt_upper_bound; lia].
Qed.
Lemma dec_digits_chars (P : Z -> Prop) fuel n acc :
  (forall c, 48 <= c <= 57 -> P c) -> 0 <= n -> Forall P acc -> Forall P (dec_digits fuel n acc).
Proof.
  intros HP. revert n acc. induction fuel as [|fuel IH]; intros n acc Hn Ha; [done|]. cbn [dec_digits].
  pose proof (Z.mod_pos_bound n 10 ltac:(lia)). destruct (Z.ltb_spec n 10).
  - constructor; [apply HP; lia|done].
  - apply IH; [apply Z.div_pos; lia|]. constructor; [apply HP; lia|done].
Qed.

(** What follows a number. *)
Definition stops (rest : list Z) : Prop :=
  match rest with c :: _ => is_digit c = false | [] => True end.
Lemma scan_stop rest v : stops rest -> scan_digits rest v = (v, rest).
Proof. destruct rest as [|c rest]; cbn; [done|]. by intros ->. Qed.

Lemma sscanf_sprintf_d z rest :
  in_int z -> stops rest -> sscanf_d (sprintf_d z ++ rest) = Ret (Some (z, rest)).
Proof.
  intros Hz Hr. unfold in_int in Hz. unfold sscanf_d, sprintf_d.
  assert (10 ^ Z.of_nat 20 = 100000000000000000000) as Hp by done.
  destruct (Z.ltb_spec z 0) as [Hneg|Hpos].
  - destruct (dec_digits_head 20 (- z) rest) as (c & l & E & Hc); [lia|lia|rewrite Hp; lia|].
    cbn [app]. rewrite dec_digits_app, app_nil_l, E. cbn [skip_spaces].
    change (is_space 45) with false. cbn [Z.eqb Pos.eqb]. rewrite Hc, <- E.
    rewrite scan_dec_digits by (rewrite ?Hp; lia). rewrite (scan_stop rest) by exact Hr. rewrite Z.opp_involutive.
    ztest; lia || done.
  - destruct (dec_digits_head 20 z rest) as (c & l & E & Hc); [lia|lia|rewrite Hp; lia|].
    rewrite dec_digits_app, app_nil_l, E. cbn [skip_spaces].
    assert (48 <= c <= 57) as Hcr by (unfold is_digit in Hc; revert Hc; ztest; lia || done).
    assert (is_space c = false) as -> by (unfold is_space; ztest; lia || done).
    destruct (Z.eqb_spec c 45); [lia|]. destruct (Z.eqb_spec c 43); [lia|]. rewrite Hc, <- E.
    rewrite scan_dec_digits by (rewrite ?Hp; lia). rewrite (scan_stop rest) by exact Hr. ztest; lia || done.
Qed.
Lemma sscanf_d_space s : sscanf_d (32 :: s) = sscanf_d s.
Proof. done. Qed.

Lemma sprintf_d_chars z : in_int z -> Forall (fun c => c <> 0) (sprintf_d z).
Proof.
  intros Hz. unfold sprintf_d, in_int in *.
  destruct (Z.ltb_spec z 0); [constructor; [done|]|]; apply dec_digits_chars; done || lia.
Qed.
Lemma zlen_dec_digits fuel n acc : zlen (dec_digits fuel n acc) <= Z.of_nat fuel + zlen acc.
Proof.
  revert n acc. induction fuel as [|fuel IH]; intros n acc; [cbn; lia|]. cbn [dec_digits].
  destruct (n <? 10); [rewrite zlen_cons; lia|].
  specialize (IH (n / 10) (48 + n mod 10 :: acc)). rewrite zlen_cons in IH. lia.
Qed.
Lemma zlen_sprintf_d z : zlen (sprintf_d z) <= 21.
Proof.
  unfold sprintf_d. pose proof (zlen_dec_digits 20 (- z) []). pose proof (zlen_dec_digits 20 z []).
  change (@zlen Z []) with 0 in *. destruct (z <? 0); rewrite ?zlen_cons; lia.
Qed.

Lemma atoi_sprintf_d z : in_int z -> atoi (sprintf_d z) = Ret z.
Proof.
  intros Hz. unfold atoi. rewrite <- (app_nil_r (sprintf_d z)).
  by rewrite sscanf_sprintf_d.
Qed.
Lemma sscanf_d_int s v rest : sscanf_d s = Ret (Some (v, rest)) -> in_int v.
Proof.
  unfold sscanf_d, in_int. intros E. destruct (match skip_spaces s with [] => _ | _ => _ end) as [neg t].
  destruct t as [|c t]; [done|]. destruct (is_digit c); [|done].
  destruct (scan_digits (c :: t) 0) as [v0 rest0].
  destruct (Z.leb_spec (-2147483648) (if neg then - v0 else v0)); cbn [andb] in E; [|done].
  destruct (Z.ltb_spec (if neg then - v0 else v0) 2147483648); [|done].
  injection E as <- <-. lia.
Qed.
Lemma atoi_int s v : atoi s = Ret v -> in_int v.
Proof.
  unfold atoi. intros ([[v' rest]|] & E & [= <-])%bind_Ret; [by eapply sscanf_d_int|].
  unfold in_int; lia.
Qed.
Lemma int_of_ok z : in_int z -> int_of z = Ret z.
Proof. unfold int_of, in_int. intros [Hl Hh]. apply Z.leb_le in Hl as ->. by apply Z.ltb_lt in Hh as ->. Qed.
Lemma int_of_Ret z v : int_of z = Ret v -> v = z /\ in_int z.
Proof.
  unfold int_of, in_int. destruct (Z.leb_spec (-2147483648) z), (Z.ltb_spec z 2147483648); cbn; try done.
  intros [= <-]. done.
Qed.
Lemma sprintf_d_cons z : in_int z -> exists c s, sprintf_d z = c :: s.
Proof.
  unfold in_int, sprintf_d. intros Hz. destruct (z <? 0) eqn:E; [eauto|]. apply Z.ltb_ge in E.
  destruct (dec_digits_head 20 z []) as (c & s & -> & _); [done|lia|cbn; lia|eauto].
Qed.
