(* ===== verification/Locks.v ===== *)
(** src/3rd/mperf/src/include/lock.h: the spin lock. An atomic operation is one step on the
    word that the threads share; what a thread does between two of them is not seen by the
    others. [setLock], [isLocked] and [spin*], which mperf uses between a program and its
    signal handlers, are in [Posix] and [MperfControl]. *)

From stdpp Require Import base list numbers gmap relations.
From S2P Require Import Prelude.

Open Scope Z_scope.

(** [int]: the result of an operation and the new value of the word. *)
Definition lock_t : Type := Z.
Definition lock_release (plock : lock_t) : lock_t := 0.
Definition compare_exchange (ex de : lock_t) (plock : lock_t) : Z * lock_t :=
  if plock =? ex then (1, de) else (0, plock).
Definition lock_tryLock (plock : lock_t) : Z * lock_t := compare_exchange 0 1 plock.
(** The atomic addition of a signed type wraps. *)
Definition lock_atomicInc (plock : lock_t) : Z * lock_t := (plock, s32 (plock + 1)).

(** ** Threads around one lock

    A thread calls [lock], works, calls [release], and so on. *)
Inductive lock_pc : Type := Outside | Spinning | Inside.
#[global] Instance lock_pc_eq_dec : EqDecision lock_pc.
Proof. solve_decision. Defined.

Record Locked : Type := mkLocked {
  lk_word : lock_t;
  lk_threads : gmap nat lock_pc
}.

(** One step of a thread: entering [lock], one turn of its loop
    [while (!tryLock(plock));], or [release]. *)
Definition lock_step (t : nat) (s : Locked) : option Locked :=
  match lk_threads s !! t with
  | None => None
  | Some Outside => Some (mkLocked (lk_word s) (<[t := Spinning]> (lk_threads s)))
  | Some Spinning =>
      let '(r, w) := lock_tryLock (lk_word s) in
      Some (mkLocked w (<[t := if r =? 0 then Spinning else Inside]> (lk_threads s)))
  | Some Inside => Some (mkLocked (lock_release (lk_word s)) (<[t := Outside]> (lk_threads s)))
  end.
Definition lock_next (s s' : Locked) : Prop := exists t, lock_step t s = Some s'.

(** The word tells whether a thread is inside, and there is at most one. *)
Definition lock_inv (s : Locked) : Prop :=
  (lk_word s = 0 /\ forall t, lk_threads s !! t <> Some Inside) \/
  (lk_word s = 1 /\ exists t, lk_threads s !! t = Some Inside /\
     forall t', lk_threads s !! t' = Some Inside -> t' = t).

Lemma lock_step_inv t s s' : lock_step t s = Some s' -> lock_inv s -> lock_inv s'.
Proof.
  unfold lock_step, lock_tryLock, compare_exchange, lock_inv. intros E Hi.
  destruct (lk_threads s !! t) as [[]|] eqn:Ht; simplify_eq/=.
  - destruct Hi as [[? Hn]|(? & u & Hu & Hn)].
    + left. split; [done|]. intros t'. rewrite lookup_insert_Some. naive_solver.
    + right. split; [done|]. exists u. rewrite lookup_insert_ne by congruence. split; [done|].
      intros t'. rewrite lookup_insert_Some. naive_solver.
  - destruct Hi as [[E0 Hn]|(E0 & u & Hu & Hn)]; rewrite E0 in E; cbn in E; simplify_eq/=.
    + right. split; [done|]. exists t. rewrite lookup_insert_eq. split; [done|].
      intros t'. rewrite lookup_insert_Some. naive_solver.
    + right. split; [done|]. exists u. rewrite lookup_insert_ne by congruence. split; [done|].
      intros t'. rewrite lookup_insert_Some. naive_solver.
  - destruct Hi as [[? Hn]|(? & u & Hu & Hn)]; [naive_solver|].
    left. split; [done|]. intros t'. rewrite lookup_insert_Some. intros [[_ ?]|[? Ht']]; [done|].
    apply Hn in Ht', Ht. congruence.
Qed.
Lemma lock_reachable_inv s s' : lock_inv s -> rtc lock_next s s' -> lock_inv s'.
Proof. intros Hi Hs. induction Hs as [|s1 s2 s3 [t Ht] _ IH]; eauto using lock_step_inv. Qed.

(** C37. The spin lock excludes: whatever the interleaving of the threads, at most one of
    them is between [lock] and [release], and the word is zero exactly when there is none.
    And no thread can be stuck: when one spins, the thread that is inside can leave, or,
    if there is none, the next turn of the loop of any spinning thread enters. *)
Theorem spin_lock_excludes (threads : gset nat) (s : Locked) :
  rtc lock_next (mkLocked 0 (gset_to_gmap Outside threads)) s ->
  (forall t1 t2, lk_threads s !! t1 = Some Inside -> lk_threads s !! t2 = Some Inside -> t1 = t2) /\
  (lk_word s = 0 <-> forall t, lk_threads s !! t <> Some Inside) /\
  forall t, lk_threads s !! t = Some Spinning ->
    (lk_word s = 0 /\ exists s', lock_step t s = Some s' /\ lk_threads s' !! t = Some Inside) \/
    (exists u s', lk_threads s !! u = Some Inside /\ lock_step u s = Some s' /\ lk_word s' = 0).
Proof.
  intros Hs. apply lock_reachable_inv in Hs.
  2: { left. split; [done|]. intros t. cbn. rewrite lookup_gset_to_gmap_Some. by intros [_ ?]. }
  destruct Hs as [[E Hn]|(E & u & Hu & Hn)].
  - split; [naive_solver|]. split; [done|]. intros t Ht. left. split; [done|].
    unfold lock_step, lock_tryLock, compare_exchange. rewrite Ht, E. cbn.
    eexists; split; [done|]. apply lookup_insert_eq.
  - split; [intros t1 t2 H1%Hn H2%Hn; congruence|]. split; [rewrite E; naive_solver|].
    intros t Ht. right. exists u. unfold lock_step. rewrite Hu. eauto.
Qed.

Definition two_spinning : Locked :=
  mkLocked 0 (<[0%nat := Spinning]> (<[1%nat := Spinning]> (gset_to_gmap Outside {[0%nat; 1%nat]}))).
Lemma spin_lock_excludes_witness :
  rtc lock_next (mkLocked 0 (gset_to_gmap Outside {[0%nat; 1%nat]})) two_spinning /\
  (lk_word two_spinning = 0 <-> forall t, lk_threads two_spinning !! t <> Some Inside).
Proof.
  assert (Hr : rtc lock_next (mkLocked 0 (gset_to_gmap Outside {[0%nat; 1%nat]})) two_spinning).
  { eapply rtc_l; [exists 1%nat; reflexivity|]. eapply rtc_l; [exists 0%nat; reflexivity|]. apply rtc_refl. }
  split; [exact Hr|]. apply (spin_lock_excludes {[0%nat; 1%nat]} two_spinning Hr).
Defined.

(** [atomicInc] hands out tickets: [2^32] calls in a row get different ones. The log uses
    them to choose one of its 16 buffers ([getBuf] of log.h). *)
Definition LOGBUF_LEVEL : Z := 4.
Definition getBuf (logNum : lock_t) : Z * lock_t :=
  let '(n, logNum) := lock_atomicInc logNum in (Z.land n (Z.shiftl 1 LOGBUF_LEVEL - 1), logNum).
Fixpoint tickets (n : nat) (w : lock_t) : list Z :=
  match n with
  | O => []
  | S n => let '(r, w) := lock_atomicInc w in r :: tickets n w
  end.
Lemma s32_s32_add a b : s32 (s32 a + b) = s32 (a + b).
Proof.
  unfold s32. f_equal. replace (_ - _ + b + _) with ((a + 2147483648) mod 4294967296 + b) by lia.
  rewrite Zplus_mod_idemp_l. f_equal. lia.
Qed.
Lemma tickets_eq n w : tickets n (s32 w) = (fun i => s32 (w + Z.of_nat i)) <$> seq 0 n.
Proof.
  revert w. induction n as [|n IH]; intros w; [done|]. cbn. f_equal; [by rewrite Z.add_0_r|].
  rewrite s32_s32_add, IH, <- fmap_S_seq, <- list_fmap_compose. apply list_fmap_ext.
  intros _ i _. cbn. f_equal. lia.
Qed.
Lemma tickets_differ n w : (Z.of_nat n <= 4294967296) -> NoDup (tickets n (s32 w)).
Proof.
  intros Hn. rewrite tickets_eq. apply NoDup_fmap_2_strong; [|apply NoDup_seq].
  intros i j [_ Hi]%elem_of_seq [_ Hj]%elem_of_seq. unfold s32. intros E.
  assert (E' : (w + Z.of_nat i + 2147483648) mod 4294967296 = (w + Z.of_nat j + 2147483648) mod 4294967296) by lia.
  pose proof (Z.div_mod (w + Z.of_nat i + 2147483648) 4294967296 ltac:(done)).
  pose proof (Z.div_mod (w + Z.of_nat j + 2147483648) 4294967296 ltac:(done)). nia.
Qed.

(** The buffers of the log. *)
Fixpoint bufs (n : nat) (w : lock_t) : list Z :=
  match n with
  | O => []
  | S n => let '(r, w) := getBuf w in r :: bufs n w
  end.
Lemma s32_mod16 z : s32 z mod 16 = z mod 16.
Proof.
  unfold s32. rewrite Zminus_mod. change (2147483648 mod 16) with 0. rewrite Z.sub_0_r.
  change 4294967296 with (16 * 268435456). rewrite Zmod_mod, Z.rem_mul_r by lia.
  rewrite Z.mul_comm, Z.mod_add, Zmod_mod by lia.
  change 2147483648 with (134217728 * 16). by rewrite Z.mod_add by lia.
Qed.
Lemma bufs_eq n w : bufs n (s32 w) = (fun i => (w + Z.of_nat i) mod 16) <$> seq 0 n.
Proof.
  revert w. induction n as [|n IH]; intros w; [done|]. cbn [bufs getBuf lock_atomicInc seq].
  rewrite fmap_cons. f_equal.
  - rewrite Z.add_0_r. change (Z.shiftl 1 LOGBUF_LEVEL - 1) with (Z.ones 4).
    rewrite Z.land_ones by lia. apply s32_mod16.
  - rewrite s32_s32_add, IH, <- fmap_S_seq, <- list_fmap_compose. apply list_fmap_ext.
    intros _ i _. cbn. f_equal. lia.
Qed.
(** A message that is being written is not overwritten before 16 others have begun. *)
Lemma bufs_differ n w : (n <= 16)%nat -> NoDup (bufs n (s32 w)).
Proof.
  intros Hn. rewrite bufs_eq. apply NoDup_fmap_2_strong; [|apply NoDup_seq].
  intros i j [_ Hi]%elem_of_seq [_ Hj]%elem_of_seq E.
  pose proof (Z.div_mod (w + Z.of_nat i) 16 ltac:(done)).
  pose proof (Z.div_mod (w + Z.of_nat j) 16 ltac:(done)). nia.
Qed.
