(* ===== verification/EvalTools.v ===== *)
(** src/eval: the programs that exercise the stack (unp.c, echo_client.c, echo_server.c,
    rattle_client.c, setns.c, wrap_null.c). Their [read], [write], [socket], ... are the
    calls of a world; loops take a bound on their iterations. *)

From stdpp Require Import base list numbers strings.
From S2P Require Import Prelude Endian IPAddress SocketAddress Posix.

Open Scope Z_scope.
Open Scope io_scope.

Section unp.
Context {W : Type} `{Posix W}.

(** ** unp.c *)

(** The loop of [readn]; [ptr] is an offset in [buff]. The result of [read] is kept in
    an [int]. *)
Fixpoint readn_loop (fuel : nat) (fd : Z) (buff : list Z) (nbytes nleft ptr : Z)
  : io W (Z * list Z) :=
  match fuel with
  | O => io_nofuel
  | S fuel =>
      if 0 <? nleft then
        let* (r, d) := read fd nleft in
        buff <- io_mem (mem_write buff ptr d) ;;
        let nread := s32 r in
        if nread =? 0 then io_ret (ssize (u64 (nbytes - nleft)), buff)
        else
          e <- errno ;;
          if (nread <? 0) && negb (e =? EINTR) then io_ret (-1, buff)
          else
            let nread := if nread <? 0 then 0 else nread in
            readn_loop fuel fd buff nbytes (u64 (nleft - nread)) (ptr + nread)
      else io_ret (ssize nbytes, buff)
  end.
Definition readn (fuel : nat) (fd : Z) (buff : list Z) (nbytes : Z) : io W (Z * list Z) :=
  readn_loop fuel fd buff nbytes nbytes 0.

Fixpoint writen_loop (fuel : nat) (fd : Z) (buff : list Z) (nbytes nleft ptr : Z) : io W Z :=
  match fuel with
  | O => io_nofuel
  | S fuel =>
      if 0 <? nleft then
        d <- io_mem (mem_read buff ptr nleft) ;;
        r <- write fd d ;;
        let nwritten := s32 r in
        e <- errno ;;
        if (nwritten =? 0) || ((nwritten <? 0) && negb (e =? EINTR)) then io_ret (-1)
        else writen_loop fuel fd buff nbytes (u64 (nleft - nwritten)) (ptr + nwritten)
      else io_ret (ssize nbytes)
  end.
Definition writen (fuel : nat) (fd : Z) (buff : list Z) (nbytes : Z) : io W Z :=
  writen_loop fuel fd buff nbytes nbytes 0.

(** [readline]: one iteration per call of [read]; [goto again] keeps [n]. *)
Fixpoint readline_loop (fuel : nat) (fd : Z) (buff : list Z) (maxlen n ptr : Z) : io W (Z * list Z) :=
  match fuel with
  | O => io_nofuel
  | S fuel =>
      if n <? maxlen then
        let* (rc, d) := read fd 1 in
        if rc =? 1 then
          match d with
          | [c] =>
              buff <- io_mem (mem_write buff ptr [c]) ;;
              if c =? 10 then
                buff <- io_mem (mem_write buff (ptr + 1) [0]) ;; io_ret (n, buff)
              else readline_loop fuel fd buff maxlen (n + 1) (ptr + 1)
          | _ => io_fault
          end
        else if rc =? 0 then
          buff <- io_mem (mem_write buff ptr [0]) ;; io_ret (n - 1, buff)
        else
          e <- errno ;;
          if e =? EINTR then readline_loop fuel fd buff maxlen n ptr
          else io_ret (-1, buff)
      else buff <- io_mem (mem_write buff ptr [0]) ;; io_ret (n, buff)
  end.
Definition readline (fuel : nat) (fd : Z) (buff : list Z) (maxlen : Z) : io W (Z * list Z) :=
  readline_loop fuel fd buff maxlen 1 0.

(** The wrappers that leave the program on an error. *)
Definition exit_on_error (what : string) (rv : Z) : io W unit :=
  if rv <? 0 then printf what [] ;;; io_exit (-1) else io_ret tt.

Definition Connect (sockfd : Z) (addr : list Z) : io W unit :=
  rv <- syscall (CConnect sockfd addr) ;; exit_on_error "connect failed" rv.
(** [Inet_pton]: the address is left as it was when the text is not one. *)
Definition Inet_pton `{LibcInet} (src : string) (dst : list Z) : io W (list Z) :=
  let '(rv, v4) := inet_pton src in
  exit_on_error "inet_pton failed" rv ;;; io_ret (if rv =? 1 then v4 else dst).
Definition Socket (domain type protocol : Z) : io W Z :=
  rv <- syscall (CSocket domain type protocol) ;; exit_on_error "socket failed" rv ;;; io_ret rv.
Definition Bind (sockfd : Z) (addr : list Z) : io W unit :=
  rv <- syscall (CBind sockfd addr) ;; exit_on_error "bind failed" rv.
Definition Accept (sockfd : Z) : io W Z :=
  rv <- syscall (CAccept sockfd) ;; exit_on_error "accept failed" rv ;;; io_ret rv.
Definition Listen (sockfd backlog : Z) : io W unit :=
  rv <- syscall (CListen sockfd backlog) ;; exit_on_error "listen failed" rv.
Definition Fork : io W Z :=
  rv <- syscall CFork ;; exit_on_error "fork failed" rv ;;; io_ret rv.

(** [strncat(buf, name, n)] on a block that holds a string. *)
Definition strncat (buf : list Z) (name : list Z) (n : Z) : outcome (list Z) :=
  (s <- c_string buf ;; mem_write buf (zlen s) (ztake n name ++ [0]))%outcome.

Definition ns_path : list Z := bytes_of "/var/run/netns/".
Definition CLONE_NEWNET : Z := 1073741824.

(** [Setns]: [buf] has 128 bytes. *)
Definition Setns (buf name : list Z) : io W unit :=
  buf <- io_mem (mem_write buf 0 (ns_path ++ [0])) ;;
  buf <- io_mem (strncat buf name 64) ;;
  path <- io_mem (c_string buf) ;;
  fd <- syscall (COpen path) ;;
  if fd =? -1 then printf "setns failed" [] ;;; io_exit (-1)
  else
    rv <- syscall (CSetns fd CLONE_NEWNET) ;;
    if rv =? -1 then printf "setns failed" [] ;;; io_exit (-1) else io_ret tt.
End unp.

(** ** echo_client.c, echo_server.c, rattle_client.c *)
Definition MAXLINE : Z := 4096.
Definition SIZE : Z := 146000.
Definition SOMAXCONN : Z := 4096.
Definition SOL_SOCKET : Z := 1.
Definition SO_REUSEADDR : Z := 2.
Definition INADDR_ANY : list Z := [0; 0; 0; 0].

(** [fgets(line, size, fp)] on what is left of the input: at most [size - 1] bytes, up
    to and with the newline. *)
Fixpoint fgets_line (size : nat) (input : list Z) : list Z * list Z :=
  match size, input with
  | S size, c :: input =>
      if c =? 10 then ([c], input)
      else let '(l, rest) := fgets_line size input in (c :: l, rest)
  | _, _ => ([], input)
  end.
Definition fgets (size : Z) (input : list Z) : option (list Z * list Z) :=
  match input with [] => None | _ => Some (fgets_line (Z.to_nat (size - 1)) input) end.

Section programs.
Context {W : Type} `{Posix W} `{LibcInet}.

(** [str_cli]: [fuel] bounds its iterations and those of the calls it makes. The result
    of [writen] is not used. *)
Fixpoint str_cli (fuel : nat) (input : list Z) (sockfd : Z) (sendline recvline : list Z) : io W unit :=
  match fuel with
  | O => io_nofuel
  | S fuel' =>
      match fgets MAXLINE input with
      | None => io_ret tt
      | Some (line, input) =>
          sendline <- io_mem (mem_write sendline 0 (line ++ [0])) ;;
          s <- io_mem (c_string sendline) ;;
          _ <- writen fuel sockfd sendline (zlen s) ;;
          let* (rc, recvline) := readline fuel sockfd recvline MAXLINE in
          if rc =? 0 then
            printf "str_cli: server terminated prematurely" [] ;;; io_exit 1
          else
            out <- io_mem (c_string recvline) ;;
            printf "%s" out ;;;
            str_cli fuel' input sockfd sendline recvline
      end
  end.

Definition echo_client_main (fuel : nat) (argv : list string) (stdin sendline recvline : list Z)
  : io W Z :=
  if negb (zlen argv =? 2) then printf "usage: echo_client <IPaddress>" [] ;;; io_ret (-1)
  else
    sockfd <- Socket AF_INET 1 0 ;;
    sin_addr <- Inet_pton (default EmptyString (argv !! 1%nat)) (replicate 4 0) ;;
    Connect sockfd (sockaddr_in sin_addr 10086) ;;;
    str_cli fuel stdin sockfd sendline recvline ;;;
    io_ret 0.

(** [str_echo]: one turn of its loop, and the loop with the [goto] behind it. *)
Definition str_echo_turn (fuel : nat) (sockfd : Z) (buf : list Z) (acc : Z) : io W (Z * list Z * Z) :=
  let* (n, d) := read sockfd MAXLINE in
  buf <- io_mem (mem_write buf 0 d) ;;
  if 0 <? n then
    _ <- writen fuel sockfd buf n ;;
    let acc := u64 (acc + n) in
    printf "%zu" [acc] ;;;
    io_ret (n, buf, acc)
  else io_ret (n, buf, acc).
Fixpoint str_echo_loop (fuel : nat) (sockfd : Z) (buf : list Z) (acc : Z) : io W unit :=
  match fuel with
  | O => io_nofuel
  | S fuel' =>
      let* (n, buf, acc) := str_echo_turn fuel sockfd buf acc in
      if 0 <? n then str_echo_loop fuel' sockfd buf acc
      else
        printf "===== %zu" [acc] ;;;
        e <- errno ;;
        if (n <? 0) && (e =? EINTR) then str_echo_loop fuel' sockfd buf acc
        else
          (if n <? 0 then printf "str_echo: read error" [] else io_ret tt) ;;;
          _ <- syscall (CClose sockfd) ;; io_ret tt
  end.
Definition str_echo (fuel : nat) (sockfd : Z) (buf : list Z) : io W unit :=
  str_echo_loop fuel sockfd buf 0.

Fixpoint echo_server_loop (fuel : nat) (listenfd : Z) (buf : list Z) : io W Z :=
  match fuel with
  | O => io_nofuel
  | S fuel' =>
      connfd <- Accept listenfd ;;
      printf "new connection" [] ;;;
      str_echo fuel connfd buf ;;;
      echo_server_loop fuel' listenfd buf
  end.
Definition echo_server_main (fuel : nat) (buf : list Z) : io W Z :=
  listenfd <- Socket AF_INET 1 0 ;;
  Bind listenfd (sockaddr_in INADDR_ANY 10086) ;;;
  rv <- syscall (CSetsockopt listenfd SOL_SOCKET SO_REUSEADDR 1) ;;
  (if rv <? 0 then printf "%s" [] else io_ret tt) ;;;
  Listen listenfd SOMAXCONN ;;;
  echo_server_loop fuel listenfd buf.

(** [fill_line]: the letters of the bytes from [i] on. *)
Fixpoint fill_line (n : nat) : io W (list Z) :=
  match n with
  | O => io_ret []
  | S n => r <- syscall CRand ;; l <- fill_line n ;; io_ret (97 + Z.rem r 26 :: l)
  end.
Fixpoint cmp_line (i : Z) (sendline recvline : list Z) : io W unit :=
  match sendline, recvline with
  | s :: sendline, r :: recvline =>
      if negb (s =? r) then
        printf "diff at [%d]" [i] ;;; printf "send: %d, receive %d" [s; r]
      else cmp_line (i + 1) sendline recvline
  | _, _ => io_ret tt
  end.

(** The measured time and rate, which are doubles, are not computed. *)
Definition rattle_client_main (fuel : nat) (argv : list string) (recvline : list Z) : io W Z :=
  if negb (zlen argv =? 2) then printf "usage: tcpcli <IPaddress>" [] ;;; io_ret (-1)
  else
    sockfd <- Socket AF_INET 1 0 ;;
    sin_addr <- Inet_pton (default EmptyString (argv !! 1%nat)) (replicate 4 0) ;;
    Connect sockfd (sockaddr_in sin_addr 10086) ;;;
    sendline <- fill_line (Z.to_nat SIZE) ;;
    printf "sending ..." [] ;;;
    rv <- writen fuel sockfd sendline SIZE ;;
    (if rv <? 0 then printf "writen error" [] else io_ret tt) ;;;
    printf "receiving..." [] ;;;
    let* (rv, recvline) := readn fuel sockfd recvline SIZE in
    (if negb (rv =? SIZE) then printf "readn error" [] else io_ret tt) ;;;
    printf "%.2lf KB/s" [] ;;;
    cmp_line 0 sendline recvline ;;;
    io_ret 0.
End programs.

(** ** setns.c *)
Section setns.
Context {W : Type} `{Posix W}.

Definition starts_with (pre str : list Z) : bool :=
  if zlen str <? zlen pre then false else bool_decide (pre = ztake (zlen pre) str).

Fixpoint wrerr_loop (fuel : nat) (p : list Z) : io W unit :=
  match fuel with
  | O => io_nofuel
  | S fuel =>
      if 0 <? zlen p then
        n <- write 2 p ;;
        if 0 <? n then wrerr_loop fuel (zdrop n p)
        else if negb (n =? -1) then io_ret tt
        else e <- errno ;; if negb (e =? EINTR) then io_ret tt else wrerr_loop fuel p
      else io_ret tt
  end.
Definition wrerr (fuel : nat) (p : option (list Z)) : io W unit :=
  match p with None => io_ret tt | Some p => wrerr_loop fuel p end.

(** The loop that removes the first argument: [argv[i] = argv[i + 1]]. *)
Fixpoint shift_args (n : nat) (i argc : Z) (argv : list (list Z)) : list (list Z) :=
  match n with
  | O => argv
  | S n =>
      if i + 1 <? argc then
        match argv !! Z.to_nat (i + 1) with
        | Some a => shift_args n (i + 1) argc (<[Z.to_nat i := a]> argv)
        | None => argv
        end
      else argv
  end.

(** [__setns_main]: [argc_loc] is the word eight bytes below [argv]; the arguments and
    that word, as they are afterwards. *)
Definition setns_fail (argc_loc : Z) (argv : list (list Z)) : io W (Z * Z * list (list Z)) :=
  e <- errno ;;
  (if negb (e =? 0) then printf "setns failed" [] else io_ret tt) ;;;
  printf "fall back to default network setting" [] ;;;
  io_ret (0, argc_loc, argv).
Definition setns_main (argc argc_loc : Z) (argv : list (list Z)) (buf : list Z)
  : io W (Z * Z * list (list Z)) :=
  put_errno 0 ;;;
  if negb (argc =? argc_loc) then setns_fail argc_loc argv
  else if argc <? 2 then setns_fail argc_loc argv
  else
    match argv !! 1%nat with
    | None => io_fault
    | Some arg =>
        if negb (starts_with (bytes_of "ns") arg) then setns_fail argc_loc argv
        else
          buf <- io_mem (mem_write buf 0 (ns_path ++ [0])) ;;
          buf <- io_mem (strncat buf arg 64) ;;
          path <- io_mem (c_string buf) ;;
          fd <- syscall (COpen path) ;;
          if fd =? -1 then setns_fail argc_loc argv
          else
            rv <- syscall (CSetns fd CLONE_NEWNET) ;;
            if rv =? -1 then setns_fail argc_loc argv
            else
              printf "network namespace hijack succeeds! (with %s)" arg ;;;
              io_ret (0, argc - 1, shift_args (Z.to_nat argc) 1 argc argv)
    end.
End setns.

(** ** wrap_null.c: the calls of the C library in the unit tests *)
Definition null_real_socket (domain type protocol : Z) : Z := -2.
Definition null_real_bind (socket : Z) (address : list Z) (address_len : Z) : Z := -2.
Definition null_real_listen (socket backlog : Z) : Z := -2.
Definition null_real_connect (socket : Z) (address : list Z) (address_len : Z) : Z := -2.
Definition null_real_accept (socket : Z) : Z := -2.
Definition null_real_read (fildes nbyte : Z) : Z := -2.
Definition null_real_write (fildes : Z) (buf : list Z) (nbyte : Z) : Z := -2.
Definition null_real_close (fildes : Z) : Z := -2.
Definition null_real_getaddrinfo (node service : string) : Z := -2.

(** ** [readn] and [writen] on byte streams *)
Section streams.
Context {W : Type} `{Posix W} (fd : Z).

Lemma readn_loop_spec `{!ByteSource W fd} fuel buff n nleft w :
  0 <= nleft <= n -> n <= zlen buff -> n < 2147483648 -> src_ok w ->
  (Z.to_nat nleft + src_delay w < fuel)%nat ->
  let k := Z.min nleft (zlen (src_stream w)) in
  let ptr := n - nleft in
  exists w',
    readn_loop fuel fd buff n nleft ptr w =
      (Done (ptr + k, ztake ptr buff ++ ztake k (src_stream w) ++ zdrop (ptr + k) buff), w') /\
    src_ok w' /\ src_stream w' = zdrop k (src_stream w).
Proof.
  revert buff nleft w. induction fuel as [|fuel IH]; intros buff nleft w Hl Hn Hb Hok Hf; [lia|].
  cbn [readn_loop]. destruct (Z.ltb_spec 0 nleft) as [Hpos|Hz].
  2: { assert (nleft = 0) as -> by lia. exists w. pose proof (zlen_nonneg (src_stream w)).
       replace (Z.min 0 (zlen (src_stream w))) with 0 by lia.
       rewrite Z.sub_0_r, Z.add_0_r, (ztake_0 0), (zdrop_0 0) by lia.
       cbn [app]. rewrite ztake_zdrop, ssize_small by lia. done. }
  pose proof (src_read nleft w Hpos Hok) as Hr.
  destruct (sys_read fd nleft w) as [[r d] w1] eqn:Er. rewrite (bind_read _ _ _ _ _ _ _ Er).
  destruct Hr as [Hok1 [(-> & -> & He & Hs & Hd)|(-> & Hle & Hs & Hnil & Hd)]].
  - rewrite (bind_mem _ _ _ buff).
    2: { rewrite mem_write_ok; change (@zlen Z []) with 0; [|lia..].
         cbn [app]. by rewrite Z.add_0_r, ztake_zdrop. }
    change (s32 (-1)) with (-1). cbn [Z.eqb]. rewrite bind_errno, He, Z.eqb_refl.
    cbn [Z.ltb Z.compare negb andb]. rewrite Z.sub_0_r, Z.add_0_r. unwrap.
    rewrite <- Hs. apply IH; lia || done.
  - pose proof (zlen_nonneg (src_stream w1)). pose proof (zlen_nonneg d).
    rewrite (bind_mem _ _ _ _ (mem_write_ok buff (n - nleft) d ltac:(lia) ltac:(lia))).
    rewrite s32_small by lia. destruct (Z.eqb_spec (zlen d) 0) as [Hd0|Hd0].
    + apply zlen_zero in Hd0. subst d. specialize (Hnil eq_refl).
      exists w1. rewrite Hnil in *. change (@zlen Z []) with 0. replace (Z.min nleft 0) with 0 by lia.
      rewrite !Z.add_0_r, !(ztake_0 0 []) by lia. unwrap. unfold io_ret. rewrite ssize_small by lia.
      by destruct (src_stream w1).
    + rewrite bind_errno. destruct (Z.ltb_spec (zlen d) 0); [lia|]. cbn [andb]. unwrap.
      set (buff' := ztake (n - nleft) buff ++ d ++ zdrop (n - nleft + zlen d) buff).
      replace (n - nleft + zlen d) with (n - (nleft - zlen d)) by lia.
      assert (zlen buff' = zlen buff) as Hbl.
      { unfold buff'. rewrite !zlen_app, zlen_take, zlen_drop. lia. }
      destruct (IH buff' (nleft - zlen d) w1) as (w' & E & Hok' & Hs');
        [lia|lia|lia|done|lia|]. exists w'. rewrite Hs, zlen_app. rewrite E.
      set (k1 := Z.min (nleft - zlen d) (zlen (src_stream w1))) in *.
      replace (Z.min nleft (zlen d + zlen (src_stream w1))) with (zlen d + k1) by lia.
      split; [|split; [done|]].
      * f_equal. f_equal. f_equal; [lia|].
        pose proof (store_twice buff d (ztake k1 (src_stream w1)) (n - nleft) ltac:(lia) ltac:(lia)) as E2.
        cbn zeta in E2. fold buff' in E2. rewrite zlen_take in E2. replace (Z.max 0 _) with k1 in E2 by lia.
        replace (n - (nleft - zlen d)) with (n - nleft + zlen d) by lia.
        rewrite E2, ztake_app, (ztake_all _ d), Z.add_assoc by lia. repeat f_equal. lia.
      * rewrite Hs', zdrop_app, (zdrop_all _ d) by lia. cbn [app]. f_equal. lia.
Qed.

(** [I] is whatever the calls of [write] leave alone. *)
Lemma writen_loop_spec `{!ByteSink W fd} `{!CalmSink W fd} (I : W -> Prop) fuel buff n nleft w :
  (forall d v r v', d <> [] -> sys_write fd d v = (r, v') -> I v -> I v') -> I w ->
  0 <= nleft <= n -> n <= zlen buff -> n < 2147483648 -> snk_ok w -> snk_calm w ->
  (Z.to_nat nleft < fuel)%nat ->
  exists w',
    writen_loop fuel fd buff n nleft (n - nleft) w = (Done n, w') /\
    snk_ok w' /\ snk_calm w' /\ I w' /\
    snk_stream w' = snk_stream w ++ ztake nleft (zdrop (n - nleft) buff).
Proof.
  intros HI. revert nleft w. induction fuel as [|fuel IH]; intros nleft w Hw0 Hl Hn Hb Hok Hc Hf; [lia|].
  cbn [writen_loop]. destruct (Z.ltb_spec 0 nleft) as [Hpos|Hz].
  2: { assert (nleft = 0) as -> by lia. exists w.
       rewrite (ztake_0 0), app_nil_r by lia. unfold io_ret. by rewrite ssize_small by lia. }
  rewrite (bind_mem _ _ _ _ (mem_read_ok buff (n - nleft) nleft ltac:(lia) ltac:(lia) ltac:(lia))).
  set (d := ztake nleft (zdrop (n - nleft) buff)).
  assert (zlen d = nleft) as Hd by (unfold d; rewrite zlen_take, zlen_drop; lia).
  assert (d <> []) as Hd0 by (intros Hz; rewrite Hz in Hd; change (@zlen Z []) with 0 in Hd; lia).
  pose proof (snk_write d w Hd0 Hok) as Hw. pose proof (snk_calm_write d w Hd0 Hok Hc) as Hw'.
  destruct (sys_write fd d w) as [r w1] eqn:Ew. rewrite (bind_write _ _ _ _ _ _ Ew).
  destruct Hw' as [Hr1 Hc1]. destruct Hw as [Hok1 [(-> & _)|(Hr & Hs & _)]]; [lia|].
  rewrite bind_errno, s32_small by lia.
  destruct (Z.eqb_spec r 0); [lia|]. destruct (Z.ltb_spec r 0); [lia|]. cbn [orb andb]. unwrap.
  replace (n - nleft + r) with (n - (nleft - r)) by lia.
  destruct (IH (nleft - r) w1) as (w' & E & Hok' & Hc' & HI' & Hs'); [by eapply HI|lia|done|done|done|done|lia|].
  exists w'. split; [exact E|]. split; [done|]. split; [done|]. split; [done|].
  rewrite Hs', Hs, <- app_assoc. f_equal. rewrite <- (ztake_zdrop r d) at 2. f_equal. unfold d.
  rewrite zdrop_ztake, zdrop_zdrop by lia. f_equal. f_equal. lia.
Qed.

Lemma writen_spec `{!ByteSink W fd} `{!CalmSink W fd} (I : W -> Prop) fuel buff n w :
  (forall d v r v', d <> [] -> sys_write fd d v = (r, v') -> I v -> I v') -> I w ->
  0 <= n <= zlen buff -> n < 2147483648 -> snk_ok w -> snk_calm w -> (Z.to_nat n < fuel)%nat ->
  exists w', writen fuel fd buff n w = (Done n, w') /\ snk_ok w' /\ snk_calm w' /\ I w' /\
    snk_stream w' = snk_stream w ++ ztake n buff.
Proof.
  intros HI Hw Hn Hb Hok Hc Hf.
  destruct (writen_loop_spec I fuel buff n n w) as (w' & E & H1 & H2 & H3 & Hs); [done|done|lia|lia|done..|].
  exists w'. unfold writen. rewrite Z.sub_diag in E, Hs. by rewrite (zdrop_0 0 buff) in Hs by lia.
Qed.

(** [readn] reads exactly the bytes that are asked for, whatever the pieces they
    arrive in and however often the call is interrupted: it stores the first [n] bytes
    of the stream, or all of them when the stream ends before, leaves the rest of the
    buffer and of the stream alone, and returns how many it stored. *)
Theorem readn_reads_stream `{!ByteSource W fd} fuel buff n w :
  0 <= n <= zlen buff -> n < 2147483648 -> src_ok w -> (Z.to_nat n + src_delay w < fuel)%nat ->
  let k := Z.min n (zlen (src_stream w)) in
  exists w',
    readn fuel fd buff n w = (Done (k, ztake k (src_stream w) ++ zdrop k buff), w') /\
    src_ok w' /\ src_stream w' = zdrop k (src_stream w).
Proof.
  intros Hn Hb Hok Hf. destruct (readn_loop_spec fuel buff n n w) as (w' & E & Hr); [lia|lia|done..|].
  exists w'. split; [|exact Hr]. unfold readn. rewrite Z.sub_diag, Z.add_0_l in E.
  by rewrite (ztake_0 0 buff) in E by lia.
Qed.

(** [writen] sends the whole buffer, in order, when no call is interrupted. When
    the first call is, it adds one byte to the count, steps the pointer back by one and
    reads in front of the buffer. *)
Theorem writen_writes_stream `{!ByteSink W fd} `{!CalmSink W fd} fuel buff n w :
  0 < n <= zlen buff -> n < 2147483648 -> snk_ok w -> (Z.to_nat n < fuel)%nat ->
  (snk_calm w ->
   exists w', writen fuel fd buff n w = (Done n, w') /\
     snk_ok w' /\ snk_stream w' = snk_stream w ++ ztake n buff) /\
  (forall w', sys_write fd (ztake n buff) w = (-1, w') -> sys_errno w' = EINTR ->
   writen fuel fd buff n w = (Fault, w')).
Proof.
  intros Hn Hb Hok Hf. unfold writen. split.
  - intros Hc. destruct (writen_spec (fun _ => True) fuel buff n w) as (w' & E & Hr & _ & _ & Hs); [done|done|lia|done..|].
    by exists w'.
  - intros w' E He. destruct fuel as [|[|fuel]]; [lia|lia|]. cbn [writen_loop].
    destruct (Z.ltb_spec 0 n); [|lia].
    assert (mem_read buff 0 n = Ret (ztake n buff)) as Hr
      by (rewrite mem_read_ok, (zdrop_0 0) by lia; done).
    rewrite (bind_mem _ _ _ _ Hr), (bind_write _ _ _ _ _ _ E), bind_errno, He, Z.eqb_refl.
    change (s32 (-1)) with (-1). cbn [Z.eqb Z.ltb Z.compare orb andb negb].
    replace (n - -1) with (n + 1) by lia. unwrap. destruct (Z.ltb_spec 0 (n + 1)); [|lia].
    by rewrite bind_fault.
Qed.
End streams.

Lemma readn_reads_stream_witness :
  exists w, readn 20 3 (replicate 4 0) 4 (with_reads [Chunk [1; 2]; ReadError EINTR; Chunk [3; 4; 5]])
    = (Done (4, [1; 2; 3; 4]), w) /\ sc_reads w = [Chunk [5]].
Proof.
  destruct (readn_reads_stream 3 20 (replicate 4 0) 4
              (with_reads [Chunk [1; 2]; ReadError EINTR; Chunk [3; 4; 5]])) as (w & E & _ & Hs).
  - split; done.
  - done.
  - repeat constructor; done.
  - cbn. lia.
  - exists w. split; [exact E|]. vm_compute in E. by injection E as <-.
Defined.

Lemma writen_writes_stream_witness :
  (exists w, writen 20 3 [1; 2; 3; 4] 4 (with_writes [Accepts 1; Accepts 2]) = (Done 4, w) /\
     sc_sent w = [1; 2; 3; 4]) /\
  (exists w, writen 20 3 [1; 2; 3; 4] 4 (with_writes [WriteError EINTR]) = (Fault, w)).
Proof.
  split.
  - destruct (writen_writes_stream 3 20 [1; 2; 3; 4] 4 (with_writes [Accepts 1; Accepts 2]))
      as [Hc _]; [split; done|done|repeat constructor|cbn; lia|].
    destruct Hc as (w & E & _ & Hs); [repeat constructor|]. exists w. split; [exact E|exact Hs].
  - destruct (writen_writes_stream 3 20 [1; 2; 3; 4] 4 (with_writes [WriteError EINTR]))
      as [_ Hi]; [split; done|done|repeat constructor; done|cbn; lia|].
    eexists. eapply Hi; reflexivity.
Defined.

(** ** The arguments after [__setns_main] *)
Lemma shift_args_spec n i argc argv :
  1 <= i -> argc = zlen argv -> i + 1 <= argc -> argc - i <= Z.of_nat n ->
  ztake (argc - 1) (shift_args n i argc argv) = ztake i argv ++ zdrop (i + 1) argv.
Proof.
  revert i argv. induction n as [|n IH]; intros i argv Hi -> Hle Hn; [lia|]. cbn [shift_args].
  destruct (Z.ltb_spec (i + 1) (zlen argv)) as [Hlt|Hge].
  - destruct (lookup_lt_is_Some_2 argv (Z.to_nat (i + 1))) as [a Ha]; [unfold zlen in *; lia|].
    rewrite Ha. assert (zlen (<[Z.to_nat i:=a]> argv) = zlen argv) as Hz
      by (unfold zlen; by rewrite length_insert).
    rewrite (IH (i + 1)) by (done || lia).
    unfold ztake, zdrop. replace (Z.to_nat (i + 1)) with (S (Z.to_nat i)) in * by lia.
    replace (Z.to_nat (i + 1 + 1)) with (S (S (Z.to_nat i))) by lia.
    rewrite (take_S_r _ _ a) by (apply list_lookup_insert_eq; unfold zlen in *; lia).
    rewrite take_insert_ge, drop_insert_lt by lia. rewrite <- app_assoc. f_equal.
    by rewrite (drop_S argv a (S (Z.to_nat i))).
  - rewrite (zdrop_all (i + 1)), app_nil_r by lia. f_equal. lia.
Qed.

(** The path of the namespace: no store leaves the buffer, however long the name is. *)
Lemma netns_path buf name :
  Forall (fun c => c <> 0) name -> 80 <= zlen buf ->
  exists buf' buf'',
    mem_write buf 0 (ns_path ++ [0]) = Ret buf' /\ strncat buf' name 64 = Ret buf'' /\
    c_string buf'' = Ret (ns_path ++ ztake 64 name).
Proof.
  intros Hn Hb. assert (Forall (fun c => c <> 0) ns_path) as Hp by (by repeat constructor).
  assert (zlen ns_path = 15) as Hl by done.
  exists (ns_path ++ [0] ++ zdrop 16 buf),
    (ns_path ++ (ztake 64 name ++ [0]) ++ zdrop (16 + zlen (ztake 64 name)) buf).
  assert (zlen (ztake 64 name) <= 64) as H64 by (rewrite zlen_take; lia).
  pose proof (zlen_nonneg (ztake 64 name)).
  assert (zlen (ns_path ++ [0] ++ zdrop 16 buf) = zlen buf) as Hz
    by (rewrite !zlen_app, zlen_cons, zlen_drop, Hl; change (@zlen Z []) with 0; lia).
  split; [|split].
  - rewrite mem_write_ok; rewrite ?zlen_app, ?Hl; change (zlen [0]) with 1; [|lia..].
    rewrite (ztake_0 0) by lia. cbn [app]. by rewrite <- app_assoc.
  - unfold strncat. change ([0] ++ zdrop 16 buf) with (0 :: zdrop 16 buf) in *.
    rewrite c_string_app by done. cbn [obind].
    rewrite mem_write_ok; rewrite ?Hz, ?zlen_app, ?Hl; change (zlen [0]) with 1; [|lia..].
    rewrite ztake_app_length by done. f_equal. f_equal. f_equal.
    change (0 :: zdrop 16 buf) with ([0] ++ zdrop 16 buf).
    rewrite app_assoc, zdrop_app, (zdrop_all _ (ns_path ++ [0]))
      by (rewrite zlen_app, Hl; change (zlen [0]) with 1; lia).
    cbn [app]. rewrite zdrop_zdrop; [|rewrite zlen_app, Hl; change (zlen [0]) with 1; lia|lia].
    f_equal. rewrite zlen_app, Hl. change (zlen [0]) with 1. lia.
  - rewrite <- (app_assoc (ztake 64 name)), app_assoc. cbn [app]. apply c_string_app.
    apply Forall_app. split; [done|]. by apply Forall_take.
Qed.

(** A program that is started as [prog nsX args] joins the namespace
    /var/run/netns/nsX, of whose name at most 64 bytes are used, and sees the arguments
    [prog args]; when the namespace cannot be opened or joined it goes on with the
    arguments it was given. The path never leaves its buffer of 96 bytes. *)
Theorem setns_main_arguments {W : Type} `{Posix W} (prog ns : list Z) (args : list (list Z))
  (buf : list Z) (w : W) :
  starts_with (bytes_of "ns") ns = true -> Forall (fun c => c <> 0) ns -> zlen buf = 96 ->
  let argv := prog :: ns :: args in
  let '(fd, w1) := sys_call (COpen (ns_path ++ ztake 64 ns)) (sys_put_errno 0 w) in
  let '(rv, w2) := sys_call (CSetns fd CLONE_NEWNET) w1 in
  exists argc' argv' w',
    setns_main (zlen argv) (zlen argv) argv buf w = (Done (0, argc', argv'), w') /\
    if (fd =? -1) || (rv =? -1) then argc' = zlen argv /\ argv' = argv
    else argc' = zlen argv - 1 /\ ztake argc' argv' = prog :: args.
Proof.
  intros Hs Hn Hb argv. destruct (sys_call (COpen _) _) as [fd w1] eqn:E1.
  destruct (sys_call (CSetns fd CLONE_NEWNET) w1) as [rv w2] eqn:E2.
  assert (2 <= zlen argv) as Hl
    by (unfold argv; rewrite !zlen_cons; pose proof (zlen_nonneg args); lia).
  destruct (netns_path buf ns Hn ltac:(lia)) as (b1 & b2 & M1 & M2 & M3).
  assert (Hf : forall x, exists w', setns_fail (zlen argv) argv x = (Done (0, zlen argv, argv), w')).
  { intros x. unfold setns_fail. rewrite bind_errno. destruct (negb _); by eexists. }
  unfold setns_main. rewrite bind_put_errno, Z.eqb_refl. cbn [negb].
  destruct (Z.ltb_spec (zlen argv) 2); [lia|]. cbn [argv lookup list_lookup]. fold argv. rewrite Hs.
  cbn [negb]. rewrite (bind_mem _ _ _ _ M1), (bind_mem _ _ _ _ M2), (bind_mem _ _ _ _ M3),
    (bind_call _ _ _ _ _ E1).
  destruct (Z.eqb_spec fd (-1)); cbn [orb].
  { destruct (Hf w1) as [w' Ew]. by exists (zlen argv), argv, w'. }
  rewrite (bind_call _ _ _ _ _ E2). destruct (Z.eqb_spec rv (-1)).
  { destruct (Hf w2) as [w' Ew]. by exists (zlen argv), argv, w'. }
  rewrite bind_printf. eexists _, _, _. split; [done|]. split; [done|].
  rewrite shift_args_spec by (done || lia). done.
Qed.

Lemma setns_main_arguments_witness :
  exists argv w,
    setns_main 3 3 [[97]; bytes_of "ns1"; [98]] (replicate 96 0)
      (mkScript [] [] [7; 0] [] [] [] 0 (fun _ => false) []) = (Done (0, 2, argv), w) /\
    ztake 2 argv = [[97]; [98]].
Proof.
  pose proof (setns_main_arguments [97] (bytes_of "ns1") [[98]] (replicate 96 0)
    (mkScript [] [] [7; 0] [] [] [] 0 (fun _ => false) []) eq_refl
    ltac:(repeat constructor; done) eq_refl) as Hs.
  destruct Hs as (argc & argv & w & E & -> & Hv). exists argv, w. split; [exact E|exact Hv].
Defined.
