(* ===== verification/EchoPrograms.v ===== *)
(** The programs of src/eval at work together: what echo_server.c sends back, and what
    echo_client.c and rattle_client.c show to their user when the other side of their
    connection is an echo. [Duplex] is what the server needs of its connection,
    [EchoPeer] what the clients need of theirs; [EchoPair] is a world in which the other
    side of the client runs the code of the server. *)

From stdpp Require Import base list numbers strings sets.
From S2P Require Import Prelude Endian IPAddress SocketAddress Posix EvalTools.

Open Scope Z_scope.
Open Scope io_scope.

(** ** The server *)

(** The two directions of a connection do not touch each other, and printing leaves
    [errno] alone. *)
Class Duplex (W : Type) `{Posix W} (fd : Z) `{!ByteSource W fd} `{!ByteSink W fd}
    `{!CalmSink W fd} := {
  dx_read : forall n w r d w', sys_read fd n w = (r, d, w') -> snk_ok w -> snk_calm w ->
    snk_ok w' /\ snk_calm w' /\ snk_stream w' = snk_stream w;
  dx_write : forall d w r w', sys_write fd d w = (r, w') -> src_ok w ->
    src_ok w' /\ src_stream w' = src_stream w /\ src_delay w' = src_delay w;
  dx_errno : forall m w, sys_errno (sys_print m w) = sys_errno w
}.

Section server.
Context {W : Type} `{Posix W} (fd : Z) `{!ByteSource W fd} `{!ByteSink W fd} `{!CalmSink W fd}
  `{!Duplex W fd}.

Definition served (w : W) : Prop := src_ok w /\ snk_ok w /\ snk_calm w.

Lemma served_print m w :
  served w -> served (sys_print m w) /\ src_stream (sys_print m w) = src_stream w /\
  src_delay (sys_print m w) = src_delay w /\ snk_stream (sys_print m w) = snk_stream w.
Proof.
  intros (Hr & Hs & Hc). pose proof (src_print m w Hr). pose proof (snk_print m w Hs).
  pose proof (snk_calm_print m w Hc). unfold served. naive_solver.
Qed.

(** One turn moves a piece of the stream to the other side, or is interrupted. *)
Lemma str_echo_turn_ok fuel buf acc w :
  zlen buf = MAXLINE -> served w ->
  (Nat.min (length (src_stream w)) (Z.to_nat MAXLINE) < fuel)%nat ->
  exists n buf' acc' w',
    str_echo_turn fuel fd buf acc w = (Done (n, buf', acc'), w') /\ zlen buf' = MAXLINE /\ served w' /\
    ((n = -1 /\ sys_errno w' = EINTR /\ src_stream w' = src_stream w /\ snk_stream w' = snk_stream w /\
      (src_delay w' < src_delay w)%nat) \/
     exists d, n = zlen d /\ src_stream w = d ++ src_stream w' /\ snk_stream w' = snk_stream w ++ d /\
      (d = [] -> src_stream w = []) /\ (src_delay w' <= src_delay w)%nat).
Proof.
  intros Hb (Hr & Hs & Hc) Hf. unfold str_echo_turn.
  pose proof (src_read MAXLINE w ltac:(done) Hr) as Hread.
  destruct (sys_read fd MAXLINE w) as [[n d] w1] eqn:E. rewrite (bind_read _ _ _ _ _ _ _ E).
  destruct (dx_read _ _ _ _ _ E Hs Hc) as (Hs1 & Hc1 & Hk1).
  assert (zlen d <= MAXLINE) as Hd.
  { destruct Hread as [_ [(_ & -> & _)|(_ & ? & _)]]; [done|lia]. }
  rewrite (bind_mem _ _ _ _ (mem_write_ok buf 0 d ltac:(lia) ltac:(lia))), (ztake_0 0) by lia.
  cbn [app]. set (buf' := d ++ _).
  assert (zlen buf' = MAXLINE) as Hb'.
  { unfold buf'. rewrite zlen_app, zlen_drop. pose proof (zlen_nonneg d). lia. }
  destruct Hread as [Hr1 [(-> & -> & He & Hst & Hdl)|(-> & _ & Hst & Hnil & Hdl)]].
  { eexists _, _, _, _. split; [reflexivity|]. unfold served. naive_solver. }
  destruct (Z.ltb_spec 0 (zlen d)) as [Hpos|Hz].
  2: { eexists _, _, _, _. split; [reflexivity|]. split; [done|]. split; [by split|]. right. exists d.
       assert (d = []) as -> by (destruct d; [done|rewrite zlen_cons in Hz; pose proof (zlen_nonneg d); lia]).
       by rewrite app_nil_r. }
  destruct (writen_spec fd (fun v => src_ok v /\ src_stream v = src_stream w1 /\ src_delay v = src_delay w1)
              fuel buf' (zlen d) w1) as (w2 & E2 & Hs2 & Hc2 & (Hr2 & Hst2 & Hdl2) & Hk2);
    [|done|lia|by change MAXLINE with 4096 in *; lia|done|done| |].
  { intros e v r v' _ Ew (? & E1 & E2). destruct (dx_write _ _ _ _ Ew) as (? & E3 & E4); [done|]. by rewrite E3, E4. }
  { rewrite Hst, length_app in Hf. change MAXLINE with 4096 in *. unfold zlen in *. lia. }
  rewrite (bind_Done _ _ _ _ _ E2), bind_printf.
  destruct (served_print (mkMessage "%zu" [u64 (acc + zlen d)]) w2) as (Hv & P1 & P2 & P3); [by split|].
  eexists _, _, _, _. split; [reflexivity|]. split; [done|]. split; [done|]. right. exists d.
  rewrite P1, P2, P3, Hst2, Hdl2, Hk2, Hk1. unfold buf'. rewrite ztake_app_length by done. done.
Qed.


End server.

(** ** The clients *)

(** What is written comes back, in order, in pieces of any size: [echo_back] has come
    back already. A call of [read] while something is due may be interrupted, at most
    [echo_delay] times; nothing is said of a [read] while nothing is due, which waits for
    ever. [echo_output] is what the program printed. *)
Class EchoPeer (W : Type) `{Posix W} (fd : Z) `{!ByteSink W fd} `{!CalmSink W fd} := {
  echo_ok : W -> Prop;
  echo_back : W -> list Z;
  echo_delay : W -> nat;
  echo_output : W -> list message;
  echo_sink : forall w, echo_ok w -> snk_ok w /\ snk_calm w;
  echo_write : forall d w r w', d <> [] -> sys_write fd d w = (r, w') -> echo_ok w ->
    echo_ok w' /\ echo_back w' = echo_back w /\ echo_delay w' = echo_delay w /\
    echo_output w' = echo_output w;
  echo_print : forall m w, echo_ok w ->
    let w' := sys_print m w in
    echo_ok w' /\ echo_back w' = echo_back w /\ echo_delay w' = echo_delay w /\
    echo_output w' = echo_output w ++ [m];
  echo_rand : forall w r w', sys_call CRand w = (r, w') -> echo_ok w ->
    echo_ok w' /\ snk_stream w' = snk_stream w /\ echo_back w' = echo_back w /\
    echo_delay w' = echo_delay w /\ echo_output w' = echo_output w;
  echo_read : forall n w due, 0 < n -> echo_ok w -> snk_stream w = echo_back w ++ due -> due <> [] ->
    let '(r, d, w') := sys_read fd n w in
    echo_ok w' /\ snk_stream w' = snk_stream w /\ echo_output w' = echo_output w /\
    ((r = -1 /\ d = [] /\ sys_errno w' = EINTR /\ echo_back w' = echo_back w /\
      (echo_delay w' < echo_delay w)%nat) \/
     (r = zlen d /\ 0 < zlen d <= n /\ d `prefix_of` due /\ echo_back w' = echo_back w ++ d /\
      (echo_delay w' <= echo_delay w)%nat))
}.

Section clients.
Context {W : Type} `{Posix W} (fd : Z) `{!ByteSink W fd} `{!CalmSink W fd} `{!EchoPeer W fd}.

(** The connection owes [due] to the client. *)
Definition owes (due : list Z) (w : W) : Prop := echo_ok w /\ snk_stream w = echo_back w ++ due.
(** Nothing was printed on the way from [w] to [w'], and no interruption was added. *)
Definition silent (w w' : W) : Prop :=
  echo_output w' = echo_output w /\ (echo_delay w' <= echo_delay w)%nat.

Lemma owes_print m due w :
  owes due w -> owes due (sys_print m w) /\ echo_delay (sys_print m w) = echo_delay w /\
  echo_output (sys_print m w) = echo_output w ++ [m].
Proof.
  intros [Hok Hs]. destruct (echo_print m w Hok) as (Hok' & Hb & Hd & Ho).
  destruct (snk_print m w) as (_ & Hs' & _); [by apply echo_sink|].
  unfold owes. by rewrite Hs', Hb.
Qed.

Lemma owes_writen fuel buff n due w :
  0 <= n <= zlen buff -> n < 2147483648 -> owes due w -> (Z.to_nat n < fuel)%nat ->
  exists w', writen fuel fd buff n w = (Done n, w') /\ owes (due ++ ztake n buff) w' /\ silent w w'.
Proof.
  intros Hn Hb [Hok Hs] Hf. destruct (echo_sink _ Hok) as [Hk Hc].
  destruct (writen_spec fd (fun v => echo_ok v /\ echo_back v = echo_back w /\ echo_delay v = echo_delay w /\
      echo_output v = echo_output w) fuel buff n w) as (w' & E & _ & _ & (Hok' & H1 & H2 & H3) & Hs');
    [|done..|].
  { intros d v r v' Hd Ew (Hv & E1 & E2 & E3). destruct (echo_write _ _ _ _ Hd Ew Hv) as (? & E4 & E5 & E6).
    by rewrite E4, E5, E6. }
  exists w'. split; [done|]. unfold owes, silent. rewrite Hs', Hs, H1, H2, H3, app_assoc. auto.
Qed.

(** A call of [read] while [x :: due] is owed. *)
Lemma owes_read n x due w :
  0 < n -> owes (x :: due) w ->
  exists r d w', sys_read fd n w = (r, d, w') /\ echo_output w' = echo_output w /\
    ((r = -1 /\ d = [] /\ sys_errno w' = EINTR /\ owes (x :: due) w' /\ (echo_delay w' < echo_delay w)%nat) \/
     (exists due', r = zlen d /\ 0 < zlen d <= n /\ x :: due = d ++ due' /\ owes due' w' /\
      (echo_delay w' <= echo_delay w)%nat)).
Proof.
  intros Hn [Hok Hs]. pose proof (echo_read n w (x :: due) Hn Hok Hs ltac:(done)) as Hr.
  destruct (sys_read fd n w) as [[r d] w']. destruct Hr as (Hok' & Hs' & Ho & Hr).
  exists r, d, w'. split; [done|]. split; [done|].
  destruct Hr as [(-> & -> & He & Hb & Hd)|(-> & Hl & [due' Hp] & Hb & Hd)]; [left|right].
  - unfold owes. by rewrite Hs', Hb.
  - exists due'. split; [done|]. split; [done|]. split; [done|]. split; [|done].
    split; [done|]. by rewrite Hs', Hb, Hs, Hp, app_assoc.
Qed.

Lemma mem_write_one (pre post : list Z) x c :
  mem_write (pre ++ x :: post) (zlen pre) [c] = Ret (pre ++ c :: post).
Proof.
  pose proof (zlen_nonneg pre). pose proof (zlen_nonneg post).
  rewrite mem_write_ok; [|done|rewrite zlen_app, !zlen_cons, zlen_nil; lia].
  rewrite ztake_app_length by done. do 3 f_equal.
  rewrite (cons_middle x), app_assoc, zdrop_app_length; [done|]. by rewrite zlen_app.
Qed.

(** What [readline] takes for a line: up to a newline, or [MAXLINE - 1] bytes; [k] bytes
    of it have been stored. *)
Definition a_line (k : Z) (l : list Z) : Prop :=
  (exists b, l = b ++ [10] /\ (10 ∉ b) /\ k + zlen l < MAXLINE) \/ ((10 ∉ l) /\ k + zlen l = MAXLINE - 1).

Lemma a_line_cons k c l : a_line k (c :: l) -> c <> 10 -> a_line (k + 1) l.
Proof.
  unfold a_line. rewrite zlen_cons. intros [([|c' b] & E & Hn & Hk)|[Hn Hk]] Hc; simplify_eq/=.
  - left. exists b. apply not_elem_of_cons in Hn as [_ Hn]. split; [done|]. split; [done|lia].
  - right. apply not_elem_of_cons in Hn as [_ Hn]. split; [done|lia].
Qed.
Lemma a_line_newline k l : a_line k (10 :: l) -> l = [] /\ k + 1 < MAXLINE.
Proof.
  unfold a_line. rewrite zlen_cons. intros [([|c b] & E & Hn & Hk)|[Hn Hk]]; simplify_eq/=.
  - split; [done|]. rewrite zlen_nil in Hk. lia.
  - by apply not_elem_of_cons in Hn as [? _].
  - by apply not_elem_of_cons in Hn as [? _].
Qed.
Lemma a_line_nil k : a_line k [] -> k = MAXLINE - 1.
Proof. intros [([|] & ? & _)|[_ Hk]]; [done|done|]. rewrite zlen_nil in Hk. lia. Qed.
Lemma a_line_length k l : a_line k l -> k + zlen l < MAXLINE.
Proof. intros [(b & _ & _ & ?)|[_ ?]]; lia. Qed.

Lemma readline_loop_owed fuel l : forall pre post rest w,
  zlen pre + zlen post = MAXLINE -> a_line (zlen pre) l -> owes (l ++ rest) w ->
  (length l + echo_delay w < fuel)%nat ->
  exists rc tail w',
    readline_loop fuel fd (pre ++ post) MAXLINE (zlen pre + 1) (zlen pre) w
      = (Done (rc, pre ++ l ++ 0 :: tail), w') /\
    0 < rc /\ zlen pre + zlen l + 1 + zlen tail = MAXLINE /\ owes rest w' /\ silent w w'.
Proof.
  revert l. induction fuel as [|fuel IH]; intros l pre post rest w Hz Hl Ho Hf; [lia|].
  cbn [readline_loop]. pose proof (a_line_length _ _ Hl) as Hlen. pose proof (zlen_nonneg l).
  pose proof (zlen_nonneg pre). destruct post as [|x post]; [rewrite zlen_nil in Hz; lia|].
  rewrite zlen_cons in Hz. destruct l as [|c l].
  { apply a_line_nil in Hl. destruct (Z.ltb_spec (zlen pre + 1) MAXLINE); [lia|].
    rewrite (bind_mem _ _ _ _ (mem_write_one _ _ _ _)). eexists _, post, w. split; [done|].
    change (zlen (@nil Z)) with 0. unfold silent. repeat split; [lia|lia|apply Ho..|lia]. }
  rewrite zlen_cons in *. pose proof (zlen_nonneg l).
  destruct (Z.ltb_spec (zlen pre + 1) MAXLINE); [|lia].
  destruct (owes_read 1 c (l ++ rest) w ltac:(lia) Ho) as (r & d & w1 & E & Hs1 & Hr).
  rewrite (bind_read _ _ _ _ _ _ _ E).
  destruct Hr as [(-> & -> & He & Ho1 & Hd)|(due' & -> & Hd1 & Hd2 & Ho1 & Hd)].
  { cbn [Z.eqb]. rewrite bind_errno, He, Z.eqb_refl.
    destruct (IH (c :: l) pre (x :: post) rest w1) as (rc & tl & w2 & E2 & Hrc & Ht & Ho2 & Hs2 & Hd2);
      [rewrite zlen_cons; lia|done|done|lia|].
    exists rc, tl, w2. split; [exact E2|]. rewrite zlen_cons in Ht. unfold silent.
    rewrite Hs2, Hs1. repeat split; [done|lia|apply Ho2..|lia]. }
  destruct d as [|c' [|? d]]; [by destruct Hd1| |rewrite !zlen_cons in Hd1; pose proof (zlen_nonneg d); lia].
  cbn [app] in Hd2. injection Hd2 as <- <-. change (zlen [c] =? 1) with true. cbn iota.
  rewrite (bind_mem _ _ _ _ (mem_write_one _ _ _ _)). rewrite (cons_middle c pre post), app_assoc.
  assert (zlen (pre ++ [c]) = zlen pre + 1) as Hz1 by (by rewrite zlen_app).
  rewrite <- Hz1. destruct (Z.eqb_spec c 10) as [->|Hc].
  - apply a_line_newline in Hl as [-> Hk]. destruct post as [|y post]; [rewrite zlen_nil in Hz; lia|].
    rewrite (bind_mem _ _ _ _ (mem_write_one _ _ _ _)). rewrite zlen_cons in Hz.
    eexists _, post, w1. rewrite <- app_assoc. split; [done|]. change (zlen (@nil Z)) with 0. unfold silent.
    repeat split; [lia|lia|apply Ho1..|done|lia].
  - destruct (IH l (pre ++ [c]) post rest w1) as (rc & tl & w2 & E2 & Hrc & Ht & Ho2 & Hs2 & Hd2);
      [lia|rewrite Hz1; by eapply a_line_cons|done|cbn in Hf; lia|].
    exists rc, tl, w2. rewrite E2, <- app_assoc. split; [done|]. unfold silent.
    rewrite Hs2, Hs1. repeat split; [done|lia|apply Ho2..|lia].
Qed.

(** [fgets] cuts an input whose last line is complete into such lines. *)
Definition complete (input : list Z) : Prop := input = [] \/ last input = Some 10.

Lemma fgets_line_spec size input l rest :
  (0 < size)%nat -> last input = Some 10 -> fgets_line size input = (l, rest) ->
  input = l ++ rest /\ l <> [] /\ complete rest /\
  ((exists b, l = b ++ [10] /\ (10 ∉ b) /\ (length l <= size)%nat) \/ ((10 ∉ l) /\ length l = size)).
Proof.
  revert input l rest. induction size as [|size IH]; intros input l rest Hs Hi E; [lia|].
  destruct input as [|c input]; [done|]. cbn [fgets_line] in E.
  destruct (Z.eqb_spec c 10) as [->|Hc].
  { injection E as <- <-. split; [done|]. split; [done|]. split.
    - destruct input as [|y input]; [by left|by right].
    - left. exists []. split; [done|]. split; [set_solver|cbn; lia]. }
  destruct (fgets_line size input) as [l' rest'] eqn:E'. injection E as <- <-.
  destruct input as [|y input]; [by injection Hi as ->|]. change (last (y :: input) = Some 10) in Hi.
  destruct size as [|size].
  { cbn in E'. injection E' as <- <-. split; [done|]. split; [done|]. split; [by right|].
    right. split; [set_solver|done]. }
  destruct (IH (y :: input) l' rest' ltac:(lia) Hi E') as (-> & _ & Hc' & Hl).
  split; [done|]. split; [done|]. split; [done|]. destruct Hl as [(b & -> & Hb & Hl)|[Hb Hl]]; [left|right].
  - exists (c :: b). split; [done|]. split; [set_solver|]. cbn. lia.
  - split; [set_solver|]. cbn. lia.
Qed.

Lemma fgets_complete input :
  complete input ->
  match fgets MAXLINE input with
  | None => input = []
  | Some (l, rest) => input = l ++ rest /\ l <> [] /\ complete rest /\ a_line 0 l
  end.
Proof.
  intros [->|Hl]; [done|]. destruct input as [|c input]; [done|]. unfold fgets.
  destruct (fgets_line _ _) as [l rest] eqn:E.
  apply fgets_line_spec in E as (-> & Hn & Hc & Hb); [|change MAXLINE with 4096; lia|done].
  split; [done|]. split; [done|]. split; [done|]. unfold a_line, zlen. change MAXLINE with 4096 in *.
  destruct Hb as [(b & -> & ? & ?)|[? ?]]; [left; exists b|right]; repeat split; done || lia.
Qed.

(** [str_cli] shows every line of its input, cut at [MAXLINE - 1] bytes, as it came back. *)
Lemma str_cli_owed `{LibcInet} fuel input : forall sendline recvline w,
  complete input -> Forall (fun c => c <> 0) input ->
  zlen sendline = MAXLINE -> zlen recvline = MAXLINE -> owes [] w ->
  (length input + echo_delay w < fuel)%nat ->
  exists lines w',
    str_cli fuel input fd sendline recvline w = (Done tt, w') /\ owes [] w' /\
    input = mjoin lines /\ Forall (a_line 0) lines /\
    echo_output w' = echo_output w ++ (mkMessage "%s" <$> lines).
Proof.
  revert input. induction fuel as [|fuel IH]; intros input sendline recvline w Hc Hz Hs Hr Ho Hf; [lia|].
  cbn [str_cli]. apply fgets_complete in Hc. destruct (fgets MAXLINE input) as [[l rest]|].
  2: { subst. exists [], w. by rewrite app_nil_r. }
  destruct Hc as (-> & Hn & Hc & Hl). apply Forall_app in Hz as [Hz1 Hz2].
  pose proof (a_line_length _ _ Hl) as Hlen. rewrite length_app in Hf.
  assert (0 < length l)%nat as Hpos by (destruct l; [done|cbn; lia]).
  rewrite (bind_mem _ _ _ (l ++ 0 :: zdrop (zlen l + 1) sendline)).
  2: { rewrite mem_write_ok; rewrite ?zlen_app; change (zlen [0]) with 1; [|lia..].
       by rewrite (ztake_0 0), <- app_assoc by lia. }
  rewrite (bind_mem _ _ _ _ (c_string_app _ _ Hz1)).
  assert (zlen (l ++ 0 :: zdrop (zlen l + 1) sendline) = MAXLINE) as Hs'.
  { rewrite zlen_app, zlen_cons, zlen_drop. pose proof (zlen_nonneg l). lia. }
  destruct (owes_writen (S fuel) (l ++ 0 :: zdrop (zlen l + 1) sendline) (zlen l) [] w)
    as (w1 & E1 & Ho1 & Hp1 & Hd1).
  { rewrite Hs'. pose proof (zlen_nonneg l). lia. }
  { change MAXLINE with 4096 in *. lia. }
  { done. }
  { unfold zlen. lia. }
  rewrite (bind_Done _ _ _ _ _ E1). rewrite ztake_app_length in Ho1 by done. cbn [app] in Ho1.
  rewrite <- (app_nil_r l) in Ho1.
  destruct (readline_loop_owed (S fuel) l [] recvline [] w1) as (rc & tl & w2 & E2 & Hrc & Ht & Ho2 & Hp2 & Hd2);
    [done|done|done|lia|].
  change (zlen (@nil Z)) with 0 in *. rewrite (bind_Done _ _ _ _ _ E2).
  destruct (Z.eqb_spec rc 0); [lia|]. cbn [app]. rewrite (bind_mem _ _ _ _ (c_string_app _ _ Hz1)), bind_printf.
  destruct (owes_print (mkMessage "%s" l) [] w2 Ho2) as (Ho3 & Hd3 & Hp3).
  destruct (IH rest (l ++ 0 :: zdrop (zlen l + 1) sendline) (l ++ 0 :: tl) (sys_print (mkMessage "%s" l) w2))
    as (lines & w4 & E4 & Ho4 & -> & Hal & Hp4); [done|done|done| |done|lia|].
  { rewrite zlen_app, zlen_cons. lia. }
  exists (l :: lines), w4. split; [exact E4|]. split; [done|]. split; [done|]. split; [by constructor|].
  by rewrite Hp4, Hp3, Hp2, Hp1, <- app_assoc.
Qed.

(** *** rattle_client.c *)
Lemma readn_loop_owed fuel buff n nleft d rest w :
  0 <= nleft <= n -> n <= zlen buff -> n < 2147483648 -> zlen d = nleft -> owes (d ++ rest) w ->
  (Z.to_nat nleft + echo_delay w < fuel)%nat ->
  exists w', readn_loop fuel fd buff n nleft (n - nleft) w
      = (Done (n, ztake (n - nleft) buff ++ d ++ zdrop n buff), w') /\
    owes rest w' /\ silent w w'.
Proof.
  revert buff nleft d w. induction fuel as [|fuel IH]; intros buff nleft d w Hl Hn Hb Hd Ho Hf; [lia|].
  cbn [readn_loop]. destruct (Z.ltb_spec 0 nleft) as [Hpos|Hz].
  2: { assert (nleft = 0) as -> by lia. apply zlen_zero in Hd as ->. exists w.
       rewrite Z.sub_0_r. cbn [app]. rewrite ztake_zdrop, ssize_small by lia. split; [done|]. split; [exact Ho|]. split; [done|lia]. }
  destruct d as [|x d]; [cbn in Hd; unfold zlen in Hd; cbn in Hd; lia|].
  destruct (owes_read nleft x (d ++ rest) w Hpos Ho) as (r & p & w1 & E & Hs1 & Hr).
  rewrite (bind_read _ _ _ _ _ _ _ E).
  destruct Hr as [(-> & -> & He & Ho1 & Hdl)|(due' & -> & Hp1 & Hp2 & Ho1 & Hdl)].
  - rewrite (bind_mem _ _ _ buff).
    2: { rewrite mem_write_ok; change (@zlen Z []) with 0; [|lia..].
         cbn [app]. by rewrite Z.add_0_r, ztake_zdrop. }
    change (s32 (-1)) with (-1). cbn [Z.eqb]. rewrite bind_errno, He, Z.eqb_refl.
    cbn [Z.ltb Z.compare negb andb]. rewrite Z.sub_0_r, Z.add_0_r. unwrap.
    destruct (IH buff nleft (x :: d) w1) as (w2 & E2 & Ho2 & Hs2 & Hd2); [lia|done|done|done|done|lia|].
    exists w2. split; [exact E2|]. split; [done|]. unfold silent. rewrite Hs2. split; [done|lia].
  - (* a piece [p] of what is wanted *)
    rewrite app_comm_cons in Hp2.
    assert (exists d', x :: d = p ++ d' /\ due' = d' ++ rest) as (d' & Hd' & ->).
    { assert (ztake (zlen p) (x :: d) = p) as Ht.
      { apply (f_equal (ztake (zlen p))) in Hp2. rewrite (ztake_app_length (zlen p) p) in Hp2 by done.
        rewrite ztake_app, (ztake_0 _ rest), app_nil_r in Hp2 by lia. done. }
      exists (zdrop (zlen p) (x :: d)). split; [rewrite <- (ztake_zdrop (zlen p) (x :: d)) at 1; by rewrite Ht|].
      apply (f_equal (zdrop (zlen p))) in Hp2. rewrite (zdrop_app_length (zlen p) p) in Hp2 by done.
      rewrite zdrop_app, (zdrop_0 _ rest) in Hp2 by lia. done. }
    rewrite Hd', zlen_app in Hd. pose proof (zlen_nonneg d').
    rewrite (bind_mem _ _ _ _ (mem_write_ok buff (n - nleft) p ltac:(lia) ltac:(lia))).
    rewrite s32_small by lia. destruct (Z.eqb_spec (zlen p) 0); [lia|]. rewrite bind_errno.
    destruct (Z.ltb_spec (zlen p) 0); [lia|]. cbn [andb]. unwrap.
    set (buff' := ztake (n - nleft) buff ++ _).
    replace (n - nleft + zlen p) with (n - (nleft - zlen p)) by lia.
    assert (zlen buff' = zlen buff) as Hb'.
    { unfold buff'. rewrite !zlen_app, zlen_take, zlen_drop. lia. }
    destruct (IH buff' (nleft - zlen p) d' w1) as (w2 & E2 & Ho2 & Hs2 & Hd2); [lia|lia|done|lia|done|lia|].
    exists w2. split; [rewrite E2|].
    + replace (n - (nleft - zlen p)) with (n - nleft + zlen p) by lia.
      pose proof (store_twice buff p d' (n - nleft) ltac:(lia) ltac:(lia)) as Hst. cbn zeta in Hst.
      replace (n - nleft + zlen p + zlen d') with n in Hst by lia. fold buff' in Hst. by rewrite Hst, Hd'.
    + split; [done|]. unfold silent. rewrite Hs2. split; [done|lia].
Qed.

Lemma fill_line_owed n : forall due w,
  owes due w ->
  exists l w', fill_line n w = (Done l, w') /\ length l = n /\ owes due w' /\ silent w w'.
Proof.
  induction n as [|n IH]; intros due w Ho; [by exists [], w|]. cbn [fill_line].
  destruct (sys_call CRand w) as [r w1] eqn:E. rewrite (bind_call _ _ _ _ _ E).
  destruct Ho as [Hok Hs]. destruct (echo_rand _ _ _ E Hok) as (Hok1 & H1 & H2 & H3 & H4).
  destruct (IH due w1) as (l & w2 & E2 & Hl & Ho2 & H5 & H6); [split; [done|by rewrite H1, H2]|].
  rewrite (bind_Done _ _ _ _ _ E2). eexists _, w2. split; [reflexivity|]. split; [by rewrite <- Hl|].
  split; [done|]. unfold silent. rewrite H5, H4. split; [done|lia].
Qed.

Lemma cmp_line_same i l k w : cmp_line i l (l ++ k) w = (Done tt, w).
Proof.
  revert i. induction l as [|x l IH]; intros i; [by destruct k|]. cbn. rewrite Z.eqb_refl. cbn. apply IH.
Qed.

(** Both clients up to the established connection. *)
Lemma client_connects `{LibcInet} {A} (k : Z -> io W A) ip v4 w w1 w2 :
  inet_pton ip = (1, v4) ->
  sys_call (CSocket AF_INET 1 0) w = (fd, w1) -> 0 <= fd ->
  sys_call (CConnect fd (sockaddr_in v4 10086)) w1 = (0, w2) ->
  (sockfd <- Socket AF_INET 1 0 ;;
   sin_addr <- Inet_pton ip (replicate 4 0) ;;
   Connect sockfd (sockaddr_in sin_addr 10086) ;;; k sockfd) w = k fd w2.
Proof.
  intros Hip E1 Hfd E2. unfold Socket, Inet_pton, Connect, exit_on_error. unfold io_bind at 1 2 3.
  unfold syscall at 1. rewrite E1. destruct (Z.ltb_spec fd 0); [lia|]. cbn [io_ret].
  unfold io_bind at 1 2. rewrite Hip. cbn [Z.ltb Z.compare Z.eqb Pos.eqb io_ret].
  unfold io_bind, syscall. by rewrite E2.
Qed.

Lemma rattle_owed fuel recvline w :
  zlen recvline = SIZE -> owes [] w -> (Z.to_nat SIZE + echo_delay w < fuel)%nat ->
  exists w',
    (sendline <- fill_line (Z.to_nat SIZE) ;;
     printf "sending ..." [] ;;;
     rv <- writen fuel fd sendline SIZE ;;
     (if rv <? 0 then printf "writen error" [] else io_ret tt) ;;;
     printf "receiving..." [] ;;;
     let* (rv, recvline) := readn fuel fd recvline SIZE in
     (if negb (rv =? SIZE) then printf "readn error" [] else io_ret tt) ;;;
     printf "%.2lf KB/s" [] ;;;
     cmp_line 0 sendline recvline ;;;
     io_ret 0) w = (Done 0, w') /\
    echo_output w' = echo_output w ++
      [mkMessage "sending ..." []; mkMessage "receiving..." []; mkMessage "%.2lf KB/s" []].
Proof.
  assert (0 <= SIZE < 2147483648) as HS by done. revert HS. generalize SIZE as size. intros size HS Hr Ho Hf.
  destruct (fill_line_owed (Z.to_nat size) [] w Ho) as (sendline & w1 & E1 & Hl & Ho1 & Hp1 & Hd1).
  rewrite (bind_Done _ _ _ _ _ E1), bind_printf.
  destruct (owes_print (mkMessage "sending ..." []) [] w1 Ho1) as (Ho2 & Hd2 & Hp2).
  assert (zlen sendline = size) as Hz by (unfold zlen; lia).
  destruct (owes_writen fuel sendline size [] _ ltac:(lia) ltac:(lia) Ho2 ltac:(lia)) as (w3 & E3 & Ho3 & Hp3 & Hd3).
  rewrite (bind_Done _ _ _ _ _ E3). destruct (Z.ltb_spec size 0); [lia|]. rewrite bind_ret, bind_printf.
  rewrite ztake_all in Ho3 by lia. cbn [app] in Ho3.
  destruct (owes_print (mkMessage "receiving..." []) _ w3 Ho3) as (Ho4 & Hd4 & Hp4).
  rewrite <- (app_nil_r sendline) in Ho4.
  destruct (readn_loop_owed fuel recvline size size sendline [] _ ltac:(lia) ltac:(lia) ltac:(lia) Hz Ho4 ltac:(lia))
    as (w5 & E5 & Ho5 & Hp5 & Hd5).
  unfold readn. rewrite Z.sub_diag in E5. rewrite (bind_Done _ _ _ _ _ E5), Z.eqb_refl. cbn [negb].
  rewrite bind_ret, bind_printf. destruct (owes_print (mkMessage "%.2lf KB/s" []) [] w5 Ho5) as (_ & _ & Hp6).
  rewrite (ztake_0 0) by lia. cbn [app]. rewrite (bind_Done _ _ _ _ _ (cmp_line_same _ _ _ _)).
  eexists. split; [done|]. by rewrite Hp6, Hp5, Hp4, Hp3, Hp2, Hp1, <- !app_assoc.
Qed.

(** C16. The clients of src/eval and an echo. Once the address was read, [socket] and
    [connect] have succeeded and the other side sends back what it gets, in pieces of any
    size, where [read] may be interrupted a bounded number of times and [write] is not
    interrupted and accepts at least one byte: echo_client.c, on a standard input that has
    no NUL byte and is empty or ends in a newline (without which its [readline] waits for
    ever), prints that input in pieces, in order, each piece a line with its newline of at
    most 4095 bytes or 4095 bytes of a longer line, and returns 0; rattle_client.c sends its
    146000 random letters, gets all of them back and finds no difference: it prints its
    three lines and nothing else. No store leaves a buffer, and no bound on the length of
    the input is assumed. *)
Theorem echo_clients_roundtrip `{LibcInet} fuel prog ip v4 (w w1 w2 : W) :
  inet_pton ip = (1, v4) ->
  sys_call (CSocket AF_INET 1 0) w = (fd, w1) -> 0 <= fd ->
  sys_call (CConnect fd (sockaddr_in v4 10086)) w1 = (0, w2) -> owes [] w2 ->
  (forall stdin sendline recvline,
     complete stdin -> Forall (fun c => c <> 0) stdin ->
     zlen sendline = MAXLINE -> zlen recvline = MAXLINE ->
     (length stdin + echo_delay w2 < fuel)%nat ->
     exists lines w',
       echo_client_main fuel [prog; ip] stdin sendline recvline w = (Done 0, w') /\
       mjoin lines = stdin /\ Forall (a_line 0) lines /\
       echo_output w' = echo_output w2 ++ (mkMessage "%s" <$> lines)) /\
  (forall recvline,
     zlen recvline = SIZE -> (Z.to_nat SIZE + echo_delay w2 < fuel)%nat ->
     exists w',
       rattle_client_main fuel [prog; ip] recvline w = (Done 0, w') /\
       echo_output w' = echo_output w2 ++
         [mkMessage "sending ..." []; mkMessage "receiving..." []; mkMessage "%.2lf KB/s" []]).
Proof.
  intros Hip E1 Hfd E2 Ho. split.
  - intros stdin sendline recvline Hc Hz Hs Hr Hf.
    destruct (str_cli_owed fuel stdin sendline recvline w2) as (lines & w' & E & _ & -> & Hal & Hp); [done..|].
    exists lines, w'. split; [|done]. unfold echo_client_main. change (negb (zlen [prog; ip] =? 2)) with false.
    cbn iota. cbn [lookup list_lookup default].
    rewrite (client_connects (fun sockfd => str_cli fuel (mjoin lines) sockfd sendline recvline ;;; io_ret 0)
               ip v4 w w1 w2) by done.
    by rewrite (bind_Done _ _ _ _ _ E).
  - intros recvline Hr Hf. destruct (rattle_owed fuel recvline w2 Hr Ho Hf) as (w' & E & Hp).
    exists w'. split; [|done]. unfold rattle_client_main. change (negb (zlen [prog; ip] =? 2)) with false.
    cbn iota. cbn [lookup list_lookup default].
    by rewrite (client_connects _ ip v4 w w1 w2).
Qed.
End clients.

(** ** A client and the echo server

    The scripted world keeps its two directions apart. *)
#[global] Program Instance Script_duplex fd : Duplex Script fd.
Next Obligation.
  intros fd n w r d w' E Hok Hc. cbn in *. unfold Script_read in E.
  destruct (sc_reads w) as [|[c|e] evs]; repeat case_match; by simplify_eq/=.
Qed.
Next Obligation.
  intros fd d w r w' E Hok. cbn in *. unfold Script_write in E.
  destruct (sc_writes w) as [|[n|e] evs]; by simplify_eq/=.
Qed.
Next Obligation. done. Qed.

(** The process of the client and that of the server. What the client writes becomes the
    input of the server, and what the server sent, less the [ec_taken] bytes that the
    client has read, is the input of the client. *)
Record EchoPair : Type := mkEchoPair {
  ec_client : Script;
  ec_server : Script;
  ec_buf : list Z;      (* [buf] and [acc] of the server *)
  ec_acc : Z;
  ec_taken : Z
}.
Definition ec_on (f : Script -> Script) (w : EchoPair) : EchoPair :=
  mkEchoPair (f (ec_client w)) (ec_server w) (ec_buf w) (ec_acc w) (ec_taken w).

(** While the client waits in [read], the server runs the turns of [str_echo]. *)
Definition ec_turn (w : EchoPair) : EchoPair :=
  match str_echo_turn (S (Z.to_nat MAXLINE)) 0 (ec_buf w) (ec_acc w) (ec_server w) with
  | (Done (_, buf, acc), server) => mkEchoPair (ec_client w) server buf acc (ec_taken w)
  | (_, server) => mkEchoPair (ec_client w) server (ec_buf w) (ec_acc w) (ec_taken w)
  end.
Fixpoint ec_serve (n : nat) (w : EchoPair) : EchoPair :=
  match n with
  | O => w
  | S n => if zlen (sc_sent (ec_server w)) <=? ec_taken w then ec_serve n (ec_turn w) else w
  end.
Definition ec_feed (d : list Z) (s : Script) : Script :=
  mkScript (sc_reads s ++ [Chunk d]) (sc_writes s) (sc_results s) (sc_sent s) (sc_calls s)
    (sc_output s) (sc_errno s) (sc_locked s) (sc_signals s).

#[global] Instance EchoPair_posix : Posix EchoPair := {|
  sys_errno w := sc_errno (ec_client w);
  sys_put_errno e := ec_on (sys_put_errno e);
  sys_read _ n w :=
    let w := ec_serve (S (length (sc_reads (ec_server w)))) w in
    let d := ztake n (zdrop (ec_taken w) (sc_sent (ec_server w))) in
    (zlen d, d, mkEchoPair (ec_client w) (ec_server w) (ec_buf w) (ec_acc w) (ec_taken w + zlen d));
  sys_write _ d w :=
    let '(r, c) := Script_write d (ec_client w) in
    (r, mkEchoPair c (ec_feed (ztake r d) (ec_server w)) (ec_buf w) (ec_acc w) (ec_taken w));
  sys_call c w := let '(r, s) := sys_call c (ec_client w) in (r, ec_on (fun _ => s) w);
  sys_print m := ec_on (sys_print m);
  sys_isLocked f w := let '(b, s) := sys_isLocked f (ec_client w) in (b, ec_on (fun _ => s) w);
  sys_putLock f b := ec_on (sys_putLock f b)
|}.

#[global] Program Instance EchoPair_sink fd : ByteSink EchoPair fd := {|
  snk_ok w := snk_ok (fd := fd) (ec_client w);
  snk_stream w := snk_stream (fd := fd) (ec_client w);
  snk_delay w := snk_delay (fd := fd) (ec_client w)
|}.
Next Obligation. intros fd m w. exact (snk_print (fd := fd) m (ec_client w)). Qed.
Next Obligation.
  intros fd d w Hd Hok. pose proof (snk_write (fd := fd) d (ec_client w) Hd Hok) as Hw. cbn in *.
  destruct (Script_write d (ec_client w)). exact Hw.
Qed.
#[global] Program Instance EchoPair_calm fd : CalmSink EchoPair fd := {|
  snk_calm w := snk_calm (fd := fd) (ec_client w)
|}.
Next Obligation. intros fd m w. exact (snk_calm_print (fd := fd) m (ec_client w)). Qed.
Next Obligation.
  intros fd d w Hd Hok Hc. pose proof (snk_calm_write (fd := fd) d (ec_client w) Hd Hok Hc) as Hw. cbn in *.
  destruct (Script_write d (ec_client w)). exact Hw.
Qed.

(** What holds between two calls: every byte the client wrote is in the hands of the
    server or on its way back. *)
Record pair_ok (w : EchoPair) : Prop := {
  po_client : snk_ok (fd := 0) (ec_client w) /\ snk_calm (fd := 0) (ec_client w);
  po_server : served 0 (ec_server w);
  po_buf : zlen (ec_buf w) = MAXLINE;
  po_taken : 0 <= ec_taken w <= zlen (sc_sent (ec_server w));
  po_bytes : sc_sent (ec_client w) = sc_sent (ec_server w) ++ read_stream (sc_reads (ec_server w))
}.
Definition pair_back (w : EchoPair) : list Z := ztake (ec_taken w) (sc_sent (ec_server w)).

(** A turn of the server keeps it, and brings a byte nearer to the client. *)
Lemma ec_turn_ok w :
  pair_ok w -> read_stream (sc_reads (ec_server w)) <> [] ->
  pair_ok (ec_turn w) /\ ec_client (ec_turn w) = ec_client w /\ ec_taken (ec_turn w) = ec_taken w /\
  ec_taken (ec_turn w) <= zlen (sc_sent (ec_server (ec_turn w))) /\ pair_back (ec_turn w) = pair_back w /\
  (zlen (sc_sent (ec_server w)) < zlen (sc_sent (ec_server (ec_turn w))) \/
   ((length (sc_reads (ec_server (ec_turn w))) < length (sc_reads (ec_server w)))%nat /\
    read_stream (sc_reads (ec_server (ec_turn w))) <> [])).
Proof.
  intros [Hc Hs Hb Ht Hby] Hn.
  destruct (str_echo_turn_ok 0 (S (Z.to_nat MAXLINE)) (ec_buf w) (ec_acc w) (ec_server w) Hb Hs ltac:(lia))
    as (n & buf & acc & s & E & Hb' & Hs' & Hr).
  unfold ec_turn, pair_back. rewrite E. cbn in Hr |- *.
  destruct Hr as [(_ & _ & Hr & Hk & Hd)|(d & _ & Hr & Hk & Hd & _)]; rewrite Hk.
  - split_and!; [|done|done|lia|done|by right; rewrite Hr].
    split; cbn; rewrite ?Hk, ?Hr; done.
  - assert (0 < zlen d).
    { destruct d as [|x d]; [by rewrite Hd in Hn|]. rewrite zlen_cons. pose proof (zlen_nonneg d). lia. }
    rewrite zlen_app. split_and!; [|done|done|lia| |left; lia].
    + split; cbn; rewrite ?Hk, ?zlen_app; [done|done|done|lia|]. by rewrite Hby, Hr, app_assoc.
    + rewrite ztake_app, (ztake_0 (_ - _)), app_nil_r by lia. done.
Qed.

Lemma ec_serve_ok n : forall w,
  pair_ok w -> (length (sc_reads (ec_server w)) < n)%nat ->
  ec_taken w < zlen (sc_sent (ec_server w)) \/ read_stream (sc_reads (ec_server w)) <> [] ->
  pair_ok (ec_serve n w) /\ ec_client (ec_serve n w) = ec_client w /\ pair_back (ec_serve n w) = pair_back w /\
  ec_taken (ec_serve n w) < zlen (sc_sent (ec_server (ec_serve n w))).
Proof.
  induction n as [|n IH]; intros w Hw Hl Hn; [lia|]. cbn [ec_serve].
  destruct (Z.leb_spec (zlen (sc_sent (ec_server w))) (ec_taken w)) as [Hle|Hlt]; [|done].
  destruct Hn as [?|Hn]; [lia|].
  destruct (ec_turn_ok w Hw Hn) as (Hw' & Hc & Ht & _ & Hb & Hr). rewrite <- Hc, <- Hb.
  pose proof (po_taken _ Hw). destruct Hr as [Hr|[Hr Hn']].
  - destruct n as [|n]; [cbn; split_and!; done || lia|]. cbn [ec_serve].
    destruct (Z.leb_spec (zlen (sc_sent (ec_server (ec_turn w)))) (ec_taken (ec_turn w))); [lia|].
    split_and!; done || lia.
  - apply IH; [done|lia|by right].
Qed.

Lemma pair_write d w r w' fd :
  d <> [] -> sys_write fd d w = (r, w') -> pair_ok w ->
  pair_ok w' /\ pair_back w' = pair_back w /\ sc_output (ec_client w') = sc_output (ec_client w).
Proof.
  intros Hd E [[Hk Hc] (Hr & Hs & Hsc) Hb Ht Hby]. cbn in E.
  pose proof (snk_write (fd := 0) d (ec_client w) Hd Hk) as Hw.
  pose proof (snk_calm_write (fd := 0) d (ec_client w) Hd Hk Hc) as Hw'. cbn in Hw, Hw'.
  assert (sc_output (Script_write d (ec_client w)).2 = sc_output (ec_client w)) as Ho.
  { unfold Script_write. by repeat case_match. }
  destruct (Script_write d (ec_client w)) as [r' c]. injection E as <- <-.
  destruct Hw as [Hk' [(-> & _)|(Hr' & Hst & _)]]; [lia|]. destruct Hw' as [_ Hc'].
  split; [|done]. split; cbn; [done| |done|done|].
  - split; [|done]. cbn. apply Forall_app. split; [done|]. repeat constructor. cbn. intros Hz.
    assert (zlen (ztake r' d) = 0) as Hz' by (by rewrite Hz). rewrite zlen_take in Hz'. lia.
  - rewrite Hst, Hby. unfold read_stream. rewrite fmap_app, join_app. cbn. by rewrite app_nil_r, app_assoc.
Qed.

(** The echo server keeps the promise that the clients rely on. *)
#[global] Program Instance EchoPair_echo fd : EchoPeer EchoPair fd := {|
  echo_ok := pair_ok;
  echo_back := pair_back;
  echo_delay _ := O;
  echo_output w := sc_output (ec_client w)
|}.
Next Obligation. intros fd w Hw. apply Hw. Qed.
Next Obligation.
  intros fd d w r w' Hd E Hw. cbn. destruct (pair_write d w r w' fd Hd E Hw) as (? & ? & ?). done.
Qed.
Next Obligation.
  intros fd m w [Hc Hs Hb Ht Hby]. split; [|done]. split; try done.
Qed.
Next Obligation.
  intros fd w r w' E [Hc Hs Hb Ht Hby]. cbn in E. destruct (sc_results (ec_client w)); injection E as <- <-;
    (split; [by split|done]).
Qed.
Next Obligation.
  intros fd n w due Hn Hw Hst Hdue. cbn [sys_read EchoPair_posix].
  destruct (ec_serve_ok (S (length (sc_reads (ec_server w)))) w Hw ltac:(lia)) as (Hw' & Hc & Hb & Hlt).
  { cbn in Hst. rewrite (po_bytes _ Hw) in Hst. unfold pair_back in Hst. pose proof (po_taken _ Hw).
    destruct (decide (ec_taken w < zlen (sc_sent (ec_server w)))); [by left|right]. intros Hz.
    rewrite Hz, ztake_all in Hst by lia. by apply app_inv_head in Hst. }
  set (w1 := ec_serve _ w) in *. clearbody w1. destruct Hw' as [Hc1 Hs1 Hb1 Ht1 Hby1].
  set (d := ztake n (zdrop (ec_taken w1) (sc_sent (ec_server w1)))).
  assert (0 < zlen d <= n) as Hd by (unfold d; rewrite zlen_take, zlen_drop; lia).
  assert (zlen d <= zlen (sc_sent (ec_server w1)) - ec_taken w1) as Hd'
    by (unfold d; rewrite zlen_take, zlen_drop; lia).
  assert (ztake (ec_taken w1 + zlen d) (sc_sent (ec_server w1)) = pair_back w1 ++ d) as Hback.
  { unfold pair_back. rewrite <- (ztake_zdrop (ec_taken w1) (sc_sent (ec_server w1))) at 1.
    rewrite ztake_app, ztake_all by (rewrite zlen_take; lia). f_equal.
    rewrite zlen_take. unfold d. rewrite <- (ztake_min n). f_equal. rewrite zlen_take, zlen_drop. lia. }
  split; [split; cbn [ec_client ec_server ec_buf ec_taken]; done || lia|]. cbn [ec_client]. rewrite Hc. split; [done|]. split; [done|]. right.
  split; [done|]. split; [done|]. unfold pair_back at 1. cbn [ec_taken ec_server]. rewrite Hback, Hb. split; [|done].
  cbn in Hst. rewrite <- Hc, Hby1, <- Hb in Hst. unfold pair_back in Hst.
  rewrite <- (ztake_zdrop (ec_taken w1) (sc_sent (ec_server w1))) in Hst at 1.
  rewrite <- app_assoc in Hst. apply app_inv_head in Hst as <-. apply prefix_app_r. unfold d.
  eexists. symmetry. apply ztake_zdrop.
Qed.

Definition pair_start (results : list Z) : EchoPair :=
  mkEchoPair (mkScript [] [Accepts 2; Accepts 1] results [] [] [] 0 (fun _ => false) [])
    (mkScript [ReadError EINTR] [Accepts 3] [] [] [] [] 0 (fun _ => false) [])
    (replicate (Z.to_nat MAXLINE) 0) 0 0.

(** A run of the echo client with the server, pieces and an interruption included. *)
Example echo_client_runs :
  (echo_client_main 40 ["echo_client"; "10.0.0.1"] [104; 105; 10; 10; 121; 10]
     (replicate (Z.to_nat MAXLINE) 0) (replicate (Z.to_nat MAXLINE) 0) (pair_start [3; 0])).1 = Done 0.
Proof. vm_compute. reflexivity. Qed.

Definition example_fuel : nat := Z.to_nat 200000.
Lemma echo_clients_roundtrip_witness :
  (exists lines w,
     echo_client_main example_fuel ["client"; "10.0.0.1"] [104; 105; 10; 10; 121; 10]
       (replicate (Z.to_nat MAXLINE) 0) (replicate (Z.to_nat MAXLINE) 0) (pair_start [3; 0]) = (Done 0, w) /\
     mjoin lines = [104; 105; 10; 10; 121; 10] /\ Forall (a_line 0) lines /\ sc_output (ec_client w) = mkMessage "%s" <$> lines) /\
  (exists w,
     rattle_client_main example_fuel ["client"; "10.0.0.1"] (replicate (Z.to_nat SIZE) 0) (pair_start [3; 0])
       = (Done 0, w) /\
     sc_output (ec_client w) =
       [mkMessage "sending ..." []; mkMessage "receiving..." []; mkMessage "%.2lf KB/s" []]).
Proof.
  assert (Hf : forall n, Z.of_nat n < 200000 -> (n + 0 < example_fuel)%nat)
    by (intros n Hn; unfold example_fuel; lia).
  destruct (echo_clients_roundtrip 3 example_fuel "client" "10.0.0.1" [10; 0; 0; 1] (pair_start [3; 0])
    (sys_call (CSocket AF_INET 1 0) (pair_start [3; 0])).2
    (sys_call (CConnect 3 (sockaddr_in [10; 0; 0; 1] 10086))
      (sys_call (CSocket AF_INET 1 0) (pair_start [3; 0])).2).2) as [Hc Hr].
  - reflexivity.
  - reflexivity.
  - done.
  - reflexivity.
  - split; [|reflexivity]. split; [split; repeat constructor| |reflexivity|split; vm_compute; discriminate|reflexivity].
    split; [repeat constructor; reflexivity|split; repeat constructor].
  - split.
    + destruct (Hc [104; 105; 10; 10; 121; 10] (replicate (Z.to_nat MAXLINE) 0) (replicate (Z.to_nat MAXLINE) 0))
        as (lines & w & E & Hl & Ha & Hp);
        [by right|repeat constructor; done|reflexivity|reflexivity|apply Hf; cbn; lia|].
      exists lines, w. split; [exact E|]. split; [exact Hl|]. split; [exact Ha|exact Hp].
    + destruct (Hr (replicate (Z.to_nat SIZE) 0)) as (w & E & Hp);
        [rewrite zlen_replicate; reflexivity|apply Hf; rewrite Z2Nat.id by done; done|].
      exists w. split; [exact E|exact Hp].
Defined.

