(* ===== verification/MperfUtil.v ===== *)
(** src/3rd/mperf/src/util.c and include/util.h: messages between the processes of the
    throughput tool, over sockets and through shared memory. Logging prints; the
    arguments of a message that are strings are left out. *)

From stdpp Require Import base list numbers strings pretty.
From S2P Require Import Prelude Endian SocketAddress Posix.

Open Scope Z_scope.
Open Scope io_scope.

Definition PACKET_LEN : Z := 131072.
Definition SHARED_BLOCK_LEN : Z := 4096.
Definition MESSAGE_TIMEOUT : Z := 10.
Definition SIG_TERM : Z := 0.
Definition SIG_CONF : Z := 1.
Definition RET_SUCC : Z := 0.
Definition RET_EMSG : Z := 1.
Definition RET_EKILL : Z := 2.
Definition RET_EREAD : Z := 3.
Definition RET_EWRITE : Z := 4.
Definition RET_EPROC : Z := 5.
Definition TYPE_LONG : Z := 0.
Definition TYPE_FIX : Z := 1.
Definition FLAG_REVERSE : Z := 2.
Definition TYPE_REVLONG : Z := Z.lor TYPE_LONG FLAG_REVERSE.
Definition TYPE_REVFIX : Z := Z.lor TYPE_FIX FLAG_REVERSE.
Definition EPERM : Z := 1.
Definition SIGINT : Z := 2.
Definition SIGUSR1 : Z := 10.
Definition SIGUSR2 : Z := 12.
Definition SIGALRM : Z := 14.
Definition SIGTERM : Z := 15.

(** ** Messages in shared memory

    [message] is a block that holds a string; an [int] is four bytes, the lowest first. *)
Definition setMessage (smem message : list Z) : outcome (list Z) :=
  (s <- c_string message ;;
   let len := zlen s + 1 in
   smem <- mem_write smem 0 (le_bytes 4 (u32 len)) ;;
   m <- mem_read message 0 len ;;
   mem_write smem 4 m)%outcome.
Definition getMessage (smem dest : list Z) : outcome (list Z) :=
  (b <- mem_read smem 0 4 ;;
   m <- mem_read smem 4 (s32 (le_val b)) ;;
   mem_write dest 0 m)%outcome.

Definition retstr (ret : Z) : string :=
  if ret =? RET_SUCC then "Success(RET_SUCC, " +:+ pretty RET_SUCC +:+ ")"
  else if ret =? RET_EMSG then "Unrecognized control message(RET_EMSG, " +:+ pretty RET_EMSG +:+ ")"
  else if ret =? RET_EKILL then "Controller failed to send signal(RET_EKILL, " +:+ pretty RET_EKILL +:+ ")"
  else if ret =? RET_EREAD then "Failed to read message(RET_EREAD, " +:+ pretty RET_EREAD +:+ ")"
  else if ret =? RET_EWRITE then "Failed to write message(RET_EWRITE, " +:+ pretty RET_EWRITE +:+ ")"
  else if ret =? RET_EPROC then "Server not running(RET_EPROC, " +:+ pretty RET_EPROC +:+ ")"
  else "Value not defined(" +:+ pretty ret +:+ ")".

Section util.
Context {W : Type} `{Posix W}.
(** [verbose]: the level of the log. *)
Context (verbose : Z).

Definition logVerboseL (level : Z) (format : string) (args : list Z) : io W unit :=
  if level <=? verbose then printf ("[ Verbose ]" +:+ format) args else io_ret tt.
Definition logVerbose := logVerboseL 1.
Definition logMessage (format : string) (args : list Z) : io W unit :=
  printf ("[ Message ]" +:+ format) args.
Definition logWarning (format : string) (args : list Z) : io W unit :=
  printf ("[ Warning ]" +:+ format) args.
Definition logError (format : string) (args : list Z) : io W unit :=
  printf ("[  Error  ]" +:+ format) args.
Definition logFatal {A} (format : string) (args : list Z) : io W A :=
  printf ("[  FATAL  ]" +:+ format) args ;;; io_exit 1.

Definition alarmWithLog (seconds : Z) : io W Z :=
  logVerboseL 3 "Alarm %d" [seconds] ;;; syscall (CAlarm seconds).
Definition signalNoRestart (signum : Z) : io W unit :=
  rv <- syscall (CSigaction signum) ;;
  if rv <? 0 then logFatal "sigaction() failed(%s)." [] else io_ret tt.
Definition cancelTimeout : io W unit :=
  _ <- alarmWithLog 0 ;; signalNoRestart SIGALRM.
Definition rKill (pid sig : Z) : io W Z :=
  rv <- syscall (CKill pid sig) ;;
  if rv <? 0 then
    logError "Can't send signal to %s(%d)!" [pid] ;;;
    e <- errno ;; io_ret (if e =? EPERM then RET_EPROC else RET_EKILL)
  else logVerbose "Signal %d sent to %s(%d)." [sig; pid] ;;; io_ret RET_SUCC.

(** ** Reading and writing until an interruption *)
Fixpoint rio_readnr_loop (fuel : nat) (fd : Z) (usrbuf : list Z) (n nleft bufp : Z)
  : io W (Z * list Z) :=
  match fuel with
  | O => io_nofuel
  | S fuel =>
      let stop usrbuf :=
        logVerboseL 2 "Got %ld bytes." [ssize (u64 (n - nleft))] ;;;
        io_ret (ssize (u64 (n - nleft)), usrbuf) in
      if 0 <? nleft then
        let* (nread, d) := read fd nleft in
        usrbuf <- io_mem (mem_write usrbuf bufp d) ;;
        if nread <? 0 then
          e <- errno ;;
          if e =? EINTR then logVerbose "Read interrupted." [] ;;; stop usrbuf
          else
            logError "Read error(%s)." [] ;;;
            logVerboseL 2 "Got %ld bytes." [ssize (u64 (n - nleft))] ;;;
            io_ret (-1, usrbuf)
        else if nread =? 0 then logMessage "EOF reached." [] ;;; stop usrbuf
        else rio_readnr_loop fuel fd usrbuf n (u64 (nleft - nread)) (bufp + nread)
      else stop usrbuf
  end.
Definition rio_readnr (fuel : nat) (fd : Z) (usrbuf : list Z) (n : Z) : io W (Z * list Z) :=
  rio_readnr_loop fuel fd usrbuf n n 0.

(** The count [n] that is returned is unsigned: -1 is its largest value. *)
Fixpoint rio_writenr_loop (fuel : nat) (fd : Z) (usrbuf : list Z) (n nleft bufp : Z) : io W Z :=
  match fuel with
  | O => io_nofuel
  | S fuel =>
      let stop n := logVerboseL 2 "Sent %ld bytes." [ssize n] ;;; io_ret (ssize n) in
      if 0 <? nleft then
        d <- io_mem (mem_read usrbuf bufp nleft) ;;
        nwritten <- write fd d ;;
        if nwritten <=? 0 then
          e <- errno ;;
          if e =? EINTR then logVerbose "Write interrupted." [] ;;; stop (u64 (n - nleft))
          else logError "Write error(%s)." [] ;;; stop (u64 (-1))
        else rio_writenr_loop fuel fd usrbuf n (u64 (nleft - nwritten)) (bufp + nwritten)
      else stop n
  end.
Definition rio_writenr (fuel : nat) (fd : Z) (usrbuf : list Z) (n : Z) : io W Z :=
  rio_writenr_loop fuel fd usrbuf n n 0.

(** ** Messages over a connection

    [buf] is the static buffer of 2048 bytes. *)
Definition rSendMessage (fuel : nat) (connfd : Z) (message : list Z) (len : Z) (buf : list Z)
  : io W (Z * list Z) :=
  buf <- io_mem (mem_write buf 0 (le_bytes 4 (u32 len))) ;;
  m <- io_mem (mem_read message 0 (u64 len)) ;;
  buf <- io_mem (mem_write buf 4 m) ;;
  signalNoRestart SIGALRM ;;;
  _ <- alarmWithLog MESSAGE_TIMEOUT ;;
  rv <- rio_writenr fuel connfd buf (u64 (len + 4)) ;;
  if rv <? len + 4 then
    cancelTimeout ;;;
    logError "Can't send message to %s!(%s)" [] ;;;
    io_ret (RET_EWRITE, buf)
  else
    cancelTimeout ;;;
    logVerbose "Sent message with length=%d to %s" [len] ;;;
    io_ret (RET_SUCC, buf).

Definition rReceiveMessage (fuel : nat) (connfd : Z) (buf : list Z) : io W (Z * list Z) :=
  signalNoRestart SIGALRM ;;;
  _ <- alarmWithLog MESSAGE_TIMEOUT ;;
  let* (rv, msglen) := rio_readnr fuel connfd (replicate 4 0) 4 in
  if rv <? 4 then
    cancelTimeout ;;; logError "Can't receive length from %s!" [] ;;; io_ret (RET_EREAD, buf)
  else
    let msglen := s32 (le_val msglen) in
    let* (rv, buf) := rio_readnr fuel connfd buf (u64 msglen) in
    if rv <? msglen then
      cancelTimeout ;;; logError "Can't receive message from %s!" [] ;;; io_ret (RET_EREAD, buf)
    else
      cancelTimeout ;;;
      logVerbose "Received message with length=%d from %s" [msglen] ;;;
      io_ret (RET_SUCC, buf).

Definition rSendBytes (fuel : nat) (connfd : Z) (buf : list Z) (len : Z) (errorText : string) : io W Z :=
  signalNoRestart SIGALRM ;;;
  _ <- alarmWithLog MESSAGE_TIMEOUT ;;
  rv <- rio_writenr fuel connfd buf (u64 len) ;;
  if rv <? len then cancelTimeout ;;; logError errorText [] ;;; io_ret RET_EWRITE
  else cancelTimeout ;;; logVerbose "Send complete." [] ;;; io_ret RET_SUCC.
Definition rRecvBytes (fuel : nat) (connfd : Z) (buf : list Z) (len : Z) (errorText : string)
  : io W (Z * list Z) :=
  signalNoRestart SIGALRM ;;;
  _ <- alarmWithLog MESSAGE_TIMEOUT ;;
  let* (rv, buf) := rio_readnr fuel connfd buf (u64 len) in
  if rv <? len then cancelTimeout ;;; logError errorText [] ;;; io_ret (RET_EWRITE, buf)
  else cancelTimeout ;;; logVerbose "Receive complete." [] ;;; io_ret (RET_SUCC, buf).
End util.

(** ** On a connection that is not interrupted *)
Section connected.
Context {W : Type} `{Posix W} (fd : Z) `{!Peer W fd}.
Context (verbose : Z).

Definition peer_same (w w' : W) : Prop :=
  peer_ok w' /\ peer_in w' = peer_in w /\ peer_out w' = peer_out w /\ peer_locked w' = peer_locked w.
#[global] Instance peer_same_trans : Transitive peer_same.
Proof. intros w1 w2 w3 (? & ? & ? & ?) (? & ? & ? & ?). split; [done|]. repeat split; congruence. Qed.

(** Logging and timers run and leave the connection alone. *)
Definition silent {A} (m : io W A) : Prop :=
  forall w, peer_ok w -> exists a w', m w = (Done a, w') /\ peer_same w w'.

Lemma silent_ret {A} (a : A) : silent (io_ret a).
Proof. intros w Hw. by exists a, w. Qed.
Lemma silent_printf f args : silent (printf f args).
Proof. intros w Hw. exists tt. eexists. split; [done|]. by apply peer_print. Qed.
Lemma silent_bind {A B} (m : io W A) (k : A -> io W B) :
  silent m -> (forall a, silent (k a)) -> silent (m <- m ;; k m).
Proof.
  intros Hm Hk w Hw. destruct (Hm w Hw) as (a & w1 & E1 & Hs1).
  destruct (Hk a w1) as (b & w2 & E2 & Hs2); [apply Hs1|].
  exists b, w2. rewrite (bind_Done _ _ _ _ _ E1). split; [done|]. by etrans.
Qed.
Lemma silent_if {A} (b : bool) (m1 m2 : io W A) :
  silent m1 -> silent m2 -> silent (if b then m1 else m2).
Proof. by destruct b. Qed.
Lemma silent_timer c : timer_call c -> silent (syscall c).
Proof.
  intros Hc w Hw. pose proof (peer_timer c w Hc Hw) as Ht. unfold syscall.
  destruct (sys_call c w) as [r w']. exists r, w'. split; [done|apply Ht].
Qed.
Lemma silent_verboseL level f args : silent (logVerboseL verbose level f args).
Proof. apply silent_if; [apply silent_printf|apply silent_ret]. Qed.
Lemma silent_alarm n : silent (alarmWithLog verbose n).
Proof. apply silent_bind; [apply silent_verboseL|intros; by apply silent_timer]. Qed.
Lemma silent_signal n : silent (signalNoRestart n).
Proof.
  intros w Hw. unfold signalNoRestart. pose proof (peer_timer (CSigaction n) w I Hw) as Ht.
  destruct (sys_call _ w) as [r w'] eqn:E. rewrite (bind_call _ _ _ _ _ E).
  destruct (Z.ltb_spec r 0); [lia|]. exists tt, w'. split; [done|]. apply Ht.
Qed.
Lemma silent_message f args : silent (logMessage f args).
Proof. apply silent_printf. Qed.
Lemma silent_warning f args : silent (logWarning f args).
Proof. apply silent_printf. Qed.
Lemma silent_error f args : silent (logError f args).
Proof. apply silent_printf. Qed.
Lemma silent_verbose f args : silent (logVerbose verbose f args).
Proof. apply silent_verboseL. Qed.
Lemma silent_cancel : silent (cancelTimeout verbose).
Proof. apply silent_bind; [apply silent_alarm|intros; apply silent_signal]. Qed.

(** Run a silent step in front of a program. *)
Lemma silent_step {A B} (m : io W A) (k : A -> io W B) w :
  silent m -> peer_ok w -> exists a w', io_bind m k w = k a w' /\ peer_same w w'.
Proof.
  intros Hm Hw. destruct (Hm w Hw) as (a & w1 & E & Hs). exists a, w1.
  by rewrite (bind_Done _ _ _ _ _ E).
Qed.
End connected.

Create HintDb silent.
#[export] Hint Resolve silent_ret silent_printf silent_verboseL silent_alarm silent_signal
  silent_message silent_warning silent_error silent_verbose silent_cancel silent_bind silent_if : silent.
(** [run_silent] executes the silent step at the head of the program. *)
Ltac run_silent :=
  match goal with
  | Hok : peer_ok ?w |- context [io_bind ?m ?k ?w] =>
      let a := fresh "a" in let w1 := fresh "w" in let E := fresh "E" in
      let Hs := fresh "Hs" in let Hok1 := fresh "Hok" in
      destruct (silent_step _ m k w) as (a & w1 & E & Hs);
      [eauto 12 with silent|exact Hok|];
      rewrite E; clear E; pose proof (proj1 Hs) as Hok1
  end.

(** [same_chain] follows the steps from one world to another. *)
Ltac same_chain :=
  repeat match goal with
  | |- peer_same _ ?a _ => first [eassumption | match goal with H : peer_same _ a _ |- _ => apply (transitivity H) end]
  end.

Section transfers.
Context {W : Type} `{Posix W} (fd : Z) `{!Peer W fd}.
Context (verbose : Z).

Lemma rio_readnr_loop_spec fuel buf n nleft w :
  0 <= nleft <= n -> n <= zlen buf -> n < 9223372036854775808 -> peer_ok w ->
  (Z.to_nat nleft < fuel)%nat ->
  let k := Z.min nleft (zlen (peer_in w)) in
  let bufp := n - nleft in
  exists w',
    rio_readnr_loop verbose fuel fd buf n nleft bufp w =
      (Done (bufp + k, ztake bufp buf ++ ztake k (peer_in w) ++ zdrop (bufp + k) buf), w') /\
    peer_ok w' /\ peer_in w' = zdrop k (peer_in w) /\ peer_out w' = peer_out w /\
    peer_locked w' = peer_locked w.
Proof.
  revert buf nleft w. induction fuel as [|fuel IH]; intros buf nleft w Hl Hn Hb Hok Hf; [lia|].
  cbn [rio_readnr_loop]. rewrite (u64_small (n - nleft)), ssize_small by word.
  pose proof (zlen_nonneg (peer_in w)).
  destruct (Z.ltb_spec 0 nleft) as [Hpos|Hz].
  2: { assert (nleft = 0) as -> by lia. replace (Z.min 0 (zlen (peer_in w))) with 0 by lia.
       run_silent. exists w0. rewrite Z.sub_0_r, Z.add_0_r, (ztake_0 0), (zdrop_0 0) by lia.
       cbn [app]. rewrite ztake_zdrop. split; [done|]. apply Hs. }
  pose proof (peer_read nleft w Hpos Hok) as Hr.
  destruct (sys_read fd nleft w) as [[r d] w1] eqn:Er. rewrite (bind_read _ _ _ _ _ _ _ Er).
  destruct Hr as (-> & Hle & Hs & Hnil & Hok1 & Ho & Hlk).
  pose proof (zlen_nonneg (peer_in w1)). pose proof (zlen_nonneg d).
  rewrite (bind_mem _ _ _ _ (mem_write_ok buf (n - nleft) d ltac:(lia) ltac:(lia))).
  destruct (Z.ltb_spec (zlen d) 0); [lia|]. destruct (Z.eqb_spec (zlen d) 0) as [Hd0|Hd0].
  - apply zlen_zero in Hd0. subst d. specialize (Hnil eq_refl). cbn [app] in Hs.
    unfold logMessage. run_silent. run_silent. exists w2. rewrite Hnil in *.
    change (@zlen Z []) with 0. replace (Z.min nleft 0) with 0 by lia.
    rewrite !Z.add_0_r, !(ztake_0 0 []) by lia. split; [done|]. split; [done|].
    destruct Hs1 as (_ & -> & -> & ->), Hs0 as (_ & -> & -> & ->). rewrite <- Hs. done.
  - rewrite u64_small by word.
    set (buf' := ztake (n - nleft) buf ++ d ++ zdrop (n - nleft + zlen d) buf).
    replace (n - nleft + zlen d) with (n - (nleft - zlen d)) by lia.
    assert (zlen buf' = zlen buf) as Hbl.
    { unfold buf'. rewrite !zlen_app, zlen_take, zlen_drop. lia. }
    destruct (IH buf' (nleft - zlen d) w1) as (w' & E & Hok' & Hs' & Ho' & Hlk');
      [lia|lia|lia|done|lia|]. exists w'. rewrite Hs, zlen_app. rewrite E.
    set (k1 := Z.min (nleft - zlen d) (zlen (peer_in w1))) in *.
    replace (Z.min nleft (zlen d + zlen (peer_in w1))) with (zlen d + k1) by lia.
    split; [|split; [done|split; [|split; congruence]]].
    + f_equal. f_equal. f_equal; [lia|].
      pose proof (store_twice buf d (ztake k1 (peer_in w1)) (n - nleft) ltac:(lia) ltac:(lia)) as E2.
      cbn zeta in E2. fold buf' in E2. rewrite zlen_take in E2. replace (Z.max 0 _) with k1 in E2 by lia.
      replace (n - (nleft - zlen d)) with (n - nleft + zlen d) by lia.
      rewrite E2, ztake_app, (ztake_all _ d), Z.add_assoc by lia. repeat f_equal. lia.
    + rewrite Hs', zdrop_app, (zdrop_all _ d) by lia. cbn [app]. f_equal. lia.
Qed.

(** [rio_readnr] stores what arrives, up to [n] bytes. *)
Lemma rio_readnr_spec fuel buf n w :
  0 <= n <= zlen buf -> n < 9223372036854775808 -> peer_ok w -> (Z.to_nat n < fuel)%nat ->
  let k := Z.min n (zlen (peer_in w)) in
  exists w',
    rio_readnr verbose fuel fd buf n w = (Done (k, ztake k (peer_in w) ++ zdrop k buf), w') /\
    peer_ok w' /\ peer_in w' = zdrop k (peer_in w) /\ peer_out w' = peer_out w /\
    peer_locked w' = peer_locked w.
Proof.
  intros Hn Hb Hok Hf. destruct (rio_readnr_loop_spec fuel buf n n w) as (w' & E & Hr); [lia|lia|done..|].
  exists w'. split; [|exact Hr]. unfold rio_readnr. rewrite Z.sub_diag, Z.add_0_l in E.
  by rewrite (ztake_0 0 buf) in E by lia.
Qed.

(** More bytes than the buffer has room for. *)
Lemma rio_readnr_loop_overflow fuel buf n nleft w :
  0 <= nleft <= n -> n < 9223372036854775808 -> peer_ok w ->
  n - nleft <= zlen buf -> zlen buf < n - nleft + Z.min nleft (zlen (peer_in w)) ->
  (Z.to_nat (zlen buf - (n - nleft)) < fuel)%nat ->
  exists w', rio_readnr_loop verbose fuel fd buf n nleft (n - nleft) w = (Fault, w').
Proof.
  revert buf nleft w. induction fuel as [|fuel IH]; intros buf nleft w Hl Hb Hok Hp Hov Hf; [lia|].
  cbn [rio_readnr_loop]. pose proof (zlen_nonneg (peer_in w)).
  destruct (Z.ltb_spec 0 nleft) as [Hpos|Hz]; [|lia].
  pose proof (peer_read nleft w Hpos Hok) as Hr.
  destruct (sys_read fd nleft w) as [[r d] w1] eqn:Er. rewrite (bind_read _ _ _ _ _ _ _ Er).
  destruct Hr as (-> & Hle & Hs & Hnil & Hok1 & Ho & Hlk). pose proof (zlen_nonneg d).
  destruct (mem_write buf (n - nleft) d) as [buf'| |] eqn:Em.
  - rewrite (bind_mem _ _ _ _ eq_refl). apply mem_write_Ret in Em as Em'. destruct Em' as (_ & Hd & _).
    apply mem_write_zlen in Em. rewrite Hs, zlen_app in Hov.
    destruct (Z.ltb_spec (zlen d) 0); [lia|]. destruct (Z.eqb_spec (zlen d) 0) as [Hd0|Hd0].
    { apply zlen_zero in Hd0. rewrite (Hnil Hd0) in Hs. subst d. cbn in Hs. rewrite <- Hs in Hov.
      change (@zlen Z []) with 0 in Hov. lia. }
    rewrite u64_small by word. replace (n - nleft + zlen d) with (n - (nleft - zlen d)) by lia.
    apply IH; try done; try lia.
  - unfold mem_write in Em. by destruct (_ && _).
  - exists w1. by rewrite bind_fault.
Qed.

Lemma rio_writenr_loop_spec fuel buf n nleft w :
  0 <= nleft <= n -> n <= zlen buf -> n < 9223372036854775808 -> peer_ok w ->
  (Z.to_nat nleft < fuel)%nat ->
  exists w',
    rio_writenr_loop verbose fuel fd buf n nleft (n - nleft) w = (Done n, w') /\
    peer_ok w' /\ peer_in w' = peer_in w /\
    peer_out w' = peer_out w ++ ztake nleft (zdrop (n - nleft) buf) /\
    peer_locked w' = peer_locked w.
Proof.
  revert nleft w. induction fuel as [|fuel IH]; intros nleft w Hl Hn Hb Hok Hf; [lia|].
  cbn [rio_writenr_loop]. destruct (Z.ltb_spec 0 nleft) as [Hpos|Hz].
  2: { assert (nleft = 0) as -> by lia. rewrite ssize_small by lia. run_silent. exists w0.
       rewrite (ztake_0 0), app_nil_r by lia. split; [done|]. apply Hs. }
  rewrite (bind_mem _ _ _ _ (mem_read_ok buf (n - nleft) nleft ltac:(lia) ltac:(lia) ltac:(lia))).
  set (d := ztake nleft (zdrop (n - nleft) buf)).
  assert (zlen d = nleft) as Hd by (unfold d; rewrite zlen_take, zlen_drop; lia).
  assert (d <> []) as Hd0 by (intros Hz; rewrite Hz in Hd; change (@zlen Z []) with 0 in Hd; lia).
  pose proof (peer_write d w Hd0 Hok) as Hw.
  destruct (sys_write fd d w) as [r w1] eqn:Ew. rewrite (bind_write _ _ _ _ _ _ Ew).
  destruct Hw as (Hr & Hs & Hok1 & Hin & Hlk). destruct (Z.leb_spec r 0); [lia|].
  rewrite u64_small by word. replace (n - nleft + r) with (n - (nleft - r)) by lia.
  destruct (IH (nleft - r) w1) as (w' & E & Hok' & Hi' & Hs' & Hlk'); [lia|done|done|done|lia|].
  exists w'. split; [exact E|]. split; [done|]. split; [congruence|]. split; [|congruence].
  rewrite Hs', Hs, <- app_assoc. f_equal. rewrite <- (ztake_zdrop r d) at 2. f_equal. unfold d.
  rewrite zdrop_ztake, zdrop_zdrop by lia. f_equal. f_equal. lia.
Qed.
Lemma rio_writenr_spec fuel buf n w :
  0 <= n <= zlen buf -> n < 9223372036854775808 -> peer_ok w -> (Z.to_nat n < fuel)%nat ->
  exists w', rio_writenr verbose fuel fd buf n w = (Done n, w') /\
    peer_ok w' /\ peer_in w' = peer_in w /\ peer_out w' = peer_out w ++ ztake n buf /\
    peer_locked w' = peer_locked w.
Proof.
  intros Hn Hb Hok Hf. destruct (rio_writenr_loop_spec fuel buf n n w) as (w' & E & Hr); [lia|lia|done..|].
  exists w'. rewrite Z.sub_diag in E, Hr. by rewrite (zdrop_0 0 buf) in Hr by lia.
Qed.

(** ** Messages *)

(** A message on the wire: its length and its bytes. *)
Definition wire (m : list Z) : list Z := le_bytes 4 (zlen m) ++ m.

Lemma zlen_wire m : zlen (wire m) = 4 + zlen m.
Proof. unfold wire. by rewrite zlen_app, zlen_le_bytes. Qed.

Lemma rSendMessage_spec fuel message len buf w :
  0 <= len <= zlen message -> len <= 2044 -> zlen buf = 2048 -> peer_ok w -> (2048 < fuel)%nat ->
  exists w' buf',
    rSendMessage verbose fuel fd message len buf w = (Done (RET_SUCC, buf'), w') /\
    peer_ok w' /\ peer_in w' = peer_in w /\ peer_out w' = peer_out w ++ wire (ztake len message).
Proof.
  intros Hl Hm Hb Hok Hf. unfold rSendMessage. rewrite u32_small, (u64_small len) by word.
  assert (zlen (le_bytes 4 len) = 4) as H4 by apply zlen_le_bytes.
  assert (zlen (ztake len message) = len) as Hlm by (rewrite zlen_take; lia).
  set (b1 := le_bytes 4 len ++ zdrop 4 buf).
  rewrite (bind_mem _ _ _ b1)
    by (rewrite mem_write_ok, H4, (ztake_0 0) by lia; done).
  rewrite (bind_mem _ _ _ (ztake len message)) by (rewrite mem_read_ok, (zdrop_0 0) by lia; done).
  set (b2 := wire (ztake len message) ++ zdrop (4 + len) buf).
  assert (zlen b1 = 2048) as Hb1 by (unfold b1; rewrite zlen_app, H4, zlen_drop; lia).
  rewrite (bind_mem _ _ _ b2).
  2: { rewrite mem_write_ok by lia. unfold b1, b2, wire. rewrite Hlm.
       rewrite ztake_app_length, zdrop_app, (zdrop_all _ (le_bytes 4 len)), H4, zdrop_zdrop by lia.
       cbn [app]. rewrite <- app_assoc. repeat f_equal. lia. }
  rewrite u64_small by word. run_silent. run_silent.
  assert (zlen b2 = 2048) as Hb2 by (unfold b2; rewrite zlen_app, zlen_wire, zlen_drop; lia).
  destruct (rio_writenr_spec fuel b2 (len + 4) w1) as (w2 & Ew & Hok2 & Hi & Ho & _);
    [lia|lia|done|lia|].
  rewrite (bind_Done _ _ _ _ _ Ew), Z.ltb_irrefl. unfold logVerbose. run_silent. run_silent.
  exists w4, b2. split; [done|]. split; [done|].
  destruct Hs2 as (_ & -> & -> & _), Hs1 as (_ & -> & -> & _). rewrite Hi, Ho.
  destruct Hs0 as (_ & -> & -> & _), Hs as (_ & -> & -> & _). split; [done|]. f_equal.
  unfold b2. rewrite ztake_app_length by (rewrite zlen_wire; lia). done.
Qed.

(** The length, and then the message. *)
Lemma receive_length fuel w m rest :
  zlen m < 2147483648 -> peer_ok w -> peer_in w = wire m ++ rest -> (4 < fuel)%nat ->
  exists w', rio_readnr verbose fuel fd (replicate 4 0) 4 w = (Done (4, le_bytes 4 (zlen m)), w') /\
    peer_ok w' /\ peer_in w' = m ++ rest /\ peer_out w' = peer_out w /\
    s32 (le_val (le_bytes 4 (zlen m))) = zlen m.
Proof.
  intros Hm Hok Hin Hf. pose proof (zlen_nonneg m). pose proof (zlen_nonneg rest).
  assert (zlen (le_bytes 4 (zlen m)) = 4) as H4 by apply zlen_le_bytes.
  destruct (rio_readnr_spec fuel (replicate 4 0) 4 w)
    as (w' & E & Hok' & Hi & Ho & _); [done|done|done|lia|].
  rewrite Hin, zlen_app, zlen_wire in E, Hi. replace (Z.min 4 _) with 4 in E, Hi by lia.
  unfold wire in E, Hi. rewrite <- app_assoc in E, Hi.
  rewrite ztake_app_length in E by done. rewrite zdrop_app_length in Hi by done.
  rewrite (zdrop_all 4 (replicate 4 0)), app_nil_r in E by done.
  exists w'. do 4 (split; [done|]). rewrite le_val_le_bytes by (cbn; lia). apply s32_small. lia.
Qed.

Lemma rReceiveMessage_spec fuel buf w m rest :
  zlen m <= zlen buf -> zlen m < 2147483648 -> peer_ok w -> peer_in w = wire m ++ rest ->
  (4 + Z.to_nat (zlen m) < fuel)%nat ->
  exists w', rReceiveMessage verbose fuel fd buf w = (Done (RET_SUCC, m ++ zdrop (zlen m) buf), w') /\
    peer_ok w' /\ peer_in w' = rest /\ peer_out w' = peer_out w.
Proof.
  intros Hl Hm Hok Hin Hf. unfold rReceiveMessage. run_silent. run_silent.
  assert (peer_in w1 = wire m ++ rest) as Hin1
    by (destruct Hs0 as (_ & -> & _), Hs as (_ & -> & _); done).
  destruct (receive_length fuel w1 m rest) as (w2 & E & Hok2 & Hi2 & Ho2 & Hval); [done|done|done|lia|].
  rewrite (bind_Done _ _ _ _ _ E). cbn match. rewrite Z.ltb_irrefl, Hval.
  pose proof (zlen_nonneg m). pose proof (zlen_nonneg rest). rewrite u64_small by word.
  destruct (rio_readnr_spec fuel buf (zlen m) w2) as (w3 & E3 & Hok3 & Hi3 & Ho3 & _);
    [lia|lia|done|lia|].
  rewrite Hi2, zlen_app in E3, Hi3. replace (Z.min (zlen m) _) with (zlen m) in E3, Hi3 by lia.
  rewrite ztake_app_length in E3 by done. rewrite zdrop_app_length in Hi3 by done.
  rewrite (bind_Done _ _ _ _ _ E3). cbn match. rewrite Z.ltb_irrefl. unfold logVerbose.
  run_silent. run_silent. exists w5. split; [done|]. split; [done|].
  destruct Hs2 as (_ & -> & -> & _), Hs1 as (_ & -> & -> & _). rewrite Hi3, Ho3, Ho2.
  by destruct Hs0 as (_ & _ & -> & _), Hs as (_ & _ & -> & _).
Qed.

(** C26. A message goes over a connection whole: what [rSendMessage] writes makes
    [rReceiveMessage] on the other side store exactly the bytes of the message at the
    start of its buffer and leave what comes after them in the connection, whatever the
    pieces in which the connection takes and delivers them. *)
Theorem message_roundtrip fuel message len sbuf w1 :
  0 <= len <= zlen message -> len <= 2044 -> zlen sbuf = 2048 -> peer_ok w1 -> (2052 < fuel)%nat ->
  exists w1' sbuf' sent,
    rSendMessage verbose fuel fd message len sbuf w1 = (Done (RET_SUCC, sbuf'), w1') /\
    peer_out w1' = peer_out w1 ++ sent /\
    forall w2 rest buf,
      peer_ok w2 -> peer_in w2 = sent ++ rest -> len <= zlen buf ->
      exists w2',
        rReceiveMessage verbose fuel fd buf w2
          = (Done (RET_SUCC, ztake len message ++ zdrop len buf), w2') /\
        peer_in w2' = rest.
Proof.
  intros Hl Hm Hb Hok Hf.
  destruct (rSendMessage_spec fuel message len sbuf w1) as (w1' & b & E & _ & _ & Ho); [done..|lia|].
  exists w1', b, (wire (ztake len message)). split; [done|]. split; [done|].
  intros w2 rest buf Hok2 Hin Hlb. assert (zlen (ztake len message) = len) as Hz by (rewrite zlen_take; lia).
  destruct (rReceiveMessage_spec fuel buf w2 (ztake len message) rest) as (w2' & E2 & _ & Hi & _);
    [lia|lia|done|done|lia|].
  exists w2'. by rewrite Hz in E2.
Qed.

(** The length that arrives is not compared with the room in the buffer: a peer
    that announces, and sends, more bytes than the buffer has makes the receiver write
    behind it. *)
Theorem rReceiveMessage_overflow fuel buf w m rest :
  zlen buf < zlen m -> zlen m < 2147483648 -> peer_ok w -> peer_in w = wire m ++ rest ->
  (4 + Z.to_nat (zlen m) < fuel)%nat ->
  exists w', rReceiveMessage verbose fuel fd buf w = (Fault, w').
Proof.
  intros Hl Hm Hok Hin Hf. unfold rReceiveMessage. run_silent. run_silent.
  assert (peer_in w1 = wire m ++ rest) as Hin1
    by (destruct Hs0 as (_ & -> & _), Hs as (_ & -> & _); done).
  destruct (receive_length fuel w1 m rest) as (w2 & E & Hok2 & Hi2 & Ho2 & Hval); [done|done|done|lia|].
  rewrite (bind_Done _ _ _ _ _ E). cbn match. rewrite Z.ltb_irrefl, Hval.
  pose proof (zlen_nonneg m). pose proof (zlen_nonneg rest). pose proof (zlen_nonneg buf).
  rewrite u64_small by word.
  destruct (rio_readnr_loop_overflow fuel buf (zlen m) (zlen m) w2) as [w' Ew];
    [lia|lia|done|lia|rewrite Hi2, zlen_app; lia|lia|].
  exists w'. unfold io_bind, rio_readnr. rewrite Z.sub_diag in Ew. by rewrite Ew.
Qed.
End transfers.

Lemma message_roundtrip_witness :
  exists w b, rSendMessage 0 3000 3 [49; 32; 53; 0] 4 (replicate 2048 0) quiet = (Done (0, b), w) /\
    sc_sent w = [4; 0; 0; 0; 49; 32; 53; 0] /\
    exists w', rReceiveMessage 0 3000 3 (replicate 6 9) (with_reads [Chunk [4; 0]; Chunk [0; 0; 49]; Chunk [32; 53; 0; 7]])
      = (Done (0, [49; 32; 53; 0; 9; 9]), w') /\ sc_reads w' = [Chunk [7]].
Proof.
  destruct (message_roundtrip 3 0 3000 [49; 32; 53; 0] 4 (replicate 2048 0) quiet)
    as (w & b & sent & E & Ho & Hr); [done|done|done|by repeat split; constructor|lia|].
  vm_compute in E. injection E as <- <-. cbn in Ho. subst sent.
  eexists _, _. split; [vm_compute; reflexivity|]. split; [reflexivity|].
  destruct (Hr (with_reads [Chunk [4; 0]; Chunk [0; 0; 49]; Chunk [32; 53; 0; 7]]) [7] (replicate 6 9))
    as (w' & E' & Hi); [split; [repeat constructor; done|split; [constructor|done]]|done|done|].
  exists w'. split; [exact E'|]. vm_compute in E'. by injection E' as <-.
Defined.

Lemma rReceiveMessage_overflow_witness :
  exists w', rReceiveMessage 0 3000 3 (replicate 2 0) (with_reads [Chunk [3; 0; 0; 0; 1; 2; 3]])
    = (Fault, w').
Proof.
  apply (rReceiveMessage_overflow 3 0 3000 (replicate 2 0)
           (with_reads [Chunk [3; 0; 0; 0; 1; 2; 3]]) [1; 2; 3] []); try done; [|by apply Nat.ltb_lt].
  split; [repeat constructor; done|split; [constructor|done]].
Defined.
