(* ===== verification/MperfNet.v ===== *)
(** src/3rd/mperf/src/util.c (sockets, shared memory), include/util.h (calls that end the
    program when they fail) and log.c: how the programs of the throughput tool get their
    descriptors, and what they leave open. What the resolver answers is an argument. *)

From stdpp Require Import base list numbers strings gmap.
From S2P Require Import Prelude Endian SocketAddress Posix CText MperfUtil.

Open Scope Z_scope.
Open Scope io_scope.

Definition SOL_SOCKET : Z := 1.
Definition SO_REUSEADDR : Z := 2.
Definition LISTENQ : Z := 1024.
Definition STDOUT_FILENO : Z := 1.
Definition STDERR_FILENO : Z := 2.
Definition SMEM_MESSAGE : Z := 2.

(** [sin_port = htons(port)] in a [sockaddr_in]. *)
Definition put_sin_port (addr : list Z) (port : Z) : outcome (list Z) :=
  mem_write addr 2 (le_bytes 2 (htons (u16 port))).

(** The variables of log.c that the programs set. *)
Record Log : Type := mkLog { log_verbose : Z; log_FD : Z }.
Definition Log_initial : Log := mkLog 0 STDERR_FILENO.
Definition setVerbose (level : Z) (l : Log) : Log := mkLog level (log_FD l).

Section net.
Context {W : Type} `{Posix W}.
(** The address [getaddrinfo] finds for a node, a family and a type of socket. *)
Context (resolve : list Z -> Z -> Z -> list Z).

Definition freeaddrinfo : io W unit := _ <- syscall CFreeaddrinfo ;; io_ret tt.

(** The part of [netdial] that binds the socket; it has closed it when it fails. *)
Definition bind_local (domain proto s : Z) (local : option (list Z)) (local_port : Z) : io W bool :=
  match local with
   | Some l =>
       a <- io_mem (if negb (local_port =? 0) then put_sin_port (resolve l domain proto) local_port
                    else Ret (resolve l domain proto)) ;;
       rv <- syscall (CBind s a) ;;
       if rv <? 0 then _ <- syscall (CClose s) ;; freeaddrinfo ;;; freeaddrinfo ;;; io_ret false
       else freeaddrinfo ;;; io_ret true
   | None =>
       if negb (local_port =? 0) then
         rv <- syscall (CBind s (sockaddr_in (replicate 4 0) (u16 local_port))) ;;
         if rv <? 0 then _ <- syscall (CClose s) ;; io_ret false
         else io_ret true
       else io_ret true
   end.

(** [netdial] *)
Definition netdial (domain proto : Z) (local : option (list Z)) (local_port : Z)
  (server : list Z) (port : Z) : io W Z :=
  lr <- (match local with Some l => syscall (CGetaddrinfo l domain proto) | None => io_ret 0 end) ;;
  if negb (lr =? 0) then io_ret (-1)
  else
  rv <- syscall (CGetaddrinfo server domain proto) ;;
  if negb (rv =? 0) then io_ret (-1)
  else
  let server_addr := resolve server domain proto in
  s <- syscall (CSocket (le_val (ztake 2 server_addr)) proto 0) ;;
  if s <? 0 then
    (match local with Some _ => freeaddrinfo | None => io_ret tt end) ;;;
    freeaddrinfo ;;; io_ret (-1)
  else
  bound <- bind_local domain proto s local local_port ;;
  if negb bound then io_ret (-1)
  else
  rv <- syscall (CSetsockopt s SOL_SOCKET SO_REUSEADDR 1) ;;
  if rv =? -1 then _ <- syscall (CClose s) ;; io_ret (-1)
  else
  a <- io_mem (put_sin_port server_addr port) ;;
  rv <- syscall (CConnect s a) ;;
  e <- errno ;;
  if (rv <? 0) && negb (e =? EINPROGRESS) then
    _ <- syscall (CClose s) ;; freeaddrinfo ;;; io_ret (-1)
  else freeaddrinfo ;;; io_ret s.

(** [open_listenfd]: [bind] is told [sizeof(struct sockaddr)] bytes. *)
Definition listen_on (listenfd : Z) (local : option (list Z)) (port : Z) : io W Z :=
  if listenfd <? 0 then io_ret (-1)
  else
  rv <- syscall (CSetsockopt listenfd SOL_SOCKET SO_REUSEADDR 1) ;;
  if rv <? 0 then io_ret (-1)
  else
  serveraddr <- io_mem (match local with
                        | Some l => put_sin_port (resolve l AF_INET IPPROTO_TCP) port
                        | None => Ret (sockaddr_in (replicate 4 0) (u16 port))
                        end) ;;
  rv <- syscall (CBind listenfd (ztake 16 serveraddr)) ;;
  if rv <? 0 then io_ret (-1)
  else
  rv <- syscall (CListen listenfd LISTENQ) ;;
  if rv <? 0 then io_ret (-1) else io_ret listenfd.
Definition open_listenfd (local : option (list Z)) (port : Z) : io W Z :=
  lr <- (match local with Some l => syscall (CGetaddrinfo l AF_INET IPPROTO_TCP) | None => io_ret 0 end) ;;
  if negb (lr =? 0) then io_ret (-1)
  else
  listenfd <- syscall (CSocket AF_INET SOCK_STREAM 0) ;;
  ret <- listen_on listenfd local port ;;
  (match local with Some _ => freeaddrinfo | None => io_ret tt end) ;;;
  io_ret ret.

(** Calls that must succeed. *)
Definition failExit {A} (format : string) : io W A := logFatal format [].
Definition forceClose (fd : Z) : io W Z :=
  ret <- syscall (CClose fd) ;;
  if ret <? 0 then failExit "close() failed(%s)." else io_ret ret.
Definition forceSignal (signum : Z) : io W Z :=
  ret <- syscall (CSignal signum) ;;
  if ret =? -1 then failExit "signal() failed(%s)." else io_ret ret.
Definition forceOpenListenFD (local : option (list Z)) (port : Z) : io W Z :=
  ret <- open_listenfd local port ;;
  if ret <? 0 then failExit "open_listenfd() failed(%s)." else io_ret ret.

Definition printUsageAndExit {A} : io W A := printf "Usage: %s [options]\n%s\n" [] ;;; io_exit 0.
Definition printVersionAndExit {A} : io W A := printf "%s %s\n" [] ;;; io_exit 0.

(** The file of the log. *)
Definition redirectLogTo (path : list Z) (l : Log) : io W Log :=
  (if negb (log_FD l =? STDOUT_FILENO) && negb (log_FD l =? STDERR_FILENO)
   then _ <- syscall (CClose (log_FD l)) ;; io_ret tt else io_ret tt) ;;;
  newFD <- syscall (COpenLog path) ;;
  if newFD =? -1 then logFatal "Can't open log file %s(%s)." []
  else io_ret (mkLog (log_verbose l) newFD).
Definition resetLogFile (l : Log) : io W Log :=
  (if negb (log_FD l =? STDERR_FILENO) && negb (log_FD l =? STDOUT_FILENO)
   then _ <- syscall (CClose (log_FD l)) ;; io_ret tt else io_ret tt) ;;;
  io_ret (mkLog (log_verbose l) STDERR_FILENO).
Definition initLog : io W unit := _ <- syscall CGettimeofday ;; io_ret tt.
Definition printInitLog : io W unit :=
  logMessage "%s log %s" [] ;;; logMessage "Timestamp initialized at %s(%lf)" [].

(** A block of zeros that the processes share. *)
Definition initSharedMem (verbose index : Z) : io W (list Z) :=
  rv <- syscall (CMmap SHARED_BLOCK_LEN) ;;
  if rv =? -1 then logFatal "mmap() failed(%s)." []
  else
    logVerbose verbose "Shared memory block #%d(%lx) initialized." [index; rv] ;;;
    io_ret (replicate (Z.to_nat SHARED_BLOCK_LEN) 0).
End net.

(** ** Descriptors and resolver lists

    What the kernel and the resolver keep for a process: the open descriptors and the
    number of address lists that have not been freed. *)
Class Ledger (W : Type) `{Posix W} := {
  led_fds : W -> gset Z;
  led_lists : W -> Z;
  led_print : forall m w, led_fds (sys_print m w) = led_fds w /\ led_lists (sys_print m w) = led_lists w;
  led_call : forall c w,
    let '(r, w') := sys_call c w in
    match c with
    | CSocket _ _ _ | CAccept _ | COpen _ | COpenLog _ =>
        led_lists w' = led_lists w /\
        ((r < 0 /\ led_fds w' = led_fds w) \/
         (0 <= r /\ (r ∉ led_fds w) /\ led_fds w' = {[r]} ∪ led_fds w))
    | CClose fd => led_lists w' = led_lists w /\ led_fds w' = led_fds w ∖ {[fd]}
    | CGetaddrinfo _ _ _ =>
        led_fds w' = led_fds w /\
        ((r = 0 /\ led_lists w' = led_lists w + 1) \/ (r <> 0 /\ led_lists w' = led_lists w))
    | CFreeaddrinfo => led_fds w' = led_fds w /\ led_lists w' = led_lists w - 1
    | _ => led_fds w' = led_fds w /\ led_lists w' = led_lists w
    end
}.

(** [run_call] executes the call at the head of the program and keeps its law. *)
Ltac run_call :=
  match goal with
  | |- context [io_bind (syscall ?c) ?k ?w] =>
      let r := fresh "r" in let w1 := fresh "w" in let E := fresh "E" in let L := fresh "L" in
      pose proof (led_call c w) as L; destruct (sys_call c w) as [r w1] eqn:E;
      rewrite (bind_call _ _ _ _ _ E); clear E; cbn match in L
  end.

Section resources.
Context {W : Type} `{Posix W} `{!Ledger W}.
Context (resolve : list Z -> Z -> Z -> list Z).
Hypothesis resolve_sockaddr : forall n f t, 4 <= zlen (resolve n f t).

Lemma put_sin_port_ok n f t port : exists a, put_sin_port (resolve n f t) port = Ret a.
Proof.
  unfold put_sin_port. eexists. apply mem_write_ok; [done|]. rewrite zlen_le_bytes.
  specialize (resolve_sockaddr n f t). lia.
Qed.

(** What a call that gives a descriptor leaves behind. *)
Definition opened (w : W) (r : Z) (w' : W) : Prop :=
  0 <= r /\ (r ∉ led_fds w) /\ led_fds w' = {[r]} ∪ led_fds w /\ led_lists w' = led_lists w.

Lemma freeaddrinfo_spec w :
  exists w', freeaddrinfo w = (Done tt, w') /\
    led_fds w' = led_fds w /\ led_lists w' = led_lists w - 1.
Proof. unfold freeaddrinfo. run_call. by exists w0. Qed.
End resources.

(** [run_free] executes a [freeaddrinfo]. *)
Ltac run_free :=
  match goal with
  | |- context [io_bind freeaddrinfo ?k ?w] =>
      let w1 := fresh "w" in let E := fresh "E" in let Lf := fresh "Lf" in let Ll := fresh "Ll" in
      destruct (freeaddrinfo_spec w) as (w1 & E & Lf & Ll); rewrite (bind_Done _ _ _ _ _ E); clear E
  end.

(** [ledger] closes an equation on descriptors by running the laws backwards. *)
Ltac ledger :=
  repeat match goal with H : _ /\ _ |- _ => destruct H end;
  repeat match goal with H : led_fds ?w = _ |- context [led_fds ?w] => rewrite H; clear H end;
  set_solver by fail.

Section dial.
Context {W : Type} `{Posix W} `{!Ledger W}.
Context (resolve : list Z -> Z -> Z -> list Z).
Hypothesis resolve_sockaddr : forall n f t, 4 <= zlen (resolve n f t).
Context (domain proto local_port : Z) (local : option (list Z)).

(** The lists that are live while [netdial] has a socket. *)
Definition local_lists : Z := match local with Some _ => 1 | None => 0 end.

Lemma bind_local_spec s w :
  exists ok w', bind_local resolve domain proto s local local_port w = (Done ok, w') /\
    if ok then led_fds w' = led_fds w /\ led_lists w' = led_lists w - local_lists
    else led_fds w' = led_fds w ∖ {[s]} /\
         led_lists w' = led_lists w - 2 * local_lists.
Proof.
  unfold bind_local, local_lists. destruct local as [l|].
  - destruct (put_sin_port_ok resolve resolve_sockaddr l domain proto local_port) as [a Ea].
    assert (exists b, (if negb (local_port =? 0) then put_sin_port (resolve l domain proto) local_port
                       else Ret (resolve l domain proto)) = Ret b) as [b Eb]
      by (destruct (negb _); eauto).
    rewrite (bind_mem _ _ _ _ Eb). run_call. destruct (r <? 0).
    + run_call. run_free. run_free. exists false, w3. split; [done|]. split; [ledger|lia].
    + run_free. exists true, w1. split; [done|]. split; [ledger|lia].
  - destruct (negb _); [run_call; destruct (r <? 0); [run_call|]|];
      (eexists _, _; split; [done|]); cbn; (split; [ledger|lia]).
Qed.

(** What [netdial] keeps. A descriptor that it returns is new and the only one it
    opened, and the resolver lists are freed. When it fails no descriptor stays open, but
    one resolver list may: that of the local address when the server is not found, that of
    the server when the socket cannot be bound without a local address or be configured. *)
Theorem netdial_resources server port w :
  exists r w', netdial resolve domain proto local local_port server port w = (Done r, w') /\
    (opened w r w' \/
     (r = -1 /\ led_fds w' = led_fds w /\ led_lists w <= led_lists w' <= led_lists w + 1)).
Proof.
  unfold netdial.
  assert (exists lr w1, (match local with Some l => syscall (CGetaddrinfo l domain proto) | None => io_ret 0 end) w
    = (Done lr, w1) /\ led_fds w1 = led_fds w /\
    if lr =? 0 then led_lists w1 = led_lists w + local_lists else led_lists w1 = led_lists w)
    as (lr & w1 & E & Lf & Ll).
  { unfold local_lists. destruct local as [l|]; [|exists 0, w; rewrite Z.add_0_r; done].
    unfold syscall. pose proof (led_call (CGetaddrinfo l domain proto) w) as L.
    destruct (sys_call _ w) as [r w1]. exists r, w1. split; [done|]. split; [apply L|].
    destruct L as (_ & [[-> ?]|[? ?]]); [done|]. destruct (Z.eqb_spec r 0); done. }
  rewrite (bind_Done _ _ _ _ _ E). clear E. pose proof (eq_refl local_lists) as Hll.
  assert (0 <= local_lists <= 1) by (unfold local_lists; destruct local; lia).
  destruct (lr =? 0); cbn [negb]; [|exists (-1), w1; split; [done|right; split; [done|split; [done|lia]]]].
  run_call. destruct (Z.eqb_spec r 0); cbn [negb];
    [|exists (-1), w0; split; [done|right; split; [done|split; [ledger|lia]]]].
  assert (led_fds w0 = led_fds w /\ led_lists w0 = led_lists w + local_lists + 1) as [Lf0 Ll0]
    by (split; [ledger|lia]). clear L Lf Ll. cbn zeta.
  run_call. destruct L as [Ll1 L1]. destruct (Z.ltb_spec r0 0).
  { destruct L1 as [[_ L1]|[? _]]; [|lia].
    assert (exists w3, (match local with Some _ => freeaddrinfo | None => io_ret tt end) w2 = (Done tt, w3) /\
      led_fds w3 = led_fds w2 /\ led_lists w3 = led_lists w2 - local_lists) as (w3 & E & Lf3 & Ll3).
    { unfold local_lists. destruct local; [apply freeaddrinfo_spec|]. exists w2. split; [done|]. split; [done|lia]. }
    rewrite (bind_Done _ _ _ _ _ E). run_free. exists (-1), w4. split; [done|]. right.
    split; [done|]. split; [ledger|lia]. }
  destruct L1 as [[? _]|(_ & Hnew & Lf1)]; [lia|]. rewrite Lf0 in Hnew.
  destruct (bind_local_spec r0 w2) as (ok & w3 & E & L3). rewrite (bind_Done _ _ _ _ _ E). clear E.
  destruct ok; cbn [negb].
  2: { exists (-1), w3. split; [done|]. right. split; [done|]. split; [ledger|lia]. }
  run_call. destruct (r1 =? -1).
  { run_call. exists (-1), w5. split; [done|]. right. split; [done|]. split; [ledger|lia]. }
  destruct (put_sin_port_ok resolve resolve_sockaddr server domain proto port) as [a Ea].
  rewrite (bind_mem _ _ _ _ Ea). run_call. rewrite bind_errno. destruct (_ && _).
  - run_call. run_free. exists (-1), w7. split; [done|]. right. split; [done|]. split; [ledger|lia].
  - run_free. exists r0, w6. split; [done|]. left. split; [done|]. split; [done|]. split; [ledger|lia].
Qed.
End dial.

Section listening.
Context {W : Type} `{Posix W} `{!Ledger W}.
Context (resolve : list Z -> Z -> Z -> list Z).
Hypothesis resolve_sockaddr : forall n f t, 4 <= zlen (resolve n f t).
Context (local : option (list Z)) (port : Z).

Lemma listen_on_spec fd w :
  exists r w', listen_on resolve fd local port w = (Done r, w') /\
    led_fds w' = led_fds w /\ led_lists w' = led_lists w /\ (r = -1 \/ r = fd /\ 0 <= fd).
Proof.
  unfold listen_on. destruct (Z.ltb_spec fd 0); [exists (-1), w; auto|]. run_call.
  destruct (r <? 0); [exists (-1), w0; split; [done|]; split; [ledger|split; [lia|auto]]|].
  assert (exists a, (match local with
                     | Some l => put_sin_port (resolve l AF_INET IPPROTO_TCP) port
                     | None => Ret (sockaddr_in (replicate 4 0) (u16 port)) end) = Ret a) as [a Ea]
    by (destruct local; [by apply put_sin_port_ok|eauto]).
  rewrite (bind_mem _ _ _ _ Ea). run_call.
  destruct (r0 <? 0); [exists (-1), w1; split; [done|]; split; [ledger|split; [lia|auto]]|]. run_call.
  destruct (r1 <? 0); eexists _, _; (split; [done|]); (split; [ledger|split; [lia|auto]]).
Qed.

(** What [open_listenfd] keeps. A descriptor that it returns is new and the only one
    it opened. When it fails after [socket] the socket stays open; the resolver list is
    always freed. *)
Theorem open_listenfd_resources w :
  exists r w', open_listenfd resolve local port w = (Done r, w') /\
    (opened w r w' \/
     (r = -1 /\ led_lists w' = led_lists w /\
      (led_fds w' = led_fds w \/
       exists fd, 0 <= fd /\ (fd ∉ led_fds w) /\ led_fds w' = {[fd]} ∪ led_fds w))).
Proof.
  unfold open_listenfd.
  assert (exists lr w1, (match local with Some l => syscall (CGetaddrinfo l AF_INET IPPROTO_TCP)
                         | None => io_ret 0 end) w = (Done lr, w1) /\ led_fds w1 = led_fds w /\
    led_lists w1 = led_lists w + (if lr =? 0 then local_lists local else 0)) as (lr & w1 & E & Lf & Ll).
  { unfold local_lists. destruct local as [l|]; [|exists 0, w; rewrite Z.add_0_r; done].
    unfold syscall. pose proof (led_call (CGetaddrinfo l AF_INET IPPROTO_TCP) w) as L.
    destruct (sys_call _ w) as [r w1]. exists r, w1. split; [done|]. split; [apply L|].
    destruct L as (_ & [[-> ?]|[? ?]]); [done|]. destruct (Z.eqb_spec r 0); lia. }
  rewrite (bind_Done _ _ _ _ _ E). clear E.
  destruct (lr =? 0); cbn [negb]; [|exists (-1), w1; split; [done|right; split; [done|split; [lia|auto]]]].
  run_call. destruct L as [Ll0 L0]. destruct (listen_on_spec r w0) as (ret & w2 & E & Lf2 & Ll2 & Hret).
  rewrite (bind_Done _ _ _ _ _ E). clear E.
  assert (exists w3, (match local with Some _ => freeaddrinfo | None => io_ret tt end) w2 = (Done tt, w3) /\
    led_fds w3 = led_fds w2 /\ led_lists w3 = led_lists w2 - local_lists local) as (w3 & E & Lf3 & Ll3).
  { unfold local_lists. destruct local; [apply freeaddrinfo_spec|]. exists w2. split; [done|]. split; [done|lia]. }
  rewrite (bind_Done _ _ _ _ _ E). exists ret, w3. split; [done|].
  assert (led_lists w3 = led_lists w) as Hl by lia. rewrite <- Lf.
  destruct Hret as [->|[-> Hr]], L0 as [[? L0]|(? & Hn & L0)].
  - right. split; [done|]. split; [done|]. left. ledger.
  - right. split; [done|]. split; [done|]. right. exists r. split; [done|]. split; [done|]. ledger.
  - lia.
  - left. rewrite Lf in Hn. split; [done|]. split; [done|]. split; [ledger|done].
Qed.
End listening.

(** ** A network on which every call succeeds

    A program on a connection [fd] gets that descriptor from [socket] when it dials and
    from [accept] when it answers. *)
Inductive role : Type := Dials | Answers.
Definition gives_connection (ro : role) (c : call) : bool :=
  match ro, c with Dials, CSocket _ _ _ => true | Answers, CAccept _ => true | _, _ => false end.

Class Reliable (W : Type) `{Posix W} (fd : Z) `{!Peer W fd} (ro : role) := {
  rel_call : forall c w, peer_ok w ->
    let '(r, w') := sys_call c w in
    0 <= r /\ (forall n f t, c = CGetaddrinfo n f t -> r = 0) /\
    (gives_connection ro c = true -> r = fd) /\ peer_same fd w w';
  rel_putLock : forall f b w, peer_ok w ->
    let w' := sys_putLock f b w in
    peer_ok w' /\ peer_in w' = peer_in w /\ peer_out w' = peer_out w /\
    peer_locked w' = sc_put_locked f b (peer_locked w)
}.
#[global] Instance Script_reliable ro : Reliable Script 0 ro.
Proof.
  split.
  - intros c w (Hr & Hw & He & Hs). cbn. rewrite He. by repeat split.
  - intros f b w (Hr & Hw & He & Hs). by repeat split.
Qed.

(** [run_reliable] executes a call that succeeds. *)
Ltac run_reliable ro :=
  match goal with
  | Hok : peer_ok ?w |- context [io_bind (syscall ?c) ?k ?w] =>
      let r := fresh "r" in let w1 := fresh "w" in let E := fresh "E" in let Hr := fresh "Hr" in
      let Hg := fresh "Hg" in let Hc := fresh "Hc" in let Hs := fresh "Hs" in let Hok1 := fresh "Hok" in
      pose proof (rel_call (ro := ro) c w Hok) as Hr; destruct (sys_call c w) as [r w1] eqn:E;
      rewrite (bind_call _ _ _ _ _ E); clear E; destruct Hr as (Hr & Hg & Hc & Hs);
      pose proof (proj1 Hs) as Hok1
  end.

Section reliable.
Context {W : Type} `{Posix W} (fd : Z) `{!Peer W fd} (ro : role) `{!Reliable W fd ro}.
Context (resolve : list Z -> Z -> Z -> list Z).
Hypothesis resolve_sockaddr : forall n f t, 4 <= zlen (resolve n f t).

Lemma free_reliable w : peer_ok w -> exists w', freeaddrinfo w = (Done tt, w') /\ peer_same fd w w'.
Proof. intros Hok. unfold freeaddrinfo. run_reliable ro. by exists w0. Qed.

Lemma lookup_reliable local f t w :
  peer_ok w ->
  exists w', (match local with Some l => syscall (CGetaddrinfo l f t) | None => io_ret 0 end) w = (Done 0, w')
    /\ peer_same fd w w'.
Proof.
  intros Hok. destruct local as [l|]; [|by exists w].
  pose proof (rel_call (ro := ro) (CGetaddrinfo l f t) w Hok) as Hr. unfold syscall.
  destruct (sys_call _ w) as [r w1]. destruct Hr as (_ & Hg & _ & Hs). exists w1. by rewrite (Hg l f t).
Qed.
Lemma free_local_reliable (local : option (list Z)) w :
  peer_ok w ->
  exists w', (match local with Some _ => freeaddrinfo | None => io_ret tt end) w = (Done tt, w')
    /\ peer_same fd w w'.
Proof. intros Hok. destruct local; [by apply free_reliable|by exists w]. Qed.

Lemma bind_local_reliable domain proto s local local_port w :
  peer_ok w -> exists w', bind_local resolve domain proto s local local_port w = (Done true, w')
    /\ peer_same fd w w'.
Proof.
  intros Hok. unfold bind_local. destruct local as [l|].
  - destruct (put_sin_port_ok resolve resolve_sockaddr l domain proto local_port) as [a Ea].
    assert (exists b, (if negb (local_port =? 0) then put_sin_port (resolve l domain proto) local_port
                       else Ret (resolve l domain proto)) = Ret b) as [b Eb]
      by (destruct (negb _); eauto).
    rewrite (bind_mem _ _ _ _ Eb). run_reliable ro. destruct (Z.ltb_spec r 0); [lia|].
    destruct (free_reliable w0) as (w1 & E & Hs1); [done|]. rewrite (bind_Done _ _ _ _ _ E).
    exists w1. split; [done|by etrans].
  - destruct (negb _); [|by exists w]. run_reliable ro. destruct (Z.ltb_spec r 0); [lia|]. by exists w0.
Qed.

(** [open_listenfd] gives a descriptor. *)
Lemma open_listenfd_reliable local port w :
  peer_ok w -> exists lfd w', open_listenfd resolve local port w = (Done lfd, w') /\ 0 <= lfd /\ peer_same fd w w'.
Proof.
  intros Hok. unfold open_listenfd.
  destruct (lookup_reliable local AF_INET IPPROTO_TCP w Hok) as (w1 & E & Hs1).
  rewrite (bind_Done _ _ _ _ _ E). clear E. cbn [Z.eqb negb]. pose proof (proj1 Hs1) as Hok1.
  run_reliable ro.
  assert (exists w2, listen_on resolve r local port w0 = (Done r, w2) /\ peer_same fd w0 w2) as (w2 & E & Hs2).
  { unfold listen_on. destruct (Z.ltb_spec r 0); [lia|]. run_reliable ro. destruct (Z.ltb_spec r0 0); [lia|].
    assert (exists a, (match local with
                       | Some l => put_sin_port (resolve l AF_INET IPPROTO_TCP) port
                       | None => Ret (sockaddr_in (replicate 4 0) (u16 port)) end) = Ret a) as [a Ea]
      by (destruct local; [by apply put_sin_port_ok|eauto]).
    rewrite (bind_mem _ _ _ _ Ea). run_reliable ro. destruct (Z.ltb_spec r1 0); [lia|].
    run_reliable ro. destruct (Z.ltb_spec r2 0); [lia|]. exists w4. split; [done|].
    etrans; [eassumption|]. by etrans. }
  rewrite (bind_Done _ _ _ _ _ E). clear E.
  destruct (free_local_reliable local w2) as (w3 & E & Hs3); [apply Hs2|].
  rewrite (bind_Done _ _ _ _ _ E). exists r, w3. split; [done|]. split; [done|].
  etrans; [exact Hs1|]. etrans; [eassumption|]. by etrans.
Qed.
End reliable.

(** [netdial] gives the connection. *)
Lemma netdial_reliable {W : Type} `{Posix W} (fd : Z) `{!Peer W fd} `{!Reliable W fd Dials}
  (resolve : list Z -> Z -> Z -> list Z) domain proto local local_port server port (w : W) :
  (forall n f t, 4 <= zlen (resolve n f t)) -> peer_ok w ->
  exists w', netdial resolve domain proto local local_port server port w = (Done fd, w') /\ peer_same fd w w'.
Proof.
  intros Hres Hok. unfold netdial.
  destruct (lookup_reliable fd Dials local domain proto w Hok) as (w1 & E & Hs1).
  rewrite (bind_Done _ _ _ _ _ E). clear E. cbn [Z.eqb negb]. pose proof (proj1 Hs1) as Hok1.
  run_reliable Dials. rewrite (Hg _ _ _ eq_refl). cbn [Z.eqb negb]. cbn zeta.
  run_reliable Dials. rewrite (Hc0 eq_refl) in *. destruct (Z.ltb_spec fd 0); [lia|].
  destruct (bind_local_reliable fd Dials resolve Hres domain proto fd local local_port w2)
    as (w3 & E & Hs3); [done|]. rewrite (bind_Done _ _ _ _ _ E). clear E. cbn [negb].
  pose proof (proj1 Hs3) as Hok3. run_reliable Dials. destruct (Z.eqb_spec r1 (-1)); [lia|].
  destruct (put_sin_port_ok resolve Hres server domain proto port) as [a Ea].
  rewrite (bind_mem _ _ _ _ Ea). run_reliable Dials. rewrite bind_errno.
  destruct (Z.ltb_spec r2 0); [lia|]. cbn [andb].
  destruct (free_reliable fd Dials w5) as (w6 & E & Hs6); [done|]. rewrite (bind_Done _ _ _ _ _ E).
  exists w6. split; [done|]. etrans; [exact Hs1|]. etrans; [exact Hs|]. etrans; [exact Hs0|].
  etrans; [exact Hs3|]. etrans; [exact Hs2|]. by etrans.
Qed.

(** ** A kernel that keeps the books

    [k_fails]: which of the next calls fail. *)
Record Kernel : Type := mkKernel {
  k_fds : gset Z;
  k_lists : Z;
  k_fails : list bool;
  k_output : list message;
  k_errno : Z;
  k_locked : flag -> bool
}.
Definition k_put (fds : gset Z) (lists : Z) (fails : list bool) (w : Kernel) : Kernel :=
  mkKernel fds lists fails (k_output w) (k_errno w) (k_locked w).
(** A descriptor that is not in use. *)
Definition k_fresh (w : Kernel) : Z := foldr Z.max 2 (elements (k_fds w)) + 1.
Lemma k_fresh_new w : 0 <= k_fresh w /\ (k_fresh w ∉ k_fds w).
Proof.
  assert (forall l x, x ∈ l -> x <= foldr Z.max 2 l) as Hin.
  { induction l as [|y l IH]; intros x Hx; [by apply not_elem_of_nil in Hx|].
    apply elem_of_cons in Hx as [->|Hx%IH]; cbn; lia. }
  assert (forall l : list Z, 2 <= foldr Z.max 2 l) as H2 by (induction l; cbn; lia).
  unfold k_fresh. split; [specialize (H2 (elements (k_fds w))); lia|].
  intros Hx%elem_of_elements%Hin. lia.
Qed.

Definition Kernel_call (c : call) (w : Kernel) : Z * Kernel :=
  let '(fail, fails) := match k_fails w with b :: l => (b, l) | [] => (false, []) end in
  let open := if (fail : bool) then (-1, k_put (k_fds w) (k_lists w) fails w)
              else (k_fresh w, k_put ({[k_fresh w]} ∪ k_fds w) (k_lists w) fails w) in
  let other := (if fail then -1 else 0, k_put (k_fds w) (k_lists w) fails w) in
  match c with
  | CSocket _ _ _ | CAccept _ | COpen _ | COpenLog _ => open
  | CClose fd => (0, k_put (k_fds w ∖ {[fd]}) (k_lists w) (k_fails w) w)
  | CGetaddrinfo _ _ _ =>
      (if fail then -2 else 0, k_put (k_fds w) (if fail then k_lists w else k_lists w + 1) fails w)
  | CFreeaddrinfo => (0, k_put (k_fds w) (k_lists w - 1) (k_fails w) w)
  | _ => other
  end.
#[global] Instance Kernel_posix : Posix Kernel := {|
  sys_errno := k_errno;
  sys_put_errno e w := mkKernel (k_fds w) (k_lists w) (k_fails w) (k_output w) e (k_locked w);
  sys_read _ _ w := (0, [], w);
  sys_write _ d w := (zlen d, w);
  sys_call := Kernel_call;
  sys_print m w := mkKernel (k_fds w) (k_lists w) (k_fails w) (k_output w ++ [m]) (k_errno w) (k_locked w);
  sys_isLocked f w := (k_locked w f, w);
  sys_putLock f b w :=
    mkKernel (k_fds w) (k_lists w) (k_fails w) (k_output w) (k_errno w) (sc_put_locked f b (k_locked w))
|}.
#[global] Program Instance Kernel_ledger : Ledger Kernel := {| led_fds := k_fds; led_lists := k_lists |}.
Next Obligation. done. Qed.
Next Obligation.
  intros c w. pose proof (k_fresh_new w) as [Hp Hn]. cbn. unfold Kernel_call.
  destruct (k_fails w) as [|[] fails], c; cbn; split; try done; (left; by split) || (right; by repeat split).
Qed.

Definition Kernel_initial (fails : list bool) : Kernel :=
  mkKernel {[0; 1; 2]} 0 fails [] 0 (fun _ => false).
(** Every name is 127.0.0.1. *)
Definition loopback (_ : list Z) (_ _ : Z) : list Z := sockaddr_in [127; 0; 0; 1] 0.

(** A socket that cannot be configured: no descriptor stays, a list does. *)
Lemma netdial_resources_witness :
  exists r w', netdial loopback AF_INET SOCK_STREAM None 0 [65] 80 (Kernel_initial [false; false; true])
    = (Done r, w') /\ r = -1 /\ led_fds w' = {[0; 1; 2]} /\ led_lists w' = 1.
Proof.
  destruct (netdial_resources (W := Kernel) loopback ltac:(done) AF_INET SOCK_STREAM 0 None [65] 80
              (Kernel_initial [false; false; true])) as (r & w' & E & H).
  exists r, w'. split; [exact E|]. vm_compute in E. injection E as <- <-.
  destruct H as [[? _]|(_ & Hf & _)]; [done|]. split; [done|]. split; [exact Hf|done].
Defined.
(** A port that is taken: the socket stays open. *)
Lemma open_listenfd_resources_witness :
  exists r w', open_listenfd loopback None 80 (Kernel_initial [false; false; true])
    = (Done r, w') /\ r = -1 /\ led_lists w' = 0 /\ (exists fd, led_fds w' = {[fd]} ∪ {[0; 1; 2]}).
Proof.
  destruct (open_listenfd_resources (W := Kernel) loopback ltac:(done) None 80
              (Kernel_initial [false; false; true])) as (r & w' & E & H).
  exists r, w'. split; [exact E|]. vm_compute in E. injection E as <- <-.
  destruct H as [[? _]|(_ & Hl & [Hf|(fd & _ & _ & Hf)])]; [done| |].
  - exfalso. vm_compute in Hf. discriminate.
  - split; [done|]. split; [done|]. by exists fd.
Defined.
