(* ===== verification/MperfTransfer.v ===== *)
(** src/3rd/mperf/src/sndrcv.c: the transfers of the throughput tool, in the build
    without PROBE, FIX and CHECK; what the builds with PROBE and CHECK do differently is
    in [MperfProbe] and [MperfCheck]. Elapsed times and rates, which are doubles, are not
    computed. *)

From stdpp Require Import base list numbers strings.
From S2P Require Import Prelude Endian SocketAddress Posix MperfUtil.

Open Scope Z_scope.
Open Scope io_scope.

Section transfer.
Context {W : Type} `{Posix W}.
Context (verbose : Z).
(** A bound on the iterations of one call of [rio_readnr] or [rio_writenr]. *)
Context (rio_fuel : nat).

Definition continueTest : io W bool :=
  b <- isLocked SigInt ;; if b then isLocked SigAlrm else io_ret false.

(** The loop of [doLongTest]: the sum and the last result. *)
Fixpoint doLongTest_loop (fuel : nat) (connfd : Z) (packetBuf : list Z) (sum wrote : Z) : io W (Z * Z) :=
  match fuel with
  | O => io_nofuel
  | S fuel =>
      c <- continueTest ;;
      if c then
        let len := PACKET_LEN in
        rv <- rio_writenr verbose rio_fuel connfd packetBuf len ;;
        let wrote := s32 rv in
        if wrote <? len then io_ret (sum, wrote)
        else sum <- io_mem (s64 (sum + wrote)) ;; doLongTest_loop fuel connfd packetBuf sum wrote
      else io_ret (sum, wrote)
  end.
Definition doLongTest (fuel : nat) (connfd timelen : Z) (packetBuf : list Z) : io W unit :=
  logVerbose verbose "Start long test." [] ;;;
  _ <- alarmWithLog verbose timelen ;;
  let* (sum, wrote) := doLongTest_loop fuel connfd packetBuf 0 0 in
  _ <- alarmWithLog verbose 0 ;;
  (if wrote <? PACKET_LEN then
     if wrote <? 0 then logError "Error occured when sending packets(%s)!" []
     else
       i <- isLocked SigInt ;;
       if negb i then logMessage "Long test terminated." []
       else
         a <- isLocked SigAlrm ;;
         if (a : bool) then logWarning "Send unexpectedly interrupted by signal." [] else io_ret tt
   else io_ret tt) ;;;
  logMessage "Long test summary:" [] ;;;
  logMessage "->Bytes transferred: %ld" [sum] ;;;
  logMessage "->Time elapsed : %lfs" [] ;;;
  logMessage "->Bandwidth: %lfBytes/sec" [].

(** The loop of [doFixTest]: the bytes that are left. Its [wrote] and [thislen] are
    variables of the body of the loop and hide those of the function. *)
Fixpoint doFixTest_loop (fuel : nat) (connfd len : Z) (packetBuf : list Z) : io W Z :=
  match fuel with
  | O => io_nofuel
  | S fuel =>
      c <- (if 0 <? len then continueTest else io_ret false) ;;
      if (c : bool) then
        let thislen := if PACKET_LEN <? len then PACKET_LEN else len in
        rv <- rio_writenr verbose rio_fuel connfd packetBuf thislen ;;
        let wrote := s32 rv in
        if wrote <? thislen then io_ret len
        else doFixTest_loop fuel connfd (len - wrote) packetBuf
      else io_ret len
  end.
(** What follows the loop, in all builds: [wrote] and [thislen] are 0 still. *)
Definition fix_summary (targ len : Z) : io W unit :=
  let wrote := 0 in
  let thislen := 0 in
  _ <- alarmWithLog verbose 0 ;;
  len <- (if wrote <? thislen then
            (if wrote <? 0 then logError "Error occured when sending packets(%s)!" []
             else
               i <- isLocked SigInt ;;
               if negb i then logMessage "Fix test terminated." []
               else
                 a <- isLocked SigAlrm ;;
                 if negb a then logWarning "Fix test timeout." []
                 else logWarning "Send unexpectedly interrupted by signal." []) ;;;
            io_ret (len - wrote)
          else io_ret len) ;;
  logMessage "Fix test summary:" [] ;;;
  logMessage "->Bytes to transfer: %d" [targ] ;;;
  logMessage "->Bytes transferred: %d" [targ - len] ;;;
  logMessage "->Bandwidth: %lfBytes/sec" [] ;;;
  logMessage "->Time elapsed : %lfs" [].
Definition doFixTest (fuel : nat) (connfd maxtime len : Z) (packetBuf : list Z) : io W unit :=
  let targ := len in
  logVerbose verbose "Start fix test." [] ;;;
  _ <- alarmWithLog verbose maxtime ;;
  len <- doFixTest_loop fuel connfd len packetBuf ;;
  fix_summary targ len.

(** The loop of [doReceive]: the bytes received. [check] is what is done with a whole
    packet, nothing but in the build with CHECK; it is given [byteReceived] before the
    packet is counted. *)
Fixpoint doReceive_loop (check : Z -> list Z -> io W unit) (fuel : nat) (connfd timelen : Z) (recvBuf : list Z) (byteReceived : Z)
  : io W (Z * list Z) :=
  match fuel with
  | O => io_nofuel
  | S fuel =>
      put_errno 0 ;;;
      let* (rv, recvBuf) := rio_readnr verbose rio_fuel connfd recvBuf PACKET_LEN in
      let ret := s32 rv in
      if ret <? PACKET_LEN then
        if ret <? 0 then
          e <- errno ;;
          (if (e =? EPIPE) || (e =? ECONNRESET) then logWarning "Connection broken(%s)." []
           else logError "Unexpected read error(%s)!" []) ;;;
          io_ret (byteReceived, recvBuf)
        else
          e <- errno ;;
          (if e =? EINTR then
             i <- isLocked SigInt ;;
             if negb i then logMessage "Ctrl+C received, terminate." []
             else
               a <- isLocked SigAlrm ;;
               if negb a then logMessage "Test timeout after %d seconds, terminate." [timelen]
               else logError "Interrupted by unexpected signal!" []
           else io_ret tt) ;;;
          b <- io_mem (s64 (byteReceived + ret)) ;; io_ret (b, recvBuf)
      else
        check byteReceived recvBuf ;;;
        b <- io_mem (s64 (byteReceived + ret)) ;;
        c <- continueTest ;;
        if (c : bool) then doReceive_loop check fuel connfd timelen recvBuf b else io_ret (b, recvBuf)
  end.
Definition doReceive_with (check : Z -> list Z -> io W unit) (fuel : nat) (connfd timelen : Z)
  (recvBuf : list Z) : io W unit :=
  logVerbose verbose "Start receving data." [] ;;;
  logVerbose verbose "Timeout threshold is %d" [timelen] ;;;
  _ <- alarmWithLog verbose timelen ;;
  let* (byteReceived, recvBuf) := doReceive_loop check fuel connfd timelen recvBuf 0 in
  _ <- alarmWithLog verbose 0 ;;
  logMessage "Test summary:" [] ;;;
  logMessage "->Total time: %lfs" [] ;;;
  logMessage "->Bytes received: %ld" [byteReceived] ;;;
  logMessage "->Bandwidth: %lfBytes/sec" [] ;;;
  logMessage "Transfer complete.\n" [].
Definition doReceive : nat -> Z -> Z -> list Z -> io W unit := doReceive_with (fun _ _ => io_ret tt).
End transfer.

(** ** A fix test on a connection that is not interrupted *)
Section fix_test.
Context {W : Type} `{Posix W} (fd : Z) `{!Peer W fd}.
Context (verbose : Z) (rio_fuel : nat).

Lemma continueTest_silent w :
  peer_ok w -> peer_locked w SigInt = true -> peer_locked w SigAlrm = true ->
  exists w', continueTest w = (Done true, w') /\ peer_same fd w w'.
Proof.
  intros Hok Hi Ha. unfold continueTest. pose proof (peer_isLocked SigInt w Hok) as Hl.
  destruct (sys_isLocked SigInt w) as [b w1] eqn:E. destruct Hl as (Hb & Hok1 & ? & ? & Hl1).
  rewrite (bind_isLocked _ _ _ _ _ E). rewrite Hb, Hi. unfold isLocked.
  pose proof (peer_isLocked SigAlrm w1 Hok1) as Hl.
  destruct (sys_isLocked SigAlrm w1) as [b2 w2]. destruct Hl as (Hb2 & Hok2 & ? & ? & Hl2).
  exists w2. rewrite Hb2, Hl1, Ha. split; [done|]. repeat split; congruence.
Qed.

(** What a fix test of [len] bytes sends: whole packets, then the start of one. *)
Definition fix_data (len : Z) (packetBuf : list Z) : list Z :=
  mjoin (replicate (Z.to_nat (len / PACKET_LEN)) (ztake PACKET_LEN packetBuf)) ++ ztake (len mod PACKET_LEN) packetBuf.
Lemma fix_data_small len packetBuf : 0 <= len < PACKET_LEN -> fix_data len packetBuf = ztake len packetBuf.
Proof. intros Hl. unfold fix_data. by rewrite Z.div_small, Z.mod_small by done. Qed.
Lemma fix_data_packet len packetBuf :
  PACKET_LEN <= len -> fix_data len packetBuf = ztake PACKET_LEN packetBuf ++ fix_data (len - PACKET_LEN) packetBuf.
Proof.
  intros Hl. unfold fix_data. replace len with ((len - PACKET_LEN) + 1 * PACKET_LEN) at 1 2 by lia.
  rewrite Z.div_add, Z.mod_add by done. assert (0 <= (len - PACKET_LEN) / PACKET_LEN) by (apply Z.div_pos; [lia|done]).
  replace (Z.to_nat ((len - PACKET_LEN) / PACKET_LEN + 1)) with (S (Z.to_nat ((len - PACKET_LEN) / PACKET_LEN))) by lia.
  cbn [replicate]. change (mjoin (?x :: ?l)) with (x ++ mjoin l). by rewrite app_assoc.
Qed.
Lemma zlen_mjoin_replicate {A} n (l : list A) : zlen (mjoin (replicate n l)) = Z.of_nat n * zlen l.
Proof.
  induction n as [|n IH]; [done|]. cbn [replicate]. change (mjoin (?x :: ?l)) with (x ++ mjoin l).
  rewrite zlen_app, IH. lia.
Qed.
Lemma zlen_fix_data len packetBuf : 0 <= len -> PACKET_LEN <= zlen packetBuf -> zlen (fix_data len packetBuf) = len.
Proof.
  intros Hl Hp. unfold fix_data. rewrite zlen_app, zlen_mjoin_replicate.
  replace (zlen (ztake PACKET_LEN packetBuf)) with PACKET_LEN by (rewrite zlen_take; unfold PACKET_LEN in *; lia).
  rewrite zlen_take.
  assert (0 <= len / PACKET_LEN) by (apply Z.div_pos; [lia|done]).
  pose proof (Z.mod_pos_bound len PACKET_LEN ltac:(done)).
  pose proof (Z.div_mod len PACKET_LEN ltac:(done)). change PACKET_LEN with 131072 in *. lia.
Qed.
Lemma fix_data_all (P : Z -> Prop) len packetBuf : Forall P packetBuf -> Forall P (fix_data len packetBuf).
Proof.
  intros Hp. unfold fix_data. apply Forall_app. split; [|by apply Forall_take].
  apply Forall_join. apply Forall_replicate. by apply Forall_take.
Qed.

Lemma doFixTest_loop_spec fuel len packetBuf w :
  0 <= len < 2147483648 -> PACKET_LEN <= zlen packetBuf -> (Z.to_nat PACKET_LEN < rio_fuel)%nat ->
  peer_ok w -> peer_locked w SigInt = true -> peer_locked w SigAlrm = true ->
  (Z.to_nat len < fuel)%nat ->
  exists w',
    doFixTest_loop verbose rio_fuel fuel fd len packetBuf w = (Done 0, w') /\
    peer_ok w' /\ peer_in w' = peer_in w /\ peer_locked w' = peer_locked w /\
    peer_out w' = peer_out w ++ fix_data len packetBuf.
Proof.
  intros Hlen Hp Hrf. revert len w Hlen. induction fuel as [|fuel IH];
    intros len w Hlen Hok Hi Ha Hf; [lia|].
  cbn [doFixTest_loop]. destruct (Z.ltb_spec 0 len) as [Hpos|Hz].
  2: { exists w. rewrite bind_ret. replace len with 0 by lia. rewrite fix_data_small, ztake_0, app_nil_r by done. done. }
  destruct (continueTest_silent w Hok Hi Ha) as (w1 & Ec & Hok1 & Hi1 & Ho1 & Hl1).
  rewrite (bind_Done _ _ _ _ _ Ec). cbn match.
  set (n := if PACKET_LEN <? len then PACKET_LEN else len).
  assert (0 < n <= len /\ n <= PACKET_LEN) as Hn
    by (unfold n, PACKET_LEN; destruct (Z.ltb_spec 131072 len); lia).
  assert (ztake n packetBuf ++ fix_data (len - n) packetBuf = fix_data len packetBuf) as Hdata.
  { unfold n. destruct (Z.ltb_spec PACKET_LEN len).
    - by rewrite (fix_data_packet len) by lia.
    - rewrite Z.sub_diag, (fix_data_small 0), (ztake_0 0), app_nil_r by done.
      destruct (Z.eq_dec len PACKET_LEN) as [->|]; [|by rewrite fix_data_small by lia].
      rewrite fix_data_packet, Z.sub_diag, (fix_data_small 0), (ztake_0 0), app_nil_r by (done || lia). done. }
  destruct (rio_writenr_spec fd verbose rio_fuel packetBuf n w1) as (w2 & Ew & Hok2 & Hi2 & Ho2 & Hl2);
    [lia|lia|done|lia|].
  rewrite (bind_Done _ _ _ _ _ Ew), s32_small by lia. cbv zeta. rewrite Z.ltb_irrefl.
  destruct (IH (len - n) w2) as (w3 & E3 & Hok3 & Hi3 & Hl3 & Ho3);
    [lia|done|congruence|congruence|lia|].
  exists w3. split; [exact E3|]. split; [done|]. split; [congruence|]. split; [congruence|].
  by rewrite Ho3, Ho2, Ho1, <- Hdata, app_assoc.
Qed.

(** The report after everything was sent. *)
Definition fix_report (len : Z) : io W unit :=
  logMessage "->Bytes transferred: %d" [len] ;;;
  logMessage "->Bandwidth: %lfBytes/sec" [] ;;;
  logMessage "->Time elapsed : %lfs" [].
Lemma fix_summary_reports len w :
  peer_ok w ->
  exists w1 w', fix_summary verbose len 0 w = fix_report len w1 /\
    fix_summary verbose len 0 w = (Done tt, w') /\ peer_same fd w w'.
Proof.
  intros Hok.
  assert (exists w1, fix_summary verbose len 0 w = fix_report len w1 /\ peer_same fd w w1) as (w1 & E & Hs).
  { unfold fix_summary. cbv zeta. run_silent. cbn [Z.ltb Z.compare]. rewrite bind_ret.
    unfold logMessage at 1 2. run_silent. run_silent. rewrite Z.sub_0_r. exists w2. split; [done|].
    repeat (etrans; [eassumption|]). done. }
  assert (silent fd (fix_report len)) as Hsil by (unfold fix_report, logMessage; eauto 10 with silent).
  destruct (Hsil w1) as ([] & w' & E' & Hs'); [apply Hs|]. exists w1, w'. split; [done|].
  split; [by rewrite E|]. by etrans.
Qed.

(** While no signal arrives and the connection takes the data, [doFixTest] sends
    exactly the number of bytes it was asked for, in packets of at most [PACKET_LEN]
    bytes, and reports that number. *)
Theorem doFixTest_sends_all fuel maxtime len packetBuf w :
  0 <= len < 2147483648 -> PACKET_LEN <= zlen packetBuf -> (Z.to_nat PACKET_LEN < rio_fuel)%nat ->
  peer_ok w -> peer_locked w SigInt = true -> peer_locked w SigAlrm = true ->
  (Z.to_nat len < fuel)%nat ->
  exists w1 w',
    doFixTest verbose rio_fuel fuel fd maxtime len packetBuf w = fix_report len w1 /\
    doFixTest verbose rio_fuel fuel fd maxtime len packetBuf w = (Done tt, w') /\
    peer_ok w' /\ peer_in w' = peer_in w /\ peer_out w' = peer_out w ++ fix_data len packetBuf.
Proof.
  intros Hlen Hp Hrf Hok Hi Ha Hf. unfold doFixTest, logVerbose. run_silent. run_silent.
  destruct Hs as (_ & Hi0 & Ho0 & Hl0), Hs0 as (_ & Hi1 & Ho1 & Hl1).
  destruct (doFixTest_loop_spec fuel len packetBuf w1) as (w2 & E & Hok2 & Hi2 & _ & Ho2);
    [done..| | |done|]; [congruence|congruence|].
  rewrite (bind_Done _ _ _ _ _ E). destruct (fix_summary_reports len w2 Hok2) as (w3 & w' & E3 & E4 & Hs).
  exists w3, w'. split; [exact E3|]. split; [exact E4|]. destruct Hs as (? & -> & -> & _).
  split; [done|]. split; congruence.
Qed.
End fix_test.

(** ** Receiving on a connection that is not interrupted *)
Section receive.
Context {W : Type} `{Posix W} (fd : Z) `{!Peer W fd}.
Context (verbose : Z) (rio_fuel : nat).

Lemma silent_isLocked f : silent fd (isLocked (W := W) f).
Proof.
  intros w Hw. pose proof (peer_isLocked f w Hw) as Hl. unfold isLocked.
  destruct (sys_isLocked f w) as [b w']. exists b, w'. split; [done|apply Hl].
Qed.
Lemma silent_errno : silent fd (errno (W := W)).
Proof. intros w Hw. by exists (sys_errno w), w. Qed.
Lemma silent_put_errno e : silent fd (put_errno (W := W) e).
Proof. intros w Hw. exists tt, (sys_put_errno e w). split; [done|]. by apply peer_put_errno. Qed.
#[local] Hint Resolve silent_isLocked silent_errno silent_put_errno : silent.

(** Every whole packet of a stream. *)
Definition all_packets (P : list Z -> Prop) (s : list Z) : Prop :=
  forall i, 0 <= i -> (i + 1) * PACKET_LEN <= zlen s -> P (ztake PACKET_LEN (zdrop (i * PACKET_LEN) s)).
Lemma all_packets_first P s : all_packets P s -> PACKET_LEN <= zlen s -> P (ztake PACKET_LEN s).
Proof. intros Hp Hl. specialize (Hp 0 ltac:(lia) ltac:(lia)). by rewrite (zdrop_0 (0 * PACKET_LEN)) in Hp by lia. Qed.
Lemma all_packets_rest P s : all_packets P s -> all_packets P (zdrop PACKET_LEN s).
Proof.
  intros Hp i Hi Hl. specialize (Hp (i + 1) ltac:(lia)). rewrite zlen_drop in Hl. change PACKET_LEN with 131072 in *.
  rewrite zdrop_zdrop by lia. replace (131072 + i * 131072) with ((i + 1) * 131072) by lia. apply Hp. lia.
Qed.

(** A whole packet arrives. *)
Lemma doReceive_packet check fuel timelen recvBuf n w :
  PACKET_LEN <= zlen recvBuf -> (Z.to_nat PACKET_LEN < rio_fuel)%nat -> peer_ok w ->
  PACKET_LEN <= zlen (peer_in w) ->
  exists w1 buf',
    doReceive_loop verbose rio_fuel check (S fuel) fd timelen recvBuf n w =
      (check n buf' ;;;
       b <- io_mem (s64 (n + PACKET_LEN)) ;;
       c <- continueTest ;;
       if (c : bool) then doReceive_loop verbose rio_fuel check fuel fd timelen buf' b
       else io_ret (b, buf')) w1 /\
    peer_ok w1 /\ peer_in w1 = zdrop PACKET_LEN (peer_in w) /\ peer_out w1 = peer_out w /\
    peer_locked w1 = peer_locked w /\
    ztake PACKET_LEN buf' = ztake PACKET_LEN (peer_in w) /\ zlen buf' = zlen recvBuf.
Proof.
  intros Hb Hrf Hok Hl. cbn [doReceive_loop]. run_silent. destruct Hs as (_ & Hi0 & Ho0 & Hl0).
  destruct (rio_readnr_spec fd verbose rio_fuel recvBuf PACKET_LEN w0)
    as (w1 & E & Hok1 & Hi1 & Ho1 & Hl1); [unfold PACKET_LEN in *; lia|done|done|done|].
  rewrite (bind_Done _ _ _ _ _ E). cbn match. rewrite Hi0 in *.
  replace (Z.min PACKET_LEN (zlen (peer_in w))) with PACKET_LEN in * by lia.
  change (s32 PACKET_LEN) with PACKET_LEN. cbv zeta. rewrite Z.ltb_irrefl.
  exists w1. eexists. split; [done|]. split; [done|]. split; [done|]. split; [congruence|]. split; [congruence|].
  assert (zlen (ztake PACKET_LEN (peer_in w)) = PACKET_LEN) as Hz by (rewrite zlen_take; unfold PACKET_LEN in *; lia).
  split; [by rewrite ztake_app_length|]. rewrite zlen_app, Hz, zlen_drop. unfold PACKET_LEN in *; lia.
Qed.

(** What arrives before the peer closes the connection is counted, packet by packet. *)
Context (check : Z -> list Z -> io W unit) (P : list Z -> Prop).
Hypothesis check_passes : forall n buf,
  PACKET_LEN <= zlen buf -> P (ztake PACKET_LEN buf) -> silent fd (check n buf).

Lemma doReceive_loop_spec fuel timelen recvBuf n w :
  PACKET_LEN <= zlen recvBuf -> (Z.to_nat PACKET_LEN < rio_fuel)%nat -> peer_ok w ->
  peer_locked w SigInt = true -> peer_locked w SigAlrm = true ->
  0 <= n -> n + zlen (peer_in w) < 9223372036854775808 -> (Z.to_nat (zlen (peer_in w)) < fuel)%nat ->
  all_packets P (peer_in w) ->
  exists b w', doReceive_loop verbose rio_fuel check fuel fd timelen recvBuf n w
    = (Done (n + zlen (peer_in w), b), w') /\
    peer_ok w' /\ peer_in w' = [] /\ peer_out w' = peer_out w.
Proof.
  intros Hb Hrf. revert recvBuf n w Hb. induction fuel as [|fuel IH];
    intros recvBuf n w Hb Hok Hi Ha Hn Hmax Hf Hall; [lia|].
  pose proof (zlen_nonneg (peer_in w)). assert (PACKET_LEN = 131072) as HP by done.
  destruct (Z.le_gt_cases PACKET_LEN (zlen (peer_in w))) as [Hge|Hlt].
  - destruct (doReceive_packet check fuel timelen recvBuf n w Hb Hrf Hok Hge)
      as (w1 & buf & E & Hok1 & Hi1 & Ho1 & Hl1 & Hbuf & Hz). rewrite E.
    destruct (check_passes n buf ltac:(lia) ltac:(rewrite Hbuf; by apply all_packets_first) w1 Hok1)
      as ([] & wc & Ech & Hokc & Hic & Hoc & Hlc).
    rewrite (bind_Done _ _ _ _ _ Ech). rewrite (bind_mem _ _ _ (n + PACKET_LEN)) by (apply s64_ok; word).
    destruct (continueTest_silent fd wc) as (w2 & Ec & Hok2 & Hi2 & Ho2 & Hl2); [done|congruence|congruence|].
    rewrite (bind_Done _ _ _ _ _ Ec). cbn match.
    assert (zlen (peer_in w2) = zlen (peer_in w) - PACKET_LEN) as Hz2 by (rewrite Hi2, Hic, Hi1, zlen_drop; lia).
    destruct (IH buf (n + PACKET_LEN) w2) as (b & w3 & E3 & Hok3 & Hi3 & Ho3);
      [lia|done|congruence|congruence|lia|lia|lia|rewrite Hi2, Hic, Hi1; by apply all_packets_rest|].
    exists b, w3. rewrite E3, Hz2. split; [do 3 f_equal; lia|]. split; [done|]. split; [done|congruence].
  - cbn [doReceive_loop]. run_silent. destruct Hs as (_ & Hi0 & Ho0 & Hl0).
    destruct (rio_readnr_spec fd verbose rio_fuel recvBuf PACKET_LEN w0)
      as (w1 & E & Hok1 & Hi1 & Ho1 & Hl1); [lia|done|done|done|].
    rewrite (bind_Done _ _ _ _ _ E). cbn match. rewrite Hi0 in *.
    replace (Z.min PACKET_LEN (zlen (peer_in w))) with (zlen (peer_in w)) in * by lia.
    rewrite s32_small by lia. cbv zeta. destruct (Z.ltb_spec (zlen (peer_in w)) PACKET_LEN); [|lia].
    destruct (Z.ltb_spec (zlen (peer_in w)) 0); [lia|]. run_silent. destruct Hs as (_ & Hi2 & Ho2 & _).
    match goal with |- context [io_bind (if ?b then _ else io_ret tt)] => set (c := b) end.
    run_silent. destruct Hs as (_ & Hi3 & Ho3 & _).
    rewrite (bind_mem _ _ _ (n + zlen (peer_in w))) by (apply s64_ok; word).
    eexists _, _. split; [done|]. split; [done|].
    split; [rewrite Hi3, Hi2, Hi1; by apply zdrop_all|congruence].
Qed.

(** [doReceive] takes everything the peer sends until it closes the connection, and
    reports that number of bytes. *)
Lemma doReceive_with_counts_all fuel timelen recvBuf w :
  PACKET_LEN <= zlen recvBuf -> (Z.to_nat PACKET_LEN < rio_fuel)%nat -> peer_ok w ->
  peer_locked w SigInt = true -> peer_locked w SigAlrm = true ->
  zlen (peer_in w) < 9223372036854775808 -> (Z.to_nat (zlen (peer_in w)) < fuel)%nat ->
  all_packets P (peer_in w) ->
  exists w1 w',
    doReceive_with verbose rio_fuel check fuel fd timelen recvBuf w =
      (logMessage "->Bytes received: %ld" [zlen (peer_in w)] ;;;
       logMessage "->Bandwidth: %lfBytes/sec" [] ;;;
       logMessage "Transfer complete.\n" []) w1 /\
    doReceive_with verbose rio_fuel check fuel fd timelen recvBuf w = (Done tt, w') /\
    peer_ok w' /\ peer_in w' = [] /\ peer_out w' = peer_out w.
Proof.
  intros Hb Hrf Hok Hi Ha Hmax Hf Hall. unfold doReceive_with, logVerbose. run_silent. run_silent. run_silent.
  assert (peer_same fd w w2) as (_ & Hi0 & Ho0 & Hl0) by (etrans; [exact Hs|]; by etrans).
  destruct (doReceive_loop_spec fuel timelen recvBuf 0 w2) as (b & w3 & E & Hok3 & Hi3 & Ho3);
    [done|done|done|congruence|congruence|done|by rewrite Hi0..|].
  rewrite (bind_Done _ _ _ _ _ E). cbn match. rewrite Hi0, Z.add_0_l. run_silent.
  unfold logMessage. run_silent. run_silent. exists w6.
  assert (silent fd (printf (W := W) "[ Message ]->Bytes received: %ld" [zlen (peer_in w)] ;;;
                     printf "[ Message ]->Bandwidth: %lfBytes/sec" [] ;;;
                     printf "[ Message ]Transfer complete.\n" [])) as Hsil by eauto 10 with silent.
  destruct (Hsil w6) as ([] & w' & E' & Hs'); [done|]. exists w'. split; [done|]. split; [exact E'|].
  destruct Hs' as (? & -> & -> & _), Hs4 as (_ & -> & -> & _), Hs3 as (_ & -> & -> & _),
    Hs2 as (_ & -> & -> & _). split; [done|]. split; [done|congruence].
Qed.
End receive.

Lemma doReceive_counts_all {W : Type} `{Posix W} (fd : Z) `{!Peer W fd} verbose rio_fuel fuel timelen recvBuf (w : W) :
  PACKET_LEN <= zlen recvBuf -> (Z.to_nat PACKET_LEN < rio_fuel)%nat -> peer_ok w ->
  peer_locked w SigInt = true -> peer_locked w SigAlrm = true ->
  zlen (peer_in w) < 9223372036854775808 -> (Z.to_nat (zlen (peer_in w)) < fuel)%nat ->
  exists w1 w',
    doReceive verbose rio_fuel fuel fd timelen recvBuf w =
      (logMessage "->Bytes received: %ld" [zlen (peer_in w)] ;;;
       logMessage "->Bandwidth: %lfBytes/sec" [] ;;;
       logMessage "Transfer complete.\n" []) w1 /\
    doReceive verbose rio_fuel fuel fd timelen recvBuf w = (Done tt, w') /\
    peer_ok w' /\ peer_in w' = [] /\ peer_out w' = peer_out w.
Proof.
  intros. apply (doReceive_with_counts_all fd verbose rio_fuel (fun _ _ => io_ret tt) (fun _ => True));
    [intros; apply silent_ret|done..].
Qed.

(** A connection with both flags set. *)
Definition example_connection (writes : list write_event) : Script :=
  mkScript [] writes [] [] [] [] 0 (fun _ => true) [].
Definition example_packet : list Z := replicate (Z.to_nat PACKET_LEN) 16.
Lemma zlen_example_packet : zlen example_packet = PACKET_LEN.
Proof. unfold zlen, example_packet. rewrite length_replicate. done. Qed.

Lemma doFixTest_sends_all_witness :
  exists w', doFixTest 0 (S (Z.to_nat PACKET_LEN)) 10 3 200 5 example_packet
               (example_connection [Accepts 2; Accepts 2]) = (Done tt, w') /\
    zlen (sc_sent w') = 5.
Proof.
  destruct (doFixTest_sends_all 3 0 (S (Z.to_nat PACKET_LEN)) 10 200 5 example_packet
              (example_connection [Accepts 2; Accepts 2])) as (w1 & w' & _ & E & _ & _ & Ho).
  - lia.
  - by rewrite zlen_example_packet.
  - lia.
  - split; [constructor|]. split; [by repeat constructor|done].
  - done.
  - done.
  - cbn. lia.
  - exists w'. split; [exact E|]. change (peer_out w') with (sc_sent w') in Ho.
    rewrite Ho. apply zlen_fix_data; [lia|by rewrite zlen_example_packet].
Defined.

(** When the connection breaks, [doFixTest] does not say so: the variables it tests
    after the loop are still 0, and the bytes of the last packet are not counted. *)
Example doFixTest_silent_on_error :
  let '(r, w) := doFixTest 0 (S (Z.to_nat PACKET_LEN)) 10 3 200 5 example_packet
                   (example_connection [Accepts 2; WriteError EPIPE]) in
  r = Done tt /\ zlen (sc_sent w) = 2 /\
  sc_output w =
    [mkMessage "[  Error  ]Write error(%s)." []; mkMessage "[ Message ]Fix test summary:" [];
     mkMessage "[ Message ]->Bytes to transfer: %d" [5];
     mkMessage "[ Message ]->Bytes transferred: %d" [0];
     mkMessage "[ Message ]->Bandwidth: %lfBytes/sec" [];
     mkMessage "[ Message ]->Time elapsed : %lfs" []].
Proof. vm_compute. done. Qed.
