(* ===== verification/MperfControl.v ===== *)
(** src/3rd/mperf/src/client.c, server.c and worker.c: the control protocol of the
    throughput tool. The client tells the controller (server.c) what to run; the
    controller puts the message into shared memory and starts a worker (worker.c), which
    reads it there and reports with a signal. The options that lead to the request are in
    [MperfOptions], the programs around the handlers here in [MperfMain]. Process numbers
    that are only printed are left out. *)

From stdpp Require Import base list numbers strings.
From S2P Require Import Prelude Endian SocketAddress Posix CText MperfUtil MperfNet MperfTransfer.

Open Scope Z_scope.
Open Scope io_scope.

Section client.
Context {W : Type} `{Posix W}.
Context (verbose : Z) (resolve : list Z -> Z -> Z -> list Z).

(** *** client.c *)
Record Client : Type := mkClient {
  cl_localIP : option (list Z);
  cl_serverIP : option (list Z);
  cl_localPort : Z;
  cl_port : Z;
  cl_cport : Z;
  cl_timelen : Z;
  cl_localTime : Z;
  cl_size : Z;
  cl_path : option (list Z);
  cl_reverse : Z
}.
Definition Client_initial : Client := mkClient None None 0 0 0 (-1) (-1) (-1) None 0.
Definition control_message (type arg arg2 : Z) : list Z :=
  sprintf_d type ++ [32] ++ sprintf_d arg ++ [32] ++ sprintf_d arg2.
Definition client_message (c : Client) : list Z :=
  let type := if 0 <? cl_size c then TYPE_FIX else TYPE_LONG in
  let arg := if (cl_size c <=? 0) && (cl_reverse c =? 0) then cl_timelen c else cl_localTime c in
  control_message (Z.lor type (cl_reverse c)) arg (cl_size c).

(** [netdial] to a port of the server, which [parseArguments] has made sure of. *)
Definition client_dial (c : Client) (port : Z) : io W Z :=
  netdial resolve AF_INET SOCK_STREAM (cl_localIP c) (cl_localPort c) (default [] (cl_serverIP c)) port.

(** [rRecvRetval], which nothing calls: [ret] is the byte of the caller. *)
Definition rRecvRetval (fuel : nat) (connfd : Z) (ret : list Z) : io W (list Z) :=
  let* (rv, ret) := rio_readnr verbose fuel connfd ret 1 in
  if rv <? 1 then
    _ <- syscall (CClose connfd) ;; logFatal "%s: Can't receive return value!" []
  else
    b <- io_mem (mem_read ret 0 1) ;;
    if negb (bool_decide (b = [RET_SUCC])) then
      _ <- syscall (CClose connfd) ;; logFatal "%s failed(%s)!" []
    else logMessage "%s complete." [] ;;; io_ret ret.

(** [reconfigureServer]: [message] and [sbuf] are the static buffers of 1024 and 2048
    bytes; [request] is the text that [sprintf] makes, which depends on the build. *)
Definition reconfigure_with (request : list Z) (fuel : nat) (c : Client) (message sbuf : list Z) : io W unit :=
  logVerbose verbose "Trying to reconfigure the server..." [] ;;;
  connfd <- client_dial c (cl_cport c) ;;
  if connfd <? 0 then logFatal "Can't connect to controller(%s)!" []
  else
    message <- io_mem (mem_write message 0 [SIG_CONF]) ;;
    rv <- rio_writenr verbose fuel connfd message 1 ;;
    if rv <? 1 then
      _ <- syscall (CClose connfd) ;; logFatal "Can't send instruction to controller(%s)!" []
    else
      message <- io_mem (mem_write message 0 (request ++ [0])) ;;
      logVerbose verbose "Control message: %s" [] ;;;
      s <- io_mem (c_string message) ;;
      _ <- rSendMessage verbose fuel connfd message (1 + zlen s) sbuf ;;
      let* (rv, _) := rRecvBytes verbose fuel connfd [0] 1 "Failed to receive return value" in
      let ret := rv in
      if negb (ret =? RET_SUCC) then
        _ <- syscall (CClose connfd) ;; logFatal "Reconfigure failed(%s)!" []
      else _ <- syscall (CClose connfd) ;; io_ret tt.
Definition reconfigureServer (fuel : nat) (c : Client) (message sbuf : list Z) : io W unit :=
  reconfigure_with (client_message c) fuel c message sbuf.
End client.

Section worker.
Context {W : Type} `{Posix W}.
Context (verbose : Z).

(** *** worker.c *)
Record Worker : Type := mkWorker { wk_type : Z; wk_arg : Z; wk_arg2 : Z; wk_running : bool }.
Definition Worker_initial : Worker := mkWorker TYPE_FIX 1024 200 false.

(** [configure]: [None] when the process has left after [SIGUSR2]; the shared block, as
    it is afterwards. [message] has 256 bytes. *)
Definition configure_fail (pid : Z) (smem : list Z) : io W (option Worker * list Z) :=
  rv <- rKill verbose pid SIGUSR2 ;;
  (if negb (rv =? RET_SUCC) then logError "Can't contact with controller!" [] else io_ret tt) ;;;
  io_ret (None, smem).
Definition configure_out (pid : Z) (wk : Worker) (smem : list Z) : io W (option Worker * list Z) :=
  rv <- rKill verbose pid SIGUSR1 ;;
  (if negb (rv =? RET_SUCC) then logError "Can't contact with controller!" [] else io_ret tt) ;;;
  io_ret (Some wk, smem).
(** [report] is the line for a fix test, which depends on the build; it is given the
    direction and the two numbers. *)
Definition configure_with (report : Z -> Z -> Z -> io W unit) (wk : Worker) (message smem : list Z)
  : io W (option Worker * list Z) :=
  pid <- syscall CGetppid ;;
  self <- syscall CGetpid ;;
  logMessage "Trying to reconfigure server(%d)." [self] ;;;
  message <- io_mem (getMessage smem message) ;;
  s <- io_mem (c_string message) ;;
  let* (ttype, targ, targ2) := io_mem (sscanf_ddd s) in
  ttype <- io_mem (assigned ttype) ;;
  let kind := Z.land ttype (Z.lnot FLAG_REVERSE) in
  let reverse := Z.b2z (negb (Z.land ttype FLAG_REVERSE =? 0)) in
  if kind =? TYPE_LONG then
    arg <- io_mem (assigned targ) ;;
    if arg <=? 0 then logError "Invalid long test time %d" [arg] ;;; configure_fail pid smem
    else
      logMessage "Reconfigured with type = long, reverse = %d, timeout = %d" [reverse; arg] ;;;
      configure_out pid (mkWorker ttype arg (wk_arg2 wk) (wk_running wk)) smem
  else if kind =? TYPE_FIX then
    targ <- io_mem (assigned targ) ;;
    arg2 <- io_mem (assigned targ2) ;;
    let arg := if targ <=? 0 then 200 else targ in
    if arg2 <=? 0 then logError "Invalid fix test size %d" [arg2] ;;; configure_fail pid smem
    else
      report reverse targ arg2 ;;;
      configure_out pid (mkWorker ttype arg arg2 (wk_running wk)) smem
  else
    message <- io_mem (mem_write message 0 (bytes_of "Unrecognized type " ++ sprintf_d ttype ++ [0])) ;;
    logWarning "Unrecognized type %d" [ttype] ;;;
    smem <- io_mem (setMessage smem message) ;;
    configure_fail pid smem.
Definition fix_configured (reverse targ arg2 : Z) : io W unit :=
  logMessage "Reconfigured with type = fix, reverse = %d, timeout = %d, size = %d" [reverse; targ; arg2].
Definition configure : Worker -> list Z -> list Z -> io W (option Worker * list Z) := configure_with fix_configured.

(** [parse]: the test of the configured type; [fixTest] and [receive] depend on the
    build. *)
Definition worker_parse (fixTest : Z -> Worker -> list Z -> io W unit)
  (receive : Z -> Z -> list Z -> io W unit) (fuel rio_fuel : nat) (connfd : Z) (wk : Worker)
  (packetBuf : list Z) : io W Worker :=
  (if wk_type wk =? TYPE_LONG then doLongTest verbose rio_fuel fuel connfd (wk_arg wk) packetBuf
   else if wk_type wk =? TYPE_FIX then fixTest connfd wk packetBuf
   else if (wk_type wk =? TYPE_REVLONG) || (wk_type wk =? TYPE_REVFIX) then
     receive connfd (wk_arg wk) packetBuf
   else logWarning "Unrecognized type %d." [wk_type wk]) ;;;
  io_ret (mkWorker (wk_type wk) (wk_arg wk) (wk_arg2 wk) false).
End worker.

Section server.
Context {W : Type} `{Posix W}.
Context (verbose : Z).

(** *** server.c *)
Definition SV_RESPONSE : Z := 1.

Fixpoint spin (fuel : nat) (f : flag) : io W unit :=
  match fuel with
  | O => io_nofuel
  | S fuel => a <- isLocked f ;; if (a : bool) then spin fuel f else io_ret tt
  end.
Fixpoint spinAND (fuel : nat) (f g : flag) : io W unit :=
  match fuel with
  | O => io_nofuel
  | S fuel =>
      a <- isLocked f ;;
      b <- (if (a : bool) then isLocked g else io_ret false) ;;
      if (b : bool) then spinAND fuel f g else io_ret tt
  end.
Fixpoint spinAND3 (fuel : nat) (f g h : flag) : io W unit :=
  match fuel with
  | O => io_nofuel
  | S fuel =>
      a <- isLocked f ;;
      b <- (if (a : bool) then isLocked g else io_ret false) ;;
      c <- (if (b : bool) then isLocked h else io_ret false) ;;
      if (c : bool) then spinAND3 fuel f g h else io_ret tt
  end.

Definition rTerminate (fuel : nat) (chldPID : Z) (completeKill : bool) : io W Z :=
  setLock SigChld ;;;
  setLock SigAlrm ;;;
  _ <- alarmWithLog verbose SV_RESPONSE ;;
  ret <- rKill verbose chldPID SIGINT ;;
  if negb (ret =? RET_SUCC) then _ <- alarmWithLog verbose 0 ;; io_ret ret
  else
    spinAND fuel SigChld SigAlrm ;;;
    _ <- alarmWithLog verbose 0 ;;
    l <- isLocked SigChld ;;
    if (l : bool) then
      logError "Failed to terminate server with SIGINT(no response in 1 second)!" [] ;;;
      if completeKill then
        logMessage "Trying to terminate server with SIGTERM..." [] ;;;
        rKill verbose chldPID SIGTERM
      else io_ret RET_SUCC
    else io_ret RET_SUCC.

Definition doTerminate (fuel : nat) (connfd chldPID : Z) (completeKill : bool) : io W unit :=
  logMessage "Trying to terminate the server..." [] ;;;
  ret <- (if chldPID <=? 0 then io_ret RET_SUCC else rTerminate fuel chldPID completeKill) ;;
  _ <- rSendBytes verbose fuel connfd [ret] 1 "Failed to send return value to client" ;;
  if ret =? RET_SUCC then logMessage "Terminate completed." []
  else logWarning "Terminate failed(%s)." [].

(** [buildArgs]: the arguments of the worker, pushed one by one. *)
Definition buildArgs (svPath : option (list Z)) (svPort : Z) : list (list Z) :=
  [bytes_of "server"]
  ++ (if verbose =? 0 then [] else [bytes_of "-V" ++ sprintf_d verbose])
  ++ (match svPath with None => [] | Some p => [bytes_of "-l"; p] end)
  ++ [bytes_of "-p"; sprintf_d svPort].

(** [doConfigure], in the controller: [fork] does not return 0 there, and [child] is what
    the worker does to the shared block before it signals. The new child and the shared
    block; [message] has 1024 bytes, [sbuf] 2048. *)
Definition doConfigure_out (fuel : nat) (connfd ret : Z) (message sbuf : list Z) : io W unit :=
  _ <- rSendBytes verbose fuel connfd [ret] 1 "Failed to send return value to client" ;;
  (if ret =? RET_EMSG then
     logError "Server terminated(%s)." [] ;;;
     s <- io_mem (c_string message) ;;
     _ <- rSendMessage verbose fuel connfd message (zlen s + 1) sbuf ;; io_ret tt
   else io_ret tt) ;;;
  if ret =? RET_SUCC then logMessage "Reconfigure completed." []
  else logWarning "Reconfigure failed(%s)." [].
Definition doConfigure (fuel : nat) (connfd chldPID : Z) (completeKill : bool)
  (message sbuf smem : list Z) (child : list Z -> list Z) : io W (Z * list Z) :=
  logMessage "Trying to reconfigure the server..." [] ;;;
  logVerbose verbose "Existing child: %d" [chldPID] ;;;
  ret <- (if 0 <? chldPID then rTerminate fuel chldPID completeKill else io_ret RET_SUCC) ;;
  if negb (ret =? RET_SUCC) then
    doConfigure_out fuel connfd ret message sbuf ;;; io_ret (chldPID, smem)
  else
    let* (ret, message) := rReceiveMessage verbose fuel connfd message in
    if negb (ret =? RET_SUCC) then
      doConfigure_out fuel connfd ret message sbuf ;;; io_ret (chldPID, smem)
    else
      smem <- io_mem (setMessage smem message) ;;
      logMessage "Reconfiguring, control message is %s." [] ;;;
      setLock SigUsr1 ;;;
      setLock SigUsr2 ;;;
      setLock SigAlrm ;;;
      _ <- alarmWithLog verbose SV_RESPONSE ;;
      chldPID <- syscall CFork ;;
      (if chldPID =? -1 then logError "Failed to start server(%s)!" [] else io_ret tt) ;;;
      spinAND3 fuel SigUsr1 SigUsr2 SigAlrm ;;;
      let smem := child smem in
      _ <- alarmWithLog verbose 0 ;;
      u2 <- isLocked SigUsr2 ;;
      if negb u2 then
        message <- io_mem (getMessage smem message) ;;
        doConfigure_out fuel connfd RET_EMSG message sbuf ;;; io_ret (chldPID, smem)
      else
        al <- isLocked SigAlrm ;;
        doConfigure_out fuel connfd (if negb al then RET_EPROC else ret) message sbuf ;;;
        io_ret (chldPID, smem).

(** [parse]: the instruction of a client. *)
Definition server_parse (fuel : nat) (connfd chldPID : Z) (completeKill : bool)
  (message sbuf smem : list Z) (child : list Z -> list Z) : io W (Z * list Z) :=
  let* (rv, b) := rRecvBytes verbose fuel connfd [0] 1 "Failed to receive instruction from client" in
  if rv =? RET_SUCC then
    match b with
    | [c] =>
        if c =? SIG_TERM then doTerminate fuel connfd chldPID completeKill ;;; io_ret (chldPID, smem)
        else if c =? SIG_CONF then doConfigure fuel connfd chldPID completeKill message sbuf smem child
        else logWarning "Unrecognized instruction %d." [c] ;;; io_ret (chldPID, smem)
    | _ => io_fault
    end
  else io_ret (chldPID, smem).
End server.

(** ** Control messages as text *)
(** The three numbers of a control message. *)
Lemma sscanf_control_message a b c :
  in_int a -> in_int b -> in_int c ->
  sscanf_ddd (control_message a b c) = Ret (Some a, Some b, Some c).
Proof.
  intros Ha Hb Hc. unfold sscanf_ddd, control_message.
  rewrite sscanf_sprintf_d by done. cbn [obind app].
  rewrite sscanf_d_space, sscanf_sprintf_d by done. cbn [obind].
  rewrite sscanf_d_space, <- (app_nil_r (sprintf_d c)), sscanf_sprintf_d by done. done.
Qed.
Lemma control_message_chars a b c :
  in_int a -> in_int b -> in_int c -> Forall (fun c => c <> 0) (control_message a b c).
Proof.
  intros. unfold control_message. repeat (apply Forall_app; split); try by apply sprintf_d_chars.
  all: by repeat constructor.
Qed.

(** ** Shared memory keeps a message *)
Lemma get_set_message smem0 smem s junk dest :
  Forall (fun c => c <> 0) s -> zlen s + 1 < 2147483648 -> zlen s + 1 <= zlen dest ->
  setMessage smem0 (s ++ 0 :: junk) = Ret smem ->
  getMessage smem dest = Ret (s ++ 0 :: zdrop (zlen s + 1) dest).
Proof.
  intros Hs Hb Hd E. pose proof (zlen_nonneg s). unfold setMessage in E.
  rewrite c_string_app in E by done. cbn [obind] in E. rewrite u32_small in E by word.
  apply bind_Ret in E as (m1 & Em1 & E). apply bind_Ret in E as (m & Em & Em2).
  assert (s ++ 0 :: junk = (s ++ [0]) ++ junk) as Ej by (by rewrite <- app_assoc).
  assert (zlen (s ++ [0]) = zlen s + 1) as Hl by (by rewrite zlen_app).
  apply mem_read_Ret in Em as (_ & _ & _ & ->).
  rewrite (zdrop_0 0), Ej, ztake_app_length in Em2 by done.
  unfold getMessage. rewrite (mem_read_write_before _ _ _ _ 0 4 Em2) by done.
  pose proof (mem_read_write_same _ _ _ _ Em1) as Hr. rewrite zlen_le_bytes in Hr.
  change (Z.of_nat 4) with 4 in Hr. rewrite Hr. cbn [obind].
  rewrite le_val_le_bytes by (cbn; lia). rewrite s32_small by lia.
  pose proof (mem_read_write_same _ _ _ _ Em2) as Hr2. rewrite Hl in Hr2. rewrite Hr2. cbn [obind].
  rewrite mem_write_ok by lia. rewrite (ztake_0 0), Hl by lia. cbn [app]. by rewrite <- app_assoc.
Qed.

Lemma zlen_control_message a b c : zlen (control_message a b c) <= 65.
Proof.
  unfold control_message. rewrite !zlen_app. change (zlen [32]) with 1.
  pose proof (zlen_sprintf_d a). pose proof (zlen_sprintf_d b). pose proof (zlen_sprintf_d c). lia.
Qed.

(** ** From the client to the worker *)
Section properties.
Context {W : Type} `{Posix W}.
Context (verbose : Z).

(** [rKill] and what follows it always return. *)
Lemma rKill_Done pid sig (w : W) : exists r w', rKill verbose pid sig w = (Done r, w').
Proof.
  unfold rKill. destruct (sys_call (CKill pid sig) w) as [r w1] eqn:E.
  rewrite (bind_call _ _ _ _ _ E). destruct (r <? 0).
  - unfold logError. rewrite bind_printf, bind_errno. by eexists _, _.
  - unfold logVerbose, logVerboseL. destruct (1 <=? verbose); by eexists _, _.
Qed.
Lemma configure_out_Done pid wk smem (w : W) :
  exists w', configure_out verbose pid wk smem w = (Done (Some wk, smem), w').
Proof.
  unfold configure_out. destruct (rKill_Done pid SIGUSR1 w) as (r & w1 & E).
  rewrite (bind_Done _ _ _ _ _ E). destruct (negb _); by eexists.
Qed.
Lemma configure_fail_Done pid smem (w : W) :
  exists w', configure_fail verbose pid smem w = (Done (None, smem), w').
Proof.
  unfold configure_fail. destruct (rKill_Done pid SIGUSR2 w) as (r & w1 & E).
  rewrite (bind_Done _ _ _ _ _ E). destruct (negb _); by eexists.
Qed.

(** What the worker makes of the three numbers. *)
Definition configured (wk : Worker) (a b c : Z) : option Worker :=
  if Z.land a (Z.lnot FLAG_REVERSE) =? TYPE_LONG then
    if b <=? 0 then None else Some (mkWorker a b (wk_arg2 wk) (wk_running wk))
  else if c <=? 0 then None
  else Some (mkWorker a (if b <=? 0 then 200 else b) c (wk_running wk)).

Lemma configure_with_message report wk a b c smem0 smem junk message (w : W) :
  in_int a -> in_int b -> in_int c -> zlen message = 256 ->
  setMessage smem0 (control_message a b c ++ 0 :: junk) = Ret smem ->
  (Z.land a (Z.lnot FLAG_REVERSE) = TYPE_LONG \/ Z.land a (Z.lnot FLAG_REVERSE) = TYPE_FIX) ->
  (forall r t a w, exists w', report r t a w = (Done tt, w')) ->
  exists w', configure_with verbose report wk message smem w = (Done (configured wk a b c, smem), w').
Proof.
  intros Ha Hb Hc Hm Hset Hk Hrep. unfold configure_with.
  destruct (sys_call CGetppid w) as [pid w0] eqn:E. rewrite (bind_call _ _ _ _ _ E).
  destruct (sys_call CGetpid w0) as [self w1] eqn:E1. rewrite (bind_call _ _ _ _ _ E1).
  unfold logMessage at 1. rewrite bind_printf. pose proof (zlen_control_message a b c).
  rewrite (bind_mem _ _ _ _ (get_set_message smem0 smem _ junk message
    (control_message_chars a b c Ha Hb Hc) ltac:(lia) ltac:(lia) Hset)).
  rewrite (bind_mem _ _ _ _ (c_string_app _ _ (control_message_chars a b c Ha Hb Hc))).
  rewrite (bind_mem _ _ _ _ (sscanf_control_message a b c Ha Hb Hc)).
  rewrite (bind_mem _ _ _ a) by done. cbn zeta. unfold configured.
  destruct Hk as [->| ->]; cbn [Z.eqb TYPE_LONG TYPE_FIX Pos.eqb].
  - rewrite (bind_mem _ _ _ b) by done. destruct (b <=? 0).
    + unfold logError. rewrite bind_printf. apply configure_fail_Done.
    + unfold logMessage. rewrite bind_printf. apply configure_out_Done.
  - rewrite (bind_mem _ _ _ b), (bind_mem _ _ _ c) by done. destruct (c <=? 0).
    + unfold logError. rewrite bind_printf. apply configure_fail_Done.
    + match goal with |- context [report ?r ?t ?a] => destruct (Hrep r t a (sys_print (mkMessage ("[ Message ]" +:+ "Trying to reconfigure server(%d).") [self]) w1)) as [w2 E2] end.
      rewrite (bind_Done _ _ _ _ _ E2). apply configure_out_Done.
Qed.
Lemma configure_control_message wk a b c smem0 smem junk message (w : W) :
  in_int a -> in_int b -> in_int c -> zlen message = 256 ->
  setMessage smem0 (control_message a b c ++ 0 :: junk) = Ret smem ->
  (Z.land a (Z.lnot FLAG_REVERSE) = TYPE_LONG \/ Z.land a (Z.lnot FLAG_REVERSE) = TYPE_FIX) ->
  exists w', configure verbose wk message smem w = (Done (configured wk a b c, smem), w').
Proof. intros. eapply configure_with_message; try done. by eexists. Qed.

(** What the user asks the client for is what the worker runs: printed by the
    client, sent through shared memory and scanned by the worker, a fix test keeps its
    direction, size and time limit (200 seconds when none is given) and a long test its
    direction and time; a long test without a positive time is refused. *)
Theorem client_request_reaches_worker (c : Client) wk smem0 smem junk message (w : W) :
  cl_reverse c = 0 \/ cl_reverse c = FLAG_REVERSE ->
  in_int (cl_timelen c) -> in_int (cl_localTime c) -> in_int (cl_size c) -> zlen message = 256 ->
  setMessage smem0 (client_message c ++ 0 :: junk) = Ret smem ->
  let time := if cl_reverse c =? 0 then cl_timelen c else cl_localTime c in
  exists w', configure verbose wk message smem w =
    (Done (if 0 <? cl_size c then
             Some (mkWorker (Z.lor TYPE_FIX (cl_reverse c))
                     (if cl_localTime c <=? 0 then 200 else cl_localTime c) (cl_size c) (wk_running wk))
           else if time <=? 0 then None
           else Some (mkWorker (cl_reverse c) time (wk_arg2 wk) (wk_running wk)), smem), w').
Proof.
  intros Hr Ht Hl Hs Hm Hset time. unfold client_message in Hset.
  destruct (Z.ltb_spec 0 (cl_size c)) as [Hpos|Hneg].
  - destruct (Z.leb_spec (cl_size c) 0); [lia|]. cbn [andb] in Hset.
    destruct (configure_control_message wk (Z.lor TYPE_FIX (cl_reverse c)) (cl_localTime c) (cl_size c)
      smem0 smem junk message w) as [w' E]; try done; [by destruct Hr as [-> | ->]|right; by destruct Hr as [-> | ->]|].
    exists w'. rewrite E. unfold configured. destruct (Z.leb_spec (cl_size c) 0); [lia|].
    by destruct Hr as [-> | ->].
  - destruct (Z.leb_spec (cl_size c) 0); [|lia]. cbn [andb] in Hset. fold time in Hset.
    destruct (configure_control_message wk (Z.lor TYPE_LONG (cl_reverse c)) time (cl_size c)
      smem0 smem junk message w) as [w' E]; try done.
    + by destruct Hr as [-> | ->].
    + unfold time. by destruct (_ =? _).
    + left. by destruct Hr as [-> | ->].
    + exists w'. rewrite E. unfold configured. by destruct Hr as [-> | ->].
Qed.
End properties.

Section verdict.
Context {W : Type} `{Posix W} (fd : Z) `{!Peer W fd} `{!Reliable W fd Dials}.
Context (verbose : Z) (resolve : list Z -> Z -> Z -> list Z).

Lemma rRecvBytes_one fuel text (w : W) v rest :
  peer_ok w -> peer_in w = v :: rest -> (1 < fuel)%nat ->
  exists w', rRecvBytes verbose fuel fd [0] 1 text w = (Done (RET_SUCC, [v]), w') /\
    peer_ok w' /\ peer_in w' = rest /\ peer_out w' = peer_out w.
Proof.
  intros Hok Hin Hf. unfold rRecvBytes. run_silent. run_silent.
  destruct Hs as (_ & Hi & Ho & _), Hs0 as (_ & Hi0 & Ho0 & _).
  destruct (rio_readnr_spec fd verbose fuel [0] 1 w1) as (w2 & E & Hok2 & Hi2 & Ho2 & _);
    [done|done|done|cbn; lia|].
  rewrite Hi0, Hi, Hin in E, Hi2. rewrite zlen_cons in E, Hi2. pose proof (zlen_nonneg rest).
  replace (Z.min 1 _) with 1 in E, Hi2 by lia.
  change (u64 1) with 1. rewrite (bind_Done _ _ _ _ _ E). cbn match. rewrite Z.ltb_irrefl.
  unfold logVerbose. run_silent. run_silent. exists w4. split; [done|]. split; [done|].
  destruct Hs0 as (_ & -> & -> & _), Hs as (_ & -> & -> & _). split; [by rewrite Hi2|congruence].
Qed.

(** The exchange with the controller, whatever the request. *)
Lemma reconfigure_with_ok request fuel (c : Client) message sbuf (w : W) verdict rest :
  (forall n f t, 4 <= zlen (resolve n f t)) -> 0 <= fd ->
  zlen request <= 65 -> Forall (fun c => c <> 0) request ->
  zlen message = 1024 -> zlen sbuf = 2048 -> (2048 < fuel)%nat ->
  peer_ok w -> peer_in w = verdict :: rest ->
  exists w1,
    reconfigure_with verbose resolve request fuel c message sbuf w = (Done tt, w1) /\
    peer_ok w1 /\ peer_in w1 = rest /\
    peer_out w1 = peer_out w ++ [SIG_CONF] ++ wire (request ++ [0]).
Proof.
  intros Hres Hfd Hlen Hch Hm Hb Hf Hok Hin. unfold reconfigure_with, logVerbose, client_dial.
  run_silent.
  destruct (netdial_reliable fd resolve AF_INET SOCK_STREAM (cl_localIP c) (cl_localPort c)
    (default [] (cl_serverIP c)) (cl_cport c) w0 Hres Hok0) as (wd & Ed & Hsd).
  rewrite (bind_Done _ _ _ _ _ Ed). pose proof (proj1 Hsd) as Hokd.
  assert (peer_same fd w wd) as (_ & Hi0 & Ho0 & _) by (by etrans).
  clear w0 Hs Hok0 Ed Hsd. rename wd into w0, Hokd into Hok0.
  destruct (Z.ltb_spec fd 0); [lia|].
  rewrite (bind_mem _ _ _ _ (mem_write_ok message 0 [SIG_CONF] ltac:(done) ltac:(change (zlen [SIG_CONF]) with 1; lia))).
  change (0 + zlen [SIG_CONF]) with 1. rewrite (ztake_0 0) by lia. cbn [app].
  set (m1 := SIG_CONF :: zdrop 1 message).
  assert (zlen m1 = 1024) as Hm1 by (unfold m1; rewrite zlen_cons, zlen_drop; lia).
  destruct (rio_writenr_spec fd verbose fuel m1 1 w0) as (w1 & E1 & Hok1 & Hi1 & Ho1 & _);
    [lia|lia|done|lia|].
  rewrite (bind_Done _ _ _ _ _ E1), Z.ltb_irrefl.
  set (s := request) in *.
  pose proof (zlen_nonneg s).
  assert (zlen (s ++ [0]) = zlen s + 1) as Hs1 by (by rewrite zlen_app).
  rewrite (bind_mem _ _ _ (s ++ 0 :: zdrop (zlen s + 1) m1)).
  2: { rewrite mem_write_ok, (ztake_0 0), Hs1 by lia. cbn [app]. by rewrite <- app_assoc. }
  run_silent. destruct Hs as (_ & Hi2 & Ho2 & _).
  rewrite (bind_mem _ _ _ s) by (by apply c_string_app).
  set (m2 := s ++ 0 :: zdrop (zlen s + 1) m1).
  assert (m2 = (s ++ [0]) ++ zdrop (zlen s + 1) m1) as Em2 by (unfold m2; by rewrite <- app_assoc).
  assert (zlen m2 = 1024) as Hm2 by (rewrite Em2, zlen_app, Hs1, zlen_drop; lia).
  destruct (rSendMessage_spec fd verbose fuel m2 (1 + zlen s) sbuf w2)
    as (w3 & b3 & E3 & Hok3 & Hi3 & Ho3); [lia|lia|done|done|lia|].
  rewrite (bind_Done _ _ _ _ _ E3).
  destruct (rRecvBytes_one fuel "Failed to receive return value" w3 verdict rest)
    as (w4 & E4 & Hok4 & Hi4 & Ho4); [done|congruence|lia|].
  rewrite (bind_Done _ _ _ _ _ E4). cbn [negb Z.eqb RET_SUCC]. run_reliable Dials.
  exists w5. split; [done|]. split; [done|]. destruct Hs as (_ & -> & -> & _). split; [done|].
  rewrite Ho4, Ho3, Ho2, Ho1, Ho0, <- app_assoc. f_equal.
  replace (ztake (1 + zlen s) m2) with (s ++ [0]) by (rewrite Em2, ztake_app_length; [done|lia]).
  done.
Qed.

(** The client never learns whether the controller accepted its request: it
    overwrites the byte it received with the result of the call that received it, and
    goes on as if the server were configured, whatever the byte [verdict] says. What it
    sent is the instruction and its message. *)
Theorem client_ignores_verdict fuel (c : Client) message sbuf (w : W) verdict rest :
  (forall n f t, 4 <= zlen (resolve n f t)) ->
  0 <= fd -> cl_reverse c = 0 \/ cl_reverse c = FLAG_REVERSE ->
  in_int (cl_timelen c) -> in_int (cl_localTime c) -> in_int (cl_size c) ->
  zlen message = 1024 -> zlen sbuf = 2048 -> (2048 < fuel)%nat ->
  peer_ok w -> peer_in w = verdict :: rest ->
  exists w1,
    reconfigureServer verbose resolve fuel c message sbuf w = (Done tt, w1) /\
    peer_ok w1 /\ peer_in w1 = rest /\
    peer_out w1 = peer_out w ++ [SIG_CONF] ++ wire (client_message c ++ [0]).
Proof.
  intros Hres Hfd Hr Ht Hl Hs Hm Hb Hf Hok Hin. apply (reconfigure_with_ok _ _ _ _ _ _ verdict); try done.
  - apply zlen_control_message.
  - apply control_message_chars; [|by destruct (_ && _)|done].
    destruct (0 <? cl_size c), Hr as [-> | ->]; done.
Qed.
End verdict.

(** A request for a fix test of 1000 bytes, which the controller refuses. *)
Definition example_client : Client :=
  mkClient None (Some [49]) 0 80 81 (-1) 200 1000 None 0.

Lemma client_request_reaches_worker_witness :
  exists smem w', setMessage (replicate 64 0) (client_message example_client ++ [0]) = Ret smem /\
    configure 0 Worker_initial (replicate 256 0) smem quiet
      = (Done (Some (mkWorker TYPE_FIX 200 1000 false), smem), w').
Proof.
  destruct (setMessage (replicate 64 0) (client_message example_client ++ [0])) as [smem| |] eqn:E;
    [|by vm_compute in E..].
  destruct (client_request_reaches_worker 0 example_client Worker_initial (replicate 64 0) smem []
              (replicate 256 0) quiet) as [w' Ew]; try done; [by left|].
  by exists smem, w'.
Defined.

Lemma client_ignores_verdict_witness :
  exists w', reconfigureServer 0 loopback (Z.to_nat 2049) example_client (replicate 1024 0) (replicate 2048 0)
               (with_reads [Chunk [RET_EMSG]]) = (Done tt, w').
Proof.
  destruct (client_ignores_verdict 0 0 loopback (Z.to_nat 2049) example_client (replicate 1024 0)
              (replicate 2048 0) (with_reads [Chunk [RET_EMSG]]) RET_EMSG []) as (w1 & E & _).
  - done.
  - done.
  - by left.
  - done.
  - done.
  - done.
  - reflexivity.
  - reflexivity.
  - lia.
  - split; [by repeat constructor|split; [constructor|done]].
  - done.
  - eexists. exact E.
Defined.
