(* ===== verification/GetOpt.v ===== *)
(** A model of [getopt], which is code of the C library and not of the repository, as the
    programs of src/3rd/mperf use it (GNU behaviour: arguments that are not options are
    passed over, an option may come after them), and the loop every [parseArguments] runs over it. What [getopt] prints about a wrong
    option is left out; the programs print a message of their own. *)

From stdpp Require Import base list numbers strings.
From S2P Require Import Prelude Posix CText.

Open Scope Z_scope.
Open Scope io_scope.

(** How an option takes its argument: [c], [c:] or [c::] in the option string. *)
Inductive opt_kind : Type := NoArg | RequiredArg | OptionalArg.

Definition c_colon : Z := 58.
Definition c_dash : Z := 45.
Definition c_question : Z := 63.

Fixpoint opt_lookup (optstring : list Z) (c : Z) : option opt_kind :=
  match optstring with
  | [] => None
  | d :: rest =>
      if (d =? c) && negb (c =? c_colon) then
        match rest with
        | x :: y :: _ =>
            if x =? c_colon then if y =? c_colon then Some OptionalArg else Some RequiredArg
            else Some NoArg
        | [x] => if x =? c_colon then Some RequiredArg else Some NoArg
        | [] => Some NoArg
        end
      else opt_lookup rest c
  end.

(** The state between two calls: the rest of the element that is being read, and the
    elements after it. *)
Record getopt_state : Type := mkGetopt { go_nextchar : list Z; go_args : list (list Z) }.

(** The next element that holds options; elements that are no options are passed over,
    [--] ends the scan. *)
Fixpoint next_element (args : list (list Z)) : option (list Z * list (list Z)) :=
  match args with
  | [] => None
  | a :: rest =>
      match a with
      | d :: c :: a' =>
          if d =? c_dash then
            if (c =? c_dash) && bool_decide (a' = []) then None else Some (c :: a', rest)
          else next_element rest
      | _ => next_element rest
      end
  end.

(** One call: the option, or [?] for an option that is unknown or lacks its argument;
    [optarg] and [optopt]. No value at the end of the options ([EOF]). *)
Record opt_result : Type := mkOpt {
  op_c : Z;
  op_optarg : option (list Z);
  op_optopt : Z
}.

Definition getopt (optstring : list Z) (g : getopt_state) : option (opt_result * getopt_state) :=
  match (match go_nextchar g with
         | [] => next_element (go_args g)
         | s => Some (s, go_args g)
         end) with
  | None => None
  | Some ([], _) => None
  | Some (c :: s, args) =>
      match opt_lookup optstring c with
      | None => Some (mkOpt c_question None c, mkGetopt s args)
      | Some NoArg => Some (mkOpt c None c, mkGetopt s args)
      | Some OptionalArg =>
          match s with
          | [] => Some (mkOpt c None c, mkGetopt [] args)
          | _ => Some (mkOpt c (Some s) c, mkGetopt [] args)
          end
      | Some RequiredArg =>
          match s, args with
          | [], [] => Some (mkOpt c_question None c, mkGetopt [] [])
          | [], a :: args => Some (mkOpt c (Some a) c, mkGetopt [] args)
          | _, _ => Some (mkOpt c (Some s) c, mkGetopt [] args)
          end
      end
  end.

(** Every call uses up a character or an element. *)
Definition args_size (args : list (list Z)) : nat := sum_list ((fun a => S (length a)) <$> args).
Arguments args_size : simpl never.
Lemma args_size_cons a args : args_size (a :: args) = (S (length a) + args_size args)%nat.
Proof. done. Qed.
Definition getopt_size (g : getopt_state) : nat := (length (go_nextchar g) + args_size (go_args g))%nat.

Lemma next_element_size args s rest :
  next_element args = Some (s, rest) -> (length s + args_size rest < args_size args)%nat /\ s <> [].
Proof.
  induction args as [|a args IH]; [done|]. rewrite args_size_cons. cbn.
  destruct a as [|d [|c a]]; cbn; try (intros E; apply IH in E as [? ?]; split; [lia|done]).
  destruct (d =? c_dash); [|intros E; apply IH in E as [? ?]; split; [lia|done]].
  destruct (_ && _); [done|]. intros [= <- <-]. cbn. split; [lia|done].
Qed.

Lemma getopt_decreases optstring g r g' :
  getopt optstring g = Some (r, g') -> (getopt_size g' < getopt_size g)%nat.
Proof.
  unfold getopt, getopt_size.
  assert (forall s args, (match go_nextchar g with [] => next_element (go_args g) | s => Some (s, go_args g) end)
    = Some (s, args) -> (length s + args_size args <= length (go_nextchar g) + args_size (go_args g))%nat) as Hle.
  { destruct (go_nextchar g) as [|c s]; intros ? ? E; [apply next_element_size in E as [? _]|injection E as <- <-];
      cbn in *; lia. }
  destruct (match go_nextchar g with [] => _ | _ => _ end) as [[[|c s] args]|] eqn:E; [done| |done].
  specialize (Hle _ _ eq_refl). cbn in Hle.
  destruct (opt_lookup optstring c) as [[]|].
  - intros [= <- <-]. cbn. lia.
  - destruct s as [|c' s]; [destruct args as [|a args]|]; intros [= <- <-];
      rewrite ?args_size_cons in *; cbn in *; lia.
  - destruct s; intros [= <- <-]; cbn in *; lia.
  - intros [= <- <-]. cbn. lia.
Qed.

(** ** The loop [while ((c = getopt(argc, argv, ...)) != EOF)]

    [handle] is the [switch] of the program on the variables [A]; [argv[0]] is not
    scanned. *)
Section loop.
Context {W A : Type} `{Posix W}.
Context (optstring : list Z) (handle : opt_result -> A -> io W A).

Fixpoint getopt_loop (fuel : nat) (g : getopt_state) (v : A) : io W A :=
  match fuel with
  | O => io_nofuel
  | S fuel =>
      match getopt optstring g with
      | None => io_ret v
      | Some (r, g) => v <- handle r v ;; getopt_loop fuel g v
      end
  end.
Definition getopt_all (args : list (list Z)) (v : A) : io W A :=
  getopt_loop (S (args_size args)) (mkGetopt [] args) v.

(** The fuel of [getopt_all] is enough: the loop ends if its body does. *)
Lemma getopt_loop_fuel fuel g v w :
  (forall r v w, (handle r v w).1 <> NoFuel) -> (getopt_size g < fuel)%nat ->
  (getopt_loop fuel g v w).1 <> NoFuel.
Proof.
  intros Hh. revert g v w. induction fuel as [|fuel IH]; intros g v w Hf; [lia|]. cbn.
  destruct (getopt optstring g) as [[r g']|] eqn:E; [|done]. apply getopt_decreases in E.
  unfold io_bind. specialize (Hh r v w). destruct (handle r v w) as [[] w']; try done.
  apply IH. lia.
Qed.
Lemma getopt_all_terminates args v w :
  (forall r v w, (handle r v w).1 <> NoFuel) -> (getopt_all args v w).1 <> NoFuel.
Proof. intros Hh. apply getopt_loop_fuel; [done|]. unfold getopt_size. cbn. lia. Qed.

(** More fuel makes no difference, so the loop can be run call by call. *)
Lemma getopt_loop_more fuel fuel' g v :
  (getopt_size g < fuel)%nat -> (getopt_size g < fuel')%nat ->
  forall w, getopt_loop fuel g v w = getopt_loop fuel' g v w.
Proof.
  revert fuel' g v. induction fuel as [|fuel IH]; intros [|fuel'] g v Hf Hf' w; try lia. cbn.
  destruct (getopt optstring g) as [[r g']|] eqn:E; [|done]. apply getopt_decreases in E.
  unfold io_bind. destruct (handle r v w) as [[v'| | |] w']; try done. apply IH; lia.
Qed.
Definition getopt_run (g : getopt_state) (v : A) : io W A := getopt_loop (S (getopt_size g)) g v.
Lemma getopt_run_eq g v w :
  getopt_run g v w =
  match getopt optstring g with
  | None => (Done v, w)
  | Some (r, g) => (v <- handle r v ;; getopt_run g v) w
  end.
Proof.
  unfold getopt_run at 1. cbn [getopt_loop].
  destruct (getopt optstring g) as [[r g']|] eqn:E; [|done].
  apply getopt_decreases in E. unfold io_bind. destruct (handle r v w) as [[v'| | |] w']; try done.
  apply getopt_loop_more; lia.
Qed.

(** A property of the variables that the [switch] keeps. *)
Lemma getopt_loop_inv (P : A -> Prop) fuel g v w v' w' :
  (forall r v w v' w', P v -> handle r v w = (Done v', w') -> P v') ->
  P v -> getopt_loop fuel g v w = (Done v', w') -> P v'.
Proof.
  intros Hh. revert g v w. induction fuel as [|fuel IH]; intros g v w Hv; [done|]. cbn.
  destruct (getopt optstring g) as [[r g']|].
  - unfold io_bind. destruct (handle r v w) as [[v1| | |] w1] eqn:E; try done.
    apply IH. eauto.
  - intros [= <- <-]. done.
Qed.
End loop.

Definition opts (s : string) : list Z := bytes_of s.

(** The elements [-p 80 x -V2 -hv -p], scanned for [p:hV::]. *)
Example getopt_all_example :
  getopt_all (W := Script) (opts "p:hV::") (fun r v => io_ret (v ++ [(op_c r, op_optarg r)]))
    (bytes_of <$> ["-p"; "80"; "x"; "-V2"; "-hv"; "-p"]) [] quiet
  = (Done [(112, Some [56; 48]); (86, Some [50]); (104, None); (c_question, None);
           (c_question, None)], quiet).
Proof. vm_compute. reflexivity. Qed.
