(* ===== verification/MperfOptions.v ===== *)
(** The options of the programs of the throughput tool: [parseArguments] of
    src/3rd/mperf/src/client.c, server.c and worker.c (for the client in the build without PROBE), and the
    arguments the controller passes on to its worker. *)

From Stdlib Require Import Ascii.
From stdpp Require Import base list numbers strings.
From S2P Require Import Prelude Posix CText GetOpt MperfUtil MperfNet MperfTransfer MperfControl.

Open Scope Z_scope.
Open Scope io_scope.

Definition ch (a : Ascii.ascii) : Z := Z.of_N (Ascii.N_of_ascii a).
Arguments ch a%_char_scope.

Section options.
Context {W : Type} `{Posix W}.

(** [optarg] of an option that requires one, and its number. *)
Definition opt_string (r : opt_result) : io W (list Z) :=
  io_mem (match op_optarg r with Some s => Ret s | None => Undef end).
Definition opt_int (r : opt_result) : io W Z := s <- opt_string r ;; io_mem (atoi s).

(** [-V] and [-V<level>] *)
Definition verbose_option (r : opt_result) (l : Log) : io W Log :=
  match op_optarg r with
  | Some s => level <- io_mem (atoi s) ;; io_ret (setVerbose level l)
  | None => io_ret (setVerbose 1 l)
  end.
Definition unexpected_option {A} (r : opt_result) : io W A :=
  logWarning "Unexpected command-line option %c!" [op_optopt r] ;;; printUsageAndExit.
(** [if (path != NULL) redirectLogTo(path);] *)
Definition redirect_to (path : option (list Z)) (l : Log) : io W Log :=
  match path with Some p => redirectLogTo p l | None => io_ret l end.

(** *** client.c *)
Definition client_option (r : opt_result) (v : Client * Log) : io W (Client * Log) :=
  let '(c, l) := v in
  let 'mkClient localIP serverIP localPort port cport timelen localTime size path reverse := c in
  if op_c r =? ch "B" then
    s <- opt_string r ;;
    io_ret (mkClient (Some s) serverIP localPort port cport timelen localTime size path reverse, l)
  else if op_c r =? ch "b" then
    n <- opt_int r ;;
    io_ret (mkClient localIP serverIP (u16 n) port cport timelen localTime size path reverse, l)
  else if op_c r =? ch "c" then
    s <- opt_string r ;;
    io_ret (mkClient localIP (Some s) localPort port cport timelen localTime size path reverse, l)
  else if op_c r =? ch "h" then printUsageAndExit
  else if op_c r =? ch "l" then
    s <- opt_string r ;;
    io_ret (mkClient localIP serverIP localPort port cport timelen localTime size (Some s) reverse, l)
  else if op_c r =? ch "n" then
    n <- opt_int r ;;
    io_ret (mkClient localIP serverIP localPort port cport timelen localTime n path reverse, l)
  else if op_c r =? ch "p" then
    n <- opt_int r ;;
    io_ret (mkClient localIP serverIP localPort (u16 n) cport timelen localTime size path reverse, l)
  else if op_c r =? ch "P" then
    n <- opt_int r ;;
    io_ret (mkClient localIP serverIP localPort port (u16 n) timelen localTime size path reverse, l)
  else if op_c r =? ch "s" then
    io_ret (mkClient localIP serverIP localPort port cport timelen localTime size path FLAG_REVERSE, l)
  else if op_c r =? ch "t" then
    n <- opt_int r ;;
    io_ret (mkClient localIP serverIP localPort port cport n localTime size path reverse, l)
  else if op_c r =? ch "T" then
    n <- opt_int r ;;
    io_ret (mkClient localIP serverIP localPort port cport timelen n size path reverse, l)
  else if op_c r =? ch "v" then printVersionAndExit
  else if op_c r =? ch "V" then l <- verbose_option r l ;; io_ret (c, l)
  else unexpected_option r.

(** The defaults that depend on other options. *)
Definition client_defaults (c : Client) : outcome Client :=
  let cport := if cl_cport c =? 0 then u16 (cl_port c + 1) else cl_cport c in
  (localTime <- (if cl_localTime c <? 0 then
                   if 0 <? cl_size c then Ret 200 else int_of (cl_timelen c + 10)
                 else Ret (cl_localTime c)) ;;
   Ret (mkClient (cl_localIP c) (cl_serverIP c) (cl_localPort c) (cl_port c) cport (cl_timelen c)
          localTime (cl_size c) (cl_path c) (cl_reverse c)))%outcome.

Definition client_parseArguments (args : list (list Z)) (l : Log) : io W (Client * Log) :=
  let* (c, l) := getopt_all (opts "B:b:c:hl:n:p:P:st:T:vV::") client_option args (Client_initial, l) in
  c <- io_mem (client_defaults c) ;;
  if bool_decide (cl_serverIP c = None) then logFatal "No server IP specified." []
  else if cl_port c =? 0 then logFatal "No legal port number specified." []
  else if (cl_timelen c <? 0) && (cl_size c <? 0) then logFatal "No legal -t or -n argument specified." []
  else l <- redirect_to (cl_path c) l ;; io_ret (c, l).

(** *** server.c *)
Record Controller : Type := mkController {
  ct_port : Z;
  ct_path : option (list Z);
  ct_sourceIP : option (list Z);
  ct_svPort : Z;
  ct_svPath : option (list Z);
  ct_completeKill : bool
}.
Definition Controller_initial : Controller := mkController 0 None None 0 None false.

Definition server_option (r : opt_result) (v : Controller * Log) : io W (Controller * Log) :=
  let '(c, l) := v in
  let 'mkController port path sourceIP svPort svPath completeKill := c in
  if op_c r =? ch "h" then printUsageAndExit
  else if op_c r =? ch "k" then io_ret (mkController port path sourceIP svPort svPath true, l)
  else if op_c r =? ch "l" then
    s <- opt_string r ;; io_ret (mkController port (Some s) sourceIP svPort svPath completeKill, l)
  else if op_c r =? ch "L" then
    s <- opt_string r ;; io_ret (mkController port path sourceIP svPort (Some s) completeKill, l)
  else if op_c r =? ch "p" then
    n <- opt_int r ;; io_ret (mkController n path sourceIP svPort svPath completeKill, l)
  else if op_c r =? ch "P" then
    n <- opt_int r ;; io_ret (mkController port path sourceIP n svPath completeKill, l)
  else if op_c r =? ch "s" then
    s <- opt_string r ;; io_ret (mkController port path (Some s) svPort svPath completeKill, l)
  else if op_c r =? ch "v" then printVersionAndExit
  else if op_c r =? ch "V" then l <- verbose_option r l ;; io_ret (c, l)
  else unexpected_option r.

Definition server_parseArguments (args : list (list Z)) (l : Log) : io W (Controller * Log) :=
  let* (c, l) := getopt_all (opts "p:vV::l:hL:s:P:k") server_option args (Controller_initial, l) in
  if ct_port c =? 0 then logFatal "No legal port number specified.\n" []
  else
    svPort <- io_mem (if ct_svPort c =? 0 then int_of (ct_port c - 1) else Ret (ct_svPort c)) ;;
    l <- redirect_to (ct_path c) l ;;
    io_ret (mkController (ct_port c) (ct_path c) (ct_sourceIP c) svPort (ct_svPath c) (ct_completeKill c), l).

(** *** worker.c *)
Record WorkerArgs : Type := mkWorkerArgs {
  wa_port : Z;
  wa_path : option (list Z);
  wa_sourceIP : option (list Z)
}.
Definition WorkerArgs_initial : WorkerArgs := mkWorkerArgs 0 None None.

(** There is no case for [v], which the option string names. *)
Definition worker_option (r : opt_result) (v : WorkerArgs * Log) : io W (WorkerArgs * Log) :=
  let '(c, l) := v in
  let 'mkWorkerArgs port path sourceIP := c in
  if op_c r =? ch "h" then printUsageAndExit
  else if op_c r =? ch "l" then s <- opt_string r ;; io_ret (mkWorkerArgs port (Some s) sourceIP, l)
  else if op_c r =? ch "p" then n <- opt_int r ;; io_ret (mkWorkerArgs n path sourceIP, l)
  else if op_c r =? ch "s" then s <- opt_string r ;; io_ret (mkWorkerArgs port path (Some s), l)
  else if op_c r =? ch "V" then l <- verbose_option r l ;; io_ret (c, l)
  else unexpected_option r.

Definition worker_parseArguments (args : list (list Z)) (l : Log) : io W (WorkerArgs * Log) :=
  let* (c, l) := getopt_all (opts "p:vV::l:hs:") worker_option args (WorkerArgs_initial, l) in
  if wa_port c =? 0 then logFatal "No legal port number specified.\n" []
  else l <- redirect_to (wa_path c) l ;; io_ret (c, l).
End options.

(** ** Every command line is dealt with *)
Section termination.
Context {W : Type} `{Posix W}.

Lemma ends_unexpected {A} r : ends (W := W) (A := A) (unexpected_option r).
Proof. unfold unexpected_option, logWarning, printUsageAndExit. eauto with ends. Qed.
Lemma ends_opt_int r : ends (W := W) (opt_int r).
Proof. unfold opt_int, opt_string. eauto with ends. Qed.
Lemma ends_opt_string r : ends (W := W) (opt_string r).
Proof. unfold opt_string. eauto with ends. Qed.
Lemma ends_verbose_option r l : ends (W := W) (verbose_option r l).
Proof. unfold verbose_option. destruct (op_optarg r); eauto with ends. Qed.
Lemma ends_redirect path l : ends (W := W) (redirect_to path l).
Proof. unfold redirect_to, redirectLogTo, logFatal. destruct path; eauto 8 with ends. Qed.
#[local] Hint Resolve ends_unexpected ends_opt_int ends_opt_string ends_verbose_option ends_redirect : ends.

(** The [switch] of each program, case by case. *)
Ltac ends_switch :=
  unfold printUsageAndExit, printVersionAndExit;
  repeat (apply ends_if; [eauto with ends|]); eauto with ends.

Lemma ends_client_option r v : ends (W := W) (client_option r v).
Proof. destruct v as [[] l]. unfold client_option. ends_switch. Qed.
Lemma ends_server_option r v : ends (W := W) (server_option r v).
Proof. destruct v as [[] l]. unfold server_option. ends_switch. Qed.
Lemma ends_worker_option r v : ends (W := W) (worker_option r v).
Proof. destruct v as [[] l]. unfold worker_option. ends_switch. Qed.
Lemma ends_getopt_all {A} optstring (handle : opt_result -> A -> io W A) args v :
  (forall r v, ends (handle r v)) -> ends (getopt_all optstring handle args v).
Proof. intros Hh w. apply getopt_all_terminates. intros. apply Hh. Qed.

(** [parseArguments] of the client, of the controller and of the worker does not run out of
    fuel: the fuel of [getopt_all] is enough. *)
Lemma parseArguments_terminate args l (w : W) :
  (client_parseArguments args l w).1 <> NoFuel /\
  (server_parseArguments args l w).1 <> NoFuel /\
  (worker_parseArguments args l w).1 <> NoFuel.
Proof.
  assert (ends (W := W) (client_parseArguments args l)) as Hc.
  { apply ends_bind; [apply ends_getopt_all, ends_client_option|intros [c l']].
    unfold logFatal. eauto 12 with ends. }
  assert (ends (W := W) (server_parseArguments args l)) as Hs.
  { apply ends_bind; [apply ends_getopt_all, ends_server_option|intros [c l']].
    unfold logFatal. eauto 12 with ends. }
  assert (ends (W := W) (worker_parseArguments args l)) as Hw.
  { apply ends_bind; [apply ends_getopt_all, ends_worker_option|intros [c l']].
    unfold logFatal. eauto 12 with ends. }
  split; [apply Hc|split; [apply Hs|apply Hw]].
Qed.
End termination.

(** ** What the client accepts *)

(** The types of the variables of client.c, and what [parseArguments] has checked. *)
Definition client_typed (c : Client) : Prop :=
  in_u16 (cl_localPort c) /\ in_u16 (cl_port c) /\ in_u16 (cl_cport c) /\
  in_int (cl_timelen c) /\ in_int (cl_localTime c) /\ in_int (cl_size c) /\
  (cl_reverse c = 0 \/ cl_reverse c = FLAG_REVERSE).

Section typing.
Context {W : Type} `{Posix W}.

Lemma opt_int_Done r (w : W) n w' : opt_int r w = (Done n, w') -> in_int n.
Proof.
  unfold opt_int, opt_string, io_bind, io_mem. destruct (op_optarg r) as [s|]; [|done].
  destruct (atoi s) eqn:E; try done. intros [= <- <-]. by eapply atoi_int.
Qed.

(** Read a [Done] result of a sequence of two programs. *)
Lemma bind_Done_inv {A B} (m : io W A) (k : A -> io W B) w b w' :
  io_bind m k w = (Done b, w') -> exists a w1, m w = (Done a, w1) /\ k a w1 = (Done b, w').
Proof. unfold io_bind. destruct (m w) as [[a| | |] w1]; try done. eauto. Qed.

Lemma client_option_typed r v (w : W) v' w' :
  client_typed v.1 -> client_option r v w = (Done v', w') -> client_typed v'.1.
Proof.
  destruct v as [[] l]. unfold client_option, client_typed. cbn. intros Ht.
  repeat match goal with |- context [if ?b then _ else _] => destruct b end; intros E;
    try (apply bind_Done_inv in E as (n & w1 & En & [= <- <-]);
         try apply opt_int_Done in En; cbn; pose proof (u16_range n); tauto);
    try (injection E as <- <-; cbn; tauto);
    try (apply bind_Done_inv in E as (n & w1 & En & [= <- <-]); cbn; tauto);
    try done.
Qed.
End typing.

Lemma client_defaults_typed c c' :
  client_typed c -> client_defaults c = Ret c' -> client_typed c' /\ (0 < cl_size c' -> 0 <= cl_localTime c').
Proof.
  intros (? & ? & ? & ? & Hlt & ? & ?) E. unfold client_defaults in E. apply bind_Ret in E as (t & Et & [= <-]).
  assert (in_int t /\ (0 < cl_size c -> 0 <= t)) as [? ?]
    by (destruct (Z.ltb_spec (cl_localTime c) 0); [destruct (Z.ltb_spec 0 (cl_size c))|];
        [injection Et as <-; by unfold in_int|by apply int_of_Ret in Et as [-> ?]; split; [|lia]|
         injection Et as <-; split; [done|lia]]).
  pose proof (u16_range (cl_port c + 1)). unfold client_typed. cbn. destruct (cl_cport c =? 0); split_and!; auto.
Qed.

Section accepted.
Context {W : Type} `{Posix W}.
Context (args : list (list Z)) (l : Log) (w : W) (c : Client) (l' : Log) (w' : W).
Hypothesis accepted : client_parseArguments args l w = (Done (c, l'), w').

(** What [parseArguments] of the client lets through: ports of 16 bits, numbers of 32, a
    direction, a server and a port, and a time or a size that is not negative; a fix test
    has a time limit. *)
Lemma client_options_typed :
  client_typed c /\ cl_serverIP c <> None /\ cl_port c <> 0 /\
  (0 <= cl_timelen c \/ 0 <= cl_size c) /\ (0 < cl_size c -> 0 <= cl_localTime c).
Proof.
  unfold client_parseArguments in accepted.
  apply bind_Done_inv in accepted as ([c0 l0] & w1 & E1 & E).
  apply (getopt_loop_inv _ _ (fun v => client_typed v.1)) in E1 as Ht;
    [|intros; by eapply client_option_typed|by unfold client_typed, in_int, in_u16; cbn; auto 10 with lia].
  clear E1. cbn [fst] in Ht.
  apply bind_Done_inv in E as (c1 & w2 & E2 & E). unfold io_mem in E2.
  destruct (client_defaults c0) as [c2| |] eqn:Ed; try done. injection E2 as -> ->.
  destruct (client_defaults_typed c0 c1 Ht Ed) as (Ht1 & Hlim).
  destruct (bool_decide_reflect (cl_serverIP c1 = None)); [done|].
  destruct (Z.eqb_spec (cl_port c1) 0); [done|].
  destruct (Z.ltb_spec (cl_timelen c1) 0), (Z.ltb_spec (cl_size c1) 0); cbn [andb] in E; try done.
  all: apply bind_Done_inv in E as (l1 & w3 & _ & [= <- <- <-]); split_and!; auto.
Qed.

(** C23. From the command line of the client to the worker. Whatever options the client
    accepts, the message it builds from them, once the controller has put it into shared
    memory, configures the worker with the same test. With a positive size [-n] this is a fix test
    of that size, in the direction that was asked for, with the time limit of the client
    (its [-T], or 200 seconds), where a limit of zero becomes 200 seconds. Otherwise it is
    a long test in that direction: without [-s] its length is [-t], with [-s] it is the
    time limit of the client ([-T] if that is not negative, else [-t] and ten seconds), and
    the worker refuses it exactly when that length is not positive, so [-t 0] is refused
    without [-s] and taken as ten seconds with it. *)
Theorem options_reach_worker verbose wk smem0 smem junk message (u : W) :
  zlen message = 256 -> setMessage smem0 (client_message c ++ 0 :: junk) = Ret smem ->
  let time := if cl_reverse c =? 0 then cl_timelen c else cl_localTime c in
  exists u', configure verbose wk message smem u =
    (Done (if 0 <? cl_size c then
             Some (mkWorker (Z.lor TYPE_FIX (cl_reverse c))
                     (if cl_localTime c =? 0 then 200 else cl_localTime c) (cl_size c) (wk_running wk))
           else if time <=? 0 then None
           else Some (mkWorker (cl_reverse c) time (wk_arg2 wk) (wk_running wk)), smem), u').
Proof.
  intros Hm Hset time. destruct client_options_typed as ((_ & _ & _ & Ht & Hl & Hs & Hr) & _ & _ & _ & Hlim).
  destruct (client_request_reaches_worker verbose c wk smem0 smem junk message u) as [u' E]; try done.
  exists u'. rewrite E. fold time. destruct (Z.ltb_spec 0 (cl_size c)) as [Hp|]; [|done].
  specialize (Hlim Hp). destruct (Z.leb_spec (cl_localTime c) 0), (Z.eqb_spec (cl_localTime c) 0); done || lia.
Qed.
End accepted.

(** ** From the controller to its worker *)
Section passed_on.
Context {W : Type} `{Posix W}.

#[local] Abbreviation worker_run args := (getopt_run (opts "p:vV::l:hs:") worker_option (mkGetopt [] args)).

Lemma worker_run_verbose verbose rest c l (w : W) :
  in_int verbose ->
  worker_run ((if verbose =? 0 then [] else [bytes_of "-V" ++ sprintf_d verbose]) ++ rest) (c, l) w
  = worker_run rest (c, if verbose =? 0 then l else setVerbose verbose l) w.
Proof.
  intros Hv. destruct (verbose =? 0); [done|]. destruct (sprintf_d_cons verbose Hv) as (d & s & E).
  rewrite getopt_run_eq, E.
  change (getopt _ _) with (Some (mkOpt (ch "V") (Some (d :: s)) (ch "V"), mkGetopt [] rest)).
  rewrite <- E. destruct c as [port path source]. cbv beta iota.
  change (worker_option _ _) with
    (l <- (level <- io_mem (W := W) (atoi (sprintf_d verbose)) ;; io_ret (setVerbose level l)) ;;
     io_ret (mkWorkerArgs port path source, l)).
  by rewrite atoi_sprintf_d.
Qed.
Lemma worker_run_path path rest port p0 source l (w : W) :
  worker_run (match path with None => [] | Some p => [bytes_of "-l"; p] end ++ rest)
    (mkWorkerArgs port p0 source, l) w
  = worker_run rest (mkWorkerArgs port (match path with Some p => Some p | None => p0 end) source, l) w.
Proof. by destruct path; [rewrite getopt_run_eq|]. Qed.
Lemma worker_run_port port p0 path source l (w : W) :
  in_int port ->
  worker_run [bytes_of "-p"; sprintf_d port] (mkWorkerArgs p0 path source, l) w
  = (Done (mkWorkerArgs port path source, l), w).
Proof.
  intros Hp. rewrite getopt_run_eq.
  change (getopt _ _) with (Some (mkOpt (ch "p") (Some (sprintf_d port)) (ch "p"), mkGetopt [] [])).
  cbv beta iota. change (worker_option _ _) with
    (n <- io_mem (W := W) (atoi (sprintf_d port)) ;; io_ret (mkWorkerArgs n path source, l)).
  by rewrite atoi_sprintf_d.
Qed.

Lemma worker_run_built verbose svPath svPort l (w : W) :
  in_int svPort -> in_int verbose ->
  getopt_all (opts "p:vV::l:hs:") worker_option (drop 1 (buildArgs verbose svPath svPort))
    (WorkerArgs_initial, l) w
  = (Done (mkWorkerArgs svPort svPath None, if verbose =? 0 then l else setVerbose verbose l), w).
Proof.
  intros Hp Hv. unfold buildArgs.
  change (getopt_all ?o ?h ?a ?v) with (getopt_run o h (mkGetopt [] a) v).
  change (drop 1 ([_] ++ ?x)) with x. unfold WorkerArgs_initial.
  rewrite worker_run_verbose, worker_run_path, worker_run_port by done. by destruct svPath.
Qed.

(** The worker understands the arguments that [buildArgs] makes: its port and the file
    of its log are those of the controller, and so is the level of the log. The source
    address of the controller is not among them: the worker listens on every address. *)
Theorem worker_gets_arguments verbose svPath svPort l (w : W) :
  in_int svPort -> svPort <> 0 -> in_int verbose ->
  worker_parseArguments (drop 1 (buildArgs verbose svPath svPort)) l w =
  (l <- redirect_to svPath (if verbose =? 0 then l else setVerbose verbose l) ;;
   io_ret (mkWorkerArgs svPort svPath None, l)) w.
Proof.
  intros Hp Hp0 Hv. unfold worker_parseArguments, io_bind at 1. rewrite worker_run_built by done.
  cbn. destruct (Z.eqb_spec svPort 0); [done|]. done.
Qed.
End passed_on.

(** [-p 5001 -n 1000 -c 1], and a controller that logs to the file [f]. *)
Lemma options_reach_worker_witness :
  exists smem u', setMessage (replicate 64 0) (client_message
      (mkClient None (Some [49]) 0 5001 5002 (-1) 200 1000 None 0) ++ [0]) = Ret smem /\
    configure 0 Worker_initial (replicate 256 0) smem quiet
      = (Done (Some (mkWorker TYPE_FIX 200 1000 false), smem), u').
Proof.
  destruct (setMessage (replicate 64 0) (client_message
      (mkClient None (Some [49]) 0 5001 5002 (-1) 200 1000 None 0) ++ [0])) as [smem| |] eqn:E;
    [|by vm_compute in E..].
  assert (client_parseArguments (bytes_of <$> ["-p"; "5001"; "-n"; "1000"; "-c"; "1"]) Log_initial quiet
    = (Done (mkClient None (Some [49]) 0 5001 5002 (-1) 200 1000 None 0, Log_initial), quiet)) as Hacc
    by (vm_compute; reflexivity).
  destruct (options_reach_worker _ _ _ _ _ _ Hacc 0 Worker_initial (replicate 64 0) smem []
    (replicate 256 0) quiet eq_refl E) as [u' Eu].
  by exists smem, u'.
Defined.
Lemma worker_gets_arguments_witness :
  buildArgs 2 (Some [102]) 5000 = bytes_of <$> ["server"; "-V2"; "-l"; "f"; "-p"; "5000"] /\
  exists w', worker_parseArguments (drop 1 (buildArgs 2 (Some [102]) 5000)) Log_initial quiet
    = (Done (mkWorkerArgs 5000 (Some [102]) None, mkLog 2 0), w').
Proof.
  split; [vm_compute; reflexivity|].
  rewrite (worker_gets_arguments 2 (Some [102]) 5000 Log_initial quiet) by (unfold in_int; lia).
  eexists. vm_compute. reflexivity.
Defined.
