(* ===== verification/MperfMain.v ===== *)
(** The programs of the throughput tool as wholes: the signal handlers and [main] of
    src/3rd/mperf/src/client.c and server.c, and [serverMain] of worker.c, with the parts
    that depend on the build as arguments, and the plain programs. The peer of a
    connection that [accept] reports is only printed and left out; the MSS that
    [getsockopt] reports as well. A handler that runs while a request is handled reaches
    [chldPID] at the end of the request. *)

From stdpp Require Import base list numbers strings.
From S2P Require Import Prelude Endian SocketAddress Posix CText GetOpt MperfUtil MperfNet.
From S2P Require Import MperfTransfer MperfControl MperfOptions.

Open Scope Z_scope.
Open Scope io_scope.

Definition SIGPIPE : Z := 13.
Definition SIGCHLD : Z := 17.
Definition TCP_MAXSEG : Z := 2.

Section programs.
Context {W : Type} `{Posix W}.
Context (resolve : list Z -> Z -> Z -> list Z).

(** ** Signal handlers: they reset a flag and leave [errno] as it was. *)
Definition release_handler (verbose : Z) (text : string) (f : flag) : io W unit :=
  be <- errno ;; logVerbose verbose text [] ;;; release f ;;; put_errno be.
Definition client_sigintHandler (verbose : Z) : io W unit :=
  release_handler verbose "--SIGINT received." SigInt.
Definition client_sigalrmHandler (verbose : Z) : io W unit :=
  release_handler verbose "--SIGALRM received." SigAlrm.
Definition sigintHandlerEarly (verbose connfd : Z) : io W unit :=
  logVerbose verbose "--SIGINT received, exit." [] ;;; _ <- syscall (CClose connfd) ;; io_exit 0.
Definition sigusr1Handler (verbose : Z) : io W unit :=
  release_handler verbose "--SIGUSR1 received." SigUsr1.
Definition sigusr2Handler (verbose : Z) : io W unit :=
  release_handler verbose "--SIGUSR2 received." SigUsr2.
Definition server_sigalrmHandler (verbose : Z) : io W unit :=
  release_handler verbose "--SIGALRM received." SigAlrm.
Definition worker_sigalrmHandler (verbose : Z) : io W unit :=
  release_handler verbose "--SIGALRM received." SigAlrm.
Definition worker_sigintHandler (verbose : Z) (wk : Worker) : io W unit :=
  be <- errno ;;
  logVerbose verbose "--SIGINT received." [] ;;;
  if negb (wk_running wk) then io_exit 0
  else release SigInt ;;; put_errno be.
Definition timeoutHandler : io W unit :=
  be <- errno ;; logError "Network timeout!" [] ;;; put_errno be.

(** [sigchldHandler] reaps every child that has ended; the child [chldPID] among them is
    forgotten. *)
Fixpoint reap (fuel : nat) (chldPID : Z) : io W Z :=
  match fuel with
  | O => io_nofuel
  | S fuel =>
      x <- syscall CWaitpid ;;
      if 0 <? x then
        logMessage "--Child process(%d) terminated" [x] ;;;
        reap fuel (if x =? chldPID then -1 else chldPID)
      else io_ret chldPID
  end.
Definition sigchldHandler (fuel : nat) (verbose chldPID : Z) : io W Z :=
  be <- errno ;;
  logVerbose verbose "--SIGCHLD received." [] ;;;
  chldPID <- reap fuel chldPID ;;
  (if negb (chldPID =? -1) then logError "--%d not terminated!" [chldPID] else io_ret tt) ;;;
  release SigChld ;;;
  put_errno be ;;;
  io_ret chldPID.

(** ** The client

    [connected] is what is done to the socket of the connection: nothing, but in the build
    with PROBE. *)
Definition connect_with (connected : Z -> io W unit) (c : Client) : io W Z :=
  connfd <- client_dial resolve c (cl_port c) ;;
  if connfd <? 0 then logFatal "Can't connect to server!" []
  else
    rv <- syscall (CGetsockopt connfd IPPROTO_TCP TCP_MAXSEG) ;;
    (if rv <? 0 then logWarning "Failed to get MSS(%s)." [] else logMessage "MSS is %d." []) ;;;
    connected connfd ;;;
    logMessage "Connection established." [] ;;;
    io_ret connfd.

Definition connectToServer : Client -> io W Z := connect_with (fun _ => io_ret tt).

(** [main] for all builds. The state [C] of the client has the variables of [Client] and
    those of its build; [send] is the test in which the client sends. *)
Definition client_main_with {C : Type} (base : C -> Client)
  (parseArguments : list (list Z) -> Log -> io W (C * Log)) (request : C -> list Z)
  (connected : Z -> io W unit) (send : Z -> Z -> C -> list Z -> io W unit)
  (receive : Z -> Z -> Z -> list Z -> io W unit)
  (rio_fuel : nat) (argv : list (list Z)) (message sbuf packetBuf : list Z) : io W Z :=
  if zlen argv =? 1 then printUsageAndExit
  else
    initLog ;;;
    let* (c, l) := parseArguments (drop 1 argv) Log_initial in
    let verbose := log_verbose l in
    printInitLog ;;;
    signalNoRestart SIGINT ;;;
    reconfigure_with verbose resolve (request c) rio_fuel (base c) message sbuf ;;;
    connfd <- connect_with connected (base c) ;;
    signalNoRestart SIGINT ;;;
    signalNoRestart SIGALRM ;;;
    signalNoRestart SIGPIPE ;;;
    setLock SigInt ;;;
    setLock SigAlrm ;;;
    (if negb (cl_reverse (base c) =? 0) then send verbose connfd c packetBuf
     else receive verbose connfd (cl_localTime (base c)) packetBuf) ;;;
    io_ret 0.
Definition client_send (fuel rio_fuel : nat) (verbose connfd : Z) (c : Client) (packetBuf : list Z)
  : io W unit :=
  if 0 <? cl_size c then
    doFixTest verbose rio_fuel fuel connfd (cl_localTime c) (cl_size c) packetBuf
  else doLongTest verbose rio_fuel fuel connfd (cl_timelen c) packetBuf.
Definition client_main (fuel rio_fuel : nat) : list (list Z) -> list Z -> list Z -> list Z -> io W Z :=
  client_main_with id client_parseArguments client_message (fun _ => io_ret tt)
    (client_send fuel rio_fuel) (fun verbose => doReceive verbose rio_fuel fuel) rio_fuel.

(** ** The worker *)
Definition close_or_warn (fd : Z) (text : string) : io W unit :=
  rv <- syscall (CClose fd) ;; if rv <? 0 then logWarning text [] else io_ret tt.

(** The loop of [serverMain] that accepts one connection; [connfd] is -1 before it.
    [accepted] is what is done to the socket: nothing, but in the build with PROBE. *)
Fixpoint worker_accept (accepted : Z -> io W unit) (fuel : nat) (verbose listenfd connfd : Z) : io W Z :=
  match fuel with
  | O => io_nofuel
  | S fuel =>
      c <- continueTest ;;
      if (c : bool) then
        connfd <- syscall (CAccept listenfd) ;;
        if connfd <? 0 then
          e <- errno ;;
          (if e =? EINTR then logVerbose verbose "Accept interrupted." []
           else logError "Unable to accept connection(%s)!" []) ;;;
          worker_accept accepted fuel verbose listenfd connfd
        else accepted connfd ;;; io_ret connfd
      else io_ret connfd
  end.

(** [serverMain] from the listening socket on; [parse] is the test. *)
Definition worker_serve (accepted : Z -> io W unit) (parse : Z -> Worker -> list Z -> io W Worker)
  (fuel : nat) (verbose : Z) (wa : WorkerArgs) (wk : Worker) (packetBuf : list Z) : io W Z :=
  listenfd <- forceOpenListenFD resolve (wa_sourceIP wa) (wa_port wa) ;;
  logMessage "Listening on port %d." [wa_port wa] ;;;
  setLock SigInt ;;;
  setLock SigAlrm ;;;
  let wk := mkWorker (wk_type wk) (wk_arg wk) (wk_arg2 wk) true in
  connfd <- worker_accept accepted fuel verbose listenfd (-1) ;;
  c <- continueTest ;;
  if negb c then io_ret 1
  else
    close_or_warn listenfd "Error when closing listen socket(%s)." ;;;
    logMessage "Connected with %s:%d" [] ;;;
    _ <- parse connfd wk packetBuf ;;
    close_or_warn connfd "Error when closing connection(%s)." ;;;
    logMessage "Connection with %s closed.\n" [] ;;;
    io_ret 0.

(** [serverMain]: its result; [smem] is the shared block, [l] the log of the process. The
    packet, the line that reports a fix test, what is done to an accepted socket and the
    tests depend on the build. *)
Definition serverMain_with (packetBuf : list Z) (report : Z -> Z -> Z -> io W unit)
  (accepted : Z -> io W unit) (fixTest : Z -> Z -> Worker -> list Z -> io W unit)
  (receive : Z -> Z -> Z -> list Z -> io W unit)
  (fuel rio_fuel : nat) (argv : list (list Z)) (smem : list Z) (l : Log) : io W Z :=
  if zlen argv =? 1 then printUsageAndExit
  else
    initLog ;;;
    let* (wa, l) := worker_parseArguments (drop 1 argv) l in
    let verbose := log_verbose l in
    printInitLog ;;;
    signalNoRestart SIGALRM ;;;
    signalNoRestart SIGINT ;;;
    signalNoRestart SIGPIPE ;;;
    let* (wk, smem) := configure_with verbose report Worker_initial (replicate 256 0) smem in
    match wk with
    | None => io_exit 0
    | Some wk =>
        worker_serve accepted (worker_parse verbose (fixTest verbose) (receive verbose) fuel rio_fuel)
          fuel verbose wa wk packetBuf
    end.
Definition worker_packet : list Z := replicate (Z.to_nat PACKET_LEN) 16.
Definition worker_fixTest (fuel rio_fuel : nat) (verbose connfd : Z) (wk : Worker) (packetBuf : list Z)
  : io W unit := doFixTest verbose rio_fuel fuel connfd (wk_arg wk) (wk_arg2 wk) packetBuf.
Definition serverMain (fuel rio_fuel : nat) : list (list Z) -> list Z -> Log -> io W Z :=
  serverMain_with worker_packet fix_configured (fun _ => io_ret tt) (worker_fixTest fuel rio_fuel)
    (fun verbose => doReceive verbose rio_fuel fuel) fuel rio_fuel.

(** ** The controller *)

(** [startAsServer], in the child: it does not return. *)
Definition startAsServer {A} (fuel rio_fuel : nat) (ct : Controller) (l : Log) (connfd listenfd : Z)
  (smem : list Z) : io W A :=
  let svargv := buildArgs (log_verbose l) (ct_svPath ct) (ct_svPort ct) in
  _ <- forceClose connfd ;;
  _ <- forceClose listenfd ;;
  _ <- forceSignal SIGUSR1 ;;
  _ <- forceSignal SIGCHLD ;;
  _ <- forceSignal SIGALRM ;;
  _ <- forceSignal SIGPIPE ;;
  pid <- syscall CGetpid ;;
  logMessage "Server(%d) starting..." [pid] ;;;
  l <- resetLogFile l ;;
  rv <- serverMain fuel rio_fuel svargv smem l ;;
  io_exit rv.

(** [while ((connfd = accept(...)) < 0);] has an empty body: the block after it runs once,
    when a connection has been accepted. *)
Fixpoint server_accept_loop (fuel : nat) (listenfd : Z) : io W Z :=
  match fuel with
  | O => io_nofuel
  | S fuel =>
      connfd <- syscall (CAccept listenfd) ;;
      if connfd <? 0 then server_accept_loop fuel listenfd else io_ret connfd
  end.
Definition server_accept (fuel : nat) (verbose listenfd port : Z) : io W Z :=
  logMessage "Listening on port %d." [port] ;;;
  connfd <- server_accept_loop fuel listenfd ;;
  e <- errno ;;
  (if negb (e =? 0) then
     if e =? EINTR then logVerbose verbose "Accept interrupted." []
     else logError "Unable to accept connection(%s)!" []
   else io_ret tt) ;;;
  logMessage "Listening on port %d." [port] ;;;
  io_ret connfd.

(** One round of the main loop: the child and the shared block after it. [child] is what a
    worker does to the block; [chld] tells whether SIGCHLD arrived during the round. *)
Definition server_round (fuel : nat) (ct : Controller) (verbose listenfd : Z)
  (child : list Z -> list Z) (chld : bool) (chldPID : Z) (smem : list Z) : io W (Z * list Z) :=
  connfd <- server_accept fuel verbose listenfd (ct_port ct) ;;
  logMessage "Connected with %s:%d" [] ;;;
  let* (chldPID, smem) := server_parse verbose fuel connfd chldPID (ct_completeKill ct)
                            (replicate 1024 0) (replicate 2048 0) smem child in
  close_or_warn connfd "Error when closing connection(%s)." ;;;
  logMessage "Connection with %s closed.\n" [] ;;;
  chldPID <- (if chld then sigchldHandler fuel verbose chldPID else io_ret chldPID) ;;
  io_ret (chldPID, smem).

(** [while (1)]: as many rounds as [chlds] has entries. *)
Fixpoint server_loop (fuel : nat) (ct : Controller) (verbose listenfd : Z) (child : list Z -> list Z)
  (chlds : list bool) (chldPID : Z) (smem : list Z) : io W Z :=
  match chlds with
  | [] => io_nofuel
  | chld :: chlds =>
      let* (chldPID, smem) := server_round fuel ct verbose listenfd child chld chldPID smem in
      server_loop fuel ct verbose listenfd child chlds chldPID smem
  end.

Definition server_main (fuel : nat) (argv : list (list Z)) (child : list Z -> list Z) (chlds : list bool)
  : io W Z :=
  if zlen argv =? 1 then printUsageAndExit
  else
    initLog ;;;
    let* (ct, l) := server_parseArguments (drop 1 argv) Log_initial in
    let verbose := log_verbose l in
    printInitLog ;;;
    signalNoRestart SIGUSR1 ;;;
    signalNoRestart SIGUSR2 ;;;
    signalNoRestart SIGCHLD ;;;
    signalNoRestart SIGALRM ;;;
    signalNoRestart SIGPIPE ;;;
    smem <- initSharedMem verbose SMEM_MESSAGE ;;
    listenfd <- forceOpenListenFD resolve (ct_sourceIP ct) (ct_port ct) ;;
    server_loop fuel ct verbose listenfd child chlds 0 smem.
End programs.

(** ** Children that have ended

    A world in which [waitpid] gives the numbers of [ended_children], and then no more. *)
Class Children (W : Type) `{Posix W} := {
  ended_ok : W -> Prop;
  ended_children : W -> list Z;
  ended_print : forall m w, ended_ok w ->
    ended_ok (sys_print m w) /\ ended_children (sys_print m w) = ended_children w /\
    sys_errno (sys_print m w) = sys_errno w;
  ended_putLock : forall f b w, ended_ok w ->
    ended_ok (sys_putLock f b w) /\ ended_children (sys_putLock f b w) = ended_children w;
  ended_put_errno : forall e w, ended_ok w ->
    ended_ok (sys_put_errno e w) /\ ended_children (sys_put_errno e w) = ended_children w /\
    sys_errno (sys_put_errno e w) = e;
  ended_wait : forall w, ended_ok w ->
    let '(r, w') := sys_call CWaitpid w in
    ended_ok w' /\
    match ended_children w with
    | [] => r <= 0 /\ ended_children w' = []
    | x :: l => r = x /\ 0 < x /\ ended_children w' = l
    end
}.
#[global] Program Instance Script_children : Children Script := {|
  ended_ok w := Forall (Z.lt 0) (sc_results w);
  ended_children := sc_results
|}.
Next Obligation. done. Qed.
Next Obligation. done. Qed.
Next Obligation. done. Qed.
Next Obligation.
  intros w Hok. cbn in *. destruct (sc_results w) as [|x l]; cbn; [done|]. by inversion_clear Hok.
Qed.

Section reaping.
Context {W : Type} `{Posix W} `{!Children W}.

Lemma reap_spec fuel chldPID (w : W) :
  ended_ok w -> (length (ended_children w) < fuel)%nat ->
  exists w', reap fuel chldPID w =
    (Done (if bool_decide (chldPID ∈ ended_children w) then -1 else chldPID), w') /\
    ended_ok w' /\ ended_children w' = [].
Proof.
  revert chldPID w. induction fuel as [|fuel IH]; intros pid w Hok Hf; [lia|]. cbn [reap].
  pose proof (ended_wait w Hok) as Hw. destruct (sys_call CWaitpid w) as [r w1] eqn:E.
  rewrite (bind_call _ _ _ _ _ E). destruct Hw as [Hok1 Hw].
  destruct (ended_children w) as [|x l] eqn:El.
  - destruct Hw as [Hr Hc]. destruct (Z.ltb_spec 0 r); [lia|]. exists w1. rewrite bool_decide_false; [done|].
    apply not_elem_of_nil.
  - destruct Hw as (-> & Hx & Hc). destruct (Z.ltb_spec 0 x); [|lia]. unfold logMessage. rewrite bind_printf.
    destruct (ended_print (mkMessage ("[ Message ]" +:+ "--Child process(%d) terminated") [x]) w1 Hok1) as (Hok2 & Hc2 & _).
    destruct (IH (if x =? pid then -1 else pid) _ Hok2) as (w' & E' & Hok' & Hc');
      [rewrite Hc2, Hc; cbn in Hf; lia|].
    exists w'. rewrite E', Hc2, Hc. split; [|done]. do 2 f_equal.
    destruct (Z.eqb_spec x pid) as [->|Hne].
    + rewrite (bool_decide_true (pid ∈ pid :: l)) by (apply elem_of_cons; by left). by destruct (bool_decide (-1 ∈ l)).
    + erewrite bool_decide_ext; [done|]. rewrite elem_of_cons. naive_solver.
Qed.

(** The handler of SIGCHLD reaps every child that has ended, and forgets the worker
    exactly when it is one of them; [errno] is as it was, whatever [waitpid] and the log
    did to it. *)
Theorem sigchldHandler_reaps fuel verbose chldPID (w : W) :
  ended_ok w -> (length (ended_children w) < fuel)%nat ->
  exists w', sigchldHandler fuel verbose chldPID w =
    (Done (if bool_decide (chldPID ∈ ended_children w) then -1 else chldPID), w') /\
    ended_children w' = [] /\ sys_errno w' = sys_errno w.
Proof.
  intros Hok Hf. unfold sigchldHandler. rewrite bind_errno.
  assert (exists w1, logVerbose verbose "--SIGCHLD received." [] w = (Done tt, w1) /\
    ended_ok w1 /\ ended_children w1 = ended_children w) as (w1 & E1 & Hok1 & Hc1).
  { unfold logVerbose, logVerboseL. destruct (1 <=? verbose); [|by exists w].
    eexists. split; [done|]. by destruct (ended_print (mkMessage ("[ Verbose ]" +:+ "--SIGCHLD received.") []) w Hok) as (? & ? & _). }
  rewrite (bind_Done _ _ _ _ _ E1). destruct (reap_spec fuel chldPID w1 Hok1) as (w2 & E2 & Hok2 & Hc2);
    [by rewrite Hc1|]. rewrite (bind_Done _ _ _ _ _ E2), Hc1. set (pid := if bool_decide _ then _ else _).
  assert (exists w3, (if negb (pid =? -1) then logError "--%d not terminated!" [pid] else io_ret tt) w2
    = (Done tt, w3) /\ ended_ok w3 /\ ended_children w3 = []) as (w3 & E3 & Hok3 & Hc3).
  { destruct (negb _); [|by exists w2]. eexists. split; [done|].
    destruct (ended_print (mkMessage ("[  Error  ]" +:+ "--%d not terminated!") [pid]) w2 Hok2) as (? & -> & _). done. }
  rewrite (bind_Done _ _ _ _ _ E3). eexists. split; [done|].
  destruct (ended_putLock SigChld false w3 Hok3) as [Hok4 Hc4].
  destruct (ended_put_errno (sys_errno w) _ Hok4) as (_ & -> & ->). split; [congruence|done].
Qed.
End reaping.

(** ** The worker serves a request *)
Section keeps.
Context {W : Type} `{Posix W} (fd : Z) `{!Peer W fd} (ro : role) `{!Reliable W fd ro}.

Lemma silent_call c : silent fd (syscall (W := W) c).
Proof.
  intros w Hw. pose proof (rel_call (ro := ro) c w Hw) as Hr. unfold syscall.
  destruct (sys_call c w) as [r w']. exists r, w'. split; [done|apply Hr].
Qed.

(** A program that leaves the connection alone if it returns. *)
Definition keeps {A} (m : io W A) : Prop :=
  forall w a w', peer_ok w -> m w = (Done a, w') -> peer_same fd w w'.
Lemma keeps_silent {A} (m : io W A) : silent fd m -> keeps m.
Proof. intros Hm w a w' Hw E. destruct (Hm w Hw) as (b & w1 & E1 & Hs). rewrite E1 in E. by injection E as <- <-. Qed.
Lemma keeps_mem {A} (m : outcome A) : keeps (io_mem m).
Proof. intros w a w' Hw. destruct m; [|done..]. intros [= <- <-]. done. Qed.
Lemma keeps_bind {A B} (m : io W A) (k : A -> io W B) : keeps m -> (forall a, keeps (k a)) -> keeps (io_bind m k).
Proof.
  intros Hm Hk w b w' Hw E. apply bind_Done_inv in E as (a & w1 & E1 & E2).
  pose proof (Hm _ _ _ Hw E1) as Hs. etrans; [exact Hs|]. eapply Hk; [apply Hs|done].
Qed.
Lemma keeps_if {A} (b : bool) (m1 m2 : io W A) : keeps m1 -> keeps m2 -> keeps (if b then m1 else m2).
Proof. by destruct b. Qed.
Lemma keeps_exit {A} n : keeps (A := A) (io_exit n).
Proof. done. Qed.
Lemma keeps_ret {A} (a : A) : keeps (io_ret a).
Proof. apply keeps_silent, silent_ret. Qed.
(** The two flags are set one after the other. *)
Lemma set_flags w :
  peer_ok w -> exists w',
    (forall B (k : io W B), (setLock SigInt ;;; setLock SigAlrm ;;; k) w = k w') /\
    peer_ok w' /\ peer_in w' = peer_in w /\ peer_out w' = peer_out w /\
    peer_locked w' SigInt = true /\ peer_locked w' SigAlrm = true.
Proof.
  intros Hok. pose proof (rel_putLock (ro := ro) SigInt true w Hok) as (Hok1 & Hi1 & Ho1 & Hl1).
  pose proof (rel_putLock (ro := ro) SigAlrm true _ Hok1) as (Hok2 & Hi2 & Ho2 & Hl2).
  eexists. split; [done|]. split; [done|]. split; [congruence|]. split; [congruence|].
  rewrite Hl2, Hl1. done.
Qed.


Lemma initLog_silent : silent fd (initLog (W := W)).
Proof. intros w Hw. unfold initLog. run_reliable ro. by exists tt, w0. Qed.
Lemma printInitLog_silent : silent fd (printInitLog (W := W)).
Proof. unfold printInitLog. eauto with silent. Qed.
End keeps.
Create HintDb keeps.
#[export] Hint Resolve keeps_mem keeps_bind keeps_if keeps_exit keeps_ret : keeps.
#[export] Hint Extern 4 (keeps _ _) => (apply keeps_silent; solve [eauto 8 using silent_call, silent_errno with silent]) : keeps.

Section worker.
Context {W : Type} `{Posix W} (fd : Z) `{!Peer W fd} `{!Reliable W fd Answers}.
Context (resolve : list Z -> Z -> Z -> list Z).
Hypothesis resolve_sockaddr : forall n f t, 4 <= zlen (resolve n f t).

Lemma silent_call' c : silent fd (syscall (W := W) c).
Proof. eapply (silent_call fd Answers). Qed.
#[local] Hint Resolve silent_call' silent_errno : silent.

Lemma rKill_keeps verbose pid sig : silent fd (rKill (W := W) verbose pid sig).
Proof. unfold rKill. eauto 10 with silent. Qed.
#[local] Hint Resolve rKill_keeps : silent.

Lemma configure_keeps verbose report wk message smem :
  (forall r t a, silent fd (report r t a)) ->
  keeps fd (configure_with (W := W) verbose report wk message smem).
Proof.
  intros Hrep. unfold configure_with. apply keeps_bind; [apply keeps_silent, silent_call'|intros pid].
  apply keeps_bind; [apply keeps_silent, silent_call'|intros self].
  apply keeps_bind; [apply keeps_silent, silent_message|intros _].
  apply keeps_bind; [apply keeps_mem|intros m]. apply keeps_bind; [apply keeps_mem|intros s].
  apply keeps_bind; [apply keeps_mem|intros [[tt1 ta] tb]]. apply keeps_bind; [apply keeps_mem|intros ty].
  cbv zeta. repeat apply keeps_if; repeat (apply keeps_bind; [apply keeps_mem|intros ?]); cbv zeta;
    repeat apply keeps_if; repeat (apply keeps_bind; [first [apply keeps_mem|apply keeps_silent; eauto with silent]|intros ?]);
    apply keeps_ret.
Qed.

Lemma redirect_reliable path l w :
  peer_ok w -> exists l' w', redirect_to path l w = (Done l', w') /\ log_verbose l' = log_verbose l /\ peer_same fd w w'.
Proof.
  intros Hok. destruct path as [p|]; [|by exists l, w]. cbn [redirect_to]. unfold redirectLogTo.
  match goal with |- context [io_bind (if ?b then _ else io_ret tt)] => generalize b; intros b0 end.
  run_silent. run_reliable Answers. destruct (Z.eqb_spec r (-1)); [lia|].
  eexists _, w1. split; [done|]. split; [done|by etrans].
Qed.
Lemma close_or_warn_silent c text : silent fd (close_or_warn (W := W) c text).
Proof. unfold close_or_warn. eauto 8 with silent. Qed.
Lemma worker_initLog_silent : silent fd (initLog (W := W)).
Proof. eapply (initLog_silent fd Answers). Qed.
#[local] Hint Resolve close_or_warn_silent worker_initLog_silent printInitLog_silent : silent.

(** [accept] gives the connection at once. *)
Lemma worker_accept_reliable accepted fuel verbose lfd c w :
  silent fd (accepted fd) ->
  peer_ok w -> peer_locked w SigInt = true -> peer_locked w SigAlrm = true -> 0 <= fd ->
  exists w', worker_accept accepted (S fuel) verbose lfd c w = (Done fd, w') /\ peer_same fd w w'.
Proof.
  intros Hacc Hok Hi Ha Hfd. cbn [worker_accept].
  destruct (continueTest_silent fd w Hok Hi Ha) as (w1 & E & Hs1). rewrite (bind_Done _ _ _ _ _ E). cbn match.
  pose proof (proj1 Hs1) as Hok1. run_reliable Answers. rewrite (Hc eq_refl). destruct (Z.ltb_spec fd 0); [lia|].
  run_silent. exists w2. split; [done|same_chain].
Qed.

(** What every build of the worker promises: only the test uses the connection, and the
    test sends [data]. *)
Section builds.
Context (packetBuf : list Z) (report : Z -> Z -> Z -> io W unit) (accepted : Z -> io W unit).
Context (fixTest : Z -> Z -> Worker -> list Z -> io W unit) (receive : Z -> Z -> Z -> list Z -> io W unit).
Hypothesis report_silent : forall r t a, silent fd (report r t a).
Hypothesis report_returns : forall r t a w, exists w', report r t a w = (Done tt, w').
Hypothesis accepted_silent : forall c, silent fd (accepted c).
Context (arg arg2 : Z) (data : list Z).
Hypothesis fixTest_sends : forall verbose w,
  peer_ok w -> peer_locked w SigInt = true -> peer_locked w SigAlrm = true ->
  exists w', fixTest verbose fd (mkWorker TYPE_FIX (if arg <=? 0 then 200 else arg) arg2 true) packetBuf w
      = (Done tt, w') /\
    peer_ok w' /\ peer_in w' = peer_in w /\ peer_out w' = peer_out w ++ data.
#[local] Hint Resolve report_silent accepted_silent : silent.

Lemma worker_serve_fix fuel rio_fuel verbose wa wk_r w :
  0 <= fd -> (0 < fuel)%nat -> peer_ok w ->
  exists w', worker_serve resolve accepted (worker_parse verbose (fixTest verbose) (receive verbose) fuel rio_fuel)
      fuel verbose wa (mkWorker TYPE_FIX (if arg <=? 0 then 200 else arg) arg2 wk_r) packetBuf w
    = (Done 0, w') /\ peer_in w' = peer_in w /\ peer_out w' = peer_out w ++ data.
Proof.
  intros Hfd Hf Hok. unfold worker_serve, forceOpenListenFD. set (time := if arg <=? 0 then _ else _) in *.
  destruct (open_listenfd_reliable fd Answers resolve resolve_sockaddr (wa_sourceIP wa) (wa_port wa) w Hok)
    as (lfd & w0 & E & Hl & Hs). pose proof (proj1 Hs) as Hok0.
  rewrite (bind_Done _ _ _ lfd w0).
  2: { rewrite (bind_Done _ _ _ _ _ E). destruct (Z.ltb_spec lfd 0); [lia|done]. }
  run_silent. destruct (set_flags fd Answers w1 Hok1) as (w2 & Ef & Hok2 & Hi2 & Ho2 & Hfi & Hfa).
  rewrite Ef. cbv zeta. destruct fuel as [|fuel]; [lia|].
  destruct (worker_accept_reliable accepted fuel verbose lfd (-1) w2) as (w3 & Ea & Hs3); [done..|].
  rewrite (bind_Done _ _ _ _ _ Ea). destruct (continueTest_silent fd w3) as (w4 & Ec & Hs4);
    [apply Hs3|by rewrite (proj2 (proj2 (proj2 Hs3)))..|].
  rewrite (bind_Done _ _ _ _ _ Ec). cbn [negb]. pose proof (proj1 Hs4) as Hok4.
  run_silent. run_silent. unfold worker_parse. cbn [wk_type wk_arg wk_arg2 TYPE_FIX TYPE_LONG Z.eqb Pos.eqb].
  assert (peer_same fd w2 w6) as (_ & Hi6 & Ho6 & Hl6)
    by (etrans; [exact Hs3|]; etrans; [exact Hs4|]; by etrans).
  destruct (fixTest_sends verbose w6) as (w7 & E7 & Hok7 & Hi7 & Ho7); [done|by rewrite Hl6..|].
  rewrite (bind_Done _ _ _ (mkWorker TYPE_FIX time arg2 false) w7) by (by rewrite (bind_Done _ _ _ _ _ E7)).
  run_silent. run_silent. exists w9. split; [done|].
  destruct Hs6 as (_ & -> & -> & _), Hs5 as (_ & -> & -> & _).
  rewrite Hi7, Ho7, Hi6, Ho6, Hi2, Ho2. destruct Hs0 as (_ & -> & -> & _), Hs as (_ & -> & -> & _). done.
Qed.

Lemma serverMain_with_serves fuel rio_fuel verbose svPath svPort l smem0 smem junk (w : W) :
  0 <= fd -> in_int svPort -> svPort <> 0 -> in_int verbose -> in_int arg -> in_int arg2 -> 0 < arg2 ->
  setMessage smem0 (control_message TYPE_FIX arg arg2 ++ 0 :: junk) = Ret smem ->
  (0 < fuel)%nat -> peer_ok w ->
  exists w', serverMain_with resolve packetBuf report accepted fixTest receive fuel rio_fuel
      (buildArgs verbose svPath svPort) smem l w = (Done 0, w') /\
    peer_in w' = peer_in w /\ peer_out w' = peer_out w ++ data.
Proof.
  intros Hfd Hp Hp0 Hv Ha Ha2 Hpos Hset Hf Hok. unfold serverMain_with.
  replace (zlen (buildArgs verbose svPath svPort) =? 1) with false
    by (unfold buildArgs; destruct (verbose =? 0), svPath; done).
  run_silent. unfold worker_parseArguments.
  assert (exists l' w1, (let* (c, l0) := getopt_all (opts "p:vV::l:hs:") worker_option
      (drop 1 (buildArgs verbose svPath svPort)) (WorkerArgs_initial, l) in
      (if wa_port c =? 0 then logFatal "No legal port number specified.\n" []
       else l1 <- redirect_to (wa_path c) l0 ;; io_ret (c, l1))) w0
    = (Done (mkWorkerArgs svPort svPath None, l'), w1) /\ peer_same fd w0 w1) as (l' & w1 & E1 & Hs1).
  { rewrite (bind_Done _ _ _ _ _ (worker_run_built verbose svPath svPort l w0 Hp Hv)). cbn match. cbn [wa_port wa_path].
    destruct (Z.eqb_spec svPort 0); [done|].
    destruct (redirect_reliable svPath (if verbose =? 0 then l else setVerbose verbose l) w0 Hok0)
      as (l' & w1 & E & _ & Hs1). exists l', w1. by rewrite (bind_Done _ _ _ _ _ E). }
  rewrite (bind_Done _ _ _ _ _ E1). cbn match. pose proof (proj1 Hs1) as Hok1. cbv zeta.
  do 4 run_silent.
  destruct (configure_with_message (log_verbose l') report Worker_initial TYPE_FIX arg arg2 smem0 smem junk
    (replicate 256 0) w5) as (w6 & E6); [done..|by right|exact report_returns|].
  rewrite (bind_Done _ _ _ _ _ E6). pose proof (configure_keeps _ _ _ _ _ report_silent _ _ _ Hok5 E6) as Hs6.
  unfold configured. destruct (Z.leb_spec arg2 0); [lia|]. cbn [Z.land Z.lnot TYPE_FIX TYPE_LONG Z.eqb Pos.eqb FLAG_REVERSE].
  destruct (worker_serve_fix fuel rio_fuel (log_verbose l') (mkWorkerArgs svPort svPath None)
    (wk_running Worker_initial) w6) as (w7 & E7 & Hi7 & Ho7); [done|done|apply Hs6|].
  exists w7. split; [exact E7|]. rewrite Hi7, Ho7.
  assert (peer_same fd w w6) as (_ & -> & -> & _) by same_chain. done.
Qed.
End builds.

(** C24. A fix test from the request to the last byte. A worker that is started with the
    arguments the controller builds, and finds in shared memory the message of a client
    that asks for [cl_size c] bytes, parses both, listens, accepts the connection and
    sends exactly that many bytes of its pattern before it returns 0. *)
Theorem worker_serves_request fuel rio_fuel verbose svPath svPort l (c : Client) smem0 smem junk (w : W) :
  0 <= fd -> in_int svPort -> svPort <> 0 -> in_int verbose ->
  cl_reverse c = 0 -> in_int (cl_localTime c) -> 0 < cl_size c < 2147483648 ->
  setMessage smem0 (client_message c ++ 0 :: junk) = Ret smem ->
  (Z.to_nat PACKET_LEN < rio_fuel)%nat -> (Z.to_nat (cl_size c) < fuel)%nat -> peer_ok w ->
  exists w', serverMain resolve fuel rio_fuel (buildArgs verbose svPath svPort) smem l w = (Done 0, w') /\
    peer_in w' = peer_in w /\ peer_out w' = peer_out w ++ replicate (Z.to_nat (cl_size c)) 16.
Proof.
  intros Hfd Hp Hp0 Hv Hr Ht Hsz Hset Hrf Hf Hok. unfold serverMain.
  assert (zlen worker_packet = PACKET_LEN /\ Forall (fun b => b = 16) worker_packet) as [Hpl Hpb]
    by (split; [apply zlen_replicate|by apply Forall_replicate]).
  generalize dependent worker_packet. intros pb Hpl Hpb.
  unfold client_message in Hset. rewrite Hr in Hset.
  destruct (Z.ltb_spec 0 (cl_size c)); [|lia]. destruct (Z.leb_spec (cl_size c) 0); [lia|]. cbn [andb] in Hset.
  assert (fix_data (cl_size c) pb = replicate (Z.to_nat (cl_size c)) 16) as <-.
  { symmetry. apply replicate_as_elem_of. pose proof (zlen_fix_data (cl_size c) pb ltac:(lia) ltac:(lia)) as Hl.
    split; [unfold zlen in Hl; lia|]. pose proof (fix_data_all _ (cl_size c) pb Hpb) as Hall.
    rewrite Forall_forall in Hall. auto. }
  apply (serverMain_with_serves pb fix_configured (fun _ => io_ret tt) (worker_fixTest fuel rio_fuel) _)
    with (arg := cl_localTime c) (arg2 := cl_size c) (smem0 := smem0) (junk := junk);
    try done; [by intros; apply silent_message|by eexists|by intros; apply silent_ret| |unfold in_int; lia|lia].
  intros v w0 Hok0 Hi Ha. unfold worker_fixTest. cbn [wk_arg wk_arg2].
  destruct (doFixTest_sends_all fd v rio_fuel fuel (if cl_localTime c <=? 0 then 200 else cl_localTime c)
    (cl_size c) pb w0) as (_ & w' & _ & E); [lia|lia|done..|]. by exists w'.
Qed.
End worker.

(** ** The client receives a test *)
Section client.
Context {W : Type} `{Posix W} (fd : Z) `{!Peer W fd} `{!Reliable W fd Dials}.
Context (resolve : list Z -> Z -> Z -> list Z).
Hypothesis resolve_sockaddr : forall n f t, 4 <= zlen (resolve n f t).

Lemma client_initLog_silent : silent fd (initLog (W := W)).
Proof. eapply (initLog_silent fd Dials). Qed.
#[local] Hint Resolve client_initLog_silent printInitLog_silent : silent.

Lemma connect_with_reliable connected c w :
  silent fd (connected fd) -> 0 <= fd -> peer_ok w ->
  exists w', connect_with resolve connected c w = (Done fd, w') /\ peer_same fd w w'.
Proof.
  intros Hcon Hfd Hok. unfold connect_with, client_dial.
  destruct (netdial_reliable fd resolve AF_INET SOCK_STREAM (cl_localIP c) (cl_localPort c)
    (default [] (cl_serverIP c)) (cl_port c) w resolve_sockaddr Hok) as (w0 & E & Hs0).
  rewrite (bind_Done _ _ _ _ _ E). pose proof (proj1 Hs0) as Hok0. destruct (Z.ltb_spec fd 0); [lia|].
  run_reliable Dials. destruct (Z.ltb_spec r 0); [lia|]. run_silent. run_silent. run_silent. exists w4.
  split; [done|same_chain].
Qed.

(** What every build of the client promises when it receives: [report] is the last part of
    its output. *)
Lemma client_main_with_receives {C} (base : C -> Client) parse request connected send receive
    rio_fuel argv c l message sbuf packetBuf verdict data (report : io W unit) (w : W) :
  zlen argv <> 1 ->
  (forall w, peer_ok w -> exists w', parse (drop 1 argv) Log_initial w = (Done (c, l), w') /\ peer_same fd w w') ->
  zlen (request c) <= 65 -> Forall (fun c => c <> 0) (request c) -> silent fd (connected fd) ->
  cl_reverse (base c) = 0 -> 0 <= fd ->
  zlen message = 1024 -> zlen sbuf = 2048 -> (2048 < rio_fuel)%nat -> peer_ok w -> peer_in w = verdict :: data ->
  (forall w, peer_ok w -> peer_locked w SigInt = true -> peer_locked w SigAlrm = true -> peer_in w = data ->
   exists w1 w',
     receive (log_verbose l) fd (cl_localTime (base c)) packetBuf w = report w1 /\
     receive (log_verbose l) fd (cl_localTime (base c)) packetBuf w = (Done tt, w') /\
     peer_ok w' /\ peer_in w' = [] /\ peer_out w' = peer_out w) ->
  exists w1 w',
    client_main_with resolve base parse request connected send receive rio_fuel argv message sbuf packetBuf w =
      (report ;;; io_ret 0) w1 /\
    client_main_with resolve base parse request connected send receive rio_fuel argv message sbuf packetBuf w =
      (Done 0, w') /\
    peer_in w' = [] /\ peer_out w' = peer_out w ++ [SIG_CONF] ++ wire (request c ++ [0]).
Proof.
  intros Hargv Hacc Hrl Hrc Hcon Hr Hfd Hm Hb Hrf Hok Hin Hrecv. unfold client_main_with.
  destruct (Z.eqb_spec (zlen argv) 1); [done|]. run_silent.
  destruct (Hacc w0 Hok0) as (w1 & E1 & Hs1). rewrite (bind_Done _ _ _ _ _ E1). cbn match. cbv zeta.
  pose proof (proj1 Hs1) as Hok1. run_silent. run_silent.
  assert (peer_same fd w w3) as (_ & Hi3 & Ho3 & _) by same_chain.
  destruct (reconfigure_with_ok fd (log_verbose l) resolve (request c) rio_fuel (base c) message sbuf w3 verdict data)
    as (w4 & E4 & Hok4 & Hi4 & Ho4); [done..|congruence|].
  rewrite (bind_Done _ _ _ _ _ E4).
  destruct (connect_with_reliable connected (base c) w4 Hcon Hfd Hok4) as (w5 & E5 & Hs5).
  rewrite (bind_Done _ _ _ _ _ E5). pose proof (proj1 Hs5) as Hok5. do 3 run_silent.
  assert (peer_same fd w4 w8) as (_ & Hi8 & Ho8 & _) by same_chain.
  destruct (set_flags fd Dials w8) as (w9 & Ef & Hok9 & Hi9 & Ho9 & Hfi & Hfa); [done|]. rewrite Ef.
  rewrite Hr. cbn [Z.eqb negb].
  destruct (Hrecv w9) as (w10 & w11 & E & E' & Hok11 & Hi11 & Ho11); [done..|congruence|].
  exists w10, w11. split; [unfold io_bind at 1; by rewrite E|].
  split; [by rewrite (bind_Done _ _ _ _ _ E')|]. split; [done|congruence].
Qed.

(** C25. The client, from its command line to its report. With options for a test in which
    the server sends, it sends the controller one instruction and its message, reads one
    byte as the answer, connects to the server and takes everything that arrives until
    the server closes, and that number of bytes is what it reports. The answer does not
    matter: the client overwrites it with the result of the call that read it, and goes on
    even when the controller has refused the request. *)
Theorem client_main_receives fuel rio_fuel argv c l message sbuf packetBuf verdict data (w : W) :
  zlen argv <> 1 ->
  (forall w, peer_ok w -> exists w',
     client_parseArguments (drop 1 argv) Log_initial w = (Done (c, l), w') /\ peer_same fd w w') ->
  client_typed c -> cl_reverse c = 0 -> 0 <= fd ->
  zlen message = 1024 -> zlen sbuf = 2048 -> PACKET_LEN <= zlen packetBuf ->
  (Z.to_nat PACKET_LEN < rio_fuel)%nat -> (Z.to_nat (zlen data) < fuel)%nat ->
  zlen data < 9223372036854775808 -> peer_ok w -> peer_in w = verdict :: data ->
  exists w1 w',
    client_main resolve fuel rio_fuel argv message sbuf packetBuf w =
      ((logMessage "->Bytes received: %ld" [zlen data] ;;;
        logMessage "->Bandwidth: %lfBytes/sec" [] ;;;
        logMessage "Transfer complete.\n" []) ;;; io_ret 0) w1 /\
    client_main resolve fuel rio_fuel argv message sbuf packetBuf w = (Done 0, w') /\
    peer_in w' = [] /\ peer_out w' = peer_out w ++ [SIG_CONF] ++ wire (client_message c ++ [0]).
Proof.
  intros Hargv Hacc (_ & _ & _ & Htl & Hlt & Hsz & _) Hr Hfd Hm Hb Hp Hrf Hf Hmax Hok Hin.
  apply (client_main_with_receives id client_parseArguments client_message) with (verdict := verdict) (data := data) (l := l);
    try done; [apply zlen_control_message| |apply silent_ret|unfold PACKET_LEN in Hrf; lia|].
  - apply control_message_chars; [|by destruct (_ && _)|done].
    rewrite Hr. by destruct (0 <? cl_size c).
  - intros w9 Hok9 Hi Ha <-. by apply doReceive_counts_all.
Qed.
End client.

(** A client that asks for 5 bytes. *)
Definition fix_client : Client := mkClient None (Some [49]) 0 5001 5002 (-1) 200 5 None 0.
Lemma worker_serves_request_witness :
  exists smem w', setMessage (replicate 64 0) (client_message fix_client ++ [0]) = Ret smem /\
    serverMain loopback 10 (S (Z.to_nat PACKET_LEN)) (buildArgs 0 None 5001) smem Log_initial
      (with_writes [Accepts 2; Accepts 2]) = (Done 0, w') /\
    sc_sent w' = [16; 16; 16; 16; 16].
Proof.
  destruct (setMessage (replicate 64 0) (client_message fix_client ++ [0])) as [smem| |] eqn:E;
    [|by vm_compute in E..].
  destruct (worker_serves_request (W := Script) 0 loopback ltac:(done) 10 (S (Z.to_nat PACKET_LEN)) 0 None 5001
    Log_initial fix_client (replicate 64 0) smem [] (with_writes [Accepts 2; Accepts 2])) as (w' & Ew & _ & Ho).
  - done.
  - unfold in_int; lia.
  - done.
  - unfold in_int; lia.
  - done.
  - unfold in_int; cbn; lia.
  - cbn; lia.
  - exact E.
  - lia.
  - cbn; lia.
  - split; [constructor|]. split; [by repeat constructor|done].
  - exists smem, w'. split; [done|]. split; [exact Ew|exact Ho].
Defined.

(** A long test of 5 seconds that the controller refuses; three bytes arrive. *)
Lemma client_main_receives_witness :
  exists w', client_main loopback 10 (S (Z.to_nat PACKET_LEN)) (bytes_of <$> ["c"; "-p"; "80"; "-t"; "5"; "-c"; "1"])
      (replicate 1024 0) (replicate 2048 0) example_packet (with_reads [Chunk [RET_EMSG; 7]; Chunk [8; 9]])
    = (Done 0, w') /\
    sc_sent w' = [SIG_CONF] ++ wire (bytes_of "0 5 -1" ++ [0]).
Proof.
  destruct (client_main_receives (W := Script) 0 loopback ltac:(done) 10 (S (Z.to_nat PACKET_LEN))
    (bytes_of <$> ["c"; "-p"; "80"; "-t"; "5"; "-c"; "1"])
    (mkClient None (Some [49]) 0 80 81 5 15 (-1) None 0) Log_initial
    (replicate 1024 0) (replicate 2048 0) example_packet RET_EMSG [7; 8; 9]
    (with_reads [Chunk [RET_EMSG; 7]; Chunk [8; 9]])) as (w1 & w' & _ & E & _ & Ho).
  - done.
  - intros w Hw. exists w. split; [vm_compute; reflexivity|by split].
  - unfold client_typed, in_int, in_u16. cbn. auto 10 with lia.
  - done.
  - done.
  - reflexivity.
  - reflexivity.
  - by rewrite zlen_example_packet.
  - lia.
  - vm_compute; lia.
  - done.
  - split; [by repeat constructor|]. split; [constructor|done].
  - done.
  - exists w'. split; [exact E|exact Ho].
Defined.

(** Two children have ended, the worker 42 among them; [errno] is EINTR. *)
Lemma sigchldHandler_reaps_witness :
  exists w', sigchldHandler 5 0 42 (mkScript [] [] [41; 42] [] [] [] EINTR (fun _ => true) []) = (Done (-1), w') /\
    sc_errno w' = EINTR.
Proof.
  destruct (sigchldHandler_reaps 5 0 42 (mkScript [] [] [41; 42] [] [] [] EINTR (fun _ => true) []))
    as (w' & E & _ & He); [by repeat constructor|cbn; lia|]. exists w'. split; [exact E|exact He].
Defined.

(** The semicolon behind the [while] of [accept]: a failure is not reported when it
    happens, and the connection that is accepted next is, with the [errno] that was left. *)
Example server_accept_reports_late :
  let '(r, w) := server_accept 5 0 4 80 (mkScript [] [] [-1; 7] [] [] [] EPIPE (fun _ => true) []) in
  r = Done 7 /\
  sc_output w = [mkMessage "[ Message ]Listening on port %d." [80];
                 mkMessage "[  Error  ]Unable to accept connection(%s)!" [];
                 mkMessage "[ Message ]Listening on port %d." [80]].
Proof. vm_compute. done. Qed.
