(* ===== verification/MperfProbe.v ===== *)
(** The build of the throughput tool with PROBE, [mperf-probe-client] and
    [mperf-probe-server]: a fix test sends single bytes in groups, with a pause after each.
    [doProbe] of src/3rd/mperf/src/sndrcv.c, and the parts of client.c and worker.c that
    this build compiles in place of the others. *)

From Stdlib Require Import Ascii.
From stdpp Require Import base list numbers strings.
From S2P Require Import Prelude Endian SocketAddress Posix CText GetOpt MperfUtil MperfNet.
From S2P Require Import MperfTransfer MperfControl MperfOptions MperfMain.

Open Scope Z_scope.
Open Scope io_scope.

Definition TCP_NODELAY : Z := 1.

(** *** client.c: the variables of the build *)
Record ProbeClient : Type := mkProbeClient {
  pc_client : Client;
  pc_sendInterval : Z;
  pc_probeInterval : Z;
  pc_loop : Z
}.
Definition ProbeClient_initial : ProbeClient := mkProbeClient Client_initial 4 1000 0.
Definition pc_size (p : ProbeClient) : Z := cl_size (pc_client p).

(** The two intervals and the size in one number, and back ([parse] of worker.c). *)
Definition probe_pack (sendInterval size probeInterval : Z) : Z :=
  Z.lor (Z.lor (Z.shiftl sendInterval 24) (Z.shiftl size 16)) probeInterval.
Definition probe_sendInterval (arg2 : Z) : Z := Z.land (Z.shiftr arg2 24) 0xFF.
Definition probe_probeInterval (arg2 : Z) : Z := Z.land arg2 0xFFFF.
Definition probe_size (arg2 : Z) : Z := Z.land (Z.shiftr arg2 16) 0xFF.

(** The control message of [reconfigureServer]. *)
Definition probe_message (p : ProbeClient) : list Z :=
  let type := if 0 <? pc_size p then TYPE_FIX else TYPE_LONG in
  control_message (Z.lor type (cl_reverse (pc_client p))) (pc_loop p)
    (probe_pack (pc_sendInterval p) (pc_size p) (pc_probeInterval p)).

Section probe.
Context {W : Type} `{Posix W}.

(** The [switch] of [parseArguments]: three options more, and neither [-t] nor [-T]. *)
Definition probe_option (r : opt_result) (v : ProbeClient * Log) : io W (ProbeClient * Log) :=
  let '(p, l) := v in
  let 'mkProbeClient c sendInterval probeInterval loop := p in
  if op_c r =? ch "i" then n <- opt_int r ;; io_ret (mkProbeClient c n probeInterval loop, l)
  else if op_c r =? ch "I" then n <- opt_int r ;; io_ret (mkProbeClient c sendInterval n loop, l)
  else if op_c r =? ch "L" then n <- opt_int r ;; io_ret (mkProbeClient c sendInterval probeInterval n, l)
  else if (op_c r =? ch "t") || (op_c r =? ch "T") then unexpected_option r
  else
    let* (c, l) := client_option r (c, l) in
    io_ret (mkProbeClient c sendInterval probeInterval loop, l).

(** [size &= 0xFF] comes after the time limit has been chosen, and the other limits after
    the log has been opened. *)
Definition masked_size (c : Client) : Client :=
  mkClient (cl_localIP c) (cl_serverIP c) (cl_localPort c) (cl_port c) (cl_cport c) (cl_timelen c)
    (cl_localTime c) (Z.land (cl_size c) 0xFF) (cl_path c) (cl_reverse c).
Definition probe_parseArguments (args : list (list Z)) (l : Log) : io W (ProbeClient * Log) :=
  let* (p, l) := getopt_all (opts "B:b:c:hi:I:l:L:n:p:P:svV::") probe_option args (ProbeClient_initial, l) in
  c <- io_mem (client_defaults (pc_client p)) ;;
  if bool_decide (cl_serverIP c = None) then logFatal "No server IP specified." []
  else if cl_port c =? 0 then logFatal "No legal port number specified." []
  else
    let c := masked_size c in
    l <- redirect_to (cl_path c) l ;;
    let loop := if pc_loop p <=? 0 then 1 else pc_loop p in
    io_ret (mkProbeClient c (Z.land (pc_sendInterval p) 0x7F) (Z.land (pc_probeInterval p) 0xFFFF) loop, l).

(** [setsockopt(connfd, IPPROTO_TCP, TCP_NODELAY, ...)], of which the result is not used. *)
Definition nodelay (connfd : Z) : io W unit :=
  _ <- syscall (CSetsockopt connfd IPPROTO_TCP TCP_NODELAY 1) ;; io_ret tt.

(** *** sndrcv.c: [doProbe]

    The loop gives the bytes that are left; [lc] and [ind] are the group and the packet
    that are reported. *)
Fixpoint doProbe_loop (verbose : Z) (rio_fuel fuel : nat) (connfd sendInterval probeInterval size len ind lc : Z)
  (packetBuf : list Z) : io W Z :=
  match fuel with
  | O => io_nofuel
  | S fuel =>
      c <- (if 0 <? len then continueTest else io_ret false) ;;
      if (c : bool) then
        let thislen := 1 in
        rv <- rio_writenr verbose rio_fuel connfd packetBuf thislen ;;
        let wrote := s32 rv in
        if wrote <? thislen then io_ret len
        else
          let len := len - wrote in
          m <- io_mem (if size =? 0 then Undef else Ret (Z.rem len size)) ;;
          let sleeplen := if negb (m =? 0) then sendInterval else probeInterval in
          logVerboseL verbose 2 "Probe packet %d:%d sent." [lc; ind] ;;;
          logVerboseL verbose 2 "%d us before next probe packet..." [sleeplen] ;;;
          let '(ind, lc) := if ind + 1 =? size then (0, lc + 1) else (ind + 1, lc) in
          _ <- syscall (CUsleep sleeplen) ;;
          doProbe_loop verbose rio_fuel fuel connfd sendInterval probeInterval size len ind lc packetBuf
      else io_ret len
  end.
Definition doProbe (verbose : Z) (rio_fuel fuel : nat) (connfd sendInterval probeInterval size loop : Z)
  (packetBuf : list Z) : io W unit :=
  let maxtime := 0 in
  len <- io_mem (int_of (loop * size)) ;;
  sendInterval <- io_mem (int_of (sendInterval * 1000)) ;;
  probeInterval <- io_mem (int_of (probeInterval * 1000)) ;;
  let targ := len in
  logVerbose verbose "Start fix test." [] ;;;
  _ <- alarmWithLog verbose maxtime ;;
  len <- doProbe_loop verbose rio_fuel fuel connfd sendInterval probeInterval size len 0 0 packetBuf ;;
  fix_summary verbose targ len.

(** *** The programs *)
Definition probe_send (fuel rio_fuel : nat) (verbose connfd : Z) (p : ProbeClient) (packetBuf : list Z)
  : io W unit :=
  doProbe verbose rio_fuel fuel connfd (pc_sendInterval p) (pc_probeInterval p) (pc_size p) (pc_loop p) packetBuf.
Definition probe_configured (reverse targ arg2 : Z) : io W unit :=
  logMessage "Reconfigured with type = fix, reverse = %d, loop = %d, sendInterval = %d, probeInterval = %d, size = %d"
    [reverse; targ; probe_sendInterval arg2; probe_probeInterval arg2; probe_size arg2].
Definition probe_fixTest (fuel rio_fuel : nat) (verbose connfd : Z) (wk : Worker) (packetBuf : list Z)
  : io W unit :=
  doProbe verbose rio_fuel fuel connfd (probe_sendInterval (wk_arg2 wk)) (probe_probeInterval (wk_arg2 wk))
    (probe_size (wk_arg2 wk)) (wk_arg wk) packetBuf.

Context (resolve : list Z -> Z -> Z -> list Z).
Definition probe_client_main (fuel rio_fuel : nat) : list (list Z) -> list Z -> list Z -> list Z -> io W Z :=
  client_main_with resolve pc_client probe_parseArguments probe_message nodelay (probe_send fuel rio_fuel)
    (fun verbose => doReceive verbose rio_fuel fuel) rio_fuel.
Definition probe_serverMain (fuel rio_fuel : nat) : list (list Z) -> list Z -> Log -> io W Z :=
  serverMain_with resolve worker_packet probe_configured nodelay (probe_fixTest fuel rio_fuel)
    (fun verbose => doReceive verbose rio_fuel fuel) fuel rio_fuel.
End probe.

(** ** The options reach the worker *)

(** The ranges that [parseArguments] leaves. *)
Definition probe_typed (p : ProbeClient) : Prop :=
  client_typed (pc_client p) /\ 0 <= pc_size p < 256 /\ 1 <= pc_loop p < 2147483648 /\
  0 <= pc_sendInterval p < 128 /\ 0 <= pc_probeInterval p < 65536.

Lemma land_mod n x : 0 <= n -> Z.land x (Z.ones n) = x mod 2 ^ n.
Proof. apply Z.land_ones. Qed.
Lemma land_range n x : 0 <= n -> 0 <= Z.land x (Z.ones n) < 2 ^ n.
Proof. intros Hn. rewrite land_mod by done. apply Z.mod_pos_bound. lia. Qed.
Lemma probe_pack_sum s n p :
  0 <= n < 256 -> 0 <= p < 65536 -> probe_pack s n p = s * 16777216 + n * 65536 + p.
Proof.
  intros Hn Hp. unfold probe_pack.
  rewrite <- Z.lor_assoc, (lor_shiftl_add n p 16) by (change (2 ^ 16) with 65536; lia).
  rewrite lor_shiftl_add by (change (2 ^ 24) with 16777216; change (2 ^ 16) with 65536; lia).
  change (2 ^ 24) with 16777216. change (2 ^ 16) with 65536. lia.
Qed.
Lemma probe_unpack s n p :
  0 <= s < 256 -> 0 <= n < 256 -> 0 <= p < 65536 ->
  probe_sendInterval (probe_pack s n p) = s /\ probe_probeInterval (probe_pack s n p) = p /\
  probe_size (probe_pack s n p) = n.
Proof.
  intros Hs Hn Hp. rewrite probe_pack_sum by done. unfold probe_sendInterval, probe_probeInterval, probe_size.
  change 0xFF with (Z.ones 8). change 0xFFFF with (Z.ones 16).
  rewrite !land_mod, !Z.shiftr_div_pow2 by done.
  change (2 ^ 8) with 256. change (2 ^ 16) with 65536. change (2 ^ 24) with 16777216.
  split_and!; Z.to_euclidean_division_equations; lia.
Qed.

Section options.
Context {W : Type} `{Posix W}.

Lemma probe_option_typed r v (w : W) v' w' :
  client_typed (pc_client v.1) /\ in_int (pc_loop v.1) ->
  probe_option r v w = (Done v', w') -> client_typed (pc_client v'.1) /\ in_int (pc_loop v'.1).
Proof.
  destruct v as [[c s p n] l]. unfold probe_option. cbn [fst pc_client pc_loop]. intros [Ht Hn].
  repeat match goal with |- context [if ?b then _ else _] => destruct b end; intros E; try done.
  1-3: apply bind_Done_inv in E as (m & w1 & En & [= <- <-]); apply opt_int_Done in En; done.
  apply bind_Done_inv in E as ([c' l'] & w1 & E & [= <- <-]). split; [|done].
  by eapply (client_option_typed r (c, l)) in E.
Qed.

Lemma probe_options_typed args l (w : W) p l' w' :
  probe_parseArguments args l w = (Done (p, l'), w') -> probe_typed p /\ cl_serverIP (pc_client p) <> None.
Proof.
  unfold probe_parseArguments. intros E. apply bind_Done_inv in E as ([p0 l0] & w1 & E1 & E).
  apply (getopt_loop_inv _ _ (fun v => client_typed (pc_client v.1) /\ in_int (pc_loop v.1))) in E1 as [Ht Hn];
    [|intros; by eapply probe_option_typed|by unfold client_typed, in_int, in_u16; cbn; auto 10 with lia].
  cbn [fst] in Ht, Hn.
  apply bind_Done_inv in E as (c1 & w2 & E2 & E). unfold io_mem in E2.
  destruct (client_defaults _) as [c2| |] eqn:Ed; try done. injection E2 as -> ->.
  destruct (client_defaults_typed _ _ Ht Ed) as [Ht1 _].
  destruct (bool_decide_reflect (cl_serverIP c1 = None)); [done|].
  destruct (Z.eqb_spec (cl_port c1) 0); [done|].
  apply bind_Done_inv in E as (l1 & w3 & _ & [= <- <- <-]). split; [|done].
  unfold probe_typed, pc_size. cbn [pc_client pc_loop pc_sendInterval pc_probeInterval masked_size cl_size].
  pose proof (land_range 8 (cl_size c1) ltac:(done)). pose proof (land_range 7 (pc_sendInterval p0) ltac:(done)).
  pose proof (land_range 16 (pc_probeInterval p0) ltac:(done)). 
  change (Z.ones 8) with 0xFF in *. change (Z.ones 7) with 0x7F in *. change (Z.ones 16) with 0xFFFF in *.
  unfold client_typed, in_int in *. cbn. destruct (Z.leb_spec (pc_loop p0) 0); split_and!; tauto || lia.
Qed.

(** C19. From the command line of the probing client to the probe of the worker. Whatever
    options the client accepts, the numbers it packs into its message come out of the
    shared memory on the other side: with a positive number of packets the worker is
    configured to run exactly the probe, [doProbe] with the same intervals, size and number
    of groups, that the client would run itself. Without one (a size that is a multiple of
    256) the worker is set to a long test of as many seconds as there were to be groups. *)
Theorem probe_options_reach_worker args l (w : W) p l' w' verbose wk smem0 smem junk message (u : W) :
  probe_parseArguments args l w = (Done (p, l'), w') ->
  zlen message = 256 -> setMessage smem0 (probe_message p ++ 0 :: junk) = Ret smem ->
  exists wk' u',
    configure_with verbose probe_configured wk message smem u = (Done (Some wk', smem), u') /\
    wk_type wk' = Z.lor (if 0 <? pc_size p then TYPE_FIX else TYPE_LONG) (cl_reverse (pc_client p)) /\
    wk_arg wk' = pc_loop p /\
    (0 < pc_size p -> forall fuel rio_fuel connfd packetBuf,
       probe_fixTest (W := W) fuel rio_fuel verbose connfd wk' packetBuf =
       probe_send fuel rio_fuel verbose connfd p packetBuf).
Proof.
  intros E Hm Hset. destruct (probe_options_typed _ _ _ _ _ _ E) as ((Ht & Hs & Hl & Hi & Hp) & _).
  destruct Ht as (_ & _ & _ & _ & _ & _ & Hr). unfold probe_message in Hset.
  set (a := Z.lor _ _) in *. set (b := probe_pack _ _ _) in *.
  destruct (probe_unpack (pc_sendInterval p) (pc_size p) (pc_probeInterval p)) as (U1 & U2 & U3);
    [lia..|]. fold b in U1, U2, U3.
  assert (b = pc_sendInterval p * 16777216 + pc_size p * 65536 + pc_probeInterval p) as Eb
    by (by apply probe_pack_sum).
  destruct (configure_with_message verbose probe_configured wk a (pc_loop p) b smem0 smem junk message u)
    as [u' Eu]; try done.
  - unfold a. destruct (0 <? _), Hr as [-> | ->]; done.
  - unfold in_int; lia.
  - unfold in_int; lia.
  - unfold a. destruct (0 <? _), Hr as [-> | ->]; auto.
  - by eexists.
  - unfold configured in Eu.
    destruct (Z.leb_spec (pc_loop p) 0); [lia|]. unfold a in Eu |- *. destruct (Z.ltb_spec 0 (pc_size p)).
    + destruct (Z.leb_spec b 0); [lia|].
      exists (mkWorker (Z.lor TYPE_FIX (cl_reverse (pc_client p))) (pc_loop p) b (wk_running wk)), u'.
      split; [by destruct Hr as [Er|Er]; rewrite Er in *|]. split; [done|]. split; [done|].
      intros _ fuel rio_fuel connfd packetBuf. unfold probe_fixTest, probe_send. cbn [wk_arg wk_arg2]. by rewrite U1, U2, U3.
    + exists (mkWorker (Z.lor TYPE_LONG (cl_reverse (pc_client p))) (pc_loop p) (wk_arg2 wk) (wk_running wk)), u'.
      split; [by destruct Hr as [Er|Er]; rewrite Er in *|]. split; [done|]. split; [done|lia].
Qed.
End options.

(** ** The schedule of a probe

    What the peer and the clock see of a sender: bytes, and the pauses between them. *)
Inductive pace : Type := Sent (d : list Z) | Napped (usec : Z).

(** A connection that is not interrupted, with its history. *)
Class Paced (W : Type) `{Posix W} (fd : Z) `{!Peer W fd} := {
  pace_trace : W -> list pace;
  pace_print : forall m w, pace_trace (sys_print m w) = pace_trace w;
  pace_timer : forall c w, timer_call c -> pace_trace (sys_call c w).2 = pace_trace w;
  pace_isLocked : forall f w, pace_trace (sys_isLocked f w).2 = pace_trace w;
  pace_write : forall d w, let '(r, w') := sys_write fd d w in
    pace_trace w' = pace_trace w ++ [Sent (ztake r d)];
  pace_usleep : forall usec w, peer_ok w -> let '(r, w') := sys_call (CUsleep usec) w in
    peer_same fd w w' /\ pace_trace w' = pace_trace w ++ [Napped usec]
}.

(** One group: [size] bytes, a short pause after each but the last, a long one after it. *)
Definition probe_group (b : Z) (size : nat) (send probe : Z) : list pace :=
  mjoin (replicate (size - 1) [Sent [b]; Napped send]) ++ [Sent [b]; Napped probe].
Definition probe_schedule (b : Z) (size loop : nat) (send probe : Z) : list pace :=
  mjoin (replicate loop (probe_group b size send probe)).

(** The schedule by the number of packets that are left. *)
Fixpoint probe_rest (b size send probe : Z) (n : nat) : list pace :=
  match n with
  | O => []
  | S n => [Sent [b]; Napped (if Z.of_nat n mod size =? 0 then probe else send)] ++ probe_rest b size send probe n
  end.

Lemma probe_rest_group b size send probe n j :
  0 < size -> (1 <= j)%nat -> Z.of_nat j <= size ->
  probe_rest b size send probe (j + n * Z.to_nat size) =
  mjoin (replicate (j - 1) [Sent [b]; Napped send]) ++ [Sent [b]; Napped probe]
  ++ probe_rest b size send probe (n * Z.to_nat size).
Proof.
  intros Hs. induction j as [|j IH]; intros Hj Hle; [lia|]. cbn [Nat.add probe_rest].
  replace (Z.of_nat (j + n * Z.to_nat size)) with (Z.of_nat j + Z.of_nat n * size) by lia.
  rewrite Z.mod_add, Z.mod_small by lia. destruct j as [|j]; [done|].
  destruct (Z.eqb_spec (Z.of_nat (S j)) 0); [lia|]. rewrite IH by lia.
  replace (S (S j) - 1)%nat with (S j) by lia. replace (S j - 1)%nat with j by lia. done.
Qed.
Lemma probe_rest_schedule b size send probe loop :
  0 < size ->
  probe_rest b size send probe (loop * Z.to_nat size) = probe_schedule b (Z.to_nat size) loop send probe.
Proof.
  intros Hs. induction loop as [|loop IH]; [done|]. cbn [Nat.mul].
  rewrite probe_rest_group, IH by lia. unfold probe_schedule. cbn [replicate].
  change (mjoin (?x :: ?l)) with (x ++ mjoin l). by rewrite app_assoc.
Qed.

Section paced.
Context {W : Type} `{Posix W} (fd : Z) `{!Peer W fd} `{!Paced W fd}.
Context (verbose : Z).

Definition pace_same (w w' : W) : Prop := peer_same fd w w' /\ pace_trace w' = pace_trace w.
#[global] Instance pace_same_trans : Transitive pace_same.
Proof. intros w1 w2 w3 [? E1] [? E2]. split; [by etrans|congruence]. Qed.

(** Programs that neither send nor pause. *)
Definition still {A} (m : io W A) : Prop :=
  forall w, peer_ok w -> exists a w', m w = (Done a, w') /\ pace_same w w'.
Lemma still_ret {A} (a : A) : still (io_ret a).
Proof. intros w Hw. by exists a, w. Qed.
Lemma still_printf f args : still (printf f args).
Proof. intros w Hw. exists tt. eexists. split; [done|]. split; [by apply peer_print|apply pace_print]. Qed.
Lemma still_bind {A B} (m : io W A) (k : A -> io W B) :
  still m -> (forall a, still (k a)) -> still (io_bind m k).
Proof.
  intros Hm Hk w Hw. destruct (Hm w Hw) as (a & w1 & E1 & Hs1).
  destruct (Hk a w1) as (b & w2 & E2 & Hs2); [apply Hs1|].
  exists b, w2. split; [by rewrite (bind_Done _ _ _ _ _ E1)|by etrans].
Qed.
Lemma still_if {A} (b : bool) (m1 m2 : io W A) : still m1 -> still m2 -> still (if b then m1 else m2).
Proof. by destruct b. Qed.
Lemma still_isLocked f : still (isLocked f).
Proof.
  intros w Hw. pose proof (peer_isLocked f w Hw) as Hl. pose proof (pace_isLocked f w) as Ht. unfold isLocked.
  destruct (sys_isLocked f w) as [b w']. exists b, w'. split; [done|]. split; [apply Hl|exact Ht].
Qed.
Lemma still_alarm n : still (alarmWithLog verbose n).
Proof.
  apply still_bind; [apply still_if; [apply still_printf|apply still_ret]|intros _ w Hw].
  pose proof (peer_timer (CAlarm n) w I Hw) as Hl. pose proof (pace_timer (CAlarm n) w I) as Ht. unfold syscall.
  destruct (sys_call (CAlarm n) w) as [r w']. exists r, w'. split; [done|]. split; [apply Hl|exact Ht].
Qed.
Lemma still_step {A B} (m : io W A) (k : A -> io W B) w :
  still m -> peer_ok w -> exists a w', io_bind m k w = k a w' /\ pace_same w w'.
Proof.
  intros Hm Hw. destruct (Hm w Hw) as (a & w1 & E & Hs). exists a, w1. by rewrite (bind_Done _ _ _ _ _ E).
Qed.
End paced.
Create HintDb still.
#[export] Hint Resolve still_ret still_printf still_bind still_if still_isLocked still_alarm : still.
(** [run_still] executes the step at the head of the program, which does not send. *)
Ltac run_still :=
  match goal with
  | Hok : peer_ok ?w |- context [io_bind ?m ?k ?w] =>
      let a := fresh "a" in let w1 := fresh "w" in let E := fresh "E" in
      let Hs := fresh "Hp" in let Hok1 := fresh "Hok" in
      destruct (still_step _ m k w) as (a & w1 & E & Hs);
      [eauto 12 with still|exact Hok|]; rewrite E; clear E; pose proof (proj1 (proj1 Hs)) as Hok1
  end.

Section schedule.
Context {W : Type} `{Posix W} (fd : Z) `{!Peer W fd} `{!Paced W fd}.
Context (verbose : Z) (rio_fuel : nat).

(** One byte goes out in one piece. *)
Lemma rio_writenr_one b rest (w : W) :
  peer_ok w -> (1 < rio_fuel)%nat ->
  exists w', rio_writenr verbose rio_fuel fd (b :: rest) 1 w = (Done 1, w') /\
    peer_ok w' /\ peer_in w' = peer_in w /\ peer_out w' = peer_out w ++ [b] /\
    peer_locked w' = peer_locked w /\ pace_trace w' = pace_trace w ++ [Sent [b]].
Proof.
  intros Hok Hf. destruct rio_fuel as [|[|f]]; [lia|lia|]. unfold rio_writenr. cbn [rio_writenr_loop].
  change (0 <? 1) with true. cbv iota. pose proof (zlen_nonneg rest).
  rewrite (bind_mem _ _ _ [b]) by (rewrite mem_read_ok by (rewrite ?zlen_cons; lia); done).
  pose proof (peer_write [b] w ltac:(done) Hok) as Hw. pose proof (pace_write [b] w) as Ht.
  destruct (sys_write fd [b] w) as [r w1] eqn:E. rewrite (bind_write _ _ _ _ _ _ E).
  destruct Hw as (Hr & Ho & Hok1 & Hi & Hl). assert (r = 1) as -> by (change (zlen [b]) with 1 in Hr; lia).
  change (1 <=? 0) with false. change (0 <? u64 (1 - 1)) with false. cbv iota. unfold logVerboseL. run_still.
  exists w0. split; [done|]. split; [done|]. destruct Hp as ((_ & -> & -> & ->) & ->). done.
Qed.

Lemma doProbe_loop_spec fuel n size send probe ind lc b rest (w : W) :
  0 < size -> Z.of_nat n < 2147483648 -> (1 < rio_fuel)%nat -> (n < fuel)%nat ->
  peer_ok w -> peer_locked w SigInt = true -> peer_locked w SigAlrm = true ->
  exists w', doProbe_loop verbose rio_fuel fuel fd send probe size (Z.of_nat n) ind lc (b :: rest) w = (Done 0, w') /\
    peer_ok w' /\ peer_in w' = peer_in w /\ peer_out w' = peer_out w ++ replicate n b /\
    pace_trace w' = pace_trace w ++ probe_rest b size send probe n.
Proof.
  intros Hs Hn Hrf. revert n ind lc w Hn. induction fuel as [|fuel IH]; intros n ind lc w Hn Hf Hok Hi Ha; [lia|].
  cbn [doProbe_loop]. destruct n as [|n].
  { exists w. cbn. rewrite !app_nil_r. done. }
  destruct (Z.ltb_spec 0 (Z.of_nat (S n))); [|lia].
  assert (still fd (continueTest (W := W))) as Hst by (unfold continueTest; eauto with still).
  destruct (continueTest_silent fd w Hok Hi Ha) as (w1 & Ec & Hs1). rewrite (bind_Done _ _ _ _ _ Ec). cbn match.
  destruct (Hst w Hok) as (c & w1' & Ec' & Hp1). rewrite Ec in Ec'. injection Ec' as <- <-.
  pose proof (proj1 Hs1) as Hok1. cbv zeta.
  destruct (rio_writenr_one b rest w1 Hok1 Hrf) as (w2 & Ew & Hok2 & Hi2 & Ho2 & Hl2 & Ht2).
  rewrite (bind_Done _ _ _ _ _ Ew). change (s32 1) with 1. change (1 <? 1) with false. cbv iota.
  replace (Z.of_nat (S n) - 1) with (Z.of_nat n) by lia. destruct (Z.eqb_spec size 0); [lia|].
  rewrite (bind_mem _ _ _ (Z.of_nat n mod size)) by (by rewrite Z.rem_mod_nonneg by lia).
  unfold logVerboseL. run_still. run_still. set (nap := if negb _ then send else probe).
  destruct (if ind + 1 =? size then _ else _) as [ind' lc']. unfold io_bind at 1, syscall.
  pose proof (pace_usleep nap w3 Hok3) as Hu. destruct (sys_call (CUsleep nap) w3) as [r w4].
  destruct Hu as [Hs4 Ht4].
  assert (pace_same fd w2 w3) as [Hs3 Ht3] by (by etrans).
  assert (peer_locked w4 = peer_locked w) as Hl4.
  { destruct Hs4 as (_ & _ & _ & ->), Hs3 as (_ & _ & _ & ->), Hs1 as (_ & _ & _ & <-). done. }
  destruct (IH n ind' lc' w4) as (w5 & E5 & Hok5 & Hi5 & Ho5 & Ht5); [lia|lia|apply Hs4|by rewrite Hl4..|].
  exists w5. split; [exact E5|]. split; [done|]. cbn [replicate probe_rest].
  rewrite Hi5, Ho5, Ht5, Ht4, Ht3, Ht2, (proj2 Hp1).
  destruct Hs4 as (_ & -> & -> & _), Hs3 as (_ & -> & -> & _). rewrite Hi2, Ho2.
  destruct Hs1 as (_ & -> & -> & _). rewrite <- !app_assoc. split; [done|]. split; [done|].
  replace nap with (if Z.of_nat n mod size =? 0 then probe else send) by (unfold nap; by destruct (_ =? 0)). done.
Qed.

Lemma still_summary targ len : still fd (fix_summary (W := W) verbose targ len).
Proof. unfold fix_summary, logMessage, logError, logWarning. eauto 20 with still. Qed.

Lemma doProbe_spec fuel sendInterval probeInterval size loop b rest (w : W) :
  0 < size -> 0 < loop -> loop * size < 2147483648 -> 0 <= sendInterval < 256 -> 0 <= probeInterval < 65536 ->
  (1 < rio_fuel)%nat -> (Z.to_nat (loop * size) < fuel)%nat ->
  peer_ok w -> peer_locked w SigInt = true -> peer_locked w SigAlrm = true ->
  exists w1 w',
    doProbe verbose rio_fuel fuel fd sendInterval probeInterval size loop (b :: rest) w
      = fix_report (loop * size) w1 /\
    doProbe verbose rio_fuel fuel fd sendInterval probeInterval size loop (b :: rest) w = (Done tt, w') /\
    peer_ok w' /\ peer_in w' = peer_in w /\
    peer_out w' = peer_out w ++ replicate (Z.to_nat (loop * size)) b /\
    pace_trace w' = pace_trace w ++
      probe_rest b size (sendInterval * 1000) (probeInterval * 1000) (Z.to_nat (loop * size)).
Proof.
  intros Hs Hl Hov Hsi Hpi Hrf Hf Hok Hi Ha. unfold doProbe. cbv zeta.
  rewrite (bind_mem _ _ _ (loop * size)), (bind_mem _ _ _ (sendInterval * 1000)),
    (bind_mem _ _ _ (probeInterval * 1000)) by (apply int_of_ok; unfold in_int; lia).
  unfold logVerbose, logVerboseL. run_still. run_still.
  assert (pace_same fd w w1) as [(_ & Hi1 & Ho1 & Hl1) Ht1] by (by etrans).
  destruct (doProbe_loop_spec fuel (Z.to_nat (loop * size)) size (sendInterval * 1000) (probeInterval * 1000)
    0 0 b rest w1) as (w2 & E & Hok2 & Hi2 & Ho2 & Ht2); [done|lia|done|done|done|by rewrite Hl1..|].
  rewrite Z2Nat.id in E by lia. rewrite (bind_Done _ _ _ _ _ E).
  destruct (fix_summary_reports fd verbose (loop * size) w2 Hok2) as (w3 & w' & E3 & E4 & Hs4).
  destruct (still_summary (loop * size) 0 w2 Hok2) as (u & w'' & E5 & Hp5). rewrite E4 in E5. injection E5 as <- <-.
  exists w3, w'. split; [exact E3|]. split; [exact E4|]. destruct Hp5 as ((? & -> & -> & _) & ->).
  rewrite Hi2, Ho2, Ht2, Hi1, Ho1, Ht1. done.
Qed.

(** C20. The schedule of a probe. On a connection that takes the data, [doProbe] sends
    [loop] groups of [size] bytes, each byte by itself, with [sendInterval] milliseconds
    after every byte of a group but the last and [probeInterval] milliseconds after that,
    and then reports that [loop * size] bytes were transferred. *)
Theorem doProbe_schedule fuel sendInterval probeInterval size loop b rest (w : W) :
  0 < size -> 0 < loop -> loop * size < 2147483648 -> 0 <= sendInterval < 256 -> 0 <= probeInterval < 65536 ->
  (1 < rio_fuel)%nat -> (Z.to_nat (loop * size) < fuel)%nat ->
  peer_ok w -> peer_locked w SigInt = true -> peer_locked w SigAlrm = true ->
  exists w1 w',
    doProbe verbose rio_fuel fuel fd sendInterval probeInterval size loop (b :: rest) w
      = fix_report (loop * size) w1 /\
    doProbe verbose rio_fuel fuel fd sendInterval probeInterval size loop (b :: rest) w = (Done tt, w') /\
    peer_ok w' /\ peer_in w' = peer_in w /\
    peer_out w' = peer_out w ++ replicate (Z.to_nat (loop * size)) b /\
    pace_trace w' = pace_trace w ++
      probe_schedule b (Z.to_nat size) (Z.to_nat loop) (sendInterval * 1000) (probeInterval * 1000).
Proof.
  intros Hs Hl Hov Hsi Hpi Hrf Hf Hok Hi Ha.
  destruct (doProbe_spec fuel sendInterval probeInterval size loop b rest w)
    as (w1 & w' & E1 & E & Hok' & Hi' & Ho' & Ht'); [done..|].
  exists w1, w'. do 5 (split; [done|]). rewrite Ht', Z2Nat.inj_mul by lia. f_equal. by apply probe_rest_schedule.
Qed.
End schedule.

(** ** From the request to the last probe *)
Section request.
Context {W : Type} `{Posix W} (fd : Z) `{!Peer W fd} `{!Reliable W fd Answers} `{!Paced W fd}.
Context (resolve : list Z -> Z -> Z -> list Z).
Hypothesis resolve_sockaddr : forall n f t, 4 <= zlen (resolve n f t).

Lemma worker_packet_cons : worker_packet = 16 :: replicate (Z.to_nat (PACKET_LEN - 1)) 16.
Proof.
  unfold worker_packet. replace (Z.to_nat PACKET_LEN) with (S (Z.to_nat (PACKET_LEN - 1))) by (unfold PACKET_LEN; lia).
  done.
Qed.
Lemma nodelay_silent c : silent fd (nodelay (W := W) c).
Proof. unfold nodelay. apply silent_bind; [apply (silent_call fd Answers)|intros; apply silent_ret]. Qed.

(** The worker of the build with PROBE, given the request of a client, sends as many
    bytes as the client asked for in groups, and returns 0. *)
Lemma probe_worker_serves fuel rio_fuel verbose svPath svPort l (p : ProbeClient) smem0 smem junk (w : W) :
  0 <= fd -> in_int svPort -> svPort <> 0 -> in_int verbose -> probe_typed p ->
  cl_reverse (pc_client p) = 0 -> 0 < pc_size p -> pc_loop p * pc_size p < 2147483648 ->
  setMessage smem0 (probe_message p ++ 0 :: junk) = Ret smem ->
  (1 < rio_fuel)%nat -> (Z.to_nat (pc_loop p * pc_size p) < fuel)%nat -> peer_ok w ->
  exists w', probe_serverMain resolve fuel rio_fuel (buildArgs verbose svPath svPort) smem l w = (Done 0, w') /\
    peer_in w' = peer_in w /\ peer_out w' = peer_out w ++ replicate (Z.to_nat (pc_loop p * pc_size p)) 16.
Proof.
  intros Hfd Hp Hp0 Hv (_ & Hs & Hl & Hsi & Hpi) Hr Hpos Hov Hset Hrf Hf Hok. unfold probe_serverMain.
  unfold probe_message in Hset. rewrite Hr in Hset. destruct (Z.ltb_spec 0 (pc_size p)); [|lia].
  destruct (probe_unpack (pc_sendInterval p) (pc_size p) (pc_probeInterval p)) as (U1 & U2 & U3); [lia..|].
  pose proof (probe_pack_sum (pc_sendInterval p) (pc_size p) (pc_probeInterval p) Hs Hpi) as Eb.
  set (b := probe_pack _ _ _) in *.
  pose proof worker_packet_cons as Ep. set (rest := replicate _ 16) in Ep. clearbody rest.
  apply (serverMain_with_serves fd resolve resolve_sockaddr worker_packet probe_configured nodelay
           (probe_fixTest fuel rio_fuel) _)
    with (arg := pc_loop p) (arg2 := b) (smem0 := smem0) (junk := junk);
    try done; [by intros; apply silent_message|by eexists|by intros; apply nodelay_silent| |unfold in_int; lia..|lia|lia].
  intros v w0 Hok0 Hi Ha. unfold probe_fixTest. cbn [wk_arg wk_arg2]. rewrite U1, U2, U3, Ep.
  destruct (Z.leb_spec (pc_loop p) 0); [lia|].
  destruct (doProbe_spec fd v rio_fuel fuel (pc_sendInterval p) (pc_probeInterval p) (pc_size p) (pc_loop p)
    16 rest w0) as (_ & w' & _ & E & Hok' & Hi' & Ho' & _); [lia|lia|lia|lia|lia|done..|]. by exists w'.
Qed.
End request.

(** ** A world that keeps the history

    A scripted world in which what is sent and the pauses are written down in order. *)
Record Metronome : Type := mkMetronome { mt_script : Script; mt_trace : list pace }.
#[global] Instance Metronome_posix : Posix Metronome := {|
  sys_errno w := sc_errno (mt_script w);
  sys_put_errno e w := mkMetronome (sys_put_errno e (mt_script w)) (mt_trace w);
  sys_read fd n w := let '(r, d, s) := sys_read fd n (mt_script w) in (r, d, mkMetronome s (mt_trace w));
  sys_write fd d w :=
    let '(r, s) := sys_write fd d (mt_script w) in (r, mkMetronome s (mt_trace w ++ [Sent (ztake r d)]));
  sys_call c w :=
    let '(r, s) := sys_call c (mt_script w) in
    (r, mkMetronome s (match c with CUsleep u => mt_trace w ++ [Napped u] | _ => mt_trace w end));
  sys_print m w := mkMetronome (sys_print m (mt_script w)) (mt_trace w);
  sys_isLocked f w := let '(b, s) := sys_isLocked f (mt_script w) in (b, mkMetronome s (mt_trace w));
  sys_putLock f b w := mkMetronome (sys_putLock f b (mt_script w)) (mt_trace w)
|}.
#[global] Program Instance Metronome_peer fd : Peer Metronome fd := {|
  peer_ok w := peer_ok (fd := fd) (mt_script w);
  peer_in w := peer_in (fd := fd) (mt_script w);
  peer_out w := peer_out (fd := fd) (mt_script w);
  peer_locked w := peer_locked (fd := fd) (mt_script w)
|}.
Next Obligation. intros fd m w Hw. exact (peer_print m (mt_script w) Hw). Qed.
Next Obligation. intros fd e w Hw. exact (peer_put_errno e (mt_script w) Hw). Qed.
Next Obligation.
  intros fd c w Hc Hw. pose proof (peer_timer c (mt_script w) Hc Hw) as Ht. unfold sys_call at 1, Metronome_posix.
  by destruct (sys_call c (mt_script w)).
Qed.
Next Obligation.
  intros fd f w Hw. pose proof (peer_isLocked f (mt_script w) Hw) as Ht. unfold sys_isLocked at 1, Metronome_posix.
  by destruct (sys_isLocked f (mt_script w)).
Qed.
Next Obligation.
  intros fd n w Hn Hw. pose proof (peer_read (fd := fd) n (mt_script w) Hn Hw) as Ht.
  unfold sys_read at 1, Metronome_posix. by destruct (sys_read fd n (mt_script w)) as [[r d] s].
Qed.
Next Obligation.
  intros fd d w Hd Hw. pose proof (peer_write (fd := fd) d (mt_script w) Hd Hw) as Ht.
  unfold sys_write at 1, Metronome_posix. by destruct (sys_write fd d (mt_script w)).
Qed.
#[global] Program Instance Metronome_paced : Paced Metronome 0 := {| pace_trace := mt_trace |}.
Next Obligation. done. Qed.
Next Obligation. intros c w Hc. unfold sys_call, Metronome_posix. destruct (sys_call _ _). by destruct c. Qed.
Next Obligation. intros f w. unfold sys_isLocked, Metronome_posix. by destruct (sys_isLocked _ _). Qed.
Next Obligation. intros d w. unfold sys_write, Metronome_posix. by destruct (sys_write _ _ _). Qed.
Next Obligation.
  intros usec w Hw. pose proof (rel_call (ro := Answers) (CUsleep usec) (mt_script w) Hw) as Hr.
  unfold sys_call at 1, Metronome_posix. destruct (sys_call _ _). split; [apply Hr|done].
Qed.
Definition metronome : Metronome := mkMetronome (mkScript [] [Accepts 1] [] [] [] [] 0 (fun _ => true) []) [].

(** Two groups of three packets. *)
Lemma doProbe_schedule_witness :
  exists w', doProbe 0 5 10 0 4 1000 3 2 [16; 17] metronome = (Done tt, w') /\
    mt_trace w' =
      [Sent [16]; Napped 4000; Sent [16]; Napped 4000; Sent [16]; Napped 1000000;
       Sent [16]; Napped 4000; Sent [16]; Napped 4000; Sent [16]; Napped 1000000].
Proof.
  destruct (doProbe_schedule 0 0 5 10 4 1000 3 2 16 [17] metronome) as (w1 & w' & _ & E & _ & _ & _ & Ht);
    try lia; [split; [constructor|]; split; [by repeat constructor|done]|done|done|].
  exists w'. split; [exact E|exact Ht].
Defined.

(** The command line without [-n]: 255 packets in a group, not the 25 of the usage text. *)
Lemma probe_options_reach_worker_witness :
  exists smem wk' u',
    setMessage (replicate 64 0)
      (probe_message (mkProbeClient (mkClient None (Some [49]) 0 80 81 (-1) 9 255 None 0) 4 1000 1) ++ [0]) = Ret smem /\
    configure_with 0 probe_configured Worker_initial (replicate 256 0) smem quiet = (Done (Some wk', smem), u') /\
    wk_arg wk' = 1.
Proof.
  set (p := mkProbeClient (mkClient None (Some [49]) 0 80 81 (-1) 9 255 None 0) 4 1000 1).
  destruct (setMessage (replicate 64 0) (probe_message p ++ [0])) as [smem| |] eqn:E; [|by vm_compute in E..].
  destruct (probe_options_reach_worker (bytes_of <$> ["-p"; "80"; "-c"; "1"]) Log_initial quiet p Log_initial quiet
    0 Worker_initial (replicate 64 0) smem [] (replicate 256 0) quiet) as (wk' & u' & E' & _ & Ha & _).
  - vm_compute. reflexivity.
  - reflexivity.
  - exact E.
  - exists smem, wk', u'. split; [done|]. split; [exact E'|exact Ha].
Defined.

(** [-n 256] asks for a group of 256 packets; what is sent is a request for a long test of
    one second. *)
Example probe_size_wraps :
  match probe_parseArguments (bytes_of <$> ["-p"; "80"; "-c"; "1"; "-n"; "256"]) Log_initial quiet with
  | (Done (p, _), _) => pc_size p = 0 /\ probe_message p = bytes_of "0 1 67109864"
  | _ => False
  end.
Proof. vm_compute. done. Qed.
(** Groups of 200 packets, 20,000,000 times: the product is not an [int]. *)
Example probe_count_overflows :
  (doProbe 0 5 10 0 4 1000 200 20000000 [16] metronome).1 = Fault.
Proof. vm_compute. done. Qed.
