(* ===== verification/MperfCheck.v ===== *)
(** The build of the throughput tool with CHECK, [mperf-check-client] and
    [mperf-check-server]: a packet holds the numbers from 0 on, and the receiver compares
    every whole packet with them. The parts of src/3rd/mperf/src/sndrcv.c and worker.c that
    this build compiles in addition. *)

From stdpp Require Import base list numbers strings.
From S2P Require Import Prelude Endian SocketAddress Posix CText GetOpt MperfUtil MperfNet.
From S2P Require Import MperfTransfer MperfControl MperfOptions MperfMain.

Open Scope Z_scope.
Open Scope io_scope.

(** A packet is read and written as an array of [long]s, eight bytes each, the lowest first. *)
Definition long_at (buf : list Z) (i : Z) : outcome Z :=
  (b <- mem_read buf (8 * i) 8 ;; Ret (ssize (le_val b)))%outcome.
(** The number of [long]s in a packet. *)
Definition CHECK_LEN : Z := Z.shiftr PACKET_LEN 3.

(** *** worker.c: the packet

    [n] iterations of [while (++i < (PACKET_LEN >> 3))] are left, the next one for [i]. *)
Fixpoint fill_longs (n : nat) (i : Z) (packetBuf : list Z) : outcome (list Z) :=
  match n with
  | O => Ret packetBuf
  | S n =>
      (packetBuf <- mem_write packetBuf (8 * i) (le_bytes 8 i) ;;
       fill_longs n (i + 1) packetBuf)%outcome
  end.
(** The array is static, so that it is zero before, and the first number is not written. *)
Definition fill_packet : outcome (list Z) :=
  fill_longs (Z.to_nat (CHECK_LEN - 1)) 1 (replicate (Z.to_nat PACKET_LEN) 0).
Definition memory (m : outcome (list Z)) : list Z := match m with Ret p => p | _ => [] end.
Definition check_packetBuf : list Z := memory fill_packet.

Section check.
Context {W : Type} `{Posix W}.

(** *** sndrcv.c: the comparison in [doReceive]

    [n] iterations of the loop are left, the next one for [i]. *)
Fixpoint check_values (n : nat) (i byteReceived : Z) (recvBuf : list Z) : io W unit :=
  match n with
  | O => io_ret tt
  | S n =>
      v <- io_mem (long_at recvBuf i) ;;
      if negb (v =? i) then
        pos <- io_mem (s64 (byteReceived + Z.shiftl i 3)) ;;
        logFatal "Value error at %ld(got %ld, expected %ld)" [pos; v; i]
      else check_values n (i + 1) byteReceived recvBuf
  end.
Definition check_packet (byteReceived : Z) (recvBuf : list Z) : io W unit :=
  check_values (Z.to_nat CHECK_LEN) 0 byteReceived recvBuf.
Definition check_receive (verbose : Z) (rio_fuel fuel : nat) : Z -> Z -> list Z -> io W unit :=
  doReceive_with verbose rio_fuel check_packet fuel.

(** *** The programs *)
Context (resolve : list Z -> Z -> Z -> list Z).
Definition check_client_main (fuel rio_fuel : nat) : list (list Z) -> list Z -> list Z -> list Z -> io W Z :=
  client_main_with resolve id client_parseArguments client_message (fun _ => io_ret tt)
    (client_send fuel rio_fuel) (fun verbose => check_receive verbose rio_fuel fuel) rio_fuel.
Definition check_serverMain (fuel rio_fuel : nat) : list (list Z) -> list Z -> Log -> io W Z :=
  serverMain_with resolve check_packetBuf fix_configured (fun _ => io_ret tt) (worker_fixTest fuel rio_fuel)
    (fun verbose => check_receive verbose rio_fuel fuel) fuel rio_fuel.
End check.

(** ** The pattern *)
Fixpoint longs (i : Z) (n : nat) : list Z :=
  match n with O => [] | S n => le_bytes 8 i ++ longs (i + 1) n end.
Definition check_pattern : list Z := longs 0 (Z.to_nat CHECK_LEN).

Lemma zlen_longs i n : zlen (longs i n) = 8 * Z.of_nat n.
Proof.
  revert i. induction n as [|n IH]; intros i; [done|]. cbn [longs]. rewrite zlen_app, zlen_le_bytes, IH. lia.
Qed.
Lemma longs_bytes i n : byte_list (longs i n).
Proof.
  revert i. induction n as [|n IH]; intros i; [constructor|]. cbn [longs]. apply byte_list_app.
  split; [apply le_bytes_byte|apply IH].
Qed.
Lemma check_pattern_bytes : byte_list check_pattern.
Proof. apply longs_bytes. Qed.
Lemma zlen_check_pattern : zlen check_pattern = PACKET_LEN.
Proof. unfold check_pattern. rewrite zlen_longs. unfold CHECK_LEN. by rewrite Z2Nat.id. Qed.

(** The second number is not zero. *)
Lemma longs_second i n : 1 < Z.of_nat n -> exists rest, longs i n = le_bytes 8 i ++ le_bytes 8 (i + 1) ++ rest.
Proof. destruct n as [|[|n]]; [lia..|]. intros _. by eexists. Qed.
Lemma check_pattern_second : exists rest, check_pattern = le_bytes 8 0 ++ le_bytes 8 1 ++ rest.
Proof. apply longs_second. rewrite Z2Nat.id; done. Qed.
Lemma zeros_no_pattern (p : list Z) : Forall (fun b => b = 0) p -> p <> check_pattern.
Proof.
  intros Hp E. destruct check_pattern_second as [rest Er]. rewrite Er in E. clear Er.
  rewrite Forall_forall in Hp. discriminate (Hp 1). rewrite E.
  apply elem_of_app. right. apply elem_of_app. left. by apply elem_of_cons; left.
Qed.

Lemma fill_longs_spec n i buf :
  0 <= i -> 8 * (i + Z.of_nat n) <= zlen buf ->
  fill_longs n i buf = Ret (ztake (8 * i) buf ++ longs i n ++ zdrop (8 * (i + Z.of_nat n)) buf).
Proof.
  revert i buf. induction n as [|n IH]; intros i buf Hi Hl; cbn [fill_longs longs].
  - cbn [app]. by rewrite Z.add_0_r, ztake_zdrop.
  - pose proof (zlen_le_bytes 8 i) as H8. change (Z.of_nat 8) with 8 in H8.
    rewrite mem_write_ok by lia. cbn [obind]. rewrite H8.
    set (b1 := ztake (8 * i) buf ++ le_bytes 8 i ++ zdrop (8 * i + 8) buf).
    assert (zlen b1 = zlen buf) as Hb1 by (unfold b1; rewrite !zlen_app, H8, zlen_take, zlen_drop; lia).
    rewrite IH by lia. f_equal.
    pose proof (store_twice buf (le_bytes 8 i) (longs (i + 1) n) (8 * i) ltac:(lia) ltac:(lia)) as E.
    cbn zeta in E. rewrite H8, zlen_longs in E. fold b1 in E.
    replace (8 * i + 8) with (8 * (i + 1)) in E by lia.
    replace (8 * (i + 1) + 8 * Z.of_nat n) with (8 * (i + 1 + Z.of_nat n)) in E by lia.
    replace (i + Z.of_nat (S n)) with (i + 1 + Z.of_nat n) by lia. exact E.
Qed.
(** The loop of the worker stays in the packet, and makes the pattern. *)
Lemma fill_packet_pattern : fill_packet = Ret check_pattern.
Proof.
  unfold fill_packet, check_pattern. assert (zlen (replicate (Z.to_nat PACKET_LEN) 0) = PACKET_LEN) as Hz by apply zlen_replicate.
  assert (CHECK_LEN = 16384) as HC by done. assert (PACKET_LEN = 131072) as HP by done.
  rewrite fill_longs_spec by lia. replace (Z.to_nat CHECK_LEN) with (S (Z.to_nat (CHECK_LEN - 1))) by lia.
  cbn [longs]. rewrite zdrop_all, app_nil_r by lia. do 2 f_equal.
Qed.
Lemma check_packetBuf_pattern : check_packetBuf = check_pattern.
Proof. unfold check_packetBuf. by rewrite fill_packet_pattern. Qed.

(** ** The comparison *)
Section comparison.
Context {W : Type} `{Posix W}.

(** A packet is what is compared, whatever the rest of the buffer. *)
Lemma long_at_packet buf i :
  0 <= i -> 8 * (i + 1) <= PACKET_LEN -> PACKET_LEN <= zlen buf ->
  long_at buf i = Ret (ssize (le_val (ztake 8 (zdrop (8 * i) (ztake PACKET_LEN buf))))).
Proof.
  intros Hi Hl Hb. unfold long_at. rewrite mem_read_ok by lia. cbn [obind]. do 3 f_equal.
  rewrite zdrop_ztake, ztake_ztake by lia. f_equal. lia.
Qed.
(** A number is the expected one exactly when its bytes are. *)
Lemma long_eq d i : byte_list d -> zlen d = 8 -> 0 <= i < 9223372036854775808 -> ssize (le_val d) = i <-> d = le_bytes 8 i.
Proof.
  intros Hd Hl Hi. pose proof (le_val_range d Hd) as Hr. rewrite Hl in Hr. change (256 ^ 8) with 18446744073709551616 in Hr.
  assert (length d = 8%nat) as Hn by (unfold zlen in Hl; lia). split.
  - intros E. assert (le_val d = i) as <-.
    { unfold ssize in E. Z.to_euclidean_division_equations. lia. }
    rewrite <- Hn. symmetry. by apply le_bytes_le_val.
  - intros ->. rewrite le_val_le_bytes by (change (256 ^ Z.of_nat 8) with 18446744073709551616; lia). apply ssize_small; lia.
Qed.

Lemma longs_split n i (p : list Z) :
  0 <= i -> ztake (8 * Z.of_nat (S n)) (zdrop (8 * i) p) =
  ztake 8 (zdrop (8 * i) p) ++ ztake (8 * Z.of_nat n) (zdrop (8 * (i + 1)) p).
Proof.
  intros Hi. rewrite <- (ztake_zdrop 8 (ztake (8 * Z.of_nat (S n)) _)), ztake_ztake, zdrop_ztake, zdrop_zdrop by lia.
  repeat f_equal; lia.
Qed.

Lemma check_values_spec n i m buf (w : W) :
  byte_list (ztake PACKET_LEN buf) -> PACKET_LEN <= zlen buf -> 0 <= i -> 8 * (i + Z.of_nat n) <= PACKET_LEN ->
  if decide (ztake (8 * Z.of_nat n) (zdrop (8 * i) (ztake PACKET_LEN buf)) = longs i n)
  then check_values n i m buf w = (Done tt, w)
  else 0 <= m -> m + PACKET_LEN < 9223372036854775808 -> exists w', check_values n i m buf w = (Exited 1, w').
Proof.
  intros Hp Hb. assert (PACKET_LEN = 131072) as HP by done. revert i. induction n as [|n IH]; intros i Hi Hl.
  - rewrite decide_True; [done|]. by apply ztake_0.
  - cbn [check_values longs]. rewrite longs_split by done.
    rewrite (bind_mem _ _ _ _ (long_at_packet buf i Hi ltac:(lia) Hb)).
    set (d := ztake 8 (zdrop (8 * i) (ztake PACKET_LEN buf))).
    assert (zlen d = 8) as Hd by (unfold d; rewrite zlen_take, zlen_drop, zlen_take; lia).
    assert (byte_list d) as Hbd by (by apply Forall_take, Forall_drop).
    pose proof (long_eq d i Hbd Hd ltac:(lia)) as Hv.
    destruct (Z.eqb_spec (ssize (le_val d)) i) as [E|E]; cbn [negb].
    + apply Hv in E. specialize (IH (i + 1) ltac:(lia) ltac:(lia)). rewrite E.
      destruct (decide (ztake _ (zdrop (8 * (i + 1)) _) = _)) as [E2|E2].
      * rewrite E2, decide_True by done. done.
      * rewrite decide_False; [done|]. by intros ?%app_inv_head.
    + rewrite decide_False.
      2: { intros Ea. apply E, Hv. apply (f_equal (ztake 8)) in Ea.
           by rewrite !ztake_app_length in Ea by (done || by rewrite zlen_le_bytes). }
      intros Hm Hmax. rewrite (bind_mem _ _ _ (m + Z.shiftl i 3)); [by eexists|].
      rewrite Z.shiftl_mul_pow2 by lia. change (2 ^ 3) with 8. apply s64_ok. word.
Qed.
Lemma check_packet_spec m buf (w : W) :
  byte_list (ztake PACKET_LEN buf) -> PACKET_LEN <= zlen buf ->
  if decide (ztake PACKET_LEN buf = check_pattern)
  then check_packet m buf w = (Done tt, w)
  else 0 <= m -> m + PACKET_LEN < 9223372036854775808 -> exists w', check_packet m buf w = (Exited 1, w').
Proof.
  intros Hp Hb. assert (Z.of_nat (Z.to_nat CHECK_LEN) = CHECK_LEN) as Hn by (by apply Z2Nat.id).
  pose proof (check_values_spec (Z.to_nat CHECK_LEN) 0 m buf w Hp Hb ltac:(done)) as Hs. rewrite Hn in Hs.
  specialize (Hs ltac:(done)). replace (8 * CHECK_LEN) with PACKET_LEN in Hs by done.
  rewrite (zdrop_0 (8 * 0)), ztake_ztake, Z.min_id in Hs by done. exact Hs.
Qed.
End comparison.
#[global] Opaque check_packetBuf check_pattern.

(** ** The receiver of the build *)
Lemma all_packets_cons P s : P (ztake PACKET_LEN s) -> all_packets P (zdrop PACKET_LEN s) -> all_packets P s.
Proof.
  intros H0 Hr i Hi Hl. change PACKET_LEN with 131072 in *. destruct (Z.eq_dec i 0) as [->|].
  - by rewrite (zdrop_0 (0 * 131072)) by lia.
  - specialize (Hr (i - 1) ltac:(lia) ltac:(rewrite zlen_drop; change PACKET_LEN with 131072; lia)). change PACKET_LEN with 131072 in *.
    rewrite zdrop_zdrop in Hr by lia. by replace (131072 + (i - 1) * 131072) with (i * 131072) in Hr by lia.
Qed.
Lemma all_packets_short P s : zlen s < PACKET_LEN -> all_packets P s.
Proof. intros Hl i Hi Hp. change PACKET_LEN with 131072 in *. lia. Qed.

(** A stream that holds the pattern in every whole packet. *)
Definition sound (s : list Z) : Prop := all_packets (fun p => p = check_pattern) s.

Section receiver.
Context {W : Type} `{Posix W} (fd : Z) `{!Peer W fd}.
Context (verbose : Z) (rio_fuel : nat).

Lemma check_loop_stops fuel timelen recvBuf n (w : W) :
  PACKET_LEN <= zlen recvBuf -> (Z.to_nat PACKET_LEN < rio_fuel)%nat -> peer_ok w ->
  peer_locked w SigInt = true -> peer_locked w SigAlrm = true -> byte_list (peer_in w) ->
  0 <= n -> n + zlen (peer_in w) < 9223372036854775808 -> (Z.to_nat (zlen (peer_in w)) < fuel)%nat ->
  ~ sound (peer_in w) ->
  exists w', doReceive_loop verbose rio_fuel check_packet fuel fd timelen recvBuf n w = (Exited 1, w').
Proof.
  intros Hb Hrf. revert recvBuf n w Hb. induction fuel as [|fuel IH];
    intros recvBuf n w Hb Hok Hi Ha Hby Hn Hmax Hf Hbad; [lia|].
  pose proof (zlen_nonneg (peer_in w)). assert (PACKET_LEN = 131072) as HP by done.
  destruct (Z.le_gt_cases PACKET_LEN (zlen (peer_in w))) as [Hge|Hlt]; [|by destruct Hbad; apply all_packets_short].
  destruct (doReceive_packet fd verbose rio_fuel check_packet fuel timelen recvBuf n w Hb Hrf Hok Hge)
    as (w1 & buf & E & Hok1 & Hi1 & Ho1 & Hl1 & Hbuf & Hz). rewrite E.
  assert (byte_list (ztake PACKET_LEN buf)) as Hbb by (rewrite Hbuf; by apply Forall_take).
  pose proof (check_packet_spec n buf w1 Hbb ltac:(lia)) as Hc. rewrite Hbuf in Hc.
  destruct (decide (ztake PACKET_LEN (peer_in w) = check_pattern)) as [Hp|Hp].
  - rewrite (bind_Done _ _ _ _ _ Hc). rewrite (bind_mem _ _ _ (n + PACKET_LEN)) by (apply s64_ok; word).
    destruct (continueTest_silent fd w1) as (w2 & Ec & Hok2 & Hi2 & Ho2 & Hl2); [done|congruence|congruence|].
    rewrite (bind_Done _ _ _ _ _ Ec). cbn match.
    apply IH; try (done || congruence || lia).
    + rewrite Hi2, Hi1. by apply Forall_drop.
    + rewrite Hi2, Hi1, zlen_drop. lia.
    + rewrite Hi2, Hi1, zlen_drop. lia.
    + rewrite Hi2, Hi1. intros Hs. apply Hbad. by apply all_packets_cons.
  - destruct Hc as [w' Ew]; [lia..|]. exists w'. unfold io_bind at 1. by rewrite Ew.
Qed.

Lemma check_packet_silent n buf :
  PACKET_LEN <= zlen buf -> ztake PACKET_LEN buf = check_pattern -> silent fd (check_packet (W := W) n buf).
Proof.
  intros Hl E w Hw.
  assert (byte_list (ztake PACKET_LEN buf)) as Hb by (rewrite E; apply check_pattern_bytes).
  pose proof (check_packet_spec n buf w Hb Hl) as Hc. rewrite decide_True in Hc by done.
  by exists tt, w.
Qed.

Lemma check_receive_accepts fuel timelen recvBuf (w : W) :
  PACKET_LEN <= zlen recvBuf -> (Z.to_nat PACKET_LEN < rio_fuel)%nat -> peer_ok w ->
  peer_locked w SigInt = true -> peer_locked w SigAlrm = true ->
  zlen (peer_in w) < 9223372036854775808 -> (Z.to_nat (zlen (peer_in w)) < fuel)%nat ->
  sound (peer_in w) ->
  exists w1 w',
    check_receive verbose rio_fuel fuel fd timelen recvBuf w =
      (logMessage "->Bytes received: %ld" [zlen (peer_in w)] ;;;
       logMessage "->Bandwidth: %lfBytes/sec" [] ;;;
       logMessage "Transfer complete.\n" []) w1 /\
    check_receive verbose rio_fuel fuel fd timelen recvBuf w = (Done tt, w') /\
    peer_ok w' /\ peer_in w' = [] /\ peer_out w' = peer_out w.
Proof.
  apply (doReceive_with_counts_all fd verbose rio_fuel check_packet (fun p => p = check_pattern)).
  intros. by apply check_packet_silent.
Qed.

Lemma check_receive_stops fuel timelen recvBuf (w : W) :
  PACKET_LEN <= zlen recvBuf -> (Z.to_nat PACKET_LEN < rio_fuel)%nat -> peer_ok w ->
  peer_locked w SigInt = true -> peer_locked w SigAlrm = true -> byte_list (peer_in w) ->
  zlen (peer_in w) < 9223372036854775808 -> (Z.to_nat (zlen (peer_in w)) < fuel)%nat ->
  ~ sound (peer_in w) ->
  exists w', check_receive verbose rio_fuel fuel fd timelen recvBuf w = (Exited 1, w').
Proof.
  intros Hb Hrf Hok Hi Ha Hby Hmax Hf Hbad. unfold check_receive, doReceive_with, logVerbose.
  run_silent. run_silent. run_silent.
  assert (peer_same fd w w2) as (_ & Hi0 & Ho0 & Hl0) by same_chain.
  destruct (check_loop_stops fuel timelen recvBuf 0 w2) as [w' E]; try done; try congruence; rewrite ?Hi0; try done.
  exists w'. unfold io_bind at 1. by rewrite E.
Qed.

(** C22. The verdict of the receiver that checks. It takes a stream until the peer closes: if
    every whole packet of it holds the numbers 0, 1, 2, ... in order, all of the stream is
    counted and reported, and otherwise the process leaves with status 1, whatever the
    pieces in which the bytes arrive. What follows the last whole packet is not checked. *)
Theorem check_receive_verdict fuel timelen recvBuf (w : W) :
  PACKET_LEN <= zlen recvBuf -> (Z.to_nat PACKET_LEN < rio_fuel)%nat -> peer_ok w ->
  peer_locked w SigInt = true -> peer_locked w SigAlrm = true -> byte_list (peer_in w) ->
  zlen (peer_in w) < 9223372036854775808 -> (Z.to_nat (zlen (peer_in w)) < fuel)%nat ->
  (sound (peer_in w) ->
   exists w1 w',
     check_receive verbose rio_fuel fuel fd timelen recvBuf w =
       (logMessage "->Bytes received: %ld" [zlen (peer_in w)] ;;;
        logMessage "->Bandwidth: %lfBytes/sec" [] ;;;
        logMessage "Transfer complete.\n" []) w1 /\
     check_receive verbose rio_fuel fuel fd timelen recvBuf w = (Done tt, w') /\
     peer_ok w' /\ peer_in w' = [] /\ peer_out w' = peer_out w) /\
  (~ sound (peer_in w) ->
   exists w', check_receive verbose rio_fuel fuel fd timelen recvBuf w = (Exited 1, w')).
Proof.
  intros Hb Hrf Hok Hi Ha Hby Hmax Hf. split.
  - apply check_receive_accepts; done.
  - apply check_receive_stops; done.
Qed.
End receiver.

(** What a fix test sends is sound when its packet is the pattern. *)
Lemma fix_data_sound len buf :
  0 <= len -> PACKET_LEN <= zlen buf -> ztake PACKET_LEN buf = check_pattern -> sound (fix_data len buf).
Proof.
  assert (PACKET_LEN = 131072) as HP by done.
  intros Hl Hz Hp. replace len with (len mod PACKET_LEN + Z.of_nat (Z.to_nat (len / PACKET_LEN)) * PACKET_LEN).
  2: { pose proof (Z.div_mod len PACKET_LEN ltac:(done)). pose proof (Z.div_pos len PACKET_LEN Hl ltac:(done)). lia. }
  pose proof (Z.mod_pos_bound len PACKET_LEN ltac:(done)) as Hr. generalize dependent (len mod PACKET_LEN). intros r Hr.
  induction (Z.to_nat (len / PACKET_LEN)) as [|n IH].
  - apply all_packets_short. rewrite zlen_fix_data; lia.
  - rewrite fix_data_packet by lia. replace (_ - PACKET_LEN) with (r + Z.of_nat n * PACKET_LEN) by lia.
    assert (zlen (ztake PACKET_LEN buf) = PACKET_LEN) as Hzp by (rewrite zlen_take; lia).
    apply all_packets_cons; [by rewrite ztake_app_length|by rewrite zdrop_app_length].
Qed.
(** A packet that is not the pattern spoils every test that sends it. *)
Lemma fix_data_unsound len buf :
  PACKET_LEN <= len -> PACKET_LEN <= zlen buf -> ztake PACKET_LEN buf <> check_pattern -> ~ sound (fix_data len buf).
Proof.
  intros Hl Hz Hp Hs. apply Hp. apply (all_packets_first _ _) in Hs; [|by rewrite zlen_fix_data by (unfold PACKET_LEN in *; lia)].
  rewrite fix_data_packet in Hs by done.
  by rewrite ztake_app_length in Hs by (rewrite zlen_take; unfold PACKET_LEN in *; lia).
Qed.

(** ** From the worker to the client *)
Section transfer.
Context {W : Type} `{Posix W} (fd : Z) `{!Peer W fd} `{!Reliable W fd Answers}.
Context {V : Type} `{Posix V} (cfd : Z) `{!Peer V cfd} `{!Reliable V cfd Dials}.
Context (resolve : list Z -> Z -> Z -> list Z).
Hypothesis resolve_sockaddr : forall n f t, 4 <= zlen (resolve n f t).

(** C18. A transfer between the programs of the build with CHECK, end to end. A client that
    asks for [cl_size c] bytes makes the worker send some [data]; when that is what arrives
    at the client, the client finds no error in it, reports [cl_size c] bytes and returns
    0, whatever the pieces in which the data goes out and arrives. *)
Theorem check_transfer fuel rio_fuel verbose svPath svPort l (c : Client) smem0 smem junk (w : W)
    argv lc message sbuf packetBuf :
  0 <= fd -> 0 <= cfd -> in_int svPort -> svPort <> 0 -> in_int verbose ->
  zlen argv <> 1 ->
  (forall v : V, peer_ok v -> exists v',
     client_parseArguments (drop 1 argv) Log_initial v = (Done (c, lc), v') /\ peer_same cfd v v') ->
  client_typed c -> cl_reverse c = 0 -> 0 < cl_size c ->
  setMessage smem0 (client_message c ++ 0 :: junk) = Ret smem ->
  zlen message = 1024 -> zlen sbuf = 2048 -> PACKET_LEN <= zlen packetBuf ->
  (Z.to_nat PACKET_LEN < rio_fuel)%nat -> (Z.to_nat (cl_size c) < fuel)%nat -> peer_ok w ->
  exists w' data,
    check_serverMain resolve fuel rio_fuel (buildArgs verbose svPath svPort) smem l w = (Done 0, w') /\
    peer_out w' = peer_out w ++ data /\
    forall (v : V) verdict, peer_ok v -> peer_in v = verdict :: data ->
    exists v1 v',
      check_client_main resolve fuel rio_fuel argv message sbuf packetBuf v =
        ((logMessage "->Bytes received: %ld" [cl_size c] ;;;
          logMessage "->Bandwidth: %lfBytes/sec" [] ;;;
          logMessage "Transfer complete.\n" []) ;;; io_ret 0) v1 /\
      check_client_main resolve fuel rio_fuel argv message sbuf packetBuf v = (Done 0, v').
Proof.
  intros Hfd Hcfd Hp Hp0 Hv Hargv Hacc (_ & _ & _ & Htl & Hlt & Hsz & _) Hr Hpos Hset Hm Hb Hpb Hrf Hf Hok.
  unfold check_serverMain. pose proof check_packetBuf_pattern as Hpat. generalize dependent check_packetBuf. intros pb Hpat.
  assert (zlen pb = PACKET_LEN) as Hcp by (rewrite Hpat; apply zlen_check_pattern).
  set (data := fix_data (cl_size c) pb).
  assert (sound data) as Hsound.
  { apply fix_data_sound; [lia|lia|]. rewrite ztake_all by lia. exact Hpat. }
  assert (zlen data = cl_size c) as Hzd by (apply zlen_fix_data; lia).
  assert (exists w', serverMain_with resolve pb fix_configured (fun _ => io_ret tt) (worker_fixTest fuel rio_fuel)
      (fun verbose => check_receive verbose rio_fuel fuel) fuel rio_fuel (buildArgs verbose svPath svPort) smem l w = (Done 0, w')
    /\ peer_in w' = peer_in w /\ peer_out w' = peer_out w ++ data) as (w' & E & _ & Ho).
  { unfold client_message in Hset. rewrite Hr in Hset.
    destruct (Z.ltb_spec 0 (cl_size c)); [|lia]. destruct (Z.leb_spec (cl_size c) 0); [lia|]. cbn [andb] in Hset.
    apply (serverMain_with_serves fd resolve resolve_sockaddr pb fix_configured (fun _ => io_ret tt)
             (worker_fixTest fuel rio_fuel) _)
      with (arg := cl_localTime c) (arg2 := cl_size c) (smem0 := smem0) (junk := junk);
      try done; [by intros; apply silent_message|by eexists|by intros; apply silent_ret| |lia].
    intros ver w0 Hok0 Hi Ha. unfold worker_fixTest. cbn [wk_arg wk_arg2].
    destruct (doFixTest_sends_all fd ver rio_fuel fuel (if cl_localTime c <=? 0 then 200 else cl_localTime c)
      (cl_size c) pb w0) as (_ & w1 & _ & Ew); [unfold in_int in *; lia|lia|done..|]. by exists w1. }
  exists w', data. split; [exact E|]. split; [exact Ho|]. clearbody data. intros v verdict Hokv Hin.
  destruct (client_main_with_receives cfd resolve resolve_sockaddr id client_parseArguments client_message
    (fun _ => io_ret tt) (client_send fuel rio_fuel) (fun verbose => check_receive verbose rio_fuel fuel)
    rio_fuel argv c lc message sbuf packetBuf verdict data
    (logMessage "->Bytes received: %ld" [cl_size c] ;;;
     logMessage "->Bandwidth: %lfBytes/sec" [] ;;; logMessage "Transfer complete.\n" []) v)
    as (v1 & v' & E1 & E2 & _); try done.
  - apply zlen_control_message.
  - apply control_message_chars; [|by destruct (_ && _)|done]. rewrite Hr. by destruct (0 <? cl_size c).
  - apply silent_ret.
  - unfold PACKET_LEN in Hrf; lia.
  - intros u Hu Hi Ha Hd. rewrite <- Hzd, <- Hd. unfold in_int in *. apply check_receive_accepts; try done; rewrite Hd; (lia || done).
  - by exists v1, v'.
Qed.
End transfer.

(** ** The other direction

    Nothing fills the packet of the client, which is static and so zero: a test in which
    the client of this build sends a whole packet is aborted by its worker. *)
Section reversed.
Context {W : Type} `{Posix W} (fd : Z) `{!Peer W fd}.
Context {V : Type} `{Posix V} (cfd : Z) `{!Peer V cfd}.

Theorem check_reverse_aborts fuel rio_fuel verbose (c : Client) packetBuf recvBuf timelen (v : V) :
  Forall (fun b => b = 0) packetBuf -> PACKET_LEN <= zlen packetBuf -> PACKET_LEN <= zlen recvBuf ->
  PACKET_LEN <= cl_size c < 2147483648 -> (Z.to_nat PACKET_LEN < rio_fuel)%nat -> (Z.to_nat (cl_size c) < fuel)%nat ->
  peer_ok v -> peer_locked v SigInt = true -> peer_locked v SigAlrm = true ->
  exists v' data,
    client_send fuel rio_fuel verbose cfd c packetBuf v = (Done tt, v') /\ peer_out v' = peer_out v ++ data /\
    forall w : W, peer_ok w -> peer_locked w SigInt = true -> peer_locked w SigAlrm = true -> peer_in w = data ->
    exists w', check_receive verbose rio_fuel fuel fd timelen recvBuf w = (Exited 1, w').
Proof.
  intros Hz Hp Hb Hs Hrf Hf Hok Hi Ha. assert (PACKET_LEN = 131072) as HP by done. unfold client_send.
  destruct (Z.ltb_spec 0 (cl_size c)); [|lia].
  destruct (doFixTest_sends_all cfd verbose rio_fuel fuel (cl_localTime c) (cl_size c) packetBuf v)
    as (_ & v' & _ & E & _ & _ & Ho); [lia|done..|].
  exists v', (fix_data (cl_size c) packetBuf). split; [exact E|]. split; [exact Ho|].
  assert (zlen (fix_data (cl_size c) packetBuf) = cl_size c) as Hzd by (apply zlen_fix_data; lia).
  assert (byte_list (fix_data (cl_size c) packetBuf)) as Hby.
  { apply fix_data_all. eapply Forall_impl; [exact Hz|]. by intros b ->. }
  assert (~ sound (fix_data (cl_size c) packetBuf)) as Hun.
  { apply fix_data_unsound; [lia|done|]. apply zeros_no_pattern. by apply Forall_take. }
  intros w Hw Hwi Hwa Hin. rewrite <- Hin in *. apply (check_receive_stops fd); try done; lia.
Qed.
End reversed.

(** ** Concrete transfers *)

(** Three bytes are less than a packet and accepted; a packet of zeros is not. *)
Lemma check_receive_verdict_witness :
  (exists w', check_receive 0 (S (Z.to_nat PACKET_LEN)) 10 3 5 example_packet
     (mkScript [Chunk [7; 8]; Chunk [9]] [] [] [] [] [] 0 (fun _ => true) []) = (Done tt, w')) /\
  (exists w', check_receive 0 (S (Z.to_nat PACKET_LEN)) (S (Z.to_nat PACKET_LEN)) 3 5 example_packet
     (mkScript [Chunk (replicate (Z.to_nat PACKET_LEN) 0)] [] [] [] [] [] 0 (fun _ => true) []) = (Exited 1, w')).
Proof.
  split.
  - destruct (check_receive_verdict 3 0 (S (Z.to_nat PACKET_LEN)) 10 5 example_packet
      (mkScript [Chunk [7; 8]; Chunk [9]] [] [] [] [] [] 0 (fun _ => true) [])) as [Hs _].
    + by rewrite zlen_example_packet.
    + lia.
    + split; [by repeat constructor|]. split; [constructor|done].
    + done.
    + done.
    + by repeat constructor.
    + done.
    + vm_compute. lia.
    + destruct Hs as (w1 & w' & _ & E & _); [by apply all_packets_short|]. exists w'. exact E.
  - set (zeros := replicate (Z.to_nat PACKET_LEN) 0).
    assert (zlen zeros = PACKET_LEN) as Hl by apply zlen_replicate.
    assert (Forall (fun b => b = 0) zeros) as Hz by (by apply Forall_replicate). clearbody zeros.
    assert (peer_in (fd := 3) (mkScript [Chunk zeros] [] [] [] [] [] 0 (fun _ => true) []) = zeros) as Hin
      by apply app_nil_r.
    destruct (check_receive_verdict 3 0 (S (Z.to_nat PACKET_LEN)) (S (Z.to_nat PACKET_LEN)) 5 example_packet
      (mkScript [Chunk zeros] [] [] [] [] [] 0 (fun _ => true) [])) as [_ Hs].
    + by rewrite zlen_example_packet.
    + lia.
    + split; [|split; [constructor|done]]. constructor; [|constructor]. change (zeros <> []). intros Hn. by rewrite Hn in Hl.
    + done.
    + done.
    + rewrite Hin. eapply Forall_impl; [exact Hz|]. by intros b ->.
    + by rewrite Hin, Hl.
    + rewrite Hin, Hl. lia.
    + apply Hs. rewrite Hin. intros Hp. apply (zeros_no_pattern _ Hz). rewrite <- (ztake_all PACKET_LEN zeros) by lia.
      apply (all_packets_first (fun p => p = check_pattern) zeros); [exact Hp|lia].
Defined.

(** Five bytes; the answer of the controller is that the request was refused. *)
Lemma check_transfer_witness :
  exists smem w' data, setMessage (replicate 64 0) (client_message fix_client ++ [0]) = Ret smem /\
    check_serverMain loopback 10 (S (Z.to_nat PACKET_LEN)) (buildArgs 0 None 5001) smem Log_initial
      (with_writes [Accepts 2; Accepts 2]) = (Done 0, w') /\
    sc_sent w' = data /\
    exists v', check_client_main loopback 10 (S (Z.to_nat PACKET_LEN))
      (bytes_of <$> ["c"; "-p"; "5001"; "-n"; "5"; "-c"; "1"]) (replicate 1024 0) (replicate 2048 0)
      example_packet (with_reads [Chunk (RET_EMSG :: data)]) = (Done 0, v').
Proof.
  destruct (setMessage (replicate 64 0) (client_message fix_client ++ [0])) as [smem| |] eqn:E;
    [|by vm_compute in E..].
  destruct (check_transfer (W := Script) 0 (V := Script) 0 loopback ltac:(done) 10 (S (Z.to_nat PACKET_LEN)) 0 None 5001
    Log_initial fix_client (replicate 64 0) smem [] (with_writes [Accepts 2; Accepts 2])
    (bytes_of <$> ["c"; "-p"; "5001"; "-n"; "5"; "-c"; "1"]) Log_initial (replicate 1024 0) (replicate 2048 0)
    example_packet) as (w' & data & Ew & Ho & Hc).
  - done.
  - done.
  - unfold in_int; lia.
  - done.
  - unfold in_int; lia.
  - done.
  - intros v Hv. exists v. split; [vm_compute; reflexivity|by split].
  - unfold client_typed, in_int, in_u16. cbn. auto 10 with lia.
  - done.
  - cbn; lia.
  - exact E.
  - reflexivity.
  - reflexivity.
  - by rewrite zlen_example_packet.
  - lia.
  - cbn; lia.
  - split; [constructor|]. split; [by repeat constructor|done].
  - destruct (Hc (with_reads [Chunk (RET_EMSG :: data)]) RET_EMSG) as (v1 & v' & _ & Ev).
    + split; [|split; [constructor|done]]. by repeat constructor.
    + change (RET_EMSG :: (data ++ []) = RET_EMSG :: data). by rewrite app_nil_r.
    + exists smem, w', data. split; [done|]. split; [exact Ew|]. split; [exact Ho|]. exists v'. exact Ev.
Defined.
