(* ===== verification/MperfLog.v ===== *)
(** The log of the throughput tool: the macro [doLog] of src/3rd/mperf/src/include/log.h,
    which formats a line in one of 16 buffers that it chooses by a ticket, with signals
    blocked and without a lock. The buffers are modelled byte by byte; the text of a
    message and the time stamp are given as [sprintf] has formatted them. *)

From stdpp Require Import base list numbers strings gmap relations.
From S2P Require Import Prelude Posix Locks.

Open Scope Z_scope.
Open Scope outcome_scope.

Definition LOGBUF_LEN : Z := 1024.

Record log_message : Type := mkLogMessage {
  lm_prefix : list Z;
  lm_stamp : list Z;   (* [%14.6lf] of the time stamp *)
  lm_text : list Z     (* the format of the caller with its arguments *)
}.
(** The line for a text: the format ["%s(%14.6lf): %s\n"]. *)
Definition log_format (m : log_message) (text : list Z) : list Z :=
  lm_prefix m ++ bytes_of "(" ++ lm_stamp m ++ bytes_of "): " ++ text ++ [10].
Definition log_lineof (m : log_message) : list Z := log_format m (lm_text m).

(** *** The buffers: [logBuf[i]] has [2 * LOGBUF_LEN] bytes *)
Abbreviation logBuf := (list (list Z)).
Definition logBuf_initial : logBuf := replicate 16 (replicate (Z.to_nat (2 * LOGBUF_LEN)) 0).
Definition log_slot (b : logBuf) (i : Z) : outcome (list Z) :=
  match b !! Z.to_nat i with Some s => Ret s | None => Undef end.
(** [sprintf(buf + LOGBUF_LEN, __VA_ARGS__)] *)
Definition log_text (i : Z) (m : log_message) (b : logBuf) : outcome logBuf :=
  s <- log_slot b i ;;
  s <- mem_write s LOGBUF_LEN (lm_text m ++ [0]) ;;
  Ret (<[Z.to_nat i := s]> b).
(** [sprintf(buf, ..., buf + LOGBUF_LEN)]: what is printed must not reach the string it is
    made of. *)
Definition log_line (i : Z) (m : log_message) (b : logBuf) : outcome logBuf :=
  s <- log_slot b i ;;
  text <- c_string (zdrop LOGBUF_LEN s) ;;
  let line := log_format m text in
  if zlen line + 1 <=? LOGBUF_LEN then
    s <- mem_write s 0 (line ++ [0]) ;;
    Ret (<[Z.to_nat i := s]> b)
  else Undef.
(** [write(logFD, buf, strlen(buf))] *)
Definition log_written (i : Z) (b : logBuf) : outcome (list Z) :=
  s <- log_slot b i ;;
  c_string s.

(** *** One message

    The mask of the process and the two sets that [doLog] exchanges it with. [sigprocmask]
    sets the mask it is given (the kernel would leave SIGKILL and SIGSTOP out of it, which
    no program can block), and [write] takes the line whole. *)
Record LogState : Type := mkLogState {
  ls_mask : gset Z;
  ls_logMask : gset Z;
  ls_logOldMask : gset Z;
  ls_logNum : lock_t;
  ls_logBuf : logBuf;
  ls_file : list Z
}.
Definition doLog (m : log_message) (s : LogState) : outcome LogState :=
  let logOldMask := ls_mask s in
  let mask := ls_logMask s in
  let '(i, logNum) := getBuf (ls_logNum s) in
  b <- log_text i m (ls_logBuf s) ;;
  b <- log_line i m b ;;
  line <- log_written i b ;;
  let logMask := mask in
  let mask := logOldMask in
  Ret (mkLogState mask logMask logOldMask logNum b (ls_file s ++ line)).

(** *** Threads that log

    Every message is one run of [doLog] by some thread; the [k]-th one that takes a ticket
    is message [k]. A step is the ticket, one of the two [sprintf]s, or the [write]. *)
Inductive log_pc : Type := Began | Texted | Lined.
#[global] Instance log_pc_eq_dec : EqDecision log_pc.
Proof. solve_decision. Defined.
Record Logging : Type := mkLogging {
  lg_num : lock_t;
  lg_buf : logBuf;
  lg_begun : list log_message;
  lg_active : gmap nat (Z * log_pc);   (* the buffer of the message and its next step *)
  lg_file : list (nat * list Z)        (* what was written, and by which message *)
}.
Definition Logging_initial : Logging := mkLogging 0 logBuf_initial [] ∅ [].

Inductive log_action : Type := ABegin (m : log_message) | AStep (k : nat).

(** [None]: there is no such step; [Some Undef]: it is undefined. *)
Definition log_act (a : log_action) (s : Logging) : option (outcome Logging) :=
  match a with
  | ABegin m =>
      let '(i, num) := getBuf (lg_num s) in
      Some (Ret (mkLogging num (lg_buf s) (lg_begun s ++ [m])
                   (<[length (lg_begun s) := (i, Began)]> (lg_active s)) (lg_file s)))
  | AStep k =>
      match lg_active s !! k, lg_begun s !! k with
      | Some (i, Began), Some m =>
          Some (b <- log_text i m (lg_buf s) ;;
                Ret (mkLogging (lg_num s) b (lg_begun s) (<[k := (i, Texted)]> (lg_active s)) (lg_file s)))
      | Some (i, Texted), Some m =>
          Some (b <- log_line i m (lg_buf s) ;;
                Ret (mkLogging (lg_num s) b (lg_begun s) (<[k := (i, Lined)]> (lg_active s)) (lg_file s)))
      | Some (i, Lined), Some m =>
          Some (line <- log_written i (lg_buf s) ;;
                Ret (mkLogging (lg_num s) (lg_buf s) (lg_begun s) (delete k (lg_active s))
                       (lg_file s ++ [(k, line)])))
      | _, _ => None
      end
  end.

(** ** What the buffers hold *)
Definition log_chars (m : log_message) : Prop :=
  Forall (fun c => c <> 0) (lm_prefix m) /\ Forall (fun c => c <> 0) (lm_stamp m) /\
  Forall (fun c => c <> 0) (lm_text m).
Definition log_fits (m : log_message) : Prop := log_chars m /\ zlen (log_lineof m) < LOGBUF_LEN.
Definition slots_ok (b : logBuf) : Prop := length b = 16%nat /\ Forall (fun s => zlen s = 2 * LOGBUF_LEN) b.

Lemma zlen_lineof m : zlen (log_lineof m) = zlen (lm_prefix m) + zlen (lm_stamp m) + zlen (lm_text m) + 5.
Proof.
  unfold log_lineof, log_format. rewrite !zlen_app. change (zlen (bytes_of "(")) with 1.
  change (zlen (bytes_of "): ")) with 3. change (zlen [10]) with 1. lia.
Qed.
Lemma lineof_chars m : log_chars m -> Forall (fun c => c <> 0) (log_lineof m).
Proof.
  intros (Hp & Hs & Ht). unfold log_lineof, log_format. repeat (apply Forall_app; split); try done.
  all: by repeat constructor.
Qed.
Lemma slots_ok_lookup b i : slots_ok b -> 0 <= i < 16 -> exists s, b !! Z.to_nat i = Some s /\ zlen s = 2 * LOGBUF_LEN.
Proof.
  intros [Hl Hs] Hi. destruct (lookup_lt_is_Some_2 b (Z.to_nat i)) as [s E]; [lia|]. exists s. split; [done|].
  rewrite Forall_forall in Hs. apply Hs. by eapply list_elem_of_lookup_2.
Qed.
Lemma slots_ok_insert b i s : slots_ok b -> zlen s = 2 * LOGBUF_LEN -> slots_ok (<[i := s]> b).
Proof. intros [Hl Hs] Hz. split; [by rewrite length_insert|]. by apply Forall_insert. Qed.

Lemma log_text_spec i m b s :
  log_chars m -> zlen (lm_text m) < LOGBUF_LEN -> b !! Z.to_nat i = Some s -> zlen s = 2 * LOGBUF_LEN ->
  exists s', log_text i m b = Ret (<[Z.to_nat i := s']> b) /\ zlen s' = 2 * LOGBUF_LEN /\
    c_string (zdrop LOGBUF_LEN s') = Ret (lm_text m).
Proof.
  intros (_ & _ & Ht) Hl E Hz. unfold log_text, log_slot. rewrite E. cbn [obind].
  pose proof (zlen_nonneg (lm_text m)). assert (LOGBUF_LEN = 1024) as HL by done.
  assert (zlen (lm_text m ++ [0]) = zlen (lm_text m) + 1) as Hz1 by (by rewrite zlen_app).
  rewrite mem_write_ok by lia. cbn [obind]. eexists. split; [done|].
  split; [rewrite !zlen_app, zlen_take, zlen_drop; change (zlen [0]) with 1; lia|].
  rewrite zdrop_app_length by (rewrite zlen_take; lia). rewrite <- app_assoc. by apply c_string_app.
Qed.
Lemma log_line_spec i m b s :
  log_fits m -> b !! Z.to_nat i = Some s -> zlen s = 2 * LOGBUF_LEN -> c_string (zdrop LOGBUF_LEN s) = Ret (lm_text m) ->
  exists s', log_line i m b = Ret (<[Z.to_nat i := s']> b) /\ zlen s' = 2 * LOGBUF_LEN /\
    c_string s' = Ret (log_lineof m).
Proof.
  intros [Hc Hl] E Hz Ht. unfold log_line, log_slot. rewrite E. cbn [obind]. rewrite Ht. cbn [obind].
  fold (log_lineof m). destruct (Z.leb_spec (zlen (log_lineof m) + 1) LOGBUF_LEN); [|lia].
  assert (LOGBUF_LEN = 1024) as HL by done. pose proof (zlen_nonneg (log_lineof m)).
  assert (zlen (log_lineof m ++ [0]) = zlen (log_lineof m) + 1) as Hz1 by (by rewrite zlen_app).
  rewrite mem_write_ok by lia. cbn [obind]. eexists. split; [done|].
  split; [rewrite !zlen_app, zlen_take, zlen_drop; change (zlen [0]) with 1; lia|].
  rewrite (ztake_0 0) by lia. cbn [app]. rewrite <- app_assoc. by apply c_string_app, lineof_chars.
Qed.
(** A line that reaches the text it is made of, or a text that leaves the buffer. *)
Lemma log_too_long i m b s :
  log_chars m -> LOGBUF_LEN <= zlen (log_lineof m) -> b !! Z.to_nat i = Some s -> zlen s = 2 * LOGBUF_LEN ->
  (b <- log_text i m b ;; log_line i m b) = Undef.
Proof.
  intros Hc Hl E Hz. assert (LOGBUF_LEN = 1024) as HL by done.
  destruct (Z.lt_ge_cases (zlen (lm_text m)) LOGBUF_LEN) as [Ht|Ht].
  - destruct (log_text_spec i m b s Hc Ht E Hz) as (s' & -> & Hz' & Es). cbn [obind]. unfold log_line, log_slot.
    rewrite list_lookup_insert_eq by (by eapply lookup_lt_Some). cbn [obind]. rewrite Es. cbn [obind].
    fold (log_lineof m). destruct (Z.leb_spec (zlen (log_lineof m) + 1) LOGBUF_LEN); [lia|done].
  - unfold log_text, log_slot. rewrite E. cbn [obind]. unfold mem_write. rewrite zlen_app. change (zlen [0]) with 1.
    destruct (Z.leb_spec (LOGBUF_LEN + (zlen (lm_text m) + 1)) (zlen s)); [lia|done].
Qed.

Lemma getBuf_mod w : getBuf (s32 w) = (w mod 16, s32 (w + 1)).
Proof.
  unfold getBuf, lock_atomicInc. change (Z.shiftl 1 LOGBUF_LEVEL - 1) with (Z.ones 4).
  rewrite Z.land_ones by lia. change (2 ^ 4) with 16. rewrite s32_mod16, s32_s32_add. done.
Qed.

(** C21. One message of the log, when no other is being written. The line is the prefix, the
    time stamp and the text, and [doLog] appends exactly that line to the file and leaves
    the signal mask of the process, and the mask it blocks signals with, as they were, as
    long as the line has fewer than 1024 characters; a longer message makes [sprintf] write
    over its own argument or past its buffer. *)
Theorem doLog_line (m : log_message) (s : LogState) (n : Z) :
  log_chars m -> slots_ok (ls_logBuf s) -> ls_logNum s = s32 n ->
  if decide (zlen (log_lineof m) < LOGBUF_LEN) then
    exists b, doLog m s = Ret (mkLogState (ls_mask s) (ls_logMask s) (ls_mask s) (s32 (n + 1)) b
                                 (ls_file s ++ log_lineof m)) /\ slots_ok b
  else doLog m s = Undef.
Proof.
  intros Hc Hb Hn. unfold doLog. rewrite Hn, getBuf_mod.
  destruct (slots_ok_lookup (ls_logBuf s) (n mod 16) Hb) as (sl & E & Hz); [by apply Z.mod_pos_bound|].
  destruct (decide _) as [Hl|Hl].
  - destruct (log_text_spec (n mod 16) m (ls_logBuf s) sl Hc) as (s1 & -> & Hz1 & E1); [|done..|].
    { pose proof (zlen_lineof m). pose proof (zlen_nonneg (lm_prefix m)). pose proof (zlen_nonneg (lm_stamp m)). lia. }
    assert (Z.to_nat (n mod 16) < length (ls_logBuf s))%nat as Hlt by (by eapply lookup_lt_Some). cbn [obind].
    destruct (log_line_spec (n mod 16) m (<[Z.to_nat (n mod 16) := s1]> (ls_logBuf s)) s1) as (s2 & -> & Hz2 & E2);
      [done|by rewrite list_lookup_insert_eq|done..|]. cbn [obind]. unfold log_written, log_slot.
    rewrite list_lookup_insert_eq by (by rewrite length_insert). cbn [obind]. rewrite E2. cbn [obind].
    eexists. split; [done|]. apply slots_ok_insert; [by apply slots_ok_insert|done].
  - pose proof (log_too_long (n mod 16) m (ls_logBuf s) sl Hc ltac:(lia) E Hz) as Hu.
    destruct (log_text _ _ _) as [b| |]; [|done..]. cbn [obind] in *. by rewrite Hu.
Qed.

(** ** Lines stay intact while at most 16 messages overlap *)

(** A message may begin when the oldest one that is not written is at most 15 behind. *)
Definition log_allowed (a : log_action) (s : Logging) : Prop :=
  match a with
  | ABegin m => log_fits m /\ map_Forall (fun k _ => (length (lg_begun s) < k + 16)%nat) (lg_active s)
  | AStep _ => True
  end.
#[global] Instance log_fits_dec m : Decision (log_fits m).
Proof. unfold log_fits, log_chars. apply _. Defined.
#[global] Instance log_allowed_dec a s : Decision (log_allowed a s).
Proof. destruct a; cbn; apply _. Defined.
Definition log_next (s s' : Logging) : Prop := exists a, log_allowed a s /\ log_act a s = Some (Ret s').

Definition slot_holds (b : logBuf) (i : Z) (pc : log_pc) (m : log_message) : Prop :=
  exists s, b !! Z.to_nat i = Some s /\
    match pc with
    | Began => True
    | Texted => c_string (zdrop LOGBUF_LEN s) = Ret (lm_text m)
    | Lined => c_string s = Ret (log_lineof m)
    end.
Record log_inv (s : Logging) : Prop := {
  li_num : lg_num s = s32 (Z.of_nat (length (lg_begun s)));
  li_slots : slots_ok (lg_buf s);
  li_fits : Forall log_fits (lg_begun s);
  li_active : forall k i pc, lg_active s !! k = Some (i, pc) ->
    i = Z.of_nat k mod 16 /\ (length (lg_begun s) <= k + 16)%nat /\
    exists m, lg_begun s !! k = Some m /\ slot_holds (lg_buf s) i pc m;
  li_file : forall k l, (k, l) ∈ lg_file s -> exists m, lg_begun s !! k = Some m /\ l = log_lineof m;
  li_once : forall k, k ∈ (lg_file s).*1 <-> (k < length (lg_begun s))%nat /\ lg_active s !! k = None;
  li_nodup : NoDup (lg_file s).*1
}.

(** Messages of the same window have different buffers. *)
Lemma window_slots k k' n :
  (k < n <= k + 16)%nat -> (k' < n <= k' + 16)%nat -> Z.of_nat k mod 16 = Z.of_nat k' mod 16 -> k = k'.
Proof. intros. Z.to_euclidean_division_equations. lia. Qed.

Lemma log_inv_initial : log_inv Logging_initial.
Proof.
  split; cbn.
  - done.
  - split; [done|]. apply (Forall_replicate _ 16). apply zlen_replicate.
  - constructor.
  - intros k i pc. by rewrite lookup_empty.
  - by intros k l ?%elem_of_nil.
  - intros k. split; [by intros ?%elem_of_nil|lia].
  - constructor.
Qed.

Lemma log_begin_inv m s :
  log_inv s -> log_allowed (ABegin m) s -> exists s', log_act (ABegin m) s = Some (Ret s') /\ log_inv s'.
Proof.
  intros Hi [Hm Hw]. unfold log_act. rewrite (li_num s Hi), getBuf_mod. eexists. split; [done|].
  set (n := length (lg_begun s)). assert (lg_active s !! n = None) as Hn.
  { destruct (lg_active s !! n) as [[i pc]|] eqn:E; [|done].
    destruct (li_active s Hi n i pc E) as (_ & _ & m' & Hm' & _). apply lookup_lt_Some in Hm'. unfold n in Hm'. lia. }
  split; cbn; rewrite ?length_app; cbn [length]; fold n.
  - f_equal. lia.
  - apply Hi.
  - apply Forall_app. split; [apply Hi|by constructor].
  - intros k i pc. rewrite lookup_insert_Some. intros [[<- [= <- <-]]|[Hne E]].
    + split; [done|]. split; [lia|]. exists m. split; [by rewrite lookup_app_r, Nat.sub_diag by (unfold n; lia)|].
      destruct (slots_ok_lookup (lg_buf s) (Z.of_nat n mod 16) (li_slots s Hi)) as (sl & Es & _);
        [by apply Z.mod_pos_bound|]. by exists sl.
    + destruct (li_active s Hi k i pc E) as (Hk & Hle & m' & Hm' & Hs). specialize (Hw k _ E). cbn in Hw. fold n in Hw.
      split; [done|]. split; [lia|]. exists m'. split; [by apply lookup_app_l_Some|done].
  - intros k l Hl. destruct (li_file s Hi k l Hl) as (m' & Hm' & ->). exists m'. split; [by apply lookup_app_l_Some|done].
  - intros k. rewrite (li_once s Hi k), lookup_insert_None. fold n. split; [intros [? ?]; split; [lia|split; [done|lia]]|].
    intros (? & ? & ?). split; [lia|done].
  - apply Hi.
Qed.

(** A message fills its own buffer: the others keep theirs. *)
Lemma log_fill_inv s k i pc pc' m s' :
  log_inv s -> lg_active s !! k = Some (i, pc) -> lg_begun s !! k = Some m ->
  zlen s' = 2 * LOGBUF_LEN -> slot_holds (<[Z.to_nat i := s']> (lg_buf s)) i pc' m ->
  log_inv (mkLogging (lg_num s) (<[Z.to_nat i := s']> (lg_buf s)) (lg_begun s)
             (<[k := (i, pc')]> (lg_active s)) (lg_file s)).
Proof.
  intros Hi E Em Hz Hs. destruct (li_active s Hi k i pc E) as (Hk & Hle & _).
  assert (k < length (lg_begun s))%nat as Hlt by (by eapply lookup_lt_Some). split; cbn.
  - apply Hi.
  - apply slots_ok_insert; [apply Hi|done].
  - apply Hi.
  - intros k' i' p'. rewrite lookup_insert_Some. intros [[<- [= <- <-]]|[Hne E']].
    + split; [done|]. split; [done|]. by exists m.
    + destruct (li_active s Hi k' i' p' E') as (Hk' & Hle' & m' & Hm' & sl & Esl & Hh).
      split; [done|]. split; [done|]. exists m'. split; [done|]. exists sl. split; [|done].
      rewrite list_lookup_insert_ne; [done|]. intros Heq. apply Hne.
      assert (k' < length (lg_begun s))%nat by (by eapply lookup_lt_Some).
      pose proof (Z.mod_pos_bound (Z.of_nat k) 16 ltac:(done)). pose proof (Z.mod_pos_bound (Z.of_nat k') 16 ltac:(done)).
      eapply (window_slots k k' (length (lg_begun s))); lia.
  - apply Hi.
  - intros j. rewrite (li_once s Hi j), lookup_insert_None. split; [|naive_solver].
    intros [? Hj]. split; [done|]. split; [done|]. intros ->. congruence.
  - apply Hi.
Qed.

Lemma log_step_inv k s :
  log_inv s -> is_Some (lg_active s !! k) -> exists s', log_act (AStep k) s = Some (Ret s') /\ log_inv s'.
Proof.
  intros Hi [[i pc] E]. destruct (li_active s Hi k i pc E) as (Hk & Hle & m & Em & sl & Esl & Hh).
  assert (log_fits m) as Hm by (eapply Forall_lookup_1; [apply Hi|done]).
  assert (zlen sl = 2 * LOGBUF_LEN) as Hz by (eapply (Forall_lookup_1 (fun s => zlen s = 2 * LOGBUF_LEN)); [apply Hi|done]).
  assert (Z.to_nat i < length (lg_buf s))%nat as Hlt by (by eapply lookup_lt_Some).
  unfold log_act. rewrite E, Em. destruct pc.
  - destruct (log_text_spec i m (lg_buf s) sl) as (s' & Et & Hz' & Hc); [apply Hm| |done..|].
    { destruct Hm as [_ Hm]. pose proof (zlen_lineof m). pose proof (zlen_nonneg (lm_prefix m)).
      pose proof (zlen_nonneg (lm_stamp m)). lia. }
    rewrite Et. cbn [obind]. eexists. split; [done|]. eapply (log_fill_inv s k i Began Texted); try done.
    exists s'. split; [by rewrite list_lookup_insert_eq|done].
  - destruct (log_line_spec i m (lg_buf s) sl) as (s' & Et & Hz' & Hc); [done..|].
    rewrite Et. cbn [obind]. eexists. split; [done|]. eapply (log_fill_inv s k i Texted Lined); try done.
    exists s'. split; [by rewrite list_lookup_insert_eq|done].
  - unfold log_written, log_slot. rewrite Esl. cbn [obind]. rewrite Hh. cbn [obind]. eexists. split; [done|].
    assert (k < length (lg_begun s))%nat as Hlk by (by eapply lookup_lt_Some). split; cbn; try apply Hi.
    + intros k' i' p'. rewrite lookup_delete_Some. intros [_ E']. by apply (li_active s Hi).
    + intros k' l. rewrite elem_of_app, list_elem_of_singleton. intros [Hl|[= -> ->]]; [by apply (li_file s Hi)|by exists m].
    + intros j. rewrite fmap_app, elem_of_app, (li_once s Hi j), lookup_delete_None. cbn. rewrite list_elem_of_singleton.
      split; [intros [[? ?]|?]; subst; auto|]. intros [Hj [->|Hj']]; auto.
    + rewrite fmap_app. apply NoDup_app. split; [apply Hi|]. split; [|apply NoDup_singleton].
      intros j Hj. cbn. rewrite list_elem_of_singleton. intros ->. apply (li_once s Hi) in Hj as [_ Hj]. congruence.
Qed.

Lemma log_reachable_inv s s' : log_inv s -> rtc log_next s s' -> log_inv s'.
Proof.
  intros Hi Hr. induction Hr as [|s1 s2 s3 (a & Ha & E) _ IH]; [done|]. apply IH. destruct a as [m|k].
  - destruct (log_begin_inv m s1 Hi Ha) as (s' & E' & Hi'). rewrite E in E'. by injection E' as <-.
  - destruct (lg_active s1 !! k) as [v|] eqn:Ek; [|unfold log_act in E; by rewrite Ek in E].
    destruct (log_step_inv k s1 Hi) as (s' & E' & Hi'); [by eexists|]. rewrite E in E'. by injection E' as <-.
Qed.

(** C17. Threads that log without a lock. As long as no message begins while one that began
    16 messages earlier is still being written, and every line has its 1023 characters,
    whatever the interleaving of the threads: every line in the file is the line of the
    message that wrote it, whole and not mixed with another; every message that has begun
    is in the file exactly once or still being written; and the next step of a message that
    is being written is always possible and well defined. *)
Theorem log_lines_intact (s : Logging) :
  rtc log_next Logging_initial s ->
  (forall k l, (k, l) ∈ lg_file s -> exists m, lg_begun s !! k = Some m /\ l = log_lineof m) /\
  NoDup (lg_file s).*1 /\
  (forall k, (k < length (lg_begun s))%nat -> k ∈ (lg_file s).*1 \/ is_Some (lg_active s !! k)) /\
  (forall k, is_Some (lg_active s !! k) -> exists s', log_act (AStep k) s = Some (Ret s')).
Proof.
  intros Hr. pose proof (log_reachable_inv _ _ log_inv_initial Hr) as Hi.
  split; [apply Hi|]. split; [apply Hi|]. split.
  - intros k Hk. destruct (lg_active s !! k) as [v|] eqn:E; [by right; eexists|]. left. by apply (li_once s Hi).
  - intros k Hk. destruct (log_step_inv k s Hi Hk) as (s' & E & _). by exists s'.
Qed.

(** Runs that can be evaluated; [free] drops the condition on the beginning of a message. *)
Fixpoint log_run (free : bool) (l : list log_action) (s : Logging) : option Logging :=
  match l with
  | [] => Some s
  | a :: l =>
      if free || bool_decide (log_allowed a s) then
        match log_act a s with Some (Ret s) => log_run free l s | _ => None end
      else None
  end.
Lemma log_run_next l s s' : log_run false l s = Some s' -> rtc log_next s s'.
Proof.
  revert s. induction l as [|a l IH]; intros s; cbn [log_run orb]; [by intros [= <-]|].
  destruct (bool_decide_reflect (log_allowed a s)) as [Ha|]; [|done].
  destruct (log_act a s) as [[s1| |]|] eqn:E; try done. intros Hl. eapply rtc_l; [by exists a|by apply IH].
Qed.
Definition log_example (text : string) : log_message :=
  mkLogMessage (bytes_of "[ Message ]") (bytes_of "      0.000123") (bytes_of text).

(** Two threads; the second overtakes the first. *)
Definition log_overtaking : list log_action :=
  [ABegin (log_example "one"); AStep 0; ABegin (log_example "two"); AStep 1; AStep 1; AStep 1; AStep 0; AStep 0].
Lemma log_lines_intact_witness :
  exists s, log_run false log_overtaking Logging_initial = Some s /\
    lg_file s = [(1%nat, bytes_of "[ Message ](      0.000123): two" ++ [10]);
                 (0%nat, bytes_of "[ Message ](      0.000123): one" ++ [10])] /\
    NoDup (lg_file s).*1.
Proof.
  destruct (log_run false log_overtaking Logging_initial) as [s|] eqn:E; [|by vm_compute in E].
  destruct (log_lines_intact s (log_run_next _ _ _ E)) as (_ & Hn & _).
  exists s. split; [done|]. split; [|exact Hn].
  change s with (default s (Some s)). rewrite <- E. vm_compute. reflexivity.
Defined.

(** Sixteen are the most that can overlap. A thread that is stopped between its two calls
    of [sprintf], while another one logs 16 messages, prints the text of the last of them
    under its own time stamp. *)
Definition log_stopped : list log_action :=
  [ABegin (log_example "mine"); AStep 0] ++
  mjoin ((fun k => [ABegin (log_example "theirs"); AStep k; AStep k; AStep k]) <$> seq 1 16) ++
  [AStep 0; AStep 0].
Example log_torn :
  match log_run true log_stopped Logging_initial with
  | Some s =>
      lg_begun s !! 0%nat = Some (log_example "mine") /\
      last (lg_file s) = Some (0%nat, log_lineof (log_example "theirs"))
  | None => False
  end.
Proof. vm_compute. done. Qed.

(** A message of the length that the controller accepts from a client does not fit: the
    line that reports it is built over its own argument. *)
Definition log_long : log_message :=
  mkLogMessage (bytes_of "[ Message ]") (bytes_of "      0.000123")
    (bytes_of "Reconfiguring, control message is " ++ [34] ++ replicate 960 65 ++ [34; 46]).
Example doLog_overflows :
  doLog log_long (mkLogState ∅ ∅ ∅ 0 logBuf_initial []) = Undef.
Proof. vm_compute. done. Qed.
Lemma doLog_line_witness :
  exists b, doLog (log_example "one") (mkLogState ∅ ∅ ∅ 2147483647 logBuf_initial [])
    = Ret (mkLogState ∅ ∅ ∅ (-2147483648) b (bytes_of "[ Message ](      0.000123): one" ++ [10])).
Proof.
  pose proof (doLog_line (log_example "one") (mkLogState ∅ ∅ ∅ 2147483647 logBuf_initial []) 2147483647) as H.
  destruct H as (b & E & _).
  - by repeat constructor.
  - split; [done|]. apply (Forall_replicate _ 16). apply zlen_replicate.
  - done.
  - exists b. exact E.
Defined.
