(* ===== verification/MperfUdp.v ===== *)
(** src/3rd/mperf/src/udpsender.c and udpreceiver.c: datagrams with a sequence number and
    their echo. The two threads of the sender are programs over the variables
    of the file, a turn of their loops at a time; [MperfUdpThreads] interleaves them. What [inet_aton] and the resolver answer are
    arguments; addresses are only printed by the log and left out there. *)

From Stdlib Require Import Ascii.
From stdpp Require Import base list numbers strings.
From S2P Require Import Prelude Endian SocketAddress Posix CText GetOpt MperfUtil MperfNet.
From S2P Require Import MperfTransfer MperfControl MperfOptions.

Open Scope Z_scope.
Open Scope io_scope.

(** ** Datagrams *)
Class Udp (W : Type) `{Posix W} := {
  (** [recvfrom]: the result, the data stored, the address stored *)
  sys_recvfrom : Z -> Z -> W -> Z * list Z * list Z * W;
  sys_sendto : Z -> list Z -> list Z -> W -> Z * W;
  (** [select] for one descriptor to write: the result, and the time that is left *)
  sys_select : Z -> Z * Z -> W -> Z * (Z * Z) * W
}.

Section udp_calls.
Context {W : Type} `{Udp W}.
Definition recvfrom (fd n : Z) : io W (Z * list Z * list Z) := fun w =>
  let '(r, d, a, w) := sys_recvfrom fd n w in (Done (r, d, a), w).
Definition sendto (fd : Z) (d addr : list Z) : io W Z := fun w =>
  let '(r, w) := sys_sendto fd d addr w in (Done r, w).
Definition select (fd : Z) (timeout : Z * Z) : io W (Z * (Z * Z)) := fun w =>
  let '(r, t, w) := sys_select fd timeout w in (Done (r, t), w).
End udp_calls.

Definition MAX_ATTEMPT : nat := 20.

(** *** udpsender.c: the options *)
Record SenderOptions : Type := mkSenderOptions {
  so_port : Z;
  so_path : option (list Z);
  so_localIP : option (list Z);
  so_serverIP : option (list Z);
  so_interval : Z * Z;            (* seconds and microseconds *)
  so_toSend : Z;
  so_size : Z;
  so_waitLen : Z
}.
Definition SenderOptions_initial : SenderOptions := mkSenderOptions 0 None None None (0, -1) (-1) 1 (-1).

Section sender.
Context {W : Type} `{Udp W}.
Context (resolve : list Z -> Z -> Z -> list Z) (inet_aton : list Z -> option (list Z)).

Definition sender_option (r : opt_result) (v : SenderOptions * Log) : io W (SenderOptions * Log) :=
  let '(o, l) := v in
  let 'mkSenderOptions port path localIP serverIP interval toSend size waitLen := o in
  if op_c r =? ch "B" then
    s <- opt_string r ;; io_ret (mkSenderOptions port path (Some s) serverIP interval toSend size waitLen, l)
  else if op_c r =? ch "c" then
    s <- opt_string r ;; io_ret (mkSenderOptions port path localIP (Some s) interval toSend size waitLen, l)
  else if op_c r =? ch "h" then printUsageAndExit
  else if op_c r =? ch "i" then
    n <- opt_int r ;;
    io_ret (mkSenderOptions port path localIP serverIP (interval.1, n) toSend size waitLen, l)
  else if op_c r =? ch "l" then
    s <- opt_string r ;; io_ret (mkSenderOptions port (Some s) localIP serverIP interval toSend size waitLen, l)
  else if op_c r =? ch "n" then
    n <- opt_int r ;; io_ret (mkSenderOptions port path localIP serverIP interval n size waitLen, l)
  else if op_c r =? ch "p" then
    n <- opt_int r ;; io_ret (mkSenderOptions (u16 n) path localIP serverIP interval toSend size waitLen, l)
  else if op_c r =? ch "s" then
    n <- opt_int r ;; io_ret (mkSenderOptions port path localIP serverIP interval toSend n waitLen, l)
  else if op_c r =? ch "t" then
    n <- opt_int r ;; io_ret (mkSenderOptions port path localIP serverIP interval toSend size n, l)
  else if op_c r =? ch "v" then printVersionAndExit
  else if op_c r =? ch "V" then l <- verbose_option r l ;; io_ret (o, l)
  else unexpected_option r.

(** The interval is split into seconds and microseconds; a size that is not between 2 and
    2048 is 1. *)
Definition sender_defaults (o : SenderOptions) : SenderOptions :=
  let usec := if (so_interval o).2 <? 0 then 10000 else (so_interval o).2 in
  let sec := Z.quot usec 1000000 in
  let size := if (so_size o <? 2) || (2048 <? so_size o) then 1 else so_size o in
  mkSenderOptions (so_port o) (so_path o) (so_localIP o) (so_serverIP o)
    (sec, usec - sec * 1000000) (so_toSend o) size (so_waitLen o).

Definition sender_parseArguments (args : list (list Z)) (l : Log) : io W (SenderOptions * Log) :=
  let* (o, l) := getopt_all (opts "s:B:c:p:i:l:n:vV::ht:") sender_option args (SenderOptions_initial, l) in
  let o := sender_defaults o in
  if bool_decide (so_serverIP o = None) then logFatal "No server IP specified." []
  else if so_port o =? 0 then logFatal "No legal port number specified." []
  else l <- redirect_to (so_path o) l ;; io_ret (o, l).

(** *** The connection: [connfd] and [serverInfo] *)
Context (o : SenderOptions).

(** The loop of [initConnection]: no value when all attempts have failed. *)
Fixpoint sender_attempts (n : nat) (attempt : Z) : io W (option (Z * list Z)) :=
  match n with
  | O => io_ret None
  | S n =>
      connfd <- netdial resolve AF_INET SOCK_DGRAM (so_localIP o) 0 (default [] (so_serverIP o)) (so_port o) ;;
      if connfd <? 0 then
        logError "initConnection failure #%d(%s): Can't create socket!" [attempt] ;;;
        sender_attempts n (attempt + 1)
      else
        match inet_aton (default [] (so_serverIP o)) with
        | None =>
            logError "initConnection failure #%d(%s): inet_aton failed!" [attempt] ;;;
            sender_attempts n (attempt + 1)
        | Some ip =>
            logMessage "Socket initialized." [] ;;; io_ret (Some (connfd, sockaddr_in ip (so_port o)))
        end
  end.
Definition sender_initConnection (connfd : Z) : io W (Z * list Z) :=
  _ <- syscall (CClose connfd) ;;
  r <- sender_attempts MAX_ATTEMPT 1 ;;
  match r with
  | Some c => io_ret c
  | None => logFatal "%d attempts in initConnection, exit." [Z.of_nat MAX_ATTEMPT]
  end.

(** *** The threads

    A failed call is tried again on a new connection, at most [MAX_ATTEMPT] times in a
    row; the lock [doingInit] is only set and released. [recvfrom] stores the address of
    the peer in [serverInfo], where the next packet is sent. *)
Record RecvThread : Type := mkRecvThread {
  rv_attempt : Z;
  rv_recvBuf : list Z;
  rv_received : Z
}.
Record SendThread : Type := mkSendThread {
  sd_attempt : Z;
  sd_sendBuf : list Z;
  sd_sent : Z
}.

(** One turn of the loop of [do_receive]: whether the loop goes on, [connfd] and
    [serverInfo], which the threads share, and the variables of the thread. *)
Definition receive_turn (conn : Z * list Z) (t : RecvThread) : io W (bool * (Z * list Z) * RecvThread) :=
  let 'mkRecvThread attempt recvBuf received := t in
  if received =? so_toSend o then io_ret (false, conn, t)
  else
    let* (r, d, addr) := recvfrom conn.1 (8 * so_size o) in
    if r =? -1 then
      logError "I/O failure #%d: Socket broken when receving(%s)." [attempt] ;;;
      if Z.of_nat MAX_ATTEMPT <? attempt + 1 then logFatal "%d attempts in I/O, exit." [Z.of_nat MAX_ATTEMPT]
      else
        conn <- sender_initConnection conn.1 ;;
        io_ret (true, conn, mkRecvThread (attempt + 1) recvBuf received)
    else
      recvBuf <- io_mem (mem_write recvBuf 0 d) ;;
      b <- io_mem (mem_read recvBuf 0 8) ;;
      received <- io_mem (s64 (received + 1)) ;;
      logMessage "Packet #%ld received(total %ld)." [ssize (le_val b); received] ;;;
      io_ret (true, (conn.1, addr), mkRecvThread 1 recvBuf received).

Fixpoint do_receive (fuel : nat) (conn : Z * list Z) (t : RecvThread) : io W (Z * (Z * list Z)) :=
  match fuel with
  | O => io_nofuel
  | S fuel =>
      let* (go, conn, t) := receive_turn conn t in
      if go : bool then do_receive fuel conn t else io_ret (rv_received t, conn)
  end.

(** The end of a turn of [do_send], when the packet has been dealt with. *)
Definition send_pause (temp : Z * Z) : io W unit :=
  _ <- syscall (CNanosleep temp.1 (1000 * temp.2)) ;; io_ret tt.
(** One turn of the loop of [do_send]. *)
Definition send_turn (conn : Z * list Z) (t : SendThread) : io W (bool * (Z * list Z) * SendThread) :=
  let 'mkSendThread attempt sendBuf sent := t in
  let finish sendBuf sent temp attempt :=
    logMessage "Packet #%ld sent." [sent] ;;;
    if sent =? so_toSend o then io_ret (false, conn, mkSendThread attempt sendBuf sent)
    else send_pause temp ;;; io_ret (true, conn, mkSendThread 1 sendBuf sent) in
  let* (ret, temp) := select conn.1 (so_interval o) in
  if ret <? 0 then
    logError "I/O failure #%d: Error when waiting for sending(%s)." [attempt] ;;;
    if Z.of_nat MAX_ATTEMPT <? attempt + 1 then logFatal "%d attempts in I/O, exit." [attempt + 1]
    else io_ret (true, conn, mkSendThread (attempt + 1) sendBuf sent)
  else if 0 <? ret then
    sent <- io_mem (s64 (sent + 1)) ;;
    sendBuf <- io_mem (mem_write sendBuf 0 (le_bytes 8 (u64 sent))) ;;
    d <- io_mem (mem_read sendBuf 0 (8 * so_size o)) ;;
    rv <- sendto conn.1 d conn.2 ;;
    if rv =? -1 then
      logError "I/O failure #%d: Socket broken when sending(%s)." [attempt] ;;;
      if Z.of_nat MAX_ATTEMPT <? attempt + 1 then logFatal "%d attempts in I/O, exit." [Z.of_nat MAX_ATTEMPT]
      else
        conn <- sender_initConnection conn.1 ;;
        io_ret (true, conn, mkSendThread (attempt + 1) sendBuf sent)
    else finish sendBuf sent temp attempt
  else
    logWarning "I/O attempt #%d: fd not writable after %ldms."
      [attempt; (so_interval o).1 * 1000 + Z.quot (so_interval o).2 1000] ;;;
    if Z.of_nat MAX_ATTEMPT <? attempt + 1 then logFatal "%d attempts in I/O, exit." [Z.of_nat MAX_ATTEMPT]
    else finish sendBuf sent temp (attempt + 1).

(** After the loop: the alarm that ends the program. *)
Definition send_done (verbose : Z) : io W unit :=
  if 0 <? so_waitLen o then _ <- alarmWithLog verbose (so_waitLen o) ;; io_ret tt else io_ret tt.

Fixpoint do_send (verbose : Z) (fuel : nat) (conn : Z * list Z) (t : SendThread) : io W Z :=
  match fuel with
  | O => io_nofuel
  | S fuel =>
      let* (go, conn, t) := send_turn conn t in
      if go : bool then do_send verbose fuel conn t else send_done verbose ;;; io_ret (sd_sent t)
  end.

(** The handler of the alarm that [do_send] sets. *)
Definition sender_sigalrmHandler : io W unit :=
  logWarning "Timeout after %d second(s), exit." [so_waitLen o] ;;; io_exit 0.
End sender.

Section main.
Context {W : Type} `{Udp W}.
Context (resolve : list Z -> Z -> Z -> list Z) (inet_aton : list Z -> option (list Z)).

(** [main] of the sender up to the creation of its threads; [connfd] is 0 before. *)
Definition sender_setup (argv : list (list Z)) : io W (SenderOptions * Log * (Z * list Z)) :=
  if zlen argv =? 1 then printUsageAndExit
  else
    initLog ;;;
    let* (o, l) := sender_parseArguments (drop 1 argv) Log_initial in
    printInitLog ;;;
    conn <- sender_initConnection resolve inet_aton o 0 ;;
    signalNoRestart SIGALRM ;;;
    io_ret (o, l, conn).

(** *** udpreceiver.c *)
Record ReceiverOptions : Type := mkReceiverOptions {
  ro_localIP : option (list Z);
  ro_port : Z;
  ro_path : option (list Z)
}.
Definition ReceiverOptions_initial : ReceiverOptions := mkReceiverOptions None 0 None.

Definition receiver_option (r : opt_result) (v : ReceiverOptions * Log) : io W (ReceiverOptions * Log) :=
  let '(o, l) := v in
  let 'mkReceiverOptions localIP port path := o in
  if op_c r =? ch "B" then s <- opt_string r ;; io_ret (mkReceiverOptions (Some s) port path, l)
  else if op_c r =? ch "h" then printUsageAndExit
  else if op_c r =? ch "p" then n <- opt_int r ;; io_ret (mkReceiverOptions localIP n path, l)
  else if op_c r =? ch "l" then s <- opt_string r ;; io_ret (mkReceiverOptions localIP port (Some s), l)
  else if op_c r =? ch "v" then printVersionAndExit
  else if op_c r =? ch "V" then l <- verbose_option r l ;; io_ret (o, l)
  else unexpected_option r.
Definition receiver_parseArguments (args : list (list Z)) (l : Log) : io W (ReceiverOptions * Log) :=
  let* (o, l) := getopt_all (opts "B:p:vV::l:h") receiver_option args (ReceiverOptions_initial, l) in
  if ro_port o =? 0 then logFatal "No legal port number specified.\n" []
  else l <- redirect_to (ro_path o) l ;; io_ret (o, l).

(** [initConnection]: a socket that cannot be bound is left open. *)
Fixpoint receiver_attempts (o : ReceiverOptions) (n : nat) (attempt : Z) : io W (option Z) :=
  match n with
  | O => io_ret None
  | S n =>
      connfd <- syscall (CSocket AF_INET SOCK_DGRAM IPPROTO_UDP) ;;
      if connfd =? -1 then
        logError "Attempt #%d failed(%s): Can't create socket!" [attempt] ;;;
        receiver_attempts o n (attempt + 1)
      else
        ip <- (match ro_localIP o with
               | None => io_ret (replicate 4 0)
               | Some a => match inet_aton a with
                           | Some ip => io_ret ip
                           | None => logFatal "Invalid server IP!" []
                           end
               end) ;;
        rv <- syscall (CBind connfd (sockaddr_in ip (u16 (ro_port o)))) ;;
        if rv =? -1 then
          logError "Attempt %d failed(%s): Can't bind to port!" [attempt] ;;;
          receiver_attempts o n (attempt + 1)
        else logMessage "Listening on %s:%d..." [ro_port o] ;;; io_ret (Some connfd)
  end.
Definition receiver_initConnection (o : ReceiverOptions) (connfd : Z) : io W Z :=
  _ <- syscall (CClose connfd) ;;
  r <- receiver_attempts o MAX_ATTEMPT 1 ;;
  match r with
  | Some fd => io_ret fd
  | None => logFatal "%d fails in initConnection, exit." [Z.of_nat MAX_ATTEMPT + 1]
  end.

(** One round of the main loop. *)
Record Receiver : Type := mkReceiver {
  rc_reinit : bool;
  rc_connfd : Z;
  rc_buf : list Z;        (* [recvBuf], 65536 bytes *)
  rc_received : Z;
  rc_sent : Z
}.
Definition receiver_round (o : ReceiverOptions) (s : Receiver) : io W Receiver :=
  connfd <- (if rc_reinit s then receiver_initConnection o (rc_connfd s) else io_ret (rc_connfd s)) ;;
  let* (size, d, addr) := recvfrom connfd 65536 in
  if size =? -1 then
    logError "Socket broken when receiving(%s), trying to restart..." [] ;;;
    io_ret (mkReceiver true connfd (rc_buf s) (rc_received s) (rc_sent s))
  else
    buf <- io_mem (mem_write (rc_buf s) 0 d) ;;
    b <- io_mem (mem_read buf 0 8) ;;
    received <- io_mem (s64 (rc_received s + 1)) ;;
    logMessage "Packet #%ld received from %s:%d(total %ld)" [ssize (le_val b); received] ;;;
    m <- io_mem (mem_read buf 0 size) ;;
    rv <- sendto connfd m addr ;;
    if rv =? -1 then
      logError "Socket broken when sending(%s), trying to restart..." [] ;;;
      io_ret (mkReceiver true connfd buf received (rc_sent s))
    else
      sent <- io_mem (s64 (rc_sent s + 1)) ;;
      logMessage "Packet #%ld sent to %s:%d(total %ld)" [ssize (le_val b); sent] ;;;
      io_ret (mkReceiver false connfd buf received sent).
(** [while (1)], for a number of rounds. *)
Fixpoint receiver_rounds (n : nat) (o : ReceiverOptions) (s : Receiver) : io W Receiver :=
  match n with
  | O => io_ret s
  | S n => s <- receiver_round o s ;; receiver_rounds n o s
  end.
Definition receiver_main (n : nat) (argv : list (list Z)) (recvBuf : list Z) : io W Receiver :=
  if zlen argv =? 1 then printUsageAndExit
  else
    initLog ;;;
    let* (o, l) := receiver_parseArguments (drop 1 argv) Log_initial in
    printInitLog ;;;
    receiver_rounds n o (mkReceiver true 0 recvBuf 0 0).
End main.

(** ** What the sender accepts *)
Definition sender_typed (o : SenderOptions) : Prop :=
  in_u16 (so_port o) /\ in_int (so_interval o).2 /\ in_int (so_toSend o) /\ in_int (so_size o) /\
  in_int (so_waitLen o).

Section sender_types.
Context {W : Type} `{Udp W}.

Lemma sender_option_typed r v (w : W) v' w' :
  sender_typed v.1 -> sender_option r v w = (Done v', w') -> sender_typed v'.1.
Proof.
  destruct v as [[] l]. unfold sender_option, sender_typed. cbn. intros Ht.
  repeat match goal with |- context [if ?b then _ else _] => destruct b end; intros E;
    try (apply bind_Done_inv in E as (n & w1 & En & [= <- <-]);
         try apply opt_int_Done in En; cbn; pose proof (u16_range n); tauto);
    try (apply bind_Done_inv in E as (n & w1 & En & [= <- <-]); cbn; tauto);
    try done.
Qed.

(** C40. What the command line of the UDP sender leads to, if it is accepted: a port that is
    not zero, of 16 bits, a server, packets of 1 to 2048 numbers of eight bytes, which fit
    a datagram and the buffer of the receiver, and an interval that is a proper [timeval]:
    not negative, with less than a million microseconds. *)
Theorem sender_options_typed args l (w : W) o l' w' :
  sender_parseArguments args l w = (Done (o, l'), w') ->
  sender_typed o /\ so_port o <> 0 /\ is_Some (so_serverIP o) /\
  1 <= so_size o <= 2048 /\ 8 * so_size o <= 65536 /\
  0 <= (so_interval o).1 /\ 0 <= (so_interval o).2 < 1000000.
Proof.
  unfold sender_parseArguments. intros ([o0 l0] & w1 & E1 & E)%bind_Done_inv.
  apply (getopt_loop_inv _ _ (fun v => sender_typed v.1)) in E1 as Ht;
    [|intros; by eapply sender_option_typed|by unfold sender_typed, in_int, in_u16; cbn; auto 10 with lia].
  cbn [fst] in Ht. clear E1. revert E. case_bool_decide as Hs; [done|].
  destruct (Z.eqb_spec (so_port (sender_defaults o0)) 0) as [|Hp]; [done|].
  intros (l1 & w2 & _ & [= <- <- <-])%bind_Done_inv.
  destruct o0 as [port path localIP serverIP [isec iusec] toSend size waitLen].
  unfold sender_defaults, sender_typed in *. cbn in *. destruct Ht as (? & Hi & ? & ? & ?).
  set (usec := if iusec <? 0 then 10000 else iusec). 
  assert (0 <= usec <= 2147483647) as Hu by (unfold usec, in_int in *; destruct (Z.ltb_spec iusec 0); lia).
  set (size' := if (size <? 2) || (2048 <? size) then 1 else size).
  assert (1 <= size' <= 2048) as Hsz.
  { unfold size'. destruct (Z.ltb_spec size 2), (Z.ltb_spec 2048 size); cbn; lia. }
  rewrite Z.quot_div_nonneg by lia. pose proof (Z.div_mod usec 1000000 ltac:(done)).
  pose proof (Z.mod_pos_bound usec 1000000 ltac:(done)).
  pose proof (Z.div_pos usec 1000000 ltac:(lia) ltac:(lia)).
  unfold in_int in *. split_and!; try done; try lia. by destruct serverIP; [eexists|].
Qed.
End sender_types.

(** ** What a network of datagrams promises

    Datagrams arrive in the order of [dg_in], with the address of their sender, and leave in
    the order of [dg_out]; the socket is always writable. *)
Definition datagram : Type := list Z * list Z.
Class Datagrams (W : Type) `{Udp W} := {
  dg_ok : W -> Prop;
  dg_in : W -> list datagram;
  dg_out : W -> list datagram;
  dg_print : forall m w, dg_ok w ->
    dg_ok (sys_print m w) /\ dg_in (sys_print m w) = dg_in w /\ dg_out (sys_print m w) = dg_out w;
  dg_call : forall c w, dg_ok w ->
    let '(r, w') := sys_call c w in dg_ok w' /\ dg_in w' = dg_in w /\ dg_out w' = dg_out w;
  dg_select : forall fd t w, dg_ok w ->
    let '(r, _, w') := sys_select fd t w in
    0 < r /\ dg_ok w' /\ dg_in w' = dg_in w /\ dg_out w' = dg_out w;
  dg_recv : forall fd n d a l w, 0 <= n -> dg_ok w -> dg_in w = (d, a) :: l ->
    exists w', sys_recvfrom fd n w = (zlen (ztake n d), ztake n d, a, w') /\
      dg_ok w' /\ dg_in w' = l /\ dg_out w' = dg_out w;
  dg_send : forall fd d a w, dg_ok w ->
    exists w', sys_sendto fd d a w = (zlen d, w') /\
      dg_ok w' /\ dg_in w' = dg_in w /\ dg_out w' = dg_out w ++ [(d, a)]
}.

Section udp_run.
Context {W A : Type} `{Udp W}.
Lemma bind_recvfrom (k : Z * list Z * list Z -> io W A) fd n w r d a w' :
  sys_recvfrom fd n w = (r, d, a, w') -> io_bind (recvfrom fd n) k w = k (r, d, a) w'.
Proof. intros E. unfold io_bind, recvfrom. by rewrite E. Qed.
Lemma bind_sendto (k : Z -> io W A) fd d a w r w' :
  sys_sendto fd d a w = (r, w') -> io_bind (sendto fd d a) k w = k r w'.
Proof. intros E. unfold io_bind, sendto. by rewrite E. Qed.
Lemma bind_select (k : Z * (Z * Z) -> io W A) fd t w r t' w' :
  sys_select fd t w = (r, t', w') -> io_bind (select fd t) k w = k (r, t') w'.
Proof. intros E. unfold io_bind, select. by rewrite E. Qed.
End udp_run.

(** Worlds between which no datagram has moved. *)
Definition dg_same {W} `{Datagrams W} (w w' : W) : Prop :=
  dg_ok w' /\ dg_in w' = dg_in w /\ dg_out w' = dg_out w.
Lemma message_same {W} `{Datagrams W} {B} f args (k : unit -> io W B) w :
  dg_ok w -> exists w', io_bind (logMessage f args) k w = k tt w' /\ dg_same w w'.
Proof. intros Hok. eexists. split; [done|]. by apply dg_print. Qed.
Lemma call_same {W} `{Datagrams W} {B} c (k : Z -> io W B) w :
  dg_ok w -> exists r w', io_bind (syscall c) k w = k r w' /\ dg_same w w'.
Proof.
  intros Hok. pose proof (dg_call c w Hok) as Hc. destruct (sys_call c w) as [r w'] eqn:E.
  exists r, w'. by rewrite (bind_call _ _ _ _ _ E).
Qed.
(** [run_dg] executes a message or a call at the head of the program. *)
Ltac run_dg :=
  let E := fresh "E" in let Hok1 := fresh "Hok" in let Hi := fresh "Hi" in let Ho := fresh "Ho" in
  let w1 := fresh "w" in let r := fresh "r" in
  match goal with
  | Hok : dg_ok ?w |- context [io_bind (logMessage ?f ?args) ?k ?w] =>
      destruct (message_same f args k w Hok) as (w1 & E & Hok1 & Hi & Ho); rewrite E; clear E
  | Hok : dg_ok ?w |- context [io_bind (syscall ?c) ?k ?w] =>
      destruct (call_same c k w Hok) as (r & w1 & E & Hok1 & Hi & Ho); rewrite E; clear E
  end.

Section echo.
Context {W : Type} `{Datagrams W}.
Context (inet_aton : list Z -> option (list Z)).

Lemma receiver_round_echoes o s d a l w :
  dg_ok w -> dg_in w = (d, a) :: l -> rc_reinit s = false -> zlen (rc_buf s) = 65536 -> zlen d <= 65536 ->
  in_s64 (rc_received s + 1) -> in_s64 (rc_sent s + 1) ->
  exists s' w', receiver_round inet_aton o s w = (Done s', w') /\
    dg_ok w' /\ dg_in w' = l /\ dg_out w' = dg_out w ++ [(d, a)] /\
    rc_reinit s' = false /\ zlen (rc_buf s') = 65536 /\
    rc_received s' = rc_received s + 1 /\ rc_sent s' = rc_sent s + 1.
Proof.
  intros Hok Hin Hri Hb Hd Hr Hs. unfold receiver_round. rewrite Hri, bind_ret. pose proof (zlen_nonneg d).
  destruct (dg_recv (rc_connfd s) 65536 d a l w ltac:(done) Hok Hin) as (w1 & E1 & Hok1 & Hi1 & Ho1).
  rewrite (bind_recvfrom _ _ _ _ _ _ _ _ E1). cbn match. rewrite ztake_all by done.
  destruct (Z.eqb_spec (zlen d) (-1)); [lia|].
  rewrite (bind_mem _ _ _ _ (mem_write_ok (rc_buf s) 0 d ltac:(done) ltac:(lia))).
  rewrite (ztake_0 0), Z.add_0_l by done. cbn [app]. set (buf := d ++ zdrop (zlen d) (rc_buf s)).
  assert (zlen buf = 65536) as Hbuf by (unfold buf; rewrite zlen_app, zlen_drop; lia).
  rewrite (bind_mem _ _ _ _ (mem_read_ok buf 0 8 ltac:(done) ltac:(done) ltac:(lia))).
  rewrite (bind_mem _ _ _ (rc_received s + 1)) by (by apply s64_ok). run_dg.
  rewrite (bind_mem _ _ _ d) by (rewrite mem_read_ok, (zdrop_0 0) by lia; unfold buf; by rewrite ztake_app_length).
  destruct (dg_send (rc_connfd s) d a w0 Hok0) as (w3 & E3 & Hok3 & Hi3 & Ho3).
  rewrite (bind_sendto _ _ _ _ _ _ _ E3). destruct (Z.eqb_spec (zlen d) (-1)); [lia|].
  rewrite (bind_mem _ _ _ (rc_sent s + 1)) by (by apply s64_ok). run_dg.
  eexists _, w2. split; [done|]. split; [done|]. split; [congruence|]. split; [congruence|]. done.
Qed.

(** Every datagram goes back to its sender, in order and unchanged. *)
Lemma receiver_rounds_echo n o s w :
  dg_ok w -> rc_reinit s = false -> zlen (rc_buf s) = 65536 -> (n <= length (dg_in w))%nat ->
  Forall (fun g : datagram => zlen g.1 <= 65536) (dg_in w) ->
  0 <= rc_received s -> 0 <= rc_sent s ->
  rc_received s + Z.of_nat n < 9223372036854775808 -> rc_sent s + Z.of_nat n < 9223372036854775808 ->
  exists s' w', receiver_rounds inet_aton n o s w = (Done s', w') /\
    dg_ok w' /\ dg_in w' = drop n (dg_in w) /\ dg_out w' = dg_out w ++ take n (dg_in w) /\
    rc_sent s' = rc_sent s + Z.of_nat n.
Proof.
  revert s w. induction n as [|n IH]; intros s w Hok Hri Hb Hn Hd Hr0 Hs0 Hr Hs; cbn [receiver_rounds].
  { exists s, w. rewrite drop_0, take_0, app_nil_r, Z.add_0_r. done. }
  destruct (dg_in w) as [|[d a] l] eqn:Hin; [cbn in Hn; lia|]. inversion_clear Hd as [|? ? Hd1 Hdl].
  destruct (receiver_round_echoes o s d a l w) as (s1 & w1 & E1 & Hok1 & Hi1 & Ho1 & Hri1 & Hb1 & Hr1 & Hs1);
    [done|done|done|done|done|ranges; lia|ranges; lia|].
  rewrite (bind_Done _ _ _ _ _ E1). destruct (IH s1 w1) as (s' & w' & E & Hok' & Hi' & Ho' & Hs');
    [done|done|done|rewrite Hi1; cbn in Hn; lia|by rewrite Hi1|lia|lia|lia|lia|].
  exists s', w'. split; [done|]. split; [done|]. rewrite Hi', Ho', Hi1, Ho1, <- app_assoc.
  split; [done|]. split; [done|lia].
Qed.
End echo.

Section sending.
Context {W : Type} `{Datagrams W}.
Context (resolve : list Z -> Z -> Z -> list Z) (inet_aton : list Z -> option (list Z)).
Context (o : SenderOptions) (verbose : Z).
Hypothesis size_ok : 1 <= so_size o <= 2048.

(** The packets with the numbers after [sent]: a number of eight bytes, and the rest of the
    buffer behind it. *)
Definition packet (rest addr : list Z) (n : Z) : datagram := (le_bytes 8 n ++ rest, addr).
Definition packets (rest addr : list Z) (sent : Z) (n : nat) : list datagram :=
  packet rest addr <$> seqZ (sent + 1) (Z.of_nat n).

(** One turn of [do_send] on a writable socket. *)
Lemma send_turn_ok attempt fd addr sendBuf sent w :
  zlen sendBuf = 8 * so_size o -> dg_ok w -> 0 <= sent -> sent + 1 < 9223372036854775808 ->
  exists attempt' w',
    send_turn resolve inet_aton o (fd, addr) (mkSendThread attempt sendBuf sent) w =
      (Done (negb (sent + 1 =? so_toSend o), (fd, addr),
         mkSendThread attempt' (le_bytes 8 (sent + 1) ++ zdrop 8 sendBuf) (sent + 1)), w') /\
    dg_ok w' /\ dg_in w' = dg_in w /\
    dg_out w' = dg_out w ++ [packet (zdrop 8 sendBuf) addr (sent + 1)].
Proof.
  intros Hb Hok Hs Hmax. unfold send_turn. cbv zeta. cbn [fst snd].
  pose proof (dg_select fd (so_interval o) w Hok) as Hsel.
  destruct (sys_select fd (so_interval o) w) as [[r temp] w1] eqn:E1. destruct Hsel as (Hr & Hok1 & Hi1 & Ho1).
  rewrite (bind_select _ _ _ _ _ _ _ E1). cbn match.
  destruct (Z.ltb_spec r 0); [lia|]. destruct (Z.ltb_spec 0 r); [|lia].
  rewrite (bind_mem _ _ _ (sent + 1)) by (apply s64_ok; ranges; lia). rewrite u64_small by word.
  assert (zlen (le_bytes 8 (sent + 1)) = 8) as H8 by apply zlen_le_bytes.
  rewrite (bind_mem _ _ _ (le_bytes 8 (sent + 1) ++ zdrop 8 sendBuf))
    by (rewrite mem_write_ok, H8, (ztake_0 0) by lia; done).
  set (buf := le_bytes 8 (sent + 1) ++ zdrop 8 sendBuf).
  assert (zlen buf = 8 * so_size o) as Hbuf by (unfold buf; rewrite zlen_app, H8, zlen_drop; lia).
  rewrite (bind_mem _ _ _ buf) by (rewrite mem_read_ok, (zdrop_0 0), ztake_all by lia; done).
  destruct (dg_send fd buf addr w1 Hok1) as (w2 & E2 & Hok2 & Hi2 & Ho2).
  rewrite (bind_sendto _ _ _ _ _ _ _ E2). destruct (Z.eqb_spec (zlen buf) (-1)); [lia|]. run_dg.
  assert (dg_out w0 = dg_out w ++ [packet (zdrop 8 sendBuf) addr (sent + 1)]) as Hout by (rewrite Ho, Ho2, Ho1; done).
  destruct (sent + 1 =? so_toSend o); cbn [negb].
  - exists attempt, w0. split; [done|]. split; [done|]. split; [congruence|done].
  - assert (exists w3, send_pause temp w0 = (Done tt, w3) /\ dg_same w0 w3) as (w3 & E3 & Hok3 & Hi3 & Ho3).
    { unfold send_pause. run_dg. by eexists. }
    rewrite (bind_Done _ _ _ _ _ E3). exists 1, w3. split; [done|]. split; [done|]. split; congruence.
Qed.

Lemma send_done_same w : dg_ok w -> exists w', send_done o verbose w = (Done tt, w') /\ dg_same w w'.
Proof.
  intros Hok. unfold send_done. destruct (0 <? so_waitLen o); [|by exists w].
  assert (exists r w', alarmWithLog verbose (so_waitLen o) w = (Done r, w') /\ dg_same w w') as (r & w' & E & Hs).
  { unfold alarmWithLog, logVerboseL. destruct (3 <=? verbose).
    - rewrite bind_printf. destruct (dg_print (mkMessage ("[ Verbose ]" +:+ "Alarm %d") [so_waitLen o]) w Hok)
        as (Hok1 & Hi1 & Ho1).
      pose proof (dg_call (CAlarm (so_waitLen o)) _ Hok1) as Hc. unfold syscall.
      destruct (sys_call _ _) as [r w2]. exists r, w2. split; [done|].
      destruct Hc as (? & ? & ?). split; [done|]. split; congruence.
    - rewrite bind_ret. pose proof (dg_call (CAlarm (so_waitLen o)) w Hok) as Hc. unfold syscall.
      destruct (sys_call _ _) as [r w2]. by exists r, w2. }
  exists w'. by rewrite (bind_Done _ _ _ _ _ E).
Qed.

Lemma do_send_spec n fuel attempt fd addr sendBuf sent w :
  zlen sendBuf = 8 * so_size o -> dg_ok w -> 0 <= sent -> so_toSend o = sent + Z.of_nat (S n) ->
  so_toSend o < 9223372036854775808 -> (S n <= fuel)%nat ->
  exists w', do_send resolve inet_aton o verbose fuel (fd, addr) (mkSendThread attempt sendBuf sent) w
    = (Done (so_toSend o), w') /\
    dg_ok w' /\ dg_in w' = dg_in w /\ dg_out w' = dg_out w ++ packets (zdrop 8 sendBuf) addr sent (S n).
Proof.
  revert fuel attempt sendBuf sent w. induction n as [|n IH];
    intros [|fuel] attempt sendBuf sent w Hb Hok Hs Ht Hmax Hf; try lia; cbn [do_send];
    (destruct (send_turn_ok attempt fd addr sendBuf sent w) as (attempt' & w1 & E1 & Hok1 & Hi1 & Ho1);
      [done|done|done|lia|]; rewrite (bind_Done _ _ _ _ _ E1); clear E1).
  - destruct (Z.eqb_spec (sent + 1) (so_toSend o)) as [Et|]; [|lia]. cbn [negb sd_sent].
    destruct (send_done_same w1 Hok1) as (w2 & E2 & Hok2 & Hi2 & Ho2). rewrite (bind_Done _ _ _ _ _ E2).
    exists w2. rewrite Et. split; [done|]. split; [done|]. split; [congruence|]. rewrite Ho2, Ho1. done.
  - destruct (Z.eqb_spec (sent + 1) (so_toSend o)); [lia|]. cbn [negb].
    assert (zlen (le_bytes 8 (sent + 1)) = 8) as H8 by apply zlen_le_bytes.
    set (buf := le_bytes 8 (sent + 1) ++ zdrop 8 sendBuf).
    assert (zdrop 8 buf = zdrop 8 sendBuf) as Hd by (by apply zdrop_app_length).
    destruct (IH fuel attempt' buf (sent + 1) w1) as (w' & E' & Hok' & Hi' & Ho');
      [unfold buf; rewrite zlen_app, H8, zlen_drop; lia|done|lia|lia|done|lia|].
    exists w'. split; [done|]. split; [done|]. split; [congruence|].
    rewrite Ho', Ho1, Hd, <- app_assoc. f_equal. unfold packets.
    rewrite (seqZ_cons (sent + 1)) by lia. cbn [fmap list_fmap app]. do 3 f_equal. lia.
Qed.

(** The same data, with the address the other side sees. *)
Definition seen_from (addr : list Z) (ps : list datagram) : list datagram := (fun g => (g.1, addr)) <$> ps.

(** One turn of [do_receive] with a datagram waiting. *)
Lemma receive_turn_ok attempt conn recvBuf received d a l w :
  zlen recvBuf = 8 * so_size o -> dg_ok w -> dg_in w = (d, a) :: l ->
  0 <= received -> received + 1 < 9223372036854775808 -> received <> so_toSend o ->
  exists buf w', receive_turn resolve inet_aton o conn (mkRecvThread attempt recvBuf received) w
    = (Done (true, (conn.1, a), mkRecvThread 1 buf (received + 1)), w') /\
    zlen buf = 8 * so_size o /\ dg_ok w' /\ dg_in w' = l /\ dg_out w' = dg_out w.
Proof.
  intros Hb Hok Hin Hr Hmax Hne. unfold receive_turn.
  destruct (Z.eqb_spec received (so_toSend o)); [lia|].
  destruct (dg_recv conn.1 (8 * so_size o) d a l w ltac:(lia) Hok Hin) as (w1 & E1 & Hok1 & Hi1 & Ho1).
  rewrite (bind_recvfrom _ _ _ _ _ _ _ _ E1). cbn match.
  set (d' := ztake (8 * so_size o) d). assert (0 <= zlen d' <= 8 * so_size o) as Hd
    by (unfold d'; rewrite zlen_take; pose proof (zlen_nonneg d); lia).
  destruct (Z.eqb_spec (zlen d') (-1)); [lia|].
  rewrite (bind_mem _ _ _ _ (mem_write_ok recvBuf 0 d' ltac:(done) ltac:(lia))).
  set (buf := ztake 0 recvBuf ++ d' ++ zdrop (0 + zlen d') recvBuf).
  assert (zlen buf = 8 * so_size o) as Hbuf
    by (unfold buf; rewrite !zlen_app, zlen_take, zlen_drop; lia).
  rewrite (bind_mem _ _ _ _ (mem_read_ok buf 0 8 ltac:(done) ltac:(done) ltac:(lia))).
  rewrite (bind_mem _ _ _ (received + 1)) by (apply s64_ok; ranges; lia). run_dg.
  exists buf, w0. split; [done|]. split; [done|]. split; [done|]. split; congruence.
Qed.

Lemma do_receive_spec n fuel attempt conn recvBuf received w l :
  zlen recvBuf = 8 * so_size o -> dg_ok w -> dg_in w = l -> (n <= length l)%nat ->
  0 <= received -> so_toSend o = received + Z.of_nat n ->
  so_toSend o < 9223372036854775808 -> (n < fuel)%nat ->
  exists conn' w', do_receive resolve inet_aton o fuel conn (mkRecvThread attempt recvBuf received) w
    = (Done (so_toSend o, conn'), w') /\
    dg_ok w' /\ dg_in w' = drop n l /\ dg_out w' = dg_out w.
Proof.
  revert fuel attempt conn recvBuf received w l. induction n as [|n IH];
    intros [|fuel] attempt conn recvBuf received w l Hb Hok Hin Hn Hr Ht Hmax Hf; try lia; cbn [do_receive].
  - unfold receive_turn. destruct (Z.eqb_spec received (so_toSend o)) as [->|]; [|lia].
    exists conn, w. by rewrite drop_0.
  - destruct l as [|[d a] l]; [cbn in Hn; lia|].
    destruct (receive_turn_ok attempt conn recvBuf received d a l w) as (buf & w1 & E1 & Hbuf & Hok1 & Hi1 & Ho1);
      [done|done|done|lia|lia|lia|].
    rewrite (bind_Done _ _ _ _ _ E1). clear E1.
    destruct (IH fuel 1 (conn.1, a) buf (received + 1) w1 l) as (conn' & w' & E' & Hok' & Hi' & Ho');
      [done|done|congruence|cbn in Hn; lia|lia|lia|done|lia|].
    exists conn', w'. split; [exact E'|]. split; [done|]. split; [done|congruence].
Qed.

(** The round trip of the UDP test. The sender numbers its packets from 1 to the number
    it was asked for and sends each of them once; the receiver returns every one of them
    unchanged, in order, to where it came from; and when these come back to the sender,
    its receiving thread ends with all of them counted. *)
Theorem udp_echo_roundtrip n fuel fd addr sendBuf recvBuf ro s client server rest2 rest3 w1 w2 w3 conn :
  so_toSend o = Z.of_nat (S n) -> so_toSend o < 9223372036854775808 -> (S n < fuel)%nat ->
  zlen sendBuf = 8 * so_size o -> zlen recvBuf = 8 * so_size o -> zlen (rc_buf s) = 65536 ->
  rc_reinit s = false -> rc_received s = 0 -> rc_sent s = 0 ->
  dg_ok w1 -> dg_ok w2 -> dg_ok w3 ->
  let ps := packets (zdrop 8 sendBuf) addr 0 (S n) in
  dg_in w2 = seen_from client ps ++ rest2 -> Forall (fun g : datagram => zlen g.1 <= 65536) rest2 ->
  dg_in w3 = seen_from server ps ++ rest3 ->
  (exists w1', do_send resolve inet_aton o verbose fuel (fd, addr) (mkSendThread 1 sendBuf 0) w1 = (Done (so_toSend o), w1') /\
     dg_out w1' = dg_out w1 ++ ps) /\
  (exists s' w2', receiver_rounds inet_aton (S n) ro s w2 = (Done s', w2') /\
     dg_in w2' = rest2 /\ dg_out w2' = dg_out w2 ++ seen_from client ps) /\
  (exists conn' w3', do_receive resolve inet_aton o fuel conn (mkRecvThread 1 recvBuf 0) w3
     = (Done (so_toSend o, conn'), w3') /\ dg_in w3' = rest3).
Proof.
  intros Ht Hmax Hf Hb Hrb Hsb Hri Hr Hs Hok1 Hok2 Hok3 ps Hin2 Hr2 Hin3.
  assert (forall a, length (seen_from a ps) = S n) as Hlen
    by (intros; unfold seen_from, ps, packets; rewrite !length_fmap, length_seqZ; lia).
  split; [|split].
  - destruct (do_send_spec n fuel 1 fd addr sendBuf 0 w1) as (w' & E & _ & _ & Ho); [done|done|lia|lia|lia|lia|].
    by exists w'.
  - destruct (receiver_rounds_echo inet_aton (S n) ro s w2) as (s' & w' & E & _ & Hi & Ho & _);
      [done|done|done|rewrite Hin2, length_app, Hlen; lia| |lia|lia|lia|lia|].
    { rewrite Hin2. apply Forall_app. split; [|done]. apply Forall_fmap, Forall_fmap, Forall_forall.
      intros k _. cbn. rewrite zlen_app, zlen_le_bytes, zlen_drop. lia. }
    exists s', w'. split; [exact E|]. rewrite Hi, Ho, Hin2.
    rewrite drop_app_length', take_app_length' by (by rewrite Hlen). done.
  - destruct (do_receive_spec (S n) fuel 1 conn recvBuf 0 w3 _ Hrb Hok3 Hin3) as (conn' & w' & E & _ & Hi & _);
      [rewrite length_app, Hlen; lia|lia|lia|lia|lia|].
    exists conn', w'. split; [exact E|]. rewrite Hi, drop_app_length' by (by rewrite Hlen). done.
Qed.
End sending.

Section blocked.
Context {W : Type} `{Udp W}.
Context (resolve : list Z -> Z -> Z -> list Z) (inet_aton : list Z -> option (list Z)).
(** A socket that never becomes writable. *)
Hypothesis never_writable : forall fd t w, (sys_select fd t w).1.1 = 0.

(** A socket that is not writable is given [MAX_ATTEMPT] tries, as the code means it, but
    the count starts again after each of them: [do_send] says that the packet has been
    sent, and never ends. *)
Theorem do_send_never_gives_up o verbose fuel attempt conn sendBuf sent w :
  sent <> so_toSend o -> attempt < Z.of_nat MAX_ATTEMPT ->
  (do_send resolve inet_aton o verbose fuel conn (mkSendThread attempt sendBuf sent) w).1 = NoFuel.
Proof.
  intros Hs. revert attempt w. induction fuel as [|fuel IH]; intros attempt w Ha; [done|]. cbn [do_send].
  assert (exists w', send_turn resolve inet_aton o conn (mkSendThread attempt sendBuf sent) w
    = (Done (true, conn, mkSendThread 1 sendBuf sent), w')) as (w' & E').
  { unfold send_turn. cbv zeta. pose proof (never_writable conn.1 (so_interval o) w) as Hsel.
    destruct (sys_select conn.1 (so_interval o) w) as [[r temp] w1] eqn:E. cbn in Hsel. subst r.
    rewrite (bind_select _ _ _ _ _ _ _ E). cbn match. cbn [Z.ltb Z.compare]. unfold logWarning. rewrite bind_printf.
    destruct (Z.ltb_spec (Z.of_nat MAX_ATTEMPT) (attempt + 1)); [lia|]. unfold logMessage. rewrite bind_printf.
    destruct (Z.eqb_spec sent (so_toSend o)); [done|]. unfold send_pause.
    match goal with |- context [sys_print ?m (sys_print ?m' w1)] => set (w2 := sys_print m (sys_print m' w1)) end.
    unfold io_bind at 1 2, syscall. destruct (sys_call _ w2) as [r w3]. by eexists. }
  rewrite (bind_Done _ _ _ _ _ E'). by apply IH.
Qed.
End blocked.

(** ** A network of datagrams *)
Record UdpWorld : Type := mkUdpWorld {
  uw_script : Script;
  uw_in : list datagram;
  uw_out : list datagram;
  uw_writable : bool
}.
Definition uw_on (f : Script -> Script) (w : UdpWorld) : UdpWorld :=
  mkUdpWorld (f (uw_script w)) (uw_in w) (uw_out w) (uw_writable w).
#[global] Instance UdpWorld_posix : Posix UdpWorld := {|
  sys_errno w := sys_errno (uw_script w);
  sys_put_errno e := uw_on (sys_put_errno e);
  sys_read fd n w := let '(r, d, s) := sys_read fd n (uw_script w) in (r, d, uw_on (fun _ => s) w);
  sys_write fd d w := let '(r, s) := sys_write fd d (uw_script w) in (r, uw_on (fun _ => s) w);
  sys_call c w := let '(r, s) := sys_call c (uw_script w) in (r, uw_on (fun _ => s) w);
  sys_print m := uw_on (sys_print m);
  sys_isLocked f w := let '(b, s) := sys_isLocked f (uw_script w) in (b, uw_on (fun _ => s) w);
  sys_putLock f b := uw_on (sys_putLock f b)
|}.
#[global] Instance UdpWorld_udp : Udp UdpWorld := {|
  sys_recvfrom _ n w :=
    match uw_in w with
    | [] => (-1, [], [], w)
    | (d, a) :: l => (zlen (ztake n d), ztake n d, a, mkUdpWorld (uw_script w) l (uw_out w) (uw_writable w))
    end;
  sys_sendto _ d a w := (zlen d, mkUdpWorld (uw_script w) (uw_in w) (uw_out w ++ [(d, a)]) (uw_writable w));
  sys_select _ t w := (if uw_writable w then 1 else 0, (0, 0), w)
|}.
#[global] Program Instance UdpWorld_datagrams : Datagrams UdpWorld := {|
  dg_ok w := uw_writable w = true;
  dg_in := uw_in;
  dg_out := uw_out
|}.
Next Obligation. done. Qed.
Next Obligation. intros c w Hw. cbn. by destruct (sc_results _). Qed.
Next Obligation. intros fd t w Hw. cbn in *. by rewrite Hw. Qed.
Next Obligation. intros fd n d a l w Hn Hw Hin. cbn in *. rewrite Hin. by eexists. Qed.
Next Obligation. intros fd d a w Hw. by eexists. Qed.

(** Two packets of one number each. *)
Definition example_sender : SenderOptions := mkSenderOptions 5001 None None (Some [49]) (0, 10000) 2 1 (-1).
Definition udp_world (datagrams : list datagram) : UdpWorld := mkUdpWorld quiet datagrams [] true.
Lemma udp_echo_roundtrip_witness :
  (exists w, do_send loopback (fun _ => None) example_sender 0 5 (3, [7]) (mkSendThread 1 (replicate 8 0) 0) (udp_world [])
     = (Done 2, w) /\ uw_out w = [([1; 0; 0; 0; 0; 0; 0; 0], [7]); ([2; 0; 0; 0; 0; 0; 0; 0], [7])]) /\
  (exists s w, receiver_rounds (fun _ => None) 2 ReceiverOptions_initial
       (mkReceiver false 4 (replicate (Z.to_nat 65536) 0) 0 0)
       (udp_world [([1; 0; 0; 0; 0; 0; 0; 0], [8]); ([2; 0; 0; 0; 0; 0; 0; 0], [8])])
     = (Done s, w) /\ uw_out w = [([1; 0; 0; 0; 0; 0; 0; 0], [8]); ([2; 0; 0; 0; 0; 0; 0; 0], [8])]).
Proof.
  destruct (udp_echo_roundtrip (W := UdpWorld) loopback (fun _ => None) example_sender 0 ltac:(cbn; lia) 1 5 3 [7]
    (replicate 8 0) (replicate 8 0) ReceiverOptions_initial (mkReceiver false 4 (replicate (Z.to_nat 65536) 0) 0 0)
    [8] [7] [] [] (udp_world [])
    (udp_world [([1; 0; 0; 0; 0; 0; 0; 0], [8]); ([2; 0; 0; 0; 0; 0; 0; 0], [8])])
    (udp_world [([1; 0; 0; 0; 0; 0; 0; 0], [7]); ([2; 0; 0; 0; 0; 0; 0; 0], [7])]) (3, [7]))
    as ((w1 & E1 & Ho1) & (s & w2 & E2 & _ & Ho2) & _).
  - done.
  - done.
  - lia.
  - done.
  - done.
  - cbn [rc_buf]. rewrite zlen_replicate. done.
  - done.
  - done.
  - done.
  - done.
  - done.
  - done.
  - done.
  - done.
  - done.
  - split; [exists w1; split; [exact E1|exact Ho1]|]. exists s, w2. split; [exact E2|exact Ho2].
Defined.

Lemma sender_options_typed_witness :
  exists o l w, sender_parseArguments (bytes_of <$> ["-p"; "5001"; "-c"; "1"; "-i"; "2500000"; "-s"; "9999"])
      Log_initial (udp_world []) = (Done (o, l), w) /\ 0 <= (so_interval o).2 < 1000000.
Proof.
  destruct (sender_parseArguments (bytes_of <$> ["-p"; "5001"; "-c"; "1"; "-i"; "2500000"; "-s"; "9999"])
      Log_initial (udp_world [])) as [[[o l]| | |] w] eqn:E; [|by vm_compute in E..].
  exists o, l, w. split; [reflexivity|].
  apply (sender_options_typed (W := UdpWorld) _ _ _ _ _ _ E).
Defined.

(** A world in which no socket is ever writable. *)
Record Blocked : Type := mkBlocked { bk_script : Script }.
#[global] Instance Blocked_posix : Posix Blocked := {|
  sys_errno w := sys_errno (bk_script w);
  sys_put_errno e w := mkBlocked (sys_put_errno e (bk_script w));
  sys_read fd n w := let '(r, d, s) := sys_read fd n (bk_script w) in (r, d, mkBlocked s);
  sys_write fd d w := let '(r, s) := sys_write fd d (bk_script w) in (r, mkBlocked s);
  sys_call c w := let '(r, s) := sys_call c (bk_script w) in (r, mkBlocked s);
  sys_print m w := mkBlocked (sys_print m (bk_script w));
  sys_isLocked f w := let '(b, s) := sys_isLocked f (bk_script w) in (b, mkBlocked s);
  sys_putLock f b w := mkBlocked (sys_putLock f b (bk_script w))
|}.
#[global] Instance Blocked_udp : Udp Blocked := {|
  sys_recvfrom _ _ w := (-1, [], [], w);
  sys_sendto _ d _ w := (zlen d, w);
  sys_select _ _ w := (0, (0, 0), w)
|}.
Lemma do_send_never_gives_up_witness :
  (do_send loopback (fun _ => None) example_sender 0 (Z.to_nat 50) (3, [7]) (mkSendThread 1 (replicate 8 0) 0)
     (mkBlocked quiet)).1
    = NoFuel.
Proof.
  apply (do_send_never_gives_up (W := Blocked)); done.
Defined.

(** A datagram from another host: the next packet would be sent to it. *)
Example do_receive_changes_server :
  (do_receive loopback (fun _ => None) (mkSenderOptions 5001 None None (Some [49]) (0, 10000) 1 1 (-1)) 5
     (3, [7]) (mkRecvThread 1 (replicate 8 0) 0) (udp_world [([9], [66])])).1 = Done (1, (3, [66])).
Proof. vm_compute. reflexivity. Qed.
