(* ===== verification/MperfUsage.v ===== *)
(** The usage texts of the throughput tool ([usage] in src/3rd/mperf/src/client.c, server.c,
    worker.c, udpsender.c and udpreceiver.c), line by line, and what they say of the
    options that the programs take. *)

From stdpp Require Import base list numbers strings.
From S2P Require Import Prelude Posix GetOpt.

Open Scope Z_scope.

(** client.c, without PROBE *)
Definition client_usage : list string :=
  ["  -B [local ip]:";
   "    Specify the local ip address.";
   "  -b [local port]:";
   "    Specify the local port.";
   "    **: STILL DEVELOPPING, BUGGY!    (default: let system choose a port randomly).";
   "  -c [server ip]:";
   "    Specify the server ip address.";
   "    *: Required";
   "  -h:";
   "    Print this message and exit.";
   "  -l [path]:";
   "    Specify the file to save the log.";
   "  -n [size]:";
   "    Tell the program to do fix test with size=[size]Bytes.";
   "  -p [port]:";
   "    Specify port number of server.";
   "    *: Required";
   "  -P [cport]:";
   "    Specify port number of controller(default: [port] + 1).";
   "  -s:";
   "    If specified, let the client send data.";
   "  -t [time]:";
   "    Tell the program to do long test with timeLength=[time]seconds.";
   "  -T [Time]:";
   "    End test and exit after [Time] seconds.";
   "      for long tests, default: [time] + 10.";
   "      for fix tests, default: 200.";
   "  -v:";
   "    Print version information and exit.";
   "  -V[level]:";
   "    Print verbose log. Use -V2 for even more verbose log."].
(** client.c, with PROBE *)
Definition probe_usage : list string :=
  ["  -B [local ip]:";
   "    Specify the local ip address.";
   "  -b [local port]:";
   "    Specify the local port.";
   "    **: STILL DEVELOPPING, BUGGY!    (default: let system choose a port randomly).";
   "  -c [server ip]:";
   "    Specify the server ip address.";
   "    *: Required";
   "  -h:";
   "    Print this message and exit.";
   "  -i [interval]:";
   "    Specify the time interval(ms) between two send operations.";
   "    (default: 4).";
   "  -I [interval]:";
   "    Specify the time interval(ms) between two probe operations.";
   "    (default: 1000).";
   "  -l [path]:";
   "    Specify the file to save the log.";
   "  -L [count]:";
   "    Do [count] loop tests(default: 1).";
   "  -n [count]: ";
   "    Send [count] probe packets per probe(default: 25).";
   "  -p [port]:";
   "    Specify port number of server.";
   "    *: Required";
   "  -P [cport]:";
   "    Specify port number of controller(default: [port] + 1).";
   "  -s:";
   "    If specified, let the client send data.";
   "  -v:";
   "    Print version information and exit.";
   "  -V[level]:";
   "    Print verbose log. Use -V2 for even more verbose log."].
(** server.c *)
Definition server_usage : list string :=
  ["  -h:";
   "    Print this message and exit.";
   "  -l [path]:";
   "    Specify the file to save the log of controller.";
   "  -L [path]:";
   "    Specify the file to save the log of server.";
   "  -k";
   "    Use SIGTERM(rather than SIGINT) to kill server if failed";
   "    (ensures that up to one child server process can be running at the";
   "    same time. This improves robustness but can cause some logs from";
   "    server processes to be lost).";
   "  -p [port]:";
   "    Specify port number of controller.";
   "    *: Required";
   "  -P [Port]:";
   "    Specify port number of server.";
   "    (default: [port] - 1)";
   "  -s [source IP]:";
   "    Specify the source IP to listen on.";
   "    (default: unspecified)";
   "  -v:";
   "    Print version information and exit.";
   "  -V[level]:";
   "    Print verbose log. Use -V2 for even more verbose log."].
(** worker.c *)
Definition worker_usage : list string :=
  ["  -h:";
   "    Print this message and exit.";
   "  -l [path]:";
   "    Specify the file to save the log.";
   "  -p [port]:";
   "    Specify port number of server.";
   "    *: Required";
   "  -s [source IP]:";
   "    Specify the source IP to listen on.";
   "    (default: unspecified)";
   "  -V[level]:";
   "    Print verbose log. Use -V2 for even more verbose log."].
(** udpsender.c: there is no line break before [-v]. *)
Definition sender_usage : list string :=
  ["  -B [local ip]:";
   "    Specify the sender ip address.";
   "  -c [server ip]:";
   "    Specify the receiver ip address.";
   "    *: Required";
   "  -h:";
   "    Print this message and exit.";
   "  -i:";
   "    Specify the time interval(us) between two send operations.";
   "    (default: 10000).";
   "  -n: [count]";
   "    Send [count] packets and exit(default is keep sending).";
   "  -l [path]:";
   "    Specify the file to save the log.";
   "  -p [port]:";
   "    Specify port number of server.";
   "    *: Required";
   "  -s [size]:";
   "    Specify the number of 64-bit qword transferred in every packet";
   "    (default: 1, max 2048).";
   "  -t [time]";
   "    After sending all packets, wait [time] seconds and exit";
   "    (default is keep waiting).  -v:";
   "    Print version information and exit.";
   "  -V[level]:";
   "    Print verbose log. Use -V2 for even more verbose log."].
(** udpreceiver.c *)
Definition receiver_usage : list string :=
  ["  -B [local ip]:";
   "    Specify the receiver ip address.";
   "  -h:";
   "    Print this message and exit.";
   "  -l [path]:";
   "    Specify the file to save the log.";
   "  -p [port]:";
   "    Specify port number of server.";
   "    *: Required";
   "  -v:";
   "    Print version information and exit.";
   "  -V[level]:";
   "    Print verbose log. Use -V2 for even more verbose log."].

(** ** What a text documents

    The line of an option is indented by two spaces: [-c], then nothing, or a colon, for an
    option without an argument, the argument in brackets right behind the letter if it may
    be left out, and elsewhere in the line if not. *)
Fixpoint has_bracket (s : list Z) : bool :=
  match s with [] => false | c :: s => (c =? 91) || has_bracket s end.
Definition option_line (line : list Z) : option (Z * opt_kind) :=
  match line with
  | a :: b :: d :: c :: rest =>
      if (a =? 32) && (b =? 32) && (d =? c_dash) then
        Some (c, match rest with
                 | x :: _ => if x =? 91 then OptionalArg else if has_bracket rest then RequiredArg else NoArg
                 | [] => NoArg
                 end)
      else None
  | _ => None
  end.
Definition usage_options (usage : list string) : list (Z * opt_kind) :=
  omap option_line (bytes_of <$> usage).
Fixpoint documented (options : list (Z * opt_kind)) (c : Z) : option opt_kind :=
  match options with
  | [] => None
  | (d, k) :: options => if d =? c then Some k else documented options c
  end.
#[global] Instance opt_kind_eq_dec : EqDecision opt_kind.
Proof. solve_decision. Defined.

(** A text and an option string agree on every character but those of [except]. *)
Definition agree (except : list Z) (usage : list string) (optstring : list Z) : Prop :=
  forall c, c ∉ except -> opt_lookup optstring c = documented (usage_options usage) c.

Lemma opt_lookup_other s c : c ∉ s -> opt_lookup s c = None.
Proof.
  induction s as [|d s IH]; [done|]. rewrite not_elem_of_cons. intros [Hd Hs]. cbn.
  destruct (Z.eqb_spec d c); [done|]. by apply IH.
Qed.
Lemma documented_other l c : c ∉ l.*1 -> documented l c = None.
Proof.
  induction l as [|[d k] l IH]; [done|]. cbn. rewrite not_elem_of_cons. intros [Hd Hl].
  destruct (Z.eqb_spec d c); [done|]. by apply IH.
Qed.
(** It is enough to compare the characters that occur. *)
Lemma agree_check except usage s :
  Forall (fun c => c ∈ except \/ opt_lookup s c = documented (usage_options usage) c)
    (s ++ (usage_options usage).*1) -> agree except usage s.
Proof.
  intros Hf c Hc. destruct (decide (c ∈ s ++ (usage_options usage).*1)) as [Hin|Hout].
  - rewrite Forall_forall in Hf. by destruct (Hf c Hin).
  - rewrite elem_of_app in Hout. rewrite opt_lookup_other, documented_other by tauto. done.
Qed.
#[local] Ltac agree := apply agree_check; apply (bool_decide_unpack _); vm_compute; exact I.

(** The usage texts and the option strings of all programs. A text documents exactly the
    options of its program and how they take their argument, with three exceptions: the
    worker accepts [-v], which it does not document (and ends with its usage text, since its
    [switch] has no case for it); the text of the UDP sender says that [-i] takes no argument, which it
    does; and a missing line break hides [-v] there behind the text of [-t]. *)
Theorem usage_texts_agree :
  agree [] client_usage (opts "B:b:c:hl:n:p:P:st:T:vV::") /\
  agree [] probe_usage (opts "B:b:c:hi:I:l:L:n:p:P:svV::") /\
  agree [] server_usage (opts "p:vV::l:hL:s:P:k") /\
  agree [] receiver_usage (opts "B:p:vV::l:h") /\
  agree [118] worker_usage (opts "p:vV::l:hs:") /\
  documented (usage_options worker_usage) 118 = None /\
  agree [105; 118] sender_usage (opts "s:B:c:p:i:l:n:vV::ht:") /\
  opt_lookup (opts "s:B:c:p:i:l:n:vV::ht:") 105 = Some RequiredArg /\
  documented (usage_options sender_usage) 105 = Some NoArg /\
  documented (usage_options sender_usage) 118 = None.
Proof.
  split; [agree|]. split; [agree|]. split; [agree|]. split; [agree|]. split; [agree|]. split; [done|].
  split; [agree|]. done.
Qed.
