(* ===== verification/MperfUdpThreads.v ===== *)
(** The two threads of src/3rd/mperf/src/udpsender.c side by side: turns of [do_send], of
    [do_receive] and of a network that loses datagrams or returns them, in any order; and
    the end of [main], which joins both. A turn of a loop is a step; [connfd] and
    [serverInfo] are shared. *)

From stdpp Require Import base list numbers.
From S2P Require Import Prelude Endian SocketAddress Posix CText GetOpt MperfUtil MperfNet.
From S2P Require Import MperfTransfer MperfControl MperfOptions MperfUdp.

Open Scope Z_scope.
Open Scope io_scope.

(** [Network i b]: the datagram [i] of those on their way, whichever it is, is echoed to the
    sender, or, if not [b], lost. *)
Inductive actor : Type := Sender | Receiver | Network (i : nat) (deliver : bool).

(** The variables of the threads, and whether each of them still runs. *)
Record UdpThreads : Type := mkUdpThreads {
  ut_conn : Z * list Z;
  ut_send : SendThread;
  ut_recv : RecvThread;
  ut_sending : bool;
  ut_receiving : bool
}.

(** A network as unreliable as UDP allows, but for duplicates: of the datagrams on their
    way to the echo server any may be the next to come back or to be lost. *)
Class EchoNetwork (W : Type) `{Datagrams W} := {
  net_turn : nat -> bool -> W -> W;
  net_turn_ok (i : nat) (b : bool) g w : dg_ok w -> dg_out w !! i = Some g ->
    dg_ok (net_turn i b w) /\ dg_out (net_turn i b w) = delete i (dg_out w) /\
    dg_in (net_turn i b w) = dg_in w ++ (if b then [g] else [])
}.

Section threads.
Context {W : Type} `{EchoNetwork W}.
Context (resolve : list Z -> Z -> Z -> list Z) (inet_aton : list Z -> option (list Z)).
Context (o : SenderOptions) (verbose : Z).

Definition actor_turn (who : actor) (s : UdpThreads) : io W UdpThreads :=
  let 'mkUdpThreads conn st rt sending receiving := s in
  match who with
  | Sender =>
      if sending : bool then
        let* (go, conn, st) := send_turn resolve inet_aton o conn st in
        if go : bool then io_ret (mkUdpThreads conn st rt true receiving)
        else send_done o verbose ;;; io_ret (mkUdpThreads conn st rt false receiving)
      else io_ret s
  | Receiver =>
      if receiving : bool then
        let* (go, conn, rt) := receive_turn resolve inet_aton o conn rt in
        io_ret (mkUdpThreads conn st rt sending go)
      else io_ret s
  | Network i b => fun w => (Done s, net_turn i b w)
  end.
Fixpoint run_actors (sched : list actor) (s : UdpThreads) : io W UdpThreads :=
  match sched with
  | [] => io_ret s
  | who :: sched => s <- actor_turn who s ;; run_actors sched s
  end.

(** [main] from the creation of the threads on; [pthread_join] waits while one of them
    runs. *)
Definition sender_main_threads (sched : list actor) (conn : Z * list Z) (sendBuf recvBuf : list Z) : io W unit :=
  s <- run_actors sched (mkUdpThreads conn (mkSendThread 1 sendBuf 0) (mkRecvThread 1 recvBuf 0) true true) ;;
  if ut_sending s || ut_receiving s then io_nofuel
  else _ <- syscall (CClose (ut_conn s).1) ;; io_ret tt.

(** Which actors can take a turn: [recvfrom] blocks while no datagram is there. *)
Definition enabled (who : actor) (s : UdpThreads) (w : W) : bool :=
  match who with
  | Sender => ut_sending s
  | Receiver => ut_receiving s &&
      ((rv_received (ut_recv s) =? so_toSend o) || negb (bool_decide (dg_in w = [])))
  | Network i _ => bool_decide (i < length (dg_out w))%nat
  end.

(** ** Invariant

    Every packet sent is one of those received, of those lost or of those in the network,
    and of one of these only. *)
Hypothesis size_ok : 1 <= so_size o <= 2048.
Hypothesis count_ok : 1 <= so_toSend o < 9223372036854775807.

Record threads_inv (fd : Z) (rest addr : list Z) (got lost : list datagram) (s : UdpThreads) (w : W) : Prop := {
  ti_ok : dg_ok w;
  ti_conn : ut_conn s = (fd, addr);
  ti_sendBuf : zlen (sd_sendBuf (ut_send s)) = 8 * so_size o;
  ti_rest : zdrop 8 (sd_sendBuf (ut_send s)) = rest;
  ti_recvBuf : zlen (rv_recvBuf (ut_recv s)) = 8 * so_size o;
  ti_count : 0 <= rv_received (ut_recv s) <= sd_sent (ut_send s);
  ti_most : sd_sent (ut_send s) <= so_toSend o;
  ti_sending : ut_sending s = negb (sd_sent (ut_send s) =? so_toSend o);
  ti_receiving : ut_receiving s = false -> rv_received (ut_recv s) = so_toSend o;
  ti_got : zlen got = rv_received (ut_recv s);
  ti_net : got ++ lost ++ dg_in w ++ dg_out w ≡ₚ packets rest addr 0 (Z.to_nat (sd_sent (ut_send s)))
}.

(** What is still to be done, at most: every packet is sent, carried and received once, and
    the receiver looks once more at the count. *)
Definition work (s : UdpThreads) (w : W) : nat :=
  Z.to_nat (3 * (so_toSend o - sd_sent (ut_send s))) + 2 * length (dg_out w) + length (dg_in w)
  + (if ut_receiving s then 1 else 0).

Lemma packets_snoc rest addr r n :
  packets rest addr r n ++ [packet rest addr (r + 1 + Z.of_nat n)] = packets rest addr r (S n).
Proof. unfold packets. by rewrite seqZ_S, fmap_app. Qed.
Lemma length_packets rest addr r n : length (packets rest addr r n) = n.
Proof. unfold packets. rewrite length_fmap, length_seqZ. lia. Qed.

Lemma packets_addr rest addr r n d a : (d, a) ∈ packets rest addr r n -> a = addr.
Proof. unfold packets. by intros (k & [= _ ->] & _)%list_elem_of_fmap. Qed.

Definition is_lost (who : actor) : bool := match who with Network _ false => true | _ => false end.
Definition turn_ok (who : actor) (fd : Z) (rest addr : list Z) (got lost : list datagram) (s : UdpThreads) (w : W)
  : Prop :=
  exists got' lost' s' w', actor_turn who s w = (Done s', w') /\ threads_inv fd rest addr got' lost' s' w' /\
    (S (work s' w') + (if is_lost who then 1 else 0) = work s w)%nat /\
    length lost' = (length lost + (if is_lost who then 1 else 0))%nat.

Lemma sender_turn fd rest addr got lost s w :
  threads_inv fd rest addr got lost s w -> ut_sending s = true -> turn_ok Sender fd rest addr got lost s w.
Proof.
  destruct s as [conn [at1 sb sent] [at2 rb received] sending receiving]. intros [Hok Hc Hsb Hr Hrb Hn Hm Hs Hrc Hg Hnet] E.
  cbn in *. subst conn sending. unfold turn_ok, actor_turn.
  apply negb_true_iff, Z.eqb_neq in E.
  destruct (send_turn_ok resolve inet_aton o size_ok at1 fd addr sb sent w) as (at' & w1 & E1 & Hok1 & Hi1 & Ho1);
    [done|done|lia|lia|]. rewrite (proj2 (Z.eqb_neq _ _) E). cbn [negb].
  rewrite (bind_Done _ _ _ _ _ E1). rewrite Hr in Ho1.
  assert (zlen (le_bytes 8 (sent + 1)) = 8) as H8 by apply zlen_le_bytes.
  assert (got ++ lost ++ dg_in w1 ++ dg_out w1 ≡ₚ packets rest addr 0 (Z.to_nat (sent + 1))) as Hnet1.
  { rewrite Hi1, Ho1. replace (Z.to_nat (sent + 1)) with (S (Z.to_nat sent)) by lia.
    rewrite <- packets_snoc, <- Hnet, <- !app_assoc.
    by replace (0 + 1 + Z.of_nat (Z.to_nat sent)) with (sent + 1) by lia. }
  set (s1 := mkUdpThreads (fd, addr) (mkSendThread at' (le_bytes 8 (sent + 1) ++ zdrop 8 sb) (sent + 1))
       (mkRecvThread at2 rb received) (negb (sent + 1 =? so_toSend o)) receiving).
  assert (forall w2, dg_same w1 w2 -> threads_inv fd rest addr got lost s1 w2 /\
    (S (work s1 w2) + 0 = work (mkUdpThreads (fd, addr) (mkSendThread at1 sb sent) (mkRecvThread at2 rb received) true
       receiving) w)%nat) as Hend.
  { intros w2 (Hok2 & Hi2 & Ho2). split.
    - split; unfold s1; cbn [ut_conn ut_send ut_recv ut_sending ut_receiving sd_sendBuf sd_sent rv_recvBuf rv_received];
        try done; try lia.
      + rewrite zlen_app, H8, zlen_drop. lia.
      + by rewrite Hi2, Ho2.
    - unfold work. cbn. rewrite Hi2, Ho2, Hi1, Ho1, length_app. cbn. lia. }
  exists got, lost. unfold s1 in Hend. destruct (sent + 1 =? so_toSend o); cbn [negb] in *.
  - destruct (send_done_same o verbose w1 Hok1) as (w2 & E2 & Hsame). rewrite (bind_Done _ _ _ _ _ E2).
    eexists _, w2. split; [done|]. destruct (Hend w2 Hsame). split; [done|]. split; [done|cbn; lia].
  - eexists _, w1. split; [done|]. destruct (Hend w1) as [? ?]; [done|]. split; [done|]. split; [done|cbn; lia].
Qed.

Lemma receiver_turn fd rest addr got lost s w :
  threads_inv fd rest addr got lost s w -> enabled Receiver s w = true -> turn_ok Receiver fd rest addr got lost s w.
Proof.
  destruct s as [conn [at1 sb sent] [at2 rb received] sending receiving]. intros [Hok Hc Hsb Hr Hrb Hn Hm Hs Hrc Hg Hnet].
  cbn [enabled ut_receiving ut_recv rv_received]. intros [-> E]%andb_true_iff. cbn in *. subst conn.
  unfold turn_ok, actor_turn. destruct (Z.eqb_spec received (so_toSend o)) as [Er|Er].
  - unfold receive_turn. rewrite (proj2 (Z.eqb_eq _ _) Er). exists got, lost. eexists _, w. split; [done|]. split.
    + by split.
    + unfold work. cbn. lia.
  - cbn [orb] in E. destruct (dg_in w) as [|[d a] l] eqn:Hin; [by rewrite bool_decide_true in E|].
    assert (a = addr) as ->.
    { eapply (packets_addr rest addr 0 (Z.to_nat sent) d). rewrite <- Hnet. rewrite !elem_of_app. right; right; left. by left. }
    assert (received < sent) as Hlt.
    { apply Permutation_length in Hnet. rewrite length_packets, !length_app in Hnet. unfold zlen in Hg. cbn in Hnet. lia. }
    destruct (receive_turn_ok resolve inet_aton o size_ok at2 (fd, addr) rb received d addr l w)
      as (buf & w1 & E1 & Hbuf & Hok1 & Hi1 & Ho1); [done|done|done|lia|lia|done|].
    rewrite (bind_Done _ _ _ _ _ E1). exists (got ++ [(d, addr)]), lost. eexists _, w1. split; [done|]. split.
    + split; cbn; try done; try lia; [rewrite zlen_app; unfold zlen at 2; cbn; lia|].
      rewrite Hi1, Ho1. rewrite <- Hnet, <- (app_assoc got). cbn [app]. by rewrite Permutation_middle.
    + unfold work. cbn. rewrite Hi1, Ho1, Hin. cbn. lia.
Qed.

Lemma network_turn i b fd rest addr got lost s w :
  threads_inv fd rest addr got lost s w -> enabled (Network i b) s w = true ->
  turn_ok (Network i b) fd rest addr got lost s w.
Proof.
  intros [Hok Hc Hsb Hr Hrb Hn Hm Hs Hrc Hg Hnet] E. cbn [enabled] in E. apply bool_decide_eq_true in E.
  destruct (lookup_lt_is_Some_2 _ _ E) as [g Ho].
  destruct (net_turn_ok i b g w Hok Ho) as (Hok1 & Ho1 & Hi1).
  destruct s as [conn st rt sending receiving]. exists got, (lost ++ if b then [] else [g]).
  eexists _, (net_turn i b w). split; [done|].
  pose proof (delete_Permutation _ _ _ Ho) as Hd. split.
  - split; try done. cbn [ut_send ut_recv]. rewrite Hi1, Ho1, <- Hnet.
    transitivity (got ++ lost ++ dg_in w ++ g :: delete i (dg_out w)); [|by rewrite <- Hd].
    destruct b; rewrite ?app_nil_r, <- ?app_assoc; cbn [app]; [done|].
    do 2 f_equiv. apply Permutation_middle.
  - apply Permutation_length in Hd. cbn in Hd. unfold work. cbn [ut_send ut_receiving].
    rewrite Hi1, Ho1, !length_app. destruct b; cbn; lia.
Qed.

Lemma enabled_turn who fd rest addr got lost s w :
  threads_inv fd rest addr got lost s w -> enabled who s w = true -> turn_ok who fd rest addr got lost s w.
Proof.
  destruct who; intros Hi He; [by apply sender_turn|by apply receiver_turn|by apply network_turn].
Qed.

(** A schedule in which every actor can take its turn when it comes. *)
Fixpoint runnable (sched : list actor) (s : UdpThreads) (w : W) : Prop :=
  match sched with
  | [] => True
  | who :: sched => enabled who s w = true /\
      match actor_turn who s w with (Done s', w') => runnable sched s' w' | _ => False end
  end.

(** How many datagrams a schedule loses. *)
Definition losses (sched : list actor) : nat := length (filter is_lost sched).

Lemma run_actors_ok sched fd rest addr : forall got lost s w,
  threads_inv fd rest addr got lost s w -> runnable sched s w ->
  exists got' lost' s' w', run_actors sched s w = (Done s', w') /\ threads_inv fd rest addr got' lost' s' w' /\
    (work s' w' + length sched + losses sched = work s w)%nat /\ length lost' = (length lost + losses sched)%nat.
Proof.
  induction sched as [|who sched IH]; intros got lost s w Hi Hf; cbn [run_actors].
  { exists got, lost, s, w. split; [done|]. split; [done|]. cbn. lia. }
  destruct Hf as [He Hf].
  destruct (enabled_turn who fd rest addr got lost s w Hi He) as (got1 & lost1 & s1 & w1 & E1 & Hi1 & Hw1 & Hl1).
  rewrite E1 in Hf. rewrite (bind_Done _ _ _ _ _ E1).
  destruct (IH got1 lost1 s1 w1 Hi1 Hf) as (got' & lost' & s' & w' & E' & Hi' & Hw' & Hl').
  exists got', lost', s', w'. split; [done|]. split; [done|]. unfold losses in *. rewrite filter_cons. cbn [length].
  destruct (is_lost who); cbn [Is_true] in *; [rewrite decide_True by done|rewrite decide_False by tauto]; cbn [length]; lia.
Qed.

(** Nobody can go on only when everything was sent and all of it was received or lost. *)
Lemma stuck_done fd rest addr got lost s w :
  threads_inv fd rest addr got lost s w -> (forall who, enabled who s w = false) ->
  ut_sending s = false /\ sd_sent (ut_send s) = so_toSend o /\
  rv_received (ut_recv s) = so_toSend o - Z.of_nat (length lost) /\
  ut_receiving s = negb (length lost =? 0)%nat.
Proof.
  intros [Hok Hc Hsb Hr Hrb Hn Hm Hs Hrc Hg Hnet] Hno.
  pose proof (Hno Sender) as E1. pose proof (Hno Receiver) as E2. pose proof (Hno (Network 0 true)) as E3.
  cbn [enabled] in *. rewrite E1 in Hs. symmetry in Hs. apply negb_false_iff, Z.eqb_eq in Hs.
  apply bool_decide_eq_false in E3. apply Permutation_length in Hnet.
  rewrite length_packets, !length_app in Hnet. unfold zlen in Hg.
  assert (ut_receiving s = false \/ ut_receiving s = true /\ rv_received (ut_recv s) <> so_toSend o /\ dg_in w = [])
    as [Erc|(Erc & Hne & Ein)].
  { destruct (ut_receiving s) eqn:Erc; [|by left]. right. cbn [andb] in E2. apply orb_false_iff in E2 as [E5 E6].
    apply Z.eqb_neq in E5. apply negb_false_iff, bool_decide_eq_true in E6. done. }
  - specialize (Hrc Erc). assert (length lost = 0%nat) as -> by lia. split_and!; try done. lia.
  - rewrite Ein in Hnet. cbn [length] in Hnet. split_and!; try done; [lia|].
    rewrite Erc. destruct (length lost); [lia|done].
Qed.

(** C15. The threads of the UDP sender that was told to send [-n] at least one packet (by
    default it never ends), on a socket that is always writable and whose calls succeed,
    over a network that loses datagrams and returns them out of order but does not
    duplicate them, in any order of the turns of the two loops and of the network. What the
    receiver counts are packets that were sent, each one once: packets received, lost and
    still on their way are together those sent. No order of turns is longer than three for
    each packet and one more. When nobody can go on, everything was sent and the receiver
    has counted all packets but the lost ones; if none was lost both threads have ended
    and [main] returns, and if any was lost [main] waits for the receiver for ever (an alarm
    of [-t] apart). *)
Theorem udp_threads_finish sched conn sendBuf recvBuf (w : W) :
  zlen sendBuf = 8 * so_size o -> zlen recvBuf = 8 * so_size o -> dg_ok w ->
  dg_in w = [] -> dg_out w = [] ->
  let s := mkUdpThreads conn (mkSendThread 1 sendBuf 0) (mkRecvThread 1 recvBuf 0) true true in
  runnable sched s w ->
  exists got lost s' w', run_actors sched s w = (Done s', w') /\
    got ++ lost ++ dg_in w' ++ dg_out w' ≡ₚ packets (zdrop 8 sendBuf) conn.2 0 (Z.to_nat (sd_sent (ut_send s'))) /\
    zlen got = rv_received (ut_recv s') /\ length lost = losses sched /\ sd_sent (ut_send s') <= so_toSend o /\
    Z.of_nat (length sched) <= 3 * so_toSend o + 1 /\
    ((forall who, enabled who s' w' = false) ->
     sd_sent (ut_send s') = so_toSend o /\
     rv_received (ut_recv s') = so_toSend o - Z.of_nat (losses sched) /\
     ut_sending s' = false /\ ut_receiving s' = negb (losses sched =? 0)%nat /\
     exists w2, sender_main_threads sched conn sendBuf recvBuf w =
       (if (losses sched =? 0)%nat then (Done tt, w2) else (NoFuel, w2))).
Proof.
  intros Hsb Hrb Hok Hin Hout s Hf.
  assert (threads_inv conn.1 (zdrop 8 sendBuf) conn.2 [] [] s w) as Hi.
  { unfold s. split; cbn; try done; try lia.
    - by destruct conn.
    - destruct (so_toSend o); done || lia.
    - by rewrite Hin, Hout. }
  destruct (run_actors_ok sched _ _ _ [] [] s w Hi Hf) as (got & lost & s' & w' & E & Hi' & Hw & Hl).
  assert (Z.of_nat (work s w) = 3 * so_toSend o + 1) as Hw0 by (unfold work, s; cbn; rewrite Hin, Hout; cbn; lia).
  exists got, lost, s', w'. split; [done|]. split; [apply Hi'|]. split; [apply Hi'|]. split; [done|].
  split; [apply Hi'|]. split; [lia|]. intros Hno. cbn in Hl.
  destruct (stuck_done _ _ _ _ _ _ _ Hi' Hno) as (E1 & E2 & E3 & E4). rewrite Hl in *. split_and!; try done.
  unfold sender_main_threads. fold s. rewrite (bind_Done _ _ _ _ _ E), E1, E4. cbn [orb].
  destruct (losses sched =? 0)%nat; cbn [negb]; [|by eexists].
  unfold io_bind, syscall. destruct (sys_call _ w') as [r w2]. by exists w2.
Qed.
End threads.

(** The network of [UdpWorld], returning what is sent. *)
#[global] Program Instance UdpWorld_echo : EchoNetwork UdpWorld := {|
  net_turn i b w := match uw_out w !! i with
                    | None => w
                    | Some g => mkUdpWorld (uw_script w) (uw_in w ++ if b then [g] else [])
                                  (delete i (uw_out w)) (uw_writable w)
                    end
|}.
Next Obligation. intros i b g w Hok Ho. cbn in *. by rewrite Ho. Qed.

(** Two packets, the second one overtakes the first. *)
Definition example_schedule : list actor :=
  [Sender; Sender; Network 1 true; Receiver; Network 0 true; Receiver; Receiver].
(** Two packets, the first one is lost. *)
Definition lossy_schedule : list actor := [Sender; Network 0 false; Sender; Network 0 true; Receiver].

Lemma udp_threads_finish_witness :
  (exists w, sender_main_threads loopback (fun _ => None) example_sender 0 example_schedule (3, [7])
    (replicate 8 0) (replicate 8 0) (udp_world []) = (Done tt, w)) /\
  exists w, sender_main_threads loopback (fun _ => None) example_sender 0 lossy_schedule (3, [7])
    (replicate 8 0) (replicate 8 0) (udp_world []) = (NoFuel, w).
Proof.
  split.
  - destruct (udp_threads_finish (W := UdpWorld) loopback (fun _ => None) example_sender 0 ltac:(cbn; lia)
      ltac:(cbn; lia) example_schedule (3, [7]) (replicate 8 0) (replicate 8 0) (udp_world []))
      as (got & lost & s' & w' & E & _ & _ & _ & _ & _ & Hend); [reflexivity..| |].
    + vm_compute. repeat split.
    + destruct Hend as (_ & _ & _ & _ & Hw); [|exact Hw].
      vm_compute in E. injection E as <- <-. intros [| |[|i] []]; reflexivity.
  - destruct (udp_threads_finish (W := UdpWorld) loopback (fun _ => None) example_sender 0 ltac:(cbn; lia)
      ltac:(cbn; lia) lossy_schedule (3, [7]) (replicate 8 0) (replicate 8 0) (udp_world []))
      as (got & lost & s' & w' & E & _ & _ & _ & _ & _ & Hend); [reflexivity..| |].
    + vm_compute. repeat split.
    + destruct Hend as (_ & _ & _ & _ & Hw); [|exact Hw].
      vm_compute in E. injection E as <- <-. intros [| |[|i] []]; reflexivity.
Defined.
